(* ===== verification/_CoqProject ===== *)
-Q . S2P
Prelude.v
JsString.v
JsValue.v
Json.v
Toml.v
World.v
Constants.v
Config.v
Artifacts.v
DeploymentUtil.v
DeploymentList.v
DeployArgs.v
FactoryState.v
Chain.v
ChainLaws.v
Hardhat.v
FactoryTasks.v
FactorySpec.v
Strangers.v
Promises.v
TaskSpec.v
MetaSpec.v
TaskErrors.v
UpgradeSpec.v
DeploySpec.v
AlicenetFactory.v
ImmutableAuth.v
TaskChain.v
StateFile.v
DeployInvariant.v
Build.v
BuildSpec.v
Scripts.v
ScriptSpec.v
HardhatConfig.v
NodeTasks.v
AlicenetTasks.v
OperationSpec.v
PoolSpec.v
ConfigTaskSpec.v
Testbed.v
Witnesses.v
OperationWitnesses.v
ScriptWitnesses.v
