(* ===== verification/Prelude.v ===== *)
(** * The bridge tooling of MadNet, verified

    MadNet's TypeScript code is the tooling of its bridge ([src/bridge/scripts]
    and [src/bridge/hardhat.config.ts]): hardhat tasks and scripts that deploy
    AliceNet's contracts through a factory contract, record what they deployed,
    operate the deployment and generate code from its artifacts.  This library
    is a shallow embedding of all of it, with the contracts the tasks drive
    (AliceNetFactory, its base and Proxy, in Solidity) as an executable state
    machine, so that a theorem can say what a task leaves on the chain.

    ** How the program is put together

    A task reads its configuration (TOML files under [scripts/base-files] or a
    folder of the user), asks hardhat's artifact store about the contracts
    (NatSpec tags of a contract's devdoc choose its deploy type, group, index and
    salt), sends transactions to the factory, reads the new addresses out of the
    events of the receipts, and appends what it deployed to the factory state
    file.  [deployContracts] does so for a whole deployment list, which
    [generateDeploymentConfigs] writes; the list is sorted by group and index.
    Two ways lead to a proxied contract: one multicall when its gas is below
    ten millions, two transactions otherwise.

    ** Files, and the code they model

    Language and environment:
    - [JsString], [JsValue]: strings, numbers, [Array.prototype.sort], values
      and objects of JavaScript as far as the scripts use them; [Json]: the
      parser [JSON.parse]; [Toml]: the TOML codec, a parameter (class [Toml])
      with its documented laws (class [TomlLaws]);
    - [World]: files, environment variables, console, and the chain's state; a
      script is a state monad with exceptions (type [M] below), and what was
      written or sent before an exception stays;
    - [Artifacts], [Hardhat]: the artifact store and the runtime environment
      (signers, contract factories, sending transactions), parameters;
    - [Chain]: accounts, nonces, balances, transactions with a bounded call
      depth, and every function of [AliceNetFactory.sol],
      [AliceNetFactoryBase.sol] and [Proxy.sol]; other contracts are a parameter
      (class [Contracts]), and so are hashes and the ABI codec (class [Evm]).

    Components:
    - [Constants] ([lib/constants.ts]), [Config]
      ([lib/deployment/deploymentConfigUtil.ts]), [DeploymentUtil]
      ([deploymentUtil.ts]), [DeploymentList] ([deploymentListUtil.ts]),
      [DeployArgs] ([deployArgUtil.ts]), [FactoryState] ([factoryStateUtil.ts]);
    - [FactoryTasks] ([lib/alicenetFactoryTasks.ts]): every task, over the
      record [TaskArgs] of its resolved arguments; [hre.run] is application;
    - [AlicenetFactory] ([lib/alicenetFactory.ts]): deploying without tasks;
    - [AlicenetTasks] and [NodeTasks] ([lib/alicenetTasks.ts]): the tasks that
      operate a network, and the three that start processes;
    - [ImmutableAuth] ([generateImmutableAuth.ts]), [Build] ([build/build.ts]),
      [Scripts] ([generateDeployList.ts], [generateDeploymentArgTemplate.ts],
      [deployAllContracts.ts], [getInitCallData.ts], [sumGasInFactoryState.ts],
      [lib/gogogen.ts]), [HardhatConfig] ([hardhat.config.ts]).
    A definition has the name of the function it models; a suffix ([_task],
    [_lib], [_util], [_main]) tells functions of the same name apart.

    ** What the theorems show

    - [ChainLaws]: whatever a transaction calls, no contract is removed or
      changes its code and nonces only grow; [FactorySpec]: what the factory's
      functions do on the states in which they succeed, who may call them, and
      when they revert; [Strangers]: what a transaction of anybody but the owner
      and the delegator cannot do to a factory, its future addresses and its
      proxies.
    - [TaskSpec], [MetaSpec], [UpgradeSpec], [DeploySpec]: each deployment task
      leaves the intended contracts, and nothing else, on the chain and in the
      state file; the multicall and its fallback agree; [deployContracts] is the
      deployment of its list one by one, and stops where one fails.
    - [TaskErrors], [UpgradeSpec]: who may use a factory and what the setters set,
      a salt is used once, a locked proxy is not upgraded, and what a refused
      transaction leaves of the chain, with estimated and with fixed gas.
    - [Promises], [TaskChain], [DeployInvariant]: the deployment as a whole, with
      no assumption on the contracts deployed or on how a task ends.  A call of
      the factory that returns has installed what its salt names; every
      deployment task only adds to the chain; after a successful
      [deployContracts], on a given factory or on one it deployed itself, every
      listed contract is at the address of its salt, the address the generated
      ImmutableAuth.sol computes for it.
    - [StateFile]: the only files a deployment touches, however it ends.
    - [DeploymentList], [DeployArgs], [FactoryState], [DeploySpec],
      [ConfigTaskSpec], [ScriptSpec]: the files written read back as what was
      written, sorted and complete, and other entries and files are kept; the
      list and the template are those of the tags and of the ABI.
    - [OperationSpec], [PoolSpec]: amounts moved, the contracts called and in
      whose name, bounds of random choices, waiting that ends and waiting that
      never ends.
    - [ImmutableAuth], [BuildSpec]: the generated sources, read line by line, hold
      one entry per contract or function, with the salts and selectors the
      chain uses.
    - [HardhatConfig]: the accounts and networks of the configuration, as a lemma.
    - Some theorems state what the code does where it does not do what it means
      to: [FactoryState.updateList_outputFolder_fails],
      [ScriptSpec.deployAllContracts_fails], [OperationSpec.fund_validator_spec],
      [OperationSpec.transferEth_spec], [OperationSpec.spamEthereum_rounds],
      [FactoryState.updateMetaList_getATokenAddress],
      [HardhatConfig.unpack_legacy_killed], [NodeTasks.fork_external_chain_never].
    [Testbed] is one concrete instance of every parameter, in which the laws
    hold together; [Witnesses], [OperationWitnesses] and [ScriptWitnesses] apply
    the theorems in it.

    ** Bounds and fuel

    - Calls nest at most 1024 deep ([Chain.CALL_DEPTH]), the EVM's own limit; a
      deeper call reverts, as it does there.
    - [Json.parse_value] has two rounds of fuel per character and two more, which
      is enough: more fuel gives the same result ([Json.json_fuel]).
    - [JsString.to_digits] has as much fuel as the number has binary digits.
    - Loops that wait ([AlicenetTasks.waitBlocks], [NodeTasks.poll]) take their
      fuel as an argument and answer [Running] when it is spent, an answer no
      handler catches.  [OperationSpec.waitBlocks_ends] and
      [NodeTasks.poll_answers] give the fuel that is enough,
      [OperationSpec.waitBlocks_never] a network for which none is.
    - Endless loops are modelled by their round ([AlicenetTasks.spam_round],
      [AlicenetTasks.gas_cost_round]).
    - JavaScript numbers are integers where the code computes with integers; a
      conversion that refuses numbers from 2^53 on ([Hardhat.toNumber]) does so.
      [JsString.parse_int] rounds to a double ([JsString.to_double]), with an
      infinity from 2^1024 on.

    ** Not modelled

    - Fees: gas is measured and recorded, not charged.  The amount of a fixed gas
      of a network's configuration: a contract's method that reverts is mined
      there, and refused by the estimate elsewhere ([Hardhat.send_method]), but
      the limit of a transaction is the block's in both cases.
    - User contracts that create contracts, destroy themselves or call back into
      a factory, and events of theirs that carry a name of the factory's
      interface: by the type of class [Contracts] there are none, and the
      theorems that quantify over user code quantify over what that type holds.
    - The order JavaScript gives a list whose comparison is inconsistent (indices
      that are no numbers): [js_sort] fixes one.
    - Interleaving with other users of the same node or files while a task runs,
      except for the blocks mined while it waits.
    - The text of stack traces, file modes, and the settings of eslint and the
      coverage tool; the type declarations without run-time content.
    - Everything that is not TypeScript: the Go node, the other Solidity
      contracts, generated bindings, and the bundled swagger interface, which is
      minified third-party code.

    This file holds what all others share: outcomes and errors, the script
    monad with its laws, loops, and the tactics that run a script symbolically. *)
From stdpp Require Export base option list gmap sets strings pretty fin_maps.
From Stdlib Require Export ZArith Lia.
From Stdlib Require Export Sorting.Permutation Sorting.Sorted.
#[export] Set Default Goal Selector "!".
#[export] Set Warnings "-notation-overridden,-clear-no-such-hyp,-register-all".

(** ** Lists *)

Lemma filter_none {A} (P : A → Prop) `{∀ x, Decision (P x)} l :
  Forall (λ x, ¬ P x) l → filter P l = [].
Proof. induction 1; [done|]. by rewrite filter_cons_False. Qed.

(** ** Errors

    [throw new Error(msg)] is [Error]; a failed property access or call of a
    value that is not a function is [TypeError]; [Rejected] is an exception or
    a rejected promise coming out of code the scripts call (fs, toml, hardhat,
    ethers, a reverted transaction).  [Running] is no exception of the program:
    it is what a loop that waits answers when the fuel it was given ran out
    before it was done, and no [try] catches it. *)
Inductive exn :=
| Error (msg : string)
| TypeError (msg : string)
| Rejected (msg : string)
| Running.

#[export] Instance exn_eq_dec : EqDecision exn.
Proof. solve_decision. Defined.

Inductive outcome (A : Type) :=
| Ok (a : A)
| Throw (e : exn).
Arguments Ok {_} _.
Arguments Throw {_} _.

#[export] Instance outcome_eq_dec {A} `{EqDecision A} : EqDecision (outcome A).
Proof. intros x y. unfold Decision. decide equality; apply decide; exact _. Defined.

#[export] Instance outcome_ret : MRet outcome := λ A a, Ok a.
#[export] Instance outcome_bind : MBind outcome := λ A B f o,
  match o with Ok a => f a | Throw e => Throw e end.
#[export] Instance outcome_fmap : FMap outcome := λ A B f o,
  match o with Ok a => Ok (f a) | Throw e => Throw e end.

Definition is_ok {A} (o : outcome A) : bool :=
  match o with Ok _ => true | Throw _ => false end.

Definition of_option {A} (e : exn) (o : option A) : outcome A :=
  match o with Some a => Ok a | None => Throw e end.

Lemma outcome_bind_ok {A B} (o : outcome A) (f : A → outcome B) b :
  o ≫= f = Ok b ↔ ∃ a, o = Ok a ∧ f a = Ok b.
Proof. destruct o; cbn; split; [eauto|by intros (? & [= ->] & ?)|done|by intros (? & ? & ?)]. Qed.

Lemma of_option_ok {A} e (o : option A) a : of_option e o = Ok a ↔ o = Some a.
Proof. destruct o; cbn; split; congruence. Qed.

(** ** Scripts

    A script over a state [S] either finishes with a value or throws; the
    state reached when it throws is kept, since what was written or sent
    before the exception stays written or sent. *)
Definition M (S A : Type) : Type := S → outcome A * S.

#[export] Instance M_ret S : MRet (M S) := λ A a s, (Ok a, s).
#[export] Instance M_bind S : MBind (M S) := λ A B f m s,
  match m s with
  | (Ok a, s') => f a s'
  | (Throw e, s') => (Throw e, s')
  end.

Definition throw {S A} (e : exn) : M S A := λ s, (Throw e, s).
Definition lift {S A} (o : outcome A) : M S A := λ s, (o, s).
Definition gets {S A} (f : S → A) : M S A := λ s, (Ok (f s), s).
Definition modify {S} (f : S → S) : M S () := λ s, (Ok tt, f s).

(** [try { m } catch (e) { h(e) }] *)
Definition try_catch {S A} (m : M S A) (h : exn → M S A) : M S A := λ s,
  match m s with
  | (Ok a, s') => (Ok a, s')
  | (Throw Running, s') => (Throw Running, s')
  | (Throw e, s') => h e s'
  end.

(** [for (const x of l) body(x)] *)
Fixpoint for_each {S A} (l : list A) (body : A → M S ()) : M S () :=
  match l with
  | [] => mret tt
  | x :: l' => _ ← body x; for_each l' body
  end.

(** A loop over [l] with a local variable [acc] the body updates. *)
Fixpoint fold_for {S A B} (l : list A) (body : B → A → M S B) (acc : B) : M S B :=
  match l with
  | [] => mret acc
  | x :: l' => acc' ← body acc x; fold_for l' body acc'
  end.

Section scripts.
Context {S : Type}.

Lemma bind_ret {A B} (a : A) (f : A → M S B) s : (mret a ≫= f) s = f a s.
Proof. done. Qed.

Lemma bind_lift_ok {A B} (a : A) (f : A → M S B) s : (lift (Ok a) ≫= f) s = f a s.
Proof. done. Qed.

Lemma bind_lift_throw {A B} e (f : A → M S B) s :
  (lift (Throw e) ≫= f) s = (Throw e, s).
Proof. done. Qed.

Lemma bind_throw {A B} e (f : A → M S B) s : (throw e ≫= f) s = (Throw e, s).
Proof. done. Qed.

Lemma bind_gets {A B} (g : S → A) (f : A → M S B) s : (gets g ≫= f) s = f (g s) s.
Proof. done. Qed.

Lemma bind_modify {B} g (f : () → M S B) s : (modify g ≫= f) s = f tt (g s).
Proof. done. Qed.

Lemma bind_ok {A B} (m : M S A) (f : A → M S B) s a s' :
  m s = (Ok a, s') → (m ≫= f) s = f a s'.
Proof. unfold mbind, M_bind. by intros ->. Qed.

Lemma bind_fail {A B} (m : M S A) (f : A → M S B) s e s' :
  m s = (Throw e, s') → (m ≫= f) s = (Throw e, s').
Proof. unfold mbind, M_bind. by intros ->. Qed.

Lemma bind_inv {A B} (m : M S A) (f : A → M S B) s b s' :
  (m ≫= f) s = (Ok b, s') → ∃ a s1, m s = (Ok a, s1) ∧ f a s1 = (Ok b, s').
Proof. unfold mbind, M_bind. destruct (m s) as [[a|e] s1]; naive_solver. Qed.

Lemma bind_assoc {A B C} (m : M S A) (f : A → M S B) (g : B → M S C) s :
  ((m ≫= f) ≫= g) s = (m ≫= λ a, f a ≫= g) s.
Proof. unfold mbind, M_bind. by destruct (m s) as [[a|e] s1]. Qed.

Lemma for_each_app {A} (l1 l2 : list A) (body : A → M S ()) s :
  for_each (l1 ++ l2) body s = (_ ← for_each l1 body; for_each l2 body) s.
Proof.
  revert s. induction l1 as [|x l1 IH]; intros s; [done|].
  cbn [for_each app]. rewrite bind_assoc. unfold mbind, M_bind.
  destruct (body x s) as [[[]|e] s1]; [apply IH|done].
Qed.

(** Invariant rule for loops: [P] holds of the part of the list done so far. *)
Lemma fold_for_app {A B} (body : B → A → M S B) l1 l2 acc s :
  fold_for (l1 ++ l2) body acc s = (fold_for l1 body acc ≫= fold_for l2 body) s.
Proof.
  revert acc s. induction l1 as [|x l1 IH]; intros acc s; cbn [fold_for app]; [done|].
  unfold mbind, M_bind in *. destruct (body acc x s) as [[b|e] s1]; [apply IH|done].
Qed.
Lemma fold_for_ind {A B} (P : list A → B → S → Prop) (body : B → A → M S B) l acc s b s' :
  P [] acc s →
  (∀ done x rest acc s b s', l = done ++ x :: rest → P done acc s →
     body acc x s = (Ok b, s') → P (done ++ [x]) b s') →
  fold_for l body acc s = (Ok b, s') → P l b s'.
Proof.
  intros H0 Hstep.
  assert (∀ rest done acc s, l = done ++ rest → P done acc s →
    fold_for rest body acc s = (Ok b, s') → P l b s') as H; [|by apply (H l [] acc s)].
  clear -Hstep. induction rest as [|x rest IH]; intros done acc s -> HP Hrun.
  - rewrite app_nil_r. injection Hrun as <- <-. exact HP.
  - cbn [fold_for] in Hrun. apply bind_inv in Hrun as (acc' & s1 & Hx & Hrun).
    eapply (IH (done ++ [x])); [by rewrite <- app_assoc| |exact Hrun].
    by eapply Hstep.
Qed.
End scripts.

(** Symbolic execution: [run_step] evaluates the statements whose result is
    known from their form, [run H] the one whose result [H] gives. *)
Create Rewrite HintDb run.
#[export] Hint Rewrite @bind_ret @bind_lift_ok @bind_lift_throw @bind_throw
  @bind_gets @bind_modify @bind_assoc : run.
Ltac run_step := autorewrite with run; cbn beta iota.
Ltac run H := first [rewrite (bind_ok _ _ _ _ _ H) | erewrite (bind_ok _ _ _ _ _ H)
                    | rewrite (bind_fail _ _ _ _ _ H)]; cbn beta iota.
Ltac inv_bind H :=
  let a := fresh "a" in let s := fresh "s" in let H1 := fresh "Hm" in
  apply bind_inv in H as (a & s & H1 & H).
