(* ===== verification/JsString.v ===== *)
(** * JavaScript string and number primitives

    The part of the language's own library the scripts use: [String]
    methods, the three regular expressions they replace with, [parseInt],
    [Number.prototype.toString] and [Array.prototype.sort].  A string is a
    list of ASCII characters: every string the scripts build or compare
    (paths, contract names, hex data) is ASCII. *)
From S2P Require Import Prelude.
From Stdlib Require Export Ascii.
#[global] Arguments String.append !s1 s2 : simpl nomatch.

(** The line feed that ends a line. *)
Definition LF : string := String "010" EmptyString.

Fixpoint chars (s : string) : list ascii :=
  match s with EmptyString => [] | String c s => c :: chars s end.
Fixpoint of_chars (l : list ascii) : string :=
  match l with [] => EmptyString | c :: l => String c (of_chars l) end.

(** [s.split(c)] for a one-character separator. *)
Fixpoint split (sep : ascii) (s : string) : list string :=
  match s with
  | EmptyString => [EmptyString]
  | String c s' =>
      if decide (c = sep) then EmptyString :: split sep s'
      else match split sep s' with
           | [] => [String c EmptyString]
           | w :: ws => String c w :: ws
           end
  end.

(** [l.join(sep)]; [l.toString()] is [l.join(",")]. *)
Fixpoint join (sep : string) (l : list string) : string :=
  match l with
  | [] => EmptyString
  | [w] => w
  | w :: ws => (w +:+ sep +:+ join sep ws)%string
  end.

(** [\s] on ASCII: tab, line feed, vertical tab, form feed, carriage return, space. *)
Definition is_space (c : ascii) : bool :=
  let n := nat_of_ascii c in ((9 <=? n)%nat && (n <=? 13)%nat) || (n =? 32)%nat.

(** [s.replace(/\s+/g, "")] *)
Fixpoint remove_spaces (s : string) : string :=
  match s with
  | EmptyString => EmptyString
  | String c s' => if is_space c then remove_spaces s' else String c (remove_spaces s')
  end.

(** [s.replace(/\/+$/, "")] *)
Fixpoint strip_trailing_slashes (s : string) : string :=
  match s with
  | EmptyString => EmptyString
  | String c s' =>
      match strip_trailing_slashes s' with
      | EmptyString => if decide (c = "/"%char) then EmptyString else String c EmptyString
      | t => String c t
      end
  end.

(** [s.slice(n)] *)
Fixpoint slice (n : nat) (s : string) : string :=
  match n, s with
  | O, _ => s
  | S n, String _ s' => slice n s'
  | S _, EmptyString => EmptyString
  end.

(** [s.slice(0, n)] *)
Fixpoint slice_to (n : nat) (s : string) : string :=
  match n, s with
  | S n, String c s' => String c (slice_to n s')
  | _, _ => EmptyString
  end.

(** [s.startsWith(p)] and [s.endsWith(p)] *)
Definition starts_with (p s : string) : bool := String.prefix p s.
Definition ends_with (p s : string) : bool :=
  bool_decide (slice (String.length s - String.length p) s = p).

(** [s.replace(p, r)] with a string pattern: the first occurrence only. *)
Fixpoint replace_first (p r s : string) : string :=
  if starts_with p s then (r +:+ slice (String.length p) s)%string
  else match s with
       | EmptyString => EmptyString
       | String c s' => String c (replace_first p r s')
       end.

Definition lower_char (c : ascii) : ascii :=
  let n := nat_of_ascii c in
  if (65 <=? n)%nat && (n <=? 90)%nat then ascii_of_nat (n + 32) else c.
Definition upper_char (c : ascii) : ascii :=
  let n := nat_of_ascii c in
  if (97 <=? n)%nat && (n <=? 122)%nat then ascii_of_nat (n - 32) else c.
Fixpoint to_upper (s : string) : string :=
  match s with EmptyString => EmptyString | String c s => String (upper_char c) (to_upper s) end.
Fixpoint to_lower (s : string) : string :=
  match s with EmptyString => EmptyString | String c s => String (lower_char c) (to_lower s) end.
(** [s.charAt(0)] *)
Definition char_at0 (s : string) : string :=
  match s with EmptyString => EmptyString | String c _ => String c EmptyString end.

(** ** Numbers *)

(** A JS number as far as the scripts compute with one: an integer, an infinity
    or NaN. *)
Inductive jsnum :=
| JInt (z : Z)
| JInf (negative : bool)
| JNaN.
#[export] Instance jsnum_eq_dec : EqDecision jsnum.
Proof. solve_decision. Defined.

(** The double next to an integer, ties to the even one; from 2^1024 on there
    is none. *)
Definition to_double (z : Z) : jsnum :=
  let a := Z.abs z in
  if (a <? 2 ^ 53)%Z then JInt z
  else
    let ulp := (2 ^ (Z.log2 a - 52))%Z in
    let q := (a / ulp)%Z in
    let r := (a mod ulp)%Z in
    let m := if (2 * r <? ulp)%Z || ((2 * r =? ulp)%Z && Z.even q) then q else (q + 1)%Z in
    if (m * ulp <? 2 ^ 1024)%Z then JInt (Z.sgn z * (m * ulp)) else JInf (z <? 0)%Z.

Definition num_sub (a b : jsnum) : jsnum :=
  match a, b with
  | JInt x, JInt y => JInt (x - y)
  | JInf x, JInt _ => JInf x
  | JInt _, JInf y => JInf (negb y)
  | JInf x, JInf y => if decide (x = y) then JNaN else JInf x
  | _, _ => JNaN
  end.
Definition num_lt0 (a : jsnum) : bool :=
  match a with JInt x => (x <? 0)%Z | JInf negative => negative | JNaN => false end.

Definition digit_value (c : ascii) : option Z :=
  let n := Z.of_nat (nat_of_ascii c) in
  if decide (48 ≤ n ≤ 57)%Z then Some (n - 48)%Z
  else if decide (97 ≤ n ≤ 122)%Z then Some (n - 87)%Z
  else if decide (65 ≤ n ≤ 90)%Z then Some (n - 55)%Z
  else None.

(** The longest prefix of digits of base [radix]: its value, if it is not empty. *)
Fixpoint digits (radix : Z) (acc : option Z) (s : string) : option Z :=
  match s with
  | EmptyString => acc
  | String c s' =>
      match digit_value c with
      | Some d =>
          if (d <? radix)%Z then digits radix (Some (default 0 acc * radix + d))%Z s' else acc
      | None => acc
      end
  end.

Fixpoint skip_spaces (s : string) : string :=
  match s with
  | String c s' => if is_space c then skip_spaces s' else s
  | EmptyString => EmptyString
  end.

Definition has_hex_prefix (s : string) : bool := starts_with "0x" s || starts_with "0X" s.

(** [parseInt(s, radix)], which gives a double; [None] is a missing radix (10, or 16 after [0x]). *)
Definition parse_int (radix : option Z) (s : string) : jsnum :=
  let s := skip_spaces s in
  let '(sign, s) :=
    match s with
    | String "-" s' => ((-1)%Z, s')
    | String "+" s' => (1%Z, s')
    | _ => (1%Z, s)
    end in
  let '(r, s) :=
    match radix with
    | None => if has_hex_prefix s then (16%Z, slice 2 s) else (10%Z, s)
    | Some r => if (r =? 16)%Z && has_hex_prefix s then (16%Z, slice 2 s) else (r, s)
    end in
  match digits r None s with
  | Some n => to_double (sign * n)
  | None => JNaN
  end.

Definition digit_char (d : Z) : ascii :=
  ascii_of_nat (Z.to_nat (if (d <? 10)%Z then d + 48 else d + 87)).

Fixpoint to_digits (fuel : nat) (radix n : Z) (acc : string) : string :=
  match fuel with
  | O => acc
  | S fuel =>
      let acc := String (digit_char (n mod radix)) acc in
      if (n / radix =? 0)%Z then acc else to_digits fuel radix (n / radix) acc
  end.

(** [n.toString(radix)], 2 <= radix <= 36: the number of binary digits of [n]
    bounds the number of its digits in any of those bases. *)
Definition num_to_string (radix n : Z) : string :=
  if (n <? 0)%Z then String "-" (to_digits (S (Z.to_nat (Z.log2 (-n)))) radix (-n) "")
  else to_digits (S (Z.to_nat (Z.log2 n))) radix n "".

Example parse_int_dec : parse_int None " 12px" = JInt 12. Proof. reflexivity. Qed.
Example parse_int_hex : parse_int (Some 16%Z) "10" = JInt 16. Proof. reflexivity. Qed.
Example parse_int_neg : parse_int None "-0x1f" = JInt (-31). Proof. reflexivity. Qed.
Example parse_int_nan : parse_int None "abc" = JNaN. Proof. reflexivity. Qed.
Example parse_int_ties : parse_int (Some 10%Z) "9007199254740993" = JInt 9007199254740992.
Proof. reflexivity. Qed.
Example parse_int_up : parse_int (Some 10%Z) "-9007199254740995" = JInt (-9007199254740996).
Proof. reflexivity. Qed.
Example to_double_inf : to_double (-(2 ^ 1024)) = JInf true. Proof. vm_compute. reflexivity. Qed.
Example to_hex : num_to_string 16 255 = "ff". Proof. reflexivity. Qed.
Example to_dec0 : num_to_string 10 0 = "0". Proof. reflexivity. Qed.

(** ** [Array.prototype.sort]

    The comparator's result is only tested for being negative; the sort is
    stable (ES2019), so inserting each element after the ones it does not
    precede gives the result for every consistent comparator. *)
Section sort.
Context {A : Type} (cmp : A → A → jsnum).

Fixpoint sort_insert (x : A) (l : list A) : list A :=
  match l with
  | [] => [x]
  | y :: l' => if num_lt0 (cmp x y) then x :: l else y :: sort_insert x l'
  end.
Definition js_sort (l : list A) : list A := foldl (λ acc x, sort_insert x acc) [] l.
End sort.

(** ** Laws of the string operations *)

Definition free_of (c : ascii) (s : string) : Prop := c ∉ chars s.
#[export] Instance free_of_dec c s : Decision (free_of c s).
Proof. unfold free_of. apply _. Defined.

Definition no_space (s : string) : Prop := Forall (λ c, is_space c = false) (chars s).
#[export] Instance no_space_dec s : Decision (no_space s).
Proof. unfold no_space. apply _. Defined.

Lemma string_app_nil_r (s : string) : (s +:+ "")%string = s.
Proof. induction s as [|c s IH]; [done|]. cbn. by rewrite IH. Qed.

Lemma string_app_assoc (a b c : string) : ((a +:+ b) +:+ c = a +:+ (b +:+ c))%string.
Proof. induction a as [|x a IH]; [done|]. cbn. by rewrite IH. Qed.

Lemma chars_app s t : chars (s +:+ t)%string = chars s ++ chars t.
Proof. induction s as [|c s IH]; [done|]. cbn. by rewrite IH. Qed.

(** A literal is free of a character by looking at it. *)
Ltac literal_free := by apply (bool_decide_unpack (free_of _ _)); vm_compute.
Lemma free_of_app c s t : free_of c (s +:+ t)%string ↔ free_of c s ∧ free_of c t.
Proof. unfold free_of. rewrite chars_app. set_solver. Qed.
Lemma split_cons sep s : ∃ w ws, split sep s = w :: ws.
Proof.
  induction s as [|c s (w & ws & IH)]; [by eexists _, _|]. cbn.
  case_decide; [by eexists _, _|]. rewrite IH. by eexists _, _.
Qed.

Lemma join_cons sep w l : l ≠ [] → join sep (w :: l) = (w +:+ sep +:+ join sep l)%string.
Proof. by destruct l. Qed.

Lemma split_free sep s : free_of sep s → split sep s = [s].
Proof.
  unfold free_of. induction s as [|c s IH]; [done|]. cbn. intros H.
  rewrite decide_False by set_solver. by rewrite IH by set_solver.
Qed.

Lemma split_app sep w s :
  free_of sep w → split sep (w +:+ String sep s)%string = w :: split sep s.
Proof.
  unfold free_of. induction w as [|c w IH]; cbn; intros H.
  - by rewrite decide_True.
  - rewrite decide_False by set_solver. by rewrite IH by set_solver.
Qed.

Lemma split_app_sep sep s t :
  split sep (s +:+ String sep t)%string = split sep s ++ split sep t.
Proof.
  induction s as [|c s IH]; cbn.
  - by rewrite decide_True.
  - case_decide; rewrite IH; [done|]. destruct (split_cons sep s) as (w & ws & ->). done.
Qed.

(** Splitting undoes joining when no piece holds the separator. *)
Lemma split_join sep (l : list string) :
  l ≠ [] → Forall (free_of sep) l → split sep (join (String sep "") l) = l.
Proof.
  induction l as [|w [|w' l] IH]; intros Hne Hl; [done|..]; apply Forall_cons in Hl as [Hw Hl].
  - cbn. by apply split_free.
  - change (join (String sep "") (w :: w' :: l))
      with (w +:+ String sep (join (String sep "") (w' :: l)))%string.
    rewrite split_app by done. by rewrite IH.
Qed.

(** Joining undoes splitting, always. *)
Lemma join_split sep s : join (String sep "") (split sep s) = s.
Proof.
  induction s as [|c s IH]; [done|]. cbn.
  destruct (split_cons sep s) as (w & ws & Hs). rewrite Hs in *.
  case_decide as Hc.
  - subst c. change (String sep (join (String sep "") (w :: ws)) = String sep s). by rewrite IH.
  - destruct ws; cbn in *; by rewrite <- IH.
Qed.

Lemma split_free_all sep s : Forall (free_of sep) (split sep s).
Proof.
  induction s as [|c s IH]; cbn; [repeat constructor; apply not_elem_of_nil|].
  case_decide; [constructor; [apply not_elem_of_nil|done]|].
  destruct (split_cons sep s) as (w & ws & Hs). rewrite Hs in *.
  apply Forall_cons in IH as [Hw Hws]. constructor; [|done].
  apply not_elem_of_cons; auto.
Qed.

Lemma remove_spaces_id s : no_space s → remove_spaces s = s.
Proof.
  unfold no_space. induction s as [|c s IH]; [done|]. cbn. intros [Hc Hs]%Forall_cons.
  rewrite Hc. by rewrite IH.
Qed.

Lemma remove_spaces_app s t :
  remove_spaces (s +:+ t)%string = (remove_spaces s +:+ remove_spaces t)%string.
Proof. induction s as [|c s IH]; [done|]. cbn. rewrite IH. by destruct (is_space c). Qed.

Lemma no_space_app s t : no_space (s +:+ t)%string ↔ no_space s ∧ no_space t.
Proof. unfold no_space. by rewrite chars_app, Forall_app. Qed.

Lemma join_no_space sep l :
  no_space sep → Forall no_space l → no_space (join sep l).
Proof.
  intros Hsep. induction l as [|w [|w' l] IH]; intros Hl.
  - constructor.
  - apply Forall_cons in Hl as [Hw _]. exact Hw.
  - apply Forall_cons in Hl as [Hw Hl]. change (no_space (w +:+ (sep +:+ join sep (w' :: l)))%string).
    rewrite !no_space_app. auto.
Qed.

Definition ends_in_slash (s : string) : bool :=
  match last (chars s) with Some c => bool_decide (c = "/"%char) | None => false end.

Lemma strip_trailing_slashes_end s : ends_in_slash (strip_trailing_slashes s) = false.
Proof.
  induction s as [|c s IH]; [done|]. cbn.
  destruct (strip_trailing_slashes s) as [|c' t]; [|exact IH].
  case_decide; [done|]. cbn. by rewrite bool_decide_eq_false_2.
Qed.

Lemma strip_trailing_slashes_id s :
  ends_in_slash s = false → strip_trailing_slashes s = s.
Proof.
  induction s as [|c [|c' s] IH]; [done|..].
  - cbn. intros H. case_decide; [subst; done|done].
  - intros H. change (strip_trailing_slashes (String c (String c' s)))
      with (match strip_trailing_slashes (String c' s) with
            | EmptyString => if decide (c = "/"%char) then EmptyString else String c EmptyString
            | t => String c t end).
    by rewrite IH.
Qed.

Lemma slice_length s t : slice (String.length s) (s +:+ t)%string = t.
Proof. induction s as [|c s IH]; [done|]. exact IH. Qed.

Lemma starts_with_char_app c s t :
  s ≠ "" → starts_with (String c "") (s +:+ t)%string = starts_with (String c "") s.
Proof.
  destruct s as [|c' s]; [done|]. intros _. unfold starts_with. cbn.
  destruct (ascii_dec c c'); [|done]. by destruct s, t.
Qed.

Lemma starts_with_app s t : starts_with s (s +:+ t)%string = true.
Proof.
  unfold starts_with. induction s as [|c s IH]; [by destruct t|]. cbn.
  destruct (ascii_dec c c); [exact IH|done].
Qed.

(** ** Laws of the number conversions *)

Lemma digit_value_char d : (0 ≤ d < 36)%Z → digit_value (digit_char d) = Some d.
Proof.
  intros Hd.
  assert (forallb (λ n, bool_decide (digit_value (digit_char (Z.of_nat n)) = Some (Z.of_nat n)))
    (seq 0 36) = true) as H by (vm_compute; reflexivity).
  rewrite forallb_forall in H. specialize (H (Z.to_nat d)).
  rewrite Z2Nat.id in H by lia. eapply bool_decide_eq_true, H, in_seq. lia.
Qed.

Lemma digits_to_digits fuel radix n a acc :
  (2 ≤ radix ≤ 36)%Z → (0 ≤ n < radix ^ Z.of_nat fuel)%Z → fuel ≠ 0 →
  ∃ k, digits radix a (to_digits fuel radix n acc)
       = digits radix (Some (default 0 a * radix ^ k + n))%Z acc ∧ (0 ≤ k)%Z.
Proof.
  intros Hr. revert n a acc. induction fuel as [|fuel IH]; intros n a acc Hn Hf; [done|].
  assert (0 ≤ n mod radix < radix)%Z as Hm by (apply Z.mod_pos_bound; lia).
  pose proof (Z.div_mod n radix ltac:(lia)) as Hdm.
  assert (∀ b, digits radix b (String (digit_char (n mod radix)) acc)
    = digits radix (Some (default 0 b * radix + n mod radix))%Z acc) as Hstep.
  { intros b. cbn. rewrite digit_value_char by lia.
    by rewrite (proj2 (Z.ltb_lt (n mod radix) radix)) by lia. }
  cbn [to_digits]. destruct (Z.eqb_spec (n / radix) 0) as [H0|H0].
  - exists 1%Z. split; [|lia]. rewrite Hstep, Z.pow_1_r. do 2 f_equal. lia.
  - assert (fuel ≠ 0) as Hf'.
    { intros ->. change (Z.of_nat 1) with 1%Z in Hn. rewrite Z.pow_1_r in Hn.
      rewrite Z.div_small in H0; lia. }
    rewrite Nat2Z.inj_succ, Z.pow_succ_r in Hn by lia.
    assert (0 ≤ n / radix < radix ^ Z.of_nat fuel)%Z as Hq.
    { split; [apply Z.div_pos; lia|apply Z.div_lt_upper_bound; lia]. }
    destruct (IH (n / radix)%Z a (String (digit_char (n mod radix)) acc) Hq Hf')
      as (k & -> & Hk).
    exists (k + 1)%Z. split; [|lia]. rewrite Hstep, Z.pow_add_r, Z.pow_1_r by lia.
    do 2 f_equal. cbn [default from_option id]. lia.
Qed.

Lemma log2_fuel radix n :
  (2 ≤ radix)%Z → (0 ≤ n)%Z → (n < radix ^ Z.of_nat (S (Z.to_nat (Z.log2 n))))%Z.
Proof.
  intros Hr Hn. rewrite Nat2Z.inj_succ, Z2Nat.id by apply Z.log2_nonneg.
  apply Z.lt_le_trans with (2 ^ Z.succ (Z.log2 n))%Z.
  - destruct (decide (n = 0%Z)) as [->|]; [done|]. apply Z.log2_spec. lia.
  - apply Z.pow_le_mono_l. pose proof (Z.log2_nonneg n). lia.
Qed.

(** The digits [n.toString(radix)] prints read back as [n]. *)
Lemma digits_num_to_string radix n :
  (2 ≤ radix ≤ 36)%Z → (0 ≤ n)%Z → digits radix None (num_to_string radix n) = Some n.
Proof.
  intros Hr Hn. unfold num_to_string. rewrite (proj2 (Z.ltb_ge n 0)) by lia.
  destruct (digits_to_digits (S (Z.to_nat (Z.log2 n))) radix n None "") as (k & Heq & _).
  - done.
  - split; [done|]. apply log2_fuel; lia.
  - done.
  - rewrite Heq. done.
Qed.

Lemma skip_spaces_0x s : skip_spaces ("0x" +:+ s)%string = ("0x" +:+ s)%string.
Proof. done. Qed.

(** [parseInt("0x" + n.toString(16), 16)] is [n], for a safe integer. *)
Lemma to_double_safe z : (Z.abs z < 2 ^ 53)%Z → to_double z = JInt z.
Proof. intros Hz. unfold to_double. by rewrite (proj2 (Z.ltb_lt _ _) Hz). Qed.
Lemma parse_int_hex_string n :
  (0 ≤ n < 2 ^ 53)%Z → parse_int (Some 16%Z) ("0x" +:+ num_to_string 16 n)%string = JInt n.
Proof.
  intros Hn. unfold parse_int. rewrite skip_spaces_0x. cbn -[num_to_string digits].
  change (has_hex_prefix _) with (starts_with "0x" ("0x" +:+ num_to_string 16 n) || starts_with "0X" ("0x" +:+ num_to_string 16 n)).
  rewrite starts_with_app. cbn -[num_to_string digits].
  rewrite digits_num_to_string by lia. rewrite to_double_safe by lia. f_equal. lia.
Qed.

(** ** Laws of the sort *)

Lemma sort_insert_any_perm {A} (c : A → A → jsnum) x l : sort_insert c x l ≡ₚ x :: l.
Proof.
  induction l as [|y l IH]; [done|]. cbn. case_match; [done|].
  rewrite IH. apply Permutation_swap.
Qed.

(** Whatever the comparator, sorting rearranges the array. *)
Lemma js_sort_any_perm {A} (c : A → A → jsnum) l : js_sort c l ≡ₚ l.
Proof.
  unfold js_sort. induction l as [|x l IH] using rev_ind; [done|].
  rewrite foldl_app. cbn. rewrite sort_insert_any_perm, IH. apply Permutation_cons_append.
Qed.

Lemma js_sort_elem {A} (c : A → A → jsnum) l y : y ∈ js_sort c l ↔ y ∈ l.
Proof. by rewrite js_sort_any_perm. Qed.

(** Only the comparisons between elements of the array matter. *)
Lemma sort_insert_ext {A} (c c' : A → A → jsnum) x l :
  (∀ y, y ∈ l → c x y = c' x y) → sort_insert c x l = sort_insert c' x l.
Proof.
  induction l as [|y l IH]; intros Hc; [done|]. cbn.
  rewrite Hc by set_solver. case_match; [done|]. f_equal. apply IH. set_solver.
Qed.

Lemma js_sort_ext {A} (c c' : A → A → jsnum) l :
  (∀ x y, x ∈ l → y ∈ l → c x y = c' x y) → js_sort c l = js_sort c' l.
Proof.
  unfold js_sort. induction l as [|x l IH] using rev_ind; [done|]. intros Hc.
  rewrite !foldl_app. cbn. rewrite IH by (intros; apply Hc; set_solver).
  apply sort_insert_ext. intros y Hy%js_sort_elem. apply Hc; set_solver.
Qed.

Section sort_laws.
Context {A : Type} (key : A → Z).
Let cmp (x y : A) : jsnum := num_sub (JInt (key x)) (JInt (key y)).
Let le_key (x y : A) : Prop := (key x ≤ key y)%Z.

Lemma js_sort_snoc (c : A → A → jsnum) l x : js_sort c (l ++ [x]) = sort_insert c x (js_sort c l).
Proof. unfold js_sort. by rewrite foldl_app. Qed.

Lemma js_sort_perm l : js_sort cmp l ≡ₚ l.
Proof. apply js_sort_any_perm. Qed.

Lemma sort_insert_sorted x l :
  StronglySorted le_key l → StronglySorted le_key (sort_insert cmp x l).
Proof.
  induction 1 as [|y l Hl IH Hy]; [repeat constructor|]. cbn.
  destruct (Z.ltb_spec (key x - key y) 0) as [Hlt|Hge].
  - constructor; [by constructor|]. constructor; [unfold le_key; lia|].
    eapply Forall_impl; [exact Hy|]. unfold le_key. intros z ?. lia.
  - constructor; [done|]. rewrite sort_insert_any_perm. constructor; [unfold le_key; lia|done].
Qed.

Lemma js_sort_sorted l : StronglySorted le_key (js_sort cmp l).
Proof.
  induction l as [|x l IH] using rev_ind; [constructor|].
  rewrite js_sort_snoc. by apply sort_insert_sorted.
Qed.

Lemma sort_insert_filter_eq x l k :
  key x = k → StronglySorted le_key l →
  filter (λ y, key y = k) (sort_insert cmp x l) = filter (λ y, key y = k) l ++ [x].
Proof.
  intros Hk. induction 1 as [|y l Hl IH Hy]; cbn [sort_insert].
  - by rewrite filter_cons_True.
  - change (num_lt0 (cmp x y)) with (key x - key y <? 0)%Z. destruct (Z.ltb_spec (key x - key y) 0) as [Hlt|Hge].
    + rewrite filter_cons_True by done. rewrite filter_cons_False by lia.
      assert (filter (λ y, key y = k) l = []) as ->; [|done].
      apply filter_none. eapply Forall_impl; [exact Hy|].
      unfold le_key. intros z ?. lia.
    + rewrite !filter_cons. case_decide; by rewrite IH.
Qed.

Lemma sort_insert_filter_ne x l k :
  key x ≠ k → filter (λ y, key y = k) (sort_insert cmp x l) = filter (λ y, key y = k) l.
Proof.
  intros Hk. induction l as [|y l IH]; cbn [sort_insert].
  - by rewrite filter_cons_False.
  - case_match; rewrite ?filter_cons, ?IH; repeat case_decide; congruence.
Qed.

(** Stability: elements with equal keys keep their order. *)
Lemma js_sort_stable l k :
  filter (λ y, key y = k) (js_sort cmp l) = filter (λ y, key y = k) l.
Proof.
  induction l as [|x l IH] using rev_ind; [done|]. rewrite js_sort_snoc, filter_app.
  destruct (decide (key x = k)) as [Hk|Hk].
  - rewrite sort_insert_filter_eq, IH by (done || apply js_sort_sorted).
    by rewrite (filter_cons_True _ x []).
  - rewrite sort_insert_filter_ne, IH by done.
    by rewrite filter_cons_False, filter_nil, app_nil_r.
Qed.
End sort_laws.
