(* ===== verification/JsValue.v ===== *)
(** * JavaScript values and objects

    The values the scripts handle without a static type: what TOML files
    parse to and what they are written from.  An object is the list of its own
    properties in creation order.  Reading a property an object does not own
    falls back to [Object.prototype], as it does for the [any]-typed
    configuration objects. *)
From S2P Require Import Prelude JsString.

(** ** Dictionaries: objects used as maps, in creation order of their keys *)
Definition dict (A : Type) : Type := list (string * A).

Fixpoint dget {A} (k : string) (d : dict A) : option A :=
  match d with
  | [] => None
  | (k', a) :: d' => if decide (k' = k) then Some a else dget k d'
  end.

Fixpoint dset {A} (k : string) (a : A) (d : dict A) : dict A :=
  match d with
  | [] => [(k, a)]
  | (k', a') :: d' => if decide (k' = k) then (k', a) :: d' else (k', a') :: dset k a d'
  end.

(** An array-index key: the canonical decimal form of an integer below 2^32 - 1. *)
Definition array_index (k : string) : option Z :=
  match digits 10 None k with
  | Some n =>
      if decide (num_to_string 10 n = k ∧ n < 4294967295)%Z then Some n else None
  | None => None
  end.

(** The keys [for (k in d)] and [Object.keys(d)] visit: array indices in
    ascending order, then the other keys in creation order. *)
Definition own_keys {A} (d : dict A) : list string :=
  let ks := d.*1 in
  let idx := filter (λ k, is_Some (array_index k)) ks in
  js_sort (λ a b, num_sub (JInt (default 0%Z (array_index a))) (JInt (default 0%Z (array_index b)))) idx
  ++ filter (λ k, ¬ is_Some (array_index k)) ks.

Section dict_laws.
Context {A : Type}.
Implicit Types d : dict A.

Lemma dget_dset_eq k (a : A) d : dget k (dset k a d) = Some a.
Proof.
  induction d as [|[k' a'] d IH]; cbn; [by rewrite decide_True|].
  destruct (decide (k' = k)) as [->|Hne]; cbn; [by rewrite decide_True|].
  by rewrite decide_False.
Qed.

Lemma dget_dset_ne k k' (a : A) d : k ≠ k' → dget k (dset k' a d) = dget k d.
Proof.
  intros Hk. induction d as [|[k1 a1] d IH]; cbn; [by rewrite decide_False|].
  repeat (case_decide; subst; cbn); congruence.
Qed.

Lemma dset_keys k (a : A) d :
  (dset k a d).*1 = if decide (k ∈ d.*1) then d.*1 else d.*1 ++ [k].
Proof.
  induction d as [|[k1 a1] d IH]; cbn.
  - rewrite decide_False by apply not_elem_of_nil. done.
  - destruct (decide (k1 = k)) as [->|Hne]; cbn.
    + rewrite decide_True by left. done.
    + rewrite IH. repeat case_decide; set_solver.
Qed.

Lemma dget_None k d : dget k d = None ↔ k ∉ d.*1.
Proof.
  induction d as [|[k1 a1] d IH]; cbn; [split; [intros; apply not_elem_of_nil|done]|].
  rewrite not_elem_of_cons. case_decide; naive_solver.
Qed.

Lemma dget_elem k (a : A) d : dget k d = Some a → (k, a) ∈ d.
Proof.
  induction d as [|[k1 a1] d IH]; [done|]. cbn. case_decide.
  - subst. intros [= ->]. by left.
  - intros ?. right. by apply IH.
Qed.

Lemma dset_nodup k (a : A) d : NoDup d.*1 → NoDup (dset k a d).*1.
Proof.
  intros H. rewrite dset_keys. case_decide; [done|].
  apply NoDup_app. repeat split; [done|set_solver|apply NoDup_singleton].
Qed.

Lemma dget_map {B} (f : string → A → B) k d :
  dget k (map (λ kv, (kv.1, f kv.1 kv.2)) d) = f k <$> dget k d.
Proof.
  induction d as [|[k1 a1] d IH]; [done|]. cbn. case_decide; [by subst|done].
Qed.

(** Reading every key in turn gives the values. *)
Lemma dget_all d : NoDup d.*1 → map (λ k, dget k d) d.*1 = map Some d.*2.
Proof.
  induction d as [|[k1 a1] d IH]; [done|]. cbn [fmap list_fmap map fst snd].
  intros [Hk Hd]%NoDup_cons. cbn [dget]. rewrite decide_True by done. f_equal.
  rewrite <- IH by done. apply map_ext_in. intros k Hin%list_elem_of_In.
  rewrite decide_False; [done|]. by intros ->.
Qed.

(** The enumeration visits every own key, once. *)
Lemma own_keys_perm d : own_keys d ≡ₚ d.*1.
Proof.
  unfold own_keys.
  rewrite (js_sort_perm (λ k, default 0%Z (array_index k))).
  induction d.*1 as [|k ks IH]; [done|].
  rewrite !filter_cons. case_decide.
  - rewrite decide_False by tauto. cbn. by rewrite IH.
  - rewrite decide_True by tauto. rewrite <- Permutation_middle. by rewrite IH.
Qed.

Lemma own_keys_names d :
  Forall (λ k, array_index k = None) d.*1 → own_keys d = d.*1.
Proof.
  intros H. unfold own_keys. rewrite filter_none.
  - cbn. induction H as [|k ks Hk Hks IH]; [done|].
    rewrite filter_cons_True by (rewrite Hk; by intros [? [=]]). by rewrite IH.
  - eapply Forall_impl; [exact H|]. intros k ->. by intros [? [=]].
Qed.
End dict_laws.

(** ** Values *)
Inductive value :=
| VUndef
| VNull
| VBool (b : bool)
| VNum (n : Z)
| VStr (s : string)
| VBig (n : Z)               (** an ethers [BigNumber] *)
| VArr (l : list value)
| VObj (p : dict value)
| VFun (name : string).      (** a builtin function, known by its name *)

Section value_ind'.
Variable P : value → Prop.
Hypothesis Hundef : P VUndef.
Hypothesis Hnull : P VNull.
Hypothesis Hbool : ∀ b, P (VBool b).
Hypothesis Hnum : ∀ n, P (VNum n).
Hypothesis Hstr : ∀ s, P (VStr s).
Hypothesis Hbig : ∀ n, P (VBig n).
Hypothesis Harr : ∀ l, Forall P l → P (VArr l).
Hypothesis Hobj : ∀ p, Forall (λ kv, P kv.2) p → P (VObj p).
Hypothesis Hfun : ∀ f, P (VFun f).

Fixpoint value_ind' (v : value) : P v :=
  match v with
  | VUndef => Hundef | VNull => Hnull | VBool b => Hbool b | VNum n => Hnum n
  | VStr s => Hstr s | VBig n => Hbig n | VFun f => Hfun f
  | VArr l => Harr l ((fix go l : Forall P l :=
      match l with [] => Forall_nil_2 _ | x :: l => Forall_cons_2 _ _ _ (value_ind' x) (go l) end) l)
  | VObj p => Hobj p ((fix go p : Forall (λ kv, P kv.2) p :=
      match p with
      | [] => Forall_nil_2 _
      | (k, x) :: p => Forall_cons_2 _ (k, x) _ (value_ind' x) (go p)
      end) p)
  end.
End value_ind'.

Definition is_undefined (v : value) : bool := match v with VUndef => true | _ => false end.

(** Members of [Object.prototype] (an own property of the same name hides them). *)
Definition object_prototype : list string :=
  ["constructor"; "toString"; "toLocaleString"; "valueOf"; "hasOwnProperty"; "isPrototypeOf";
   "propertyIsEnumerable"; "__defineGetter__"; "__defineSetter__"; "__lookupGetter__";
   "__lookupSetter__"; "__proto__"].
(** Own members of the builtin [Object] function itself, which is what
    [{}.constructor] gives. *)
Definition object_statics : list string :=
  ["length"; "name"; "prototype"; "assign"; "getOwnPropertyDescriptor"; "getOwnPropertyDescriptors";
   "getOwnPropertyNames"; "getOwnPropertySymbols"; "is"; "preventExtensions"; "seal"; "create";
   "defineProperties"; "defineProperty"; "freeze"; "getPrototypeOf"; "setPrototypeOf";
   "isExtensible"; "isFrozen"; "isSealed"; "keys"; "entries"; "fromEntries"; "values"; "hasOwn";
   "apply"; "bind"; "call"; "arguments"; "caller"].

Definition inherited (k : string) : value :=
  if decide (k ∈ object_prototype) then VFun k else VUndef.

(** [v[k]] *)
Definition get (k : string) (v : value) : outcome value :=
  match v with
  | VUndef | VNull => Throw (TypeError ("Cannot read properties of undefined (reading " +:+ k +:+ ")"))
  | VObj p => Ok (default (inherited k) (dget k p))
  | VFun _ =>
      Ok (if decide (k ∈ object_statics ++ object_prototype) then VFun k else VUndef)
  | _ => Ok (inherited k)
  end.

(** [v[k] = x] for a name [k], in strict mode: a primitive refuses it; assigning
    to a member of a builtin function or a named property of an array leaves
    what the scripts see of it as it is. *)
Definition set (k : string) (x : value) (v : value) : outcome value :=
  match v with
  | VUndef | VNull => Throw (TypeError ("Cannot set properties of undefined (setting " +:+ k +:+ ")"))
  | VObj p => Ok (VObj (dset k x p))
  | VBool _ | VNum _ | VStr _ => Throw (TypeError ("Cannot create property '" +:+ k +:+ "'"))
  | VBig _ | VArr _ | VFun _ => Ok v
  end.
(** [v[0] = x] *)
Definition set0 (x : value) (v : value) : outcome value :=
  match v with
  | VArr [] => Ok (VArr [x])
  | VArr (_ :: l) => Ok (VArr (x :: l))
  | v => set "0" x v
  end.

(** The elements of [for (let i = 0; i < v.length; i++)]: what has no
    length has none (a table of a TOML file with a key of that name aside). *)
Definition indexed (v : value) : outcome (list value) :=
  match v with
  | VArr l => Ok l
  | VStr s => Ok (map (λ c, VStr (String c EmptyString)) (chars s))
  | VUndef | VNull => Throw (TypeError "Cannot read properties of undefined (reading 'length')")
  | _ => Ok []
  end.
(** The elements [for (const x of v)] visits. *)
Definition iterated (v : value) : outcome (list value) :=
  match v with
  | VArr _ | VStr _ => indexed v
  | _ => Throw (TypeError "value is not iterable")
  end.
(** [v.push(x)] *)
Definition push (x : value) (v : value) : outcome value :=
  match v with
  | VArr l => Ok (VArr (l ++ [x]))
  | _ => Throw (TypeError "push is not a function")
  end.
