(* ===== verification/Json.v ===== *)
(** * JSON.parse

    The parser of the language's library, on ASCII text whose numbers are
    integers: a fraction, an exponent or an escape above U+007F is outside the
    model and refused. *)
From S2P Require Import Prelude JsString JsValue.

Definition is_json_space (c : ascii) : bool :=
  let n := nat_of_ascii c in (n =? 9)%nat || (n =? 10)%nat || (n =? 13)%nat || (n =? 32)%nat.
Fixpoint skip_ws (s : string) : string :=
  match s with
  | String c s' => if is_json_space c then skip_ws s' else s
  | EmptyString => EmptyString
  end.

Definition QUOTE : ascii := "034".
Definition BACKSLASH : ascii := "092".

(** The character an escape stands for. *)
Definition escape (c : ascii) : option ascii :=
  if decide (c = QUOTE ∨ c = BACKSLASH ∨ c = "/"%char) then Some c
  else if decide (c = "b"%char) then Some "008"%char
  else if decide (c = "f"%char) then Some "012"%char
  else if decide (c = "n"%char) then Some "010"%char
  else if decide (c = "r"%char) then Some "013"%char
  else if decide (c = "t"%char) then Some "009"%char
  else None.
Definition hex4 (a b c d : ascii) : option ascii :=
  match digits 16 None (String a (String b (String c (String d EmptyString)))) with
  | Some n =>
      if decide (Forall (λ x, is_Some (digit_value x) ∧ default 99 (digit_value x) < 16)%Z [a; b; c; d] ∧ n < 128)%Z
      then Some (ascii_of_nat (Z.to_nat n)) else None
  | None => None
  end.

(** The rest of a string literal, its opening quote read. *)
Fixpoint parse_chars (s : string) : option (string * string) :=
  match s with
  | EmptyString => None
  | String c s' =>
      if decide (c = QUOTE) then Some (EmptyString, s')
      else if decide (c = BACKSLASH) then
        match s' with
        | String "u" (String a (String b (String d (String e s'')))) =>
            x ← hex4 a b d e; '(t, r) ← parse_chars s''; Some (String x t, r)
        | String e s'' => x ← escape e; '(t, r) ← parse_chars s''; Some (String x t, r)
        | EmptyString => None
        end
      else if (nat_of_ascii c <? 32)%nat then None
      else '(t, r) ← parse_chars s'; Some (String c t, r)
  end.

Definition is_dec (c : ascii) : bool :=
  match digit_value c with Some d => (d <? 10)%Z | None => false end.
Fixpoint span_digits (s : string) : string * string :=
  match s with
  | String c s' => if is_dec c then let '(d, r) := span_digits s' in (String c d, r) else (EmptyString, s)
  | EmptyString => (EmptyString, EmptyString)
  end.
(** An integer literal: no leading zero, no fraction or exponent after it. *)
Definition parse_number (s : string) : option (Z * string) :=
  let '(sign, t) := if starts_with "-" s then ((-1)%Z, slice 1 s) else (1%Z, s) in
  let '(d, r) := span_digits t in
  n ← digits 10 None d;
  _ ← guard (d = "0" ∨ starts_with "0" d = false);
  _ ← guard (char_at0 r ∉ ["."; "e"; "E"]);
  Some ((sign * n)%Z, r).

(** A string, a number or a keyword. *)
Definition parse_scalar (s : string) : option (value * string) :=
  match s with
  | String c t =>
      if decide (c = QUOTE) then '(x, r) ← parse_chars t; Some (VStr x, r)
      else if starts_with "true" s then Some (VBool true, slice 4 s)
      else if starts_with "false" s then Some (VBool false, slice 5 s)
      else if starts_with "null" s then Some (VNull, slice 4 s)
      else '(n, r) ← parse_number s; Some (VNum n, r)
  | EmptyString => None
  end.

(** What follows the punctuator [c], if it is what comes next. *)
Definition token (c : ascii) (s : string) : option string :=
  match skip_ws s with
  | String d t => if decide (d = c) then Some t else None
  | EmptyString => None
  end.

Fixpoint parse_value (fuel : nat) (s : string) : option (value * string) :=
  match fuel with
  | O => None
  | S fuel =>
      match token "{" s with
      | Some t =>
          match token "}" t with
          | Some r => Some (VObj [], r)
          | None => parse_members fuel [] t
          end
      | None =>
          match token "[" s with
          | Some t =>
              match token "]" t with
              | Some r => Some (VArr [], r)
              | None => parse_elements fuel [] t
              end
          | None => parse_scalar (skip_ws s)
          end
      end
  end
with parse_members (fuel : nat) (acc : dict value) (s : string) : option (value * string) :=
  match fuel with
  | O => None
  | S fuel =>
      t ← token QUOTE s;
      '(k, r) ← parse_chars t;
      r ← token ":" r;
      '(v, r) ← parse_value fuel r;
      match token "," r with
      | Some r => parse_members fuel (dset k v acc) r
      | None => r ← token "}" r; Some (VObj (dset k v acc), r)
      end
  end
with parse_elements (fuel : nat) (acc : list value) (s : string) : option (value * string) :=
  match fuel with
  | O => None
  | S fuel =>
      '(v, r) ← parse_value fuel s;
      match token "," r with
      | Some r => parse_elements fuel (acc ++ [v]) r
      | None => r ← token "]" r; Some (VArr (acc ++ [v]), r)
      end
  end.

(** Two rounds of fuel read at least a character. *)
Definition json_parse (s : string) : outcome value :=
  match parse_value (2 * String.length s + 2) s with
  | Some (v, r) =>
      if decide (skip_ws r = EmptyString) then Ok v else Throw (Rejected "SyntaxError")
  | None => Throw (Rejected "SyntaxError")
  end.

(** ** The fuel is enough *)
Abbreviation len := String.length.

Lemma skip_ws_length s : (len (skip_ws s) ≤ len s)%nat.
Proof. induction s as [|c s IH]; cbn; [done|]. case_match; cbn; lia. Qed.

Lemma parse_chars_length s t r : parse_chars s = Some (t, r) → (len r < len s)%nat.
Proof.
  remember (len s) as n eqn:Hn. revert s Hn t r.
  induction n as [n IH] using lt_wf_ind. intros s -> t r.
  assert (∀ s', (len s' < len s)%nat → ∀ x t r,
    ('(t, r) ← parse_chars s'; Some (String x t, r)) = Some (t, r) → (len r < len s')%nat) as Hrec.
  { intros s' Hs x t' r' Hp. destruct (parse_chars s') as [[t1 r1]|] eqn:E; [|done].
    cbn in Hp. injection Hp as <- <-. by eapply (IH (len s')). }
  destruct s as [|c s]; [done|]. cbn [parse_chars].
  case_decide; [intros [= <- <-]; cbn; lia|]. case_decide.
  2:{ case_match; [done|]. intros Hp%Hrec; cbn in *; lia. }
  destruct s as [|e s]; [done|].
  assert ((x ← escape e; '(t, r) ← parse_chars s; Some (String x t, r)) = Some (t, r) →
    (len r < len (String c (String e s)))%nat) as Hesc.
  { destruct (escape e); [|done]. intros Hp%Hrec; cbn in *; lia. }
  destruct e as [[] [] [] [] [] [] [] []]; try exact Hesc.
  destruct s as [|a [|b [|d [|f s]]]]; try exact Hesc.
  destruct (hex4 a b d f); [|done]. intros Hp%Hrec; cbn in *; lia.
Qed.

Lemma span_digits_length s d r : span_digits s = (d, r) → (len d + len r = len s)%nat.
Proof.
  revert d r. induction s as [|c s IH]; intros d r; cbn; [by intros [= <- <-]|].
  case_match; [|by intros [= <- <-]]. destruct (span_digits s) as [d' r'].
  intros [= <- <-]. cbn. by rewrite (IH d' r').
Qed.
Lemma slice_shorter k s : (len (slice k s) ≤ len s - k)%nat.
Proof. revert s. induction k as [|k IH]; intros [|c s]; cbn; try lia. specialize (IH s). lia. Qed.
Lemma slice_less k s : (0 < k)%nat → s ≠ ""%string → (len (slice k s) < len s)%nat.
Proof. intros Hk Hs. pose proof (slice_shorter k s). destruct s; cbn in *; [done|lia]. Qed.

Lemma some_slice k s (x v : value) r :
  Some (x, slice (S k) s) = Some (v, r) → s ≠ ""%string → (len r < len s)%nat.
Proof. intros Hp. assert (r = slice (S k) s) as -> by congruence. apply slice_less. lia. Qed.

Lemma parse_number_length s n r : parse_number s = Some (n, r) → (len r < len s)%nat.
Proof.
  unfold parse_number. intros Hp.
  destruct (if starts_with "-" s then _ else _) as [sign t] eqn:Ht.
  assert (len t ≤ len s)%nat as Hle.
  { destruct (starts_with "-" s); injection Ht as _ <-; [|lia]. destruct s; cbn; lia. }
  destruct (span_digits t) as [d r'] eqn:Hd. apply span_digits_length in Hd.
  destruct (digits 10 None d) eqn:Hn; [|done].
  assert (len d ≠ 0)%nat by by destruct d. simplify_option_eq; lia.
Qed.

Lemma parse_scalar_length s v r : parse_scalar s = Some (v, r) → (len r < len s)%nat.
Proof.
  destruct s as [|c s]; [done|]. unfold parse_scalar. case_decide.
  { destruct (parse_chars s) as [[x r']|] eqn:E; [|done]. apply parse_chars_length in E.
    intros [= _ <-]. cbn. lia. }
  destruct (starts_with "true" _); [eauto using some_slice|].
  destruct (starts_with "false" _); [eauto using some_slice|].
  destruct (starts_with "null" _); [eauto using some_slice|].
  intros Hp. destruct (parse_number (String c s)) as [[n r']|] eqn:E; [|done].
  apply parse_number_length in E. injection Hp as _ <-. exact E.
Qed.

Lemma token_length c s t : token c s = Some t → (len t < len s)%nat.
Proof.
  unfold token. intros H. pose proof (skip_ws_length s). case_match; [done|].
  case_decide; [|done]. injection H as ->. cbn in *. lia.
Qed.

(** A value read is not empty: the rest is shorter than the text. *)
Lemma parse_length fuel :
  (∀ s v r, parse_value fuel s = Some (v, r) → (len r < len s)%nat) ∧
  (∀ acc s v r, parse_members fuel acc s = Some (v, r) → (len r < len s)%nat) ∧
  (∀ acc s v r, parse_elements fuel acc s = Some (v, r) → (len r < len s)%nat).
Proof.
  induction fuel as [|fuel (IHv & IHm & IHe)]; [done|]. split_and!.
  - intros s v r. cbn. destruct (token "{" s) as [t|] eqn:Ht.
    { apply token_length in Ht. destruct (token "}" t) as [t'|] eqn:Ht'.
      - intros [= _ <-]. apply token_length in Ht'. lia.
      - intros Hp%IHm. lia. }
    destruct (token "[" s) as [t|] eqn:Ht2.
    { apply token_length in Ht2. destruct (token "]" t) as [t'|] eqn:Ht'.
      - intros [= _ <-]. apply token_length in Ht'. lia.
      - intros Hp%IHe. lia. }
    intros Hp%parse_scalar_length. pose proof (skip_ws_length s). lia.
  - intros acc s v r. cbn. intros Hp.
    destruct (token QUOTE s) as [t|] eqn:E1; [|done]. apply token_length in E1. cbn in Hp.
    destruct (parse_chars t) as [[k t1]|] eqn:E2; [|done]. apply parse_chars_length in E2. cbn in Hp.
    destruct (token ":" t1) as [t2|] eqn:E3; [|done]. apply token_length in E3. cbn in Hp.
    destruct (parse_value fuel t2) as [[x t3]|] eqn:E4; [|done]. apply IHv in E4. cbn in Hp.
    destruct (token "," t3) as [t4|] eqn:E5.
    { apply token_length in E5. apply IHm in Hp. lia. }
    destruct (token "}" t3) as [t5|] eqn:E6; [|done]. apply token_length in E6.
    injection Hp as _ <-. lia.
  - intros acc s v r. cbn. intros Hp.
    destruct (parse_value fuel s) as [[x t3]|] eqn:E4; [|done]. apply IHv in E4. cbn in Hp.
    destruct (token "," t3) as [t4|] eqn:E5.
    { apply token_length in E5. apply IHe in Hp. lia. }
    destruct (token "]" t3) as [t5|] eqn:E6; [|done]. apply token_length in E6.
    injection Hp as _ <-. lia.
Qed.

(** One more round changes nothing: a value takes two rounds per character at most. *)
Lemma parse_stable fuel :
  (∀ s, (2 * len s + 2 ≤ fuel)%nat → parse_value (S fuel) s = parse_value fuel s) ∧
  (∀ acc s, (2 * len s + 3 ≤ fuel)%nat → parse_members (S fuel) acc s = parse_members fuel acc s) ∧
  (∀ acc s, (2 * len s + 3 ≤ fuel)%nat → parse_elements (S fuel) acc s = parse_elements fuel acc s).
Proof.
  induction fuel as [|fuel (IHv & IHm & IHe)]; [split_and!; intros; lia|]. split_and!.
  - intros s Hf. change (parse_value (S (S fuel)) s) with
      (match token "{" s with
       | Some t => match token "}" t with Some r => Some (VObj [], r) | None => parse_members (S fuel) [] t end
       | None => match token "[" s with
         | Some t => match token "]" t with Some r => Some (VArr [], r) | None => parse_elements (S fuel) [] t end
         | None => parse_scalar (skip_ws s) end end).
    cbn [parse_value]. destruct (token "{" s) as [t|] eqn:Ht.
    { apply token_length in Ht. case_match; [done|]. apply IHm. lia. }
    destruct (token "[" s) as [t|] eqn:Ht2; [|done].
    apply token_length in Ht2. case_match; [done|]. apply IHe. lia.
  - intros acc s Hf. cbn [parse_members].
    destruct (token QUOTE s) as [t|] eqn:E1; [|done]. apply token_length in E1. cbn [mbind option_bind].
    destruct (parse_chars t) as [[k t1]|] eqn:E2; [|done]. apply parse_chars_length in E2. cbn [mbind option_bind].
    destruct (token ":" t1) as [t2|] eqn:E3; [|done]. apply token_length in E3. cbn [mbind option_bind].
    rewrite IHv by lia. destruct (parse_value fuel t2) as [[x t3]|] eqn:E4; [|done].
    apply parse_length in E4. cbn [mbind option_bind].
    destruct (token "," t3) as [t4|] eqn:E5; [|done]. apply token_length in E5. apply IHm. lia.
  - intros acc s Hf. cbn [parse_elements].
    rewrite IHv by lia. destruct (parse_value fuel s) as [[x t3]|] eqn:E4; [|done].
    apply parse_length in E4. cbn [mbind option_bind].
    destruct (token "," t3) as [t4|] eqn:E5; [|done]. apply token_length in E5. apply IHe. lia.
Qed.

Lemma json_fuel s fuel :
  (2 * len s + 2 ≤ fuel)%nat → parse_value fuel s = parse_value (2 * len s + 2) s.
Proof.
  induction 1 as [|fuel Hf IH]; [done|]. destruct (parse_stable fuel) as (Hv & _ & _).
  by rewrite (Hv s Hf).
Qed.

Example json_ex : json_parse (String QUOTE ("a" +:+ String QUOTE EmptyString)) = Ok (VStr "a").
Proof. reflexivity. Qed.
Example json_ex2 :
  json_parse (" [{" +:+ String QUOTE ("k" +:+ String QUOTE " : [ 1, -20 , true,null ] }, {}]"))
  = Ok (VArr [VObj [("k", VArr [VNum 1; VNum (-20); VBool true; VNull])]; VObj []]).
Proof. reflexivity. Qed.
