(* ===== verification/Toml.v ===== *)
(** * TOML files

    [@iarna/toml] is the codec of every configuration file.  It is a parameter
    (class [Toml]); what the scripts rely on is stated by [TomlLaws]: a
    document that is stringified parses back to its image, which has no
    [undefined] property and has each [BigNumber] replaced by the object its
    [toJSON] gives, up to the order of the keys of tables; and a comment line
    in front of a document does not change what it parses to. *)
From S2P Require Import Prelude JsString JsValue.

(** ** Values up to the order of object keys *)
Inductive nval :=
| NAtom (v : value)
| NArr (l : list nval)
| NObj (m : gmap string nval).

Fixpoint canon (v : value) : nval :=
  match v with
  | VArr l => NArr (map canon l)
  | VObj p => NObj (list_to_map (map (λ kv, (kv.1, canon kv.2)) p))
  | v => NAtom v
  end.

Definition veq (v w : value) : Prop := canon v = canon w.
Declare Scope js_scope.
Open Scope js_scope.
Notation "v ≈ w" := (veq v w) (at level 70, no associativity) : js_scope.

#[export] Instance veq_equiv : Equivalence veq.
Proof. split; unfold veq; congruence. Qed.

Lemma canon_lookup k (p : dict value) :
  (list_to_map (map (λ kv, (kv.1, canon kv.2)) p) : gmap string nval) !! k = canon <$> dget k p.
Proof.
  induction p as [|[k' v] p IH]; cbn; [done|].
  destruct (decide (k' = k)) as [->|Hne].
  - by rewrite lookup_insert_eq.
  - by rewrite lookup_insert_ne.
Qed.

Lemma canon_dset k v (p : dict value) :
  (list_to_map (map (λ kv, (kv.1, canon kv.2)) (dset k v p)) : gmap string nval)
  = <[k := canon v]> (list_to_map (map (λ kv, (kv.1, canon kv.2)) p)).
Proof.
  apply map_eq. intros k'. rewrite canon_lookup. destruct (decide (k = k')) as [->|Hne].
  - by rewrite dget_dset_eq, lookup_insert_eq.
  - by rewrite dget_dset_ne, lookup_insert_ne, canon_lookup.
Qed.

Definition oveq : relation (outcome value) := λ a b,
  match a, b with
  | Ok v, Ok w => v ≈ w
  | Throw e, Throw e' => e = e'
  | _, _ => False
  end.
#[export] Instance oveq_equiv : Equivalence oveq.
Proof.
  split.
  - intros [?|?]; cbn; reflexivity.
  - intros [?|?] [?|?]; cbn; intros; try done; by symmetry.
  - intros [?|?] [?|?] [?|?]; cbn; intros; try done; [by etrans|by subst].
Qed.

Lemma veq_kind v w : v ≈ w →
  match v, w with
  | VArr _, VArr _ | VObj _, VObj _ => True
  | VArr _, _ | VObj _, _ => False
  | _, _ => v = w
  end.
Proof. unfold veq. destruct v, w; cbn; intros; simplify_eq; done. Qed.

Lemma veq_atom v w : v ≈ w →
  match v with VArr _ | VObj _ => True | _ => v = w end.
Proof. intros H%veq_kind. by destruct v, w. Qed.

Lemma veq_arr l v : VArr l ≈ v ↔ ∃ l', v = VArr l' ∧ Forall2 veq l l'.
Proof.
  unfold veq. split.
  - destruct v; cbn; intros H; simplify_eq. eexists; split; [done|].
    revert l0 H. induction l as [|x l IH]; intros [|y l'] H; cbn in *; simplify_eq;
      constructor; [done|]. by apply IH.
  - intros (l' & -> & H). cbn. f_equal. induction H; cbn; [done|]. by f_equal.
Qed.

Lemma not_undefined_arr v l : v ≈ VArr l → is_undefined v = false.
Proof. intros H. symmetry in H. by apply veq_arr in H as (? & -> & _). Qed.

Lemma veq_obj p v : VObj p ≈ v →
  ∃ q, v = VObj q ∧ ∀ k, canon <$> dget k p = canon <$> dget k q.
Proof.
  unfold veq. destruct v as [| | | | | | |q|]; cbn; intros H; simplify_eq.
  exists q. split; [done|]. intros k. by rewrite <- !canon_lookup, H.
Qed.

(** Reading and writing properties respects the equivalence. *)
#[export] Instance get_proper k : Proper (veq ==> oveq) (get k).
Proof.
  intros v w H. destruct v; try (apply veq_atom in H as <-; reflexivity).
  - apply veq_arr in H as (l' & -> & _). reflexivity.
  - apply veq_obj in H as (q & -> & Hk). specialize (Hk k). unfold get, oveq, veq.
    destruct (dget k p), (dget k q); cbn in *; congruence.
Qed.

#[export] Instance set_proper k : Proper (veq ==> veq ==> oveq) (set k).
Proof.
  intros x y Hxy v w H. destruct v; try (apply veq_atom in H as <-; reflexivity).
  - destruct (proj1 (veq_arr _ _) H) as (l' & -> & _). exact H.
  - destruct (veq_obj _ _ H) as (q & -> & _). unfold veq in *. cbn in *.
    simplify_eq. unfold veq. cbn. rewrite !canon_dset. congruence.
Qed.

#[export] Instance push_proper : Proper (veq ==> veq ==> oveq) push.
Proof.
  intros x y Hxy v w H. destruct v; try (apply veq_atom in H as <-; reflexivity).
  - apply veq_arr in H as (l' & -> & Hl). cbn. apply veq_arr. eexists; split; [done|].
    apply Forall2_app; [done|]. by repeat constructor.
  - apply veq_obj in H as (q & -> & _). reflexivity.
Qed.

Lemma veq_get_obj k v p q :
  VObj p ≈ VObj q → dget k p = Some v → ∃ w, dget k q = Some w ∧ v ≈ w.
Proof.
  intros H Hp. apply veq_obj in H as (q' & [= <-] & Hk). specialize (Hk k).
  rewrite Hp in Hk. destruct (dget k q); cbn in *; simplify_eq. eauto.
Qed.

(** ** The codec *)
Class Toml := {
  toml_parse : string → outcome value;
  toml_stringify : value → outcome string;
  (** what [BigNumber.prototype.toJSON] returns *)
  bignumber_json : Z → value;
}.

(** What stringifying and parsing back makes of a value. *)
Fixpoint toml_image `{Toml} (v : value) : value :=
  match v with
  | VBig n => bignumber_json n
  | VArr l => VArr (map toml_image l)
  | VObj p =>
      VObj (omap (λ kv, match kv.2 with
                        | VUndef | VNull => None
                        | _ => Some (kv.1, toml_image kv.2)
                        end) p)
  | v => v
  end.

(** The element type arrays must share. *)
Inductive kind := KBool | KNum | KStr | KArr | KTable.
#[export] Instance kind_eq_dec : EqDecision kind.
Proof. solve_decision. Defined.
Definition kind_of (v : value) : option kind :=
  match v with
  | VBool _ => Some KBool | VNum _ => Some KNum | VStr _ => Some KStr
  | VArr _ => Some KArr | VObj _ | VBig _ => Some KTable
  | _ => None
  end.

(** Values TOML represents: no functions, arrays of one kind, no two properties
    of the same name. *)
Fixpoint toml_value (v : value) : bool :=
  match v with
  | VUndef | VNull | VFun _ => false
  | VArr l =>
      forallb toml_value l &&
      match l with
      | [] => true
      | x :: l' => forallb (λ y, bool_decide (kind_of y = kind_of x)) l'
      end
  | VObj p =>
      bool_decide (NoDup p.*1) &&
      forallb (λ kv, match kv.2 with VUndef | VNull => true | _ => toml_value kv.2 end) p
  | _ => true
  end.
Definition toml_document (v : value) : bool :=
  match v with VObj _ => toml_value v | _ => false end.

(** Values made of what TOML has: no [undefined], [null], functions, or
    [BigNumber]s. *)
Fixpoint plain (v : value) : bool :=
  match v with
  | VUndef | VNull | VFun _ | VBig _ => false
  | VArr l => forallb plain l
  | VObj p => forallb (λ kv, plain kv.2) p
  | _ => true
  end.

Class TomlLaws `{Toml} : Prop := {
  toml_total v : toml_document v = true → ∃ s, toml_stringify v = Ok s;
  toml_roundtrip v s : toml_document v = true → toml_stringify v = Ok s →
    ∃ w, toml_parse s = Ok w ∧ w ≈ toml_image v;
  toml_parsed s v : toml_parse s = Ok v → toml_document v = true ∧ plain v = true;
  toml_comment c s : free_of "010"%char c →
    toml_parse (("#" +:+ c) +:+ String "010"%char s)%string = toml_parse s;
}.

(** ** Reading back what was written *)
Section image.
Context `{Toml}.

Lemma toml_image_dget k (p : dict value) :
  NoDup p.*1 →
  dget k (omap (λ kv, match kv.2 with
                      | VUndef | VNull => None
                      | _ => Some (kv.1, toml_image kv.2)
                      end) p)
  = match dget k p with
    | Some VUndef | Some VNull | None => None
    | Some v => Some (toml_image v)
    end.
Proof.
  induction p as [|[k' v] p IH]; [done|]. cbn [fmap list_fmap fst omap list_omap snd dget].
  intros [Hk Hp]%NoDup_cons. specialize (IH Hp).
  destruct (decide (k' = k)) as [->|Hne].
  - assert (dget k p = None) as Hn by by apply dget_None. rewrite Hn in IH.
    destruct v; cbn; try exact IH; by rewrite decide_True.
  - destruct v; cbn; try exact IH; by rewrite decide_False.
Qed.

Lemma toml_image_plain v : plain v = true → toml_image v = v.
Proof.
  induction v as [| | | | | |l IH|p IH|] using value_ind'; cbn; try done.
  - intros Hl. f_equal. induction IH as [|x l Hx IH IHl]; [done|]. cbn in *.
    apply andb_true_iff in Hl as [H1 H2]. by rewrite Hx, IHl.
  - intros Hl. f_equal. induction IH as [|[k x] l Hx IH IHl]; [done|]. cbn in *.
    apply andb_true_iff in Hl as [H1 H2]. rewrite (IHl H2), (Hx H1). by destruct x.
Qed.

(** Setting a property of a plain object sets its image. *)
Lemma toml_image_dset k v p :
  forallb (λ kv, plain kv.2) p = true → v ≠ VUndef → v ≠ VNull →
  toml_image (VObj (dset k v p)) = VObj (dset k (toml_image v) p).
Proof.
  intros Hp Hu Hn. cbn. f_equal. induction p as [|[k' x] p IH]; cbn in *.
  - by destruct v.
  - apply andb_true_iff in Hp as [Hx Hp].
    assert (toml_image (VObj p) = VObj p) as Himg by by apply toml_image_plain.
    injection Himg as Himg. case_decide; cbn.
    + rewrite Himg. by destruct v.
    + rewrite (IH Hp), (toml_image_plain x Hx). by destruct x.
Qed.

Lemma toml_image_strings (l : list string) : toml_image (VArr (map VStr l)) = VArr (map VStr l).
Proof. cbn. f_equal. rewrite map_map. by apply map_ext. Qed.

(** Properties of a value that parses back. *)
Lemma roundtrip_get `{!TomlLaws} k (p : dict value) v s :
  toml_document (VObj p) = true → toml_stringify (VObj p) = Ok s →
  dget k p = Some v → v ≠ VUndef → v ≠ VNull →
  ∃ w x, toml_parse s = Ok w ∧ get k w = Ok x ∧ x ≈ toml_image v.
Proof.
  intros Hdoc Hs Hk Hu Hn. destruct (toml_roundtrip _ _ Hdoc Hs) as (w & Hw & Heq).
  symmetry in Heq. cbn [toml_image] in Heq.
  destruct (veq_obj _ _ Heq) as (q & -> & _).
  assert (NoDup p.*1) as Hnd.
  { cbn in Hdoc. apply andb_true_iff in Hdoc as [Hnd _]. by apply bool_decide_eq_true in Hnd. }
  destruct (veq_get_obj k (toml_image v) _ _ Heq) as (x & Hx & Hvx).
  { rewrite toml_image_dget, Hk by done. by destruct v. }
  exists (VObj q), x. cbn. rewrite Hx. split; [done|]. split; [done|]. by symmetry.
Qed.

Lemma roundtrip_get_missing `{!TomlLaws} k (p : dict value) s :
  toml_document (VObj p) = true → toml_stringify (VObj p) = Ok s →
  dget k p = None → ∃ w, toml_parse s = Ok w ∧ get k w = Ok (inherited k).
Proof.
  intros Hdoc Hs Hk. destruct (toml_roundtrip _ _ Hdoc Hs) as (w & Hw & Heq).
  symmetry in Heq. cbn [toml_image] in Heq.
  destruct (veq_obj _ _ Heq) as (q & -> & Hq).
  assert (NoDup p.*1) as Hnd.
  { cbn in Hdoc. apply andb_true_iff in Hdoc as [Hnd _]. by apply bool_decide_eq_true in Hnd. }
  specialize (Hq k). rewrite toml_image_dget, Hk in Hq by done. cbn in Hq.
  exists (VObj q). cbn. destruct (dget k q); [done|]. done.
Qed.
End image.

(** ** Documents built from documents *)
Lemma toml_value_dset k v p :
  toml_value (VObj p) = true → toml_value v = true → toml_value (VObj (dset k v p)) = true.
Proof.
  cbn. rewrite !andb_true_iff, !bool_decide_eq_true. intros [Hnd Hp] Hv.
  split; [by apply dset_nodup|]. clear Hnd.
  induction p as [|[k' x] p IH]; cbn in *.
  - by destruct v; rewrite ?andb_true_r.
  - apply andb_true_iff in Hp as [Hx Hp]. case_decide; cbn; rewrite ?Hp, ?Hx, ?(IH Hp), ?andb_true_r.
    + by destruct v.
    + done.
Qed.

Lemma toml_value_arr_snoc l e :
  toml_value (VArr l) = true → toml_value e = true →
  forallb (λ v, bool_decide (kind_of v = kind_of e)) l = true →
  toml_value (VArr (l ++ [e])) = true.
Proof.
  cbn. rewrite !andb_true_iff. intros [Hl _] He Hk. split.
  - rewrite forallb_app, Hl. cbn. by rewrite He.
  - destruct l as [|x l]; [done|]. cbn in *. apply andb_true_iff in Hk as [Hx Hk].
    apply bool_decide_eq_true in Hx. rewrite forallb_app. cbn.
    rewrite Hx, bool_decide_eq_true_2 by done. rewrite andb_true_r. exact Hk.
Qed.

Lemma toml_value_strings l : toml_value (VArr (map VStr l)) = true.
Proof.
  cbn. apply andb_true_iff. split; [by induction l|].
  destruct l as [|s l]; [done|]. cbn. induction l as [|t l IH]; [done|]. cbn in *. exact IH.
Qed.

Lemma toml_value_defined v : toml_value v = true → v ≠ VUndef ∧ v ≠ VNull.
Proof. by destruct v. Qed.

Lemma toml_value_property k p v :
  toml_value (VObj p) = true → dget k p = Some v → v ≠ VUndef → v ≠ VNull → toml_value v = true.
Proof.
  cbn. rewrite andb_true_iff, forallb_forall. intros [_ Hp] Hk%dget_elem Hu Hn.
  specialize (Hp (k, v)). apply list_elem_of_In in Hk. specialize (Hp Hk). by destruct v.
Qed.

Lemma plain_property k p v : plain (VObj p) = true → dget k p = Some v → plain v = true.
Proof.
  cbn. rewrite forallb_forall. intros Hp Hk%dget_elem. apply (Hp (k, v)). by apply list_elem_of_In.
Qed.

Lemma oveq_bind (o o' : outcome value) f g :
  oveq o o' → (∀ v w, v ≈ w → oveq (f v) (g w)) → oveq (o ≫= f) (o' ≫= g).
Proof. destruct o, o'; cbn; intros; subst; auto; done. Qed.
