(* ===== verification/World.v ===== *)
(** * The world a script runs in

    The file system, the environment variables and the console, with the state
    of the chain as a type parameter [C].  The file system calls are Node's
    synchronous ones with their error codes, except that a path through a file
    is reported as missing (ENOENT) where Node says ENOTDIR; links, access
    rights and the mode of a file are not modelled, and a path keeps its "..". *)
From S2P Require Import Prelude JsString.

(** ** Paths: two spellings of one path ("a//b/", "./a/b") name one file *)
Abbreviation path := (bool * list string)%type.
Definition path_of (s : string) : path :=
  (starts_with "/" s, filter (λ w, w ≠ "" ∧ w ≠ ".") (split "/"%char s)).
Definition parent (p : path) : path := (p.1, removelast p.2).

Inductive node :=
| File (data : string)
| Dir.
#[export] Instance node_eq_dec : EqDecision node.
Proof. solve_decision. Defined.

Record world (C : Type) := World {
  files : gmap path node;
  env : gmap string string;
  console : list string;
  chain_state : C;
}.
Arguments World {_} _ _ _ _.
Arguments files {_} _.
Arguments env {_} _.
Arguments console {_} _.
Arguments chain_state {_} _.

Definition with_files {C : Type} (f : gmap path node) (w : world C) : world C :=
  World f (env w) (console w) (chain_state w).
Definition with_console {C : Type} (c : list string) (w : world C) : world C :=
  World (files w) (env w) c (chain_state w).
Definition with_chain {C : Type} (c : C) (w : world C) : world C :=
  World (files w) (env w) (console w) c.

Abbreviation script C := (M (world C)).

Section fs.
Context {C : Type}.
Implicit Types (w : world C) (s data : string) (fs : gmap path node).

(** The node at [p]: the root and the working directory always exist. *)
Definition node_at fs (p : path) : option node :=
  match p.2 with [] => Some Dir | _ => fs !! p end.

Definition existsSync s : script C bool :=
  gets (λ w, bool_decide (is_Some (node_at (files w) (path_of s)))).

Definition readFileSync s : script C string := λ w,
  match node_at (files w) (path_of s) with
  | Some (File data) => (Ok data, w)
  | Some Dir => (Throw (Rejected "EISDIR"), w)
  | None => (Throw (Rejected "ENOENT"), w)
  end.

Definition can_create fs (p : path) : bool :=
  bool_decide (node_at fs (parent p) = Some Dir).

Definition writeFileSync s data : script C () := λ w,
  let p := path_of s in
  match node_at (files w) p with
  | Some Dir => (Throw (Rejected "EISDIR"), w)
  | Some (File _) => (Ok tt, with_files (<[p := File data]> (files w)) w)
  | None =>
      if can_create (files w) p then (Ok tt, with_files (<[p := File data]> (files w)) w)
      else (Throw (Rejected "ENOENT"), w)
  end.

Definition mkdirSync s : script C () := λ w,
  let p := path_of s in
  match node_at (files w) p with
  | Some _ => (Throw (Rejected "EEXIST"), w)
  | None =>
      if can_create (files w) p then (Ok tt, with_files (<[p := Dir]> (files w)) w)
      else (Throw (Rejected "ENOENT"), w)
  end.

(** [fs.statSync(s).isFile()] *)
Definition statIsFile s : script C bool := λ w,
  match node_at (files w) (path_of s) with
  | Some (File _) => (Ok true, w)
  | Some Dir => (Ok false, w)
  | None => (Throw (Rejected "ENOENT"), w)
  end.

Definition entry_of (d : path) (kv : path * node) : option string :=
  if decide (parent kv.1 = d ∧ kv.1 ≠ d) then last kv.1.2 else None.

Definition readdirSync s : script C (list string) := λ w,
  let p := path_of s in
  match node_at (files w) p with
  | Some Dir => (Ok (omap (entry_of p) (map_to_list (files w))), w)
  | Some (File _) => (Throw (Rejected "ENOTDIR"), w)
  | None => (Throw (Rejected "ENOENT"), w)
  end.

Definition getenv (k : string) : script C (option string) := gets (λ w, env w !! k).
Definition console_log s : script C () := modify (λ w, with_console (console w ++ [s]) w).

(** A file that can be written: it is a file, or it does not exist and its folder does. *)
Definition writable fs (p : path) : bool :=
  match node_at fs p with
  | Some (File _) => true
  | Some Dir => false
  | None => can_create fs p
  end.

(** ** A well-formed file system: the folder of every node exists. *)
Definition fs_wf fs : Prop := ∀ p n, fs !! p = Some n → node_at fs (parent p) = Some Dir.

Lemma parent_ne (p : path) : p.2 ≠ [] → parent p ≠ p.
Proof.
  destruct p as [b l]. cbn. intros Hl [= Heq]. apply (f_equal length) in Heq.
  destruct l as [|x l] using rev_ind; [done|]. rewrite removelast_last, length_app in Heq. cbn in Heq. lia.
Qed.

Lemma writable_key fs p : writable fs p = true → p.2 ≠ [].
Proof. unfold writable, node_at. by destruct p.2. Qed.

Lemma node_at_insert fs p n q :
  p.2 ≠ [] → node_at (<[p := n]> fs) q = if decide (q = p) then Some n else node_at fs q.
Proof.
  intros Hp. unfold node_at. destruct (q.2) eqn:Hq.
  - rewrite decide_False; [done|]. by intros ->.
  - destruct (decide (q = p)) as [->|Hne]; [by rewrite lookup_insert_eq|].
    by rewrite lookup_insert_ne.
Qed.

Lemma node_at_written fs p data :
  writable fs p = true → node_at (<[p := File data]> fs) p = Some (File data).
Proof. intros H. rewrite node_at_insert by eauto using writable_key. by rewrite decide_True. Qed.

Lemma writeFileSync_ok s data w :
  writable (files w) (path_of s) = true →
  writeFileSync s data w = (Ok tt, with_files (<[path_of s := File data]> (files w)) w).
Proof.
  unfold writeFileSync, writable. destruct (node_at _ _) as [[]|]; [done..|]. by intros ->.
Qed.

Lemma writeFileSync_result s data w w' :
  writeFileSync s data w = (Ok tt, w') →
  writable (files w) (path_of s) = true ∧
  w' = with_files (<[path_of s := File data]> (files w)) w.
Proof.
  unfold writeFileSync, writable. destruct (node_at _ _) as [[]|]; [by intros [= <-]|done|].
  destruct (can_create _ _); [by intros [= <-]|done].
Qed.

Lemma readFileSync_written s data w :
  writable (files w) (path_of s) = true →
  readFileSync s (with_files (<[path_of s := File data]> (files w)) w)
  = (Ok data, with_files (<[path_of s := File data]> (files w)) w).
Proof.
  intros H. unfold readFileSync. cbn. rewrite node_at_insert by eauto using writable_key.
  by rewrite decide_True.
Qed.

(** A written file stays writable. *)
Lemma writable_written fs p data :
  writable fs p = true → writable (<[p := File data]> fs) p = true.
Proof.
  intros H. unfold writable at 1. rewrite node_at_insert by eauto using writable_key.
  by rewrite decide_True.
Qed.

(** Writing another file changes nothing to it, unless that file is its folder. *)
Lemma writable_insert_ne fs p q data :
  p.2 ≠ [] → q ≠ p → parent q ≠ p → writable (<[p := File data]> fs) q = writable fs q.
Proof.
  intros Hp Hq Hpar. unfold writable, can_create. rewrite !node_at_insert by done.
  by rewrite !decide_False.
Qed.

Lemma can_create_not_file fs p data : node_at fs (parent p) = Some (File data) → can_create fs p = false.
Proof. intros H. unfold can_create. rewrite H. by apply bool_decide_eq_false. Qed.

(** The node below a file does not exist. *)
Lemma below_file fs p data :
  fs_wf fs → node_at fs (parent p) = Some (File data) → p.2 ≠ [] → node_at fs p = None.
Proof.
  intros Hwf Hf Hp. unfold node_at. destruct (p.2) eqn:E; [done|].
  destruct (fs !! p) as [n|] eqn:Hn; [|done]. apply Hwf in Hn. congruence.
Qed.

(** Writing a file keeps the file system well formed. *)
Lemma fs_wf_write fs p data :
  fs_wf fs → writable fs p = true → fs_wf (<[p := File data]> fs).
Proof.
  intros Hwf Hw q n Hq. pose proof (writable_key _ _ Hw) as Hp.
  rewrite node_at_insert by done. destruct (decide (q = p)) as [->|Hne].
  - rewrite decide_False by by apply parent_ne.
    unfold writable, node_at in Hw. destruct (p.2) eqn:E; [done|].
    destruct (fs !! p) as [[]|] eqn:Hn; [by eapply Hwf|done|]. by apply bool_decide_eq_true in Hw.
  - rewrite lookup_insert_ne in Hq by done. apply Hwf in Hq.
    case_decide as Hpp; [|done]. exfalso. subst. unfold writable in Hw. by rewrite Hq in Hw.
Qed.

(** A path one folder deeper. *)
Lemma path_of_child d s :
  free_of "/"%char s → s ≠ "" → s ≠ "." → d ≠ "" →
  path_of (d +:+ "/" +:+ s)%string = ((path_of d).1, (path_of d).2 ++ [s]).
Proof.
  intros Hf Hs Hdot Hd. unfold path_of. cbn [fst snd].
  change ("/" +:+ s)%string with (String "/" s). rewrite split_app_sep, filter_app.
  apply f_equal2; [by apply starts_with_char_app|].
  rewrite (split_free _ s Hf). by rewrite (filter_cons_True _ s []).
Qed.

Lemma with_files_files f g w : with_files f (with_files g w) = with_files f w.
Proof. done. Qed.
Lemma with_files_id w : with_files (files w) w = w.
Proof. by destruct w. Qed.
End fs.
#[export] Hint Rewrite @with_files_files @with_files_id : run.
