(* ===== verification/Constants.v ===== *)
(** * Constants of the deployment scripts

    [bridge/scripts/lib/constants.ts]: file names, task names, event names. *)
From S2P Require Import Prelude JsString World.

Definition MULTICALL_GAS_LIMIT : string := "10000000".
Definition DEPLOYMENT_LIST_FPATH : string := "/deploymentList".
Definition DEPLOYMENT_ARGS_TEMPLATE_FPATH : string := "/deploymentArgsTemplate".
Definition DEFAULT_CONFIG_OUTPUT_DIR : string := "../scripts/base-files".
Definition BASE_CONFIG_PATH : string := "../scripts/base-files/baseConfig".
Definition TEST_BASE_CONFIG_PATH : string := "../scripts/base-files/testBaseConfig.toml".
Definition VALIDATOR1_COBFIG_PATH : string := "../scripts/generated/config/validator1.toml".
Definition VALIDATOR_CONFIG_DIR : string := "../scripts/generated/config/".
Definition CONTRACT_ADDR : string := "contractAddr".
Definition DEPLOY_ALL_CONTRACTS : string := "deployAllContracts".
Definition DEPLOY_CREATE : string := "deployCreate".
Definition DEPLOY_CREATE2 : string := "deployCreate2".
Definition DEPLOY_FACTORY : string := "deployFactory".
Definition DEPLOY_METAMORPHIC : string := "deployMetamorphic".
Definition DEPLOY_PROXY : string := "deployProxy".
Definition DEPLOY_STATIC : string := "deployStatic".
Definition DEPLOY_TEMPLATE : string := "deployTemplate".
Definition DEPLOY_UPGRADEABLE_PROXY : string := "deployUpgradeableProxy".
Definition DEPLOYED_PROXY : string := "DeployedProxy".
Definition DEPLOYED_RAW : string := "DeployedRaw".
Definition DEPLOYED_STATIC : string := "DeployedStatic".
Definition DEPLOYED_TEMPLATE : string := "DeployedTemplate".
Definition DEPLOYMENT_ARG_PATH : string := "../scripts/base-files/deploymentArgs".
Definition DEPLOYMENT_LIST_PATH : string := "../scripts/base-files/deploymentList".
Definition END_POINT : string := "MockEndPoint".
Definition FACTORY_DEPLOYMENT : string := "factory".
Definition FACTORY_STATE_PATH : string := "../scripts/generated/factoryState".
Definition LOGIC_ADDR : string := "LogicAddress".
Definition ALICENET_FACTORY : string := "AliceNetFactory".
Definition META_ADDR : string := "MetaAddress".
Definition MOCK : string := "MockBaseContract".
Definition MOCK_FACTORY : string := "MockFactory".
Definition MOCK_INITIALIZABLE : string := "MockInitializable".
Definition MULTI_CALL_DEPLOY_PROXY : string := "multiCallDeployProxy".
Definition MULTI_CALL_UPGRADE_PROXY : string := "multiCallUpgradeProxy".
Definition ONLY_PROXY : string := "onlyProxy".
Definition PROXY : string := "Proxy".
Definition PROXY_ADDR : string := "ProxyAddress".
Definition RECEIPT : string := "receipt".
Definition STATIC_DEPLOYMENT : string := "deployStatic".
Definition TEMPLATE_ADDR : string := "TemplateAddress".
Definition UPGRADE_DEPLOYED_PROXY : string := "upgradeDeployedProxy".
Definition UPGRADE_PROXY : string := "upgradeProxy".
Definition UPGRADEABLE_DEPLOYMENT : string := "deployUpgradeable".
Definition UTILS : string := "Utils".
Definition INITIALIZER : string := "initialize".
Definition HARDHAT_CHAIN_ID : Z := 1337.

(** [env()]: the deployment environment, "dev" when the variable is not set. *)
Definition deployment_env {C : Type} : script C string :=
  _env ← getenv "DEPLOYMENT_ENVIRONMENT";
  mret (match _env with None => "dev" | Some e => e end).

(** Values of the [silencer] variable under which files and messages are written. *)
Definition not_silenced (silencer : option string) : bool :=
  match silencer with None => true | Some v => bool_decide (v = "false") end.

Lemma not_silenced_spec v : not_silenced v = false ↔ ∃ s, v = Some s ∧ s ≠ "false".
Proof.
  unfold not_silenced. destruct v as [s|]; [|naive_solver].
  rewrite bool_decide_eq_false. naive_solver.
Qed.

Definition silenced {C : Type} (w : world C) : bool := negb (not_silenced (env w !! "silencer")).
