(* ===== verification/Config.v ===== *)
(** * Configuration files

    [bridge/scripts/lib/deployment/deploymentConfigUtil.ts]: reading the
    deployment list, the deployment arguments and the factory state. *)
From S2P Require Import Prelude JsString JsValue Toml World Constants.

Section config.
Context {C : Type} `{Toml}.

Definition readTOML (defaultPath : string) (usrPath : option string) : script C value :=
  let path := match usrPath with None => defaultPath | Some p => p end in
  e ← existsSync path;
  if e : bool then
    rawData ← readFileSync path;
    lift (toml_parse rawData)
  else mret (VObj []).

Definition readDeploymentList (usrPath : option string) : script C value :=
  readTOML DEPLOYMENT_LIST_PATH usrPath.
Definition readDeploymentArgs (usrPath : option string) : script C value :=
  readTOML DEPLOYMENT_ARG_PATH usrPath.
Definition readFactoryState (usrPath : option string) : script C value :=
  readTOML FACTORY_STATE_PATH usrPath.

Lemma readFactoryState_default w :
  readFactoryState None w = readFactoryState (Some FACTORY_STATE_PATH) w.
Proof. unfold readFactoryState, readTOML. reflexivity. Qed.

Lemma readTOML_file d s w data :
  node_at (files w) (path_of s) = Some (File data) →
  readTOML d (Some s) w = (toml_parse data, w).
Proof.
  intros Hn. unfold readTOML, existsSync, readFileSync. run_step.
  rewrite bool_decide_eq_true_2 by eauto. unfold mbind, M_bind. cbn. by rewrite Hn.
Qed.

Lemma readTOML_missing d s (w : world C) :
  node_at (files w) (path_of s) = None → readTOML d (Some s) w = (Ok (VObj []), w).
Proof.
  intros Hn. unfold readTOML, existsSync. run_step.
  rewrite bool_decide_eq_false_2; [done|]. rewrite Hn. by intros [? [=]].
Qed.

Lemma readTOML_dir d s (w : world C) :
  node_at (files w) (path_of s) = Some Dir → readTOML d (Some s) w = (Throw (Rejected "EISDIR"), w).
Proof.
  intros Hn. unfold readTOML, existsSync, readFileSync. run_step.
  rewrite bool_decide_eq_true_2 by eauto. unfold mbind, M_bind. cbn. by rewrite Hn.
Qed.

(** Reading a configuration never changes the world. *)
Lemma readTOML_pure d u (w : world C) : (readTOML d u w).2 = w.
Proof.
  unfold readTOML, existsSync, readFileSync. run_step. case_bool_decide; [|done].
  unfold mbind, M_bind. by destruct (node_at _ _) as [[]|].
Qed.

(** What is read is a document. *)
Lemma readTOML_doc `{!TomlLaws} d u (w : world C) p :
  readTOML d u w = (Ok (VObj p), w) → toml_value (VObj p) = true ∧ plain (VObj p) = true.
Proof.
  unfold readTOML, existsSync. run_step. case_bool_decide.
  - unfold mbind, M_bind. destruct (readFileSync _ w) as [[s|e] w1]; [|done].
    unfold lift. intros [= Hs _]. by apply toml_parsed in Hs as [].
  - intros [= <-]. done.
Qed.
End config.
