(* ===== verification/Artifacts.v ===== *)
(** * Hardhat artifacts

    What the scripts read of hardhat's artifact store (class [Artifacts],
    produced by the compiler, so a parameter), with the shape of the build
    info they index: [output.contracts[path][name]] with its [abi] and its
    [devdoc]. *)
From S2P Require Import Prelude JsString JsValue.

Record AbiInput := { input_name : string; input_type : string }.
(** One ABI entry; a constructor, fallback or receive entry has no name. *)
Record AbiMethod := {
  method_type : string;
  method_name : option string;
  method_inputs : list AbiInput;
}.
Record ContractOutput := {
  abi : list AbiMethod;
  devdoc : gmap string string;
}.
Record BuildInfo := { contracts_output : gmap string (gmap string ContractOutput) }.
Record Artifact := { artifact_name : string; sourceName : string }.

Class Artifacts := {
  getAllFullyQualifiedNames : list string;
  getBuildInfo : string → outcome (option BuildInfo);
  readArtifact : string → outcome Artifact;
}.

(** The property key a possibly undefined string stands for. *)
Definition key_of (o : option string) : string :=
  match o with Some s => s | None => "undefined" end.

(** [buildInfo.output.contracts[path][name]] followed by a member access. *)
Definition contract_output (b : option BuildInfo) (path name : string) : outcome ContractOutput :=
  b ← of_option (TypeError "Cannot read properties of undefined (reading 'output')") b;
  c ← of_option (TypeError "Cannot read properties of undefined") (contracts_output b !! path);
  of_option (TypeError "Cannot read properties of undefined") (c !! name).
