(* ===== verification/DeploymentUtil.v ===== *)
(** * Deployment arguments and NatSpec tags

    [bridge/scripts/lib/deployment/deploymentUtil.ts]. *)
From S2P Require Import Prelude JsString JsValue Toml World Constants Config Artifacts.

(** ** Data *)

(** [interface ArgData { [key: string]: string }] and the dictionaries of it. *)
Abbreviation ArgData := (dict string).
Abbreviation ContractArgs := (dict (list ArgData)).
(** [interface DeploymentArgs { constructor; initializer }] *)
Record DeploymentArgs := {
  da_constructor : ContractArgs;
  da_initializer : ContractArgs;
}.
(** [type DeployProxyMCArgs] *)
Record DeployProxyMCArgs := {
  mc_contractName : string;
  mc_logicAddress : string;
  mc_factoryAddress : option string;
  mc_initCallData : option string;
  mc_outputFolder : option string;
}.
(** [type DeployArgs] *)
Record DeployArgs := {
  contractName : string;
  factoryAddress : string;
  initCallData : option string;
  constructorArgs : option (list value);
  outputFolder : option string;
}.

(** ** Names: "path/File.sol:Contract" *)
Definition extractPath (fullName : string) : string :=
  match split ":"%char fullName with p :: _ => p | [] => "" end.
Definition extractName (fullName : string) : option string := split ":"%char fullName !! 1.

Section names.
Context `{Artifacts}.

Definition getAllContracts : list string := getAllFullyQualifiedNames.

Definition getContract (name : string) : option string :=
  list_find (λ p, split ":"%char p !! 1 = Some name) getAllFullyQualifiedNames ≫= λ r, Some r.2.

Definition getFullyQualifiedName (contractName : string) : outcome string :=
  contractArtifact ← readArtifact contractName;
  mret (sourceName contractArtifact +:+ ":" +:+ contractName)%string.

Definition getCustomNSTag (fullName tagName : string) : outcome (option string) :=
  buildInfo ← getBuildInfo fullName;
  match buildInfo with
  | Some _ =>
      info ← contract_output buildInfo (extractPath fullName) (key_of (extractName fullName));
      mret (devdoc info !! ("custom:" +:+ tagName)%string)
  | None => Throw (Error ("Failed to get natspec tag " +:+ tagName))
  end.

Definition getSalt (fullName : string) : outcome (option string) := getCustomNSTag fullName "salt".
Definition getDeployType (fullName : string) : outcome (option string) :=
  getCustomNSTag fullName "deploy-type".
Definition getDeployGroup (fullName : string) : outcome (option string) :=
  getCustomNSTag fullName "deploy-group".
Definition getDeployGroupIndex (fullName : string) : outcome (option string) :=
  getCustomNSTag fullName "deploy-group-index".

Definition isInitializable (fullName : string) : outcome bool :=
  buildInfo ← getBuildInfo fullName;
  info ← contract_output buildInfo (extractPath fullName) (key_of (extractName fullName));
  mret (existsb (λ m, bool_decide (method_name m = Some INITIALIZER)) (abi info)).

(** The first constructor entry decides. *)
Fixpoint constructor_takes_args (methods : list AbiMethod) : bool :=
  match methods with
  | [] => false
  | m :: ms =>
      if decide (method_type m = "constructor") then (0 <? length (method_inputs m))%nat
      else constructor_takes_args ms
  end.

Definition hasConstructorArgs (fullName : string) : outcome bool :=
  buildInfo ← getBuildInfo fullName;
  info ← contract_output buildInfo (extractPath fullName) (key_of (extractName fullName));
  mret (constructor_takes_args (abi info)).
End names.

(** ** Arguments *)

(** [String(v)] for the elements of [args.toString()]; [undefined] and [null]
    are empty there. *)
Fixpoint to_js_string (v : value) : string :=
  match v with
  | VUndef | VNull => ""
  | VBool b => if b then "true" else "false"
  | VNum n | VBig n => num_to_string 10 n
  | VStr s => s
  | VArr l => join "," (map to_js_string l)
  | VObj _ => "[object Object]"
  | VFun name => "function " +:+ name
  end.

(** [args.toString()] is the comma separated list of the arguments. *)
Definition getEncodedInitCallData (args : option (list value)) : option string :=
  match args with
  | Some args => Some (join "," (map to_js_string args))
  | None => None
  end.

(** [argData[Object.keys(argData)[0]]]: the value of the first key. *)
Definition extractArg (argData : value) : outcome value :=
  match argData with
  | VObj p => Ok (default (inherited "undefined") (dget (key_of (head (own_keys p))) p))
  | VArr (x :: _) => Ok x
  | VStr (String c _) => Ok (VStr (String c EmptyString))
  | VUndef | VNull => Throw (TypeError "Cannot convert undefined or null to object")
  | v => get "undefined" v
  end.
Definition extractArgs (input : value) : outcome (list value) :=
  match input with
  | VArr l => mapM extractArg l
  | VStr s => Ok (map (λ c, VStr (String c EmptyString)) (chars s))
  | VUndef | VNull => Throw (TypeError "Cannot read properties of undefined (reading 'length')")
  | _ => Ok []
  end.

Section args.
Context {C : Type} `{Toml} `{Artifacts}.

Definition template_path (configDirPath : option string) : string :=
  match configDirPath with
  | None => DEFAULT_CONFIG_OUTPUT_DIR +:+ "/deploymentArgsTemplate"
  | Some d => d +:+ "/deploymentArgsTemplate"
  end.

(** The arguments under [config.<section>[fullName]], when both are defined. *)
Definition section_args (section fullName : string) (config : value) : outcome (option (list value)) :=
  sec ← get section config;
  if is_undefined sec then mret None
  else
    input ← get fullName sec;
    if is_undefined input then mret None
    else (args ← extractArgs input; mret (Some args)).

Definition getDeploymentConstructorArgs (fullName : string) (configDirPath : option string)
    : script C (list value) :=
  deploymentConfig ← readDeploymentArgs (Some (template_path configDirPath));
  if is_undefined deploymentConfig then mret []
  else
    args ← lift (section_args "constructor" fullName deploymentConfig);
    mret (default [] args).

Definition getDeploymentInitializerArgs (fullName : string) (configDirPath : option string)
    : script C (option (list value)) :=
  deploymentConfig ← readDeploymentArgs (Some (template_path configDirPath));
  if is_undefined deploymentConfig then mret None
  else lift (section_args "initializer" fullName deploymentConfig).

Definition getDeployMetaArgs (fullName factoryAddr : string)
    (inputFolder outFolder : option string) : script C DeployArgs :=
  initAble ← lift (isInitializable fullName);
  initData ← (if initAble : bool then
                initializerArgs ← getDeploymentInitializerArgs fullName inputFolder;
                mret (getEncodedInitCallData initializerArgs)
              else mret None);
  hasConArgs ← lift (hasConstructorArgs fullName);
  conArgs ← (if hasConArgs : bool then
               args ← getDeploymentConstructorArgs fullName inputFolder; mret (Some args)
             else mret None);
  mret {| contractName := key_of (extractName fullName); factoryAddress := factoryAddr;
          initCallData := initData; constructorArgs := conArgs; outputFolder := outFolder |}.

Definition getDeployUpgradeableProxyArgs (fullName factoryAddr : string)
    (inputFolder outFolder : option string) : script C DeployArgs :=
  initAble ← lift (isInitializable fullName);
  initData ← (if initAble : bool then
                initializerArgs ← getDeploymentInitializerArgs fullName inputFolder;
                mret (getEncodedInitCallData initializerArgs)
              else mret None);
  hasConArgs ← lift (hasConstructorArgs fullName);
  conArgs ← (if hasConArgs : bool then
               args ← getDeploymentConstructorArgs fullName inputFolder; mret (Some args)
             else mret None);
  mret {| contractName := key_of (extractName fullName); factoryAddress := factoryAddr;
          initCallData := initData; constructorArgs := conArgs; outputFolder := outFolder |}.
End args.
