(* ===== verification/DeploymentList.v ===== *)
(** * The deployment list

    [bridge/scripts/lib/deployment/deploymentListUtil.ts]: the contracts to
    deploy, in deployment order: grouped by the [deploy-group] tag, the members
    of a group by their [deploy-group-index]. *)
From S2P Require Import Prelude JsString JsValue Toml World Constants Config Artifacts.
From S2P Require Import DeploymentUtil.

(** [interface ContractDeploymentInfo] *)
Record ContractDeploymentInfo := { contract : string; index : jsnum }.
#[export] Instance info_eq_dec : EqDecision ContractDeploymentInfo.
Proof. solve_decision. Defined.
(** [type DeploymentList = { [key: string]: Array<ContractDeploymentInfo> }] *)
Abbreviation DeploymentList := (dict (list ContractDeploymentInfo)).

Section list.
Context {C : Type} `{Toml} `{Artifacts}.

Definition list_path (configDirPath : option string) : string :=
  match configDirPath with
  | None => DEFAULT_CONFIG_OUTPUT_DIR +:+ DEPLOYMENT_LIST_FPATH
  | Some d => d +:+ DEPLOYMENT_LIST_FPATH
  end.

Definition getDeploymentList (configDirPath : option string) : script C value :=
  let path := list_path configDirPath in
  config ← readDeploymentList (Some path);
  deploymentList ← lift (get "deploymentList" config);
  if is_undefined deploymentList then
    throw (Error ("failed to fetch deployment list at path " +:+ path))
  else mret deploymentList.

Definition transformDeploymentList (deploymentlist : DeploymentList) : list string :=
  concat (map (λ group, map contract (default [] (dget group deploymentlist)))
            (own_keys deploymentlist)).

(** The group and the index a contract is listed under. *)
Definition group_and_index (contract : string) : outcome (string * jsnum) :=
  group ← getDeployGroup contract;
  match group with
  | Some group =>
      indexString ← getDeployGroupIndex contract;
      match indexString with
      | None =>
          Throw (Error "If deploy-group-index is specified a deploy-group-index also should be!")
      | Some s => Ok (group, parse_int None s)
      end
  | None => Ok ("general", JInt (-1))
  end.

(** [deploymentList[group].push({ contract, index })], creating the group; a
    group named like an inherited member finds a function there. *)
Definition push_contract (group : string) (info : ContractDeploymentInfo) (l : DeploymentList)
    : outcome DeploymentList :=
  match dget group l with
  | Some infos => Ok (dset group (infos ++ [info]) l)
  | None =>
      if decide (group ∈ object_prototype) then Throw (TypeError "push is not a function")
      else Ok (dset group [info] l)
  end.

Definition add_contract (deploymentList : DeploymentList) (c : string) : outcome DeploymentList :=
  deployType ← getDeployType c;
  gi ← group_and_index c;
  match deployType with
  | Some _ => push_contract gi.1 {| contract := c; index := gi.2 |} deploymentList
  | None => Ok deploymentList
  end.

Fixpoint add_contracts (deploymentList : DeploymentList) (contracts : list string)
    : outcome DeploymentList :=
  match contracts with
  | [] => Ok deploymentList
  | c :: cs => l ← add_contract deploymentList c; add_contracts l cs
  end.

Definition index_cmp (a b : ContractDeploymentInfo) : jsnum := num_sub (index a) (index b).

(** Every group but "general" is sorted in place.  With an index that is no
    number the comparison is inconsistent and JS leaves the order to the engine;
    [js_sort] fixes one. *)
Definition sort_group (g : string) (infos : list ContractDeploymentInfo) :=
  if decide (g = "general") then infos else js_sort index_cmp infos.
Definition sort_groups (l : DeploymentList) : DeploymentList :=
  map (λ kv, (kv.1, sort_group kv.1 kv.2)) l.

Definition getSortedDeployList (contracts : list string) : outcome DeploymentList :=
  deploymentList ← add_contracts [] contracts;
  mret (sort_groups deploymentList).

Definition WARNING_LINE : string :=
  "# WARNING: THIS IS AN AUTOGENERATED FILE ANY CHANGES WILL BE LOST REFERENCE DOCUMENTATION FOR MORE INFORMATION".

(** The file is written, read back as lines, and written again with the
    warning in front. *)
Definition writeDeploymentList (l : list string) (configDirPath : option string) : script C () :=
  let path := list_path configDirPath in
  config ← readDeploymentList (Some path);
  _ ← lift (get "deploymentList" config);
  config ← lift (set "deploymentList" (VArr (map VStr l)) config);
  data ← lift (toml_stringify config);
  _ ← writeFileSync path data;
  text ← readFileSync path;
  let output := WARNING_LINE :: split "010"%char text in
  writeFileSync path (join (String "010" "") output).
End list.

(** ** What the list holds *)
Section list_laws.
Context `{Artifacts}.

(** The group and entry of a contract that has a deploy type. *)
Definition deployable (c : string) : option (string * ContractDeploymentInfo) :=
  match getDeployType c, group_and_index c with
  | Ok (Some _), Ok gi => Some (gi.1, {| contract := c; index := gi.2 |})
  | _, _ => None
  end.

(** The entries of a group, in the order of the contracts. *)
Definition members (g : string) (cs : list string) : list ContractDeploymentInfo :=
  omap (λ c, match deployable c with
             | Some (g', info) => if decide (g' = g) then Some info else None
             | None => None
             end) cs.

Lemma push_contract_ok g info l l' :
  push_contract g info l = Ok l' → l' = dset g (default [] (dget g l) ++ [info]) l.
Proof. unfold push_contract. destruct (dget g l); [|case_decide]; by intros [= <-]. Qed.

Lemma add_contract_ok l c l' :
  add_contract l c = Ok l' →
  match deployable c with
  | Some (g, info) => l' = dset g (default [] (dget g l) ++ [info]) l
  | None => l' = l
  end.
Proof.
  unfold add_contract, deployable. intros (t & -> & H')%outcome_bind_ok.
  apply outcome_bind_ok in H' as (gi & -> & H'). destruct t as [t|].
  - by apply push_contract_ok in H'.
  - by injection H' as <-.
Qed.

Lemma add_contracts_get l cs l' g :
  add_contracts l cs = Ok l' →
  default [] (dget g l') = default [] (dget g l) ++ members g cs.
Proof.
  revert l. induction cs as [|c cs IH]; intros l; cbn [add_contracts].
  - intros [= <-]. cbn. by rewrite app_nil_r.
  - intros (l1 & H1 & H2)%outcome_bind_ok. rewrite (IH _ H2).
    apply add_contract_ok in H1. unfold members. cbn [omap list_omap].
    destruct (deployable c) as [[g' info]|]; [|by subst]. subst l1.
    destruct (decide (g' = g)) as [->|Hne].
    + rewrite dget_dset_eq. cbn [from_option id]. by rewrite <- app_assoc.
    + by rewrite dget_dset_ne.
Qed.

Lemma dset_values_perm {A} (g : string) (x : A) (l : dict (list A)) :
  concat (dset g (default [] (dget g l) ++ [x]) l).*2 ≡ₚ concat l.*2 ++ [x].
Proof.
  induction l as [|[k1 a1] l IH]; cbn; [done|].
  destruct (decide (k1 = g)) as [->|Hne]; cbn.
  - rewrite <- !app_assoc. apply Permutation_app_head, Permutation_app_comm.
  - rewrite IH. by rewrite app_assoc.
Qed.

Lemma add_contracts_all l cs l' :
  add_contracts l cs = Ok l' → NoDup l.*1 →
  NoDup l'.*1 ∧ concat l'.*2 ≡ₚ concat l.*2 ++ omap (λ c, deployable c ≫= λ gi, Some gi.2) cs.
Proof.
  revert l. induction cs as [|c cs IH]; intros l; cbn [add_contracts].
  - intros [= <-] Hnd. cbn. by rewrite app_nil_r.
  - intros (l1 & H1 & H2)%outcome_bind_ok Hnd. apply add_contract_ok in H1.
    cbn [omap list_omap].
    destruct (deployable c) as [[g info]|]; subst l1; [|by apply IH].
    destruct (IH _ H2) as [Hnd' Hp]; [by apply dset_nodup|]. split; [done|].
    rewrite Hp, dset_values_perm. cbn. by rewrite <- app_assoc.
Qed.

Lemma sort_groups_keys l : (sort_groups l).*1 = l.*1.
Proof. unfold sort_groups. induction l as [|kv l IH]; [done|]. cbn. by f_equal. Qed.

Lemma dget_sort_groups g l : dget g (sort_groups l) = sort_group g <$> dget g l.
Proof. apply dget_map. Qed.

Lemma transform_values l :
  NoDup l.*1 → transformDeploymentList l ≡ₚ map contract (concat l.*2).
Proof.
  intros Hnd. unfold transformDeploymentList. rewrite own_keys_perm.
  rewrite <- (map_map (λ g, dget g l) (λ o, map contract (default [] o))).
  rewrite dget_all, map_map by done. by rewrite concat_map.
Qed.
End list_laws.

Lemma deployable_contract `{Artifacts} c g info :
  deployable c = Some (g, info) → contract info = c.
Proof.
  unfold deployable. destruct (getDeployType c) as [[t|]|]; [|done..].
  destruct (group_and_index c); [|done]. by intros [= <- <-].
Qed.

Lemma deployable_names `{Artifacts} cs :
  map contract (omap (λ c, deployable c ≫= λ gi, Some gi.2) cs)
  = filter (λ c, is_Some (deployable c)) cs.
Proof.
  induction cs as [|c cs IH]; [done|]. cbn [omap list_omap]. rewrite filter_cons.
  destruct (deployable c) as [[g info]|] eqn:Hc; cbn [mbind option_bind].
  - rewrite decide_True by eauto. cbn. by rewrite IH, (deployable_contract _ _ _ Hc).
  - rewrite decide_False; [exact IH|]. by intros [? [=]].
Qed.

Lemma add_contracts_none `{Artifacts} l cs l' g :
  add_contracts l cs = Ok l' → members g cs = [] → dget g l' = dget g l.
Proof.
  revert l. induction cs as [|c cs IH]; intros l; cbn [add_contracts].
  - by intros [= <-].
  - intros (l1 & H1 & H2)%outcome_bind_ok. unfold members. cbn [omap list_omap].
    apply add_contract_ok in H1. destruct (deployable c) as [[g' info]|].
    + destruct (decide (g' = g)) as [->|Hne]; [done|]. intros Hm.
      rewrite (IH _ H2 Hm), H1. by rewrite dget_dset_ne.
    + intros Hm. by rewrite (IH _ H2 Hm), H1.
Qed.

Lemma getSortedDeployList_get `{Artifacts} cs dl g :
  getSortedDeployList cs = Ok dl → default [] (dget g dl) = sort_group g (members g cs).
Proof.
  intros (l & Hl & [= <-])%outcome_bind_ok. rewrite dget_sort_groups.
  pose proof (add_contracts_get _ _ _ g Hl) as Hg. cbn in Hg. rewrite <- Hg.
  destruct (dget g l); [done|]. unfold sort_group. by case_decide.
Qed.

(** ** Properties *)
Section list_properties.
Context `{Artifacts}.

(** What the tags of a contract say: it has a deploy type, and it names its group
    and index or belongs to "general". *)
Definition listed_under (g : string) (info : ContractDeploymentInfo) : Prop :=
  (∃ t, getDeployType (contract info) = Ok (Some t)) ∧
  ((∃ s, getDeployGroup (contract info) = Ok (Some g) ∧
         getDeployGroupIndex (contract info) = Ok (Some s) ∧ index info = parse_int None s)
   ∨ (getDeployGroup (contract info) = Ok None ∧ g = "general" ∧ index info = JInt (-1))).

Lemma deployable_listed c g info :
  deployable c = Some (g, info) ↔ contract info = c ∧ listed_under g info.
Proof.
  split.
  - intros Hd. pose proof (deployable_contract _ _ _ Hd) as Hc. split; [done|]. subst c. revert Hd.
    unfold deployable, group_and_index, listed_under.
    destruct (getDeployType (contract info)) as [[t|]|]; [|done..].
    destruct (getDeployGroup (contract info)) as [[g'|]|]; [| |done]; cbn.
    + destruct (getDeployGroupIndex (contract info)) as [[s|]|]; [|done..]; cbn.
      intros [= <- <-]. eauto 8.
    + intros [= <- <-]. eauto 8.
  - intros (<- & (t & Ht) & Hg). unfold deployable, group_and_index. rewrite Ht. destruct info as [c i].
    cbn in *. destruct Hg as [(s & -> & Hs & ->)|(-> & -> & ->)]; [|done]. cbn. by rewrite Hs.
Qed.
Lemma members_cons g c cs :
  members g (c :: cs)
  = match deployable c with
    | Some (g', info) => if decide (g' = g) then info :: members g cs else members g cs
    | None => members g cs
    end.
Proof. unfold members. cbn. destruct (deployable c) as [[g' info]|]; [|done]. by case_decide. Qed.
Lemma members_elem g cs info : info ∈ members g cs ↔ contract info ∈ cs ∧ listed_under g info.
Proof.
  unfold members. rewrite list_elem_of_omap. split.
  - intros (c & Hc & Hd). destruct (deployable c) as [[g' i]|] eqn:E; [|done].
    case_decide; [|done]. injection Hd as ->. subst g'. by apply deployable_listed in E as [<- ?].
  - intros [Hc Hl]. exists (contract info). split; [done|].
    rewrite (proj2 (deployable_listed _ _ _) (conj eq_refl Hl)). by rewrite decide_True.
Qed.
(** A contract is listed as often as the artifacts name it. *)
Lemma members_count g cs info :
  listed_under g info →
  length (filter (λ i, i = info) (members g cs)) = length (filter (λ c, c = contract info) cs).
Proof.
  intros Hl. pose proof (proj2 (deployable_listed _ _ _) (conj eq_refl Hl)) as Hd.
  induction cs as [|c cs IH]; [done|]. rewrite members_cons, (filter_cons _ c).
  destruct (decide (c = contract info)) as [->|Hne].
  - rewrite Hd, decide_True by done. rewrite filter_cons, decide_True by done. cbn. by rewrite IH.
  - destruct (deployable c) as [[g' i]|] eqn:E; [|done]. case_decide; [|done].
    rewrite filter_cons, decide_False; [done|]. intros ->. by apply deployable_contract in E.
Qed.
Lemma members_sublist g cs : map contract (members g cs) `sublist_of` cs.
Proof.
  induction cs as [|c cs IH]; [done|]. rewrite members_cons.
  destruct (deployable c) as [[g' i]|] eqn:E; [|by apply sublist_cons].
  case_decide; [|by apply sublist_cons]. cbn. rewrite (deployable_contract _ _ _ E). by apply sublist_skip.
Qed.
Lemma sort_group_perm g infos : sort_group g infos ≡ₚ infos.
Proof. unfold sort_group. case_decide; [done|]. apply js_sort_any_perm. Qed.

Definition int_index (info : ContractDeploymentInfo) : option Z :=
  match index info with JInt z => Some z | _ => None end.
(** With integer indices the sort is the stable sort by index. *)
Lemma sort_group_ints g infos :
  g ≠ "general" → Forall (λ info, is_Some (int_index info)) infos →
  StronglySorted (λ a b, default 0 (int_index a) ≤ default 0 (int_index b))%Z (sort_group g infos) ∧
  ∀ k, filter (λ a, default 0%Z (int_index a) = k) (sort_group g infos)
       = filter (λ a, default 0%Z (int_index a) = k) infos.
Proof.
  intros Hg Hint. unfold sort_group. rewrite decide_False by done.
  set (key a := default 0%Z (int_index a)).
  rewrite (js_sort_ext _ (λ a b, num_sub (JInt (key a)) (JInt (key b)))).
  - split; [apply js_sort_sorted|]. intros k. apply js_sort_stable.
  - rewrite Forall_forall in Hint. intros a b [x Hx]%Hint [y Hy]%Hint.
    unfold index_cmp, key, int_index in *. by destruct (index a), (index b).
Qed.

(** C18: when [getSortedDeployList] succeeds, a group lists, as often as the
    artifacts name it, each contract that has a deploy type and whose tags name
    the group and the index it is listed with ("general" and -1 when it has no
    group), and nothing else; "general" is in the order of the artifacts, another
    group whose indices are all integers in ascending order of index; and a group
    with no such contract is absent. *)
Theorem getSortedDeployList_groups cs dl g :
  getSortedDeployList cs = Ok dl →
  let infos := default [] (dget g dl) in
  (∀ info, info ∈ infos ↔ contract info ∈ cs ∧ listed_under g info) ∧
  (∀ info, listed_under g info →
     length (filter (λ i, i = info) infos) = length (filter (λ c, c = contract info) cs)) ∧
  (g = "general" → map contract infos `sublist_of` cs) ∧
  (g ≠ "general" → Forall (λ info, is_Some (int_index info)) infos →
   StronglySorted (λ a b, default 0 (int_index a) ≤ default 0 (int_index b))%Z infos) ∧
  (infos = [] → dget g dl = None).
Proof.
  intros Hdl infos. pose proof (getSortedDeployList_get cs dl g Hdl) as Hget. fold infos in Hget.
  assert (infos ≡ₚ members g cs) as Hp by (rewrite Hget; apply sort_group_perm).
  split_and!.
  - intros info. rewrite Hp. apply members_elem.
  - intros info Hl. rewrite <- (members_count g cs info Hl). by rewrite Hp.
  - intros Hg. rewrite Hget. unfold sort_group. rewrite decide_True by done. apply members_sublist.
  - intros Hg Hint. rewrite Hget in *. apply sort_group_ints; [done|].
    by rewrite sort_group_perm in Hint.
  - intros Hnil. rewrite Hnil in Hp. apply Permutation_nil_l in Hp. symmetry in Hp.
    apply outcome_bind_ok in Hdl as (l & Hl & [= <-]). rewrite dget_sort_groups.
    by rewrite (add_contracts_none _ _ _ _ Hl Hp).
Qed.

(** C5: in a deploy group whose indices are all integers the listed entries
    are a permutation of the group's contracts, in ascending order of index, and
    entries of one index keep the order of the artifacts. *)
Theorem getSortedDeployList_sorted cs dl g :
  getSortedDeployList cs = Ok dl → g ≠ "general" →
  Forall (λ info, is_Some (int_index info)) (members g cs) →
  let infos := default [] (dget g dl) in
  infos ≡ₚ members g cs ∧
  StronglySorted (λ a b, default 0 (int_index a) ≤ default 0 (int_index b))%Z infos ∧
  ∀ k, filter (λ a, default 0%Z (int_index a) = k) infos
       = filter (λ a, default 0%Z (int_index a) = k) (members g cs).
Proof.
  intros Hdl Hg Hint. cbn. rewrite (getSortedDeployList_get _ _ _ Hdl).
  split; [apply sort_group_perm|by apply sort_group_ints].
Qed.

(** Every deployable contract is listed once. *)
Lemma add_contracts_transform cs l :
  add_contracts [] cs = Ok l →
  transformDeploymentList (sort_groups l) ≡ₚ filter (λ c, is_Some (deployable c)) cs.
Proof.
  intros Hl. destruct (add_contracts_all _ _ _ Hl NoDup_nil_2) as [Hnd Hp].
  rewrite transform_values by by rewrite sort_groups_keys.
  assert (concat (sort_groups l).*2 ≡ₚ concat l.*2) as ->.
  { clear. unfold sort_groups. induction l as [|[g infos] l IH]; [done|]. cbn.
    apply Permutation_app; [|exact IH]. apply sort_group_perm. }
  rewrite Hp. cbn [fmap list_fmap concat app]. by rewrite deployable_names.
Qed.
Lemma listed_elem cs dl c :
  getSortedDeployList cs = Ok dl → c ∈ transformDeploymentList dl → c ∈ cs ∧ is_Some (deployable c).
Proof.
  intros (l & Hl & [= <-])%outcome_bind_ok. rewrite (add_contracts_transform _ _ Hl).
  rewrite list_elem_of_filter. tauto.
Qed.

(** C19: the flattened list holds every contract that has a deploy type, as
    often as the artifacts name it, and no other contract. *)
Theorem transformDeploymentList_complete cs dl :
  getSortedDeployList cs = Ok dl →
  transformDeploymentList dl ≡ₚ filter (λ c, is_Some (deployable c)) cs.
Proof. intros (l & Hl & [= <-])%outcome_bind_ok. by apply add_contracts_transform. Qed.
End list_properties.

(** ** The list file *)
Section list_file.
Context {C : Type} `{Toml} `{!TomlLaws}.
Implicit Types w : world C.

Lemma warning_text data :
  join (String "010" "") (WARNING_LINE :: split "010"%char data)
  = (WARNING_LINE +:+ String "010" data)%string.
Proof.
  rewrite join_cons; [by rewrite join_split|].
  destruct (split_cons "010"%char data) as (x & xs & ->). done.
Qed.

Lemma warning_is_comment data :
  toml_parse (WARNING_LINE +:+ String "010" data)%string = toml_parse data.
Proof. apply (toml_comment (slice 1 WARNING_LINE)). apply (bool_decide_unpack (free_of _ _)). by vm_compute. Qed.

(** What the file holds after a list is written. *)
Definition holds_list (l : list string) (data : string) : Prop :=
  ∃ c v, toml_parse data = Ok c ∧ get "deploymentList" c = Ok v ∧ v ≈ VArr (map VStr l).

Lemma writeDeploymentList_ok l dir w p :
  let path := path_of (list_path dir) in
  writable (files w) path = true →
  readDeploymentList (Some (list_path dir)) w = (Ok (VObj p), w) →
  ∃ data, holds_list l data ∧
    writeDeploymentList l dir w = (Ok tt, with_files (<[path := File data]> (files w)) w).
Proof.
  intros path Hwr Hread. destruct (readTOML_doc DEPLOYMENT_LIST_PATH (Some (list_path dir)) w p Hread) as [Hp _].
  assert (toml_document (VObj (dset "deploymentList" (VArr (map VStr l)) p)) = true) as Hdoc
    by (apply toml_value_dset; [done|apply toml_value_strings]).
  destruct (toml_total _ Hdoc) as [s Hs].
  destruct (roundtrip_get "deploymentList" _ _ _ Hdoc Hs (dget_dset_eq _ _ _))
    as (c & v & Hc & Hv & Hveq); [done..|]. rewrite toml_image_strings in Hveq.
  exists (WARNING_LINE +:+ String "010" s)%string. split.
  - exists c, v. by rewrite warning_is_comment.
  - unfold writeDeploymentList. run Hread. run_step. cbn [get set]. run_step.
    rewrite Hs. run_step. run (writeFileSync_ok (list_path dir) s w Hwr).
    run (readFileSync_written (list_path dir) s w Hwr).
    rewrite warning_text, writeFileSync_ok by by apply writable_written.
    cbn. by rewrite insert_insert_eq.
Qed.

Lemma getDeploymentList_held l dir w data :
  node_at (files w) (path_of (list_path dir)) = Some (File data) → holds_list l data →
  ∃ v, getDeploymentList dir w = (Ok v, w) ∧ v ≈ VArr (map VStr l).
Proof.
  intros Hn (c & v & Hc & Hv & Hveq). exists v. split; [|done].
  unfold getDeploymentList, readDeploymentList.
  rewrite (bind_ok _ _ _ _ _ (eq_trans (readTOML_file DEPLOYMENT_LIST_PATH _ _ _ Hn)
    (f_equal2 pair Hc eq_refl))).
  rewrite Hv. run_step. by rewrite (not_undefined_arr _ _ Hveq).
Qed.

(** C20: writing a deployment list succeeds when the file can be written and its
    current content is a document, keeps every other file, and reading the list
    back gives the contracts that were written, in order. *)
Theorem writeDeploymentList_roundtrip l dir w p :
  let path := path_of (list_path dir) in
  writable (files w) path = true →
  readDeploymentList (Some (list_path dir)) w = (Ok (VObj p), w) →
  ∃ data v,
    let w' := with_files (<[path := File data]> (files w)) w in
    writeDeploymentList l dir w = (Ok tt, w') ∧
    getDeploymentList dir w' = (Ok v, w') ∧
    v ≈ VArr (map VStr l).
Proof.
  intros path Hwr Hread.
  destruct (writeDeploymentList_ok l dir w p Hwr Hread) as (data & Hh & Hw).
  destruct (getDeploymentList_held l dir (with_files (<[path := File data]> (files w)) w) data)
    as (v & Hv & Hveq); [by apply node_at_written|done|]. by exists data, v.
Qed.
End list_file.
