(* ===== verification/DeployArgs.v ===== *)
(** * The argument template

    [bridge/scripts/lib/deployment/deployArgUtil.ts]: from the ABI of each
    contract, the names of its constructor and initializer arguments, written
    to a TOML file whose values the deployer fills in. *)
From S2P Require Import Prelude JsString JsValue Toml World Constants Config Artifacts.
From S2P Require Import DeploymentUtil.

(** The objects a [DeploymentArgs] is made of. *)
Definition argData_value (a : ArgData) : value := VObj (map (λ kv, (kv.1, VStr kv.2)) a).
Definition contractArgs_value (c : ContractArgs) : value :=
  VObj (map (λ kv, (kv.1, VArr (map argData_value kv.2))) c).
Definition deploymentArgs_value (d : DeploymentArgs) : value :=
  VObj [("constructor", contractArgs_value (da_constructor d));
        ("initializer", contractArgs_value (da_initializer d))].

Section args.
Context {C : Type} `{Toml} `{Artifacts}.

Definition args_path (configDirPath : option string) : string :=
  match configDirPath with
  | None => DEPLOYMENT_ARG_PATH +:+ DEPLOYMENT_ARGS_TEMPLATE_FPATH
  | Some d => d +:+ DEPLOYMENT_ARGS_TEMPLATE_FPATH
  end.

Definition writeDeploymentArgs (deploymentArgs : DeploymentArgs) (configDirPath : option string)
    : script C () :=
  let path := args_path configDirPath in
  data ← lift (toml_stringify (deploymentArgs_value deploymentArgs));
  writeFileSync path data.
End args.

Section abi.
Context `{Artifacts}.

Definition getContractABI (fullName : string) : outcome (list AbiMethod) :=
  buildInfo ← getBuildInfo fullName;
  match buildInfo with
  | Some _ =>
      info ← contract_output buildInfo (extractPath fullName) (key_of (extractName fullName));
      mret (abi info)
  | None => Throw (Error ("failed to fetch " +:+ fullName +:+ " abi"))
  end.

(** The field of a method a name is compared with. *)
Definition target (methodName : string) (m : AbiMethod) : option string :=
  if decide (methodName = "constructor") then Some (method_type m) else method_name m.

Definition parseArgsArray (fullName methodName : string) : outcome (list ArgData) :=
  methods ← getContractABI fullName;
  mret (concat (map (λ m,
    if decide (target methodName m = Some methodName)
    then map (λ input, [(input_name input, "UNDEFINED")]) (method_inputs m)
    else []) methods)).

Definition getConstructorArgsABI (fullName : string) : outcome (list ArgData) :=
  parseArgsArray fullName "constructor".
Definition getInitializerArgsABI (fullName : string) : outcome (list ArgData) :=
  parseArgsArray fullName "initialize".

(** The first method whose target is "constructor" decides. *)
Fixpoint method_arg_count (methodName : string) (methods : list AbiMethod) : nat :=
  match methods with
  | [] => 0
  | m :: ms =>
      if decide (target methodName m = Some "constructor") then length (method_inputs m)
      else method_arg_count methodName ms
  end.
Definition getMethodArgCount (fullName methodName : string) : outcome nat :=
  methods ← getContractABI fullName; mret (method_arg_count methodName methods).

Fixpoint initializer_arg_count (methods : list AbiMethod) : nat :=
  match methods with
  | [] => 0
  | m :: ms =>
      if decide (method_name m = Some "initialize") then length (method_inputs m)
      else initializer_arg_count ms
  end.
Definition getInitializerArgCount (fullName : string) : outcome nat :=
  methods ← getContractABI fullName; mret (initializer_arg_count methods).

(** One turn of the loop over the list: sections get an entry when the contract
    has arguments. *)
Definition add_template (acc : DeploymentArgs) (contract : string) : outcome DeploymentArgs :=
  cArgs ← getConstructorArgsABI contract;
  iArgs ← getInitializerArgsABI contract;
  mret {|
    da_constructor :=
      if (length cArgs =? 0)%nat then da_constructor acc
      else dset contract cArgs (da_constructor acc);
    da_initializer :=
      if (length iArgs =? 0)%nat then da_initializer acc
      else dset contract iArgs (da_initializer acc) |}.

Fixpoint add_templates (acc : DeploymentArgs) (list : list string) : outcome DeploymentArgs :=
  match list with
  | [] => Ok acc
  | c :: cs => acc ← add_template acc c; add_templates acc cs
  end.

Definition generateDeployArgTemplate (list : list string) : outcome DeploymentArgs :=
  add_templates {| da_constructor := []; da_initializer := [] |} list.
End abi.

(** ** The template and what a deployment reads from it *)
Section template.
Context `{Artifacts}.

Lemma parseArgsArray_shape fullName m l :
  parseArgsArray fullName m = Ok l → Forall (λ a, ∃ n, a = [(n, "UNDEFINED")]) l.
Proof.
  intros (ms & _ & [= <-])%outcome_bind_ok. induction ms as [|x ms IH]; cbn; [done|].
  apply Forall_app. split; [|exact IH]. case_decide; [|done].
  apply Forall_map, Forall_true. eauto.
Qed.

Lemma add_templates_get acc l d c :
  add_templates acc l = Ok d →
  dget c (da_constructor d)
  = (if decide (c ∈ l) then
       match getConstructorArgsABI c with
       | Ok (x :: xs) => Some (x :: xs)
       | _ => dget c (da_constructor acc)
       end
     else dget c (da_constructor acc)) ∧
  dget c (da_initializer d)
  = (if decide (c ∈ l) then
       match getInitializerArgsABI c with
       | Ok (x :: xs) => Some (x :: xs)
       | _ => dget c (da_initializer acc)
       end
     else dget c (da_initializer acc)).
Proof.
  revert acc. induction l as [|c' l IH]; intros acc; cbn [add_templates].
  - intros [= <-]. done.
  - intros (acc' & Ha & Hl)%outcome_bind_ok. destruct (IH _ Hl) as [-> ->]. clear IH Hl.
    apply outcome_bind_ok in Ha as (ca & Hc & Ha). apply outcome_bind_ok in Ha as (ia & Hi & [= <-]).
    cbn. destruct (decide (c = c')) as [->|Hne].
    + destruct (decide (c' ∈ c' :: l)) as [_|[]]; [|by left]. rewrite Hc, Hi.
      destruct ca, ia; cbn; rewrite ?dget_dset_eq; by destruct (decide (c' ∈ l)).
    + assert (c ∈ c' :: l ↔ c ∈ l) as Hin by (rewrite elem_of_cons; naive_solver).
      destruct (decide (c ∈ c' :: l)), (decide (c ∈ l)); try tauto;
        destruct ca, ia; cbn; by rewrite ?dget_dset_ne.
Qed.
End template.

(** ** Reading arguments back *)

(** Sections whose contracts are listed once, each argument an object with one key. *)
Definition single_args (l : list ArgData) : Prop := Forall (λ a, ∃ n s, a = [(n, s)]) l.
Definition wf_args (c : ContractArgs) : Prop :=
  NoDup c.*1 ∧ Forall (λ kv, single_args kv.2) c.
Definition arg_values (l : list ArgData) : list value := map VStr (concat (map snd <$> l)).

Lemma toml_image_argData `{Toml} a : toml_image (argData_value a) = argData_value a.
Proof.
  unfold argData_value. cbn. f_equal. induction a as [|[n s] a IH]; [done|]. cbn. by rewrite IH.
Qed.

Lemma toml_image_contractArgs `{Toml} c : toml_image (contractArgs_value c) = contractArgs_value c.
Proof.
  unfold contractArgs_value. cbn. f_equal. induction c as [|[n l] c IH]; [done|]. cbn.
  rewrite IH. do 3 f_equal. rewrite map_map. apply map_ext, toml_image_argData.
Qed.

Lemma contractArgs_document c : wf_args c → toml_value (contractArgs_value c) = true.
Proof.
  intros [Hnd Hs]. cbn. apply andb_true_iff. split.
  - apply bool_decide_eq_true. by rewrite <- list_fmap_compose.
  - apply forallb_forall. intros [k v] Hin%in_map_iff. destruct Hin as ([k' l] & [= <- <-] & Hin).
    rewrite Forall_forall in Hs. specialize (Hs _ (proj2 (list_elem_of_In _ _) Hin)). cbn in *.
    apply andb_true_iff. split.
    + apply forallb_forall. intros v (a & <- & Ha)%in_map_iff.
      unfold single_args in Hs. rewrite Forall_forall in Hs.
      destruct (Hs a) as (n & s & ->); [by apply list_elem_of_In|]. cbn.
      by rewrite bool_decide_eq_true_2 by apply NoDup_singleton.
    + destruct l as [|a l]; [done|]. cbn. apply forallb_forall.
      intros v (a' & <- & _)%in_map_iff. by apply bool_decide_eq_true.
Qed.

Lemma deploymentArgs_document d :
  wf_args (da_constructor d) → wf_args (da_initializer d) →
  toml_document (deploymentArgs_value d) = true.
Proof.
  intros Hc Hi. change (toml_document (deploymentArgs_value d)) with
    (toml_value (contractArgs_value (da_constructor d)) &&
     (toml_value (contractArgs_value (da_initializer d)) && true)).
  by rewrite !contractArgs_document.
Qed.

Lemma extractArg_single n s v :
  argData_value [(n, s)] ≈ v → extractArg v = Ok (VStr s).
Proof.
  intros Hv. destruct (veq_obj _ _ Hv) as (q & -> & Hq). cbn in Hq.
  assert (∀ k, k ∈ q.*1 → k = n) as Hk.
  { intros k Hin. specialize (Hq k). destruct (decide (n = k)) as [|Hne]; [done|].
    destruct (dget k q) eqn:Hd; [done|]. by apply dget_None in Hd. }
  assert (dget n q = Some (VStr s)) as Hn.
  { specialize (Hq n). rewrite decide_True in Hq by done. destruct (dget n q) as [x|]; [|done].
    cbn in Hq. f_equal. injection Hq as Hx. assert (VStr s ≈ x) as E by done.
    apply veq_atom in E. by subst. }
  unfold extractArg. destruct (own_keys q) as [|k ks] eqn:Hks.
  - assert (n ∉ q.*1) as Hnot by (rewrite <- own_keys_perm, Hks; apply not_elem_of_nil).
    apply dget_None in Hnot. congruence.
  - cbn. rewrite (Hk k); [by rewrite Hn|]. rewrite <- own_keys_perm, Hks. by left.
Qed.

Lemma extractArgs_singles l v :
  single_args l → VArr (map argData_value l) ≈ v → extractArgs v = Ok (arg_values l).
Proof.
  intros Hl Hv. apply veq_arr in Hv as (l' & -> & Hv). cbn. revert l' Hv.
  induction Hl as [|a l (n & s & ->) Hl IH]; intros l' Hv; cbn in Hv.
  - by apply Forall2_nil_inv_l in Hv as ->.
  - apply Forall2_cons_inv_l in Hv as (x & l1 & Hx & Hl1 & ->). cbn.
    rewrite (extractArg_single _ _ _ Hx). cbn. by rewrite (IH _ Hl1).
Qed.

(** What a section of the file holds for a contract. *)
Lemma section_args_read section fullName config p c :
  VObj p ≈ config → dget section p = Some (contractArgs_value c) → wf_args c →
  fullName ∉ object_prototype →
  section_args section fullName config = Ok (arg_values <$> dget fullName c).
Proof.
  intros Hcfg Hsec [_ Hwf] Hfn. destruct (veq_obj _ _ Hcfg) as (q & -> & _).
  destruct (veq_get_obj _ _ _ _ Hcfg Hsec) as (sec & Hq & Hs).
  destruct (veq_obj _ _ Hs) as (r & -> & Hr). unfold section_args. cbn. rewrite Hq. cbn.
  assert (dget fullName (map (λ kv, (kv.1, VArr (map argData_value kv.2))) c)
    = (λ l, VArr (map argData_value l)) <$> dget fullName c) as Hd
    by apply (dget_map (λ _ l, VArr (map argData_value l))).
  destruct (dget fullName c) as [l|] eqn:Hl.
  - destruct (veq_get_obj fullName _ _ _ Hs Hd) as (v & -> & Hv). cbn.
    assert (single_args l) as Hsl.
    { rewrite Forall_forall in Hwf. apply (Hwf (fullName, l)). by apply dget_elem. }
    rewrite (extractArgs_singles _ _ Hsl Hv).
    apply veq_arr in Hv as (? & -> & _). done.
  - specialize (Hr fullName). rewrite Hd in Hr. destruct (dget fullName r); [done|].
    cbn. unfold inherited. by rewrite decide_False.
Qed.

Lemma placeholder_values l :
  Forall (λ a, ∃ n, a = [(n, "UNDEFINED")]) l →
  arg_values l = replicate (length l) (VStr "UNDEFINED").
Proof. unfold arg_values. induction 1 as [|a l [n ->] Hl IH]; [done|]. cbn. by f_equal. Qed.

Section template_laws.
Context `{Artifacts}.

Lemma wf_args_insert k l c : wf_args c → single_args l → wf_args (dset k l c).
Proof.
  intros [Hnd Hs] Hsl. split; [by apply dset_nodup|].
  clear Hnd. induction Hs as [|[k' l'] c Hx Hc IH]; cbn; [by repeat constructor|].
  case_decide; by constructor.
Qed.
Lemma wf_args_dset k l c :
  wf_args c → Forall (λ a, ∃ n, a = [(n, "UNDEFINED")]) l → wf_args (dset k l c).
Proof.
  intros Hc Hl. apply wf_args_insert; [done|]. eapply Forall_impl; [exact Hl|]. intros a [n ->]; eauto.
Qed.

Lemma add_templates_wf acc l d :
  add_templates acc l = Ok d → wf_args (da_constructor acc) → wf_args (da_initializer acc) →
  wf_args (da_constructor d) ∧ wf_args (da_initializer d).
Proof.
  revert acc. induction l as [|c l IH]; intros acc; cbn [add_templates]; [by intros [= <-]|].
  intros (acc' & Ha & Hl)%outcome_bind_ok Hc Hi. apply (IH _ Hl); clear IH Hl.
  all: apply outcome_bind_ok in Ha as (ca & Hca & Ha);
    apply outcome_bind_ok in Ha as (ia & Hia & [= <-]); cbn; case_match; [done|];
    apply wf_args_dset; eauto using parseArgsArray_shape.
Qed.

Lemma add_templates_abi acc l d c :
  add_templates acc l = Ok d → c ∈ l →
  ∃ cArgs iArgs, getConstructorArgsABI c = Ok cArgs ∧ getInitializerArgsABI c = Ok iArgs.
Proof.
  revert acc. induction l as [|c' l IH]; intros acc; cbn [add_templates].
  - intros _ Hc. by apply not_elem_of_nil in Hc.
  - intros (acc' & Ha & Hl)%outcome_bind_ok [->|Hc]%elem_of_cons; [|by eapply IH].
    apply outcome_bind_ok in Ha as (ca & Hca & Ha).
    apply outcome_bind_ok in Ha as (ia & Hia & _). eauto.
Qed.
End template_laws.

(** ** The template and the ABI *)
Section template_abi.
Context `{Artifacts}.

(** What the compiler put out for a contract. *)
Definition contract_info (fullName : string) (info : ContractOutput) : Prop :=
  ∃ b outputs, getBuildInfo fullName = Ok (Some b) ∧
    contracts_output b !! extractPath fullName = Some outputs ∧
    outputs !! key_of (extractName fullName) = Some info.
Lemma contract_info_unique c info info' : contract_info c info → contract_info c info' → info = info'.
Proof. intros (b & o & Hb & Ho & Hi) (b' & o' & Hb' & Ho' & Hi'). congruence. Qed.

(** The inputs of the methods that satisfy [P], and their entry. *)
Definition inputs_of (P : AbiMethod → Prop) `{∀ m, Decision (P m)} (info : ContractOutput) : list AbiInput :=
  concat (map method_inputs (filter P (abi info))).
Definition placeholders (inputs : list AbiInput) : option (list ArgData) :=
  match inputs with
  | [] => None
  | _ => Some (map (λ i, [(input_name i, "UNDEFINED")]) inputs)
  end.
Lemma placeholders_entry inputs :
  match @Ok (list ArgData) (map (λ i, [(input_name i, "UNDEFINED")]) inputs) with
  | Ok (x :: xs) => Some (x :: xs)
  | _ => None
  end = placeholders inputs.
Proof. by destruct inputs. Qed.
Lemma inputs_of_ext P Q `{∀ m, Decision (P m), ∀ m, Decision (Q m)} info :
  (∀ m, P m ↔ Q m) → inputs_of P info = inputs_of Q info.
Proof. intros HPQ. unfold inputs_of. by rewrite (list_filter_iff P Q) by done. Qed.

Lemma parseArgsArray_inputs fullName m l :
  parseArgsArray fullName m = Ok l →
  ∃ info, contract_info fullName info ∧
    l = map (λ i, [(input_name i, "UNDEFINED")]) (inputs_of (λ a, target m a = Some m) info).
Proof.
  unfold parseArgsArray, getContractABI. intros (ms & Hms & [= <-])%outcome_bind_ok.
  apply outcome_bind_ok in Hms as ([b|] & Hb & Hms); [|done].
  apply outcome_bind_ok in Hms as (info & Hinfo & [= <-]). exists info. split.
  - unfold contract_output in Hinfo. cbn in Hinfo. exists b.
    destruct (contracts_output b !! extractPath fullName) as [outputs|] eqn:Ho; [|done]. cbn in Hinfo.
    destruct (outputs !! key_of (extractName fullName)) as [i|] eqn:Hi; [|done]. injection Hinfo as ->. eauto.
  - unfold inputs_of. induction (abi info) as [|x ms IH]; [done|]. cbn [map concat].
    rewrite filter_cons. destruct (decide (target m x = Some m)) as [Hx|Hx]; [|exact IH].
    cbn [map concat]. by rewrite map_app, IH.
Qed.
End template_abi.

(** ** Properties *)
Section args_properties.
Context {C : Type} `{Toml} `{!TomlLaws} `{Artifacts}.
Implicit Types w : world C.

(** What the file holds after arguments are written. *)
Definition holds_args (d : DeploymentArgs) (data : string) : Prop :=
  ∃ cfg, toml_parse data = Ok cfg ∧
    VObj [("constructor", contractArgs_value (da_constructor d));
          ("initializer", contractArgs_value (da_initializer d))] ≈ cfg.

Lemma writeDeploymentArgs_ok d dir w :
  let path := path_of (args_path dir) in
  writable (files w) path = true →
  wf_args (da_constructor d) → wf_args (da_initializer d) →
  ∃ data, holds_args d data ∧
    writeDeploymentArgs d dir w = (Ok tt, with_files (<[path := File data]> (files w)) w).
Proof.
  intros path Hwr Hc Hi. pose proof (deploymentArgs_document d Hc Hi) as Hdoc.
  destruct (toml_total _ Hdoc) as [s Hs].
  destruct (toml_roundtrip _ _ Hdoc Hs) as (cfg & Hcfg & Heq). symmetry in Heq.
  cbn [deploymentArgs_value toml_image omap list_omap snd fst] in Heq.
  rewrite !toml_image_contractArgs in Heq.
  exists s. split; [by exists cfg|].
  unfold writeDeploymentArgs. rewrite Hs. run_step. by rewrite writeFileSync_ok.
Qed.

Lemma getDeploymentArgs_held d dir w data c :
  node_at (files w) (path_of (args_path (Some dir))) = Some (File data) → holds_args d data →
  wf_args (da_constructor d) → wf_args (da_initializer d) → c ∉ object_prototype →
  getDeploymentConstructorArgs c (Some dir) w
    = (Ok (default [] (arg_values <$> dget c (da_constructor d))), w) ∧
  getDeploymentInitializerArgs c (Some dir) w
    = (Ok (arg_values <$> dget c (da_initializer d)), w).
Proof.
  intros Hn (cfg & Hcfg & Heq) Hc Hi Hobj.
  assert (readDeploymentArgs (Some (template_path (Some dir))) w = (Ok cfg, w)) as Hread.
  { unfold readDeploymentArgs. rewrite <- Hcfg. by apply readTOML_file. }
  destruct (veq_obj _ _ Heq) as (q & -> & _).
  unfold getDeploymentConstructorArgs, getDeploymentInitializerArgs. run Hread. run Hread.
  rewrite (section_args_read "constructor" c _ _ _ Heq eq_refl Hc Hobj).
  rewrite (section_args_read "initializer" c _ _ _ Heq eq_refl Hi Hobj).
  run_step. done.
Qed.

(** C10: arguments written to a folder are the arguments a deployment reads from
    that folder: for each contract the values of its constructor and initializer
    arguments, in order; none for a contract without an entry. *)
Theorem deploymentArgs_roundtrip d dir w :
  let path := path_of (args_path (Some dir)) in
  writable (files w) path = true →
  wf_args (da_constructor d) → wf_args (da_initializer d) →
  ∃ data,
    let w' := with_files (<[path := File data]> (files w)) w in
    writeDeploymentArgs d (Some dir) w = (Ok tt, w') ∧
    ∀ c, c ∉ object_prototype →
      getDeploymentConstructorArgs c (Some dir) w'
        = (Ok (default [] (arg_values <$> dget c (da_constructor d))), w') ∧
      getDeploymentInitializerArgs c (Some dir) w'
        = (Ok (arg_values <$> dget c (da_initializer d)), w').
Proof.
  intros path Hwr Hc Hi.
  destruct (writeDeploymentArgs_ok d (Some dir) w Hwr Hc Hi) as (data & Hh & Hw).
  exists data. split; [exact Hw|]. intros c Hobj. apply (getDeploymentArgs_held _ _ _ data); [|done..].
  by apply node_at_written.
Qed.

(** C21: the generated template is well formed; it holds, for every contract of
    the list, the inputs of the constructors of its ABI and the inputs of the
    functions named "initialize", by name and in order, each with the value
    "UNDEFINED"; a contract without such inputs, or not in the list, has no entry. *)
Theorem generateDeployArgTemplate_correct l d :
  generateDeployArgTemplate l = Ok d →
  wf_args (da_constructor d) ∧ wf_args (da_initializer d) ∧
  (∀ c, c ∈ l → ∃ info, contract_info c info ∧
    dget c (da_constructor d) = placeholders (inputs_of (λ m, method_type m = "constructor") info) ∧
    dget c (da_initializer d) = placeholders (inputs_of (λ m, method_name m = Some "initialize") info)) ∧
  (∀ c, c ∉ l → dget c (da_constructor d) = None ∧ dget c (da_initializer d) = None).
Proof.
  intros Hd. destruct (add_templates_wf _ _ _ Hd) as [Hwc Hwi]; [by repeat constructor..|].
  do 2 (split; [done|]). split; intros c Hc;
    destruct (add_templates_get _ _ _ c Hd) as [-> ->]; [|by rewrite !decide_False].
  destruct (add_templates_abi _ _ _ _ Hd Hc) as (cArgs & iArgs & HcA & HiA).
  rewrite !decide_True, HcA, HiA by done.
  apply parseArgsArray_inputs in HcA as (info & Hinfo & ->).
  apply parseArgsArray_inputs in HiA as (info' & Hinfo' & ->).
  rewrite (contract_info_unique _ _ _ Hinfo' Hinfo) in *. exists info. split; [done|].
  rewrite (inputs_of_ext (λ a, target "constructor" a = Some "constructor") (λ m, method_type m = "constructor"))
    by (intros m; unfold target; rewrite decide_True by done; split; congruence).
  rewrite (inputs_of_ext (λ a, target "initialize" a = Some "initialize") (λ m, method_name m = Some "initialize"))
    by (intros m; unfold target; by rewrite decide_False).
  split; apply placeholders_entry.
Qed.
End args_properties.
