(* ===== verification/FactoryState.v ===== *)
(** * The factory state file

    [bridge/scripts/lib/deployment/factoryStateUtil.ts]: what was deployed on
    each network, kept in one TOML file: per network the default factory and the
    lists "rawDeployments", "templates", "proxies" and "staticContracts". *)
From S2P Require Import Prelude JsString JsValue Toml World Constants Config.

(** ** Entries *)

(** The part of an ethers [ContractReceipt] the scripts read. *)
Record Event := { event : option string; event_args : option (dict value) }.
Record Receipt := { events : option (list Event); gasUsed : Z; status : Z }.

(** [gas: BigNumberish]: a [BigNumber], or a number after [toNumber()]. *)
Inductive BigNumberish := GasBig (n : Z) | GasNumber (n : Z).
#[export] Instance BigNumberish_eq_dec : EqDecision BigNumberish.
Proof. solve_decision. Defined.
Definition gas_value (g : BigNumberish) : value :=
  match g with GasBig n => VBig n | GasNumber n => VNum n end.
Definition gas_amount (g : BigNumberish) : Z := match g with GasBig n | GasNumber n => n end.

Record FactoryData := { fd_address : string; fd_owner : option string; fd_gas : Z }.
Record DeployCreateData := {
  dc_name : string;
  dc_address : string;
  dc_factoryAddress : string;
  dc_gas : Z;
  dc_constructorArgs : option (list value);
  dc_receipt : option Receipt;
}.
Record MetaContractData := {
  mt_metaAddress : string;
  mt_salt : string;
  mt_templateName : string;
  mt_templateAddress : string;
  mt_factoryAddress : string;
  mt_gas : Z;
  mt_initCallData : string;
  mt_receipt : option Receipt;
}.
Record TemplateData := {
  tp_name : string;
  tp_address : string;
  tp_factoryAddress : string;
  tp_gas : Z;
  tp_receipt : option Receipt;
  tp_constructorArgs : list value;
}.
Record ProxyData := {
  px_proxyAddress : string;
  px_salt : string;
  px_logicName : option string;
  px_logicAddress : option string;
  px_factoryAddress : string;
  px_gas : BigNumberish;
  px_receipt : option Receipt;
  px_initCallData : option string;
}.

Definition opt_str (o : option string) : value :=
  match o with Some s => VStr s | None => VUndef end.
Definition opt_args (o : option (list value)) : value :=
  match o with Some l => VArr l | None => VUndef end.

(** Entries of the lists: the object written, and the receipt that is not. *)
Class Entry (D : Type) := {
  entry_value : D → value;       (** the object, its receipt left out *)
  has_receipt : D → bool;
  clear_receipt : D → D;
}.

#[export] Instance DeployCreateData_entry : Entry DeployCreateData := {|
  entry_value d := VObj [("name", VStr (dc_name d)); ("address", VStr (dc_address d));
    ("factoryAddress", VStr (dc_factoryAddress d)); ("gas", VBig (dc_gas d));
    ("constructorArgs", opt_args (dc_constructorArgs d))];
  has_receipt d := bool_decide (is_Some (dc_receipt d));
  clear_receipt d := {| dc_name := dc_name d; dc_address := dc_address d;
    dc_factoryAddress := dc_factoryAddress d; dc_gas := dc_gas d;
    dc_constructorArgs := dc_constructorArgs d; dc_receipt := None |};
|}.
#[export] Instance TemplateData_entry : Entry TemplateData := {|
  entry_value d := VObj [("name", VStr (tp_name d)); ("address", VStr (tp_address d));
    ("factoryAddress", VStr (tp_factoryAddress d)); ("gas", VBig (tp_gas d)); ("receipt", VUndef);
    ("constructorArgs", VArr (tp_constructorArgs d))];
  has_receipt d := bool_decide (is_Some (tp_receipt d));
  clear_receipt d := {| tp_name := tp_name d; tp_address := tp_address d;
    tp_factoryAddress := tp_factoryAddress d; tp_gas := tp_gas d; tp_receipt := None;
    tp_constructorArgs := tp_constructorArgs d |};
|}.
#[export] Instance MetaContractData_entry : Entry MetaContractData := {|
  entry_value d := VObj [("metaAddress", VStr (mt_metaAddress d)); ("salt", VStr (mt_salt d));
    ("templateName", VStr (mt_templateName d)); ("templateAddress", VStr (mt_templateAddress d));
    ("factoryAddress", VStr (mt_factoryAddress d)); ("gas", VBig (mt_gas d)); ("receipt", VUndef);
    ("initCallData", VStr (mt_initCallData d))];
  has_receipt d := bool_decide (is_Some (mt_receipt d));
  clear_receipt d := {| mt_metaAddress := mt_metaAddress d; mt_salt := mt_salt d;
    mt_templateName := mt_templateName d; mt_templateAddress := mt_templateAddress d;
    mt_factoryAddress := mt_factoryAddress d; mt_gas := mt_gas d;
    mt_initCallData := mt_initCallData d; mt_receipt := None |};
|}.
#[export] Instance ProxyData_entry : Entry ProxyData := {|
  entry_value d := VObj [("proxyAddress", VStr (px_proxyAddress d)); ("salt", VStr (px_salt d));
    ("logicName", opt_str (px_logicName d)); ("logicAddress", opt_str (px_logicAddress d));
    ("factoryAddress", VStr (px_factoryAddress d)); ("gas", gas_value (px_gas d));
    ("receipt", VUndef); ("initCallData", opt_str (px_initCallData d))];
  has_receipt d := bool_decide (is_Some (px_receipt d));
  clear_receipt d := {| px_proxyAddress := px_proxyAddress d; px_salt := px_salt d;
    px_logicName := px_logicName d; px_logicAddress := px_logicAddress d;
    px_factoryAddress := px_factoryAddress d; px_gas := px_gas d; px_receipt := None;
    px_initCallData := px_initCallData d |};
|}.

Definition factoryData_value (d : FactoryData) : value :=
  VObj [("address", VStr (fd_address d)); ("owner", opt_str (fd_owner d)); ("gas", VBig (fd_gas d))].

(** ** Operations *)
Section factory_state.
Context {C : Type} `{Toml}.

Definition state_path (usrPath : option string) : string :=
  match usrPath with
  | None => FACTORY_STATE_PATH
  | Some u => strip_trailing_slashes u +:+ "/factoryState"
  end.

Definition getDefaultFactoryAddress (network : string) (usrPath : option string) : script C value :=
  config ← readFactoryState (Some (state_path usrPath));
  net ← lift (get network config);
  lift (get "defaultFactoryAddress" net).

(** [config[network][fieldName] = fieldData], creating [config[network]]. *)
Definition set_field (network fieldName : string) (fieldData config : value) : outcome value :=
  net ← get network config;
  let net := if is_undefined net then VObj [] else net in
  net ← set fieldName fieldData net;
  set network net config.

Definition writeFactoryState (network fieldName : string) (fieldData : value)
    (usrPath : option string) : script C () :=
  silencer ← getenv "silencer";
  if not_silenced silencer then
    let path := state_path usrPath in
    e ← existsSync path;
    factoryStateConfig ←
      (if e : bool then
         cfg ← readFactoryState (Some path);
         lift (set_field network fieldName fieldData cfg)
       else mret (VObj [(network, VObj [(fieldName, fieldData)])]));
    data ← lift (toml_stringify factoryStateConfig);
    writeFileSync path data
  else mret tt.

Definition updateDefaultFactoryData (network : string) (data : FactoryData)
    (usrPath : option string) : script C () :=
  _ ← writeFactoryState network "defaultFactoryData" (factoryData_value data) usrPath;
  writeFactoryState network "defaultFactoryAddress" (VStr (fd_address data)) usrPath.

(** The list is read from [usrPath] itself; the entry is pushed to it and loses
    its receipt, which the caller's object loses with it (they are one object):
    the result is the caller's object after the call. *)
Definition updateList {D} `{Entry D} (network fieldName : string) (data : D)
    (usrPath : option string) : script C D :=
  silencer ← getenv "silencer";
  if not_silenced silencer then
    factoryStateConfig ← readFactoryState usrPath;
    net ← lift (get network factoryStateConfig);
    cur ← lift (get fieldName net);
    let output := if is_undefined cur then VArr [] else cur in
    let data := if has_receipt data then clear_receipt data else data in
    output ← lift (push (entry_value data) output);
    _ ← writeFactoryState network fieldName output usrPath;
    mret data
  else mret data.

Definition updateDeployCreateList (network : string) (data : DeployCreateData)
    (usrPath : option string) : script C DeployCreateData :=
  updateList network "rawDeployments" data usrPath.
Definition updateTemplateList (network : string) (data : TemplateData)
    (usrPath : option string) : script C TemplateData :=
  updateList network "templates" data usrPath.
Definition updateProxyList (network : string) (data : ProxyData)
    (usrPath : option string) : script C ProxyData :=
  updateList network "proxies" data usrPath.
Definition updateMetaList (network : string) (data : MetaContractData)
    (usrPath : option string) : script C MetaContractData :=
  updateList network "staticContracts" data usrPath.

Fixpoint find_address (nameField name addressField : string) (l : list value) : outcome value :=
  match l with
  | [] => Ok VUndef
  | x :: l' =>
      n ← get nameField x;
      match n with
      | VStr s =>
          if decide (s = name) then get addressField x
          else find_address nameField name addressField l'
      | _ => find_address nameField name addressField l'
      end
  end.

Definition lookup_address (network listField nameField name addressField : string)
    : script C value :=
  config ← readFactoryState (Some FACTORY_STATE_PATH);
  net ← lift (get network config);
  v ← lift (get listField net);
  l ← lift (indexed v);
  lift (find_address nameField name addressField l).

Definition getATokenMinterAddress (network : string) : script C value :=
  lookup_address network "proxies" "logicName" "ATokenMinter" "proxyAddress".
Definition getBTokenAddress (network : string) : script C value :=
  lookup_address network "staticContracts" "templateName" "BToken" "metaAddress".
Definition getATokenAddress (network : string) : script C value :=
  lookup_address network "staticContracts" "templateName" "AToken" "metaAddress".
End factory_state.

(** ** The file as a table from networks and fields to values *)
Definition state_field (network fieldName : string) (config : value) : outcome value :=
  net ← get network config; get fieldName net.

#[export] Instance state_field_proper network fieldName :
  Proper (veq ==> oveq) (state_field network fieldName).
Proof.
  intros v w H. apply oveq_bind; [by apply get_proper|].
  intros x y Hxy. by apply get_proper.
Qed.

(** The table of a network in a configuration: empty when there is none yet. *)
Definition net_table (network : string) (p n : dict value) : Prop :=
  dget network p = Some (VObj n) ∨ dget network p = None ∧ n = [] ∧ network ∉ object_prototype.

(** The configuration with one field of a network set. *)
Definition config_with (network fieldName : string) (v : value) (p n : dict value) : value :=
  VObj (dset network (VObj (dset fieldName v n)) p).

Lemma state_field_with_eq network f v p n :
  state_field network f (config_with network f v p n) = Ok v.
Proof. unfold state_field. cbn. rewrite dget_dset_eq. cbn. by rewrite dget_dset_eq. Qed.

Lemma state_field_with_ne network f v p n network' f' :
  net_table network p n → f ∉ object_prototype → dget network p ≠ None →
  (network', f') ≠ (network, f) →
  state_field network' f' (config_with network f v p n) = state_field network' f' (VObj p).
Proof.
  intros Hn Hf Hp Hne. unfold state_field. cbn.
  destruct (decide (network' = network)) as [->|Hn'].
  - rewrite dget_dset_eq. destruct Hn as [->|[? _]]; [|done]. cbn.
    rewrite dget_dset_ne; [done|]. by intros ->.
  - by rewrite dget_dset_ne.
Qed.

Section state_laws.
Context {C : Type} `{Toml} `{!TomlLaws}.
Implicit Types w : world C.

Lemma set_field_ok network f v p n :
  net_table network p n → set_field network f v (VObj p) = Ok (config_with network f v p n).
Proof.
  intros [Hn|(Hn & -> & Hpr)]; unfold set_field, config_with; cbn; rewrite Hn; [done|].
  cbn. unfold inherited. by rewrite decide_False.
Qed.

Lemma config_with_document network f v p n :
  toml_value (VObj p) = true → net_table network p n → toml_value v = true →
  toml_document (config_with network f v p n) = true.
Proof.
  intros Hp Hn Hv. apply toml_value_dset; [done|]. apply toml_value_dset; [|done].
  destruct Hn as [Hn|(_ & -> & _)]; [by eapply toml_value_property|done].
Qed.

Lemma config_with_image network f v p n :
  plain (VObj p) = true → net_table network p n → v ≠ VUndef → v ≠ VNull →
  toml_image (config_with network f v p n) = config_with network f (toml_image v) p n.
Proof.
  intros Hp Hn Hu Hnn. unfold config_with. rewrite toml_image_dset by done.
  do 2 f_equal. apply toml_image_dset; [|done..].
  destruct Hn as [Hn|(_ & -> & _)]; [by apply (plain_property network p (VObj n))|done].
Qed.

(** Silenced, nothing is written. *)
Lemma updateList_silenced {D} `{Entry D} network f (data : D) u w :
  not_silenced (env w !! "silencer") = false → updateList network f data u w = (Ok data, w).
Proof. intros Hs. unfold updateList, getenv. run_step. by rewrite Hs. Qed.
Lemma writeFactoryState_silenced network f v u w :
  not_silenced (env w !! "silencer") = false → writeFactoryState network f v u w = (Ok tt, w).
Proof. intros Hs. unfold writeFactoryState, getenv. run_step. by rewrite Hs. Qed.

(** One field is set, in the file [state_path usrPath]. *)
Lemma writeFactoryState_ok network f v u w p n :
  let path := path_of (state_path u) in
  not_silenced (env w !! "silencer") = true →
  writable (files w) path = true →
  readFactoryState (Some (state_path u)) w = (Ok (VObj p), w) →
  net_table network p n → toml_value v = true →
  ∃ s cfg,
    writeFactoryState network f v u w = (Ok tt, with_files (<[path := File s]> (files w)) w) ∧
    toml_parse s = Ok cfg ∧ cfg ≈ config_with network f (toml_image v) p n.
Proof.
  intros path Hsil Hwr Hread Hn Hv. unfold readFactoryState in Hread.
  destruct (readTOML_doc _ _ _ _ Hread) as [Hp Hpl].
  pose proof (config_with_document network f v p n Hp Hn Hv) as Hdoc.
  destruct (toml_total _ Hdoc) as [s Hs].
  destruct (toml_roundtrip _ _ Hdoc Hs) as (cfg & Hcfg & Heq).
  destruct (toml_value_defined _ Hv) as [Hvu Hvn].
  rewrite config_with_image in Heq by assumption.
  exists s, cfg. split; [|done].
  unfold writeFactoryState, getenv, existsSync. run_step. rewrite Hsil. run_step.
  unfold readFactoryState.
  case_bool_decide as He.
  - run_step. run Hread. rewrite (set_field_ok _ _ _ _ _ Hn). run_step. rewrite Hs. run_step.
    by apply writeFileSync_ok.
  - rewrite (readTOML_missing _ _ w) in Hread by by apply eq_None_not_Some.
    injection Hread as <-. run_step.
    destruct Hn as [Hn|(_ & -> & _)]; [done|].
    change (VObj [(network, VObj [(f, v)])]) with (config_with network f v [] []). rewrite Hs. run_step. by apply writeFileSync_ok.
Qed.
End state_laws.

(** ** Properties *)
Section state_properties.
Context {C : Type} `{Toml} `{!TomlLaws}.
Implicit Types w : world C.

#[local] Opaque FACTORY_STATE_PATH path_of readTOML.

(** The object a caller holds after [updateList] wrote it. *)
Definition written {D} `{Entry D} (data : D) : D :=
  if has_receipt data then clear_receipt data else data.

Lemma list_field_value n fieldName l :
  default (VArr []) (dget fieldName n) = VArr l → fieldName ∉ object_prototype →
  ∃ cur, get fieldName (VObj n) = Ok cur ∧ (if is_undefined cur then VArr [] else cur) = VArr l.
Proof.
  intros Hl Hf. cbn. destruct (dget fieldName n) as [v|].
  - exists v. cbn in *. by subst.
  - exists VUndef. cbn in *. unfold inherited. by rewrite decide_False.
Qed.

Lemma list_field_document network fieldName p n l :
  toml_value (VObj p) = true → dget network p = Some (VObj n) →
  default (VArr []) (dget fieldName n) = VArr l → toml_value (VArr l) = true.
Proof.
  intros Hp Hn Hl. destruct (dget fieldName n) as [v|] eqn:Hf; cbn in Hl.
  - eapply toml_value_property; [eapply toml_value_property; [exact Hp|exact Hn|done..]|..].
    + by rewrite Hf, Hl.
    + done.
    + done.
  - by injection Hl as <-.
Qed.

(** Pushing an entry to a list of the network and writing it back, with the
    default path: what the file holds afterwards. *)
Lemma updateList_run {D} `{Entry D} network fieldName (data : D) w p n l :
  let path := path_of FACTORY_STATE_PATH in
  not_silenced (env w !! "silencer") = true →
  readFactoryState (Some FACTORY_STATE_PATH) w = (Ok (VObj p), w) →
  writable (files w) path = true →
  dget network p = Some (VObj n) →
  default (VArr []) (dget fieldName n) = VArr l →
  fieldName ∉ object_prototype →
  toml_value (entry_value (written data)) = true →
  forallb (λ v, bool_decide (kind_of v = kind_of (entry_value (written data)))) l = true →
  ∃ s cfg,
    updateList network fieldName data None w
      = (Ok (written data), with_files (<[path := File s]> (files w)) w) ∧
    toml_parse s = Ok cfg ∧
    cfg ≈ config_with network fieldName
            (VArr (l ++ [toml_image (entry_value (written data))])) p n.
Proof.
  intros path Hsil Hread Hwr Hn Hl Hf He Hk.
  destruct (readTOML_doc FACTORY_STATE_PATH (Some FACTORY_STATE_PATH) w p Hread) as [Hp Hpl].
  pose proof (list_field_document _ _ _ _ _ Hp Hn Hl) as Hdl.
  pose proof (toml_value_arr_snoc _ _ Hdl He Hk) as Hv.
  destruct (writeFactoryState_ok network fieldName (VArr (l ++ [entry_value (written data)]))
    None w p n Hsil Hwr Hread (or_introl Hn) Hv) as (s & cfg & Hw & Hcfg & Heq).
  exists s, cfg. split; [|split; [done|]].
  - destruct (list_field_value _ _ _ Hl Hf) as (cur & Hcur & Hc).
    unfold updateList, getenv. run_step. rewrite Hsil.
    assert (readFactoryState None w = (Ok (VObj p), w)) as Hread'
      by (rewrite readFactoryState_default; exact Hread).
    run Hread'. cbn [get]. rewrite Hn. cbn [from_option id]. run_step. rewrite Hcur. run_step.
    rewrite Hc. fold (written data). cbn [push]. run_step. by run Hw.
  - replace (VArr (l ++ [toml_image (entry_value (written data))]))
      with (toml_image (VArr (l ++ [entry_value (written data)]))); [done|].
    cbn. rewrite map_app. do 2 f_equal.
    assert (plain (VArr l) = true) as Hpl'.
    { destruct (dget fieldName n) as [v|] eqn:Hfn; cbn in Hl.
      - eapply plain_property; [eapply plain_property; [exact Hpl|exact Hn]|].
        by rewrite Hfn, Hl.
      - by injection Hl as <-. }
    apply toml_image_plain in Hpl'. by injection Hpl'.
Qed.

(** C4: with the default path, recording an entry appends it (without its
    receipt) to the list of that name of the network, leaves every other field
    of every network as it was, changes no other file, and hands the entry back
    without its receipt. *)
Theorem updateList_appends {D} `{Entry D} network fieldName (data : D) w p n l :
  let path := path_of FACTORY_STATE_PATH in
  not_silenced (env w !! "silencer") = true →
  readFactoryState (Some FACTORY_STATE_PATH) w = (Ok (VObj p), w) →
  writable (files w) path = true →
  dget network p = Some (VObj n) →
  default (VArr []) (dget fieldName n) = VArr l →
  fieldName ∉ object_prototype →
  toml_value (entry_value (written data)) = true →
  forallb (λ v, bool_decide (kind_of v = kind_of (entry_value (written data)))) l = true →
  ∃ s cfg,
    updateList network fieldName data None w
      = (Ok (written data), with_files (<[path := File s]> (files w)) w) ∧
    toml_parse s = Ok cfg ∧
    oveq (state_field network fieldName cfg)
      (Ok (VArr (l ++ [toml_image (entry_value (written data))]))) ∧
    ∀ network' fieldName', (network', fieldName') ≠ (network, fieldName) →
      oveq (state_field network' fieldName' cfg) (state_field network' fieldName' (VObj p)).
Proof.
  intros path Hsil Hread Hwr Hn Hl Hf He Hk.
  destruct (updateList_run network fieldName data w p n l Hsil Hread Hwr Hn Hl Hf He Hk)
    as (s & cfg & Hrun & Hcfg & Heq).
  exists s, cfg. repeat split; [done..| |].
  - rewrite (state_field_proper _ _ _ _ Heq). by rewrite state_field_with_eq.
  - intros net' f' Hne. rewrite (state_field_proper _ _ _ _ Heq).
    rewrite state_field_with_ne; [done|by left|done|by rewrite Hn|done].
Qed.

(** Below a file nothing can be written. *)
Lemma writeFactoryState_below_file network f v u s0 w :
  not_silenced (env w !! "silencer") = true →
  fs_wf (files w) → u ≠ "" → strip_trailing_slashes u = u →
  node_at (files w) (path_of u) = Some (File s0) →
  ∃ e, writeFactoryState network f v (Some u) w = (Throw e, w).
Proof.
  intros Hsil Hwf Hu Hend Hn.
  assert (path_of (state_path (Some u)) = ((path_of u).1, (path_of u).2 ++ ["factoryState"])) as Hp.
  { cbn [state_path]. rewrite Hend. apply path_of_child; [apply (bool_decide_unpack _); by vm_compute|done..]. }
  assert (parent (path_of (state_path (Some u))) = path_of u) as Hpar.
  { rewrite Hp. unfold parent. cbn. rewrite removelast_last. by destruct (path_of u). }
  assert (node_at (files w) (path_of (state_path (Some u))) = None) as Hnone.
  { eapply below_file; [done|by rewrite Hpar|]. rewrite Hp. cbn. by destruct (path_of u).2. }
  unfold writeFactoryState, getenv, existsSync. run_step. rewrite Hsil. run_step.
  rewrite bool_decide_eq_false_2 by (rewrite Hnone; by intros [? [=]]). run_step.
  destruct (toml_stringify _) as [s|e]; run_step; [|by eexists].
  unfold writeFileSync. rewrite Hnone.
  rewrite (can_create_not_file _ _ s0) by by rewrite Hpar. by eexists.
Qed.

(** C24: with an output folder, recording an entry never succeeds: the list is
    read from the folder itself, so the call throws and writes nothing. *)
Theorem updateList_outputFolder_fails {D} `{Entry D} network fieldName (data : D) u w :
  not_silenced (env w !! "silencer") = true →
  fs_wf (files w) → u ≠ "" → strip_trailing_slashes u = u → network ∉ object_prototype →
  ∃ e, updateList network fieldName data (Some u) w = (Throw e, w).
Proof.
  intros Hsil Hwf Hu Hend Hnet. unfold updateList, getenv, readFactoryState. run_step.
  rewrite Hsil. run_step.
  destruct (node_at (files w) (path_of u)) as [[s0|]|] eqn:Hn.
  - pose proof (readTOML_file FACTORY_STATE_PATH _ _ _ Hn) as Hread.
    destruct (toml_parse s0) as [cfg|e]; run Hread; run_step; [|by eexists].
    destruct (get network cfg) as [net|e]; run_step; [|by eexists].
    destruct (get fieldName net) as [cur|e]; run_step; [|by eexists].
    destruct (push _ _) as [out|e]; run_step; [|by eexists].
    destruct (writeFactoryState_below_file network fieldName out u s0 w) as [e He]; [done..|].
    run He. by eexists.
  - pose proof (readTOML_dir FACTORY_STATE_PATH _ _ Hn) as Hread. run Hread. by eexists.
  - pose proof (readTOML_missing FACTORY_STATE_PATH _ _ Hn) as Hread. run Hread.
    cbn. unfold inherited. rewrite decide_False by done. run_step. by eexists.
Qed.
(** After a write, the state file holds what was written. *)
Lemma readFactoryState_written u s w :
  writable (files w) (path_of (state_path u)) = true →
  let w' := with_files (<[path_of (state_path u) := File s]> (files w)) w in
  readFactoryState (Some (state_path u)) w' = (toml_parse s, w').
Proof. intros Hw w'. apply readTOML_file. by apply node_at_written. Qed.

Lemma config_with_table network f v p n cfg :
  cfg ≈ config_with network f v p n →
  ∃ p' n', cfg = VObj p' ∧ dget network p' = Some (VObj n').
Proof.
  intros Heq. symmetry in Heq. unfold config_with in Heq.
  destruct (veq_obj _ _ Heq) as (p' & -> & _).
  destruct (veq_get_obj network _ _ _ Heq (dget_dset_eq _ _ _)) as (x & Hx & Hveq).
  destruct (veq_obj _ _ Hveq) as (n' & -> & _). by exists p', n'.
Qed.

(** C22: after [updateDefaultFactoryData] the default factory of the network is
    the deployed one, and nothing else in the state changed. *)
Theorem updateDefaultFactoryData_get network data u w p n :
  let path := path_of (state_path u) in
  not_silenced (env w !! "silencer") = true →
  readFactoryState (Some (state_path u)) w = (Ok (VObj p), w) →
  writable (files w) path = true →
  dget network p = Some (VObj n) →
  ∃ s cfg,
    let w' := with_files (<[path := File s]> (files w)) w in
    updateDefaultFactoryData network data u w = (Ok tt, w') ∧
    getDefaultFactoryAddress network u w' = (Ok (VStr (fd_address data)), w') ∧
    toml_parse s = Ok cfg ∧
    ∀ network' fieldName',
      (network', fieldName') ∉ [(network, "defaultFactoryData"); (network, "defaultFactoryAddress")] →
      oveq (state_field network' fieldName' cfg) (state_field network' fieldName' (VObj p)).
Proof.
  intros path Hsil Hread Hwr Hn.
  assert (toml_value (factoryData_value data) = true) as Hv by by destruct data as [? [] ?].
  destruct (writeFactoryState_ok network "defaultFactoryData" _ u w p n Hsil Hwr Hread
    (or_introl Hn) Hv) as (s1 & cfg1 & Hw1 & Hc1 & Heq1).
  destruct (config_with_table _ _ _ _ _ _ Heq1) as (p1 & n1 & -> & Hn1).
  pose proof (readFactoryState_written u s1 w Hwr) as Hread1. cbn zeta in Hread1.
  rewrite Hc1 in Hread1.
  destruct (writeFactoryState_ok network "defaultFactoryAddress" (VStr (fd_address data)) u
    (with_files (<[path := File s1]> (files w)) w) p1 n1 Hsil (writable_written _ _ s1 Hwr) Hread1 (or_introl Hn1) eq_refl) as (s2 & cfg2 & Hw2 & Hc2 & Heq2).
  cbn [files with_files] in Hw2. autorewrite with run in Hw2. rewrite insert_insert_eq in Hw2.
  exists s2, cfg2. repeat split.
  - unfold updateDefaultFactoryData. run Hw1. exact Hw2.
  - unfold getDefaultFactoryAddress.
    pose proof (readFactoryState_written u s2 w Hwr) as Hread2. cbn zeta in Hread2.
    rewrite Hc2 in Hread2. fold path in Hread2. run Hread2.
    pose proof (state_field_proper network "defaultFactoryAddress" _ _ Heq2) as Hf.
    rewrite state_field_with_eq in Hf. unfold state_field in Hf.
    destruct (get network cfg2) as [net|e]; run_step; [|done]. cbn in Hf.
    unfold lift. destruct (get "defaultFactoryAddress" net); [|done]. cbn in Hf.
    symmetry in Hf. by apply veq_atom in Hf as <-.
  - done.
  - intros net' f' [Hne1 [Hne2 _]%not_elem_of_cons]%not_elem_of_cons.
    assert (∀ f, f = "defaultFactoryData" ∨ f = "defaultFactoryAddress" → f ∉ object_prototype) as Hpr.
    { intros f [-> | ->]; apply (bool_decide_unpack _); by vm_compute. }
    rewrite (state_field_proper _ _ _ _ Heq2).
    rewrite state_field_with_ne; [|by left|auto|by rewrite Hn1|done].
    rewrite (state_field_proper _ _ _ _ Heq1).
    rewrite state_field_with_ne; [done|by left|auto|by rewrite Hn|done].
Qed.

(** Entries of a name, and of none or another. *)
Definition named (nameField name : string) (y : value) : Prop := get nameField y = Ok (VStr name).
Definition unnamed (nameField name : string) (y : value) : Prop :=
  ∃ v, get nameField y = Ok v ∧ v ≠ VStr name.
(** The address of the first entry of that name. *)
Lemma find_address_first nameField name addressField pre x post :
  Forall (unnamed nameField name) pre → named nameField name x →
  find_address nameField name addressField (pre ++ x :: post) = get addressField x.
Proof.
  intros Hl Hx. induction Hl as [|y l (v & Hv & Hne) _ IH]; cbn.
  - rewrite Hx. cbn. by rewrite decide_True.
  - rewrite Hv. cbn. destruct v; try exact IH. rewrite decide_False; [done|]. by intros ->.
Qed.

Lemma find_address_proper nameField name addressField l l' :
  Forall2 veq l l' →
  oveq (find_address nameField name addressField l) (find_address nameField name addressField l').
Proof.
  induction 1 as [|x y l l' Hxy Hl IH]; [reflexivity|]. cbn [find_address].
  apply oveq_bind; [by apply get_proper|]. intros v v' Hv.
  destruct v, v'; try exact IH; apply veq_kind in Hv; try done.
  injection Hv as ->. case_decide; [by apply get_proper|exact IH].
Qed.

Lemma lookup_address_spec network listField nameField name addressField w cfg l :
  readFactoryState (Some FACTORY_STATE_PATH) w = (Ok cfg, w) →
  state_field network listField cfg = Ok (VArr l) →
  lookup_address network listField nameField name addressField w
  = (find_address nameField name addressField l, w).
Proof.
  intros Hread Hf. unfold lookup_address. run Hread. unfold state_field in Hf.
  destruct (get network cfg) as [net|]; [|done]. cbn in Hf. run_step. rewrite Hf. by run_step.
Qed.
(** C23: recording a static contract of the template "AToken" adds it behind the
    recorded ones, and [getATokenAddress] answers with the first of that name:
    the new contract when it is the first AToken of the network, and the old one
    after an AToken was deployed again. *)
Theorem updateMetaList_getATokenAddress network (data : MetaContractData) w p n l :
  let path := path_of FACTORY_STATE_PATH in
  not_silenced (env w !! "silencer") = true →
  readFactoryState (Some FACTORY_STATE_PATH) w = (Ok (VObj p), w) →
  writable (files w) path = true →
  dget network p = Some (VObj n) →
  default (VArr []) (dget "staticContracts" n) = VArr l →
  forallb (λ v, bool_decide (kind_of v = Some KTable)) l = true →
  mt_templateName data = "AToken" →
  ∃ d s,
    let w' := with_files (<[path := File s]> (files w)) w in
    updateMetaList network data None w = (Ok d, w') ∧
    (Forall (unnamed "templateName" "AToken") l →
     getATokenAddress network w' = (Ok (VStr (mt_metaAddress data)), w')) ∧
    (∀ pre x post old,
     l = pre ++ x :: post → Forall (unnamed "templateName" "AToken") pre →
     named "templateName" "AToken" x → get "metaAddress" x = Ok (VStr old) →
     getATokenAddress network w' = (Ok (VStr old), w')).
Proof.
  intros path Hsil Hread Hwr Hn Hl Hk Hname.
  assert (entry_value (written data) = entry_value data) as Hev by by unfold written; case_match.
  destruct (updateList_run network "staticContracts" data w p n l Hsil Hread Hwr Hn Hl)
    as (s & cfg & Hrun & Hcfg & Heq).
  { apply (bool_decide_unpack _). by vm_compute. }
  { by rewrite Hev. }
  { by rewrite Hev. }
  exists (written data), s. cbv zeta. set (w' := with_files _ w) in *. split; [done|].
  pose proof (readFactoryState_written None s w Hwr) as Hread'. cbn zeta in Hread'.
  rewrite Hcfg in Hread'.
  pose proof (state_field_proper network "staticContracts" _ _ Heq) as Hf.
  rewrite state_field_with_eq, Hev in Hf. remember (toml_image (entry_value data)) as new eqn:Hnew in Hf.
  destruct (state_field network "staticContracts" cfg) as [v|] eqn:Hsf; [|done]. cbn in Hf.
  symmetry in Hf. apply veq_arr in Hf as (l' & -> & Hl').
  apply (find_address_proper "templateName" "AToken" "metaAddress") in Hl'.
  assert (∀ a, find_address "templateName" "AToken" "metaAddress" (l ++ [new]) = Ok (VStr a) →
    getATokenAddress network w' = (Ok (VStr a), w')) as Hfound.
  { intros a Ha. unfold getATokenAddress. rewrite (lookup_address_spec _ _ _ _ _ _ _ _ Hread' Hsf).
    rewrite Ha in Hl'. destruct (find_address _ _ _ l'); [|done]. cbn in Hl'. by apply veq_atom in Hl' as <-. }
  split.
  - intros Hnone. apply Hfound. rewrite find_address_first; [by rewrite Hnew|done|].
    unfold named. rewrite Hnew. cbn. by rewrite Hname.
  - intros pre x post old -> Hpre Hx Hold. apply Hfound. rewrite <- app_assoc. cbn [app].
    by rewrite find_address_first.
Qed.
End state_properties.
