(* ===== verification/Chain.v ===== *)
(** * The chain the scripts deploy to

    The parts of the EVM the deployment relies on (contract creation, calls,
    atomic transactions, receipts) and the contracts the scripts drive:
    [bridge/contracts/AliceNetFactory.sol] with its base
    [libraries/factory/AliceNetFactoryBase.sol], and [bridge/contracts/Proxy.sol].
    The code of every other contract is a parameter (class [Contracts]): it acts
    on its part [ext] of the state and on the implementation slot of the account
    it runs in; it does not create contracts, call back into a factory, or emit
    an event the factory's interface knows.  Addresses are in the checksummed
    form ethers returns; fees are not charged. *)
From S2P Require Import Prelude JsString JsValue FactoryState.
#[local] Open Scope Z_scope.

Abbreviation address := string.
Abbreviation hexdata := string.        (* "0x..." *)
Definition ZERO_ADDRESS : address := "0x0000000000000000000000000000000000000000".
Definition EMPTY : hexdata := "0x".

(** ** Code and accounts *)
Inductive code :=
| FactoryCode                                  (** AliceNetFactory *)
| ProxyCode (factory : address)                (** Proxy, with its immutable *)
| ProxyTemplate (selfAddr : address)           (** Proxy's creation code as runtime code *)
| Template (deployCode : hexdata)              (** creation code as runtime code *)
| UserCode (runtime : hexdata).
#[export] Instance code_eq_dec : EqDecision code.
Proof. solve_decision. Defined.

Definition code_empty (k : code) : bool :=
  match k with UserCode rt => bool_decide (rt = EMPTY) | _ => false end.

(** The storage slot [not(0)]: 96 high bits and an address. *)
Record slot := Slot { slot_high : Z; slot_impl : address }.
#[export] Instance slot_eq_dec : EqDecision slot.
Proof. solve_decision. Defined.
Definition LOCK : Z := 0xca11c0de15dead10cced0000.
Definition empty_slot : slot := Slot 0 ZERO_ADDRESS.

Record account := Account { account_code : code; account_slot : slot }.

(** The storage of an AliceNetFactory. *)
Record factory_state := FactoryStorage {
  _owner : address;
  _delegator : address;
  _contracts : list hexdata;
  _implementation : address;
  _proxyTemplate : address;
}.

(** Delegate called code runs in the storage of the factory; [_proxyTemplate] is
    [immutable], so it stays in the factory's code whatever that code does. *)
Definition with_immutables (f f' : factory_state) : factory_state :=
  FactoryStorage (_owner f') (_delegator f') (_contracts f') (_implementation f') (_proxyTemplate f).

Record chain (X : Type) := Chain {
  accounts : gmap address account;
  factories : gmap address factory_state;
  nonces : gmap address Z;
  balances : gmap address Z;
  block_number : Z;
  block_gas_limit : Z;
  ext : X;
}.
Arguments Chain {_} _ _ _ _ _ _ _.
Arguments accounts {_} _. Arguments factories {_} _. Arguments nonces {_} _.
Arguments balances {_} _. Arguments block_number {_} _. Arguments block_gas_limit {_} _.
Arguments ext {_} _.

(** ** The functions of the factory's interface that change its state *)
Inductive fcall :=
| deployCreate (deployCode : hexdata)
| deployCreate2 (value : Z) (salt : hexdata) (deployCode : hexdata)
| deployProxy (salt : hexdata)
| deployTemplate (deployCode : hexdata)
| deployStatic (salt initCallData : hexdata)
| upgradeProxy (salt : hexdata) (newImpl : address) (initCallData : hexdata)
| initializeContract (contract : address) (initCallData : hexdata)
| multiCall (cdata : list hexdata)
| callAny (target : address) (value : Z) (cdata : hexdata)
| delegateCallAny (target : address) (cdata : hexdata)
| setImplementation (a : address)
| setOwner (a : address)
| setDelegator (a : address).

Record tx := Tx { tx_from : address; tx_to : option address; tx_value : Z; tx_data : hexdata }.

(** ** What is not under the repository *)
Class Evm := {
  keccak256 : hexdata → hexdata;
  create_address : address → Z → address;
  create2_address : address → hexdata → hexdata → address;   (* from, salt, init code hash *)
  valid_call : fcall → bool;            (* the arguments are of the ABI types *)
  encode : fcall → hexdata;
  decode : hexdata → option fcall;
  encode_upgrade : address → hexdata;   (* abi.encodeWithSelector(0xca11c0de, a) *)
  decode_upgrade : hexdata → option address;
  getImplementationAddress_selector : hexdata;
}.

Class Contracts (X : Type) := {
  (** runs creation code in [self] for [creator]: the runtime code, the number of logs *)
  construct (deployCode : hexdata) (self creator : address) (x : X) : option (hexdata * nat * X);
  (** delegate calls other code while an account is created *)
  run_as_init (k : code) (self creator : address) (x : X) : option (hexdata * nat * X);
  (** runs code in [self], whose slot [not(0)] is [s] *)
  call_code (k : code) (self caller : address) (value : Z) (data : hexdata) (s : slot) (x : X)
    : option (slot * nat * X);
  (** runs code in the storage of a factory *)
  call_in_factory (k : code) (self caller : address) (data : hexdata) (f : factory_state) (x : X)
    : option (factory_state * nat * X);
  gas_used : chain X → tx → Z;
}.

(** The metamorphic init code, and its hash as [DeterministicAddress.sol] has it. *)
Definition METAMORPHIC_CODE : hexdata := "0x6020363636335afa1536363636515af43d36363e3d36f3".
Definition metamorphicContractBytecodeHash_ : hexdata :=
  "0x1c0bf703a3415cada9785e89e9d70314c3111ae7d8e04f33bb42eb1d264088be".

(** Addresses do not collide; the ABI codec is a codec. *)
Class EvmLaws `{Evm} : Prop := {
  metamorphic_hash : keccak256 METAMORPHIC_CODE = metamorphicContractBytecodeHash_;
  create_inj a n b m : create_address a n = create_address b m → a = b ∧ n = m;
  create2_inj a s h b t g : create2_address a s h = create2_address b t g → a = b ∧ s = t;
  create_create2 a n b s h : create_address a n ≠ create2_address b s h;
  decode_encode c : valid_call c = true → decode (encode c) = Some c;
  decode_encode_upgrade a : decode_upgrade (encode_upgrade a) = Some a;
  upgrade_selector a : encode_upgrade a ≠ getImplementationAddress_selector;
}.

(** ** Execution

    A call either returns or reverts; a revert undoes the whole transaction. *)
Section evm.
Context {X : Type} `{Evm, !Contracts X}.
Implicit Types (c : chain X) (self sender a : address).

Abbreviation evm := (M (chain X * list Event)).

Definition revert {A} (msg : string) : evm A := throw (Rejected msg).
Definition require (b : bool) (msg : string) : evm () := if b then mret tt else revert msg.
Definition the_chain {A} (f : chain X → A) : evm A := gets (λ s, f s.1).
Definition change (f : chain X → chain X) : evm () := modify (λ s, (f s.1, s.2)).
Definition emit (e : Event) : evm () := modify (λ s, (s.1, s.2 ++ [e])).
Definition foreign_log : Event := {| event := None; event_args := None |}.
Definition emit_foreign (n : nat) : evm () := modify (λ s, (s.1, s.2 ++ replicate n foreign_log)).

Definition with_account a (k : account) c : chain X :=
  Chain (<[a := k]> (accounts c)) (factories c) (nonces c) (balances c)
    (block_number c) (block_gas_limit c) (ext c).
Definition with_factory a (f : factory_state) c : chain X :=
  Chain (accounts c) (<[a := f]> (factories c)) (nonces c) (balances c)
    (block_number c) (block_gas_limit c) (ext c).
Definition with_nonce a n c : chain X :=
  Chain (accounts c) (factories c) (<[a := n]> (nonces c)) (balances c)
    (block_number c) (block_gas_limit c) (ext c).
Definition with_balances b c : chain X :=
  Chain (accounts c) (factories c) (nonces c) b (block_number c) (block_gas_limit c) (ext c).
Definition with_block n c : chain X :=
  Chain (accounts c) (factories c) (nonces c) (balances c) n (block_gas_limit c) (ext c).
Definition with_gas_limit g c : chain X :=
  Chain (accounts c) (factories c) (nonces c) (balances c) (block_number c) g (ext c).
Definition with_ext x c : chain X :=
  Chain (accounts c) (factories c) (nonces c) (balances c) (block_number c) (block_gas_limit c) x.

Definition nonce c a : Z := default 0 (nonces c !! a).
Definition balance c a : Z := default 0 (balances c !! a).
Definition bump a c : chain X := with_nonce a (nonce c a + 1) c.

Definition transfer (from to : address) (v : Z) : evm () :=
  if decide (v = 0) then mret tt
  else
    b ← the_chain (λ c, balance c from);
    _ ← require (v <=? b) "insufficient balance";
    _ ← change (λ c, with_balances (<[from := balance c from - v]> (balances c)) c);
    change (λ c, with_balances (<[to := balance c to + v]> (balances c)) c).

(** CREATE and CREATE2 at address [a]: the creator's nonce grows even when the
    creation fails; a taken address or a failing constructor gives no contract. *)
Definition create_at (creator a : address) (init : evm code) : evm (outcome address) := λ s,
  let s1 := (bump creator s.1, s.2) in
  if decide (is_Some (accounts s.1 !! a) ∨ nonce s.1 a ≠ 0) then (Ok (Throw (Rejected "")), s1)
  else
    match init (with_nonce a 1 s1.1, s1.2) with
    | (Ok k, s2) => (Ok (Ok a), (with_account a (Account k empty_slot) s2.1, s2.2))
    | (Throw e, _) => (Ok (Throw e), s1)
    end.

(** What user code leaves of the state. *)
Definition ran (r : option (hexdata * nat * X)) : evm code :=
  match r with
  | Some (rt, n, x) =>
      _ ← change (with_ext x);
      _ ← emit_foreign n;
      mret (UserCode rt)
  | None => revert "constructor reverted"
  end.
Definition construct_at (deployCode : hexdata) (self creator : address) : evm code :=
  x ← the_chain ext; ran (construct deployCode self creator x).
Definition run_as_init_at (k : code) (self creator : address) : evm code :=
  x ← the_chain ext; ran (run_as_init k self creator x).

(** *** AliceNetFactoryBase *)
Definition storage self : evm factory_state :=
  f ← the_chain (λ c, factories c !! self);
  match f with Some f => mret f | None => revert "no factory" end.
Definition set_storage self (f : factory_state) : evm () := change (with_factory self f).

Definition deployed_event (name : string) (a : address) : Event :=
  {| event := Some name; event_args := Some [("contractAddr", VStr a)] |}.

Definition codeSizeZeroRevert (r : outcome address) : evm address :=
  match r with
  | Ok a =>
      k ← the_chain (λ c, accounts c !! a);
      match k with
      | Some k => _ ← require (negb (code_empty (account_code k))) "csize0"; mret a
      | None => revert "csize0"
      end
  | Throw _ => revert "csize0"
  end.

Definition push_contract self (salt : hexdata) : evm () :=
  f ← storage self;
  set_storage self (FactoryStorage (_owner f) (_delegator f) (_contracts f ++ [salt])
                      (_implementation f) (_proxyTemplate f)).
Definition set_implementation self (a : address) : evm () :=
  f ← storage self;
  set_storage self (FactoryStorage (_owner f) (_delegator f) (_contracts f) a (_proxyTemplate f)).

Definition getMetamorphicContractAddress (salt : hexdata) (factory : address) : address :=
  create2_address factory salt metamorphicContractBytecodeHash_.

(** The metamorphic init code: it asks its creator's fallback for the
    implementation and delegate calls it, so that a template constructs its
    contract here. *)
Definition metamorphic_init (self factory : address) : evm code :=
  f ← storage factory;
  k ← the_chain (λ c, accounts c !! _implementation f);
  match account_code <$> k with
  | Some (ProxyTemplate _) => mret (ProxyCode factory)
  | Some (Template dep) => construct_at dep self factory
  | Some k => run_as_init_at k self factory
  | None => mret (UserCode EMPTY)
  end.

Definition _deployCreate self (dep : hexdata) : evm address :=
  n ← the_chain (λ c, nonce c self);
  let a := create_address self n in
  r ← create_at self a (construct_at dep a self);
  contractAddr ← codeSizeZeroRevert r;
  _ ← emit (deployed_event "DeployedRaw" contractAddr);
  mret contractAddr.

(** Its check is on the address, not on the size of the code. *)
Definition _deployCreate2 self (value : Z) (salt dep : hexdata) : evm address :=
  let a := create2_address self salt (keccak256 dep) in
  r ← create_at self a (_ ← transfer self a value; construct_at dep a self);
  contractAddr ← (match r with Ok a => mret a | Throw _ => revert "csize0" end : evm address);
  _ ← push_contract self salt;
  _ ← emit (deployed_event "DeployedRaw" contractAddr);
  mret contractAddr.

Definition _deployProxy self (salt : hexdata) : evm address :=
  f ← storage self;
  _ ← set_implementation self (_proxyTemplate f);
  let a := create2_address self salt (keccak256 METAMORPHIC_CODE) in
  r ← create_at self a (metamorphic_init a self);
  contractAddr ← codeSizeZeroRevert r;
  _ ← push_contract self salt;
  _ ← emit (deployed_event "DeployedProxy" contractAddr);
  mret contractAddr.

(** The factory's address as the constructor argument the template carries. *)
Definition address_word (a : address) : string :=
  "000000000000000000000000" +:+ to_lower (slice 2 a).

Definition _deployTemplate self (dep : hexdata) : evm address :=
  n ← the_chain (λ c, nonce c self);
  let a := create_address self n in
  r ← create_at self a (mret (Template (dep +:+ address_word self)));
  contractAddr ← codeSizeZeroRevert r;
  _ ← emit (deployed_event "DeployedTemplate" contractAddr);
  _ ← set_implementation self contractAddr;
  mret contractAddr.

Section calls.
(** [call from to value data], at the remaining call depth. *)
Variable call : address → address → Z → hexdata → evm ().

Definition _initializeContract self (contract : address) (initCallData : hexdata) : evm () :=
  if decide (initCallData = EMPTY) then mret tt else call self contract 0 initCallData.

Definition _deployStatic self (salt initCallData : hexdata) : evm address :=
  let a := create2_address self salt (keccak256 METAMORPHIC_CODE) in
  r ← create_at self a (metamorphic_init a self);
  contractAddr ← (match r with
                  | Throw (Rejected "") => revert "Static deploy failed"
                  | Throw e => throw e
                  | Ok a =>
                      k ← the_chain (λ c, accounts c !! a);
                      match k with
                      | Some k =>
                          _ ← require (negb (code_empty (account_code k))) "Static deploy failed";
                          mret a
                      | None => revert "Static deploy failed"
                      end
                  end : evm address);
  _ ← _initializeContract self contractAddr initCallData;
  contractAddr ← codeSizeZeroRevert (Ok contractAddr);
  _ ← push_contract self salt;
  _ ← emit (deployed_event "DeployedStatic" contractAddr);
  mret contractAddr.

Definition getImplementationAddress c (proxy : address) : option address :=
  k ← accounts c !! proxy;
  match account_code k with ProxyCode _ => Some (slot_impl (account_slot k)) | _ => None end.

Definition _upgradeProxy self (salt : hexdata) (newImpl : address) (initCallData : hexdata) : evm () :=
  let proxy := getMetamorphicContractAddress salt self in
  _ ← call self proxy 0 (encode_upgrade newImpl);
  impl ← the_chain (λ c, getImplementationAddress c proxy);
  _ ← require (bool_decide (impl = Some newImpl)) "assert";
  _initializeContract self proxy initCallData.

Definition _multiCall self (cdata : list hexdata) : evm () :=
  for_each cdata (λ d, call self self 0 d).

(** *** AliceNetFactory: the external functions, with their modifiers *)
Definition UNAUTHORIZED : string := "unauthorized".
Definition onlyOwner self sender : evm () :=
  f ← storage self;
  require (bool_decide (sender = self ∨ sender = _owner f)) UNAUTHORIZED.
Definition onlyOwnerOrDelegator self sender : evm () :=
  f ← storage self;
  require (bool_decide (sender = self ∨ sender = _owner f ∨ sender = _delegator f)) UNAUTHORIZED.

Definition payable (fc : fcall) : bool :=
  match fc with callAny _ _ _ | delegateCallAny _ _ | deployCreate2 _ _ _ => true | _ => false end.

Definition run_factory self sender (fc : fcall) : evm () :=
  match fc with
  | deployCreate dep => _ ← onlyOwner self sender; _ ← _deployCreate self dep; mret tt
  | deployCreate2 v salt dep => _ ← onlyOwner self sender; _ ← _deployCreate2 self v salt dep; mret tt
  | deployProxy salt => _ ← onlyOwner self sender; _ ← _deployProxy self salt; mret tt
  | deployTemplate dep => _ ← onlyOwner self sender; _ ← _deployTemplate self dep; mret tt
  | deployStatic salt d => _ ← onlyOwner self sender; _ ← _deployStatic self salt d; mret tt
  | upgradeProxy salt impl d => _ ← onlyOwner self sender; _upgradeProxy self salt impl d
  | initializeContract a d => _ ← onlyOwnerOrDelegator self sender; _initializeContract self a d
  | multiCall l => _ ← onlyOwner self sender; _multiCall self l
  | callAny a v d => _ ← onlyOwner self sender; call self a v d
  | delegateCallAny a d =>
      _ ← onlyOwnerOrDelegator self sender;
      k ← the_chain (λ c, accounts c !! a);
      match k with
      | None => mret tt
      | Some k =>
          f ← storage self;
          x ← the_chain ext;
          match call_in_factory (account_code k) self sender d f x with
          | Some (f', n, x') =>
              _ ← set_storage self (with_immutables f f'); _ ← change (with_ext x'); emit_foreign n
          | None => revert "reverted"
          end
      end
  | setImplementation a => _ ← onlyOwnerOrDelegator self sender; set_implementation self a
  | setOwner a =>
      _ ← onlyOwner self sender;
      f ← storage self;
      set_storage self (FactoryStorage a (_delegator f) (_contracts f) (_implementation f) (_proxyTemplate f))
  | setDelegator a =>
      _ ← onlyOwner self sender;
      f ← storage self;
      set_storage self (FactoryStorage (_owner f) a (_contracts f) (_implementation f) (_proxyTemplate f))
  end.
End calls.

(** *** Calls *)

(** Runs code in the account [to]. *)
Definition run_user (k : code) (to caller : address) (value : Z) (data : hexdata) (s : slot) : evm () :=
  x ← the_chain ext;
  match call_code k to caller value data s x with
  | Some (s', n, x') =>
      _ ← change (λ c, match accounts c !! to with
                       | Some k => with_account to (Account (account_code k) s') c
                       | None => c
                       end);
      _ ← change (with_ext x');
      emit_foreign n
  | None => revert "reverted"
  end.

(** [Proxy.sol]: the getter, the upgrade reserved to the factory, and the
    delegate call to the implementation. *)
Definition run_proxy (factory to caller : address) (value : Z) (data : hexdata) (s : slot) : evm () :=
  if decide (data = getImplementationAddress_selector) then
    require (value =? 0) "not payable"
  else
    match decode_upgrade data with
    | Some newImpl =>
        if decide (caller = factory) then
          if slot_high s =? LOCK then revert "imploc"
          else change (with_account to (Account (ProxyCode factory) (Slot 0 newImpl)))
        else
          k ← the_chain (λ c, accounts c !! slot_impl s);
          match k with
          | Some k => run_user (account_code k) to caller value data s
          | None => mret tt
          end
    | None =>
        k ← the_chain (λ c, accounts c !! slot_impl s);
        match k with
        | Some k => run_user (account_code k) to caller value data s
        | None => mret tt
        end
    end.

(** A call, [depth] bounding the nesting as the EVM's limit of 1024 does. *)
Fixpoint call (depth : nat) (from to : address) (value : Z) (data : hexdata) : evm () :=
  match depth with
  | O => revert "call depth"
  | S depth =>
      _ ← transfer from to value;
      k ← the_chain (λ c, accounts c !! to);
      match k with
      | None => mret tt
      | Some k =>
          match account_code k with
          | FactoryCode =>
              match decode data with
              | Some fc =>
                  _ ← require (payable fc || (value =? 0)) "not payable";
                  run_factory (call depth) to from fc
              | None => require (value =? 0) "not payable"      (* fallback *)
              end
          | ProxyCode f => run_proxy f to from value data (account_slot k)
          | k' => run_user k' to from value data (account_slot k)
          end
      end
  end.

(** The constructor of the factory. *)
Definition construct_factory (self selfAddr sender : address) : evm code :=
  n ← the_chain (λ c, nonce c self);
  r ← create_at self (create_address self n) (mret (ProxyTemplate selfAddr));
  addr ← (match r with Ok a => mret a | Throw e => throw e end : evm address);
  _ ← set_storage self (FactoryStorage sender ZERO_ADDRESS [] ZERO_ADDRESS addr);
  mret FactoryCode.

(** ** Transactions *)
Definition CALL_DEPTH : nat := 1024%nat.

Definition call_tx (t : tx) (to : address) : evm () :=
  _ ← change (bump (tx_from t));
  call CALL_DEPTH (tx_from t) to (tx_value t) (tx_data t).

(** A transaction that creates a contract from the sender. *)
Definition create_tx (t : tx) (init : address → evm code) : evm address :=
  n ← the_chain (λ c, nonce c (tx_from t));
  let a := create_address (tx_from t) n in
  r ← create_at (tx_from t) a (init a);
  match r with Ok a => mret a | Throw e => throw e end.

(** What a transaction does to the chain: everything or nothing. *)
Definition run_tx {A} (t : tx) (body : evm A) c : outcome (A * Receipt * chain X) :=
  match body (c, []) with
  | (Ok a, (c', logs)) =>
      if gas_used c t <=? block_gas_limit c then
        Ok (a, {| events := Some logs; gasUsed := gas_used c t; status := 1 |},
            with_block (block_number c' + 1) c')
      else Throw (Rejected "out of gas")
  | (Throw e, _) => Throw e
  end.
End evm.
