(* ===== verification/ChainLaws.v ===== *)
(** * What transactions keep

    Invariants of [Chain]: the code of an account never changes, nonces only
    grow, and the address the next creation of an account gets is free. *)
From S2P Require Import Prelude JsString JsValue FactoryState Chain.
#[local] Open Scope Z_scope.

Section laws.
Context {X : Type} `{Evm, !Contracts X, !EvmLaws}.
Implicit Types (c : chain X) (self sender a : address).
Abbreviation evm := (M (chain X * list Event)).

(** Contracts have a nonce, and no contract is where an account will create one. *)
Record chain_wf c : Prop := {
  wf_nonce : ∀ a, 0 ≤ nonce c a;
  wf_contract : ∀ a, is_Some (accounts c !! a) → 0 < nonce c a;
  wf_fresh : ∀ a n, nonce c a ≤ n →
    accounts c !! create_address a n = None ∧ nonce c (create_address a n) = 0;
  wf_factory : ∀ a k, accounts c !! a = Some k → account_code k = FactoryCode →
    is_Some (factories c !! a);
}.

(** From [c] to [c']: the invariant holds, code is kept, nonces grow. *)
Record evolves c c' : Prop := {
  ev_wf : chain_wf c';
  ev_code : ∀ a k, accounts c !! a = Some k →
    ∃ k', accounts c' !! a = Some k' ∧ account_code k' = account_code k;
  ev_nonce : ∀ a, nonce c a ≤ nonce c' a;
  ev_factory : ∀ a, is_Some (factories c !! a) → is_Some (factories c' !! a);
}.

Lemma evolves_refl c : chain_wf c → evolves c c.
Proof. intros. split; [done| |done|done]. eauto. Qed.

Lemma evolves_trans c1 c2 c3 : evolves c1 c2 → evolves c2 c3 → evolves c1 c3.
Proof.
  intros [W1 A1 N1 F1] [W2 A2 N2 F2]. split; [done| | |auto].
  - intros a k Hk. destruct (A1 a k Hk) as (k2 & Hk2 & Hc2).
    destruct (A2 a k2 Hk2) as (k3 & Hk3 & Hc3). exists k3. split; [done|congruence].
  - intros a. specialize (N1 a). specialize (N2 a). lia.
Qed.

Lemma nonce_with_nonce a n c b :
  nonce (with_nonce a n c) b = if decide (b = a) then n else nonce c b.
Proof.
  unfold nonce, with_nonce. cbn. destruct (decide (b = a)) as [->|Hne].
  - by rewrite lookup_insert_eq.
  - by rewrite lookup_insert_ne.
Qed.

(** Changes of the other parts of the state. *)
Lemma evolves_same c c' :
  chain_wf c → accounts c' = accounts c → nonces c' = nonces c →
  (∀ a, is_Some (factories c !! a) → is_Some (factories c' !! a)) → evolves c c'.
Proof.
  intros [W1 W2 W3 W4] Ha Hn Hf. split.
  - split; unfold nonce in *; rewrite ?Ha, ?Hn; [done..|]. intros a k Hk Hc. eauto.
  - intros a k Hk. rewrite Ha. eauto.
  - intros a. unfold nonce. by rewrite Hn.
  - exact Hf.
Qed.

Lemma evolves_slot c a k s :
  chain_wf c → accounts c !! a = Some k →
  evolves c (with_account a (Account (account_code k) s) c).
Proof.
  intros [W1 W2 W3 W4] Hk.
  assert (∀ b, is_Some (accounts (with_account a (Account (account_code k) s) c) !! b) →
    is_Some (accounts c !! b)) as Hdom.
  { intros b. cbn. destruct (decide (a = b)) as [<-|Hne]; [by eauto|by rewrite lookup_insert_ne]. }
  split.
  - split; [exact W1|eauto| |].
    + intros b n Hn. destruct (W3 b n Hn) as [Hf Hz]. split; [|exact Hz].
      apply eq_None_not_Some. intros Hs%Hdom. rewrite Hf in Hs. by destruct Hs.
    + intros b k' Hb Hc. cbn in Hb. apply lookup_insert_Some in Hb as [[<- <-]|[_ Hb]]; eauto.
  - intros b k' Hb. cbn. destruct (decide (a = b)) as [<-|Hne].
    + rewrite lookup_insert_eq. eexists; split; [done|]. cbn. congruence.
    + rewrite lookup_insert_ne by done. eauto.
  - done.
  - done.
Qed.

(** An address of no contract. *)
Definition eoa a : Prop :=
  (∀ b n, create_address b n ≠ a) ∧ (∀ b s h, create2_address b s h ≠ a).

Lemma evolves_bump c a :
  chain_wf c → (0 < nonce c a ∨ eoa a) → evolves c (bump a c).
Proof.
  intros [W1 W2 W3 W4] Ha. split.
  - split.
    + intros b. unfold bump. rewrite nonce_with_nonce. case_decide; [|done]. specialize (W1 a). lia.
    + intros b Hb. unfold bump. rewrite nonce_with_nonce. case_decide; [|by apply W2].
      specialize (W1 a). lia.
    + intros b n Hn. unfold bump in *. rewrite nonce_with_nonce in Hn.
      destruct (W3 b n) as [Hf Hz].
      { case_decide; [subst; lia|done]. }
      split; [exact Hf|]. rewrite nonce_with_nonce. destruct (decide (create_address b n = a)) as [Hd|Hd]; [|done].
      exfalso. destruct Ha as [Ha|[Ha _]]; [|by apply (Ha b n)]. rewrite Hd in Hz. lia.
    + exact W4.
  - intros b k Hb. eauto.
  - intros b. unfold bump. rewrite nonce_with_nonce. case_decide; [subst; lia|lia].
  - done.
Qed.

(** [m] keeps the invariant from states where [P] holds. *)
Definition keeps {A} (P : chain X → Prop) (m : evm A) : Prop :=
  ∀ s r s', chain_wf s.1 → P s.1 → m s = (Ok r, s') → evolves s.1 s'.1.
(** [P] holds of every later state. *)
Definition stable (P : chain X → Prop) : Prop := ∀ c c', P c → evolves c c' → P c'.

Lemma keeps_ret {A} P (r : A) : keeps P (mret r).
Proof. intros s r' s' Hwf _ [= <- <-]. by apply evolves_refl. Qed.
Lemma keeps_gets {A} P (f : _ → A) : keeps P (gets f).
Proof. intros s r' s' Hwf _ [= <- <-]. by apply evolves_refl. Qed.
Lemma keeps_throw {A} P e : keeps P (throw e : evm A).
Proof. by intros s r' s' _ _ [=]. Qed.
Lemma keeps_bind {A B} P (m : evm A) (f : A → evm B) :
  stable P → keeps P m → (∀ x, keeps P (f x)) → keeps P (m ≫= f).
Proof.
  intros HP Hm Hf s r s' Hwf Hs Hrun. apply bind_inv in Hrun as (x & s1 & H1 & H2).
  pose proof (Hm _ _ _ Hwf Hs H1) as He. eapply evolves_trans; [exact He|].
  eapply Hf; [by apply He|by eapply HP|exact H2].
Qed.
Lemma keeps_require P b msg : keeps P (require (X := X) b msg).
Proof. destruct b; [apply keeps_ret|apply keeps_throw]. Qed.
Lemma keeps_for_each {A} P (l : list A) body :
  stable P → (∀ x, keeps P (body x)) → keeps P (for_each l body).
Proof. intros HP Hb. induction l; cbn; [apply keeps_ret|]. by apply keeps_bind. Qed.
Lemma keeps_weaken {A} (P Q : chain X → Prop) (m : evm A) : (∀ c, P c → Q c) → keeps Q m → keeps P m.
Proof. intros HPQ Hm s r s' Hwf Hs. eapply Hm; eauto. Qed.

(** Changes that leave accounts and nonces as they are. *)
Lemma keeps_same P (f : chain X → chain X) :
  (∀ c, accounts (f c) = accounts c ∧ nonces (f c) = nonces c ∧
        ∀ a, is_Some (factories c !! a) → is_Some (factories (f c) !! a)) →
  keeps P (change f).
Proof. intros Hf s r s' Hwf _ [= _ <-]. cbn. by apply evolves_same; [|apply Hf..]. Qed.
Lemma keeps_modify_logs P g : keeps P (modify (λ s : chain X * list Event, (s.1, g s.2))).
Proof. intros s r s' Hwf _ [= _ <-]. by apply evolves_refl. Qed.

Definition true_of c : Prop := True.
Lemma stable_true : stable true_of. Proof. done. Qed.
Definition exists_at a c : Prop := is_Some (accounts c !! a).
Lemma stable_exists a : stable (exists_at a).
Proof. intros c c' [k Hk] He. destruct (ev_code _ _ He a k Hk) as (k' & Hk' & _). by exists k'. Qed.

(** *** Creation *)
Definition may_create c a : Prop := 0 < nonce c a ∨ eoa a.
Definition creates_at c creator a : Prop :=
  a = create_address creator (nonce c creator) ∨ ∃ s h, a = create2_address creator s h.
Lemma stable_may_create a : stable (λ c, may_create c a).
Proof. intros c c' [Hn|Hn] He; [left|by right]. pose proof (ev_nonce _ _ He a). lia. Qed.
Lemma exists_may_create c a : chain_wf c → exists_at a c → may_create c a.
Proof. intros Hwf Ha. left. by apply (wf_contract _ Hwf). Qed.

(** Creation code for an account [a] whose nonce is set. *)
Definition keeps_init a (init : evm code) : Prop :=
  ∀ s k s', chain_wf s.1 → 0 < nonce s.1 a → init s = (Ok k, s') →
    evolves s.1 s'.1 ∧ (k = FactoryCode → is_Some (factories s'.1 !! a)).

Lemma create_address_next c creator a b n :
  creates_at c creator a → nonce (bump creator c) b ≤ n → create_address b n ≠ a.
Proof.
  intros [->|(t & h & ->)] Hn; [|apply create_create2].
  intros [-> ->]%create_inj. unfold bump in Hn. rewrite nonce_with_nonce, decide_True in Hn by done. lia.
Qed.

Lemma evolves_open c creator a :
  chain_wf c → may_create c creator → creates_at c creator a →
  accounts c !! a = None → nonce c a = 0 → creator ≠ a →
  evolves c (with_nonce a 1 (bump creator c)).
Proof.
  intros Hwf Hcr Hat Ha Hz Hne. pose proof (evolves_bump c creator Hwf Hcr) as Hb.
  eapply evolves_trans; [exact Hb|]. pose proof (ev_wf _ _ Hb) as [W1 W2 W3 W4].
  assert (nonce (bump creator c) a = 0) as Hz'.
  { unfold bump. rewrite nonce_with_nonce. by rewrite decide_False. }
  split.
  - split.
    + intros b. rewrite nonce_with_nonce. case_decide; [lia|apply W1].
    + intros b Hb'. rewrite nonce_with_nonce. case_decide; [lia|by apply W2].
    + intros b n. rewrite !nonce_with_nonce. intros Hn.
      assert (nonce (bump creator c) b ≤ n) as Hn'.
      { destruct (decide (b = a)) as [->|]; [rewrite Hz'; lia|done]. }
      rewrite (decide_False (P := create_address b n = a)); [by apply W3|].
      by eapply create_address_next.
    + exact W4.
  - intros b k Hk. by exists k.
  - intros b. rewrite nonce_with_nonce. case_decide; [subst; lia|lia].
  - done.
Qed.

Lemma evolves_add c c' creator a k :
  evolves (with_nonce a 1 (bump creator c)) c' → evolves c (with_nonce a 1 (bump creator c)) →
  creates_at c creator a → accounts c !! a = None → creator ≠ a →
  (k = FactoryCode → is_Some (factories c' !! a)) →
  evolves c (with_account a (Account k empty_slot) c').
Proof.
  intros He Ho Hat Ha Hne Hk. pose proof (evolves_trans _ _ _ Ho He) as [[W1 W2 W3 W4] A N F]. split.
  - split; [exact W1| | |].
    + intros b [k' Hb]. cbn in Hb. apply lookup_insert_Some in Hb as [[<- _]|[_ Hb]]; [|eauto].
      pose proof (ev_nonce _ _ He a) as Hn. rewrite nonce_with_nonce, decide_True in Hn by done.
      change (0 < nonce c' a). lia.
    + intros b n Hn. change (nonce c' b ≤ n) in Hn. destruct (W3 b n Hn) as [Hf Hz].
      split; [|exact Hz]. cbn. rewrite lookup_insert_ne; [exact Hf|]. intros Heq.
      eapply (create_address_next c creator a b n); [done| |done].
      pose proof (ev_nonce _ _ He b) as Hb. rewrite nonce_with_nonce in Hb.
      destruct (decide (b = a)) as [->|]; [|lia].
      unfold bump. rewrite nonce_with_nonce, decide_False by done.
      destruct Hat as [Hat|(t & h & Hat)].
      * rewrite Hat in Heq at 1. by apply create_inj in Heq as [? _].
      * rewrite Hat in Heq at 1. symmetry in Heq. by apply create_create2 in Heq.
    + intros b k' Hb Hc. cbn in Hb. apply lookup_insert_Some in Hb as [[<- <-]|[_ Hb]]; [auto|eauto].
  - intros b k' Hb. destruct (A b k' Hb) as (k2 & Hk2 & Hc). exists k2. split; [|done].
    cbn. rewrite lookup_insert_ne; [done|]. intros ->. congruence.
  - exact N.
  - exact F.
Qed.

Lemma create_at_evolves creator a init s r s' :
  chain_wf s.1 → may_create s.1 creator → creates_at s.1 creator a → keeps_init a init →
  create_at creator a init s = (Ok r, s') → evolves s.1 s'.1.
Proof.
  intros Hwf Hcr Hat Hi. unfold create_at.
  pose proof (evolves_bump s.1 creator Hwf Hcr) as Hb.
  destruct (decide _) as [Ht|Hnt]; [by intros [= _ <-]|].
  assert (accounts s.1 !! a = None) as Ha by (apply eq_None_not_Some; tauto).
  assert (nonce s.1 a = 0) as Hz by lia.
  assert (creator ≠ a) as Hne.
  { intros <-. destruct Hcr as [?|[H1 H2]]; [lia|].
    destruct Hat as [Hat|(t & h & Hat)]; [by eapply H1|by eapply H2]. }
  pose proof (evolves_open s.1 creator a Hwf Hcr Hat Ha Hz Hne) as Ho. cbn [fst snd].
  destruct (init _) as [[k|e] s2] eqn:Hrun; intros [= _ <-]; [|exact Hb].
  destruct (Hi (with_nonce a 1 (bump creator s.1), s.2) k s2 (ev_wf _ _ Ho)) as [He Hk]; [|exact Hrun|].
  { cbn [fst]. rewrite nonce_with_nonce, decide_True by done. lia. }
  cbn in *. by eapply evolves_add.
Qed.

Lemma keeps_create2 (P : chain X → Prop) creator salt h init :
  (∀ c, chain_wf c → P c → may_create c creator) → keeps_init (create2_address creator salt h) init →
  keeps P (create_at creator (create2_address creator salt h) init).
Proof.
  intros HP Hi s r s' Hwf Hs Hrun. eapply create_at_evolves; [done|eauto| |exact Hi|exact Hrun].
  right. eauto.
Qed.

Lemma keeps_create {B} (P : chain X → Prop) creator init (f : outcome address → evm B) :
  stable P → (∀ c, chain_wf c → P c → may_create c creator) →
  (∀ a, keeps_init a (init a)) → (∀ r, keeps P (f r)) →
  keeps P (n ← the_chain (λ c, nonce c creator);
           let a := create_address creator n in
           r ← create_at creator a (init a); f r).
Proof.
  intros HP Hcr Hi Hf s r s' Hwf Hs. unfold the_chain. run_step. intros Hrun.
  apply bind_inv in Hrun as (x & s1 & H1 & H2).
  assert (evolves s.1 s1.1) as He.
  { eapply create_at_evolves; [exact Hwf|by auto|by left|apply Hi|exact H1]. }
  eapply evolves_trans; [exact He|]. eapply Hf; [by apply He|by eapply HP|exact H2].
Qed.

(** Constructors of code other than the factory's. *)
Lemma keeps_init_of a (init : evm code) :
  keeps true_of init → (∀ s k s', init s = (Ok k, s') → k ≠ FactoryCode) → keeps_init a init.
Proof.
  intros Hk Hn s k s' Hwf _ Hrun. split; [by eapply Hk|]. intros ->. by apply Hn in Hrun.
Qed.
End laws.

(** Symbolic execution over a script for [keeps]: binds, branches, and the
    statements whose lemma is in the database [keeps]. *)
Create HintDb keeps.
#[export] Hint Resolve keeps_ret keeps_gets keeps_throw keeps_require keeps_modify_logs
  stable_true stable_exists stable_may_create : keeps.
Ltac keep := repeat first
  [ solve [auto with keeps]
  | apply keeps_bind; [solve [auto with keeps]| |intros ?]
  | match goal with |- keeps _ (match ?x with _ => _ end) => destruct x end ].

Section factory_keeps.
Context {X : Type} `{Evm, !Contracts X, !EvmLaws}.
Implicit Types (c : chain X) (self sender a : address) (P : chain X → Prop).
Abbreviation evm := (M (chain X * list Event)).

Lemma keeps_revert {A} P msg : keeps P (revert (X := X) (A := A) msg).
Proof. apply keeps_throw. Qed.
Lemma keeps_ext P x : keeps P (change (X := X) (with_ext x)).
Proof. by apply keeps_same. Qed.
Lemma keeps_balances P f : keeps P (change (X := X) (λ c, with_balances (f c) c)).
Proof. by apply keeps_same. Qed.
Lemma keeps_emit P e : keeps P (emit (X := X) e).
Proof. apply (keeps_modify_logs P (λ l, l ++ [e])). Qed.
Lemma keeps_emit_foreign P n : keeps P (emit_foreign (X := X) n).
Proof. apply (keeps_modify_logs P (λ l, l ++ replicate n foreign_log)). Qed.
Lemma keeps_set_storage P a f : keeps P (set_storage (X := X) a f).
Proof.
  apply keeps_same. intros c. repeat split. intros b Hb. cbn.
  destruct (decide (a = b)) as [<-|Hne]; [by rewrite lookup_insert_eq|by rewrite lookup_insert_ne].
Qed.
#[local] Hint Resolve keeps_revert keeps_ext keeps_balances keeps_emit keeps_emit_foreign keeps_set_storage : keeps.

Lemma keeps_the_chain {A} P (f : chain X → A) : keeps P (the_chain f).
Proof. apply keeps_gets. Qed.
#[local] Hint Resolve keeps_the_chain : keeps.

Lemma keeps_transfer P from to v : stable P → keeps P (transfer (X := X) from to v).
Proof. intros HP. unfold transfer. keep. Qed.
Lemma keeps_ran P r : stable P → keeps P (ran (X := X) r).
Proof. intros HP. unfold ran. keep. Qed.
Lemma keeps_storage P a : stable P → keeps P (storage (X := X) a).
Proof. intros HP. unfold storage. keep. Qed.
#[local] Hint Resolve keeps_transfer keeps_ran keeps_storage : keeps.
Lemma keeps_construct_at P dep a b : stable P → keeps P (construct_at (X := X) dep a b).
Proof. intros HP. unfold construct_at. keep. Qed.
Lemma keeps_run_as_init_at P k a b : stable P → keeps P (run_as_init_at (X := X) k a b).
Proof. intros HP. unfold run_as_init_at. keep. Qed.
Lemma keeps_push_contract P a salt : stable P → keeps P (push_contract (X := X) a salt).
Proof. intros HP. unfold push_contract. keep. Qed.
Lemma keeps_set_implementation P a b : stable P → keeps P (set_implementation (X := X) a b).
Proof. intros HP. unfold set_implementation. keep. Qed.
Lemma keeps_codeSizeZeroRevert P r : stable P → keeps P (codeSizeZeroRevert (X := X) r).
Proof. intros HP. unfold codeSizeZeroRevert. keep. Qed.
#[local] Hint Resolve keeps_construct_at keeps_run_as_init_at keeps_push_contract
  keeps_set_implementation keeps_codeSizeZeroRevert : keeps.
Lemma keeps_metamorphic P a f : stable P → keeps P (metamorphic_init (X := X) a f).
Proof. intros HP. unfold metamorphic_init. keep. Qed.
Lemma keeps_onlyOwner P a b : stable P → keeps P (onlyOwner (X := X) a b).
Proof. intros HP. unfold onlyOwner. keep. Qed.
Lemma keeps_onlyOwnerOrDelegator P a b : stable P → keeps P (onlyOwnerOrDelegator (X := X) a b).
Proof. intros HP. unfold onlyOwnerOrDelegator. keep. Qed.
#[local] Hint Resolve keeps_metamorphic keeps_onlyOwner keeps_onlyOwnerOrDelegator : keeps.

(** Constructed code is never a factory's. *)
Lemma ran_user r (s : chain X * list Event) k s' : ran r s = (Ok k, s') → k ≠ FactoryCode.
Proof. destruct r as [[[rt n] x]|]; cbn; [|done]. by intros [= <- _]. Qed.
Lemma construct_at_user dep a b (s : chain X * list Event) k s' :
  construct_at dep a b s = (Ok k, s') → k ≠ FactoryCode.
Proof. apply ran_user. Qed.
Lemma metamorphic_user a f (s : chain X * list Event) k s' :
  metamorphic_init a f s = (Ok k, s') → k ≠ FactoryCode.
Proof.
  unfold metamorphic_init. intros Hrun. inv_bind Hrun. unfold the_chain in Hrun.
  rewrite bind_gets in Hrun. destruct (account_code <$> _) as [[]|];
    try (by injection Hrun as <- _); by apply ran_user in Hrun.
Qed.

Lemma keeps_init_construct a dep f : keeps_init a (construct_at (X := X) dep a f).
Proof. apply keeps_init_of; [auto with keeps|]. apply construct_at_user. Qed.
Lemma keeps_init_metamorphic a f : keeps_init a (metamorphic_init (X := X) a f).
Proof. apply keeps_init_of; [auto with keeps|]. apply metamorphic_user. Qed.
Lemma keeps_init_template a dep : keeps_init a (mret (Template dep) : evm code).
Proof. apply keeps_init_of; [auto with keeps|]. by intros s k s' [= <- _]. Qed.
Lemma keeps_init_endowed a f v dep :
  keeps_init a (_ ← transfer f a v; construct_at (X := X) dep a f).
Proof.
  apply keeps_init_of; [keep|]. intros s k s' Hrun. inv_bind Hrun. by apply construct_at_user in Hrun.
Qed.

Section deploys.
Variables (P : chain X → Prop) (self : address).
Hypothesis HP : stable P.
Hypothesis Hself : ∀ c, chain_wf c → P c → may_create c self.

Lemma keeps_deployCreate dep : keeps P (_deployCreate (X := X) self dep).
Proof.
  unfold _deployCreate. apply (keeps_create P self (λ a, construct_at dep a self)); [done..| |].
  - intros a. apply keeps_init_construct.
  - intros r. keep.
Qed.
Lemma keeps_deployTemplate dep : keeps P (_deployTemplate (X := X) self dep).
Proof.
  unfold _deployTemplate. apply (keeps_create P self (λ _, mret (Template (dep +:+ address_word self)))); [done..| |].
  - intros a. apply keeps_init_template.
  - intros r. keep.
Qed.
Lemma keeps_deployCreate2 v salt dep : keeps P (_deployCreate2 (X := X) self v salt dep).
Proof.
  apply keeps_bind; [done| |intros r; keep].
  apply keeps_create2; [done|]. apply keeps_init_endowed.
Qed.
Lemma keeps_deployProxy salt : keeps P (_deployProxy (X := X) self salt).
Proof.
  unfold _deployProxy. keep. apply keeps_create2; [done|]. apply keeps_init_metamorphic.
Qed.

Variable call : address → address → Z → hexdata → evm ().
Hypothesis Hcall : ∀ to v d, keeps P (call self to v d).
#[local] Hint Resolve Hcall : keeps.

Lemma keeps_initialize a d : keeps P (_initializeContract (X := X) call self a d).
Proof. unfold _initializeContract. keep. Qed.
#[local] Hint Resolve keeps_initialize : keeps.
Lemma keeps_deployStatic salt d : keeps P (_deployStatic (X := X) call self salt d).
Proof.
  unfold _deployStatic. apply keeps_bind; [done| |intros r; keep].
  apply keeps_create2; [done|]. apply keeps_init_metamorphic.
Qed.
Lemma keeps_upgradeProxy salt impl d : keeps P (_upgradeProxy (X := X) call self salt impl d).
Proof. unfold _upgradeProxy. keep. Qed.
Lemma keeps_multiCall l : keeps P (_multiCall (X := X) call self l).
Proof. apply keeps_for_each; [done|]. auto. Qed.

Lemma keeps_run_factory sender fc : keeps P (run_factory (X := X) call self sender fc).
Proof.
  pose proof keeps_deployCreate. pose proof keeps_deployCreate2. pose proof keeps_deployProxy.
  pose proof keeps_deployTemplate. pose proof keeps_deployStatic. pose proof keeps_upgradeProxy.
  pose proof keeps_multiCall. destruct fc; unfold run_factory; keep.
Qed.
End deploys.

(** *** Calls *)
Definition has_code a k c : Prop := ∃ x, accounts c !! a = Some x ∧ account_code x = k.
Lemma stable_has_code a k : stable (has_code a k).
Proof.
  intros c c' (x & Hx & Hc) He. destruct (ev_code _ _ He a x Hx) as (x' & Hx' & Hc').
  exists x'. split; [done|congruence].
Qed.
Lemma stable_and P Q : stable P → stable Q → stable (λ c, P c ∧ Q c).
Proof. intros HP HQ c c' [? ?] He. split; eauto. Qed.

Lemma keeps_lookup {B} P a (f : option account → evm B) :
  keeps P (f None) → (∀ k, keeps (λ c, P c ∧ has_code a (account_code k) c) (f (Some k))) →
  keeps P (k ← the_chain (λ c, accounts c !! a); f k).
Proof.
  intros Hn Hs s r s' Hwf HPs. unfold the_chain. rewrite bind_gets.
  destruct (accounts s.1 !! a) as [k|] eqn:Hk; [|by apply Hn].
  apply Hs; [done|]. split; [done|]. by exists k.
Qed.

Lemma keeps_set_slot a k slot :
  keeps (has_code a k) (change (X := X) (with_account a (Account k slot))).
Proof.
  intros s r s' Hwf (x & Hx & <-) [= _ <-]. by apply evolves_slot.
Qed.

Lemma keeps_run_user P k to from v d s : stable P → keeps P (run_user (X := X) k to from v d s).
Proof.
  intros HP. unfold run_user. apply keeps_bind; [done|auto with keeps|]. intros x.
  destruct (call_code _ _ _ _ _ _ _) as [[[s' n] x']|]; [|auto with keeps].
  apply keeps_bind; [done| |intros _; keep].
  intros st r st' Hwf _ [= _ <-]. cbn. destruct (accounts st.1 !! to) as [k'|] eqn:Hk.
  - by apply evolves_slot.
  - by apply evolves_refl.
Qed.
#[local] Hint Resolve keeps_run_user : keeps.

Lemma keeps_run_proxy P f to from v d s :
  stable P → keeps (λ c, P c ∧ has_code to (ProxyCode f) c) (run_proxy (X := X) f to from v d s).
Proof.
  intros HP. pose proof (stable_and _ _ HP (stable_has_code to (ProxyCode f))) as HPQ.
  unfold run_proxy. keep.
  apply (keeps_weaken _ (has_code to (ProxyCode f))); [by intros c [_ ?]|]. apply keeps_set_slot.
Qed.

Lemma keeps_call depth P from to v d : stable P → keeps P (call (X := X) depth from to v d).
Proof.
  revert P from to v d. induction depth as [|depth IH]; intros P from to v d HP; cbn [call].
  { apply keeps_throw. }
  apply keeps_bind; [done|auto with keeps|intros _].
  apply keeps_lookup; [auto with keeps|]. intros k.
  pose proof (stable_and _ _ HP (stable_has_code to (account_code k))) as HPQ.
  destruct (account_code k) eqn:Hk; try solve [auto with keeps].
  - destruct (decode d) as [fc|]; [|auto with keeps].
    apply keeps_bind; [done|auto with keeps|intros _].
    apply keeps_run_factory; [done| |by auto].
    intros c Hwf [_ (x & Hx & _)]. apply exists_may_create; [done|]. by exists x.
  - by apply keeps_run_proxy.
Qed.

(** *** Transactions *)
Lemma run_tx_keeps {A} P t (body : evm A) c r rc c' :
  keeps P body → chain_wf c → P c → run_tx t body c = Ok (r, rc, c') → evolves c c'.
Proof.
  intros Hb Hwf Hc. unfold run_tx. destruct (body (c, [])) as [[x|e] [c1 logs]] eqn:Hrun; [|done].
  destruct (_ <=? _); [|done]. intros [= <- <- <-].
  pose proof (Hb (c, []) _ _ Hwf Hc Hrun) as He. eapply evolves_trans; [exact He|].
  apply evolves_same; [by apply He|done..].
Qed.

Lemma keeps_call_tx t to : eoa (tx_from t) → keeps true_of (call_tx (X := X) t to).
Proof.
  intros Heoa. apply keeps_bind; [auto with keeps| |intros _; by apply keeps_call].
  intros s r0 s' Hs _ [= _ <-]. cbn. apply evolves_bump; [done|by right].
Qed.

(** Whatever a transaction calls, and however deeply it nests, contracts
    keep their code, nonces grow, and the addresses the factories and the
    accounts will create at stay free. *)
Lemma call_tx_evolves t to c r rc c' :
  chain_wf c → eoa (tx_from t) →
  run_tx t (call_tx t to) c = Ok (r, rc, c') → evolves c c'.
Proof. intros Hwf Heoa. apply (run_tx_keeps true_of); [by apply keeps_call_tx|done|done]. Qed.

Lemma construct_factory_keeps a selfAddr sender :
  keeps_init a (construct_factory (X := X) a selfAddr sender).
Proof.
  intros s k s' Hwf Hn. unfold construct_factory, the_chain. run_step. intros Hrun.
  apply bind_inv in Hrun as (r & s1 & H1 & H2).
  assert (evolves s.1 s1.1) as He.
  { eapply create_at_evolves; [exact Hwf|by left|by left| |exact H1].
    apply keeps_init_of; [auto with keeps|]. by intros ? ? ? [= <- _]. }
  destruct r as [addr|e]; [|done]. cbn in H2. injection H2 as <- <-. cbn. split.
  - eapply evolves_trans; [exact He|]. apply evolves_same; [by apply He|done..|].
    intros b Hb. cbn. destruct (decide (a = b)) as [<-|Hne];
      [by rewrite lookup_insert_eq|by rewrite lookup_insert_ne].
  - intros _. by rewrite lookup_insert_eq.
Qed.
End factory_keeps.

