(* ===== verification/Hardhat.v ===== *)
(** * Hardhat and ethers

    What the tasks use of the runtime environment: signers, contract factories
    (class [Hardhat], produced by the compiler and the configuration, so a
    parameter), transactions and gas estimation on [Chain], and the way
    [hre.run] resolves the declared parameters of a task. *)
From S2P Require Import Prelude JsString JsValue Toml World Constants Artifacts DeploymentUtil.
From S2P Require Import FactoryState Chain.
#[local] Open Scope Z_scope.

(** An ethers [ContractFactory]. *)
Record ContractFactory := {
  bytecode : hexdata;
  getDeployTransaction : list value → outcome (option hexdata);   (* its [data] *)
  encodeFunctionData : string → list value → outcome hexdata;
}.

Class Hardhat := {
  network_name : string;
  fixed_gas : bool;                     (* the network's [gas] is a number, not "auto" *)
  transaction_failed : exn → exn;       (* what waiting for a failed transaction throws *)
  signers : list address;
  getContractFactory : string → outcome ContractFactory;
  formatBytes32String : option string → outcome hexdata;
  parseBytes32String : hexdata → outcome string;
}.

Section hardhat.
Context {X : Type} `{Evm, !Contracts X, Hardhat}.
Abbreviation task := (M (world (chain X))).

(** [getSigners()], and the first of them, which signs. *)
Definition getAccounts : list address := signers.
Definition signer : outcome address :=
  of_option (Rejected "sending a transaction requires a signer") (head signers).

Definition getTransactionCount (a : address) : task Z := gets (λ w, nonce (chain_state w) a).
Definition blockNumber : task Z := gets (λ w, block_number (chain_state w)).

(** Sending and waiting, after estimating the gas: a transaction that reverts is
    refused then, so it leaves the chain as it is. *)
Definition send {A} (t : tx) (body : M (chain X * list Event) A) : task (A * Receipt) := λ w,
  match run_tx t body (chain_state w) with
  | Ok (a, receipt, c) => (Ok (a, receipt), with_chain c w)
  | Throw e => (Throw e, w)
  end.
(** The same for a method of a contract that hardhat built.  On a network with a
    fixed gas nothing is estimated, and a transaction that reverts is mined. *)
Definition refusal (e : exn) : exn := if fixed_gas then transaction_failed e else e.
Definition refused (from : address) (c : chain X) : chain X :=
  if fixed_gas then with_block (block_number c + 1) (bump from c) else c.
Definition send_method {A} (t : tx) (body : M (chain X * list Event) A) : task (A * Receipt) := λ w,
  match run_tx t body (chain_state w) with
  | Ok (a, receipt, c) => (Ok (a, receipt), with_chain c w)
  | Throw e => (Throw (refusal e), with_chain (refused (tx_from t) (chain_state w)) w)
  end.
Definition estimateGas {A} (t : tx) (body : M (chain X * list Event) A) : task Z := λ w,
  match run_tx t body (chain_state w) with
  | Ok (_, receipt, _) => (Ok (gasUsed receipt), w)
  | Throw e => (Throw e, w)
  end.

(** [factoryBase.interface.encodeFunctionData(...)] *)
Definition encodeFactoryData (fc : fcall) : outcome hexdata :=
  if valid_call fc then Ok (encode fc) else Throw (Rejected "invalid argument").
(** The data of a deploy transaction as an argument of type bytes. *)
Definition bytes_arg (data : option hexdata) : outcome hexdata :=
  of_option (Rejected "invalid arrayify value") data.

(** [factory.<method>(...)] on the contract attached at [factory]. *)
Definition factory_tx (factory : address) (fc : fcall) : outcome tx :=
  from ← signer;
  data ← encodeFactoryData fc;
  Ok (Tx from (Some factory) 0 data).
Definition factory_send (factory : address) (fc : fcall) : task Receipt :=
  t ← lift (factory_tx factory fc);
  r ← send_method t (call_tx t factory);
  mret r.2.
Definition factory_estimateGas (factory : address) (fc : fcall) : task Z :=
  t ← lift (factory_tx factory fc);
  estimateGas t (call_tx t factory).

(** [factory.callStatic.getImplementation()] *)
Definition getImplementation (factory : address) : task address :=
  f ← gets (λ w, factories (chain_state w) !! factory);
  lift (_implementation <$> of_option (Rejected "CALL_EXCEPTION") f).
(** [proxy.getImplementationAddress()] *)
Definition proxyImplementation (proxy : address) : task address :=
  impl ← gets (λ w, getImplementationAddress (chain_state w) proxy);
  lift (of_option (Rejected "CALL_EXCEPTION") impl).

Definition evm_setBlockGasLimit (limit : Z) : task () :=
  modify (λ w, with_chain (with_gas_limit limit (chain_state w)) w).

(** [BigNumber.toNumber()] *)
Definition toNumber (n : Z) : outcome Z :=
  if Z.abs n <? 2 ^ 53 then Ok n else Throw (Rejected "overflow").
End hardhat.

(** ** Task arguments

    The arguments of a task, declared or not. *)
Record TaskArgs := {
  ta_contractName : option string;
  ta_factoryAddress : option string;
  ta_initCallData : option string;
  ta_constructorArgs : option (list value);
  ta_inputFolder : option string;
  ta_outputFolder : option string;
  ta_salt : option string;
  ta_logicAddress : option string;
}.
Definition no_args : TaskArgs := {|
  ta_contractName := None; ta_factoryAddress := None; ta_initCallData := None;
  ta_constructorArgs := None; ta_inputFolder := None; ta_outputFolder := None;
  ta_salt := None; ta_logicAddress := None |}.

(** A mandatory parameter. *)
Definition required (name : string) (v : option string) : outcome string :=
  of_option (Rejected ("HH306: The '" +:+ name +:+ "' parameter expects a value")) v.
(** Values of a variadic parameter of type string. *)
Definition is_string (v : value) : bool := match v with VStr _ => true | _ => false end.
Definition variadic (v : option (list value)) : outcome (option (list value)) :=
  if forallb is_string (default [] v) then Ok v
  else Throw (Rejected "HH301: Invalid value for argument").

Definition deployArgs_task (a : DeployArgs) : TaskArgs := {|
  ta_contractName := Some (contractName a); ta_factoryAddress := Some (factoryAddress a);
  ta_initCallData := initCallData a; ta_constructorArgs := constructorArgs a;
  ta_inputFolder := None; ta_outputFolder := outputFolder a;
  ta_salt := None; ta_logicAddress := None |}.
Definition mcArgs_task (a : DeployProxyMCArgs) : TaskArgs := {|
  ta_contractName := Some (mc_contractName a); ta_factoryAddress := mc_factoryAddress a;
  ta_initCallData := mc_initCallData a; ta_constructorArgs := None;
  ta_inputFolder := None; ta_outputFolder := mc_outputFolder a;
  ta_salt := None; ta_logicAddress := Some (mc_logicAddress a) |}.
