(* ===== verification/FactoryTasks.v ===== *)
(** * The factory tasks

    [bridge/scripts/lib/alicenetFactoryTasks.ts]: the hardhat tasks that deploy
    the factory, and contracts through it.  Each task is a definition of its
    name, over the resolved arguments [TaskArgs]; [hre.run] is the application
    of one to another. *)
From S2P Require Import Prelude JsString JsValue Toml World Constants Config Artifacts.
From S2P Require Import DeploymentUtil DeploymentList DeployArgs FactoryState Chain Hardhat.
#[local] Open Scope Z_scope.

(** ** Receipts *)

(** The first event of that name with a defined argument decides. *)
Fixpoint find_event_var (eventName varName : string) (events : list Event) : outcome value :=
  match events with
  | [] => Throw (Error ("failed to find event: " +:+ eventName))
  | e :: events =>
      if decide (event e = Some eventName) then
        match event_args e with
        | Some args =>
            match dget varName args with
            | None | Some VUndef => find_event_var eventName varName events
            | Some v => Ok v
            end
        | None => Throw (Error ("failed to extract " +:+ varName +:+ " from event: " +:+ eventName))
        end
      else find_event_var eventName varName events
  end.
Definition getEventVar (receipt : Receipt) (eventName varName : string) : outcome value :=
  match events receipt with
  | Some events => find_event_var eventName varName events
  | None => Throw (Error ("failed to find event: " +:+ eventName))
  end.
(** The address an event carries. *)
Definition getEventAddress (receipt : Receipt) (eventName : string) : outcome address :=
  to_js_string <$> getEventVar receipt eventName CONTRACT_ADDR.

Section tasks.
Context {X : Type} `{Toml} `{Artifacts} `{Evm, !Contracts X, Hardhat}.
Abbreviation task := (M (world (chain X))).

Definition showState (message : string) : task () :=
  silencer ← getenv "silencer";
  if not_silenced silencer then console_log message else mret tt.

Definition checkUserDirPath (path : option string) : task () :=
  match path with
  | None => mret tt
  | Some path =>
      e ← existsSync path;
      _ ← (if e : bool then mret tt
           else
             _ ← console_log ("Creating Folder at" +:+ path +:+ " since it didn't exist before!");
             mkdirSync path);
      isFile ← statIsFile path;
      if isFile : bool then
        throw (Error "outputFolder path should be to a directory not a file")
      else mret tt
  end.

(** [getMetamorphicAddress]: computed from the init code's hash. *)
Definition getMetamorphicAddress (factoryAddress salt : string) : address :=
  create2_address factoryAddress salt (keccak256 METAMORPHIC_CODE).

(** The salt is undefined when the contract has no such tag, and empty when
    there is no build info. *)
Definition getSalt (contractName : string) : task (option string) :=
  qualifiedName ← lift (getFullyQualifiedName contractName);
  buildInfo ← lift (getBuildInfo qualifiedName);
  match buildInfo with
  | Some _ =>
      info ← lift (contract_output buildInfo (extractPath qualifiedName) contractName);
      mret (devdoc info !! "custom:salt")
  | None => _ ← console_log "missing salt"; mret (Some "")
  end.
Definition getBytes32Salt (contractName : string) : task hexdata :=
  salt ← getSalt contractName;
  lift (formatBytes32String salt).

(** [initCallData.replace(/\s+/g, "").split(",")] *)
Definition splitInitCallData (initCallData : option string) : list value :=
  match initCallData with
  | None => []
  | Some d => map VStr (split ","%char (remove_spaces d))
  end.
(** The calldata of the initializer, empty when the contract has none. *)
Definition encodeInitCallData (contractName : string) (initCallData : option string)
    : task hexdata :=
  logicFactory ← lift (getContractFactory contractName);
  let initArgs := splitInitCallData initCallData in
  fullname ← lift (getFullyQualifiedName contractName);
  isInitable ← lift (isInitializable fullname);
  lift (if isInitable : bool then encodeFunctionData logicFactory INITIALIZER initArgs
        else Ok EMPTY).

(** On the network "hardhat" the gas limit of blocks is raised. *)
Definition raiseBlockGasLimit : task () :=
  if decide (network_name = "hardhat") then evm_setBlockGasLimit 0x3000000000000000
  else mret tt.

Definition gas_string (g : Z) : string := num_to_string 10 g.

(** *** Tasks *)
Definition getNetwork : task string := _ ← showState network_name; mret network_name.

Definition getBytes32Salt_task (a : TaskArgs) : task () :=
  name ← lift (required "contractName" (ta_contractName a));
  salt ← getBytes32Salt name;
  showState salt.

Definition deployFactory (a : TaskArgs) : task FactoryData :=
  _ ← checkUserDirPath (ta_outputFolder a);
  factoryBase ← lift (getContractFactory ALICENET_FACTORY);
  account ← lift (of_option (Rejected "invalid address") (head getAccounts));
  txCount ← getTransactionCount account;
  let futureFactoryAddress := create_address account txCount in
  data ← lift (getDeployTransaction factoryBase [VStr futureFactoryAddress]);
  let t := Tx account None 0 (default EMPTY data) in
  let body := create_tx t (λ self, construct_factory self futureFactoryAddress account) in
  gasCost ← estimateGas t body;
  deployed ← send t body;
  let factoryData := {| fd_address := deployed.1; fd_owner := Some account; fd_gas := gasCost |} in
  _ ← updateDefaultFactoryData network_name factoryData (ta_outputFolder a);
  _ ← showState ("Deployed: " +:+ ALICENET_FACTORY +:+ ", at address: " +:+ deployed.1);
  mret factoryData.

Definition deployCreate_task (a : TaskArgs) : task DeployCreateData :=
  name ← lift (required "contractName" (ta_contractName a));
  factory ← lift (required "factoryAddress" (ta_factoryAddress a));
  conArgs ← lift (variadic (ta_constructorArgs a));
  _ ← lift (getContractFactory ALICENET_FACTORY);
  logicContract ← lift (getContractFactory name);
  data ← lift (getDeployTransaction logicContract (default [] conArgs));
  _ ← raiseBlockGasLimit;
  match data with
  | Some data =>
      receipt ← factory_send factory (deployCreate data);
      address ← lift (getEventAddress receipt DEPLOYED_RAW);
      let deployCreateData := {| dc_name := name; dc_address := address;
        dc_factoryAddress := factory; dc_gas := gasUsed receipt;
        dc_constructorArgs := conArgs; dc_receipt := None |} in
      _ ← updateDeployCreateList network_name deployCreateData (ta_outputFolder a);
      _ ← showState ("[DEBUG ONLY, DONT USE THIS ADDRESS IN THE SIDE CHAIN, USE THE PROXY INSTEAD!] Deployed logic for "
             +:+ name +:+ " contract at: " +:+ address +:+ ", gas: " +:+ gas_string (gasUsed receipt));
      mret {| dc_name := name; dc_address := address; dc_factoryAddress := factory;
              dc_gas := gasUsed receipt; dc_constructorArgs := conArgs; dc_receipt := Some receipt |}
  | None => throw (Error ("failed to get deployment bytecode for " +:+ name))
  end.

Definition deployProxy_task (a : TaskArgs) : task ProxyData :=
  salt ← lift (required "salt" (ta_salt a));
  factory ← lift (required "factoryAddress" (ta_factoryAddress a));
  _ ← lift (getContractFactory ALICENET_FACTORY);
  receipt ← factory_send factory (deployProxy salt);
  proxyAddr ← lift (getEventAddress receipt DEPLOYED_PROXY);
  let proxyData := {| px_proxyAddress := proxyAddr; px_salt := salt; px_logicName := None;
    px_logicAddress := None; px_factoryAddress := factory; px_gas := GasBig (gasUsed receipt);
    px_receipt := Some receipt; px_initCallData := None |} in
  name ← lift (parseBytes32String salt);
  _ ← showState ("Deployed " +:+ name +:+ " proxy at " +:+ proxyAddr +:+ ", gasCost: "
         +:+ gas_string (gasUsed receipt));
  mret proxyData.

Definition upgradeDeployedProxy (a : TaskArgs) : task ProxyData :=
  name ← lift (required "contractName" (ta_contractName a));
  logic ← lift (required "logicAddress" (ta_logicAddress a));
  factory ← lift (required "factoryAddress" (ta_factoryAddress a));
  _ ← lift (getContractFactory ALICENET_FACTORY);
  salt ← getBytes32Salt name;
  data ← encodeInitCallData name (ta_initCallData a);
  receipt ← factory_send factory (upgradeProxy salt logic data);
  gas ← lift (toNumber (gasUsed receipt));
  let proxyData := {| px_proxyAddress := getMetamorphicAddress factory salt; px_salt := salt;
    px_logicName := Some name; px_logicAddress := Some logic; px_factoryAddress := factory;
    px_gas := GasNumber gas; px_receipt := Some receipt; px_initCallData := Some data |} in
  let nl := String "010" "" in
  _ ← showState ("Updated logic with upgradeDeployedProxy for the" +:+ nl +:+ "      " +:+ name
         +:+ nl +:+ "      contract at" +:+ nl +:+ "      " +:+ px_proxyAddress proxyData
         +:+ nl +:+ "      gas:" +:+ nl +:+ "      " +:+ gas_string (gasUsed receipt));
  updateProxyList network_name proxyData (ta_outputFolder a).

Definition multiCallDeployProxy (a : TaskArgs) : task ProxyData :=
  name ← lift (required "contractName" (ta_contractName a));
  logic ← lift (required "logicAddress" (ta_logicAddress a));
  factory ← lift (required "factoryAddress" (ta_factoryAddress a));
  _ ← lift (getContractFactory ALICENET_FACTORY);
  data ← encodeInitCallData name (ta_initCallData a);
  salt ← (match ta_salt a with
          | None => getBytes32Salt name
          | Some s => lift (formatBytes32String (Some s))
          end);
  deployProxyData ← lift (encodeFactoryData (deployProxy salt));
  upgradeProxyData ← lift (encodeFactoryData (upgradeProxy salt logic data));
  receipt ← factory_send factory (multiCall [deployProxyData; upgradeProxyData]);
  proxyAddr ← lift (getEventAddress receipt DEPLOYED_PROXY);
  gas ← lift (toNumber (gasUsed receipt));
  let proxyData := {| px_proxyAddress := proxyAddr; px_salt := salt;
    px_logicName := Some name; px_logicAddress := Some logic; px_factoryAddress := factory;
    px_gas := GasNumber gas; px_receipt := Some receipt; px_initCallData := Some data |} in
  updateProxyList network_name proxyData (ta_outputFolder a).

Definition with_gas (g : BigNumberish) (d : ProxyData) : ProxyData := {|
  px_proxyAddress := px_proxyAddress d; px_salt := px_salt d; px_logicName := px_logicName d;
  px_logicAddress := px_logicAddress d; px_factoryAddress := px_factoryAddress d; px_gas := g;
  px_receipt := px_receipt d; px_initCallData := px_initCallData d |}.
Definition with_meta_gas (g : Z) (d : MetaContractData) : MetaContractData := {|
  mt_metaAddress := mt_metaAddress d; mt_salt := mt_salt d; mt_templateName := mt_templateName d;
  mt_templateAddress := mt_templateAddress d; mt_factoryAddress := mt_factoryAddress d;
  mt_gas := g; mt_initCallData := mt_initCallData d; mt_receipt := mt_receipt d |}.

(** The parameter [contractName] is declared with the default "string". *)
Definition deployUpgradeableProxy (a : TaskArgs) : task ProxyData :=
  let name := default "string" (ta_contractName a) in
  factory ← lift (required "factoryAddress" (ta_factoryAddress a));
  conArgs ← lift (variadic (ta_constructorArgs a));
  deployCreateData ← deployCreate_task (deployArgs_task
    {| contractName := name; factoryAddress := factory; initCallData := None;
       constructorArgs := conArgs; outputFolder := ta_outputFolder a |});
  proxyData ← multiCallDeployProxy (mcArgs_task
    {| mc_contractName := name; mc_logicAddress := dc_address deployCreateData;
       mc_factoryAddress := Some factory; mc_initCallData := ta_initCallData a;
       mc_outputFolder := ta_outputFolder a |});
  let proxyData :=
    with_gas (GasBig (dc_gas deployCreateData + gas_amount (px_gas proxyData))) proxyData in
  _ ← showState ("Deployed " +:+ key_of (px_logicName proxyData) +:+ " with proxy at "
         +:+ px_proxyAddress proxyData +:+ ", gasCost: " +:+ gas_string (gas_amount (px_gas proxyData)));
  mret proxyData.

Definition MULTICALL_LIMIT : Z :=
  match parse_int (Some 10) MULTICALL_GAS_LIMIT with JInt n => n | _ => 0 end.

(** The undeclared argument [logicAddress] is what the entry records. *)
Definition fullMultiCallDeployProxy (a : TaskArgs) : task ProxyData :=
  name ← lift (required "contractName" (ta_contractName a));
  factory ← lift (required "factoryAddress" (ta_factoryAddress a));
  conArgs ← lift (variadic (ta_constructorArgs a));
  let callArgs := {| contractName := name; factoryAddress := factory;
    initCallData := ta_initCallData a; constructorArgs := conArgs;
    outputFolder := ta_outputFolder a |} in
  _ ← lift (getContractFactory ALICENET_FACTORY);
  data ← encodeInitCallData name (ta_initCallData a);
  salt ← getBytes32Salt name;
  logicContract ← lift (getContractFactory name);
  deployData ← lift (getDeployTransaction logicContract (default [] conArgs));
  _ ← raiseBlockGasLimit;
  txCount ← getTransactionCount factory;
  let logicAddress := create_address factory txCount in
  dep ← lift (bytes_arg deployData);
  deployCreateData ← lift (encodeFactoryData (deployCreate dep));
  deployProxyData ← lift (encodeFactoryData (deployProxy salt));
  upgradeProxyData ← lift (encodeFactoryData (upgradeProxy salt logicAddress data));
  let multiCallArgs := multiCall [deployCreateData; deployProxyData; upgradeProxyData] in
  estimatedMultiCallGas ← factory_estimateGas factory multiCallArgs;
  if estimatedMultiCallGas <? MULTICALL_LIMIT then
    receipt ← factory_send factory multiCallArgs;
    proxyAddr ← lift (getEventAddress receipt DEPLOYED_PROXY);
    let proxyData := {| px_proxyAddress := proxyAddr; px_salt := salt;
      px_logicName := Some name; px_logicAddress := ta_logicAddress a;
      px_factoryAddress := factory; px_gas := GasBig (gasUsed receipt);
      px_receipt := Some receipt; px_initCallData := Some data |} in
    _ ← showState ("Deployed " +:+ name +:+ " with proxy at " +:+ proxyAddr +:+ ", gasCost: "
           +:+ gas_string (gasUsed receipt));
    updateProxyList network_name proxyData (ta_outputFolder a)
  else deployUpgradeableProxy (deployArgs_task callArgs).

Definition deployTemplate_task (a : TaskArgs) : task TemplateData :=
  name ← lift (required "contractName" (ta_contractName a));
  factory ← lift (required "factoryAddress" (ta_factoryAddress a));
  conArgs ← lift (variadic (ta_constructorArgs a));
  _ ← raiseBlockGasLimit;
  _ ← lift (getContractFactory ALICENET_FACTORY);
  logicContract ← lift (getContractFactory name);
  let conArgs := default [] conArgs in
  data ← lift (getDeployTransaction logicContract conArgs);
  match data with
  | Some data =>
      receipt ← factory_send factory (deployTemplate data);
      address ← lift (getEventAddress receipt "DeployedTemplate");
      updateTemplateList network_name
        {| tp_name := name; tp_address := address; tp_factoryAddress := factory;
           tp_gas := gasUsed receipt; tp_receipt := Some receipt; tp_constructorArgs := conArgs |}
        (ta_outputFolder a)
  | None => throw (Error ("failed to get contract bytecode for " +:+ name))
  end.

Definition deployStatic_task (a : TaskArgs) : task MetaContractData :=
  name ← lift (required "contractName" (ta_contractName a));
  factory ← lift (required "factoryAddress" (ta_factoryAddress a));
  _ ← lift (getContractFactory ALICENET_FACTORY);
  data ← encodeInitCallData name (ta_initCallData a);
  salt ← getBytes32Salt name;
  tmplAddress ← getImplementation factory;
  receipt ← factory_send factory (deployStatic salt data);
  contractAddr ← lift (getEventAddress receipt DEPLOYED_STATIC);
  updateMetaList network_name
    {| mt_metaAddress := contractAddr; mt_salt := salt; mt_templateName := name;
       mt_templateAddress := tmplAddress; mt_factoryAddress := factory; mt_gas := gasUsed receipt;
       mt_initCallData := data; mt_receipt := Some receipt |} (ta_outputFolder a).

Definition metamorphic_message (between : string) (d : MetaContractData) : string :=
  "Deployed Metamorphic for " +:+ mt_templateName d +:+ " at: " +:+ mt_metaAddress d +:+ between
  +:+ mt_templateAddress d +:+ ", gas used: " +:+ gas_string (mt_gas d).

Definition deployMetamorphic (a : TaskArgs) : task MetaContractData :=
  let name := default "string" (ta_contractName a) in
  factory ← lift (required "factoryAddress" (ta_factoryAddress a));
  conArgs ← lift (variadic (ta_constructorArgs a));
  templateData ← deployTemplate_task (deployArgs_task
    {| contractName := name; factoryAddress := factory; initCallData := None;
       constructorArgs := conArgs; outputFolder := ta_outputFolder a |});
  metaContractData ← deployStatic_task (deployArgs_task
    {| contractName := name; factoryAddress := factory; initCallData := ta_initCallData a;
       constructorArgs := None; outputFolder := ta_outputFolder a |});
  let metaContractData :=
    with_meta_gas (tp_gas templateData + mt_gas metaContractData) metaContractData in
  _ ← showState (metamorphic_message ", with deployment template at, " metaContractData);
  mret metaContractData.

Definition multiCallDeployMetamorphic (a : TaskArgs) : task MetaContractData :=
  let name := default "string" (ta_contractName a) in
  factory ← lift (required "factoryAddress" (ta_factoryAddress a));
  conArgs ← lift (variadic (ta_constructorArgs a));
  let callArgs := {| contractName := name; factoryAddress := factory;
    initCallData := ta_initCallData a; constructorArgs := conArgs;
    outputFolder := ta_outputFolder a |} in
  _ ← raiseBlockGasLimit;
  _ ← lift (getContractFactory ALICENET_FACTORY);
  logicContract ← lift (getContractFactory name);
  deployData ← lift (getDeployTransaction logicContract (default [] conArgs));
  data ← encodeInitCallData name (ta_initCallData a);
  salt ← getBytes32Salt name;
  txCount ← getTransactionCount factory;
  let templateAddress := create_address factory txCount in
  dep ← lift (bytes_arg deployData);
  deployTemplateData ← lift (encodeFactoryData (deployTemplate dep));
  deployStaticData ← lift (encodeFactoryData (deployStatic salt data));
  let multiCallArgs := multiCall [deployTemplateData; deployStaticData] in
  estimatedMultiCallGas ← factory_estimateGas factory multiCallArgs;
  if estimatedMultiCallGas <? MULTICALL_LIMIT then
    receipt ← factory_send factory multiCallArgs;
    metaAddr ← lift (getEventAddress receipt DEPLOYED_STATIC);
    let metaContractData := {| mt_metaAddress := metaAddr; mt_salt := salt; mt_templateName := name;
      mt_templateAddress := templateAddress; mt_factoryAddress := factory;
      mt_gas := gasUsed receipt; mt_initCallData := data; mt_receipt := Some receipt |} in
    _ ← showState (metamorphic_message ", deployment template at, " metaContractData);
    updateMetaList network_name metaContractData (ta_outputFolder a)
  else deployMetamorphic (deployArgs_task callArgs).

(** The flag [integrate] is always defined, and [constructorArgs] is spread even
    when it is undefined. *)
Definition multiCallUpgradeProxy (a : TaskArgs) : task ProxyData :=
  name ← lift (required "contractName" (ta_contractName a));
  factory ← lift (required "factoryAddress" (ta_factoryAddress a));
  conArgs ← lift (variadic (ta_constructorArgs a));
  factoryBase ← lift (getContractFactory ALICENET_FACTORY);
  logicFactory ← lift (getContractFactory name);
  data ← lift (encodeFunctionData logicFactory "integrate" []);
  conArgs ← lift (of_option (TypeError "undefined is not iterable") conArgs);
  deployData ← lift (getDeployTransaction logicFactory conArgs);
  dep ← lift (bytes_arg deployData);
  deployCreateData ← lift (encodeFactoryData (deployCreate dep));
  salt ← (match ta_salt a with
          | None => getBytes32Salt name
          | Some s => lift (formatBytes32String (Some s))
          end);
  txCount ← getTransactionCount factory;
  let implAddress := create_address factory txCount in
  upgradeProxyData ← lift (encodeFactoryData (upgradeProxy salt implAddress data));
  _ ← lift (getContractFactory PROXY);
  let proxyAddress := getMetamorphicAddress factory salt in
  oldImpl ← proxyImplementation proxyAddress;
  receipt ← factory_send factory (multiCall [deployCreateData; upgradeProxyData]);
  _ ← showState ("Updating logic for the " +:+ name +:+ " proxy at " +:+ proxyAddress +:+ " from "
         +:+ oldImpl +:+ " to " +:+ implAddress +:+ ", gasCost: " +:+ gas_string (gasUsed receipt));
  gas ← lift (toNumber (gasUsed receipt));
  mret {| px_proxyAddress := proxyAddress; px_salt := salt; px_logicName := Some name;
          px_logicAddress := ta_logicAddress a; px_factoryAddress := factory;
          px_gas := GasNumber gas; px_receipt := Some receipt; px_initCallData := Some data |}.

(** *** Configuration files of a deployment *)

(** [sourceName + ":" + name] for a list of names; the deploy type is looked up,
    which fails only when there is no build info. *)
Fixpoint qualify_names (names : list string) : outcome (list string) :=
  match names with
  | [] => Ok []
  | name :: names =>
      artifact ← readArtifact name;
      let fullName := sourceName artifact +:+ ":" +:+ name in
      _ ← getDeployType fullName;
      rest ← qualify_names names;
      Ok (fullName :: rest)
  end.

Definition generateDeploymentConfigs (listFlag argsFlag : bool) (outputFolder : option string)
    (contractNames : option (list string)) : task () :=
  _ ← checkUserDirPath outputFolder;
  let path := match outputFolder with None => DEFAULT_CONFIG_OUTPUT_DIR | Some p => p end in
  contracts ← (match outputFolder, contractNames with
               | None, None | Some _, None => lift (Ok getAllContracts)
               | Some _, Some names => lift (qualify_names names)
               | None, Some _ =>
                   throw (Error "you must specify a path to store your custom deploy config files")
               end : task (list string));
  deploymentList ← lift (getSortedDeployList contracts);
  let names := transformDeploymentList deploymentList in
  deploymentArgs ← lift (generateDeployArgTemplate names);
  _ ← (if argsFlag then mret tt else writeDeploymentList names (Some path));
  if listFlag then mret tt
  else
    _ ← writeDeploymentArgs deploymentArgs (Some path);
    console_log ("YOU MUST REPLACE THE UNDEFINED VALUES IN " +:+ path +:+ "/deploymentArgsTemplate").

(** *** The initial deployment *)

(** One contract of the deployment list; the gas it used. *)
Definition deploy_contract (factory : address) (inputFolder outFolder : option string)
    (fullyQualifiedName : string) : task Z :=
  deployType ← lift (getDeployType fullyQualifiedName);
  if decide (deployType = Some STATIC_DEPLOYMENT) then
    deployArgs ← getDeployMetaArgs fullyQualifiedName factory inputFolder outFolder;
    metaContractData ← multiCallDeployMetamorphic (deployArgs_task deployArgs);
    mret (mt_gas metaContractData)
  else if decide (deployType = Some UPGRADEABLE_DEPLOYMENT) then
    deployArgs ← getDeployUpgradeableProxyArgs fullyQualifiedName factory outFolder None;
    proxyData ← fullMultiCallDeployProxy (deployArgs_task deployArgs);
    mret (gas_amount (px_gas proxyData))
  else if decide (deployType = Some ONLY_PROXY) then
    salt ← getBytes32Salt (key_of (extractName fullyQualifiedName));
    proxyData ← deployProxy_task {| ta_contractName := None; ta_factoryAddress := Some factory;
      ta_initCallData := None; ta_constructorArgs := None; ta_inputFolder := None;
      ta_outputFolder := None; ta_salt := Some salt; ta_logicAddress := None |};
    mret (gas_amount (px_gas proxyData))
  else mret 0.

(** An element of the list as the name of a contract. *)
Definition as_string (v : value) : outcome string :=
  match v with VStr s => Ok s | _ => Throw (TypeError "split is not a function") end.

Definition deployContracts (a : TaskArgs) : task () :=
  _ ← checkUserDirPath (ta_outputFolder a);
  start ← (match ta_factoryAddress a with
           | None =>
               factoryData ← deployFactory {| ta_contractName := None; ta_factoryAddress := None;
                 ta_initCallData := None; ta_constructorArgs := None; ta_inputFolder := None;
                 ta_outputFolder := ta_outputFolder a; ta_salt := None; ta_logicAddress := None |};
               mret (fd_address factoryData, fd_gas factoryData)
           | Some f => mret (f, 0)
           end);
  v ← getDeploymentList (ta_inputFolder a);
  contracts ← lift (indexed v);
  cumulativeGasUsed ← fold_for contracts (λ acc v,
      fullyQualifiedName ← lift (as_string v);
      gas ← deploy_contract start.1 (ta_inputFolder a) (ta_outputFolder a) fullyQualifiedName;
      mret (acc + gas)) start.2;
  console_log ("total gas used: " +:+ gas_string cumulativeGasUsed).
End tasks.
