(* ===== verification/FactorySpec.v ===== *)
(** * What the factory's functions do

    The functional behaviour of the functions of [Chain] on the states in which
    they succeed, and the cases in which they revert. *)
From S2P Require Import Prelude JsString JsValue FactoryState Chain ChainLaws.
#[local] Open Scope Z_scope.

Section spec.
Context {X : Type} `{Evm, !Contracts X, !EvmLaws}.
Implicit Types (c : chain X) (self sender a p : address) (l : list Event).
Abbreviation evm := (M (chain X * list Event)).

(** An address a contract can be created at. *)
Definition free c a : Prop := accounts c !! a = None ∧ nonce c a = 0.
Lemma wf_free c self n : chain_wf c → nonce c self ≤ n → free c (create_address self n).
Proof. intros Hwf Hn. by apply (wf_fresh _ Hwf). Qed.

(** Where the metamorphic contract of a salt is. *)
Definition meta_address self salt : address := create2_address self salt (keccak256 METAMORPHIC_CODE).
Lemma meta_address_lookup self salt :
  getMetamorphicContractAddress salt self = meta_address self salt.
Proof. unfold getMetamorphicContractAddress, meta_address. by rewrite metamorphic_hash. Qed.

(** Single statements. *)
Lemma bind_the_chain {A B} (f : chain X → A) (g : A → evm B) c l :
  (the_chain f ≫= g) (c, l) = g (f c) (c, l).
Proof. done. Qed.
Lemma bind_change {B} (f : chain X → chain X) (g : () → evm B) c l :
  (change f ≫= g) (c, l) = g tt (f c, l).
Proof. done. Qed.
Lemma bind_emit {B} e (g : () → evm B) c l : (emit e ≫= g) (c, l) = g tt (c, l ++ [e]).
Proof. done. Qed.
Lemma bind_require {B} b msg (g : () → evm B) c l :
  (require b msg ≫= g) (c, l) = if b then g tt (c, l) else (Throw (Rejected msg), (c, l)).
Proof. by destruct b. Qed.
#[local] Hint Rewrite @bind_the_chain @bind_change @bind_emit @bind_require : run.

(** *** Creation *)
Lemma create_at_ok creator a init c l k c2 l2 :
  free c a → init (with_nonce a 1 (bump creator c), l) = (Ok k, (c2, l2)) →
  create_at creator a init (c, l) = (Ok (Ok a), (with_account a (Account k empty_slot) c2, l2)).
Proof.
  intros [Ha Hn] Hi. unfold create_at. cbn [fst snd]. rewrite decide_False.
  - by rewrite Hi.
  - rewrite Ha, Hn. intros [[? [=]]|[]]; done.
Qed.

Definition created self a k c : chain X :=
  with_account a (Account k empty_slot) (with_nonce a 1 (bump self c)).
Lemma create_at_pure creator a k c l :
  free c a → create_at creator a (mret k) (c, l) = (Ok (Ok a), (created creator a k c, l)).
Proof. intros Hf. by eapply create_at_ok. Qed.

Lemma create_at_taken creator a init c l :
  is_Some (accounts c !! a) →
  create_at creator a init (c, l) = (Ok (Throw (Rejected "")), (bump creator c, l)).
Proof. intros Ha. unfold create_at. rewrite decide_True; [done|]. by left. Qed.

Lemma codeSizeZeroRevert_ok a c l k :
  accounts c !! a = Some k → code_empty (account_code k) = false →
  codeSizeZeroRevert (Ok a) (c, l) = (Ok a, (c, l)).
Proof.
  intros Hk He. unfold codeSizeZeroRevert. run_step. by rewrite Hk, He.
Qed.

Lemma construct_at_ok dep a creator c l rt n x :
  construct dep a creator (ext c) = Some (rt, n, x) →
  construct_at dep a creator (c, l)
  = (Ok (UserCode rt), (with_ext x c, l ++ replicate n foreign_log)).
Proof. intros Hc. unfold construct_at. run_step. by rewrite Hc. Qed.

(** *** deployCreate and deployTemplate *)
Definition constructed self a rt x c : chain X := with_ext x (created self a (UserCode rt) c).

Lemma deployCreate_ok self dep c l rt n x :
  let a := create_address self (nonce c self) in
  free c a → construct dep a self (ext c) = Some (rt, n, x) → rt ≠ EMPTY →
  _deployCreate self dep (c, l)
  = (Ok a, (constructed self a rt x c,
            (l ++ replicate n foreign_log) ++ [deployed_event "DeployedRaw" a])).
Proof.
  intros a Hf Hc Hrt. unfold _deployCreate. run_step. fold a.
  pose proof (construct_at_ok dep a self (with_nonce a 1 (bump self c)) l rt n x Hc) as Hcons.
  pose proof (create_at_ok self a _ _ _ _ _ _ Hf Hcons) as Hcr. run Hcr.
  assert (code_empty (UserCode rt) = false) as He by by apply bool_decide_eq_false.
  pose proof (codeSizeZeroRevert_ok a (constructed self a rt x c) (l ++ replicate n foreign_log)
    (Account (UserCode rt) empty_slot) (lookup_insert_eq _ _ _) He) as Hcs. by run Hcs.
Qed.

Lemma storage_ok self f c l : factories c !! self = Some f → storage self (c, l) = (Ok f, (c, l)).
Proof. intros Hf. unfold storage. run_step. by rewrite Hf. Qed.

Definition with_implementation (a : address) (f : factory_state) : factory_state :=
  FactoryStorage (_owner f) (_delegator f) (_contracts f) a (_proxyTemplate f).
Definition with_contract (salt : hexdata) (f : factory_state) : factory_state :=
  FactoryStorage (_owner f) (_delegator f) (_contracts f ++ [salt]) (_implementation f) (_proxyTemplate f).

Lemma set_implementation_ok self a f c l :
  factories c !! self = Some f →
  set_implementation self a (c, l) = (Ok tt, (with_factory self (with_implementation a f) c, l)).
Proof. intros Hf. unfold set_implementation. by run (storage_ok self f c l Hf). Qed.
Lemma record_salt_ok self salt f c l :
  factories c !! self = Some f →
  push_contract self salt (c, l) = (Ok tt, (with_factory self (with_contract salt f) c, l)).
Proof. intros Hf. unfold push_contract. by run (storage_ok self f c l Hf). Qed.

Definition template_of self dep : code := Template (dep +:+ address_word self).

Lemma deployTemplate_ok self dep c l f :
  let a := create_address self (nonce c self) in
  free c a → factories c !! self = Some f →
  _deployTemplate self dep (c, l)
  = (Ok a, (with_factory self (with_implementation a f) (created self a (template_of self dep) c),
            l ++ [deployed_event "DeployedTemplate" a])).
Proof.
  intros a Hfr Hf. unfold _deployTemplate. run_step. fold a.
  pose proof (create_at_pure self a (template_of self dep) c l Hfr) as Hcr.
  run Hcr.
  pose proof (codeSizeZeroRevert_ok a (created self a (template_of self dep) c) l
    _ (lookup_insert_eq _ _ _) eq_refl) as Hcs. run Hcs. run_step.
  by run (set_implementation_ok self a f (created self a (template_of self dep) c)
            (l ++ [deployed_event "DeployedTemplate" a]) Hf).
Qed.

(** *** deployProxy *)
Definition proxied self p salt f c : chain X :=
  with_factory self (with_contract salt (with_implementation (_proxyTemplate f) f))
    (created self p (ProxyCode self) (with_factory self (with_implementation (_proxyTemplate f) f) c)).

Lemma deployProxy_ok self salt c l f t s :
  let p := meta_address self salt in
  factories c !! self = Some f → accounts c !! _proxyTemplate f = Some (Account (ProxyTemplate t) s) →
  free c p →
  _deployProxy self salt (c, l)
  = (Ok p, (proxied self p salt f c, l ++ [deployed_event "DeployedProxy" p])).
Proof.
  intros p Hf Ht Hfr. unfold _deployProxy. fold (meta_address self salt). fold p.
  run (storage_ok self f c l Hf). run (set_implementation_ok self (_proxyTemplate f) f c l Hf).
  set (f1 := with_implementation (_proxyTemplate f) f).
  set (c1 := with_factory self f1 c).
  assert (free c1 p) as Hfr1 by exact Hfr.
  assert (metamorphic_init p self (with_nonce p 1 (bump self c1), l)
    = (Ok (ProxyCode self), (with_nonce p 1 (bump self c1), l))) as Hm.
  { unfold metamorphic_init, the_chain.
    rewrite (bind_ok _ _ _ f1 _ (storage_ok self f1 _ l (lookup_insert_eq _ _ _))). run_step.
    cbn [fst accounts with_nonce bump]. change (accounts c1) with (accounts c).
    unfold f1. cbn [_implementation with_implementation]. by rewrite Ht. }
  run (create_at_ok self p _ _ _ _ _ _ Hfr1 Hm).
  run (codeSizeZeroRevert_ok p (created self p (ProxyCode self) c1) l
         _ (lookup_insert_eq _ _ _) eq_refl).
  run (record_salt_ok self salt f1 (created self p (ProxyCode self) c1) l (lookup_insert_eq _ _ _)).
  done.
Qed.

(** A salt is used once. *)
Lemma deployProxy_taken self salt c l :
  is_Some (accounts c !! meta_address self salt) →
  ∃ e s, _deployProxy self salt (c, l) = (Throw e, s).
Proof.
  intros Ht. unfold _deployProxy. fold (meta_address self salt). unfold storage. run_step.
  destruct (factories c !! self) as [f|] eqn:Hf; [|by eexists _, _]. run_step.
  run (set_implementation_ok self (_proxyTemplate f) f c l Hf).
  run (create_at_taken self (meta_address self salt) (metamorphic_init (meta_address self salt) self)
    (with_factory self (with_implementation (_proxyTemplate f) f) c) l Ht).
  by eexists _, _.
Qed.

(** *** Calls *)
Lemma call_factory depth from self d fc c l s :
  accounts c !! self = Some (Account FactoryCode s) → decode d = Some fc →
  call (S depth) from self 0 d (c, l) = run_factory (call depth) self from fc (c, l).
Proof.
  intros Hk Hd. cbn [call]. unfold transfer. rewrite decide_True by done.
  run_step. rewrite Hk. cbn [account_code]. rewrite Hd.
  unfold require. rewrite orb_true_r. by run_step.
Qed.

Lemma call_proxy depth from p d c l f s :
  accounts c !! p = Some (Account (ProxyCode f) s) →
  call (S depth) from p 0 d (c, l) = run_proxy f p from 0 d s (c, l).
Proof.
  intros Hk. cbn [call]. unfold transfer. rewrite decide_True by done.
  run_step. by rewrite Hk.
Qed.

(** The factory's upgrade call. *)
Lemma call_upgrade depth self p a c l s :
  accounts c !! p = Some (Account (ProxyCode self) s) → slot_high s ≠ LOCK →
  call (S depth) self p 0 (encode_upgrade a) (c, l)
  = (Ok tt, (with_account p (Account (ProxyCode self) (Slot 0 a)) c, l)).
Proof.
  intros Hk Hl. rewrite (call_proxy _ _ _ _ _ _ _ _ Hk). unfold run_proxy.
  rewrite decide_False by apply upgrade_selector. rewrite decode_encode_upgrade, decide_True by done.
  by rewrite (proj2 (Z.eqb_neq _ _) Hl).
Qed.
Lemma call_upgrade_locked depth self p a c l s :
  accounts c !! p = Some (Account (ProxyCode self) s) → slot_high s = LOCK →
  call (S depth) self p 0 (encode_upgrade a) (c, l) = (Throw (Rejected "imploc"), (c, l)).
Proof.
  intros Hk Hl. rewrite (call_proxy _ _ _ _ _ _ _ _ Hk). unfold run_proxy.
  rewrite decide_False by apply upgrade_selector. rewrite decode_encode_upgrade, decide_True by done.
  by rewrite Hl.
Qed.

(** The initializer of the code [k] run by [self] in the account [p], whose slot
    it leaves as it is: the number of logs and the state after it. *)
Definition initializes k p self (s : slot) (data : hexdata) (x : X) (n : nat) (x' : X) : Prop :=
  (data = EMPTY ∧ n = 0%nat ∧ x' = x) ∨
  (data ≠ EMPTY ∧ data ≠ getImplementationAddress_selector ∧ decode_upgrade data = None ∧
   call_code k p self 0 data s x = Some (s, n, x')).

Lemma with_ext_id c : with_ext (ext c) c = c.
Proof. by destruct c. Qed.
Lemma with_account_id a k c : accounts c !! a = Some k → with_account a k c = c.
Proof. intros Hk. destruct c. unfold with_account. cbn in *. by rewrite insert_id. Qed.

Lemma run_user_ok k to from d s c l n x' k0 :
  accounts c !! to = Some (Account k0 s) →
  call_code k to from 0 d s (ext c) = Some (s, n, x') →
  run_user k to from 0 d s (c, l) = (Ok tt, (with_ext x' c, l ++ replicate n foreign_log)).
Proof.
  intros Hto Hc. unfold run_user, the_chain. run_step. cbn [fst]. rewrite Hc.
  run_step. rewrite Hto. cbn [account_code]. by rewrite with_account_id.
Qed.

Lemma initialize_proxy_ok depth self p impl data c l n x' ki s :
  accounts c !! p = Some (Account (ProxyCode self) s) → slot_impl s = impl →
  accounts c !! impl = Some ki → initializes (account_code ki) p self s data (ext c) n x' →
  _initializeContract (call (S depth)) self p data (c, l)
  = (Ok tt, (with_ext x' c, l ++ replicate n foreign_log)).
Proof.
  intros Hp <- Hki Hi. unfold _initializeContract.
  destruct Hi as [(-> & -> & ->)|(Hne & Hsel & Hdec & Hc)].
  - rewrite decide_True by done. cbn. by rewrite with_ext_id, app_nil_r.
  - rewrite decide_False by done. rewrite (call_proxy _ _ _ _ _ _ _ _ Hp). unfold run_proxy.
    rewrite decide_False, Hdec by done. run_step. rewrite Hki.
    by eapply run_user_ok.
Qed.

Definition upgraded self p impl x c : chain X :=
  with_ext x (with_account p (Account (ProxyCode self) (Slot 0 impl)) c).

Lemma upgradeProxy_ok depth self salt impl data c l n x ki s :
  let p := meta_address self salt in
  accounts c !! p = Some (Account (ProxyCode self) s) → slot_high s ≠ LOCK →
  accounts c !! impl = Some ki → impl ≠ p →
  initializes (account_code ki) p self (Slot 0 impl) data (ext c) n x →
  _upgradeProxy (call (S depth)) self salt impl data (c, l)
  = (Ok tt, (upgraded self p impl x c, l ++ replicate n foreign_log)).
Proof.
  intros p Hp Hl Hki Hne Hi. unfold _upgradeProxy. rewrite meta_address_lookup. fold p.
  run (call_upgrade depth self p impl c l s Hp Hl). run_step.
  assert (getImplementationAddress (with_account p (Account (ProxyCode self) (Slot 0 impl)) c) p
    = Some impl) as Himpl.
  { unfold getImplementationAddress. cbn [accounts with_account]. by rewrite lookup_insert_eq. }
  rewrite Himpl, bool_decide_eq_true_2 by done.
  eapply initialize_proxy_ok; [apply lookup_insert_eq|done| |exact Hi].
  cbn. by rewrite lookup_insert_ne.
Qed.

(** *** deployStatic *)
Lemma deployStatic_ok depth self salt data c l f dep sl rt n x n' x' :
  let p := meta_address self salt in
  factories c !! self = Some f → free c p →
  accounts c !! _implementation f = Some (Account (Template dep) sl) →
  construct dep p self (ext c) = Some (rt, n, x) → rt ≠ EMPTY →
  initializes (UserCode rt) p self empty_slot data x n' x' →
  _deployStatic (call (S depth)) self salt data (c, l)
  = (Ok p, (with_factory self (with_contract salt f) (with_ext x' (constructed self p rt x c)),
            ((l ++ replicate n foreign_log) ++ replicate n' foreign_log)
              ++ [deployed_event "DeployedStatic" p])).
Proof.
  intros p Hf Hfr Ht Hc Hrt Hi. unfold _deployStatic. fold (meta_address self salt). fold p.
  assert (metamorphic_init p self (with_nonce p 1 (bump self c), l)
    = (Ok (UserCode rt), (with_ext x (with_nonce p 1 (bump self c)), l ++ replicate n foreign_log))) as Hm.
  { unfold metamorphic_init. run (storage_ok self f (with_nonce p 1 (bump self c)) l Hf). run_step.
    change (accounts (with_nonce p 1 (bump self c))) with (accounts c). rewrite Ht.
    by apply construct_at_ok. }
  run (create_at_ok self p _ _ _ _ _ _ Hfr Hm). fold (constructed self p rt x c).
  run_step.
  unfold constructed at 1, created at 1. cbn [accounts with_account with_ext]. rewrite lookup_insert_eq.
  assert (code_empty (UserCode rt) = false) as He by by apply bool_decide_eq_false.
  cbn [account_code]. run_step. rewrite He. cbn [negb].
  set (c1 := constructed self p rt x c). set (l1 := l ++ replicate n foreign_log).
  assert (_initializeContract (call (S depth)) self p data (c1, l1)
    = (Ok tt, (with_ext x' c1, l1 ++ replicate n' foreign_log))) as Hinit.
  { unfold _initializeContract. destruct Hi as [(-> & -> & ->)|(Hne & _ & _ & Hcall)].
    - rewrite decide_True by done. cbn. by rewrite app_nil_r.
    - rewrite decide_False by done. cbn [call]. unfold transfer. rewrite decide_True by done.
      run_step. unfold c1 at 1, constructed, created.
      cbn [accounts with_account with_ext].
      rewrite lookup_insert_eq. cbn [account_code account_slot].
      eapply run_user_ok; [apply lookup_insert_eq|exact Hcall]. }
  run Hinit.
  run (codeSizeZeroRevert_ok p (with_ext x' c1) (l1 ++ replicate n' foreign_log)
         _ (lookup_insert_eq _ _ _) He).
  by run (record_salt_ok self salt f (with_ext x' c1) (l1 ++ replicate n' foreign_log) Hf).
Qed.

(** *** Calls to the factory *)
Definition is_factory c self f : Prop :=
  (∃ s, accounts c !! self = Some (Account FactoryCode s)) ∧ factories c !! self = Some f.
Definition authorized self sender f : Prop := sender = self ∨ sender = _owner f.

Lemma onlyOwner_ok self sender f c l :
  factories c !! self = Some f → authorized self sender f →
  onlyOwner self sender (c, l) = (Ok tt, (c, l)).
Proof.
  intros Hf Ha. unfold onlyOwner. run (storage_ok self f c l Hf).
  by rewrite bool_decide_eq_true_2.
Qed.

Lemma call_deployCreate depth self sender f d dep c l rt n x :
  is_factory c self f → authorized self sender f → decode d = Some (deployCreate dep) →
  let a := create_address self (nonce c self) in
  free c a → construct dep a self (ext c) = Some (rt, n, x) → rt ≠ EMPTY →
  call (S depth) sender self 0 d (c, l)
  = (Ok tt, (constructed self a rt x c,
             (l ++ replicate n foreign_log) ++ [deployed_event "DeployedRaw" a])).
Proof.
  intros [[s Hk] Hf] Ha Hd a Hfr Hc Hrt. rewrite (call_factory _ _ _ _ _ _ _ _ Hk Hd).
  cbn [run_factory]. run (onlyOwner_ok self sender f c l Hf Ha).
  by run (deployCreate_ok self dep c l rt n x Hfr Hc Hrt).
Qed.

Lemma call_deployTemplate depth self sender f d dep c l :
  is_factory c self f → authorized self sender f → decode d = Some (deployTemplate dep) →
  let a := create_address self (nonce c self) in
  free c a →
  call (S depth) sender self 0 d (c, l)
  = (Ok tt, (with_factory self (with_implementation a f) (created self a (template_of self dep) c),
             l ++ [deployed_event "DeployedTemplate" a])).
Proof.
  intros [[s Hk] Hf] Ha Hd a Hfr. rewrite (call_factory _ _ _ _ _ _ _ _ Hk Hd).
  cbn [run_factory]. run (onlyOwner_ok self sender f c l Hf Ha).
  by run (deployTemplate_ok self dep c l f Hfr Hf).
Qed.

Lemma call_deployProxy depth self sender f d salt c l t s :
  is_factory c self f → authorized self sender f → decode d = Some (deployProxy salt) →
  let p := meta_address self salt in
  accounts c !! _proxyTemplate f = Some (Account (ProxyTemplate t) s) → free c p →
  call (S depth) sender self 0 d (c, l)
  = (Ok tt, (proxied self p salt f c, l ++ [deployed_event "DeployedProxy" p])).
Proof.
  intros [[s0 Hk] Hf] Ha Hd p Ht Hfr. rewrite (call_factory _ _ _ _ _ _ _ _ Hk Hd).
  cbn [run_factory]. run (onlyOwner_ok self sender f c l Hf Ha).
  by run (deployProxy_ok self salt c l f t s Hf Ht Hfr).
Qed.

Lemma call_upgradeProxy depth self sender f d salt impl data c l n x ki s :
  is_factory c self f → authorized self sender f → decode d = Some (upgradeProxy salt impl data) →
  let p := meta_address self salt in
  accounts c !! p = Some (Account (ProxyCode self) s) → slot_high s ≠ LOCK →
  accounts c !! impl = Some ki → impl ≠ p →
  initializes (account_code ki) p self (Slot 0 impl) data (ext c) n x →
  call (S (S depth)) sender self 0 d (c, l)
  = (Ok tt, (upgraded self p impl x c, l ++ replicate n foreign_log)).
Proof.
  intros [[s0 Hk] Hf] Ha Hd p Hp Hl Hki Hne Hi. rewrite (call_factory _ _ _ _ _ _ _ _ Hk Hd).
  cbn [run_factory]. run (onlyOwner_ok self sender f c l Hf Ha). by eapply upgradeProxy_ok.
Qed.

Lemma call_deployStatic depth self sender f d salt data c l dep sl rt n x n' x' :
  is_factory c self f → authorized self sender f → decode d = Some (deployStatic salt data) →
  let p := meta_address self salt in
  free c p → accounts c !! _implementation f = Some (Account (Template dep) sl) →
  construct dep p self (ext c) = Some (rt, n, x) → rt ≠ EMPTY →
  initializes (UserCode rt) p self empty_slot data x n' x' →
  call (S (S depth)) sender self 0 d (c, l)
  = (Ok tt, (with_factory self (with_contract salt f) (with_ext x' (constructed self p rt x c)),
             ((l ++ replicate n foreign_log) ++ replicate n' foreign_log)
               ++ [deployed_event "DeployedStatic" p])).
Proof.
  intros [[s0 Hk] Hf] Ha Hd p Hfr Ht Hc Hrt Hi. rewrite (call_factory _ _ _ _ _ _ _ _ Hk Hd).
  cbn [run_factory]. run (onlyOwner_ok self sender f c l Hf Ha).
  by run (deployStatic_ok depth self salt data c l f dep sl rt n x n' x' Hf Hfr Ht Hc Hrt Hi).
Qed.

Lemma call_multiCall depth self sender f d cdata c l :
  is_factory c self f → authorized self sender f → decode d = Some (multiCall cdata) →
  call (S depth) sender self 0 d (c, l) = for_each cdata (λ d, call depth self self 0 d) (c, l).
Proof.
  intros [[s0 Hk] Hf] Ha Hd. rewrite (call_factory _ _ _ _ _ _ _ _ Hk Hd).
  cbn [run_factory]. by run (onlyOwner_ok self sender f c l Hf Ha).
Qed.

(** The functions the delegator may not call. *)
Definition owner_only (fc : fcall) : bool :=
  match fc with
  | initializeContract _ _ | delegateCallAny _ _ | setImplementation _ => false
  | _ => true
  end.
(** Who may call a function: the owner and the factory itself, and the delegator
    where the function is not the owner's only. *)
Definition may_call self sender f (fc : fcall) : Prop :=
  authorized self sender f ∨ owner_only fc = false ∧ sender = _delegator f.
#[export] Instance may_call_dec self sender f fc : Decision (may_call self sender f fc).
Proof. unfold may_call, authorized. apply _. Defined.

Lemma onlyOwnerOrDelegator_ok self sender f c l :
  factories c !! self = Some f → authorized self sender f ∨ sender = _delegator f →
  onlyOwnerOrDelegator self sender (c, l) = (Ok tt, (c, l)).
Proof.
  intros Hf Ha. unfold onlyOwnerOrDelegator. run (storage_ok self f c l Hf).
  unfold require. rewrite bool_decide_eq_true_2; [done|]. destruct Ha as [[|]|]; auto.
Qed.

(** Everybody else is refused before anything happens. *)
Lemma run_factory_refused call self sender f fc c l :
  factories c !! self = Some f → ¬ may_call self sender f fc →
  run_factory call self sender fc (c, l) = (Throw (Rejected UNAUTHORIZED), (c, l)).
Proof.
  intros Hf Hno.
  assert (onlyOwner self sender (c, l) = (Throw (Rejected UNAUTHORIZED), (c, l))) as Hr.
  { unfold onlyOwner. run (storage_ok self f c l Hf). rewrite bool_decide_eq_false_2; [done|].
    intros Ha. by apply Hno; left. }
  assert (owner_only fc = false →
    onlyOwnerOrDelegator self sender (c, l) = (Throw (Rejected UNAUTHORIZED), (c, l))) as Hrd.
  { intros Ho. unfold onlyOwnerOrDelegator. run (storage_ok self f c l Hf).
    rewrite bool_decide_eq_false_2; [done|].
    intros [Ha|[Ha|Ha]]; apply Hno; [by left; left|by left; right|by right]. }
  destruct fc; cbn [run_factory]; first [by rewrite (bind_fail _ _ _ _ _ Hr)
    | by rewrite (bind_fail _ _ _ _ _ (Hrd eq_refl))].
Qed.
Lemma call_refused depth self sender f d fc c l :
  is_factory c self f → ¬ may_call self sender f fc → decode d = Some fc →
  call (S depth) sender self 0 d (c, l) = (Throw (Rejected UNAUTHORIZED), (c, l)).
Proof.
  intros [[s0 Hk] Hf] Ha Hd. rewrite (call_factory _ _ _ _ _ _ _ _ Hk Hd). by apply (run_factory_refused _ self sender f).
Qed.

(** The functions that only set a field of the storage. *)
Definition setting (fc : fcall) f : option factory_state :=
  match fc with
  | setOwner a =>
      Some (FactoryStorage a (_delegator f) (_contracts f) (_implementation f) (_proxyTemplate f))
  | setDelegator a =>
      Some (FactoryStorage (_owner f) a (_contracts f) (_implementation f) (_proxyTemplate f))
  | setImplementation a =>
      Some (FactoryStorage (_owner f) (_delegator f) (_contracts f) a (_proxyTemplate f))
  | _ => None
  end.
Lemma call_setting depth self sender f f' d fc c l :
  is_factory c self f → may_call self sender f fc → decode d = Some fc → setting fc f = Some f' →
  call (S depth) sender self 0 d (c, l) = (Ok tt, (with_factory self f' c, l)).
Proof.
  intros [[s0 Hk] Hf] Ha Hd Hset. rewrite (call_factory _ _ _ _ _ _ _ _ Hk Hd).
  destruct fc; try done; injection Hset as <-; cbn [run_factory].
  - rewrite (bind_ok _ _ _ _ _ (onlyOwnerOrDelegator_ok self sender f c l Hf
      ltac:(destruct Ha as [?|[_ ?]]; auto))). by apply set_implementation_ok.
  - destruct Ha as [Ha|[? _]]; [|done]. run (onlyOwner_ok self sender f c l Hf Ha).
    by run (storage_ok self f c l Hf).
  - destruct Ha as [Ha|[? _]]; [|done]. run (onlyOwner_ok self sender f c l Hf Ha).
    by run (storage_ok self f c l Hf).
Qed.

(** *** What creations leave as it was *)
Lemma accounts_created self a k c b :
  b ≠ a → accounts (created self a k c) !! b = accounts c !! b.
Proof. intros Hne. cbn. by rewrite lookup_insert_ne. Qed.
Lemma nonce_created self a k c b :
  b ≠ a → b ≠ self → nonce (created self a k c) b = nonce c b.
Proof.
  intros Ha Hs. change (nonce (with_nonce a 1 (bump self c)) b = nonce c b).
  unfold bump. rewrite !nonce_with_nonce. by rewrite !decide_False.
Qed.
Lemma free_created self a k c b : b ≠ a → b ≠ self → free c b → free (created self a k c) b.
Proof.
  intros Ha Hs [Hn Hz]. split; [by rewrite accounts_created|by rewrite nonce_created].
Qed.
Lemma existing_ne c a b : is_Some (accounts c !! a) → free c b → a ≠ b.
Proof. intros [k Hk] [Hb _] ->. congruence. Qed.
Lemma is_factory_created self a k f c :
  is_factory c self f → free c a → is_factory (created self a k c) self f.
Proof.
  intros [[s Hk] Hf] Hfr. split; [|exact Hf]. exists s. rewrite accounts_created; [done|].
  eapply existing_ne; [by eexists|done].
Qed.

(** *** Deploying a contract behind a proxy *)

(** The state [c] lets the factory [self] deploy the creation code [dep] behind
    the proxy of [salt] and initialise it with [data]. *)
Record proxy_deployment c self f salt dep data rt n x n' x' : Prop := {
  pd_wf : chain_wf c;
  pd_factory : is_factory c self f;
  pd_template : ∃ t s, accounts c !! _proxyTemplate f = Some (Account (ProxyTemplate t) s);
  pd_salt : free c (meta_address self salt);
  pd_construct : construct dep (create_address self (nonce c self)) self (ext c) = Some (rt, n, x);
  pd_code : rt ≠ EMPTY;
  pd_init : initializes (UserCode rt) (meta_address self salt) self
              (Slot 0 (create_address self (nonce c self))) data x n' x';
}.

Section proxy.
Context (c : chain X) (self : address) (f : factory_state) (salt dep data rt : hexdata)
  (n : nat) (x : X) (n' : nat) (x' : X).
Hypothesis Hd : proxy_deployment c self f salt dep data rt n x n' x'.

Definition logic_address : address := create_address self (nonce c self).
Definition after_logic : chain X := constructed self logic_address rt x c.
Definition after_proxy : chain X := proxied self (meta_address self salt) salt f after_logic.
Definition after_upgrade : chain X := upgraded self (meta_address self salt) logic_address x' after_proxy.
Definition logic_logs : list Event :=
  replicate n foreign_log ++ [deployed_event "DeployedRaw" logic_address].
Definition proxy_logs : list Event :=
  deployed_event "DeployedProxy" (meta_address self salt) :: replicate n' foreign_log.

Lemma logic_free : free c logic_address.
Proof. apply wf_free; [by eapply pd_wf|done]. Qed.
Lemma logic_ne_proxy : meta_address self salt ≠ logic_address.
Proof. intros Heq. symmetry in Heq. by apply create_create2 in Heq. Qed.
Lemma self_exists : is_Some (accounts c !! self).
Proof. destruct (pd_factory _ _ _ _ _ _ _ _ _ _ _ Hd) as [[s Hk] _]. by eexists. Qed.

Lemma logic_step depth sender l d :
  authorized self sender f → decode d = Some (deployCreate dep) →
  call (S depth) sender self 0 d (c, l) = (Ok tt, (after_logic, l ++ logic_logs)).
Proof.
  intros Ha Hdec. unfold logic_logs. rewrite app_assoc.
  eapply call_deployCreate; [by eapply pd_factory|done|done|apply logic_free| |by eapply pd_code].
  by eapply pd_construct.
Qed.

(** Every state that agrees with the one the logic contract left. *)
Lemma proxy_steps depth c0 l d1 d2 :
  is_factory c0 self f →
  (∃ t s, accounts c0 !! _proxyTemplate f = Some (Account (ProxyTemplate t) s)) →
  free c0 (meta_address self salt) → self ≠ meta_address self salt →
  accounts c0 !! logic_address = Some (Account (UserCode rt) empty_slot) → ext c0 = x →
  decode d1 = Some (deployProxy salt) → decode d2 = Some (upgradeProxy salt logic_address data) →
  for_each [d1; d2] (λ d, call (S (S depth)) self self 0 d) (c0, l)
  = (Ok tt, (upgraded self (meta_address self salt) logic_address x'
               (proxied self (meta_address self salt) salt f c0), l ++ proxy_logs)).
Proof.
  intros Hfac (t & s & Ht) Hfr Hne Hlog Hx Hd1 Hd2. cbn [for_each].
  run (call_deployProxy (S depth) self self f d1 salt c0 l t s Hfac (or_introl eq_refl) Hd1 Ht Hfr).
  set (c1 := proxied self (meta_address self salt) salt f c0).
  set (f1 := with_contract salt (with_implementation (_proxyTemplate f) f)).
  assert (is_factory c1 self f1) as Hfac1.
  { destruct Hfac as [[s0 Hk] _]. split; [|apply lookup_insert_eq]. exists s0.
    change (accounts c1) with (<[meta_address self salt := Account (ProxyCode self) empty_slot]> (accounts c0)).
    by rewrite lookup_insert_ne. }
  assert (initializes (UserCode rt) (meta_address self salt) self (Slot 0 logic_address) data (ext c1) n' x')
    as Hi by (change (ext c1) with (ext c0); rewrite Hx; by eapply pd_init).
  assert (accounts c1 !! logic_address = Some (Account (UserCode rt) empty_slot)) as Hl1.
  { change (accounts c1) with (<[meta_address self salt := Account (ProxyCode self) empty_slot]> (accounts c0)).
    rewrite lookup_insert_ne; [done|]. apply logic_ne_proxy. }
  run (call_upgradeProxy depth self self f1 d2 salt logic_address data c1
    (l ++ [deployed_event "DeployedProxy" (meta_address self salt)]) n' x' _ _ Hfac1 (or_introl eq_refl) Hd2
    (lookup_insert_eq _ _ _) ltac:(done) Hl1 ltac:(apply not_eq_sym, logic_ne_proxy) Hi).
  unfold proxy_logs. by rewrite <- app_assoc.
Qed.

Lemma self_ne_proxy : self ≠ meta_address self salt.
Proof. eapply existing_ne; [apply self_exists|by eapply pd_salt]. Qed.

(** What the state after the logic contract has, however it was reached. *)
Definition logic_deployed c0 : Prop :=
  is_factory c0 self f ∧
  (∃ t s, accounts c0 !! _proxyTemplate f = Some (Account (ProxyTemplate t) s)) ∧
  free c0 (meta_address self salt) ∧
  accounts c0 !! logic_address = Some (Account (UserCode rt) empty_slot) ∧ ext c0 = x.

Lemma after_logic_deployed : logic_deployed after_logic.
Proof.
  destruct Hd as [Hwf Hfac (t & s & Ht) Hsalt Hc Hrt Hi]. pose proof logic_free as Hl.
  unfold logic_deployed, after_logic, constructed. repeat split.
  - by apply (is_factory_created self logic_address (UserCode rt) f c Hfac Hl).
  - apply Hfac.
  - exists t, s. change (accounts (created self logic_address (UserCode rt) c) !! _proxyTemplate f
      = Some (Account (ProxyTemplate t) s)).
    rewrite accounts_created; [done|]. eapply existing_ne; [by eexists|done].
  - apply (free_created self logic_address (UserCode rt) c); [apply logic_ne_proxy|apply not_eq_sym, self_ne_proxy|done].
  - apply (free_created self logic_address (UserCode rt) c); [apply logic_ne_proxy|apply not_eq_sym, self_ne_proxy|done].
  - apply lookup_insert_eq.
Qed.

(** The three calls in one transaction. *)
Lemma multicall_steps depth d1 d2 d3 :
  decode d1 = Some (deployCreate dep) → decode d2 = Some (deployProxy salt) →
  decode d3 = Some (upgradeProxy salt logic_address data) →
  for_each [d1; d2; d3] (λ d, call (S (S depth)) self self 0 d) (c, [])
  = (Ok tt, (after_upgrade, logic_logs ++ proxy_logs)).
Proof.
  intros H1 H2 H3. destruct after_logic_deployed as (Hfac & Ht & Hfr & Hlog & Hx).
  change (for_each [d1; d2; d3] (λ d, call (S (S depth)) self self 0 d) (c, []))
    with ((_ ← call (S (S depth)) self self 0 d1;
           for_each [d2; d3] (λ d, call (S (S depth)) self self 0 d)) (c, [])).
  run (logic_step (S depth) self [] d1 (or_introl eq_refl) H1).
  by apply (proxy_steps depth after_logic ([] ++ logic_logs) d2 d3 Hfac Ht Hfr self_ne_proxy Hlog Hx).
Qed.

(** The state a deployment ends in: the logic contract, the proxy that points to
    it, the salt recorded, the initialised storage; other accounts are as they were. *)
Record deployed c' : Prop := {
  dp_logic : accounts c' !! logic_address = Some (Account (UserCode rt) empty_slot);
  dp_proxy : accounts c' !! meta_address self salt
             = Some (Account (ProxyCode self) (Slot 0 logic_address));
  dp_others : ∀ b, b ≠ logic_address → b ≠ meta_address self salt →
              accounts c' !! b = accounts c !! b;
  dp_factory : factories c' !! self
               = Some (with_contract salt (with_implementation (_proxyTemplate f) f));
  dp_ext : ext c' = x';
}.

Lemma accounts_after_upgrade c0 :
  accounts (upgraded self (meta_address self salt) logic_address x'
              (proxied self (meta_address self salt) salt f c0))
  = <[meta_address self salt := Account (ProxyCode self) (Slot 0 logic_address)]> (accounts c0).
Proof. cbn. by rewrite insert_insert_eq. Qed.

Lemma upgraded_deployed c0 :
  accounts c0 = accounts after_logic →
  deployed (upgraded self (meta_address self salt) logic_address x'
              (proxied self (meta_address self salt) salt f c0)).
Proof.
  intros Hacc. split; try rewrite accounts_after_upgrade, Hacc.
  - rewrite lookup_insert_ne by apply logic_ne_proxy. apply lookup_insert_eq.
  - apply lookup_insert_eq.
  - intros b Hl Hp. rewrite lookup_insert_ne by done. cbn. by rewrite lookup_insert_ne.
  - apply lookup_insert_eq.
  - done.
Qed.
End proxy.
End spec.
