(* ===== verification/Strangers.v ===== *)
(** * What a stranger cannot do to a factory

    A transaction of an account that is neither the owner nor the delegator of a
    factory, whatever contract it calls and through however many other factories
    the call goes, leaves the storage of the factory, the addresses it will deploy
    at and the implementations of its proxies as they are.  The code of the other
    contracts is that of class [Contracts]: it calls nobody. *)
From S2P Require Import Prelude JsString JsValue FactoryState Chain ChainLaws FactorySpec.
#[local] Open Scope Z_scope.

Section strangers.
Context {X : Type} `{Evm, !Contracts X, !EvmLaws}.
Context (c0 : chain X) (self : address) (f : factory_state).
Implicit Types (c : chain X) (sender a b p : address).
Abbreviation evm := (M (chain X * list Event)).

(** The addresses at which [self] creates contracts. *)
Definition made_by a b : Prop := (∃ n, b = create_address a n) ∨ (∃ s h, b = create2_address a s h).
(** A proxy of [self] whose implementation leaves the slot alone. *)
Definition guarded p s : Prop :=
  accounts c0 !! p = Some (Account (ProxyCode self) s) ∧
  ∃ k, has_code (slot_impl s) k c0 ∧
    ∀ caller v d x s' n x', call_code k p caller v d s x = Some (s', n, x') → s' = s.
Definition stranger sender : Prop := sender ≠ self ∧ sender ≠ _owner f ∧ sender ≠ _delegator f.

(** What holds of the chain from [c0] on. *)
Record untouched c : Prop := {
  un_storage : factories c !! self = Some f;
  un_nonce : nonce c self = nonce c0 self;
  un_code : ∀ a k, has_code a k c0 → has_code a k c;
  un_factory : ∀ a, has_code a FactoryCode c → has_code a FactoryCode c0;
  un_free : ∀ a, made_by self a → free c0 a → free c a;
  un_proxy : ∀ p s, guarded p s → accounts c !! p = Some (Account (ProxyCode self) s);
}.
Definition quiet {A} (m : evm A) : Prop :=
  ∀ s r s', untouched s.1 → m s = (Ok r, s') → untouched s'.1.

Hypothesis Hself : has_code self FactoryCode c0.
Hypothesis Howner : ¬ has_code (_owner f) FactoryCode c0.
Hypothesis Hdelegator : ¬ has_code (_delegator f) FactoryCode c0.

(** A factory other than [self] is a stranger. *)
Lemma factory_stranger b : has_code b FactoryCode c0 → b ≠ self → stranger b.
Proof. intros Hb Hne. split_and!; [done|by intros ->..]. Qed.

(** *** Rules *)
Lemma quiet_ret {A} (r : A) : quiet (mret r).
Proof. by intros s r' s' Hu [= _ <-]. Qed.
Lemma quiet_gets {A} (g : _ → A) : quiet (gets g).
Proof. by intros s r s' Hu [= _ <-]. Qed.
Lemma quiet_throw {A} e : quiet (throw e : evm A).
Proof. by intros s r s' _ [=]. Qed.
Lemma quiet_bind {A B} (m : evm A) (g : A → evm B) : quiet m → (∀ x, quiet (g x)) → quiet (m ≫= g).
Proof.
  intros Hm Hg s r s' Hu Hrun. apply bind_inv in Hrun as (x & s1 & H1 & H2).
  eapply Hg; [by eapply Hm|exact H2].
Qed.
Lemma quiet_require (b : bool) msg : quiet (require (X := X) b msg).
Proof. destruct b; [apply quiet_ret|apply quiet_throw]. Qed.
Lemma quiet_logs g : quiet (modify (λ s : chain X * list Event, (s.1, g s.2))).
Proof. by intros s r s' Hu [= _ <-]. Qed.
Lemma quiet_for_each {A} (l : list A) body : (∀ x, quiet (body x)) → quiet (for_each l body).
Proof. intros Hb. induction l; cbn; [apply quiet_ret|]. by apply quiet_bind. Qed.

(** Changes of balances, of the state of user code and of other factories. *)
Lemma untouched_same c c' :
  accounts c' = accounts c → nonces c' = nonces c → factories c' !! self = factories c !! self →
  untouched c → untouched c'.
Proof.
  intros Ha Hn Hf [S N K F R P].
  split; unfold has_code, free, nonce in *; rewrite ?Ha, ?Hn; auto. congruence.
Qed.
Lemma quiet_change (g : chain X → chain X) :
  (∀ c, accounts (g c) = accounts c ∧ nonces (g c) = nonces c ∧
        factories (g c) !! self = factories c !! self) → quiet (change g).
Proof. intros Hg s r s' Hu [= _ <-]. by eapply untouched_same; [apply Hg..|]. Qed.
Lemma quiet_set_storage b f' : b ≠ self → quiet (set_storage (X := X) b f').
Proof. intros Hb. apply quiet_change. intros c. split_and!; [done..|]. by apply lookup_insert_ne. Qed.

(** Changes of a slot. *)
Lemma untouched_slot c a k s :
  accounts c !! a = Some k → (∀ s', guarded a s' → s = s') → untouched c →
  untouched (with_account a (Account (account_code k) s) c).
Proof.
  intros Hk Hs [S N K F R P].
  assert (∀ b k', has_code b k' (with_account a (Account (account_code k) s) c) ↔ has_code b k' c) as Hc.
  { intros b k'. unfold has_code. cbn. destruct (decide (a = b)) as [<-|Hne].
    - rewrite lookup_insert_eq, Hk. split; intros (? & [= <-] & <-); eauto.
    - by rewrite lookup_insert_ne. }
  split; [done|done| | | |].
  - intros b k' Hb. by apply Hc, K.
  - intros b Hb. by apply F, Hc.
  - intros b Hb Hfr. destruct (R b Hb Hfr) as [Hn Hz]. split; [|exact Hz]. cbn.
    rewrite lookup_insert_ne; [done|]. intros ->. congruence.
  - intros p s' Hp. pose proof (P p s' Hp) as Hps. cbn. destruct (decide (a = p)) as [->|Hne].
    + rewrite lookup_insert_eq. rewrite Hk in Hps. injection Hps as ->. cbn. by rewrite (Hs s' Hp).
    + by rewrite lookup_insert_ne.
Qed.

(** *** Creations of others *)
Lemma made_apart b a a' : b ≠ self → made_by b a → made_by self a' → a ≠ a'.
Proof.
  intros Hne [(n & ->)|(s & h & ->)] [(m & ->)|(t & g & ->)] Heq.
  - by apply create_inj in Heq as [? _].
  - by apply create_create2 in Heq.
  - symmetry in Heq. by apply create_create2 in Heq.
  - by apply create2_inj in Heq as [? _].
Qed.

Lemma untouched_nonce c a n :
  a ≠ self → (∀ b, made_by self b → free c b → a ≠ b) → untouched c → untouched (with_nonce a n c).
Proof.
  intros Hne Hfr [S N K F R P]. split; try done.
  - rewrite nonce_with_nonce. by rewrite decide_False by congruence.
  - intros b Hb Hf0. destruct (R b Hb Hf0) as [Hn Hz]. split; [done|].
    rewrite nonce_with_nonce, decide_False; [done|]. intros ->. by apply (Hfr a).
Qed.
Lemma untouched_bump c b : has_code b FactoryCode c → b ≠ self → untouched c → untouched (bump b c).
Proof.
  intros (k & Hk & _) Hne. apply untouched_nonce; [done|]. intros a _ [Hn _] ->. congruence.
Qed.
Lemma untouched_add c a k :
  k ≠ FactoryCode → (∀ k', ¬ has_code a k' c0) → (∀ b, made_by self b → a ≠ b) → untouched c →
  untouched (with_account a (Account k empty_slot) c).
Proof.
  intros Hk Ha Hm [S N K F R P].
  assert (∀ b k', has_code b k' c0 → a ≠ b) as Hne by (intros b k' Hb ->; by apply (Ha k')).
  split; [done|done| | | |].
  - intros b k' Hb. destruct (K b k' Hb) as (x & Hx & Hc). exists x. split; [|done]. cbn.
    rewrite lookup_insert_ne; [done|by eapply Hne].
  - intros b (x & Hx & Hc). cbn in Hx. apply lookup_insert_Some in Hx as [[_ <-]|[_ Hx]]; [done|].
    apply F. by exists x.
  - intros b Hb Hfr. destruct (R b Hb Hfr) as [Hn Hz]. split; [|exact Hz]. cbn.
    rewrite lookup_insert_ne; [done|by apply Hm].
  - intros p s Hp. cbn. rewrite lookup_insert_ne; [by apply P|].
    eapply (Hne p (ProxyCode self)). destruct Hp as [Hp _]. by eexists.
Qed.

(** Creation code that is quiet and does not make a factory. *)
Definition quiet_init (init : evm code) : Prop :=
  quiet init ∧ ∀ s k s', init s = (Ok k, s') → k ≠ FactoryCode.
Lemma quiet_create b a init :
  b ≠ self → has_code b FactoryCode c0 → made_by b a → quiet_init init → quiet (create_at b a init).
Proof.
  intros Hne Hb Hm [Hi Hk] s r s' Hu. unfold create_at.
  pose proof (untouched_bump s.1 b (un_code _ Hu _ _ Hb) Hne Hu) as Hbump.
  destruct (decide _) as [Ht|Hnt]; [by intros [= _ <-]|].
  assert (accounts s.1 !! a = None) as Ha by (apply eq_None_not_Some; tauto).
  assert (∀ k', ¬ has_code a k' c0) as Hnew.
  { intros k' Hc%(un_code _ Hu). destruct Hc as (? & ? & _). congruence. }
  assert (untouched (with_nonce a 1 (bump b s.1))) as Hopen.
  { apply untouched_nonce; [by intros ->; eapply Hnew| |done].
    intros a' Ha' _. by eapply made_apart. }
  cbn [fst snd]. destruct (init _) as [[k|e] s2] eqn:Hrun; intros [= _ <-]; [|exact Hbump].
  apply untouched_add; [by eapply Hk|done|by intros; eapply made_apart|].
  by eapply (Hi (with_nonce a 1 (bump b s.1), s.2)).
Qed.
End strangers.

Create HintDb quiet.
#[export] Hint Resolve quiet_ret quiet_gets quiet_throw quiet_require quiet_logs : quiet.
(** Symbolic execution for [quiet]. *)
Ltac hush := repeat first
  [ solve [auto with quiet]
  | solve [by apply quiet_change]
  | apply quiet_bind; [|intros ?]
  | match goal with |- quiet _ _ _ (match ?x with _ => _ end) => destruct x end ].

Section factories.
Context {X : Type} `{Evm, !Contracts X, !EvmLaws}.
Context (c0 : chain X) (self : address) (f : factory_state).
Implicit Types (c : chain X) (sender a b p : address).
Abbreviation evm := (M (chain X * list Event)).
Abbreviation untouched := (untouched c0 self f).
Abbreviation quiet := (quiet c0 self f).
Abbreviation stranger := (stranger self f).
Hypothesis Hself : has_code self FactoryCode c0.
Hypothesis Howner : ¬ has_code (_owner f) FactoryCode c0.
Hypothesis Hdelegator : ¬ has_code (_delegator f) FactoryCode c0.

(** *** The functions of another factory *)
Section other.
Context (b : address).
Hypothesis Hb : has_code b FactoryCode c0.
Hypothesis Hne : b ≠ self.

Lemma quiet_the_chain {A} (g : chain X → A) : quiet (the_chain g).
Proof. apply quiet_gets. Qed.
Lemma quiet_revert {A} msg : quiet (revert (X := X) (A := A) msg).
Proof. apply quiet_throw. Qed.
Lemma quiet_emit e : quiet (emit (X := X) e).
Proof. apply (quiet_logs c0 self f (λ l, l ++ [e])). Qed.
Lemma quiet_emit_foreign n : quiet (emit_foreign (X := X) n).
Proof. apply (quiet_logs c0 self f (λ l, l ++ replicate n foreign_log)). Qed.
Lemma quiet_ext x : quiet (change (X := X) (with_ext x)).
Proof. by apply quiet_change. Qed.
Lemma quiet_balances g : quiet (change (X := X) (λ c, with_balances (g c) c)).
Proof. by apply quiet_change. Qed.
#[local] Hint Resolve quiet_the_chain quiet_revert quiet_emit quiet_emit_foreign quiet_ext
  quiet_balances : quiet.
Lemma quiet_set_other f' : quiet (set_storage (X := X) b f').
Proof. by apply quiet_set_storage. Qed.
#[local] Hint Resolve quiet_set_other : quiet.
Lemma quiet_storage a : quiet (storage (X := X) a).
Proof. unfold storage. hush. Qed.
Lemma quiet_transfer from to v : quiet (transfer (X := X) from to v).
Proof. unfold transfer. hush. Qed.
Lemma quiet_ran r : quiet (ran (X := X) r).
Proof. unfold ran. hush. Qed.
#[local] Hint Resolve quiet_storage quiet_transfer quiet_ran : quiet.
Lemma quiet_construct_at dep a a' : quiet (construct_at (X := X) dep a a').
Proof. unfold construct_at. hush. Qed.
Lemma quiet_run_as_init_at k a a' : quiet (run_as_init_at (X := X) k a a').
Proof. unfold run_as_init_at. hush. Qed.
Lemma quiet_push_contract salt : quiet (push_contract (X := X) b salt).
Proof. unfold push_contract. hush. Qed.
Lemma quiet_set_implementation a : quiet (set_implementation (X := X) b a).
Proof. unfold set_implementation. hush. Qed.
Lemma quiet_codeSizeZeroRevert r : quiet (codeSizeZeroRevert (X := X) r).
Proof. unfold codeSizeZeroRevert. hush. Qed.
Lemma quiet_onlyOwner a a' : quiet (onlyOwner (X := X) a a').
Proof. unfold onlyOwner. hush. Qed.
Lemma quiet_onlyOwnerOrDelegator a a' : quiet (onlyOwnerOrDelegator (X := X) a a').
Proof. unfold onlyOwnerOrDelegator. hush. Qed.
#[local] Hint Resolve quiet_construct_at quiet_run_as_init_at quiet_push_contract
  quiet_set_implementation quiet_codeSizeZeroRevert quiet_onlyOwner quiet_onlyOwnerOrDelegator : quiet.
Lemma quiet_metamorphic a a' : quiet (metamorphic_init (X := X) a a').
Proof. unfold metamorphic_init. hush. Qed.

Lemma quiet_init_construct a dep a' : quiet_init c0 self f (construct_at (X := X) dep a a').
Proof. split; [auto with quiet|apply construct_at_user]. Qed.
Lemma quiet_init_metamorphic a a' : quiet_init c0 self f (metamorphic_init (X := X) a a').
Proof. split; [apply quiet_metamorphic|apply metamorphic_user]. Qed.
Lemma quiet_init_template dep : quiet_init c0 self f (mret (Template dep) : evm code).
Proof. split; [auto with quiet|by intros s k s' [= <- _]]. Qed.
Lemma quiet_init_endowed a a' v dep :
  quiet_init c0 self f (_ ← transfer a' a v; construct_at (X := X) dep a a').
Proof. split; [hush|]. intros s k s' Hrun. inv_bind Hrun. by apply construct_at_user in Hrun. Qed.

Lemma quiet_create1 n init :
  quiet_init c0 self f init → quiet (create_at b (create_address b n) init).
Proof. apply quiet_create; [done..|]. left. eauto. Qed.
Lemma quiet_create2 s h init :
  quiet_init c0 self f init → quiet (create_at b (create2_address b s h) init).
Proof. apply quiet_create; [done..|]. right. eauto. Qed.

Variable call : address → address → Z → hexdata → evm ().
Hypothesis Hcall : ∀ to v d, quiet (call b to v d).
#[local] Hint Resolve Hcall quiet_create1 quiet_create2 quiet_init_construct quiet_init_metamorphic
  quiet_init_template quiet_init_endowed : quiet.

Lemma quiet_initialize a d : quiet (_initializeContract (X := X) call b a d).
Proof. unfold _initializeContract. hush. Qed.
#[local] Hint Resolve quiet_initialize : quiet.
Lemma quiet_run_factory sender fc : quiet (run_factory (X := X) call b sender fc).
Proof.
  destruct fc; cbn [run_factory]; unfold _deployCreate, _deployCreate2, _deployProxy, _deployTemplate,
    _deployStatic, _upgradeProxy, _multiCall; cbv zeta; try solve [hush].
  hush. by apply quiet_for_each.
Qed.
End other.

(** *** Calls *)
#[local] Hint Resolve quiet_the_chain quiet_revert quiet_emit_foreign quiet_ext quiet_transfer : quiet.

(** Code running in an account: a guarded proxy runs its implementation. *)
Lemma run_user_untouched k ka to from v d s r s' :
  untouched s.1 → accounts s.1 !! to = Some ka →
  (∀ st, guarded c0 self to st → has_code (slot_impl st) (account_code k) s.1) →
  run_user (X := X) (account_code k) to from v d (account_slot ka) s = (Ok r, s') → untouched s'.1.
Proof.
  destruct s as [c l]. cbn [fst]. intros Hu Hka Hk. unfold run_user, the_chain. rewrite bind_gets.
  destruct (call_code _ _ _ _ _ _ _) as [[[st n] x]|] eqn:Hc; [|done].
  rewrite bind_change. intros Hrun.
  assert (quiet (_ ← change (with_ext x); emit_foreign (X := X) n)) as Hq by hush.
  refine (Hq _ _ _ _ Hrun). cbn [fst]. rewrite Hka. apply untouched_slot; [done| |done].
  intros st' Hg. pose proof (un_proxy _ _ _ _ Hu to st' Hg) as Hp. rewrite Hka in Hp. injection Hp as ->.
  destruct (Hk st' Hg) as (y & Hy & Hyk). destruct Hg as (_ & k0 & Hk0 & Hkeep).
  destruct (un_code _ _ _ _ Hu _ _ Hk0) as (y' & Hy' & Hyk').
  assert (account_code k = k0) as Heq by congruence. rewrite Heq in Hc. by eapply Hkeep.
Qed.

Lemma run_proxy_untouched g s0 to from v d s r s' :
  untouched s.1 → accounts s.1 !! to = Some (Account (ProxyCode g) s0) → stranger from →
  run_proxy (X := X) g to from v d s0 s = (Ok r, s') → untouched s'.1.
Proof.
  intros Hu Hto Hfrom.
  assert (∀ r s', (k ← the_chain (λ c, accounts c !! slot_impl s0);
    match k with Some k => run_user (account_code k) to from v d s0 | None => mret tt end) s = (Ok r, s') →
    untouched s'.1) as Hdelegate.
  { intros r' s1. unfold the_chain. rewrite bind_gets.
    destruct (accounts s.1 !! slot_impl s0) as [k|] eqn:Hk; [|by intros [= _ <-]].
    apply (run_user_untouched k (Account (ProxyCode g) s0) to from v d s r' s1 Hu Hto).
    intros st Hg. pose proof (un_proxy _ _ _ _ Hu to st Hg) as Hp. rewrite Hto in Hp. injection Hp as _ ->.
    by exists k. }
  unfold run_proxy. case_decide as Hsel; [intros Hrun; by eapply quiet_require|].
  destruct (decode_upgrade d) as [impl|]; [|by apply Hdelegate].
  case_decide as Hg; [|by apply Hdelegate].
  destruct (slot_high s0 =? LOCK); [done|]. intros [= _ <-]. cbn [fst].
  apply (untouched_slot c0 self f s.1 to _ _ Hto); [|done].
  intros st Hst. pose proof (un_proxy _ _ _ _ Hu to st Hst) as Hp. rewrite Hto in Hp.
  injection Hp as -> _. destruct Hfrom as [Hne _]. by subst.
Qed.

Lemma quiet_call depth from to v d : stranger from → quiet (call (X := X) depth from to v d).
Proof.
  revert from to v d. induction depth as [|depth IH]; intros from to v d Hfrom; cbn [call].
  { apply quiet_throw. }
  apply quiet_bind; [auto with quiet|intros _]. intros s r s' Hu. unfold the_chain. rewrite bind_gets.
  destruct (accounts s.1 !! to) as [k|] eqn:Hk; [|by intros [= _ <-]].
  assert (∀ r s', account_code k ≠ ProxyCode self →
    run_user (account_code k) to from v d (account_slot k) s = (Ok r, s') → untouched s'.1) as Huser.
  { intros r1 s1 Hnp. apply run_user_untouched; [done|done|]. intros st Hg.
    pose proof (un_proxy _ _ _ _ Hu to st Hg) as Hp. rewrite Hk in Hp. by injection Hp as ->. }
  destruct (account_code k) as [|g| | |] eqn:Hkc; try (by apply Huser).
  - assert (has_code to FactoryCode c0) as Hto by (apply (un_factory _ _ _ _ Hu); by exists k).
    destruct (decode d) as [fc|]; [|intros Hrun; by eapply quiet_require].
    intros Hrun. apply bind_inv in Hrun as (u & s1 & H1 & H2).
    assert (s1 = s) as -> by (destruct (payable fc || (v =? 0)); [by injection H1|done]).
    destruct (decide (to = self)) as [->|Hne].
    + destruct s as [c l]. rewrite (run_factory_refused (call depth) self from f fc c l) in H2; [done| |].
      * by apply Hu.
      * destruct Hfrom as (Hf1 & Hf2 & Hf3). by intros [[?|?]|[_ ?]].
    + eapply (quiet_run_factory to Hto Hne (call depth)); [|exact Hu|exact H2].
      intros to' v' d'. apply IH. by apply (factory_stranger c0).
  - destruct k as [kc st]. cbn in Hkc. subst kc. by apply run_proxy_untouched.
Qed.
End factories.

Section transaction.
Context {X : Type} `{Evm, !Contracts X, !EvmLaws}.
Implicit Types (c : chain X).

(** C6: a transaction of a stranger to a factory, whatever contract it calls and
    through however many other factories, leaves the factory's storage (owner,
    delegator, salts, template) and nonce as they are, leaves free every address
    at which the factory has still to deploy, and keeps the implementation of
    each of its proxies whose own code does not change it. *)
Theorem stranger_tx t to self f c r rc c' :
  run_tx t (call_tx t to) c = Ok (r, rc, c') →
  is_factory c self f → eoa (tx_from t) → stranger self f (tx_from t) →
  ¬ has_code (_owner f) FactoryCode c → ¬ has_code (_delegator f) FactoryCode c →
  is_factory c' self f ∧ nonce c' self = nonce c self ∧
  (∀ a, made_by self a → free c a → free c' a) ∧
  (∀ p s, guarded c self p s → accounts c' !! p = Some (Account (ProxyCode self) s)).
Proof.
  intros Hrun [[s0 Hk] Hf] [He1 He2] Hfrom Ho Hd.
  assert (has_code self FactoryCode c) as Hself by by eexists.
  assert (untouched c self f c) as Hu.
  { split; [done|done|done|done|done|]. by intros p s [Hp _]. }
  assert (untouched c self f (bump (tx_from t) c)) as Hbump.
  { apply untouched_nonce; [by apply Hfrom| |done]. intros a [(n & ->)|(s & h & ->)] _ Heq;
      symmetry in Heq; [by apply He1 in Heq|by apply He2 in Heq]. }
  revert Hrun. unfold run_tx, call_tx. rewrite bind_change.
  destruct (call _ _ _ _ _ _) as [[u|e] [c1 l1]] eqn:Hcall; [|done].
  destruct (_ <=? _); [|done]. intros [= _ _ <-].
  pose proof (quiet_call c self f Hself Ho Hd CALL_DEPTH (tx_from t) to (tx_value t) (tx_data t) Hfrom
    (bump (tx_from t) c, []) _ _ Hbump Hcall) as [S N K F R P].
  split_and!; [|exact N|exact R|exact P]. split; [|exact S].
  destruct (K _ _ Hself) as ([k sl] & Hx & Hc). cbn in Hc. subst k. by exists sl.
Qed.
End transaction.
