(* ===== verification/Promises.v ===== *)
(** * What the factory's functions promise

    Hoare-style facts on [Chain]: a call of the factory that returns has
    installed the contract its salt names, whatever the code it ran, and later
    transactions keep it. *)
From S2P Require Import Prelude JsString JsValue FactoryState Chain ChainLaws FactorySpec.
#[local] Open Scope Z_scope.

Section promises.
Context {X : Type} `{Evm, !Contracts X, !EvmLaws}.
Implicit Types (c : chain X) (self sender a b : address) (s : chain X * list Event).
Abbreviation evm := (M (chain X * list Event)).

#[local] Hint Resolve keeps_revert keeps_emit keeps_the_chain keeps_storage keeps_push_contract
  keeps_set_implementation keeps_codeSizeZeroRevert keeps_onlyOwner stable_has_code : keeps.

(** ** Contracts at an address *)

(** An account whose code is not empty. *)
Definition contract_at a c : Prop := ∃ k, has_code a k c ∧ code_empty k = false.
(** A proxy of some factory. *)
Definition proxy_at a c : Prop := ∃ f, has_code a (ProxyCode f) c.
(** What the metamorphic init code makes for a factory: its proxy, or user code. *)
Definition metamorphic_code self (k : code) : Prop := k = ProxyCode self ∨ ∃ rt, k = UserCode rt.
Definition metamorphic_at self salt c : Prop :=
  ∃ k, has_code (meta_address self salt) k c ∧ code_empty k = false ∧ metamorphic_code self k.

Lemma stable_contract_at a : stable (contract_at a).
Proof. intros c c' (k & Hk & He) Hev. exists k. split; [by eapply stable_has_code|done]. Qed.
Lemma stable_proxy_at a : stable (proxy_at a).
Proof. intros c c' (f & Hf) Hev. exists f. by eapply stable_has_code. Qed.
Lemma stable_metamorphic self salt : stable (metamorphic_at self salt).
Proof. intros c c' (k & Hk & He) Hev. exists k. split; [by eapply stable_has_code|done]. Qed.

Lemma has_code_unique a k1 k2 c : has_code a k1 c → has_code a k2 c → k1 = k2.
Proof. intros (x & Hx & <-) (y & Hy & <-). congruence. Qed.

Lemma metamorphic_contract self salt c :
  metamorphic_at self salt c → contract_at (meta_address self salt) c.
Proof. intros (k & Hk & He & _). by exists k. Qed.

(** A proxy that the factory made is its own. *)
Lemma metamorphic_proxy self salt c :
  metamorphic_at self salt c → proxy_at (meta_address self salt) c →
  has_code (meta_address self salt) (ProxyCode self) c.
Proof.
  intros (k & Hk & _ & Hm) (f & Hf). pose proof (has_code_unique _ _ _ _ Hk Hf) as ->.
  by destruct Hm as [[= ->]|(rt & [=])].
Qed.

(** ** Creation *)
Lemma create_at_inv creator a init s b s' :
  create_at creator a init s = (Ok (Ok b), s') →
  b = a ∧ ∃ k s1 s2, init s1 = (Ok k, s2) ∧ has_code a k s'.1.
Proof.
  unfold create_at. case_decide; [done|]. destruct (init _) as [[k|e] s2] eqn:Hi; [|done].
  intros [= <- <-]. split; [done|]. eexists k, _, s2. split; [exact Hi|].
  eexists. split; [apply lookup_insert_eq|done].
Qed.

Lemma metamorphic_init_code a self s k s' :
  metamorphic_init a self s = (Ok k, s') → metamorphic_code self k.
Proof.
  unfold metamorphic_init. intros Hrun. inv_bind Hrun. unfold the_chain in Hrun.
  rewrite bind_gets in Hrun.
  assert (∀ r s1 k s2, ran r s1 = (Ok k, s2) → metamorphic_code self k) as Hran.
  { intros [[[rt n] x]|] s1 k' s2; cbn; [|done]. intros [= <- _]. right. by eexists. }
  destruct (account_code <$> _) as [[]|]; try (by apply Hran in Hrun).
  - left. by injection Hrun as <- _.
  - right. injection Hrun as <- _. by eexists.
Qed.

(** The checks on the size of the code. *)
Lemma codeSizeZeroRevert_inv r s a s' :
  codeSizeZeroRevert r s = (Ok a, s') → r = Ok a ∧ s' = s ∧
  ∀ k, has_code a k s.1 → code_empty k = false.
Proof.
  destruct r as [b|e]; [|done]. unfold codeSizeZeroRevert, the_chain. rewrite bind_gets.
  destruct (accounts s.1 !! b) as [k|] eqn:Hk; [|done]. unfold require, revert.
  destruct (code_empty (account_code k)) eqn:He; [done|]. cbn. intros [= <- <-].
  split; [done|]. split; [done|]. intros k' (x & Hx & <-). congruence.
Qed.

(** A metamorphic contract that passed the check. *)
Lemma metamorphic_created self salt s s' b :
  let a := meta_address self salt in
  chain_wf s.1 → exists_at self s.1 →
  create_at self a (metamorphic_init a self) s = (Ok (Ok b), s') →
  (∀ k, has_code b k s'.1 → code_empty k = false) →
  evolves s.1 s'.1 ∧ metamorphic_at self salt s'.1.
Proof.
  intros a Hwf Hself Hrun He. split.
  - eapply create_at_evolves; [done|by apply exists_may_create|by right; eauto| |exact Hrun].
    apply keeps_init_metamorphic.
  - apply create_at_inv in Hrun as (-> & k & s1 & s2 & Hi & Hk).
    exists k. split; [done|]. split; [by apply He|]. by eapply metamorphic_init_code.
Qed.

(** The state after a statement that keeps the invariant. *)
Lemma keeps_true {A} (m : evm A) s r s' :
  keeps true_of m → chain_wf s.1 → m s = (Ok r, s') → evolves s.1 s'.1.
Proof. intros Hm Hwf Hrun. by eapply Hm. Qed.

Lemma deployProxy_promise self salt s a s' :
  chain_wf s.1 → exists_at self s.1 → _deployProxy self salt s = (Ok a, s') →
  metamorphic_at self salt s'.1.
Proof.
  intros Hwf Hself. unfold _deployProxy. fold (meta_address self salt). intros Hrun.
  apply bind_inv in Hrun as (f & s1 & H1 & Hrun). apply keeps_true in H1; [|auto with keeps|done].
  apply bind_inv in Hrun as (u & s2 & H2 & Hrun).
  apply keeps_true in H2; [|auto with keeps|by apply H1].
  pose proof (evolves_trans _ _ _ H1 H2) as H12.
  apply bind_inv in Hrun as (r & s3 & H3 & Hrun).
  apply bind_inv in Hrun as (b & s4 & H4 & Hrun).
  apply codeSizeZeroRevert_inv in H4 as (-> & -> & He).
  apply metamorphic_created in H3 as [H3 Hm]; [|by apply H12|by eapply stable_exists|done].
  eapply stable_metamorphic; [exact Hm|]. eapply keeps_true; [|by apply H3|exact Hrun]. keep.
Qed.

Section calls.
Variable call : address → address → Z → hexdata → evm ().
Variable self : address.
Hypothesis Hcall : ∀ to v d, keeps true_of (call self to v d).

Lemma deployStatic_promise salt d s a s' :
  chain_wf s.1 → exists_at self s.1 → _deployStatic call self salt d s = (Ok a, s') →
  metamorphic_at self salt s'.1.
Proof.
  intros Hwf Hself. unfold _deployStatic. fold (meta_address self salt). intros Hrun.
  apply bind_inv in Hrun as (r & s1 & H1 & Hrun).
  apply bind_inv in Hrun as (b & s2 & H2 & Hrun).
  assert (r = Ok b ∧ s2 = s1 ∧ ∀ k, has_code b k s1.1 → code_empty k = false) as (-> & -> & He).
  { destruct r as [b'|[| |msg|]]; try done; [|by destruct msg].
    revert H2. unfold the_chain. rewrite bind_gets.
    destruct (accounts s1.1 !! b') as [k|] eqn:Hk; [|done]. unfold require, revert.
    destruct (code_empty (account_code k)) eqn:He; [done|]. cbn. intros [= <- <-].
    split; [done|]. split; [done|]. intros k' (x & Hx & <-). congruence. }
  apply metamorphic_created in H1 as [H1 Hm]; [|done..].
  eapply stable_metamorphic; [exact Hm|]. eapply keeps_true; [|by apply H1|exact Hrun].
  pose proof (keeps_initialize true_of self call Hcall). keep.
Qed.

(** The factory asserts that the account answers with the implementation it
    was given: only a proxy does. *)
Lemma upgradeProxy_promise salt impl d s u s' :
  chain_wf s.1 → _upgradeProxy call self salt impl d s = (Ok u, s') →
  proxy_at (meta_address self salt) s'.1.
Proof.
  intros Hwf. unfold _upgradeProxy. rewrite meta_address_lookup. intros Hrun.
  apply bind_inv in Hrun as (u1 & s1 & H1 & Hrun). apply keeps_true in H1; [|done..].
  unfold the_chain in Hrun. rewrite bind_gets in Hrun.
  apply bind_inv in Hrun as (u2 & s2 & H2 & Hrun).
  assert (s2 = s1 ∧ getImplementationAddress s1.1 (meta_address self salt) = Some impl) as [-> Hi].
  { unfold require in H2. case_bool_decide; [by injection H2 as _ <-|done]. }
  eapply stable_proxy_at; [|eapply keeps_true; [|by apply H1|exact Hrun]].
  - unfold getImplementationAddress in Hi. destruct (accounts s1.1 !! _) as [k|] eqn:Hk; [|done].
    cbn in Hi. destruct (account_code k) as [|f| | |] eqn:Hc; try done. exists f. by exists k.
  - by apply (keeps_initialize true_of self call Hcall).
Qed.

(** What a call of the factory leaves when it returns. *)
Definition promise (fc : fcall) c : Prop :=
  match fc with
  | deployProxy salt | deployStatic salt _ => metamorphic_at self salt c
  | upgradeProxy salt _ _ => proxy_at (meta_address self salt) c
  | _ => True
  end.
Lemma stable_promise fc : stable (promise fc).
Proof. destruct fc; first [apply stable_metamorphic | apply stable_proxy_at | done]. Qed.

Lemma run_factory_promise sender fc s u s' :
  chain_wf s.1 → exists_at self s.1 →
  run_factory call self sender fc s = (Ok u, s') → promise fc s'.1.
Proof.
  intros Hwf Hself Hrun.
  destruct fc; try exact I; cbn [run_factory] in Hrun;
    apply bind_inv in Hrun as (u1 & s1 & H1 & Hrun); apply keeps_true in H1; [|by auto with keeps|done
      | |by auto with keeps|done| |by auto with keeps|done].
  - apply bind_inv in Hrun as (a & s2 & H2 & [= _ <-]).
    eapply deployProxy_promise; [by apply H1|by eapply stable_exists|exact H2].
  - apply bind_inv in Hrun as (a & s2 & H2 & [= _ <-]).
    eapply deployStatic_promise; [by apply H1|by eapply stable_exists|exact H2].
  - eapply upgradeProxy_promise; [by apply H1|exact Hrun].
Qed.
End calls.

(** ** Calls of a factory, at any depth *)
Lemma call_factory_ok depth sender self d fc s u s' :
  has_code self FactoryCode s.1 → decode d = Some fc →
  call depth sender self 0 d s = (Ok u, s') →
  ∃ depth', run_factory (call depth') self sender fc s = (Ok u, s').
Proof.
  destruct s as [c l]. intros ([k sl] & Hk & Hc) Hd. cbn in Hc. subst k.
  destruct depth as [|depth]; [done|]. rewrite (call_factory _ _ _ _ _ _ _ _ Hk Hd). by exists depth.
Qed.

Lemma call_promise depth sender self d fc s u s' :
  chain_wf s.1 → has_code self FactoryCode s.1 → decode d = Some fc →
  call depth sender self 0 d s = (Ok u, s') → promise self fc s'.1.
Proof.
  intros Hwf Hk Hd Hrun. destruct (call_factory_ok _ _ _ _ _ _ _ _ Hk Hd Hrun) as [depth' Hfac].
  eapply run_factory_promise; [|exact Hwf| |exact Hfac].
  - intros to v d'. by apply keeps_call.
  - destruct Hk as (k & Hk & _). by exists k.
Qed.

Lemma for_each_promises depth self l s u s' :
  chain_wf s.1 → has_code self FactoryCode s.1 →
  for_each l (λ d, call depth self self 0 d) s = (Ok u, s') →
  ∀ d fc, d ∈ l → decode d = Some fc → promise self fc s'.1.
Proof.
  revert s. induction l as [|d0 l IH]; intros s Hwf Hk Hrun d fc Hin Hd; [by apply not_elem_of_nil in Hin|].
  cbn [for_each] in Hrun. apply bind_inv in Hrun as (u1 & s1 & H1 & Hrun).
  pose proof (keeps_true _ _ _ _ (keeps_call depth true_of self self 0 d0 stable_true) Hwf H1) as Hev.
  apply elem_of_cons in Hin as [->|Hin].
  - eapply stable_promise; [by eapply call_promise|]. eapply keeps_true; [|by apply Hev|exact Hrun].
    apply keeps_for_each; [done|]. intros d. by apply keeps_call.
  - eapply (IH s1); [by apply Hev|by eapply stable_has_code|done..].
Qed.

(** The promise of a call, and of each call a multicall makes. *)
Definition promises self (fc : fcall) c : Prop :=
  promise self fc c ∧
  ∀ l d fc', fc = multiCall l → d ∈ l → decode d = Some fc' → promise self fc' c.
Lemma stable_promises self fc : stable (promises self fc).
Proof.
  intros c c' [Hp Hl] Hev. split; [by eapply stable_promise|].
  intros l d fc' Heq Hin Hd. eapply stable_promise; [by eapply Hl|done].
Qed.

Lemma call_promises depth sender self d fc s u s' :
  chain_wf s.1 → has_code self FactoryCode s.1 → decode d = Some fc →
  call depth sender self 0 d s = (Ok u, s') → promises self fc s'.1.
Proof.
  intros Hwf Hk Hd Hrun. split; [by eapply call_promise|]. intros l d' fc' -> Hin Hd'.
  destruct (call_factory_ok _ _ _ _ _ _ _ _ Hk Hd Hrun) as [depth' Hfac].
  cbn [run_factory] in Hfac. apply bind_inv in Hfac as (u1 & s1 & H1 & Hfac).
  apply keeps_true in H1; [|by auto with keeps|done].
  eapply for_each_promises; [by apply H1|by eapply stable_has_code|exact Hfac|done..].
Qed.

(** A transaction that calls the factory. *)
Lemma run_tx_promises t self fc c r rc c' :
  chain_wf c → eoa (tx_from t) → has_code self FactoryCode c →
  tx_value t = 0 → decode (tx_data t) = Some fc →
  run_tx t (call_tx t self) c = Ok (r, rc, c') → promises self fc c'.
Proof.
  intros Hwf Heoa Hk Hv Hd. unfold run_tx, call_tx, change. rewrite bind_modify, Hv. cbn [fst snd].
  destruct (call _ _ _ _ _ _) as [[u|e] [c1 logs]] eqn:Hrun; [|done].
  destruct (_ <=? _); [|done]. intros [= <- <- <-].
  assert (evolves c (bump (tx_from t) c)) as Hev by (apply evolves_bump; [done|by right]).
  assert (promises self fc c1) as Hp.
  { refine (call_promises CALL_DEPTH _ self _ fc _ u (c1, logs) _ _ Hd Hrun); [apply Hev|].
    by eapply stable_has_code. }
  eapply stable_promises; [exact Hp|]. apply evolves_same; [|done..].
  pose proof (keeps_true _ _ _ _ (keeps_call CALL_DEPTH true_of (tx_from t) self 0 (tx_data t) stable_true)
    (ev_wf _ _ Hev : chain_wf (bump (tx_from t) c, []).1) Hrun) as He. apply He.
Qed.
End promises.
