(* ===== verification/TaskSpec.v ===== *)
(** * What the factory tasks do

    Theorems on [FactoryTasks] over the behaviour of the factory given by
    [FactorySpec]. *)
From S2P Require Import Prelude JsString JsValue Toml World Constants Config Artifacts.
From S2P Require Import DeploymentUtil DeploymentList DeployArgs FactoryState Chain ChainLaws.
From S2P Require Import FactorySpec Hardhat FactoryTasks.
#[local] Open Scope Z_scope.

(** ** Receipts *)
Lemma find_event_skip name var l1 l2 :
  Forall (λ e, event e ≠ Some name) l1 →
  find_event_var name var (l1 ++ l2) = find_event_var name var l2.
Proof. induction 1 as [|e l1 He _ IH]; cbn; [done|]. by rewrite decide_False. Qed.

Lemma find_deployed_event name a l1 l2 :
  Forall (λ e, event e ≠ Some name) l1 →
  find_event_var name CONTRACT_ADDR (l1 ++ deployed_event name a :: l2) = Ok (VStr a).
Proof. intros Hl. rewrite find_event_skip by done. cbn. by rewrite decide_True. Qed.

Lemma getEventAddress_of l g st name a :
  find_event_var name CONTRACT_ADDR l = Ok (VStr a) →
  getEventAddress {| events := Some l; gasUsed := g; status := st |} name = Ok a.
Proof. intros Hl. unfold getEventAddress, getEventVar. cbn [events]. by rewrite Hl. Qed.

Lemma foreign_events name n : Forall (λ e, event e ≠ Some name) (replicate n foreign_log).
Proof. by apply Forall_replicate. Qed.

Section spec.
Context {X : Type} `{Toml} `{Artifacts} `{Evm, !Contracts X, !EvmLaws, Hardhat}.
Implicit Types (c : chain X) (w : world (chain X)) (factory owner : address).

Lemma with_chain_chain c c' w : with_chain c (with_chain c' w) = with_chain c w.
Proof. done. Qed.

(** ** Transactions of the tasks *)
Definition gas_of c owner factory fc : Z := gas_used c (Tx owner (Some factory) 0 (encode fc)).

Lemma run_call_tx c owner factory fc c' l :
  call CALL_DEPTH owner factory 0 (encode fc) (bump owner c, []) = (Ok tt, (c', l)) →
  gas_of c owner factory fc ≤ block_gas_limit c →
  let t := Tx owner (Some factory) 0 (encode fc) in
  run_tx t (call_tx t factory) c
  = Ok (tt, {| events := Some l; gasUsed := gas_of c owner factory fc; status := 1 |},
        with_block (block_number c' + 1) c').
Proof.
  intros Hcall Hg t. subst t. unfold gas_of in *. unfold run_tx, call_tx. rewrite bind_change.
  cbn [tx_from tx_value tx_data]. rewrite Hcall. by rewrite (proj2 (Z.leb_le _ _) Hg).
Qed.

Lemma factory_tx_ok owner factory fc :
  signer = Ok owner → valid_call fc = true →
  factory_tx factory fc = Ok (Tx owner (Some factory) 0 (encode fc)).
Proof. intros Hs Hv. unfold factory_tx, encodeFactoryData. by rewrite Hs, Hv. Qed.

Lemma factory_send_ok owner factory fc c' l w :
  signer = Ok owner → valid_call fc = true →
  call CALL_DEPTH owner factory 0 (encode fc) (bump owner (chain_state w), []) = (Ok tt, (c', l)) →
  gas_of (chain_state w) owner factory fc ≤ block_gas_limit (chain_state w) →
  factory_send factory fc w
  = (Ok {| events := Some l; gasUsed := gas_of (chain_state w) owner factory fc; status := 1 |},
     with_chain (with_block (block_number c' + 1) c') w).
Proof.
  intros Hs Hv Hcall Hg. unfold factory_send. rewrite (factory_tx_ok owner) by done. run_step.
  unfold send_method, mbind, M_bind. by rewrite (run_call_tx _ _ _ _ _ _ Hcall Hg).
Qed.

Lemma factory_estimateGas_ok owner factory fc c' l w :
  signer = Ok owner → valid_call fc = true →
  call CALL_DEPTH owner factory 0 (encode fc) (bump owner (chain_state w), []) = (Ok tt, (c', l)) →
  gas_of (chain_state w) owner factory fc ≤ block_gas_limit (chain_state w) →
  factory_estimateGas factory fc w = (Ok (gas_of (chain_state w) owner factory fc), w).
Proof.
  intros Hs Hv Hcall Hg. unfold factory_estimateGas. rewrite (factory_tx_ok owner) by done. run_step.
  unfold estimateGas. by rewrite (run_call_tx _ _ _ _ _ _ Hcall Hg).
Qed.

(** A call that reverts is refused: at most its sender's nonce and the block move. *)
Lemma factory_send_reverts owner factory fc e s w :
  signer = Ok owner → valid_call fc = true →
  call CALL_DEPTH owner factory 0 (encode fc) (bump owner (chain_state w), []) = (Throw e, s) →
  factory_send factory fc w = (Throw (refusal e), with_chain (refused owner (chain_state w)) w).
Proof.
  intros Hs Hv Hcall. unfold factory_send. rewrite (factory_tx_ok owner) by done. run_step.
  unfold send_method, run_tx, call_tx, mbind at 1, M_bind at 1. rewrite bind_change.
  cbn [tx_from tx_value tx_data]. by rewrite Hcall.
Qed.

Lemma refused_accounts owner c : accounts (refused owner c) = accounts c.
Proof. unfold refused. by destruct fixed_gas. Qed.
Lemma estimated owner e w :
  fixed_gas = false → refusal e = e ∧ with_chain (refused owner (chain_state w)) w = w.
Proof. unfold refusal, refused. intros ->. split; [done|by destruct w]. Qed.

Lemma encodeFactoryData_ok fc : valid_call fc = true → encodeFactoryData fc = Ok (encode fc).
Proof. intros Hv. unfold encodeFactoryData. by rewrite Hv. Qed.

(** The block gas limit the tasks set. *)
Definition raised c : chain X :=
  if decide (network_name = "hardhat") then with_gas_limit 0x3000000000000000 c else c.
Lemma raiseBlockGasLimit_ok w :
  raiseBlockGasLimit w = (Ok tt, with_chain (raised (chain_state w)) w).
Proof. unfold raiseBlockGasLimit, raised. case_decide; [done|]. by destruct w. Qed.

Definition same_state c c' : Prop :=
  accounts c' = accounts c ∧ factories c' = factories c ∧ nonces c' = nonces c ∧ ext c' = ext c.
Lemma raised_same c : same_state c (raised c).
Proof. unfold raised. by case_decide. Qed.
Lemma nonce_raised c a : nonce (raised c) a = nonce c a.
Proof. destruct (raised_same c) as (_ & _ & Hn & _). unfold nonce. by rewrite Hn. Qed.

Lemma same_wf c c' : same_state c c' → chain_wf c → chain_wf c'.
Proof.
  intros (Ha & Hf & Hn & _) Hwf. eapply (evolves_same c c'); [done..|]. intros a. by rewrite Hf.
Qed.

Lemma proxy_deployment_same c c' self f salt dep data rt n x n' x' :
  same_state c c' →
  proxy_deployment c self f salt dep data rt n x n' x' →
  proxy_deployment c' self f salt dep data rt n x n' x'.
Proof.
  intros Hs [Hwf Hfac Ht Hfree Hc Hrt Hi]. pose proof (same_wf _ _ Hs Hwf).
  destruct Hs as (Ha & Hf & Hn & Hx).
  split; [done|..]; unfold is_factory, free, nonce in *; rewrite ?Ha, ?Hf, ?Hn, ?Hx; done.
Qed.

(** The signer: an account without code. *)
Record owner_account c owner : Prop := {
  oa_signer : signer = Ok owner;
  oa_eoa : eoa owner;
  oa_no_code : accounts c !! owner = None;
}.

Lemma nonce_bump owner c a : a ≠ owner → nonce (bump owner c) a = nonce c a.
Proof. intros Hne. unfold bump. rewrite nonce_with_nonce. by rewrite decide_False. Qed.

Lemma contract_ne_owner c owner a : accounts c !! owner = None → is_Some (accounts c !! a) → a ≠ owner.
Proof. intros Ho [k Hk] ->. congruence. Qed.

Lemma proxy_deployment_bump c owner self f salt dep data rt n x n' x' :
  owner_account c owner →
  proxy_deployment c self f salt dep data rt n x n' x' →
  proxy_deployment (bump owner c) self f salt dep data rt n x n' x'.
Proof.
  intros [_ Heoa Hno] [Hwf Hfac Ht Hfree Hc Hrt Hi].
  assert (self ≠ owner) as Hne.
  { eapply contract_ne_owner; [done|]. destruct Hfac as [[s Hk] _]. by eexists. }
  split; [|exact Hfac|exact Ht| |by rewrite nonce_bump|done|by rewrite nonce_bump].
  - eapply ev_wf, evolves_bump; [done|by right].
  - destruct Hfree as [Ha Hn]. split; [exact Ha|]. rewrite nonce_bump; [done|]. by apply Heoa.
Qed.

(** ** Deploying a contract behind a proxy *)

Lemma deployed_same c c0 self f salt rt (x' : X) c' :
  accounts c0 = accounts c → nonce c0 self = nonce c self →
  deployed c0 self f salt rt x' c' → deployed c self f salt rt x' c'.
Proof.
  intros Ha Hn [D1 D2 D3 D4 D5]. unfold logic_address in *. rewrite Hn in *. rewrite Ha in D3.
  by split.
Qed.
Lemma deployed_block c self f salt rt (x' : X) c' k :
  deployed c self f salt rt x' c' → deployed c self f salt rt x' (with_block k c').
Proof. intros [D1 D2 D3 D4 D5]. by split. Qed.

(** What the environment answers about a contract: its creation code for the
    arguments, the calldata of its initialiser, its salt. *)
Record logic_artifacts (name : string) (conArgs : list value) (icd : option string)
    (dep salt data : hexdata) : Prop := {
  la_factory : is_ok (getContractFactory ALICENET_FACTORY) = true;
  la_logic : ∃ lf, getContractFactory name = Ok lf ∧ getDeployTransaction lf conArgs = Ok (Some dep);
  la_data w : encodeInitCallData name icd w = (Ok data, w);
  la_salt w : getBytes32Salt name w = (Ok salt, w);
}.

Lemma la_factory_ok name conArgs icd dep salt data :
  logic_artifacts name conArgs icd dep salt data → ∃ fb, getContractFactory ALICENET_FACTORY = Ok fb.
Proof. intros [Hf _ _ _]. destruct (getContractFactory ALICENET_FACTORY); by eauto. Qed.

Section deploy.
Context (name factory owner : string) (a : TaskArgs) (w : world (chain X)).
Context (f : factory_state) (salt dep data rt : hexdata) (n : nat) (x : X) (n' : nat) (x' : X).
Hypothesis Hname : ta_contractName a = Some name.
Hypothesis Hfactory : ta_factoryAddress a = Some factory.
Hypothesis Hargs : forallb is_string (default [] (ta_constructorArgs a)) = true.
Hypothesis Hart : logic_artifacts name (default [] (ta_constructorArgs a)) (ta_initCallData a) dep salt data.
Hypothesis Howner : owner_account (chain_state w) owner.
Hypothesis Hauth : owner = _owner f.
Hypothesis Hpd : proxy_deployment (chain_state w) factory f salt dep data rt n x n' x'.

Abbreviation c := (chain_state w).
Abbreviation logic := (logic_address c factory).
Abbreviation proxy := (meta_address factory salt).
Definition deploy_multicall : fcall :=
  multiCall [encode (deployCreate dep); encode (deployProxy salt); encode (upgradeProxy salt logic data)].
Hypothesis Hv1 : valid_call (deployCreate dep) = true.
Hypothesis Hv2 : valid_call (deployProxy salt) = true.
Hypothesis Hv3 : valid_call (upgradeProxy salt logic data) = true.

Lemma variadic_ok l : forallb is_string (default [] l) = true → variadic l = Ok l.
Proof. intros Hl. unfold variadic. by rewrite Hl. Qed.

Lemma owner_ne_factory : factory ≠ owner.
Proof.
  eapply contract_ne_owner; [by eapply oa_no_code|].
  destruct (pd_factory _ _ _ _ _ _ _ _ _ _ _ Hpd) as [[s Hk] _]. by eexists.
Qed.

Lemma raised_bump_pd :
  proxy_deployment (bump owner (raised c)) factory f salt dep data rt n x n' x'.
Proof.
  apply proxy_deployment_bump.
  - destruct Howner as [Ho1 Ho2 Ho3]. split; [done..|]. by destruct (raised_same c) as (-> & _).
  - by apply (proxy_deployment_same _ _ _ _ _ _ _ _ _ _ _ _ (raised_same c)).
Qed.

Lemma logic_bump : logic_address (bump owner (raised c)) factory = logic.
Proof.
  unfold logic_address. rewrite nonce_bump by apply owner_ne_factory. by rewrite nonce_raised.
Qed.

Hypothesis Hv : valid_call deploy_multicall = true.

Lemma deploy_call :
  call CALL_DEPTH owner factory 0 (encode deploy_multicall) (bump owner (raised c), [])
  = (Ok tt, (after_upgrade (bump owner (raised c)) factory f salt rt x x',
             logic_logs c factory n ++ proxy_logs factory salt n')).
Proof.
  change CALL_DEPTH with (S (S (S 1021))).
  rewrite (call_multiCall _ _ _ f _ _ _ _ (pd_factory _ _ _ _ _ _ _ _ _ _ _ raised_bump_pd)
    (or_intror Hauth) (decode_encode _ Hv)).
  rewrite (multicall_steps _ _ _ _ _ _ _ _ _ _ _ raised_bump_pd 1021 _ _ _
    (decode_encode _ Hv1) (decode_encode _ Hv2)).
  - unfold logic_logs. by rewrite logic_bump.
  - rewrite logic_bump. by apply decode_encode.
Qed.

Definition deploy_gas : Z := gas_of (raised c) owner factory deploy_multicall.
Hypothesis Hgas : deploy_gas ≤ block_gas_limit (raised c).
Hypothesis Hlimit : deploy_gas < MULTICALL_LIMIT.

Lemma proxy_events :
  find_event_var DEPLOYED_PROXY CONTRACT_ADDR (proxy_logs factory salt n') = Ok (VStr proxy).
Proof. exact (find_deployed_event _ _ [] _ (Forall_nil_2 _)). Qed.
Lemma deploy_events :
  find_event_var DEPLOYED_PROXY CONTRACT_ADDR (logic_logs c factory n ++ proxy_logs factory salt n')
  = Ok (VStr proxy).
Proof.
  unfold logic_logs, proxy_logs. apply find_deployed_event.
  apply Forall_app. split; [apply foreign_events|]. by constructor.
Qed.

Definition chain_full : chain X :=
  let c1 := after_upgrade (bump owner (raised c)) factory f salt rt x x' in
  with_block (block_number c1 + 1) c1.
Definition full_data : ProxyData := {|
  px_proxyAddress := proxy; px_salt := salt; px_logicName := Some name;
  px_logicAddress := ta_logicAddress a; px_factoryAddress := factory; px_gas := GasBig deploy_gas;
  px_receipt := Some {| events := Some (logic_logs c factory n ++ proxy_logs factory salt n');
                        gasUsed := deploy_gas; status := 1 |};
  px_initCallData := Some data |}.
Definition full_message : string :=
  "Deployed " +:+ name +:+ " with proxy at " +:+ proxy +:+ ", gasCost: " +:+ gas_string deploy_gas.

Lemma fullMultiCallDeployProxy_run :
  fullMultiCallDeployProxy a w
  = (_ ← showState full_message; updateProxyList network_name full_data (ta_outputFolder a))
      (with_chain chain_full w).
Proof.
  pose proof Hart as [_ (lf & Hlf & Hdep) Hdata Hsalt].
  destruct (la_factory_ok _ _ _ _ _ _ Hart) as [fb Hfb].
  set (w1 := with_chain (raised c) w).
  pose proof (factory_estimateGas_ok owner factory deploy_multicall _ _ w1
    (oa_signer _ _ Howner) Hv deploy_call Hgas) as Hest.
  pose proof (factory_send_ok owner factory deploy_multicall _ _ w1
    (oa_signer _ _ Howner) Hv deploy_call Hgas) as Hsend.
  change (gas_of (chain_state w1) owner factory deploy_multicall) with deploy_gas in Hest, Hsend.
  change (with_chain _ w1) with (with_chain chain_full w) in Hsend.
  unfold fullMultiCallDeployProxy. rewrite Hname, Hfactory. cbn [required of_option]. run_step.
  rewrite (variadic_ok _ Hargs). run_step. rewrite Hfb. run_step. run (Hdata w). run (Hsalt w).
  rewrite Hlf. run_step. rewrite Hdep. run_step. run (raiseBlockGasLimit_ok w). fold w1.
  unfold getTransactionCount. run_step. cbn [bytes_arg of_option]. run_step.
  change (chain_state w1) with (raised c). rewrite nonce_raised. fold (logic_address c factory).
  rewrite !encodeFactoryData_ok by done. run_step. run Hest.
  rewrite (proj2 (Z.ltb_lt _ _) Hlimit). run Hsend. unfold getEventAddress at 1, getEventVar.
  cbn [events]. rewrite deploy_events. cbn [fmap outcome_fmap to_js_string]. run_step. reflexivity.
Qed.

(** C1: below the gas limit, [fullMultiCallDeployProxy] is one transaction; it
    leaves the logic contract at the predicted address and, at the address of the
    salt, a proxy of the factory that points to it and is initialised; the
    address it reports is the proxy's. *)
Theorem fullMultiCallDeployProxy_ok :
  ∃ c' message proxyData,
    fullMultiCallDeployProxy a w
    = (_ ← showState message; updateProxyList network_name proxyData (ta_outputFolder a))
        (with_chain c' w) ∧
    px_proxyAddress proxyData = getMetamorphicAddress factory salt ∧
    px_salt proxyData = salt ∧ px_gas proxyData = GasBig deploy_gas ∧
    deployed c factory f salt rt x' c'.
Proof.
  exists chain_full, full_message, full_data. split; [apply fullMultiCallDeployProxy_run|].
  do 3 (split; [done|]). apply deployed_block, (deployed_same c (bump owner (raised c)));
    [| |by apply (upgraded_deployed _ _ _ _ _ x)].
  - by destruct (raised_same c) as (Ha & _).
  - rewrite nonce_bump by apply owner_ne_factory. apply nonce_raised.
Qed.

(** *** The same deployment in two transactions *)
Definition chain1 : chain X :=
  let c1 := after_logic (bump owner (raised c)) factory rt x in with_block (block_number c1 + 1) c1.
Definition upgrade_multicall : fcall :=
  multiCall [encode (deployProxy salt); encode (upgradeProxy salt logic data)].
Definition create_gas : Z := gas_of (raised c) owner factory (deployCreate dep).
Definition upgrade_gas : Z := gas_of chain1 owner factory upgrade_multicall.
Hypothesis Hv' : valid_call upgrade_multicall = true.
Hypothesis Hgas1 : create_gas ≤ block_gas_limit (raised c).
Hypothesis Hgas2 : upgrade_gas ≤ block_gas_limit (raised c).
Hypothesis Hnum : 0 ≤ upgrade_gas < 2 ^ 53.

Lemma create_call :
  call CALL_DEPTH owner factory 0 (encode (deployCreate dep)) (bump owner (raised c), [])
  = (Ok tt, (after_logic (bump owner (raised c)) factory rt x, logic_logs c factory n)).
Proof.
  change CALL_DEPTH with (S 1023).
  rewrite (logic_step _ _ _ _ _ _ _ _ _ _ _ raised_bump_pd 1023 owner [] _ (or_intror Hauth)
    (decode_encode _ Hv1)).
  unfold logic_logs. by rewrite logic_bump.
Qed.

Lemma chain1_deployed :
  is_factory (bump owner chain1) factory f ∧
  (∃ t s, accounts (bump owner chain1) !! _proxyTemplate f = Some (Account (ProxyTemplate t) s)) ∧
  free (bump owner chain1) proxy ∧
  accounts (bump owner chain1) !! logic = Some (Account (UserCode rt) empty_slot) ∧
  ext (bump owner chain1) = x.
Proof.
  destruct (after_logic_deployed _ _ _ _ _ _ _ _ _ _ _ raised_bump_pd) as (Hfac & Ht & [Ha Hn] & Hl & Hx).
  rewrite logic_bump in Hl. split; [exact Hfac|]. split; [exact Ht|]. split; [|by split].
  split; [exact Ha|]. rewrite nonce_bump; [exact Hn|]. by apply (oa_eoa _ _ Howner).
Qed.

Lemma upgrade_call :
  call CALL_DEPTH owner factory 0 (encode upgrade_multicall) (bump owner chain1, [])
  = (Ok tt, (upgraded factory proxy logic x' (proxied factory proxy salt f (bump owner chain1)),
             proxy_logs factory salt n')).
Proof.
  destruct chain1_deployed as (Hfac & Ht & Hfr & Hl & Hx).
  change CALL_DEPTH with (S (S (S 1021))).
  rewrite (call_multiCall _ _ _ f _ _ _ _ Hfac (or_intror Hauth) (decode_encode _ Hv')).
  by apply (proxy_steps c factory f salt dep data rt n x n' x' Hpd 1021 _ [] _ _ Hfac Ht Hfr
    (self_ne_proxy _ _ _ _ _ _ _ _ _ _ _ Hpd) Hl Hx (decode_encode _ Hv2) (decode_encode _ Hv3)).
Qed.

Hypothesis Hsil : not_silenced (env w !! "silencer") = false.

Lemma showState_silenced message (v : world (chain X)) :
  not_silenced (env v !! "silencer") = false → showState message v = (Ok tt, v).
Proof. intros Hs. unfold showState, getenv. run_step. by rewrite Hs. Qed.

Lemma toNumber_ok g : 0 ≤ g < 2 ^ 53 → toNumber g = Ok g.
Proof. intros Hg. unfold toNumber. by rewrite (proj2 (Z.ltb_lt _ _)) by lia. Qed.

Lemma deployCreate_task_ok :
  ∃ d, deployCreate_task (deployArgs_task
    {| contractName := name; factoryAddress := factory; initCallData := None;
       constructorArgs := ta_constructorArgs a; outputFolder := ta_outputFolder a |}) w
  = (Ok d, with_chain chain1 w) ∧ dc_address d = logic ∧ dc_gas d = create_gas.
Proof.
  pose proof Hart as [_ (lf & Hlf & Hdep) _ _].
  destruct (la_factory_ok _ _ _ _ _ _ Hart) as [fb Hfb].
  set (w1 := with_chain (raised c) w).
  pose proof (factory_send_ok owner factory (deployCreate dep) _ _ w1
    (oa_signer _ _ Howner) Hv1 create_call Hgas1) as Hsend.
  change (gas_of (chain_state w1) owner factory (deployCreate dep)) with create_gas in Hsend.
  change (with_chain _ w1) with (with_chain chain1 w) in Hsend.
  eexists. split; [|split].
  - unfold deployCreate_task. cbn [deployArgs_task ta_contractName ta_factoryAddress ta_constructorArgs
      ta_outputFolder contractName factoryAddress constructorArgs outputFolder required of_option].
    run_step. rewrite (variadic_ok _ Hargs). run_step. rewrite Hfb. run_step. rewrite Hlf. run_step.
    rewrite Hdep. run_step. run (raiseBlockGasLimit_ok w). fold w1. run Hsend.
    unfold getEventAddress at 1, getEventVar. cbn [events]. unfold logic_logs.
    rewrite (find_deployed_event DEPLOYED_RAW logic _ []) by apply foreign_events.
    cbn [fmap outcome_fmap to_js_string]. run_step.
    unfold updateDeployCreateList. rewrite (bind_ok _ _ _ _ _ (updateList_silenced _ _ _ _ (with_chain chain1 w) Hsil)).
    rewrite (bind_ok _ _ _ _ _ (showState_silenced _ (with_chain chain1 w) Hsil)). reflexivity.
  - done.
  - done.
Qed.

Lemma nonce_proxied self p c1 c2 b :
  nonce c1 b = nonce c2 b → nonce c1 self = nonce c2 self →
  nonce (proxied self p salt f c1) b = nonce (proxied self p salt f c2) b.
Proof.
  intros Hb Hs. unfold proxied, created.
  change (nonce (with_nonce p 1 (bump self c1)) b = nonce (with_nonce p 1 (bump self c2)) b).
  unfold bump. rewrite !nonce_with_nonce, Hs. by repeat case_decide.
Qed.

Definition chain2 : chain X :=
  let c2 := upgraded factory proxy logic x' (proxied factory proxy salt f (bump owner chain1)) in
  with_block (block_number c2 + 1) c2.

Lemma multiCallDeployProxy_ok :
  multiCallDeployProxy (mcArgs_task
    {| mc_contractName := name; mc_logicAddress := logic; mc_factoryAddress := Some factory;
       mc_initCallData := ta_initCallData a; mc_outputFolder := ta_outputFolder a |})
    (with_chain chain1 w)
  = (Ok {| px_proxyAddress := proxy; px_salt := salt; px_logicName := Some name;
           px_logicAddress := Some logic; px_factoryAddress := factory;
           px_gas := GasNumber upgrade_gas;
           px_receipt := Some {| events := Some (proxy_logs factory salt n');
                                 gasUsed := upgrade_gas; status := 1 |};
           px_initCallData := Some data |}, with_chain chain2 w).
Proof.
  pose proof Hart as [_ _ Hdata Hsalt]. destruct (la_factory_ok _ _ _ _ _ _ Hart) as [fb Hfb].
  assert (block_gas_limit chain1 = block_gas_limit (raised c)) as Hlim by done.
  set (w1 := with_chain chain1 w).
  pose proof (factory_send_ok owner factory upgrade_multicall _ _ w1
    (oa_signer _ _ Howner) Hv' upgrade_call Hgas2) as Hsend.
  change (gas_of (chain_state w1) owner factory upgrade_multicall) with upgrade_gas in Hsend.
  change (with_chain _ w1) with (with_chain chain2 w) in Hsend.
  unfold multiCallDeployProxy. cbn [mcArgs_task ta_contractName ta_factoryAddress ta_logicAddress
    ta_initCallData ta_outputFolder ta_salt mc_contractName mc_logicAddress mc_factoryAddress
    mc_initCallData mc_outputFolder required of_option].
  run_step. rewrite Hfb. run_step. run (Hdata w1). run (Hsalt w1).
  rewrite !encodeFactoryData_ok by done. run_step. run Hsend.
  unfold getEventAddress at 1, getEventVar. cbn [events]. rewrite proxy_events.
  cbn [fmap outcome_fmap to_js_string gasUsed]. run_step. rewrite (toNumber_ok _ Hnum). run_step.
  exact (updateList_silenced _ _ _ _ (with_chain chain2 w) Hsil).
Qed.

Lemma deployUpgradeableProxy_run :
  ∃ d, deployUpgradeableProxy a w = (Ok d, with_chain chain2 w) ∧
    px_proxyAddress d = proxy ∧ px_salt d = salt ∧ px_logicAddress d = Some logic ∧
    px_gas d = GasBig (create_gas + upgrade_gas) ∧ px_initCallData d = Some data.
Proof.
  destruct deployCreate_task_ok as (d & Hd & Haddr & Hg).
  pose proof multiCallDeployProxy_ok as Hm.
  eexists. split.
  - unfold deployUpgradeableProxy. rewrite Hname, Hfactory. cbn [required of_option default from_option id].
    run_step. rewrite (variadic_ok _ Hargs). run_step. run Hd. rewrite Haddr, Hg. run Hm.
    rewrite (bind_ok _ _ _ _ _ (showState_silenced _ (with_chain chain2 w) Hsil)). reflexivity.
  - done.
Qed.

(** Chains whose contracts are the same: they may differ in the block number and
    in the nonce of the signer. *)
Record same_contracts c1 c2 : Prop := {
  sc_accounts : accounts c1 = accounts c2;
  sc_factories : factories c1 = factories c2;
  sc_balances : balances c1 = balances c2;
  sc_ext : ext c1 = ext c2;
  sc_nonces b : b ≠ owner → nonce c1 b = nonce c2 b;
}.

(** C7: deploying in one multicall and deploying in two transactions (the
    fallback above the gas limit) leave the same contracts, with the same
    storage, and report the same proxy. *)
Theorem deployUpgradeableProxy_equiv :
  ∃ d1 c1 d2 c2,
    fullMultiCallDeployProxy a w = (Ok d1, with_chain c1 w) ∧
    deployUpgradeableProxy a w = (Ok d2, with_chain c2 w) ∧
    same_contracts c1 c2 ∧
    px_proxyAddress d1 = px_proxyAddress d2 ∧ px_salt d1 = px_salt d2 ∧
    px_initCallData d1 = px_initCallData d2.
Proof.
  destruct deployUpgradeableProxy_run as (d2 & Hrun & Hp & Hs & _ & _ & Hi).
  exists full_data, chain_full, d2, chain2. split; [|split; [exact Hrun|split; [|done]]].
  - rewrite fullMultiCallDeployProxy_run.
    rewrite (bind_ok _ _ _ _ _ (showState_silenced _ (with_chain chain_full w) Hsil)).
    exact (updateList_silenced _ _ _ _ (with_chain chain_full w) Hsil).
  - split; try done.
    + unfold chain_full, chain2, after_upgrade. by rewrite logic_bump.
    + intros b Hb. change (nonce (proxied factory proxy salt f (after_logic (bump owner (raised c)) factory rt x)) b
        = nonce (proxied factory proxy salt f (bump owner chain1)) b).
      apply nonce_proxied; (rewrite nonce_bump; [done|]); [done|apply owner_ne_factory].
Qed.
End deploy.
End spec.
