(* ===== verification/MetaSpec.v ===== *)
(** * Metamorphic deployments

    Theorems on the tasks that deploy contracts without a proxy: a template
    with the creation code, and a contract at the address of the salt that
    constructs itself from the template. *)
From S2P Require Import Prelude JsString JsValue Toml World Constants Config Artifacts.
From S2P Require Import DeploymentUtil DeploymentList DeployArgs FactoryState Chain ChainLaws.
From S2P Require Import FactorySpec Hardhat FactoryTasks TaskSpec.
#[local] Open Scope Z_scope.

Section chain.
Context {X : Type} `{Evm, !Contracts X, !EvmLaws}.
Implicit Types (c : chain X).

(** The state [c] lets the factory [self] deploy the creation code [dep] at the
    address of [salt] and initialise it with [data]. *)
Record meta_deployment c self f salt dep data rt n x n' x' : Prop := {
  md_wf : chain_wf c;
  md_factory : is_factory c self f;
  md_salt : free c (meta_address self salt);
  md_construct : construct (dep +:+ address_word self) (meta_address self salt) self (ext c)
                 = Some (rt, n, x);
  md_code : rt ≠ EMPTY;
  md_init : initializes (UserCode rt) (meta_address self salt) self empty_slot data x n' x';
}.

Section meta.
Context (c : chain X) (self : address) (f : factory_state) (salt dep data rt : hexdata)
  (n : nat) (x : X) (n' : nat) (x' : X).
Hypothesis Hd : meta_deployment c self f salt dep data rt n x n' x'.

Abbreviation template := (logic_address c self).
Abbreviation meta := (meta_address self salt).
Definition after_template : chain X :=
  with_factory self (with_implementation template f) (created self template (template_of self dep) c).
Definition static_of c0 : chain X :=
  with_factory self (with_contract salt (with_implementation template f))
    (with_ext x' (constructed self meta rt x c0)).
Definition template_logs : list Event := [deployed_event "DeployedTemplate" template].
Definition static_logs : list Event :=
  (replicate n foreign_log ++ replicate n' foreign_log) ++ [deployed_event "DeployedStatic" meta].

Lemma template_free : free c template.
Proof. apply wf_free; [by eapply md_wf|done]. Qed.
Lemma template_self : is_Some (accounts c !! self).
Proof. destruct (md_factory _ _ _ _ _ _ _ _ _ _ _ Hd) as [[s Hk] _]. by eexists. Qed.

Lemma template_step depth sender l d :
  authorized self sender f → decode d = Some (deployTemplate dep) →
  call (S depth) sender self 0 d (c, l) = (Ok tt, (after_template, l ++ template_logs)).
Proof.
  intros Ha Hdec. eapply call_deployTemplate; [by eapply md_factory|done|done|apply template_free].
Qed.

(** What the state after the template has. *)
Definition template_deployed c0 : Prop :=
  is_factory c0 self (with_implementation template f) ∧ free c0 meta ∧
  accounts c0 !! template = Some (Account (template_of self dep) empty_slot) ∧ ext c0 = ext c.

Lemma after_template_deployed : template_deployed after_template.
Proof.
  destruct Hd as [Hwf Hfac Hsalt Hc Hrt Hi]. pose proof template_free as Hl.
  assert (self ≠ template) by (eapply existing_ne; [apply template_self|done]).
  split; [|split; [|split]]; [| | |done].
  - split; [|apply lookup_insert_eq]. destruct Hfac as [[s Hk] _]. exists s.
    change (accounts (created self template (template_of self dep) c) !! self
      = Some (Account FactoryCode s)).
    by rewrite accounts_created.
  - apply (free_created self template (template_of self dep) c);
      [apply logic_ne_proxy|apply not_eq_sym; eapply existing_ne; [apply template_self|done]|done].
  - apply lookup_insert_eq.
Qed.

Lemma static_step depth sender c0 l d :
  template_deployed c0 → authorized self sender f → decode d = Some (deployStatic salt data) →
  call (S (S depth)) sender self 0 d (c0, l) = (Ok tt, (static_of c0, l ++ static_logs)).
Proof.
  intros (Hfac & Hfr & Ht & Hx) Ha Hdec. unfold static_logs. rewrite !app_assoc.
  eapply call_deployStatic; [exact Hfac|exact Ha|done|done|exact Ht| | |].
  - rewrite Hx. by eapply md_construct.
  - by eapply md_code.
  - by eapply md_init.
Qed.

(** The state a deployment ends in. *)
Record meta_deployed c' : Prop := {
  mp_template : accounts c' !! template = Some (Account (template_of self dep) empty_slot);
  mp_contract : accounts c' !! meta = Some (Account (UserCode rt) empty_slot);
  mp_others : ∀ b, b ≠ template → b ≠ meta → accounts c' !! b = accounts c !! b;
  mp_factory : factories c' !! self = Some (with_contract salt (with_implementation template f));
  mp_ext : ext c' = x';
}.

Lemma static_deployed c0 :
  accounts c0 = accounts after_template → meta_deployed (static_of c0).
Proof.
  intros Hacc.
  assert (accounts (static_of c0) = <[meta := Account (UserCode rt) empty_slot]> (accounts after_template))
    as Ha by (cbn; by rewrite Hacc).
  split; try rewrite Ha.
  - rewrite lookup_insert_ne by apply logic_ne_proxy. apply lookup_insert_eq.
  - apply lookup_insert_eq.
  - intros b Hl Hp. rewrite lookup_insert_ne by done. cbn. by rewrite lookup_insert_ne.
  - apply lookup_insert_eq.
  - done.
Qed.
End meta.

Lemma meta_deployment_same c c' self f salt dep data rt n x n' x' :
  same_state c c' → meta_deployment c self f salt dep data rt n x n' x' →
  meta_deployment c' self f salt dep data rt n x n' x'.
Proof.
  intros Hs [Hwf Hfac Hfree Hc Hrt Hi]. pose proof (same_wf _ _ Hs Hwf).
  destruct Hs as (Ha & Hf & Hn & Hx).
  split; [done|..]; unfold is_factory, free, nonce in *; rewrite ?Ha, ?Hf, ?Hn, ?Hx; done.
Qed.
Lemma meta_deployment_bump `{Hardhat} c owner self f salt dep data rt n x n' x' :
  owner_account c owner → meta_deployment c self f salt dep data rt n x n' x' →
  meta_deployment (bump owner c) self f salt dep data rt n x n' x'.
Proof.
  intros [_ Heoa Hno] [Hwf Hfac Hfree Hc Hrt Hi]. split; [|exact Hfac| |done|done|done].
  - eapply ev_wf, evolves_bump; [done|by right].
  - destruct Hfree as [Ha Hn]. split; [exact Ha|]. rewrite nonce_bump; [done|]. by apply Heoa.
Qed.
Lemma meta_deployed_same c c0 self f salt dep rt (x' : X) c' :
  accounts c0 = accounts c → nonce c0 self = nonce c self →
  meta_deployed c0 self f salt dep rt x' c' → meta_deployed c self f salt dep rt x' c'.
Proof.
  intros Ha Hn [D1 D2 D3 D4 D5]. unfold logic_address in *. rewrite Hn in *. rewrite Ha in D3.
  by split.
Qed.
Lemma meta_deployed_block c self f salt dep rt (x' : X) c' k :
  meta_deployed c self f salt dep rt x' c' → meta_deployed c self f salt dep rt x' (with_block k c').
Proof. intros [D1 D2 D3 D4 D5]. by split. Qed.
End chain.

Section task.
Context {X : Type} `{Toml} `{Artifacts} `{Evm, !Contracts X, !EvmLaws, Hardhat}.
Context (name factory owner : string) (a : TaskArgs) (w : world (chain X)).
Context (f : factory_state) (salt dep data rt : hexdata) (n : nat) (x : X) (n' : nat) (x' : X).
Hypothesis Hname : ta_contractName a = Some name.
Hypothesis Hfactory : ta_factoryAddress a = Some factory.
Hypothesis Hargs : forallb is_string (default [] (ta_constructorArgs a)) = true.
Hypothesis Hart : logic_artifacts (X := X) name (default [] (ta_constructorArgs a)) (ta_initCallData a) dep salt data.
Hypothesis Howner : owner_account (chain_state w) owner.
Hypothesis Hauth : owner = _owner f.
Hypothesis Hmd : meta_deployment (chain_state w) factory f salt dep data rt n x n' x'.

Abbreviation c := (chain_state w).
Abbreviation template := (logic_address c factory).
Abbreviation meta := (meta_address factory salt).
Definition meta_multicall : fcall :=
  multiCall [encode (deployTemplate dep); encode (deployStatic salt data)].
Hypothesis Hv1 : valid_call (deployTemplate dep) = true.
Hypothesis Hv2 : valid_call (deployStatic salt data) = true.

Lemma meta_owner_ne : factory ≠ owner.
Proof.
  eapply contract_ne_owner; [by eapply oa_no_code|by eapply template_self].
Qed.
Lemma raised_bump_md : meta_deployment (bump owner (raised c)) factory f salt dep data rt n x n' x'.
Proof.
  apply meta_deployment_bump.
  - destruct Howner as [Ho1 Ho2 Ho3]. split; [done..|]. by destruct (raised_same c) as (-> & _).
  - by apply (meta_deployment_same _ _ _ _ _ _ _ _ _ _ _ _ (raised_same c)).
Qed.
Lemma template_bump : logic_address (bump owner (raised c)) factory = template.
Proof. unfold logic_address. rewrite nonce_bump by apply meta_owner_ne. by rewrite nonce_raised. Qed.

Section multicall.
Hypothesis Hv : valid_call meta_multicall = true.
Definition meta_gas : Z := gas_of (raised c) owner factory meta_multicall.
Hypothesis Hgas : meta_gas ≤ block_gas_limit (raised c).
Hypothesis Hlimit : meta_gas < MULTICALL_LIMIT.

Definition meta_chain : chain X :=
  let c1 := static_of (bump owner (raised c)) factory f salt rt x x'
              (after_template (bump owner (raised c)) factory f dep) in
  with_block (block_number c1 + 1) c1.

Lemma meta_call :
  call CALL_DEPTH owner factory 0 (encode meta_multicall) (bump owner (raised c), [])
  = (Ok tt, (static_of (bump owner (raised c)) factory f salt rt x x'
               (after_template (bump owner (raised c)) factory f dep),
             template_logs c factory ++ static_logs factory salt n n')).
Proof.
  change CALL_DEPTH with (S (S (S 1021))). pose proof raised_bump_md as Hb.
  rewrite (call_multiCall _ _ _ f _ _ _ _ (md_factory _ _ _ _ _ _ _ _ _ _ _ Hb)
    (or_intror Hauth) (decode_encode _ Hv)). cbn [for_each].
  run (template_step _ _ _ _ _ _ _ _ _ _ _ Hb (S 1021) factory [] _ (or_introl eq_refl) (decode_encode _ Hv1)).
  run (static_step _ _ _ _ _ _ _ _ _ _ _ Hb 1021 factory _ ([] ++ template_logs (bump owner (raised c)) factory) _
    (after_template_deployed _ _ _ _ _ _ _ _ _ _ _ Hb) (or_introl eq_refl) (decode_encode _ Hv2)).
  unfold template_logs. by rewrite template_bump.
Qed.

Lemma static_events l :
  Forall (λ e, event e ≠ Some DEPLOYED_STATIC) l →
  find_event_var DEPLOYED_STATIC CONTRACT_ADDR (l ++ static_logs factory salt n n') = Ok (VStr meta).
Proof.
  intros Hl. unfold static_logs. rewrite app_assoc. apply find_deployed_event.
  apply Forall_app. split; [done|]. apply Forall_app. split; apply foreign_events.
Qed.

(** C8: below the gas limit, [multiCallDeployMetamorphic] is one transaction; it
    leaves the template at the predicted address and, at the address of the salt,
    the contract constructed from it with the factory's address appended to its
    arguments, initialised; both addresses are the reported ones. *)
Theorem multiCallDeployMetamorphic_ok :
  ∃ c' message metaData,
    multiCallDeployMetamorphic a w
    = (_ ← showState message; updateMetaList network_name metaData (ta_outputFolder a))
        (with_chain c' w) ∧
    mt_metaAddress metaData = getMetamorphicAddress factory salt ∧
    mt_templateAddress metaData = template ∧
    mt_salt metaData = salt ∧ mt_gas metaData = meta_gas ∧
    meta_deployed c factory f salt dep rt x' c'.
Proof.
  pose proof Hart as [_ (lf & Hlf & Hdep) Hdata Hsalt].
  destruct (la_factory_ok _ _ _ _ _ _ Hart) as [fb Hfb].
  set (w1 := with_chain (raised c) w).
  pose proof (factory_estimateGas_ok owner factory meta_multicall _ _ w1
    (oa_signer _ _ Howner) Hv meta_call Hgas) as Hest.
  pose proof (factory_send_ok owner factory meta_multicall _ _ w1
    (oa_signer _ _ Howner) Hv meta_call Hgas) as Hsend.
  change (gas_of (chain_state w1) owner factory meta_multicall) with meta_gas in Hest, Hsend.
  change (with_chain _ w1) with (with_chain meta_chain w) in Hsend.
  eexists meta_chain, _, _. split; [|split; [|split; [|split; [|split]]]].
  - unfold multiCallDeployMetamorphic. rewrite Hname, Hfactory.
    cbn [required of_option default from_option id]. run_step.
    rewrite (variadic_ok _ Hargs). run_step. run (raiseBlockGasLimit_ok w). fold w1.
    rewrite Hfb. run_step. rewrite Hlf. run_step. rewrite Hdep. run_step.
    run (Hdata w1). run (Hsalt w1). unfold getTransactionCount. run_step.
    cbn [bytes_arg of_option]. run_step.
    change (chain_state w1) with (raised c). rewrite nonce_raised. fold (logic_address c factory).
    rewrite !encodeFactoryData_ok by done. run_step. run Hest.
    rewrite (proj2 (Z.ltb_lt _ _) Hlimit). run Hsend. unfold getEventAddress at 1, getEventVar.
    cbn [events]. rewrite static_events by by constructor.
    cbn [fmap outcome_fmap to_js_string]. run_step. reflexivity.
  - reflexivity.
  - reflexivity.
  - reflexivity.
  - reflexivity.
  - apply meta_deployed_block, (meta_deployed_same c (bump owner (raised c)));
      [| |by apply (static_deployed _ _ _ _ _ _ x)].
    + by destruct (raised_same c) as (Ha & _).
    + rewrite nonce_bump by apply meta_owner_ne. apply nonce_raised.
Qed.
End multicall.
End task.
