(* ===== verification/TaskErrors.v ===== *)
(** * What the tasks refuse

    Transactions that revert, and the state they leave. *)
From S2P Require Import Prelude JsString JsValue Toml World Constants Config Artifacts.
From S2P Require Import DeploymentUtil DeploymentList DeployArgs FactoryState Chain ChainLaws.
From S2P Require Import FactorySpec Hardhat FactoryTasks TaskSpec.
#[local] Open Scope Z_scope.

Section errors.
Context {X : Type} `{Toml} `{Artifacts} `{Evm, !Contracts X, !EvmLaws, Hardhat}.
Implicit Types (c : chain X) (w : world (chain X)) (factory owner : address).

(** C16: who may use a factory.  A function is refused to every signer but the
    owner (and, for setImplementation, initializeContract and delegateCallAny,
    the delegator), before anything happens; whoever may call a setter sets that
    field and nothing else. *)
Theorem factory_access factory sender f fc w :
  let c := chain_state w in
  signer = Ok sender → valid_call fc = true → is_factory c factory f →
  gas_of c sender factory fc ≤ block_gas_limit c →
  (¬ may_call factory sender f fc →
   factory_send factory fc w = (Throw (refusal (Rejected UNAUTHORIZED)), with_chain (refused sender c) w)) ∧
  (may_call factory sender f fc → ∀ f', setting fc f = Some f' →
   ∃ r, factory_send factory fc w
        = (Ok r, with_chain (with_block (block_number c + 1) (with_factory factory f' (bump sender c))) w)).
Proof.
  intros c Hs Hv Hfac Hg. assert (is_factory (bump sender c) factory f) as Hfac' by exact Hfac. split.
  - intros Hno. eapply factory_send_reverts; [done..|].
    by apply (call_refused 1023 factory sender f _ fc); [| |apply decode_encode].
  - intros Hmay f' Hset. eexists. apply (factory_send_ok sender factory fc
      (with_factory factory f' (bump sender c)) [] w Hs Hv); [|done].
    by apply (call_setting 1023 factory sender f f' _ fc); [| |apply decode_encode|].
Qed.

(** *** A salt is deployed once *)
Lemma call_deployProxy_taken depth self sender s d salt c l :
  accounts c !! self = Some (Account FactoryCode s) → decode d = Some (deployProxy salt) →
  is_Some (accounts c !! meta_address self salt) →
  ∃ e s', call (S depth) sender self 0 d (c, l) = (Throw e, s').
Proof.
  intros Hk Hd Ht. rewrite (call_factory _ _ _ _ _ _ _ _ Hk Hd). cbn [run_factory].
  destruct (onlyOwner self sender (c, l)) as [[[]|e] [c1 l1]] eqn:Ho.
  - assert (c1 = c ∧ l1 = l) as [-> ->].
    { unfold onlyOwner, storage, the_chain in Ho. revert Ho. run_step. cbn [fst].
      destruct (factories c !! self); [|done]. cbn. run_step.
      destruct (bool_decide _); by intros [= <- <-]. }
    rewrite (bind_ok _ _ _ _ _ Ho). destruct (deployProxy_taken self salt c l Ht) as (e & s' & He).
    rewrite (bind_fail _ _ _ _ _ He). by eexists _, _.
  - rewrite (bind_fail _ _ _ _ _ Ho). by eexists _, _.
Qed.

Lemma evolves_taken c c' a : evolves c c' → is_Some (accounts c !! a) → is_Some (accounts c' !! a).
Proof. intros He [k Hk]. destruct (ev_code _ _ He a k Hk) as (k' & Hk' & _). by exists k'. Qed.
Lemma evolves_factory c c' a s :
  evolves c c' → accounts c !! a = Some (Account FactoryCode s) →
  ∃ s', accounts c' !! a = Some (Account FactoryCode s').
Proof.
  intros He Hk. destruct (ev_code _ _ He a _ Hk) as ([k' s'] & Hk' & Hc). cbn in Hc. subst. by exists s'.
Qed.

(** Any sequence of calls of the factory that deploys a taken salt fails. *)
Lemma for_each_taken depth self salt pre d rest c l s :
  chain_wf c → accounts c !! self = Some (Account FactoryCode s) →
  is_Some (accounts c !! meta_address self salt) → decode d = Some (deployProxy salt) →
  ∃ e s', for_each (pre ++ d :: rest) (λ d, call (S depth) self self 0 d) (c, l) = (Throw e, s').
Proof.
  intros Hwf Hk Ht Hd. rewrite for_each_app.
  destruct (for_each pre (λ d, call (S depth) self self 0 d) (c, l)) as [[[]|e] [c1 l1]] eqn:Hpre.
  - rewrite (bind_ok _ _ _ _ _ Hpre). cbn [for_each].
    assert (evolves c c1) as He.
    { exact (keeps_for_each true_of pre _ stable_true
        (λ y, keeps_call (S depth) true_of self self 0 y stable_true) (c, l) tt (c1, l1) Hwf I Hpre). }
    destruct (evolves_factory _ _ _ _ He Hk) as [s1 Hk1].
    destruct (call_deployProxy_taken depth self self s1 d salt c1 l1 Hk1 Hd (evolves_taken _ _ _ He Ht))
      as (e & s' & Hf).
    rewrite (bind_fail _ _ _ _ _ Hf). by eexists _, _.
  - rewrite (bind_fail _ _ _ _ _ Hpre). by eexists _, _.
Qed.

Lemma multicall_taken owner factory s salt pre d rest c :
  chain_wf c → eoa owner → accounts c !! factory = Some (Account FactoryCode s) →
  is_Some (accounts c !! meta_address factory salt) →
  decode d = Some (deployProxy salt) → valid_call (multiCall (pre ++ d :: rest)) = true →
  ∃ e s', call CALL_DEPTH owner factory 0 (encode (multiCall (pre ++ d :: rest))) (bump owner c, [])
    = (Throw e, s').
Proof.
  intros Hwf Heoa Hk Ht Hd Hv. change CALL_DEPTH with (S (S 1022)).
  rewrite (call_factory (S 1022) owner factory _ _ (bump owner c) [] s Hk (decode_encode _ Hv)).
  cbn [run_factory].
  assert (evolves c (bump owner c)) as He by (apply evolves_bump; [done|by right]).
  destruct (onlyOwner factory owner (bump owner c, [])) as [[[]|e] [c1 l1]] eqn:Ho.
  - pose proof (keeps_onlyOwner true_of factory owner stable_true (bump owner c, []) _ _ (ev_wf _ _ He) I Ho)
      as He1. rewrite (bind_ok _ _ _ _ _ Ho).
    pose proof (evolves_trans _ _ _ He He1) as He2. cbn [fst] in He2.
    destruct (evolves_factory _ _ _ _ He2 Hk) as [s1 Hk1].
    apply (for_each_taken 1022 factory salt pre d rest c1 l1 s1); [by apply He2|done| |done].
    by eapply evolves_taken.
  - rewrite (bind_fail _ _ _ _ _ Ho). by eexists _, _.
Qed.

(** C14: a second deployment at a salt is refused, whatever the contract: nothing
    is deployed and no file is written. *)
Theorem fullMultiCallDeployProxy_twice name factory owner a w s salt dep data :
  ta_contractName a = Some name → ta_factoryAddress a = Some factory →
  forallb is_string (default [] (ta_constructorArgs a)) = true →
  logic_artifacts (X := X) name (default [] (ta_constructorArgs a)) (ta_initCallData a) dep salt data →
  signer = Ok owner → eoa owner → chain_wf (chain_state w) →
  accounts (chain_state w) !! factory = Some (Account FactoryCode s) →
  is_Some (accounts (chain_state w) !! getMetamorphicAddress factory salt) →
  let logic := logic_address (chain_state w) factory in
  let multicall := multiCall [encode (deployCreate dep); encode (deployProxy salt);
                              encode (upgradeProxy salt logic data)] in
  valid_call (deployCreate dep) = true → valid_call (deployProxy salt) = true →
  valid_call (upgradeProxy salt logic data) = true → valid_call multicall = true →
  ∃ e, fullMultiCallDeployProxy a w = (Throw e, with_chain (raised (chain_state w)) w).
Proof.
  intros Hname Hfactory Hargs Hart Hs Heoa Hwf Hk Ht logic multicall Hv1 Hv2 Hv3 Hv.
  pose proof Hart as [_ (lf & Hlf & Hdep) Hdata Hsalt].
  destruct (la_factory_ok _ _ _ _ _ _ Hart) as [fb Hfb].
  set (w1 := with_chain (raised (chain_state w)) w).
  destruct (raised_same (chain_state w)) as (Ha & _).
  destruct (multicall_taken owner factory s salt [encode (deployCreate dep)] (encode (deployProxy salt))
    [encode (upgradeProxy salt logic data)] (raised (chain_state w))) as (e & s' & Hcall);
    [by apply (same_wf _ _ (raised_same _))|done|by rewrite Ha|by rewrite Ha|by apply decode_encode|done|].
  cbn [app] in Hcall. fold multicall in Hcall.
  exists e. unfold fullMultiCallDeployProxy. rewrite Hname, Hfactory. cbn [required of_option]. run_step.
  unfold variadic. rewrite Hargs. run_step. rewrite Hfb. run_step. run (Hdata w). run (Hsalt w).
  rewrite Hlf. run_step. rewrite Hdep. run_step. run (raiseBlockGasLimit_ok w). fold w1.
  unfold getTransactionCount. run_step. change (chain_state w1) with (raised (chain_state w)).
  rewrite nonce_raised. fold (logic_address (chain_state w) factory). fold logic. cbn [bytes_arg of_option]. run_step.
  rewrite !encodeFactoryData_ok by done. run_step.
  assert (factory_estimateGas factory multicall w1 = (Throw e, w1)) as Hest.
  { unfold factory_estimateGas. rewrite (factory_tx_ok owner) by done. run_step.
    unfold estimateGas, run_tx, call_tx. rewrite bind_change. cbn [tx_from tx_value tx_data].
    change (chain_state w1) with (raised (chain_state w)). by rewrite Hcall. }
  by rewrite (bind_fail _ _ _ _ _ Hest).
Qed.
End errors.
