(* ===== verification/UpgradeSpec.v ===== *)
(** * Upgrading a proxy

    Theorems on the tasks that point an existing proxy to another logic
    contract, and on the lock an implementation can put on its proxy. *)
From S2P Require Import Prelude JsString JsValue Toml World Constants Config Artifacts.
From S2P Require Import DeploymentUtil DeploymentList DeployArgs FactoryState Chain ChainLaws.
From S2P Require Import FactorySpec Hardhat FactoryTasks TaskSpec.
#[local] Open Scope Z_scope.

Section upgrade.
Context {X : Type} `{Toml} `{Artifacts} `{Evm, !Contracts X, !EvmLaws, Hardhat}.
Context (name factory owner : string) (a : TaskArgs) (w : world (chain X)).
Context (f : factory_state) (salt : hexdata) (s : slot).
Hypothesis Hname : ta_contractName a = Some name.
Hypothesis Hfactory : ta_factoryAddress a = Some factory.
Hypothesis Hfb : is_ok (getContractFactory ALICENET_FACTORY) = true.
Hypothesis Howner : owner_account (chain_state w) owner.
Hypothesis Hauth : owner = _owner f.

Abbreviation c := (chain_state w).
Abbreviation proxy := (meta_address factory salt).
Hypothesis Hfac : is_factory c factory f.
Hypothesis Hproxy : accounts c !! proxy = Some (Account (ProxyCode factory) s).

Lemma factory_artifact : ∃ fb, getContractFactory ALICENET_FACTORY = Ok fb.
Proof. destruct (getContractFactory ALICENET_FACTORY); [by eexists|done]. Qed.

Section deployed.
Context (logic data : hexdata).
Hypothesis Hlogic : ta_logicAddress a = Some logic.
Hypothesis Hdata : ∀ v : world (chain X), encodeInitCallData name (ta_initCallData a) v = (Ok data, v).
Hypothesis Hsalt : ∀ v : world (chain X), getBytes32Salt name v = (Ok salt, v).
Hypothesis Hv : valid_call (upgradeProxy salt logic data) = true.

(** C15: a proxy whose implementation locked it stays where it is: the upgrade is
    refused and no account and no file changes.  Where gas is estimated nothing
    at all changes; on a network with a fixed gas the failed transaction is
    mined, so that a block and the owner's nonce pass. *)
Theorem upgradeDeployedProxy_locked :
  slot_high s = LOCK →
  upgradeDeployedProxy a w = (Throw (refusal (Rejected "imploc")), with_chain (refused owner c) w) ∧
  accounts (refused owner c) = accounts c ∧
  (fixed_gas = false → upgradeDeployedProxy a w = (Throw (Rejected "imploc"), w)).
Proof.
  intros Hl.
  assert (upgradeDeployedProxy a w
    = (Throw (refusal (Rejected "imploc")), with_chain (refused owner c) w)) as Hrun;
    [|split_and!; [done|apply refused_accounts|]; intros Hg; rewrite Hrun;
      by destruct (estimated owner (Rejected "imploc") w Hg) as [-> ->]].
  destruct factory_artifact as [fb Hfb'].
  unfold upgradeDeployedProxy. rewrite Hname, Hlogic, Hfactory. cbn [required of_option]. run_step.
  rewrite Hfb'. run_step. run (Hsalt w). run (Hdata w).
  assert (∃ s', call CALL_DEPTH owner factory 0 (encode (upgradeProxy salt logic data)) (bump owner c, [])
    = (Throw (Rejected "imploc"), s')) as [s' Hcall].
  { destruct Hfac as [[sf Hk] Hst]. change CALL_DEPTH with (S (S 1022)).
    rewrite (call_factory (S 1022) owner factory _ _ (bump owner c) [] sf Hk (decode_encode _ Hv)).
    cbn [run_factory]. run (onlyOwner_ok factory owner f (bump owner c) [] Hst (or_intror Hauth)).
    unfold _upgradeProxy. rewrite meta_address_lookup.
    rewrite (bind_fail _ _ _ _ _ (call_upgrade_locked 1022 factory proxy logic (bump owner c) [] s Hproxy Hl)).
    by eexists. }
  rewrite (bind_fail _ _ _ _ _
    (factory_send_reverts owner factory _ _ _ w (oa_signer _ _ Howner) Hv Hcall)).
  done.
Qed.

(** C9: an unlocked proxy is pointed to the given logic contract and
    initialised through it; no other account changes. *)
Theorem upgradeDeployedProxy_ok ki n x :
  slot_high s ≠ LOCK → accounts c !! logic = Some ki → logic ≠ proxy →
  initializes (account_code ki) proxy factory (Slot 0 logic) data (ext c) n x →
  let gas := gas_of c owner factory (upgradeProxy salt logic data) in
  gas ≤ block_gas_limit c → 0 ≤ gas < 2 ^ 53 →
  ∃ c' message proxyData,
    upgradeDeployedProxy a w
    = (_ ← showState message; updateProxyList network_name proxyData (ta_outputFolder a))
        (with_chain c' w) ∧
    px_proxyAddress proxyData = proxy ∧ px_logicAddress proxyData = Some logic ∧
    px_gas proxyData = GasNumber gas ∧
    accounts c' = <[proxy := Account (ProxyCode factory) (Slot 0 logic)]> (accounts c) ∧
    factories c' = factories c ∧ ext c' = x.
Proof.
  intros Hl Hki Hne Hi gas Hg Hnum. destruct factory_artifact as [fb Hfb'].
  assert (call CALL_DEPTH owner factory 0 (encode (upgradeProxy salt logic data)) (bump owner c, [])
    = (Ok tt, (upgraded factory proxy logic x (bump owner c), [] ++ replicate n foreign_log))) as Hcall.
  { change CALL_DEPTH with (S (S 1022)).
    apply (call_upgradeProxy 1022 factory owner f _ salt logic data (bump owner c) [] n x ki s);
      [exact Hfac|by right|by apply decode_encode|done..]. }
  pose proof (factory_send_ok owner factory _ _ _ w (oa_signer _ _ Howner) Hv Hcall Hg) as Hsend.
  fold gas in Hsend.
  eexists _, _, _. split; [|split; [|split; [|split; [|split; [|split]]]]].
  - unfold upgradeDeployedProxy. rewrite Hname, Hlogic, Hfactory. cbn [required of_option]. run_step.
    rewrite Hfb'. run_step. run (Hsalt w). run (Hdata w). run Hsend. cbn [gasUsed].
    rewrite (toNumber_ok _ Hnum). run_step. reflexivity.
  - reflexivity.
  - reflexivity.
  - reflexivity.
  - reflexivity.
  - reflexivity.
  - reflexivity.
Qed.
End deployed.

Section multicall.
Context (conArgs : list value) (lf : ContractFactory) (dep data rt : hexdata).
Context (n : nat) (x : X) (n' : nat) (x' : X).
Hypothesis Hcon : ta_constructorArgs a = Some conArgs.
Hypothesis Hstr : forallb is_string conArgs = true.
Hypothesis Hnosalt : ta_salt a = None.
Hypothesis Hsalt : ∀ v : world (chain X), getBytes32Salt name v = (Ok salt, v).
Hypothesis Hlf : getContractFactory name = Ok lf.
Hypothesis Hdep : getDeployTransaction lf conArgs = Ok (Some dep).
Hypothesis Hdata : encodeFunctionData lf "integrate" [] = Ok data.
Hypothesis Hpf : is_ok (getContractFactory PROXY) = true.
Hypothesis Hwf : chain_wf c.
Hypothesis Hlock : slot_high s ≠ LOCK.
Abbreviation logic := (logic_address c factory).
Hypothesis Hc : construct dep logic factory (ext c) = Some (rt, n, x).
Hypothesis Hrt : rt ≠ EMPTY.
Hypothesis Hi : initializes (UserCode rt) proxy factory (Slot 0 logic) data x n' x'.

Definition upgrade_call : fcall :=
  multiCall [encode (deployCreate dep); encode (upgradeProxy salt logic data)].
Hypothesis Hv1 : valid_call (deployCreate dep) = true.
Hypothesis Hv2 : valid_call (upgradeProxy salt logic data) = true.
Hypothesis Hv : valid_call upgrade_call = true.

Lemma upgrade_owner_ne : factory ≠ owner.
Proof.
  eapply contract_ne_owner; [by eapply oa_no_code|]. destruct Hfac as [[sf Hk] _]. by eexists.
Qed.
Lemma upgrade_logic_bump : logic_address (bump owner c) factory = logic.
Proof. unfold logic_address. by rewrite nonce_bump by apply upgrade_owner_ne. Qed.

Lemma upgrade_run :
  call CALL_DEPTH owner factory 0 (encode upgrade_call) (bump owner c, [])
  = (Ok tt, (upgraded factory proxy logic x' (constructed factory logic rt x (bump owner c)),
             logic_logs c factory n ++ replicate n' foreign_log)).
Proof.
  change CALL_DEPTH with (S (S (S 1021))).
  rewrite (call_multiCall _ _ _ f _ _ (bump owner c) [] Hfac (or_intror Hauth) (decode_encode _ Hv)).
  cbn [for_each].
  assert (free (bump owner c) logic) as Hfr.
  { split; [by apply (wf_free c factory)|]. rewrite nonce_bump; [by apply (wf_free c factory)|].
    apply (oa_eoa _ _ Howner). }
  pose proof (call_deployCreate (S 1021) factory factory f _ dep (bump owner c) [] rt n x Hfac
    (or_introl eq_refl) (decode_encode _ Hv1)) as Hcr. cbv zeta in Hcr.
  rewrite nonce_bump in Hcr by apply upgrade_owner_ne. specialize (Hcr Hfr Hc Hrt).
  run Hcr. fold (logic_address c factory).
  assert (∀ b, is_Some (accounts c !! b) → b ≠ logic) as Hne.
  { intros b Hb. eapply existing_ne; [exact Hb|]. by apply wf_free. }
  assert (∀ b k, accounts c !! b = Some k →
    accounts (constructed factory logic rt x (bump owner c)) !! b = Some k) as Hkeep.
  { intros b k Hb. change (accounts (created factory logic (UserCode rt) (bump owner c)) !! b = Some k).
    rewrite accounts_created; [exact Hb|]. apply Hne. by eexists. }
  assert (is_factory (constructed factory logic rt x (bump owner c)) factory f) as Hfac1.
  { destruct Hfac as [[sf Hk] Hst]. split; [|exact Hst]. exists sf. by apply Hkeep. }
  run (call_upgradeProxy 1021 factory factory f _ salt logic data _
    (([] ++ replicate n foreign_log) ++ [deployed_event "DeployedRaw" logic]) n' x' _ s
    Hfac1 (or_introl eq_refl) (decode_encode _ Hv2) (Hkeep _ _ Hproxy) Hlock
    (lookup_insert_eq _ _ _) (not_eq_sym (Hne _ (ex_intro _ _ Hproxy))) Hi).
  done.
Qed.

(** C13: [multiCallUpgradeProxy] deploys the new logic contract and points the
    proxy to it in one transaction; the address it computed beforehand is the one
    the contract got, but the entry it returns records no logic address. *)
Theorem multiCallUpgradeProxy_ok :
  let gas := gas_of c owner factory upgrade_call in
  gas ≤ block_gas_limit c → 0 ≤ gas < 2 ^ 53 →
  ∃ c' message proxyData,
    multiCallUpgradeProxy a w = (_ ← showState message; mret proxyData) (with_chain c' w) ∧
    px_proxyAddress proxyData = proxy ∧ px_logicAddress proxyData = ta_logicAddress a ∧
    accounts c' !! logic = Some (Account (UserCode rt) empty_slot) ∧
    accounts c' !! proxy = Some (Account (ProxyCode factory) (Slot 0 logic)) ∧
    factories c' = factories c ∧ ext c' = x'.
Proof.
  intros gas Hg Hnum. destruct factory_artifact as [fb Hfb'].
  destruct (getContractFactory PROXY) as [pf|] eqn:Hpf'; [|done].
  pose proof (factory_send_ok owner factory _ _ _ w (oa_signer _ _ Howner) Hv upgrade_run Hg) as Hsend.
  fold gas in Hsend.
  eexists _, _, _. split; [|split; [|split; [|split; [|split; [|split]]]]].
  - unfold multiCallUpgradeProxy. rewrite Hname, Hfactory, Hcon, Hnosalt. cbn [required of_option].
    run_step. unfold variadic. cbn [default from_option id]. rewrite Hstr. run_step.
    rewrite Hfb'. run_step. rewrite Hlf. run_step. rewrite Hdata. run_step. cbn [of_option]. run_step.
    rewrite Hdep. run_step. cbn [bytes_arg of_option]. run_step.
    rewrite (encodeFactoryData_ok _ Hv1). run_step. run (Hsalt w).
    unfold getTransactionCount. run_step. fold (logic_address c factory).
    rewrite (encodeFactoryData_ok _ Hv2). run_step. rewrite Hpf'. run_step.
    unfold proxyImplementation, getMetamorphicAddress. run_step. fold (meta_address factory salt).
    unfold getImplementationAddress at 1. rewrite Hproxy. cbn [mbind option_bind account_code account_slot].
    cbn [of_option]. run_step. run Hsend. cbn [gasUsed]. run_step.
    rewrite (toNumber_ok _ Hnum). run_step. reflexivity.
  - reflexivity.
  - reflexivity.
  - cbn. rewrite lookup_insert_ne by apply logic_ne_proxy. apply lookup_insert_eq.
  - apply lookup_insert_eq.
  - reflexivity.
  - reflexivity.
Qed.
End multicall.
End upgrade.
