(* ===== verification/DeploySpec.v ===== *)
(** * The initial deployment

    Theorems on the tasks that prepare the configuration files, deploy the
    factory, and run the deployment list. *)
From S2P Require Import Prelude JsString JsValue Toml World Constants Config Artifacts.
From S2P Require Import DeploymentUtil DeploymentList DeployArgs FactoryState Chain ChainLaws.
From S2P Require Import FactorySpec Hardhat FactoryTasks TaskSpec.
#[local] Open Scope Z_scope.

(** ** Arguments of the initialiser *)

(** The initialiser arguments the configuration holds, joined by
    [getEncodedInitCallData], are what the tasks split again, when none is empty
    of arguments and none has a comma or white space. *)
Lemma initCallData_roundtrip (l : list string) :
  l ≠ [] → Forall (free_of ",") l → Forall no_space l →
  splitInitCallData (getEncodedInitCallData (Some (map VStr l))) = map VStr l.
Proof.
  intros Hne Hf Hs. cbn. rewrite map_map. cbn [to_js_string].
  replace (map (λ x, x) l) with l by (symmetry; apply map_id).
  rewrite remove_spaces_id; [by rewrite split_join|]. apply join_no_space; [|done].
  by repeat constructor.
Qed.

Section deploy.
Context {X : Type} `{Toml} `{!TomlLaws} `{Artifacts} `{Evm, !Contracts X, !EvmLaws, Hardhat}.
Implicit Types (c : chain X) (w : world (chain X)).

(** [checkUserDirPath] succeeds exactly when the path is a folder
    afterwards: an existing folder is left as it is, a missing one is created
    when its parent exists, and a file is refused. *)
Lemma checkUserDirPath_spec p w r w' :
  (path_of p).2 ≠ [] →
  checkUserDirPath (Some p) w = (r, w') →
  chain_state w' = chain_state w ∧
  (r = Ok tt ↔ node_at (files w') (path_of p) = Some Dir) ∧
  (∀ q, q ≠ path_of p → node_at (files w') q = node_at (files w) q) ∧
  (node_at (files w) (path_of p) ≠ None → w' = w) ∧
  (node_at (files w) (path_of p) = None → (r = Ok tt ↔ can_create (files w) (path_of p) = true)).
Proof.
  intros Hne. unfold checkUserDirPath, existsSync. run_step.
  destruct (node_at (files w) (path_of p)) as [nd|] eqn:Hn.
  - rewrite bool_decide_eq_true_2 by eauto. run_step. unfold statIsFile, mbind, M_bind. rewrite Hn.
    destruct nd; intros [= <- <-]; rewrite Hn; repeat split; done.
  - rewrite bool_decide_eq_false_2 by by intros [? [=]].
    unfold console_log. run_step. unfold mkdirSync, mbind at 1, M_bind at 1.
    cbn [files with_console]. rewrite Hn. destruct (can_create (files w) (path_of p)) eqn:Hc.
    + unfold statIsFile, mbind, M_bind. cbn [files with_files with_console].
      rewrite node_at_insert, decide_True by done. intros [= <- <-].
      cbn [files chain_state with_files with_console].
      rewrite node_at_insert, decide_True by done. repeat split; try done.
      intros q Hq. rewrite node_at_insert by done. by rewrite decide_False.
    + intros [= <- <-]. cbn [files chain_state with_console]. rewrite Hn. repeat split; done.
Qed.

(** ** The factory *)
Lemma run_create_tx owner c init k c2 l2 data :
  let t := Tx owner None 0 data in
  let a := create_address owner (nonce c owner) in
  free c a → init a (with_nonce a 1 (bump owner c), []) = (Ok k, (c2, l2)) →
  gas_used c t ≤ block_gas_limit c →
  run_tx t (create_tx t init) c
  = Ok (a, {| events := Some l2; gasUsed := gas_used c t; status := 1 |},
        with_block (block_number c2 + 1) (with_account a (Account k empty_slot) c2)).
Proof.
  intros t a Hfr Hi Hg. unfold run_tx, create_tx. subst t. cbn [tx_from]. rewrite bind_the_chain.
  fold a. rewrite (bind_ok _ _ _ _ _ (create_at_ok owner a (init a) c [] k c2 l2 Hfr Hi)).
  cbn. by rewrite (proj2 (Z.leb_le _ _) Hg).
Qed.

Definition fresh_factory (owner template : address) : factory_state :=
  FactoryStorage owner ZERO_ADDRESS [] ZERO_ADDRESS template.

Lemma construct_factory_ok self selfAddr sender c l :
  nonce c self = 1 → free c (create_address self 1) →
  construct_factory self selfAddr sender (c, l)
  = (Ok FactoryCode,
     (with_factory self (fresh_factory sender (create_address self 1))
        (created self (create_address self 1) (ProxyTemplate selfAddr) c), l)).
Proof.
  intros Hn Hfr. unfold construct_factory. rewrite bind_the_chain, Hn.
  by rewrite (bind_ok _ _ _ _ _ (create_at_pure self (create_address self 1) (ProxyTemplate selfAddr) c l Hfr)).
Qed.

Lemma create_factory_keeps owner selfAddr data :
  keeps (X := X) (λ c, may_create c owner)
    (create_tx (Tx owner None 0 data) (λ self, construct_factory self selfAddr owner)).
Proof.
  unfold create_tx. cbn [tx_from].
  apply (keeps_create _ owner (λ a, construct_factory a selfAddr owner)).
  - apply stable_may_create.
  - done.
  - intros a. apply construct_factory_keeps.
  - intros [a|e]; [apply keeps_ret|apply keeps_throw].
Qed.

(** C12: [deployFactory] deploys a factory at the address it computed for the
    constructor argument; the signer owns it, its proxy template carries that
    address, and the chain is one contracts can be deployed on; the state file
    records the address, the owner and the gas. *)
Theorem deployFactory_ok a w owner rest fb data :
  ta_outputFolder a = None → signers = owner :: rest → eoa owner →
  getContractFactory ALICENET_FACTORY = Ok fb →
  let c := chain_state w in
  let factory := create_address owner (nonce c owner) in
  getDeployTransaction fb [VStr factory] = Ok (Some data) →
  chain_wf c →
  let gas := gas_used c (Tx owner None 0 data) in
  gas ≤ block_gas_limit c →
  ∃ c' message template,
    let factoryData := {| fd_address := factory; fd_owner := Some owner; fd_gas := gas |} in
    deployFactory a w
    = (_ ← updateDefaultFactoryData network_name factoryData None;
       _ ← showState message; mret factoryData) (with_chain c' w) ∧
    is_factory c' factory (fresh_factory owner template) ∧
    accounts c' !! template = Some (Account (ProxyTemplate factory) empty_slot) ∧
    chain_wf c' ∧ nonce c' owner = nonce c owner + 1.
Proof.
  intros Hout Hsig Heoa Hfb c factory Hdata Hwf gas Hg.
  assert (free c factory) as Hfr by by apply wf_free.
  assert (factory ≠ owner) as Hne by apply (proj1 Heoa).
  set (c1 := with_nonce factory 1 (bump owner c)). set (template := create_address factory 1).
  assert (template ≠ factory) as Hnt.
  { intros Ht. apply create_inj in Ht as [Ht _]. done. }
  assert (nonce c1 factory = 1) as Hn1 by (unfold c1; by rewrite nonce_with_nonce, decide_True).
  assert (free c1 template) as Hfr1.
  { destruct Hfr as [_ Hz]. destruct (wf_fresh _ Hwf factory 1) as [Ha Hz1]; [lia|].
    split; [exact Ha|]. unfold c1, bump. rewrite !nonce_with_nonce.
    rewrite decide_False by done. rewrite decide_False; [done|]. apply (proj1 Heoa). }
  pose proof (construct_factory_ok factory factory owner c1 [] Hn1 Hfr1) as Hcons.
  pose proof (run_create_tx owner c (λ self, construct_factory self factory owner) FactoryCode _ _ data
    Hfr Hcons Hg) as Hrun. cbv zeta in Hrun. fold template c gas in Hrun.
  eexists _, _, template. split; [|split; [|split; [|split]]].
  - unfold deployFactory. rewrite Hout. cbn [checkUserDirPath]. run_step. rewrite Hfb. run_step.
    unfold getAccounts. rewrite Hsig. cbn [head of_option]. run_step.
    unfold getTransactionCount. run_step. fold c. fold factory. rewrite Hdata. run_step.
    cbn [default from_option id]. unfold estimateGas at 1.
    unfold mbind at 1, M_bind at 1. fold c. rewrite Hrun.
    unfold send, mbind at 1, M_bind at 1. fold c. rewrite Hrun. reflexivity.
  - split; [eexists; apply lookup_insert_eq|]. apply lookup_insert_eq.
  - cbn [accounts with_block with_account]. rewrite lookup_insert_ne by done. apply lookup_insert_eq.
  - eapply ev_wf, (run_tx_keeps (λ c, may_create c owner)); [|exact Hwf|by right|exact Hrun].
    by apply create_factory_keeps.
  - change (nonce (created factory template (ProxyTemplate factory) c1) owner = nonce c owner + 1).
    rewrite nonce_created; [|by apply not_eq_sym, (proj1 Heoa)|by apply not_eq_sym].
    unfold c1, bump. rewrite !nonce_with_nonce.
    rewrite decide_False by by apply not_eq_sym. by rewrite decide_True.
Qed.

(** ** The configuration files *)
Lemma file_paths dir :
  dir ≠ "" →
  path_of (list_path (Some dir)) = ((path_of dir).1, (path_of dir).2 ++ ["deploymentList"]) ∧
  path_of (args_path (Some dir)) = ((path_of dir).1, (path_of dir).2 ++ ["deploymentArgsTemplate"]).
Proof.
  intros Hd. split; apply path_of_child; try done; apply (bool_decide_unpack _); by vm_compute.
Qed.

(** C11: into an existing folder, [generateDeploymentConfigs] writes a list and
    an argument template that a deployment from that folder reads: the sorted
    list, and one placeholder per argument of each listed contract. *)
Theorem generateDeploymentConfigs_read dir w dl d p :
  dir ≠ "" → node_at (files w) (path_of dir) = Some Dir →
  getSortedDeployList getAllContracts = Ok dl →
  generateDeployArgTemplate (transformDeploymentList dl) = Ok d →
  writable (files w) (path_of (list_path (Some dir))) = true →
  writable (files w) (path_of (args_path (Some dir))) = true →
  readDeploymentList (Some (list_path (Some dir))) w = (Ok (VObj p), w) →
  ∃ w' v,
    generateDeploymentConfigs false false (Some dir) None w = (Ok tt, w') ∧
    chain_state w' = chain_state w ∧
    getDeploymentList (Some dir) w' = (Ok v, w') ∧
    v ≈ VArr (map VStr (transformDeploymentList dl)) ∧
    ∀ k, k ∉ object_prototype →
      getDeploymentConstructorArgs k (Some dir) w'
        = (Ok (default [] (arg_values <$> dget k (da_constructor d))), w') ∧
      getDeploymentInitializerArgs k (Some dir) w'
        = (Ok (arg_values <$> dget k (da_initializer d)), w').
Proof.
  intros Hne Hdir Hdl Hd Hwl Hwa Hread.
  destruct (file_paths dir Hne) as [Hpl Hpa].
  destruct (add_templates_wf _ _ _ Hd) as [Hwc Hwi]; [by repeat constructor..|].
  set (names := transformDeploymentList dl) in *.
  destruct (writeDeploymentList_ok names (Some dir) w p Hwl Hread) as (data & Hh & Hw).
  set (w1 := with_files (<[path_of (list_path (Some dir)) := File data]> (files w)) w) in *.
  assert (path_of (args_path (Some dir)) ≠ path_of (list_path (Some dir))) as Hpne.
  { rewrite Hpl, Hpa. intros [= Heq]. by apply app_inj_2 in Heq as [_ Heq]. }
  assert (writable (files w1) (path_of (args_path (Some dir))) = true) as Hwa1.
  { revert Hwa. unfold writable, can_create, w1. cbn [files with_files].
    rewrite !node_at_insert by exact (writable_key _ _ Hwl).
    rewrite decide_False by done.
    assert (parent (path_of (args_path (Some dir))) = path_of dir) as ->.
    { rewrite Hpa. unfold parent. cbn [fst snd]. rewrite removelast_last. by destruct (path_of dir). }
    rewrite decide_False; [done|]. intros Heq. rewrite Hpl in Heq.
    apply (f_equal (λ q, length q.2)) in Heq. cbn in Heq. rewrite length_app in Heq. cbn in Heq. lia. }
  destruct (writeDeploymentArgs_ok d (Some dir) w1 Hwa1 Hwc Hwi) as (data' & Hh' & Hw').
  set (w2 := with_files (<[path_of (args_path (Some dir)) := File data']> (files w1)) w1) in *.
  set (message := "YOU MUST REPLACE THE UNDEFINED VALUES IN " +:+ dir +:+ "/deploymentArgsTemplate").
  set (w3 := with_console (console w2 ++ [message]) w2).
  assert (node_at (files w3) (path_of (list_path (Some dir))) = Some (File data)) as Hn.
  { cbn [files w3 w2 w1 with_console with_files]. rewrite node_at_insert by exact (writable_key _ _ Hwa).
    rewrite decide_False by by apply not_eq_sym. by apply node_at_written. }
  destruct (getDeploymentList_held names (Some dir) w3 data Hn Hh) as (v & Hv & Hveq).
  exists w3, v. split; [|split; [done|split; [done|split; [done|]]]].
  - unfold generateDeploymentConfigs, checkUserDirPath, existsSync. run_step.
    rewrite bool_decide_eq_true_2 by by rewrite Hdir. run_step.
    unfold statIsFile, mbind at 1, M_bind at 1. rewrite Hdir. run_step.
    rewrite Hdl. run_step. fold names. rewrite Hd. run_step. run Hw. run Hw'. reflexivity.
  - intros k Hobj. apply (getDeploymentArgs_held d dir w3 data'); [|done..].
    cbn [files w3 w2 w1 with_console with_files]. by apply node_at_written.
Qed.

(** ** The deployment *)

(** Contracts deployed one after the other, with the gas each used. *)
Inductive deployment (factory : address) (inF outF : option string)
    : world (chain X) → list string → list Z → world (chain X) → Prop :=
| deployment_nil w : deployment factory inF outF w [] [] w
| deployment_cons w name names g gs w1 w2 :
    deploy_contract factory inF outF name w = (Ok g, w1) →
    deployment factory inF outF w1 names gs w2 →
    deployment factory inF outF w (name :: names) (g :: gs) w2.

Definition deploy_loop factory inF outF (l : list value) (acc : Z) : M (world (chain X)) Z :=
  fold_for l (λ acc v,
    fullyQualifiedName ← lift (as_string v);
    gas ← deploy_contract factory inF outF fullyQualifiedName;
    mret (acc + gas)) acc.

Definition sum_gas (gs : list Z) : Z := foldr Z.add 0 gs.

Lemma deploy_loop_ok factory inF outF names acc w total w' :
  deploy_loop factory inF outF (map VStr names) acc w = (Ok total, w') ↔
  ∃ gs, deployment factory inF outF w names gs w' ∧ total = acc + sum_gas gs.
Proof.
  revert acc w. induction names as [|name names IH]; intros acc w; cbn [map deploy_loop fold_for].
  - split.
    + intros [= <- <-]. exists []. split; [constructor|]. unfold sum_gas. cbn. lia.
    + intros (gs & Hd & ->). inversion Hd; subst. unfold sum_gas. cbn. by rewrite Z.add_0_r.
  - rewrite bind_assoc. cbn [as_string]. run_step. split.
    + intros Hrun. apply bind_inv in Hrun as (g & w1 & Hg & Hrun). revert Hrun. run_step.
      intros (gs & Hgs & ->)%IH. exists (g :: gs). split; [by econstructor|]. unfold sum_gas. cbn. lia.
    + intros (gs & Hd & ->). inversion Hd as [|? ? ? g gs' w1 ? Hg Hgs]; subst. run Hg. run_step.
      apply IH. exists gs'. split; [done|]. unfold sum_gas. cbn. lia.
Qed.

Lemma deploy_loop_throws factory inF outF names acc w e w' :
  deploy_loop factory inF outF (map VStr names) acc w = (Throw e, w') →
  ∃ pre name post gs w1, names = pre ++ name :: post ∧
    deployment factory inF outF w pre gs w1 ∧
    deploy_contract factory inF outF name w1 = (Throw e, w').
Proof.
  revert acc w. induction names as [|name names IH]; intros acc w; cbn [map deploy_loop fold_for]; [done|].
  rewrite bind_assoc. cbn [as_string]. run_step. unfold mbind at 1, M_bind at 1.
  destruct (deploy_contract factory inF outF name w) as [[g|e'] w1] eqn:Hg.
  - run_step. intros (pre & n & post & gs & w2 & -> & Hd & He)%IH.
    exists (name :: pre), n, post, (g :: gs), w2. split; [done|]. split; [by econstructor|done].
  - intros [= -> ->]. exists [], name, names, [], w. split; [done|]. split; [constructor|done].
Qed.

(** C3: [deployContracts] on an existing factory deploys the contracts of the
    list one by one, in its order, and prints the sum of the gas they used; when
    one fails, the contracts before it are deployed, and none after it. *)
Theorem deployContracts_spec a w factory names r w' :
  ta_factoryAddress a = Some factory → ta_outputFolder a = None →
  getDeploymentList (ta_inputFolder a) w = (Ok (VArr (map VStr names)), w) →
  deployContracts a w = (r, w') →
  match r with
  | Ok _ => ∃ gs w1, deployment factory (ta_inputFolder a) None w names gs w1 ∧
      w' = with_console (console w1 ++ ["total gas used: " +:+ gas_string (sum_gas gs)]) w1
  | Throw e => ∃ pre name post gs w1, names = pre ++ name :: post ∧
      deployment factory (ta_inputFolder a) None w pre gs w1 ∧
      deploy_contract factory (ta_inputFolder a) None name w1 = (Throw e, w')
  end.
Proof.
  intros Hf Hout Hl. unfold deployContracts. rewrite Hf, Hout. cbn [checkUserDirPath]. run_step.
  run Hl. cbn [indexed]. run_step. unfold mbind at 1, M_bind at 1. cbn [fst snd].
  fold (deploy_loop factory (ta_inputFolder a) None (map VStr names) 0).
  destruct (deploy_loop factory (ta_inputFolder a) None (map VStr names) 0 w) as [[total|e] w1] eqn:Hd.
  - cbn. intros Heq. injection Heq as <- <-. apply deploy_loop_ok in Hd as (gs & Hd & ->). exists gs, w1. split; [done|].
    by rewrite Z.add_0_l.
  - intros [= <- <-]. by apply deploy_loop_throws in Hd.
Qed.
End deploy.
