(* ===== verification/AlicenetFactory.v ===== *)
(** * Deploying without the tasks

    [bridge/scripts/lib/alicenetFactory.ts]: the functions that deploy through a
    factory with the global hardhat environment. *)
From S2P Require Import Prelude JsString JsValue Toml World Constants Artifacts DeploymentUtil.
From S2P Require Import FactoryState Chain ChainLaws FactorySpec Hardhat FactoryTasks TaskSpec.
#[local] Open Scope Z_scope.

Definition defaultFactoryName : string := "AliceNetFactory".
Definition DeployedRawEvent : string := "DeployedRaw".
Definition DeployedProxyEvent : string := "DeployedProxy".
Definition deployedStaticEvent : string := "DeployedStatic".
Definition deployedTemplateEvent : string := "DeployedTemplate".

Record UpgradeableResult := {
  ur_logicAddress : address;
  ur_proxyAddress : option address;
  ur_proxySalt : option hexdata;
}.
Record StaticResult := {
  sr_templateAddress : address;
  sr_metaSalt : hexdata;
  sr_metaAddress : address;
}.

Section lib.
Context {X : Type} `{Artifacts} `{Evm, !Contracts X, Hardhat}.
Abbreviation task := (M (world (chain X))).

(** The first artifact of a contract of that name. *)
Definition getFullyQualifiedName (contractName : string) : option string :=
  list_find (λ p, split ":"%char p !! 1%nat = Some contractName) getAllFullyQualifiedNames
    ≫= λ r, Some r.2.

(** The salt of the contract of that name, undefined when its tag is missing or empty. *)
Definition getBytes32SaltFromDoc (contractName : string) : outcome (option hexdata) :=
  qualifiedName ← of_option (TypeError "Cannot read properties of undefined (reading 'includes')")
                    (getFullyQualifiedName contractName);
  buildInfo ← getBuildInfo qualifiedName;
  match buildInfo with
  | Some _ =>
      info ← contract_output buildInfo (extractPath qualifiedName) contractName;
      match devdoc info !! "custom:salt" with
      | None | Some EmptyString => Ok None
      | Some salt => Some <$> formatBytes32String (Some salt)
      end
  | None => Throw (Error "Missing custom:salt")
  end.

Definition getDeployUpgradeableMultiCallArgs (factoryName : string) (Salt : hexdata)
    (logicAddress : address) (initCallData : option hexdata) : outcome (list hexdata) :=
  _ ← getContractFactory factoryName;
  deployProxyData ← encodeFactoryData (deployProxy Salt);
  upgradeProxyData ← encodeFactoryData
    (upgradeProxy Salt logicAddress (match initCallData with Some d => d | None => "0x" end));
  Ok [deployProxyData; upgradeProxyData].

Definition deployUpgradeable (contractName factoryAddress : string) (constructorArgs : list value)
    : task UpgradeableResult :=
  _ ← lift (getContractFactory defaultFactoryName);
  logicFactory ← lift (getContractFactory contractName);
  deployBytecode ← lift (getDeployTransaction logicFactory constructorArgs);
  match deployBytecode with
  | Some deployBytecode =>
      receipt ← factory_send factoryAddress (deployCreate deployBytecode);
      proxySalt ← lift (getBytes32SaltFromDoc contractName);
      logicAddress ← lift (getEventAddress receipt DEPLOYED_RAW);
      match proxySalt with
      | Some salt =>
          multiCallArgs ← lift
            (getDeployUpgradeableMultiCallArgs defaultFactoryName salt logicAddress None);
          receipt ← factory_send factoryAddress (multiCall multiCallArgs);
          proxyAddress ← lift (getEventAddress receipt DeployedProxyEvent);
          mret {| ur_logicAddress := logicAddress; ur_proxyAddress := Some proxyAddress;
                  ur_proxySalt := proxySalt |}
      | None =>
          _ ← console_log (contractName +:+ " contract missing salt");
          mret {| ur_logicAddress := logicAddress; ur_proxyAddress := None; ur_proxySalt := None |}
      end
  | None => throw (Error ("failed to get contract bytecode for " +:+ contractName))
  end.

Definition upgradeProxy_lib (contractName factoryAddress : string)
    (constructorArgs : option (list value)) : task UpgradeableResult :=
  _ ← lift (getContractFactory defaultFactoryName);
  logicContractFactory ← lift (getContractFactory contractName);
  data ← lift (getDeployTransaction logicContractFactory (default [] constructorArgs));
  deployBCode ← lift (bytes_arg data);
  receipt ← factory_send factoryAddress (deployCreate deployBCode);
  logicAddress ← lift (getEventAddress receipt DeployedRawEvent);
  proxySalt ← lift (getBytes32SaltFromDoc contractName);
  salt ← lift (bytes_arg proxySalt);
  _ ← factory_send factoryAddress (upgradeProxy salt logicAddress "0x");
  mret {| ur_logicAddress := logicAddress; ur_proxyAddress := None; ur_proxySalt := proxySalt |}.

Definition deployStatic_lib (contractName factoryAddress : string) : task StaticResult :=
  _ ← lift (getContractFactory defaultFactoryName);
  logicContract ← lift (getContractFactory contractName);
  receipt ← factory_send factoryAddress (deployTemplate (bytecode logicContract));
  templateAddress ← lift (getEventAddress receipt deployedTemplateEvent);
  metaSalt ← lift (getBytes32SaltFromDoc contractName);
  match metaSalt with
  | Some metaSalt =>
      receipt ← factory_send factoryAddress (deployStatic metaSalt "0x");
      metaAddress ← lift (getEventAddress receipt deployedStaticEvent);
      mret {| sr_templateAddress := templateAddress; sr_metaSalt := metaSalt;
              sr_metaAddress := metaAddress |}
  | None => throw (Error ("Couldn't get the salt for: " +:+ contractName))
  end.
End lib.

Section spec.
Context {X : Type} `{Artifacts} `{Evm, !Contracts X, !EvmLaws, Hardhat}.
Context (name factory owner : string) (conArgs : list value) (w : world (chain X)).
Context (f : factory_state) (salt dep rt : hexdata) (n : nat) (x : X).
Abbreviation c := (chain_state w).
Abbreviation logic := (logic_address c factory).
Abbreviation proxy := (meta_address factory salt).
Hypothesis Hfb : is_ok (getContractFactory defaultFactoryName) = true.
Hypothesis Hlf : ∃ lf, getContractFactory name = Ok lf ∧ getDeployTransaction lf conArgs = Ok (Some dep).
Hypothesis Hsalt : getBytes32SaltFromDoc name = Ok (Some salt).
Hypothesis Howner : owner_account c owner.
Hypothesis Hauth : owner = _owner f.
Hypothesis Hpd : proxy_deployment c factory f salt dep EMPTY rt n x 0 x.

Definition lib_chain1 : chain X :=
  let c1 := after_logic (bump owner c) factory rt x in with_block (block_number c1 + 1) c1.
Definition lib_multicall : fcall :=
  multiCall [encode (deployProxy salt); encode (upgradeProxy salt logic EMPTY)].
Definition lib_chain2 : chain X :=
  let c2 := upgraded factory proxy logic x (proxied factory proxy salt f (bump owner lib_chain1)) in
  with_block (block_number c2 + 1) c2.
Hypothesis Hv1 : valid_call (deployCreate dep) = true.
Hypothesis Hv2 : valid_call (deployProxy salt) = true.
Hypothesis Hv3 : valid_call (upgradeProxy salt logic EMPTY) = true.
Hypothesis Hv : valid_call lib_multicall = true.
Hypothesis Hgas1 : gas_of c owner factory (deployCreate dep) ≤ block_gas_limit c.
Hypothesis Hgas2 : gas_of lib_chain1 owner factory lib_multicall ≤ block_gas_limit c.

Lemma lib_owner_ne : factory ≠ owner.
Proof.
  eapply contract_ne_owner; [by eapply oa_no_code|].
  destruct (pd_factory _ _ _ _ _ _ _ _ _ _ _ Hpd) as [[s Hk] _]. by eexists.
Qed.
Lemma lib_bump : proxy_deployment (bump owner c) factory f salt dep EMPTY rt n x 0 x.
Proof. by apply proxy_deployment_bump. Qed.
Lemma lib_logic_bump : logic_address (bump owner c) factory = logic.
Proof. unfold logic_address. by rewrite nonce_bump by apply lib_owner_ne. Qed.

Lemma lib_create_call :
  call CALL_DEPTH owner factory 0 (encode (deployCreate dep)) (bump owner c, [])
  = (Ok tt, (after_logic (bump owner c) factory rt x, logic_logs c factory n)).
Proof.
  change CALL_DEPTH with (S 1023).
  rewrite (logic_step _ _ _ _ _ _ _ _ _ _ _ lib_bump 1023 owner [] _ (or_intror Hauth) (decode_encode _ Hv1)).
  unfold logic_logs. by rewrite lib_logic_bump.
Qed.

Lemma lib_upgrade_call :
  call CALL_DEPTH owner factory 0 (encode lib_multicall) (bump owner lib_chain1, [])
  = (Ok tt, (upgraded factory proxy logic x (proxied factory proxy salt f (bump owner lib_chain1)),
             proxy_logs factory salt 0)).
Proof.
  destruct (after_logic_deployed _ _ _ _ _ _ _ _ _ _ _ lib_bump) as (Hfac & Ht & [Ha Hn] & Hl & Hx).
  rewrite lib_logic_bump in Hl.
  assert (free (bump owner lib_chain1) proxy) as Hfr.
  { split; [exact Ha|]. rewrite nonce_bump; [exact Hn|]. by apply (oa_eoa _ _ Howner). }
  change CALL_DEPTH with (S (S (S 1021))).
  rewrite (call_multiCall (S (S 1021)) factory owner f _ _ (bump owner lib_chain1) [] Hfac
    (or_intror Hauth) (decode_encode _ Hv)).
  by apply (proxy_steps c factory f salt dep EMPTY rt n x 0 x Hpd 1021 (bump owner lib_chain1) [] _ _ Hfac Ht
    Hfr (self_ne_proxy _ _ _ _ _ _ _ _ _ _ _ Hpd) Hl Hx (decode_encode _ Hv2) (decode_encode _ Hv3)).
Qed.

(** C17: [deployUpgradeable] deploys the logic contract and a proxy of the
    factory that points to it, uninitialised, and returns both addresses. *)
Theorem deployUpgradeable_ok :
  deployUpgradeable name factory conArgs w
  = (Ok {| ur_logicAddress := logic; ur_proxyAddress := Some proxy; ur_proxySalt := Some salt |},
     with_chain lib_chain2 w) ∧
  deployed c factory f salt rt x lib_chain2.
Proof.
  split.
  - destruct (getContractFactory defaultFactoryName) as [fb|] eqn:Hfb'; [|done].
    destruct Hlf as (lf & Hlf' & Hdep).
    pose proof (factory_send_ok owner factory _ _ _ w (oa_signer _ _ Howner) Hv1 lib_create_call Hgas1) as Hs1.
    change (with_chain _ w) with (with_chain lib_chain1 w) in Hs1.
    pose proof (factory_send_ok owner factory _ _ _ (with_chain lib_chain1 w) (oa_signer _ _ Howner) Hv
      lib_upgrade_call Hgas2) as Hs2.
    change (with_chain _ (with_chain lib_chain1 w)) with (with_chain lib_chain2 w) in Hs2.
    unfold deployUpgradeable. rewrite Hfb'. run_step. rewrite Hlf'. run_step. rewrite Hdep. run_step.
    run Hs1. rewrite Hsalt. run_step.
    rewrite (getEventAddress_of _ _ _ DEPLOYED_RAW logic)
      by (apply find_deployed_event; apply foreign_events). run_step.
    unfold getDeployUpgradeableMultiCallArgs. rewrite Hfb'. rewrite !encodeFactoryData_ok by done.
    cbn [mbind outcome_bind]. run_step. run Hs2.
    rewrite (getEventAddress_of _ _ _ DeployedProxyEvent proxy) by apply proxy_events.
    by run_step.
  - apply deployed_block, (deployed_same c (bump owner c)); [done|by rewrite nonce_bump by apply lib_owner_ne|].
    unfold lib_chain1. rewrite <- lib_logic_bump. by apply (upgraded_deployed _ _ _ _ _ x).
Qed.
End spec.
