(* ===== verification/ImmutableAuth.v ===== *)
(** * Generating ImmutableAuth.sol

    [bridge/scripts/generateImmutableAuth.ts]: the task
    [generate-immutable-auth-contract], which writes a Solidity file with one
    abstract contract per contract of the deployment list.  Each of them
    computes the address its contract is deployed at from the contract's salt. *)
From S2P Require Import Prelude JsString JsValue Toml World Constants Artifacts.
From S2P Require Import DeploymentUtil DeploymentList DeployArgs FactoryState Chain Hardhat FactoryTasks.

(** [class Contract] *)
Record Contract := { name : string; salt : string }.

(** A text is the list of its lines; an apostrophe stands for a double quote,
    the templates hold none. *)
Fixpoint quoted (s : string) : string :=
  match s with
  | EmptyString => EmptyString
  | String c s => String (if decide (c = "'"%char) then "034"%char else c) (quoted s)
  end.

Definition templateImmutableFactory : string := join LF [
  "// This file is auto-generated by hardhat generate-immutable-auth-contract task. DO NOT EDIT.";
  "// SPDX-License-Identifier: MIT-open-group";
  "pragma solidity ^0.8.11;";
  "";
  quoted "import './DeterministicAddress.sol';";
  quoted "import {ImmutableAuthErrorCodes} from 'contracts/libraries/errorCodes/ImmutableAuthErrorCodes.sol';";
  "";
  "abstract contract ImmutableFactory is DeterministicAddress {";
  "    address private immutable _factory;";
  "    ";
  "    modifier onlyFactory() {";
  "      require(";
  "          msg.sender == _factory,";
  "          string(abi.encodePacked(ImmutableAuthErrorCodes.IMMUTEABLEAUTH_ONLY_FACTORY))";
  "      );";
  "      _;";
  "  }";
  "";
  "    constructor(address factory_) {";
  "        _factory = factory_;";
  "    }";
  "";
  "    function _factoryAddress() internal view returns (address) {";
  "        return _factory;";
  "    }";
  "";
  "}";
  ""
].

(** The name in the identifiers: its first letter in lower case, or all of ETHDKG. *)
Definition mixedContractName (name : string) : string :=
  if starts_with "ETHDKG" name then ("ethdkg" +:+ slice 6 name)%string
  else (to_lower (char_at0 name) +:+ slice 1 name)%string.

Definition template_lines (c : Contract) : list string :=
  let mixed := mixedContractName (name c) in [
  "";
  "abstract contract Immutable" +:+ name c +:+ " is ImmutableFactory {";
  "";
  "    address private immutable _" +:+ mixed +:+ ";";
  "";
  "    modifier only" +:+ name c +:+ "() {";
  "        require(msg.sender == _" +:+ mixed +:+ ", string(abi.encodePacked(ImmutableAuthErrorCodes.IMMUTEABLEAUTH_ONLY_" +:+ to_upper (name c) +:+ ")));";
  "        _;";
  "    }";
  "";
  "    constructor() {";
  "        _" +:+ mixed +:+ " = getMetamorphicContractAddress(" +:+ salt c +:+ ", _factoryAddress());";
  "    }";
  "";
  "    function _" +:+ mixed +:+ "Address() internal view returns(address) {";
  "        return _" +:+ mixed +:+ ";";
  "    }";
  "";
  "    function _saltFor" +:+ name c +:+ "() internal pure returns(bytes32) {";
  "        return " +:+ salt c +:+ ";";
  "    }";
  "}";
  "    "
  ]%string.
Definition templateContract (c : Contract) : string := join LF (template_lines c).

Section generate.
Context {C : Type} `{Toml} `{Artifacts} `{Hardhat}.

(** The first artifact of a contract of that name. *)
Definition getFullyQualifiedName (contractName : option string) : option string :=
  list_find (λ p, (0 < length (split ":"%char p))%nat ∧ split ":"%char p !! 1 = contractName)
    getAllFullyQualifiedNames ≫= λ r, Some r.2.

(** The tag's value, undefined when the contract has no such tag. *)
Definition getSalt (contractName : option string) : script C hexdata :=
  qualifiedName ← lift (of_option (TypeError "Cannot read properties of undefined")
                          (getFullyQualifiedName contractName));
  buildInfo ← lift (getBuildInfo qualifiedName);
  salt ← match buildInfo with
         | Some _ =>
             info ← lift (contract_output buildInfo (extractPath qualifiedName) (key_of contractName));
             mret (devdoc info !! "custom:salt")
         | None => _ ← console_log "missing salt"; mret (Some EmptyString)
         end;
  lift (formatBytes32String salt).

Definition checkUserDirPath (path : string) : script C () :=
  e ← existsSync path;
  _ ← (if e : bool then mret tt
       else
         _ ← console_log ("Creating Folder at" +:+ path +:+ " since it didn't exist before!");
         mkdirSync path);
  isFile ← statIsFile path;
  if isFile : bool then throw (Error "outputFolder path should be to a directory not a file")
  else mret tt.

(** A promise nobody awaits: what it did is done, its rejection is lost. *)
Definition not_awaited (m : script C ()) : script C () := try_catch m (λ _, mret tt).

(** The list of the contracts: from the artifacts, or from the user's file. *)
Definition listed_contracts (input : option string) : script C (list value) :=
  match input with
  | None =>
      deploymentList ← lift (getSortedDeployList getAllContracts);
      mret (map VStr (transformDeploymentList deploymentList))
  | Some dir =>
      contracts ← getDeploymentList (Some dir);
      lift (indexed contracts)
  end.

Definition contract_salt (fullyQualifiedName : value) : script C (option string * hexdata) :=
  match fullyQualifiedName with
  | VStr s =>
      let contractName := split ":"%char s !! 1 in
      salt ← getSalt contractName;
      mret (contractName, salt)
  | _ => throw (TypeError "fullyQualifiedName.split is not a function")
  end.

(** One section of the file. *)
Definition section_of (contractNameSalt : option string * hexdata) : outcome string :=
  name ← of_option (TypeError "Cannot read properties of undefined (reading 'startsWith')")
           contractNameSalt.1;
  mret (templateContract {| name := name; salt := contractNameSalt.2 |}).

(** The task [generate-immutable-auth-contract]. *)
Definition generateImmutableAuth (input output : option string) : script C () :=
  contracts ← listed_contracts input;
  contractNameSaltMap ← fold_for contracts
    (λ acc c, e ← contract_salt c; mret (acc ++ [e])) [];
  immutableContract ← fold_for contractNameSaltMap
    (λ text e, s ← lift (section_of e); mret (text +:+ s)%string) templateImmutableFactory;
  output ← match output with
           | None => mret "contracts/utils/"
           | Some output => _ ← not_awaited (checkUserDirPath output); mret output
           end;
  writeFileSync (output +:+ "ImmutableAuth.sol") immutableContract.
End generate.

(** ** Reading the file

    Line by line: a contract begins, its modifier names the variable it checks
    the sender against, and its constructor assigns that variable the address
    of a salt. *)
Record reading := Reading { r_contract : string; r_checked : string; r_found : list (string * string) }.
(** The text before a separator. *)
Definition upto (c : ascii) (s : string) : string := default "" (split c s !! 0%nat).
Definition read_line (st : reading) (line : string) : reading :=
  if starts_with "abstract contract Immutable" line then
    Reading (upto " " (slice 27 line)) "" (r_found st)
  else if starts_with "        require(msg.sender == _" line then
    Reading (r_contract st) (upto "," (slice 30 line)) (r_found st)
  else if starts_with "        _" line then
    match split " " (slice 8 line) with
    | [v; "="; f; "_factoryAddress());"] =>
        if starts_with "getMetamorphicContractAddress(" f && bool_decide (v = r_checked st) then
          Reading (r_contract st) (r_checked st) (r_found st ++ [(r_contract st, upto "," (slice 30 f))])
        else st
    | _ => st
    end
  else st.
(** The contracts of a file whose modifier checks the address of a salt. *)
Definition read_addresses (text : string) : list (string * string) :=
  r_found (foldl read_line (Reading "" "" []) (split "010" text)).

(** A name or a salt: no space, comma or end of line. *)
Definition plain_word (s : string) : Prop := free_of "010" s ∧ free_of " " s ∧ free_of "," s.

Section reading.
Lemma free_of_upper s : free_of "010" s → free_of "010" (to_upper s).
Proof.
  unfold free_of. induction s as [|a s IH]; cbn; [done|].
  rewrite !not_elem_of_cons. intros [Ha Hs]. split; [|by apply IH]. intros Heq. apply Ha. revert Heq.
  by destruct a as [[] [] [] [] [] [] [] []].
Qed.
Lemma lower_char_keeps a c : c = "010"%char ∨ c = " "%char ∨ c = ","%char → c = lower_char a → c = a.
Proof. intros [-> |[-> | ->]]; by destruct a as [[] [] [] [] [] [] [] []]. Qed.
Lemma free_of_slice c k s : free_of c s → free_of c (slice k s).
Proof.
  unfold free_of. revert s. induction k as [|k IH]; intros s; [done|]. destruct s; cbn; [done|].
  rewrite not_elem_of_cons. intros [_ ?]. by apply IH.
Qed.
Lemma free_of_mixed c n :
  c = "010"%char ∨ c = " "%char ∨ c = ","%char → free_of c n → free_of c (mixedContractName n).
Proof.
  intros Hc Hn. unfold mixedContractName. destruct (starts_with _ _); apply free_of_app;
    (split; [|by apply free_of_slice]).
  - by destruct Hc as [-> |[-> | ->]]; literal_free.
  - destruct n as [|a n]; [apply not_elem_of_nil|]. unfold free_of in *. cbn in *.
    rewrite not_elem_of_cons in Hn. destruct Hn as [Ha _].
    intros [Heq|Hin%not_elem_of_nil]%elem_of_cons; [|done]. apply Ha. by apply lower_char_keeps.
Qed.

Lemma upto_app c s t : free_of c s → upto c (s +:+ String c t)%string = s.
Proof. intros Hs. unfold upto. by rewrite split_app. Qed.

(** The three lines that matter; the others are passed by. *)
Lemma read_contract st n :
  free_of " " n →
  read_line st ("abstract contract Immutable" +:+ n +:+ " is ImmutableFactory {") = Reading n "" (r_found st).
Proof.
  intros Hn. unfold read_line. rewrite starts_with_app.
  by rewrite (slice_length "abstract contract Immutable"), upto_app.
Qed.
Lemma read_modifier st v rest :
  free_of "," v →
  read_line st ("        require(msg.sender == _" +:+ v +:+ ", " +:+ rest)
  = Reading (r_contract st) ("_" +:+ v) (r_found st).
Proof.
  intros Hv. unfold read_line. rewrite (starts_with_app "        require(msg.sender == _").
  lazymatch goal with |- (if ?b then _ else _) = _ => change b with false end. cbv iota.
  change (slice 30 ("        require(msg.sender == _" +:+ v +:+ ", " +:+ rest)) with
    (("_" +:+ v) +:+ String "," (" " +:+ rest))%string.
  rewrite upto_app; [done|]. apply free_of_app. split; [literal_free|done].
Qed.
Lemma read_constructor st v s :
  r_checked st = ("_" +:+ v)%string → free_of " " v → free_of " " s → free_of "," s →
  read_line st ("        _" +:+ v +:+ " = getMetamorphicContractAddress(" +:+ s +:+ ", _factoryAddress());")
  = Reading (r_contract st) (r_checked st) (r_found st ++ [(r_contract st, s)]).
Proof.
  intros Hst Hv Hs Hc. unfold read_line. rewrite (starts_with_app "        _").
  lazymatch goal with |- (if ?b then _ else _) = _ => change b with false end. cbv iota.
  lazymatch goal with |- (if ?b then _ else _) = _ => change b with false end. cbv iota.
  change (slice 8 ("        _" +:+ v +:+ " = getMetamorphicContractAddress(" +:+ s +:+ ", _factoryAddress());"))
    with (("_" +:+ v) +:+ String " " ("=" +:+ String " " ("getMetamorphicContractAddress(" +:+ s
            +:+ ", _factoryAddress());")))%string.
  set (f := ("getMetamorphicContractAddress(" +:+ s +:+ ",")%string).
  assert (("getMetamorphicContractAddress(" +:+ s +:+ ", _factoryAddress());")%string
    = (f +:+ String " " "_factoryAddress());")%string) as ->.
  { unfold f. by rewrite !string_app_assoc. }
  rewrite split_app by (apply free_of_app; split; [literal_free|done]).
  rewrite split_app by literal_free.
  assert (free_of " " f) as Hf by (unfold f; rewrite !free_of_app; split_and!; [literal_free|done|literal_free]).
  rewrite (split_app " " f) by done. rewrite (split_free " " "_factoryAddress());") by literal_free.
  unfold f. rewrite (starts_with_app "getMetamorphicContractAddress("), bool_decide_eq_true_2 by done.
  cbn [andb]. rewrite (slice_length "getMetamorphicContractAddress("). by rewrite upto_app.
Qed.

(** A section of the file gives its contract and its salt. *)
Lemma read_template st e :
  plain_word (name e) → plain_word (salt e) →
  r_found (foldl read_line st (tail (template_lines e))) = r_found st ++ [(name e, salt e)].
Proof.
  intros (N1 & N2 & N3) (S1 & S2 & S3).
  assert (free_of " " (mixedContractName (name e))) as M2 by (apply free_of_mixed; auto).
  assert (free_of "," (mixedContractName (name e))) as M3 by (apply free_of_mixed; auto).
  unfold template_lines. cbn [tail foldl]. rewrite read_contract by done.
  set (m := mixedContractName (name e)) in *. set (st1 := Reading (name e) "" (r_found st)).
  set (st2 := Reading (r_contract st1) ("_" +:+ m) (r_found st1)).
  pose proof (read_modifier st1 m ("string(abi.encodePacked(ImmutableAuthErrorCodes.IMMUTEABLEAUTH_ONLY_"
    +:+ to_upper (name e) +:+ ")));") M3) as Hmod.
  lazymatch goal with |- context[read_line ?st0 ("        require(msg.sender == _" +:+ ?l)%string] =>
    change (read_line st0 ("        require(msg.sender == _" +:+ l)%string = st2) in Hmod end.
  rewrite Hmod. clear Hmod.
  set (st3 := Reading (r_contract st2) (r_checked st2) (r_found st2 ++ [(r_contract st2, salt e)])).
  pose proof (read_constructor st2 m (salt e) eq_refl M2 S2 S3) as Hcons.
  lazymatch goal with |- context[read_line ?st0 ("        _" +:+ ?l)%string] =>
    change (read_line st0 ("        _" +:+ l)%string = st3) in Hcons end.
  rewrite Hcons. reflexivity.
Qed.

Lemma template_lines_free e :
  free_of "010" (name e) → free_of "010" (salt e) → Forall (free_of "010") (template_lines e).
Proof.
  intros Hn Hs. pose proof (free_of_mixed "010" (name e) (or_introl eq_refl) Hn) as Hm.
  pose proof (free_of_upper _ Hn) as Hu. unfold template_lines. cbv zeta.
  repeat apply Forall_cons_2; [..|apply Forall_nil_2];
    rewrite ?free_of_app; repeat match goal with |- _ ∧ _ => split end; first [done|literal_free].
Qed.
Lemma template_text e t :
  free_of "010" (name e) → free_of "010" (salt e) →
  (templateContract e +:+ t)%string = String "010" (join LF (tail (template_lines e)) +:+ t).
Proof. intros _ _. reflexivity. Qed.

(** The lines of the file. *)
Lemma file_lines es text :
  Forall (λ e, plain_word (name e) ∧ plain_word (salt e)) es →
  split "010" (text +:+ foldr String.append "" (map templateContract es))%string
  = split "010" text ++ concat (map (λ e, tail (template_lines e)) es).
Proof.
  revert text. induction es as [|e es IH]; intros text Hes; cbn [map foldr concat].
  { by rewrite string_app_nil_r, app_nil_r. }
  apply Forall_cons in Hes as [[(Hn & _) (Hs & _)] Hes]. rewrite template_text by done.
  rewrite split_app_sep, IH by done. f_equal. f_equal. apply split_join; [done|].
  pose proof (template_lines_free e Hn Hs) as Hf. by apply Forall_cons in Hf as [_ Hf].
Qed.
Lemma read_sections es st :
  Forall (λ e, plain_word (name e) ∧ plain_word (salt e)) es →
  r_found (foldl read_line st (concat (map (λ e, tail (template_lines e)) es)))
  = r_found st ++ map (λ e, (name e, salt e)) es.
Proof.
  revert st. induction es as [|e es IH]; intros st Hes; cbn [map concat].
  { by rewrite app_nil_r. }
  apply Forall_cons in Hes as [[Hn Hs] Hes]. rewrite foldl_app, IH by done.
  rewrite read_template by done. by rewrite <- app_assoc.
Qed.
Lemma read_file es :
  Forall (λ e, plain_word (name e) ∧ plain_word (salt e)) es →
  read_addresses (templateImmutableFactory +:+ foldr String.append "" (map templateContract es))
  = map (λ e, (name e, salt e)) es.
Proof.
  intros Hes. unfold read_addresses. rewrite file_lines by done.
  rewrite foldl_app, read_sections by done.
  assert (r_found (foldl read_line (Reading "" "" []) (split "010" templateImmutableFactory)) = []) as ->
    by (vm_compute; reflexivity).
  done.
Qed.
End reading.

(** ** What is generated *)
Section spec.
Context {X : Type} `{Toml} `{Artifacts} `{Evm, !Contracts X, Hardhat}.
Implicit Types (w : world (chain X)).

(** Hardhat's artifact store: [readArtifact] of a bare name finds the only
    artifact of a contract of that name, and refuses an ambiguous one. *)
Record artifacts_agree (all : list string) : Prop := {
  agree_unique : ∀ p q, p ∈ all → q ∈ all → extractName p = extractName q → p = q;
  agree_named : ∀ p, p ∈ all → is_Some (extractName p);
  agree_read : ∀ p n, p ∈ all → extractName p = Some n →
    ∃ a, readArtifact n = Ok a ∧ (sourceName a +:+ ":" +:+ n)%string = p;
}.

Lemma split_length c s : (0 < length (split c s))%nat.
Proof.
  destruct s as [|a s]; cbn; [lia|]. case_decide; cbn; [lia|]. destruct (split c s); cbn; lia.
Qed.

Lemma getFullyQualifiedName_agree p n :
  artifacts_agree getAllFullyQualifiedNames → p ∈ getAllFullyQualifiedNames →
  extractName p = Some n →
  getFullyQualifiedName (Some n) = Some p ∧ DeploymentUtil.getFullyQualifiedName n = Ok p.
Proof.
  intros Ha Hp Hn. split.
  - unfold getFullyQualifiedName. set (P := λ q, (_ < _)%nat ∧ _).
    destruct (list_find P getAllFullyQualifiedNames) as [[i q]|] eqn:Hf.
    + apply list_find_Some in Hf as (Hq & [_ HPq] & _). cbn. f_equal.
      apply (agree_unique _ Ha); [by eapply list_elem_of_lookup_2|done|]. by rewrite Hn.
    + apply list_find_None in Hf. rewrite Forall_forall in Hf. destruct (Hf p Hp).
      split; [apply split_length|exact Hn].
  - destruct (agree_read _ Ha p n Hp Hn) as (a & Hr & <-).
    unfold DeploymentUtil.getFullyQualifiedName. by rewrite Hr.
Qed.

(** The salt in the file is the one the deployment tasks use. *)
Lemma getSalt_agree p n w :
  artifacts_agree getAllFullyQualifiedNames → p ∈ getAllFullyQualifiedNames →
  extractName p = Some n → getSalt (Some n) w = getBytes32Salt n w.
Proof.
  intros Ha Hp Hn. destruct (getFullyQualifiedName_agree _ _ Ha Hp Hn) as [Hq1 Hq2].
  unfold getSalt, getBytes32Salt, FactoryTasks.getSalt. rewrite Hq1, Hq2. run_step.
  unfold mbind, M_bind, lift. cbn. destruct (getBuildInfo p) as [[b|]|]; [|done..].
  unfold contract_output, of_option. cbn. by repeat (case_match; cbn).
Qed.
Lemma contract_salt_agree p n s w :
  artifacts_agree getAllFullyQualifiedNames → p ∈ getAllFullyQualifiedNames →
  extractName p = Some n → getBytes32Salt n w = (Ok s, w) →
  contract_salt (VStr p) w = (Ok (Some n, s), w).
Proof.
  intros Ha Hp Hn Hs. unfold contract_salt. change (split ":"%char p !! 1) with (extractName p). rewrite Hn.
  rewrite <- (getSalt_agree p n w) in Hs by done. by run Hs.
Qed.

(** A contract of the list, its name and its salt. *)
Definition deploys_as w (c : string) (e : Contract) : Prop :=
  extractName c = Some (name e) ∧ getBytes32Salt (name e) w = (Ok (salt e), w).

Lemma contract_salts_spec w cs es acc :
  artifacts_agree getAllFullyQualifiedNames → Forall (λ c, c ∈ getAllFullyQualifiedNames) cs →
  Forall2 (deploys_as w) cs es →
  fold_for (map VStr cs) (λ acc c, e ← contract_salt c; mret (acc ++ [e])) acc w
  = (Ok (acc ++ map (λ e, (Some (name e), salt e)) es), w).
Proof.
  intros Ha Hin Hes. revert acc Hin. induction Hes as [|c e cs es [Hn Hs] Hes IH]; intros acc Hin.
  - cbn. by rewrite app_nil_r.
  - apply Forall_cons in Hin as [Hc Hin]. cbn [map fold_for]. run_step.
    run (contract_salt_agree _ _ _ _ Ha Hc Hn Hs). run_step. rewrite IH by done.
    by rewrite <- app_assoc.
Qed.

Lemma sections_spec w es text :
  fold_for (map (λ e, (Some (name e), salt e)) es)
    (λ text e, s ← lift (section_of e); mret (text +:+ s)%string) text w
  = (Ok (text +:+ foldr String.append "" (map templateContract es))%string, w).
Proof.
  revert text. induction es as [|[n s] es IH]; intros text; cbn [map fold_for foldr].
  - by rewrite string_app_nil_r.
  - change (section_of (Some (name (Build_Contract n s)), salt (Build_Contract n s))) with (Ok (templateContract (Build_Contract n s))). run_step.
    rewrite IH. by rewrite string_app_assoc.
Qed.

Lemma checkUserDirPath_exists o w :
  node_at (files w) (path_of o) = Some Dir → checkUserDirPath o w = (Ok tt, w).
Proof.
  intros Hd. unfold checkUserDirPath, existsSync, statIsFile. run_step.
  rewrite bool_decide_eq_true_2 by eauto. run_step. unfold mbind, M_bind. by rewrite Hd.
Qed.

(** C36: without an input file, [generate-immutable-auth-contract] writes, behind
    the text of the factory's contract, one section for every contract of the
    sorted deployment list, in its order.  Reading the file line by line, the
    modifier of each section's contract checks the sender against the address
    computed from the very salt the deployment tasks deploy that contract with.
    The file is named by putting ImmutableAuth.sol right behind the user's path. *)
Theorem generateImmutableAuth_ok output dl es w :
  artifacts_agree getAllFullyQualifiedNames →
  getSortedDeployList getAllFullyQualifiedNames = Ok dl →
  Forall2 (deploys_as w) (transformDeploymentList dl) es →
  Forall (λ e, plain_word (name e) ∧ plain_word (salt e)) es →
  (∀ o, output = Some o → node_at (files w) (path_of o) = Some Dir) →
  let file := path_of (default "contracts/utils/" output +:+ "ImmutableAuth.sol") in
  let text := (templateImmutableFactory +:+ foldr String.append "" (map templateContract es))%string in
  writable (files w) file = true →
  generateImmutableAuth None output w = (Ok tt, with_files (<[file := File text]> (files w)) w) ∧
  read_addresses text = map (λ e, (name e, salt e)) es.
Proof.
  intros Ha Hdl Hes Hplain Hout file text Hfile. split; [|by apply read_file].
  unfold generateImmutableAuth, listed_contracts, getAllContracts.
  rewrite Hdl. run_step.
  assert (Forall (λ c, c ∈ getAllFullyQualifiedNames) (transformDeploymentList dl)) as Hin.
  { apply Forall_forall. intros c Hc. by apply (listed_elem _ _ _ Hdl). }
  run (contract_salts_spec w _ _ [] Ha Hin Hes). run (sections_spec w es templateImmutableFactory).
  subst file. destruct output as [o|]; cbn [default from_option id] in *; run_step.
  - assert (not_awaited (checkUserDirPath o) w = (Ok tt, w)) as Hc.
    { unfold not_awaited, try_catch. by rewrite checkUserDirPath_exists by auto. }
    run Hc. run_step. by rewrite writeFileSync_ok.
  - by rewrite writeFileSync_ok.
Qed.
End spec.
