(* ===== verification/TaskChain.v ===== *)
(** * Tasks and the chain

    Which statements of a script touch the chain ([off_chain] ones do not), and
    that a deployment task, however it ends, only adds to it ([advances]). *)
From S2P Require Import Prelude JsString JsValue Toml World Constants Config Artifacts.
From S2P Require Import DeploymentUtil DeploymentList DeployArgs FactoryState Chain ChainLaws.
From S2P Require Import FactorySpec Hardhat FactoryTasks TaskSpec DeploySpec.
#[local] Open Scope Z_scope.

Section rules.
Context {X : Type} `{Evm, !Contracts X, !EvmLaws}.
Implicit Types (c : chain X) (w : world (chain X)) (P Q : chain X → Prop).
Abbreviation task := (M (world (chain X))).

(** However [m] ends, the chain it leaves evolved from the one it found. *)
Definition advances {A} (m : task A) : Prop :=
  ∀ w r w', chain_wf (chain_state w) → m w = (r, w') → evolves (chain_state w) (chain_state w').
(** A statement that does not touch the chain. *)
Definition off_chain {A} (m : task A) : Prop := ∀ w, chain_state (m w).2 = chain_state w.

Lemma off_chain_run {A} (m : task A) w r w' :
  off_chain m → m w = (r, w') → chain_state w' = chain_state w.
Proof. intros Hm Hrun. specialize (Hm w). by rewrite Hrun in Hm. Qed.
Lemma off_chain_advances {A} (m : task A) : off_chain m → advances m.
Proof.
  intros Hm w r w' Hwf Hrun. specialize (Hm w). rewrite Hrun in Hm. cbn in Hm. rewrite Hm.
  by apply evolves_refl.
Qed.
Lemma off_chain_bind {A B} (m : task A) (f : A → task B) :
  off_chain m → (∀ x, off_chain (f x)) → off_chain (m ≫= f).
Proof.
  intros Hm Hf w. unfold mbind, M_bind. specialize (Hm w). destruct (m w) as [[x|e] w1]; [|done].
  cbn in Hm. rewrite <- Hm. apply Hf.
Qed.
Lemma off_chain_ret {A} (x : A) : off_chain (mret x).
Proof. done. Qed.
Lemma off_chain_lift {A} (o : outcome A) : off_chain (lift o).
Proof. done. Qed.
Lemma off_chain_throw {A} e : off_chain (throw e : task A).
Proof. done. Qed.
Lemma off_chain_gets {A} (f : _ → A) : off_chain (gets f).
Proof. done. Qed.
Lemma off_chain_console s : off_chain (console_log s).
Proof. done. Qed.
Lemma off_chain_write p d : off_chain (writeFileSync p d).
Proof. intros w. unfold writeFileSync. by destruct (node_at _ _) as [[]|]; [..|destruct (can_create _ _)]. Qed.
Lemma off_chain_mkdir p : off_chain (mkdirSync p).
Proof. intros w. unfold mkdirSync. by destruct (node_at _ _) as [[]|]; [..|destruct (can_create _ _)]. Qed.
Lemma off_chain_read p : off_chain (readFileSync p).
Proof. intros w. unfold readFileSync. by destruct (node_at _ _) as [[]|]. Qed.
Lemma off_chain_stat p : off_chain (statIsFile p).
Proof. intros w. unfold statIsFile. by destruct (node_at _ _) as [[]|]. Qed.

Lemma advances_bind {A B} (m : task A) (f : A → task B) :
  advances m → (∀ x, advances (f x)) → advances (m ≫= f).
Proof.
  intros Hm Hf w r w' Hwf. unfold mbind, M_bind. destruct (m w) as [[x|e] w1] eqn:Hrun.
  - intros Hx. pose proof (Hm _ _ _ Hwf Hrun) as He. eapply evolves_trans; [exact He|].
    eapply Hf; [by apply He|exact Hx].
  - intros [= _ <-]. by eapply Hm.
Qed.
Lemma advances_fold {A B} (l : list A) (body : B → A → task B) acc :
  (∀ b x, advances (body b x)) → advances (fold_for l body acc).
Proof.
  intros Hb. revert acc. induction l as [|x l IH]; intros acc; cbn [fold_for].
  - by apply off_chain_advances.
  - by apply advances_bind.
Qed.

Lemma advances_lift {A B} (o : outcome A) (f : A → task B) :
  (∀ x, o = Ok x → advances (f x)) → advances (lift o ≫= f).
Proof.
  intros Hf w r w' Hwf. destruct o as [x|e]; [by apply Hf|]. intros [= _ <-]. by apply evolves_refl.
Qed.

End rules.

Create HintDb task.
#[export] Hint Resolve off_chain_ret off_chain_lift off_chain_throw off_chain_gets off_chain_console
  off_chain_write off_chain_mkdir off_chain_read off_chain_stat : task.

(** Symbolic execution for [off_chain] and [advances]. *)
Ltac off := repeat first
  [ solve [auto with task]
  | apply off_chain_bind; [|intros ?]
  | match goal with |- off_chain (match ?x with _ => _ end) => destruct x end ].
Ltac advance := repeat first
  [ solve [auto with task]
  | solve [apply off_chain_advances; auto with task]
  | apply advances_bind; [|intros ?]
  | match goal with |- advances (match ?x with _ => _ end) => destruct x end ].

Section tasks.
Context {X : Type} `{Toml} `{Artifacts} `{Evm, !Contracts X, !EvmLaws, Hardhat}.
Implicit Types (c : chain X) (w : world (chain X)) (factory owner : address).
Abbreviation task := (M (world (chain X))).

(** *** Files, artifacts and queries *)
Lemma off_chain_readTOML d u : off_chain (X := X) (readTOML d u).
Proof. intros w. by rewrite readTOML_pure. Qed.
#[local] Hint Resolve off_chain_readTOML : task.
Lemma off_chain_writeFactoryState n f d u : off_chain (X := X) (writeFactoryState n f d u).
Proof. unfold writeFactoryState, getenv, existsSync, readFactoryState. off. Qed.
#[local] Hint Resolve off_chain_writeFactoryState : task.
Lemma off_chain_updateFactory n d u : off_chain (X := X) (updateDefaultFactoryData n d u).
Proof. unfold updateDefaultFactoryData. off. Qed.
Lemma off_chain_updateList {D} `{Entry D} n f (d : D) u : off_chain (X := X) (updateList n f d u).
Proof. unfold updateList, getenv, readFactoryState. off. Qed.
Lemma off_chain_updateCreate n d u : off_chain (X := X) (updateDeployCreateList n d u).
Proof. apply off_chain_updateList. Qed.
Lemma off_chain_updateTemplate n d u : off_chain (X := X) (updateTemplateList n d u).
Proof. apply off_chain_updateList. Qed.
Lemma off_chain_updateProxy n d u : off_chain (X := X) (updateProxyList n d u).
Proof. apply off_chain_updateList. Qed.
Lemma off_chain_updateMeta n d u : off_chain (X := X) (updateMetaList n d u).
Proof. apply off_chain_updateList. Qed.
Lemma off_chain_showState s : off_chain (X := X) (showState s).
Proof. unfold showState, getenv. off. Qed.
Lemma off_chain_checkUserDirPath p : off_chain (X := X) (FactoryTasks.checkUserDirPath p).
Proof. unfold FactoryTasks.checkUserDirPath, existsSync. off. Qed.
Lemma off_chain_getSalt n : off_chain (X := X) (FactoryTasks.getSalt n).
Proof. unfold FactoryTasks.getSalt. off. Qed.
#[local] Hint Resolve off_chain_getSalt : task.
Lemma off_chain_getBytes32Salt n : off_chain (X := X) (getBytes32Salt n).
Proof. unfold getBytes32Salt. off. Qed.
Lemma off_chain_encodeInitCallData n d : off_chain (X := X) (encodeInitCallData n d).
Proof. unfold encodeInitCallData. off. Qed.
Lemma off_chain_constructorArgs n d : off_chain (X := X) (getDeploymentConstructorArgs n d).
Proof. unfold getDeploymentConstructorArgs, readDeploymentArgs. off. Qed.
Lemma off_chain_initializerArgs n d : off_chain (X := X) (getDeploymentInitializerArgs n d).
Proof. unfold getDeploymentInitializerArgs, readDeploymentArgs. off. Qed.
#[local] Hint Resolve off_chain_constructorArgs off_chain_initializerArgs : task.
Lemma off_chain_metaArgs n f i o : off_chain (X := X) (getDeployMetaArgs n f i o).
Proof. unfold getDeployMetaArgs. off. Qed.
Lemma off_chain_proxyArgs n f i o : off_chain (X := X) (getDeployUpgradeableProxyArgs n f i o).
Proof. unfold getDeployUpgradeableProxyArgs. off. Qed.
Lemma off_chain_deploymentList d : off_chain (X := X) (getDeploymentList d).
Proof. unfold getDeploymentList, readDeploymentList. off. Qed.
Lemma off_chain_count a : off_chain (X := X) (getTransactionCount a).
Proof. done. Qed.
Lemma off_chain_getImplementation f : off_chain (X := X) (getImplementation f).
Proof. unfold getImplementation. off. Qed.
Lemma off_chain_estimate {A} t (body : M (chain X * list Event) A) : off_chain (X := X) (estimateGas t body).
Proof. intros w. unfold estimateGas. by destruct (run_tx _ _ _) as [[[r rc] c]|]. Qed.
#[local] Hint Resolve off_chain_estimate : task.
Lemma off_chain_estimateGas f fc : off_chain (X := X) (factory_estimateGas f fc).
Proof. unfold factory_estimateGas. off. Qed.
#[local] Hint Resolve off_chain_updateFactory off_chain_updateCreate off_chain_updateTemplate
  off_chain_updateProxy off_chain_updateMeta off_chain_showState
  off_chain_checkUserDirPath off_chain_getBytes32Salt off_chain_encodeInitCallData
  off_chain_metaArgs off_chain_proxyArgs off_chain_deploymentList off_chain_count
  off_chain_getImplementation off_chain_estimateGas : task.

(** *** Transactions *)
Hypothesis Hsigner : ∀ owner, head signers = Some owner → eoa owner.

Lemma signer_eoa owner : signer = Ok owner → eoa owner.
Proof. unfold signer. intros Hs. apply of_option_ok in Hs. by apply Hsigner. Qed.

Lemma advances_raise : advances (X := X) raiseBlockGasLimit.
Proof.
  intros w r w' Hwf. rewrite raiseBlockGasLimit_ok. intros [= _ <-].
  destruct (raised_same (chain_state w)) as (Ha & Hf & Hn & _). apply evolves_same; [done..|].
  intros a. cbn. by rewrite Hf.
Qed.
Lemma advances_send {A} t (body : M (chain X * list Event) A) :
  (∀ c r rc c', chain_wf c → run_tx t body c = Ok (r, rc, c') → evolves c c') →
  advances (send t body).
Proof.
  intros Hb w r w' Hwf. unfold send. destruct (run_tx _ _ _) as [[[y rc] c]|e] eqn:Hrun.
  - intros [= _ <-]. by eapply Hb.
  - intros [= _ <-]. by apply evolves_refl.
Qed.

Lemma advances_send_method {A} t (body : M (chain X * list Event) A) :
  eoa (tx_from t) →
  (∀ c r rc c', chain_wf c → run_tx t body c = Ok (r, rc, c') → evolves c c') →
  advances (send_method t body).
Proof.
  intros He Hb w r w' Hwf. unfold send_method. destruct (run_tx _ _ _) as [[[y rc] c]|e] eqn:Hrun.
  - intros [= _ <-]. by eapply Hb.
  - intros [= _ <-]. cbn. unfold refused. destruct fixed_gas; [|by apply evolves_refl].
    assert (evolves (chain_state w) (bump (tx_from t) (chain_state w))) as Hbump
      by (apply evolves_bump; [done|by right]).
    eapply evolves_trans; [exact Hbump|]. apply evolves_same; [by apply Hbump|done..].
Qed.

Lemma factory_tx_inv factory fc t :
  factory_tx factory fc = Ok t →
  eoa (tx_from t) ∧ tx_value t = 0 ∧ decode (tx_data t) = Some fc.
Proof.
  unfold factory_tx, encodeFactoryData. destruct signer as [owner|] eqn:Hs; [|done]. cbn.
  destruct (valid_call fc) eqn:Hv; [|done]. cbn. intros [= <-]. cbn.
  split; [by apply signer_eoa|]. split; [done|by apply decode_encode].
Qed.
Lemma advances_call_tx t self :
  eoa (tx_from t) → advances (X := X) (send_method t (call_tx t self)).
Proof.
  intros He. apply advances_send_method; [done|]. intros c r rc c' Hwf.
  apply (run_tx_keeps true_of); [by apply keeps_call_tx|done|done].
Qed.
Lemma advances_factory_send factory fc : advances (X := X) (factory_send factory fc).
Proof.
  intros w r w' Hwf. unfold factory_send. destruct (factory_tx factory fc) as [t|e] eqn:Ht.
  - run_step. apply factory_tx_inv in Ht as (He & _).
    refine (advances_bind _ _ (advances_call_tx t factory He) _ w r w' Hwf). intros x.
    by apply off_chain_advances.
  - rewrite bind_lift_throw. intros [= _ <-]. by apply evolves_refl.
Qed.

(** *** Every deployment task *)
#[local] Hint Resolve advances_raise advances_factory_send : task.

Lemma advances_deployCreate a : advances (X := X) (deployCreate_task a).
Proof. unfold deployCreate_task. advance. Qed.
Lemma advances_deployProxy a : advances (X := X) (deployProxy_task a).
Proof. unfold deployProxy_task. advance. Qed.
Lemma advances_upgradeDeployedProxy a : advances (X := X) (upgradeDeployedProxy a).
Proof. unfold upgradeDeployedProxy. advance. Qed.
Lemma advances_multiCallDeployProxy a : advances (X := X) (multiCallDeployProxy a).
Proof. unfold multiCallDeployProxy. advance. Qed.
#[local] Hint Resolve advances_deployCreate advances_deployProxy advances_multiCallDeployProxy : task.
Lemma advances_deployUpgradeableProxy a : advances (X := X) (deployUpgradeableProxy a).
Proof. unfold deployUpgradeableProxy. advance. Qed.
#[local] Hint Resolve advances_deployUpgradeableProxy : task.
Lemma advances_fullMultiCallDeployProxy a : advances (X := X) (fullMultiCallDeployProxy a).
Proof. unfold fullMultiCallDeployProxy. advance. Qed.
Lemma advances_deployTemplate a : advances (X := X) (deployTemplate_task a).
Proof. unfold deployTemplate_task. advance. Qed.
Lemma advances_deployStatic a : advances (X := X) (deployStatic_task a).
Proof. unfold deployStatic_task. advance. Qed.
#[local] Hint Resolve advances_deployTemplate advances_deployStatic : task.
Lemma advances_deployMetamorphic a : advances (X := X) (deployMetamorphic a).
Proof. unfold deployMetamorphic. advance. Qed.
#[local] Hint Resolve advances_deployMetamorphic : task.
Lemma advances_multiCallDeployMetamorphic a : advances (X := X) (multiCallDeployMetamorphic a).
Proof. unfold multiCallDeployMetamorphic. advance. Qed.
#[local] Hint Resolve advances_fullMultiCallDeployProxy advances_multiCallDeployMetamorphic : task.
Lemma advances_deploy_contract f i o n : advances (X := X) (deploy_contract f i o n).
Proof. unfold deploy_contract. advance. Qed.
#[local] Hint Resolve advances_deploy_contract : task.

Lemma advances_deployFactory a : advances (X := X) (deployFactory a).
Proof.
  unfold deployFactory, getAccounts. apply advances_bind; [advance|intros _].
  apply advances_bind; [advance|intros fb]. apply advances_lift. intros owner Ho.
  apply of_option_ok, Hsigner in Ho. apply advances_bind; [advance|intros n]. cbv zeta.
  apply advances_bind; [advance|intros data]. apply advances_bind; [advance|intros g].
  apply advances_bind; [|intros d; advance].
  apply advances_send. intros c r rc c' Hwf. apply (run_tx_keeps (λ c, may_create c owner)).
  - apply create_factory_keeps.
  - done.
  - by right.
Qed.
#[local] Hint Resolve advances_deployFactory : task.

Lemma advances_deployContracts a : advances (X := X) (deployContracts a).
Proof.
  unfold deployContracts. apply advances_bind; [advance|intros _].
  apply advances_bind; [|intros start].
  { destruct (ta_factoryAddress a); advance. }
  apply advances_bind; [advance|intros v]. apply advances_bind; [advance|intros l].
  apply advances_bind; [|intros g; advance]. apply advances_fold. intros acc x. advance.
Qed.
End tasks.
#[export] Hint Resolve off_chain_readTOML off_chain_writeFactoryState off_chain_getSalt off_chain_constructorArgs
  off_chain_initializerArgs off_chain_estimate off_chain_updateFactory
  off_chain_updateCreate off_chain_updateTemplate off_chain_updateProxy off_chain_updateMeta
  off_chain_showState off_chain_checkUserDirPath off_chain_getBytes32Salt
  off_chain_encodeInitCallData off_chain_metaArgs off_chain_proxyArgs
  off_chain_deploymentList off_chain_count off_chain_getImplementation off_chain_estimateGas
  advances_raise advances_factory_send advances_deployCreate advances_deployProxy
  advances_multiCallDeployProxy advances_deployUpgradeableProxy advances_deployTemplate
  advances_deployStatic advances_deployMetamorphic advances_fullMultiCallDeployProxy
  advances_multiCallDeployMetamorphic advances_deploy_contract advances_deployFactory : task.
