(* ===== verification/StateFile.v ===== *)
(** * The files a deployment writes

    Whatever [deployContracts] and the tasks it runs do and however they end, the
    files they touch are the factory state files and the user's output folder. *)
From S2P Require Import Prelude JsString JsValue Toml World Constants Config Artifacts.
From S2P Require Import DeploymentUtil DeploymentList DeployArgs FactoryState Chain Hardhat.
From S2P Require Import FactoryTasks TaskSpec.
#[local] Open Scope Z_scope.

Section files.
Context {X : Type} `{Toml} `{Artifacts} `{Evm, !Contracts X, Hardhat}.
Context (e : gmap string string).
Implicit Types (w : world (chain X)) (u : option string).
Abbreviation task := (M (world (chain X))).

(** What may be touched with the output folder [u]: the folder itself, and,
    unless the scripts are silenced, the state file below it and the default one. *)
Definition touched u (q : path) : Prop :=
  (∃ p, u = Some p ∧ q = path_of p) ∨
  not_silenced (e !! "silencer") = true ∧ (q = path_of (state_path u) ∨ q = path_of FACTORY_STATE_PATH).
(** [m] run in the environment [e] touches no other file. *)
Definition confined {A} u (m : task A) : Prop :=
  ∀ w, env w = e →
    env (m w).2 = e ∧ ∀ q, ¬ touched u q → node_at (files (m w).2) q = node_at (files w) q.

Lemma confined_bind {A B} u (m : task A) (f : A → task B) :
  confined u m → (∀ x, confined u (f x)) → confined u (m ≫= f).
Proof.
  intros Hm Hf w He. unfold mbind, M_bind. destruct (Hm w He) as [He1 Hq1].
  destruct (m w) as [[x|err] w1]; [|done]. cbn in He1, Hq1. destruct (Hf x w1 He1) as [He2 Hq2].
  split; [done|]. intros q Hq. by rewrite Hq2, Hq1.
Qed.
Lemma confined_bind_result {A B} u (m : task A) (f : A → task B) :
  confined u m → (∀ x, (∃ w w', m w = (Ok x, w')) → confined u (f x)) → confined u (m ≫= f).
Proof.
  intros Hm Hf w He. unfold mbind, M_bind. destruct (Hm w He) as [He1 Hq1].
  destruct (m w) as [[x|err] w1] eqn:Hrun; [|done]. cbn in He1, Hq1.
  destruct (Hf x ltac:(by eexists _, _) w1 He1) as [He2 Hq2].
  split; [done|]. intros q Hq. by rewrite Hq2, Hq1.
Qed.
Lemma confined_default {A} u (m : task A) : confined None m → confined u m.
Proof.
  intros Hm w He. destruct (Hm w He) as [He1 Hq1]. split; [done|]. intros q Hq. apply Hq1.
  intros [(p & [=] & _)|[Hs Hp]]. apply Hq. right. split; [done|]. by right; destruct Hp.
Qed.
(** Statements that write no file. *)
Lemma confined_same {A} u (m : task A) :
  (∀ w, files (m w).2 = files w ∧ env (m w).2 = env w) → confined u m.
Proof. intros Hm w He. destruct (Hm w) as [Hf Henv]. split; [congruence|]. intros q _. by rewrite Hf. Qed.
Lemma node_at_other fs (p q : path) n :
  node_at fs p ≠ Some Dir → q ≠ p → node_at (<[p := n]> fs) q = node_at fs q.
Proof.
  intros Hp Hq. rewrite node_at_insert; [by rewrite decide_False|].
  intros Hk. apply Hp. unfold node_at. by rewrite Hk.
Qed.
Lemma confined_write u s d : touched u (path_of s) → confined u (writeFileSync s d).
Proof.
  intros Hp w He. unfold writeFileSync.
  destruct (node_at (files w) (path_of s)) as [[data|]|] eqn:Hn; [|done|destruct (can_create _ _); [|done]];
    (split; [done|]); intros q Hq; (apply node_at_other; [by rewrite Hn|by intros ->]).
Qed.
Lemma confined_mkdir u s : touched u (path_of s) → confined u (mkdirSync s).
Proof.
  intros Hp w He. unfold mkdirSync.
  destruct (node_at (files w) (path_of s)) as [n|] eqn:Hn; [done|destruct (can_create _ _); [|done]].
  split; [done|]. intros q Hq. apply node_at_other; [by rewrite Hn|by intros ->].
Qed.
Lemma touched_folder p : touched (Some p) (path_of p).
Proof. left. eauto. Qed.
Lemma touched_state u : not_silenced (e !! "silencer") = true → touched u (path_of (state_path u)).
Proof. intros Hs. right. eauto. Qed.

(** The statements of the scripts. *)
Lemma confined_lift {A} u (o : outcome A) : confined u (lift o).
Proof. by apply confined_same. Qed.
Lemma confined_readFile u s : confined u (readFileSync s).
Proof. apply confined_same. intros w. unfold readFileSync. by destruct (node_at _ _) as [[]|]. Qed.
Lemma confined_stat u s : confined u (statIsFile s).
Proof. apply confined_same. intros w. unfold statIsFile. by destruct (node_at _ _) as [[]|]. Qed.
Lemma confined_estimate {A} u t (body : M (chain X * list Event) A) : confined u (estimateGas t body).
Proof. apply confined_same. intros w. unfold estimateGas. by destruct (run_tx _ _ _) as [[[r rc] c]|]. Qed.
Lemma confined_send {A} u t (body : M (chain X * list Event) A) : confined u (send t body).
Proof. apply confined_same. intros w. unfold send. by destruct (run_tx _ _ _) as [[[r rc] c]|]. Qed.
Lemma confined_send_method {A} u t (body : M (chain X * list Event) A) : confined u (send_method t body).
Proof. apply confined_same. intros w. unfold send_method. by destruct (run_tx _ _ _) as [[[r rc] c]|]. Qed.
Lemma confined_readTOML u d p : confined u (readTOML d p).
Proof. apply confined_same. intros w. by rewrite readTOML_pure. Qed.
Lemma confined_raise u : confined u (raiseBlockGasLimit (X := X)).
Proof. apply confined_same. intros w. by rewrite raiseBlockGasLimit_ok. Qed.
Lemma confined_fold {A B} u (l : list A) (body : B → A → task B) acc :
  (∀ b x, confined u (body b x)) → confined u (fold_for l body acc).
Proof.
  intros Hb. revert acc. induction l as [|x l IH]; intros acc; cbn [fold_for]; [by apply confined_same|].
  by apply confined_bind.
Qed.
(** A test of the environment. *)
Lemma confined_silencer {A} u (f : option string → task A) :
  confined u (f (e !! "silencer")) → confined u (getenv "silencer" ≫= f).
Proof. intros Hf w He. unfold getenv. rewrite bind_gets, He. by apply Hf. Qed.
End files.

Create HintDb files.
#[export] Hint Resolve confined_lift confined_readFile confined_stat confined_estimate confined_send
  confined_send_method confined_readTOML confined_raise confined_write confined_mkdir
  touched_folder touched_state : files.
(** Symbolic execution for [confined]. *)
Ltac confine := repeat first
  [ solve [auto with files]
  | solve [by apply confined_same]
  | apply confined_silencer; case_match
  | apply confined_bind; [|intros ?]
  | match goal with |- confined _ _ (match ?x with _ => _ end) => destruct x end ].

Section tasks.
Context {X : Type} `{Toml} `{Artifacts} `{Evm, !Contracts X, Hardhat}.
Context (e : gmap string string).
Implicit Types (w : world (chain X)) (u : option string).
Abbreviation confined := (confined (X := X) e).

Lemma confined_showState u m : confined u (showState m).
Proof. unfold showState. confine. Qed.
Lemma confined_checkUserDirPath u : confined u (FactoryTasks.checkUserDirPath u).
Proof. unfold FactoryTasks.checkUserDirPath. confine. Qed.
Lemma confined_writeState n fl d u : confined u (writeFactoryState n fl d u).
Proof. unfold writeFactoryState, readFactoryState. confine. Qed.
#[local] Hint Resolve confined_showState confined_checkUserDirPath confined_writeState : files.
Lemma confined_updateFactory n d u : confined u (updateDefaultFactoryData n d u).
Proof. unfold updateDefaultFactoryData. confine. Qed.
Lemma confined_updateList {D} `{Entry D} n fl (d : D) u : confined u (updateList n fl d u).
Proof. unfold updateList, readFactoryState. confine. Qed.
Lemma confined_updateCreate n d u : confined u (updateDeployCreateList n d u).
Proof. apply confined_updateList. Qed.
Lemma confined_updateTemplate n d u : confined u (updateTemplateList n d u).
Proof. apply confined_updateList. Qed.
Lemma confined_updateProxy n d u : confined u (updateProxyList n d u).
Proof. apply confined_updateList. Qed.
Lemma confined_updateMeta n d u : confined u (updateMetaList n d u).
Proof. apply confined_updateList. Qed.
#[local] Hint Resolve confined_updateFactory confined_updateCreate confined_updateTemplate
  confined_updateProxy confined_updateMeta : files.

Lemma confined_getSalt u n : confined u (FactoryTasks.getSalt n).
Proof. unfold FactoryTasks.getSalt. confine. Qed.
#[local] Hint Resolve confined_getSalt : files.
Lemma confined_getBytes32Salt u n : confined u (getBytes32Salt n).
Proof. unfold getBytes32Salt. confine. Qed.
Lemma confined_encodeInitCallData u n d : confined u (encodeInitCallData n d).
Proof. unfold encodeInitCallData. confine. Qed.
Lemma confined_constructorArgs u n d : confined u (getDeploymentConstructorArgs n d).
Proof. unfold getDeploymentConstructorArgs, readDeploymentArgs. confine. Qed.
Lemma confined_initializerArgs u n d : confined u (getDeploymentInitializerArgs n d).
Proof. unfold getDeploymentInitializerArgs, readDeploymentArgs. confine. Qed.
#[local] Hint Resolve confined_constructorArgs confined_initializerArgs : files.
Lemma confined_metaArgs u n f i o : confined u (getDeployMetaArgs n f i o).
Proof. unfold getDeployMetaArgs. confine. Qed.
Lemma confined_proxyArgs u n f i o : confined u (getDeployUpgradeableProxyArgs n f i o).
Proof. unfold getDeployUpgradeableProxyArgs. confine. Qed.
Lemma confined_deploymentList u d : confined u (getDeploymentList d).
Proof. unfold getDeploymentList, readDeploymentList. confine. Qed.
Lemma confined_factory_send u f fc : confined u (factory_send f fc).
Proof. unfold factory_send. confine. Qed.
Lemma confined_estimateGas u f fc : confined u (factory_estimateGas f fc).
Proof. unfold factory_estimateGas. confine. Qed.
#[local] Hint Resolve confined_getBytes32Salt confined_encodeInitCallData confined_metaArgs confined_proxyArgs
  confined_deploymentList confined_factory_send confined_estimateGas : files.

(** *** The tasks *)
Lemma confined_deployFactory a : confined (ta_outputFolder a) (deployFactory a).
Proof. unfold deployFactory. confine. Qed.
Lemma confined_deployCreate a : confined (ta_outputFolder a) (deployCreate_task a).
Proof. unfold deployCreate_task. confine. Qed.
Lemma confined_deployProxy a u : confined u (deployProxy_task a).
Proof. unfold deployProxy_task. confine. Qed.
Lemma confined_multiCallDeployProxy a : confined (ta_outputFolder a) (multiCallDeployProxy a).
Proof. unfold multiCallDeployProxy. confine. Qed.
Lemma confined_deployTemplate a : confined (ta_outputFolder a) (deployTemplate_task a).
Proof. unfold deployTemplate_task. confine. Qed.
Lemma confined_deployStatic a : confined (ta_outputFolder a) (deployStatic_task a).
Proof. unfold deployStatic_task, getImplementation. confine. Qed.
#[local] Hint Resolve confined_deployFactory confined_deployProxy : files.
Ltac subtask := match goal with
  | |- context[deployCreate_task ?b] => apply (confined_deployCreate b)
  | |- context[multiCallDeployProxy ?b] => apply (confined_multiCallDeployProxy b)
  | |- context[deployTemplate_task ?b] => apply (confined_deployTemplate b)
  | |- context[deployStatic_task ?b] => apply (confined_deployStatic b)
  end.
Lemma confined_deployUpgradeableProxy a : confined (ta_outputFolder a) (deployUpgradeableProxy a).
Proof. unfold deployUpgradeableProxy. confine; subtask. Qed.
Lemma confined_deployMetamorphic a : confined (ta_outputFolder a) (deployMetamorphic a).
Proof. unfold deployMetamorphic. confine; subtask. Qed.
Lemma confined_fullMultiCallDeployProxy a : confined (ta_outputFolder a) (fullMultiCallDeployProxy a).
Proof.
  unfold fullMultiCallDeployProxy. confine.
Qed.
Lemma confined_multiCallDeployMetamorphic a : confined (ta_outputFolder a) (multiCallDeployMetamorphic a).
Proof.
  unfold multiCallDeployMetamorphic. confine.
Qed.

(** The arguments of a task carry the output folder. *)
Lemma metaArgs_output n f i o (w w' : world (chain X)) x :
  getDeployMetaArgs n f i o w = (Ok x, w') → outputFolder x = o.
Proof. unfold getDeployMetaArgs. intros Hrun. do 4 inv_bind Hrun. by injection Hrun as <- _. Qed.
Lemma proxyArgs_output n f i o (w w' : world (chain X)) x :
  getDeployUpgradeableProxyArgs n f i o w = (Ok x, w') → outputFolder x = o.
Proof. unfold getDeployUpgradeableProxyArgs. intros Hrun. do 4 inv_bind Hrun. by injection Hrun as <- _. Qed.

Lemma confined_deploy_contract f i u n : confined u (deploy_contract f i u n).
Proof.
  unfold deploy_contract. apply confined_bind; [auto with files|intros ty].
  case_decide; [|case_decide; [|confine]]; (apply confined_bind_result; [auto with files|]);
    intros x (w & w' & Hx); (apply confined_bind; [|intros ?; confine]).
  - apply metaArgs_output in Hx. rewrite <- Hx. apply (confined_multiCallDeployMetamorphic (deployArgs_task x)).
  - apply confined_default. apply proxyArgs_output in Hx. rewrite <- Hx.
    apply (confined_fullMultiCallDeployProxy (deployArgs_task x)).
Qed.

Lemma confined_deployContracts a : confined (ta_outputFolder a) (deployContracts a).
Proof.
  unfold deployContracts. apply confined_bind; [auto with files|intros _].
  apply confined_bind.
  { destruct (ta_factoryAddress a); [confine|]. apply confined_bind; [|intros ?; confine].
    match goal with |- context[deployFactory ?b] => apply (confined_deployFactory b) end. }
  intros start. pose proof (confined_deploy_contract start.1 (ta_inputFolder a) (ta_outputFolder a)).
  do 2 (apply confined_bind; [auto with files|intros ?]).
  apply confined_bind; [|intros ?; confine]. apply confined_fold. intros g v. confine.
Qed.

Lemma deployFactory_files a w q :
  ta_outputFolder a = None → env w = e → q ≠ path_of FACTORY_STATE_PATH →
  node_at (files (deployFactory a w).2) q = node_at (files w) q.
Proof.
  intros Hout He Hq. pose proof (confined_deployFactory a w He) as [_ Hf]. rewrite Hout in Hf.
  apply Hf. intros [(p & [=] & _)|[_ Hp]]. by destruct Hp.
Qed.

End tasks.

Section deployment.
Context {X : Type} `{Toml} `{Artifacts} `{Evm, !Contracts X, Hardhat}.
Implicit Types (w : world (chain X)).

(** C40: however [deployContracts] ends, it changes no environment variable and no
    file but the state file of its output folder, the default state file (where
    the upgradeable contracts are recorded whatever the output folder) and the
    folder itself; silenced, it writes no file at all and at most makes that
    folder. *)
Theorem deployContracts_files a w r w' :
  deployContracts a w = (r, w') →
  env w' = env w ∧
  ∀ q, (∀ p, ta_outputFolder a = Some p → q ≠ path_of p) →
    not_silenced (env w !! "silencer") = false ∨
      q ≠ path_of (state_path (ta_outputFolder a)) ∧ q ≠ path_of FACTORY_STATE_PATH →
    node_at (files w') q = node_at (files w) q.
Proof.
  intros Hrun. destruct (confined_deployContracts (env w) a w eq_refl) as [He' Hq]. rewrite Hrun in He', Hq.
  split; [exact He'|]. intros q Hfolder Hstate. apply Hq. intros [(p & Hp & ->)|[Hs Hp]].
  - by apply (Hfolder p).
  - destruct Hstate as [Hs'|[Hq1 Hq2]]; [congruence|]. by destruct Hp.
Qed.
End deployment.
