(* ===== verification/DeployInvariant.v ===== *)
(** * A deployment as a whole

    When [deployContracts] succeeds, each contract of its list is where its salt
    says, which is where the generated ImmutableAuth.sol expects it; and however
    it ends, the chain only gains contracts. *)
From S2P Require Import Prelude JsString JsValue Toml World Constants Config Artifacts.
From S2P Require Import DeploymentUtil DeploymentList DeployArgs FactoryState Chain ChainLaws.
From S2P Require Import FactorySpec Promises Hardhat FactoryTasks TaskSpec DeploySpec.
From S2P Require Import ImmutableAuth TaskChain StateFile.
#[local] Open Scope Z_scope.

(** ** Rules *)
Section rules.
Context {X : Type} `{Evm, !Contracts X, !EvmLaws}.
Implicit Types (c : chain X) (w : world (chain X)) (P Q : chain X → Prop).
Abbreviation task := (M (world (chain X))).

(** From a chain where [P] holds, [m] succeeds only with [Q]. *)
Definition leaves {A} P (m : task A) Q : Prop :=
  ∀ w x w', chain_wf (chain_state w) → P (chain_state w) → m w = (Ok x, w') → Q (chain_state w').

Lemma leaves_later {A B} P (m : task A) (f : A → task B) Q :
  stable P → advances m → (∀ x, leaves P (f x) Q) → leaves P (m ≫= f) Q.
Proof.
  intros HP Hm Hf w y w' Hwf Hw Hrun. apply bind_inv in Hrun as (x & w1 & H1 & H2).
  pose proof (Hm _ _ _ Hwf H1) as He. eapply Hf; [by apply He|by eapply HP|exact H2].
Qed.
Lemma leaves_now {A B} P (m : task A) (f : A → task B) Q :
  advances m → leaves P m Q → stable Q → (∀ x, advances (f x)) → leaves P (m ≫= f) Q.
Proof.
  intros Ha Hm HQ Hf w y w' Hwf Hw Hrun. apply bind_inv in Hrun as (x & w1 & H1 & H2).
  pose proof (Ha _ _ _ Hwf H1) as He. eapply HQ; [by eapply Hm|].
  eapply Hf; [by apply He|exact H2].
Qed.
Lemma leaves_lift {A B} P (o : outcome A) (f : A → task B) Q :
  (∀ x, o = Ok x → leaves P (f x) Q) → leaves P (lift o ≫= f) Q.
Proof. intros Hf w y w' Hwf Hw. destruct o as [x|e]; [by apply Hf|done]. Qed.
Lemma leaves_weaken {A} P (m : task A) (Q Q' : chain X → Prop) :
  leaves P m Q → (∀ c, Q c → Q' c) → leaves P m Q'.
Proof. intros Hm HQ w x w' Hwf Hw Hrun. by eapply HQ, Hm. Qed.
Lemma leaves_throw {A} P e Q : leaves P (throw e : task A) Q.
Proof. by intros w x w' _ _ [=]. Qed.
End rules.

Section tasks.
Context {X : Type} `{Toml} `{Artifacts} `{Evm, !Contracts X, !EvmLaws, Hardhat}.
Implicit Types (c : chain X) (w : world (chain X)) (factory owner : address).
Abbreviation task := (M (world (chain X))).
Hypothesis Hsigner : ∀ owner, head signers = Some owner → eoa owner.

Definition hosted factory : chain X → Prop := has_code factory FactoryCode.

(** The factory keeps its promises in the transactions the tasks send. *)
Lemma factory_send_promises factory fc :
  leaves (hosted factory) (factory_send factory fc) (promises factory fc).
Proof.
  unfold factory_send. apply leaves_lift. intros t (He & Hv & Hd)%(factory_tx_inv Hsigner) w x w' Hwf Hk Hrun.
  apply bind_inv in Hrun as (r & w1 & Hsend & [= _ <-]). unfold send_method in Hsend.
  destruct (run_tx _ _ _) as [[[u rc] c]|e] eqn:Hrun; [|done]. injection Hsend as _ <-.
  by eapply run_tx_promises.
Qed.

(** ** What the tasks leave *)

(** A contract's salt, which no task changes. *)
Definition salted (contractName salt : string) : Prop :=
  ∀ w, (getBytes32Salt contractName w).1 = Ok salt.
Lemma salted_of n salt w w' : getBytes32Salt (X := X) n w = (Ok salt, w') → salted n salt.
Proof.
  intros Hrun v. revert Hrun. unfold getBytes32Salt, FactoryTasks.getSalt, console_log.
  unfold mbind, M_bind, lift. destruct (DeploymentUtil.getFullyQualifiedName n) as [q|]; [|done].
  cbn. destruct (getBuildInfo q) as [[b|]|]; [| |done]; cbn.
  - unfold contract_output. cbn. destruct (contracts_output b !! extractPath q) as [g|]; [|done]. cbn.
    destruct (g !! n) as [info|]; [|done]. cbn. by intros [= ->].
  - by intros [= ->].
Qed.

Lemma leaves_salt {B} P n salt (f : hexdata → task B) Q :
  stable P → salted n salt → leaves P (f salt) Q → leaves P (getBytes32Salt n ≫= f) Q.
Proof.
  intros HP Hs Hf w x w' Hwf Hw Hrun. apply bind_inv in Hrun as (s & w1 & H1' & H2').
  pose proof (off_chain_getBytes32Salt n w) as Hc. specialize (Hs w). rewrite H1' in Hs, Hc.
  cbn in Hs, Hc. injection Hs as ->. rewrite <- Hc in Hwf, Hw. by eapply Hf.
Qed.

Lemma required_inv n v x : required n v = Ok x → v = Some x.
Proof. apply of_option_ok. Qed.
Lemma encodeFactoryData_inv fc d : encodeFactoryData fc = Ok d → decode d = Some fc.
Proof.
  unfold encodeFactoryData. destruct (valid_call fc) eqn:Hv; [|done]. intros [= <-].
  by apply decode_encode.
Qed.
Lemma stable_hosted factory : stable (hosted factory).
Proof. apply stable_has_code. Qed.
#[local] Hint Resolve stable_hosted stable_metamorphic stable_has_code stable_promises : keeps.

(** Symbolic execution for [leaves] up to the transaction that matters. *)
Ltac leave := repeat (cbv zeta; lazymatch goal with
  | |- leaves _ (lift _ ≫= _) _ =>
      apply leaves_lift; let x := fresh "x" in let Hx := fresh "Hx" in intros x Hx
  | |- leaves _ (throw _) _ => apply leaves_throw
  | |- leaves _ (if _ then _ else _) _ => case_match
  | |- leaves _ (match ?x with _ => _ end) _ => destruct x eqn:?
  | |- leaves _ (getBytes32Salt _ ≫= _) _ => fail
  | |- leaves _ (factory_send _ _ ≫= _) _ => fail
  | |- leaves _ (_ ≫= _) _ => apply leaves_later; [solve [auto with keeps]|solve [advance]|intros ?]
  end).

(** The transaction of a task: afterwards its call has kept its promise. *)
Lemma leaves_send {B} factory fc (f : Receipt → task B) Q :
  (∀ c, promises factory fc c → Q c) → (∀ r, advances (f r)) →
  leaves (hosted factory) (factory_send factory fc ≫= f) Q.
Proof.
  intros HQ Hf. apply (leaves_weaken _ _ (promises factory fc)); [|exact HQ].
  apply leaves_now; [auto with task|apply factory_send_promises|auto with keeps|exact Hf].
Qed.

Lemma deployProxy_leaves a factory salt :
  ta_salt a = Some salt → ta_factoryAddress a = Some factory →
  leaves (X := X) (hosted factory) (deployProxy_task a) (metamorphic_at factory salt).
Proof.
  intros Hs Hf. unfold deployProxy_task. leave.
  apply required_inv in Hx, Hx0. rewrite Hs in Hx. rewrite Hf in Hx0. injection Hx as <-. injection Hx0 as <-.
  apply leaves_send; [by intros c [? _]|]. intros r. advance.
Qed.

Lemma promises_proxy factory l d1 d2 salt impl data c :
  promises factory (multiCall l) c → d1 ∈ l → d2 ∈ l →
  decode d1 = Some (deployProxy salt) → decode d2 = Some (upgradeProxy salt impl data) →
  has_code (meta_address factory salt) (ProxyCode factory) c.
Proof.
  intros [_ Hl] Hi1 Hi2 Hd1 Hd2. apply metamorphic_proxy.
  - exact (Hl l d1 _ eq_refl Hi1 Hd1).
  - exact (Hl l d2 _ eq_refl Hi2 Hd2).
Qed.
Lemma promises_static factory l d salt data c :
  promises factory (multiCall l) c → d ∈ l → decode d = Some (deployStatic salt data) →
  metamorphic_at factory salt c.
Proof. intros [_ Hl] Hi Hd. exact (Hl l d _ eq_refl Hi Hd). Qed.

(** The names, factories and salts the tasks resolve are the given ones. *)
Ltac resolved := repeat match goal with
  | Hr : required _ ?v = Ok _, Hv : ?v = Some _ |- _ =>
      apply required_inv in Hr; rewrite Hv in Hr; injection Hr as <-
  | He : encodeFactoryData _ = Ok _ |- _ => apply encodeFactoryData_inv in He
  end.

Section named.
Variables (name salt : string) (factory : address).
Hypothesis Hsalt : salted name salt.

Lemma multiCallDeployProxy_leaves a :
  ta_contractName a = Some name → ta_factoryAddress a = Some factory → ta_salt a = None →
  leaves (X := X) (hosted factory) (multiCallDeployProxy a)
    (has_code (meta_address factory salt) (ProxyCode factory)).
Proof.
  intros Hn Hf Hs. unfold multiCallDeployProxy. rewrite Hs. leave. resolved.
  eapply leaves_salt; [auto with keeps|done|]. leave. resolved.
  apply leaves_send; [|intros r; advance]. intros c Hp.
  eapply promises_proxy; [exact Hp|by left|by right; left|done..].
Qed.

Lemma deployUpgradeableProxy_leaves a :
  ta_contractName a = Some name → ta_factoryAddress a = Some factory →
  leaves (X := X) (hosted factory) (deployUpgradeableProxy a)
    (has_code (meta_address factory salt) (ProxyCode factory)).
Proof.
  intros Hn Hf. unfold deployUpgradeableProxy. rewrite Hn. cbn [default from_option id].
  apply leaves_lift. intros f0 Hx. apply leaves_lift. intros args Hx0. resolved.
  apply leaves_later; [auto with keeps|advance|intros dc].
  apply leaves_now; [auto with task| |auto with keeps|intros d; advance].
  by apply multiCallDeployProxy_leaves.
Qed.

Lemma fullMultiCallDeployProxy_leaves a :
  ta_contractName a = Some name → ta_factoryAddress a = Some factory →
  leaves (X := X) (hosted factory) (fullMultiCallDeployProxy a)
    (has_code (meta_address factory salt) (ProxyCode factory)).
Proof.
  intros Hn Hf. unfold fullMultiCallDeployProxy. leave. resolved.
  eapply leaves_salt; [auto with keeps|done|]. leave.
  - resolved. apply leaves_send; [|intros r; advance]. intros c Hp.
    eapply promises_proxy; [exact Hp|by right; left|by right; right; left|done..].
  - resolved. by apply deployUpgradeableProxy_leaves.
Qed.

Lemma deployStatic_leaves a :
  ta_contractName a = Some name → ta_factoryAddress a = Some factory →
  leaves (X := X) (hosted factory) (deployStatic_task a) (metamorphic_at factory salt).
Proof.
  intros Hn Hf. unfold deployStatic_task. leave. resolved.
  eapply leaves_salt; [auto with keeps|done|]. leave.
  apply leaves_send; [by intros c [? _]|intros r; advance].
Qed.

Lemma deployMetamorphic_leaves a :
  ta_contractName a = Some name → ta_factoryAddress a = Some factory →
  leaves (X := X) (hosted factory) (deployMetamorphic a) (metamorphic_at factory salt).
Proof.
  intros Hn Hf. unfold deployMetamorphic. rewrite Hn. cbn [default from_option id].
  apply leaves_lift. intros f0 Hx. apply leaves_lift. intros args Hx0. resolved.
  apply leaves_later; [auto with keeps|advance|intros t].
  apply leaves_now; [auto with task| |auto with keeps|intros d; advance].
  by apply deployStatic_leaves.
Qed.

Lemma multiCallDeployMetamorphic_leaves a :
  ta_contractName a = Some name → ta_factoryAddress a = Some factory →
  leaves (X := X) (hosted factory) (multiCallDeployMetamorphic a) (metamorphic_at factory salt).
Proof.
  intros Hn Hf. unfold multiCallDeployMetamorphic. rewrite Hn. cbn [default from_option id]. leave. resolved.
  eapply leaves_salt; [auto with keeps|done|]. leave.
  - resolved. apply leaves_send; [|intros r; advance]. intros c Hp.
    eapply promises_static; [exact Hp|by right; left|done..].
  - resolved. by apply deployMetamorphic_leaves.
Qed.
End named.

(** *** One contract of the deployment list *)

(** What [m] returns when it succeeds. *)
Definition yields {A} (m : task A) (R : A → Prop) : Prop := ∀ w x w', m w = (Ok x, w') → R x.
Lemma yields_ret {A} (x : A) (R : A → Prop) : R x → yields (mret x) R.
Proof. intros Hx w y w' [= <- _]. exact Hx. Qed.
Lemma yields_bind {A B} (m : task A) (f : A → task B) R : (∀ x, yields (f x) R) → yields (m ≫= f) R.
Proof. intros Hf w y w' Hrun. inv_bind Hrun. by eapply Hf. Qed.
Lemma leaves_yield {A B} P (m : task A) (f : A → task B) R Q :
  stable P → advances m → yields m R → (∀ x, R x → leaves P (f x) Q) → leaves P (m ≫= f) Q.
Proof.
  intros HP Hm Hy Hf w y w' Hwf Hw Hrun. apply bind_inv in Hrun as (x & w1 & Hx & Hrun).
  pose proof (Hm _ _ _ Hwf Hx) as He.
  eapply Hf; [by eapply Hy|by apply He|by eapply HP|exact Hrun].
Qed.

Definition names_args fullName factory (a : DeployArgs) : Prop :=
  contractName a = key_of (extractName fullName) ∧ factoryAddress a = factory.
Lemma getDeployMetaArgs_names n f i o : yields (getDeployMetaArgs n f i o) (names_args n f).
Proof. unfold getDeployMetaArgs. repeat (apply yields_bind; intros ?). by apply yields_ret. Qed.
Lemma getDeployUpgradeableProxyArgs_names n f i o :
  yields (getDeployUpgradeableProxyArgs n f i o) (names_args n f).
Proof. unfold getDeployUpgradeableProxyArgs. repeat (apply yields_bind; intros ?). by apply yields_ret. Qed.

(** What a deploy type asks for at a salt of the factory: its own proxy, or some
    contract.  Of any other type nothing is asked: [deployContracts] passes such a
    contract by. *)
Definition installed_as (deployType : outcome (option string)) factory salt c : Prop :=
  let a := getMetamorphicAddress factory salt in
  match deployType with
  | Ok (Some ty) =>
      if decide (ty = UPGRADEABLE_DEPLOYMENT) then has_code a (ProxyCode factory) c
      else if decide (ty = STATIC_DEPLOYMENT ∨ ty = ONLY_PROXY) then contract_at a c
      else True
  | _ => True
  end.
(** A listed contract is where its salt says, as its deploy type says. *)
Definition installed factory (fullName : string) c : Prop :=
  ∀ salt, salted (key_of (extractName fullName)) salt →
  installed_as (getDeployType fullName) factory salt c.

Lemma stable_installed factory n : stable (installed factory n).
Proof.
  intros c c' Hi He salt Hs. specialize (Hi salt Hs). unfold installed_as in *. cbv zeta in *.
  destruct (getDeployType n) as [[ty|]|]; [|done..]. case_decide; [by eapply stable_has_code|].
  case_decide; [by eapply stable_contract_at|done].
Qed.
Lemma leaves_installed {A} factory n (m : task A) P (T : string → chain X → Prop) :
  (∀ salt, salted (key_of (extractName n)) salt → leaves P m (T salt)) →
  (∀ salt c, T salt c → installed_as (getDeployType n) factory salt c) →
  leaves P m (installed factory n).
Proof. intros Hm HT w x w' Hwf Hw Hrun salt Hs. by eapply HT, Hm. Qed.

Lemma deploy_contract_leaves factory i o n :
  leaves (hosted factory) (deploy_contract factory i o n) (installed factory n).
Proof.
  unfold deploy_contract. apply leaves_lift. intros ty Hty. 
  destruct (decide (ty = Some STATIC_DEPLOYMENT)) as [->|Hst];
    [|destruct (decide (ty = Some UPGRADEABLE_DEPLOYMENT)) as [->|Hup];
    [|destruct (decide (ty = Some ONLY_PROXY)) as [->|Hop]]].
  - apply (leaves_installed _ _ _ _ (metamorphic_at factory)).
    + intros salt Hs.
      apply (leaves_yield _ _ _ (names_args n factory)); [auto with keeps|advance|apply getDeployMetaArgs_names|].
      intros d [Hn Hf].
      apply leaves_now; [auto with task| |auto with keeps|intros m; advance].
      apply (multiCallDeployMetamorphic_leaves (key_of (extractName n))); [done|..]; cbn; congruence.
    + intros salt c Hm. rewrite Hty. by apply metamorphic_contract.
  - apply (leaves_installed _ _ _ _ (λ salt, has_code (meta_address factory salt) (ProxyCode factory))).
    + intros salt Hs.
      apply (leaves_yield _ _ _ (names_args n factory)); [auto with keeps|advance|apply getDeployUpgradeableProxyArgs_names|].
      intros d [Hn Hf].
      apply leaves_now; [auto with task| |auto with keeps|intros m; advance].
      apply (fullMultiCallDeployProxy_leaves (key_of (extractName n))); [done|..]; cbn; congruence.
    + intros salt c Hm. by rewrite Hty.
  - apply (leaves_installed _ _ _ _ (metamorphic_at factory)).
    + intros salt Hs. eapply leaves_salt; [auto with keeps|done|].
      apply leaves_now; [auto with task| |auto with keeps|intros m; advance].
      by apply deployProxy_leaves.
    + intros salt c Hm. rewrite Hty. by apply metamorphic_contract.
  - intros w g w' _ _ _ salt _. cbv zeta. rewrite Hty. destruct ty as [ty|]; [|done].
    cbn. rewrite decide_False by congruence. rewrite decide_False; [done|]. intros [-> | ->]; congruence.
Qed.

(** ** The factory a deployment uses *)
Lemma construct_factory_code self selfAddr sender s k s' :
  construct_factory (X := X) self selfAddr sender s = (Ok k, s') → k = FactoryCode.
Proof. unfold construct_factory. intros Hrun. do 4 inv_bind Hrun. by injection Hrun as <- _. Qed.

Lemma create_factory_hosted owner data selfAddr c (a : address) rc c' :
  let t := Tx owner None 0 data in
  run_tx t (create_tx t (λ self, construct_factory self selfAddr owner)) c = Ok (a, rc, c') →
  a = create_address owner (nonce c owner) ∧ hosted a c'.
Proof.
  intros t. unfold run_tx. destruct (create_tx t _ (c, [])) as [[b|e] [c1 logs]] eqn:Hrun; [|done].
  destruct (_ <=? _); [|done]. intros [= <- _ <-]. unfold create_tx, the_chain in Hrun.
  rewrite bind_gets in Hrun. cbv zeta in Hrun. cbn [fst tx_from t] in Hrun.
  apply bind_inv in Hrun as (r & s1 & Hcr & Hrun). destruct r as [b'|e]; [|done]. injection Hrun as -> ->.
  apply create_at_inv in Hcr as (-> & k & s2 & s3 & Hi & Hk). split; [done|].
  by apply construct_factory_code in Hi as ->.
Qed.

(** Reading a configuration looks at its file alone. *)
Lemma readTOML_frame d u w w' :
  let p := path_of (default d u) in
  node_at (files w') p = node_at (files w) p → (readTOML d u w').1 = (readTOML d u w).1.
Proof.
  intros p Hp. unfold readTOML, existsSync, readFileSync. rewrite !bind_gets.
  assert (match u with Some p => p | None => d end = default d u) as -> by by destruct u.
  fold p. rewrite Hp. case_bool_decide; [|done]. unfold mbind, M_bind. fold p. rewrite Hp.
  destruct (node_at (files w) p) as [[data|]|]; reflexivity.
Qed.
Lemma getDeploymentList_frame dir v w w' :
  let p := path_of (list_path dir) in
  node_at (files w') p = node_at (files w) p →
  getDeploymentList dir w = (Ok v, w) → getDeploymentList dir w' = (Ok v, w').
Proof.
  intros p Hp. unfold getDeploymentList, readDeploymentList, mbind, M_bind.
  pose proof (readTOML_frame DEPLOYMENT_LIST_PATH (Some (list_path dir)) w w' Hp) as Heq.
  pose proof (readTOML_pure DEPLOYMENT_LIST_PATH (Some (list_path dir)) w') as Hw'.
  destruct (readTOML _ _ w) as [r w1], (readTOML _ _ w') as [r' w1']. cbn in Heq, Hw'. subst.
  destruct r as [cfg|e]; [|done]. cbn. destruct (get _ cfg) as [l|e]; [|done]. cbn.
  destruct (is_undefined l); [done|]. by intros [= ->].
Qed.

Lemma deployFactory_result a owner w fd w' :
  head signers = Some owner → ta_outputFolder a = None →
  deployFactory a w = (Ok fd, w') →
  fd_address fd = create_address owner (nonce (chain_state w) owner) ∧
  hosted (fd_address fd) (chain_state w').
Proof.
  intros Hh Hout. unfold deployFactory, getAccounts. rewrite Hout, Hh. cbn [FactoryTasks.checkUserDirPath of_option].
  run_step. destruct (getContractFactory ALICENET_FACTORY) as [fb|e]; [|done]. run_step.
  unfold getTransactionCount. run_step. set (factory := create_address owner _).
  destruct (getDeployTransaction fb [VStr factory]) as [data|e]; [|done]. run_step. intros Hrun.
  apply bind_inv in Hrun as (g & w1 & Hg & Hrun).
  pose proof (off_chain_run _ _ _ _ (off_chain_estimate _ _) Hg) as Hc1.
  apply bind_inv in Hrun as (d & w2 & Hd & Hrun). unfold send in Hd. rewrite Hc1 in Hd.
  destruct (run_tx _ _ _) as [[[b rc] c]|e] eqn:Htx; [|done]. injection Hd as <- <-.
  apply create_factory_hosted in Htx as [-> Hk]. fold factory in Hk, Hrun. cbn [fst] in Hrun.
  apply bind_inv in Hrun as (u & w3 & Hu & Hrun).
  apply bind_inv in Hrun as (u' & w4 & Hs & [= <- <-]).
  pose proof (off_chain_run _ _ _ _ (off_chain_updateFactory _ _ _) Hu) as Hc3.
  pose proof (off_chain_run _ _ _ _ (off_chain_showState _) Hs) as Hc4.
  split; [done|]. cbn [fd_address]. by rewrite Hc4, Hc3.
Qed.

(** ** The whole deployment *)
Lemma deployment_installs factory i o w names gs w' :
  deployment factory i o w names gs w' →
  chain_wf (chain_state w) → hosted factory (chain_state w) →
  evolves (chain_state w) (chain_state w') ∧ Forall (λ n, installed factory n (chain_state w')) names.
Proof.
  induction 1 as [w|w n names g gs w1 w2 Hn Hdep IH]; intros Hwf Hk.
  - split; [by apply evolves_refl|constructor].
  - pose proof (advances_deploy_contract Hsigner _ _ _ _ _ _ _ Hwf Hn) as He.
    destruct IH as [He' Hf]; [by apply He|by eapply stable_hosted|].
    split; [by eapply evolves_trans|]. constructor; [|done].
    eapply stable_installed; [|exact He']. by eapply deploy_contract_leaves.
Qed.

(** The factory [deployContracts] deploys with: the given one, or a new one. *)
Definition target (a : TaskArgs) c : option address :=
  match ta_factoryAddress a with
  | Some factory => Some factory
  | None => (λ owner, create_address owner (nonce c owner)) <$> head signers
  end.

(** ** The generated Solidity file and the deployment *)

(** The contract's deploy type is one [deployContracts] knows. *)
Definition deploy_typed (n : string) : Prop :=
  ∃ ty, getDeployType n = Ok (Some ty) ∧
    (ty = UPGRADEABLE_DEPLOYMENT ∨ ty = STATIC_DEPLOYMENT ∨ ty = ONLY_PROXY).

Lemma installed_contract factory n salt c :
  installed factory n c → deploy_typed n → salted (key_of (extractName n)) salt →
  contract_at (getMetamorphicContractAddress salt factory) c.
Proof.
  rewrite meta_address_lookup. intros Hi (ty & Hty & Ht) Hs. specialize (Hi salt Hs).
  unfold installed_as in Hi. rewrite Hty in Hi. cbv zeta in Hi. case_decide.
  - by eexists.
  - rewrite decide_True in Hi by tauto. exact Hi.
Qed.

(** The salt the generator finds for a contract is the one it is deployed with. *)
Lemma contract_salt_salted n e w :
  artifacts_agree getAllFullyQualifiedNames → n ∈ getAllFullyQualifiedNames →
  (contract_salt (VStr n) w).1 = Ok e → salted (key_of (extractName n)) e.2.
Proof.
  intros Ha Hin He. destruct (agree_named _ Ha n Hin) as [m Hm]. revert He. unfold contract_salt.
  change (split ":"%char n !! 1%nat) with (extractName n). rewrite Hm. unfold mbind, M_bind.
  rewrite (getSalt_agree n m w Ha Hin Hm).
  destruct (getBytes32Salt m w) as [[s|err] w1] eqn:Hs; [|done]. intros [= <-].
  by eapply salted_of.
Qed.

Lemma salts_installed factory names es w c :
  artifacts_agree getAllFullyQualifiedNames → Forall deploy_typed names →
  Forall (λ n, n ∈ getAllFullyQualifiedNames) names →
  Forall2 (λ n e, (contract_salt (VStr n) w).1 = Ok e) names es →
  Forall (λ n, installed factory n c) names →
  Forall (λ e, contract_at (getMetamorphicContractAddress e.2 factory) c) es.
Proof.
  intros Ha Hty Hin Hes Hall.
  induction Hes as [|n e names es He Hes IH]; [constructor|].
  apply Forall_cons in Hty as [Hty1 Hty]. apply Forall_cons in Hin as [Hin1 Hin].
  apply Forall_cons in Hall as [Hall1 Hall]. constructor; [|by apply IH].
  eapply installed_contract; [exact Hall1|exact Hty1|by eapply contract_salt_salted].
Qed.

Section deployment.
Variables (a : TaskArgs) (w : world (chain X)) (factory : address) (names : list string).

(** What a deployment of the list [names] starts from. *)
Record deployable : Prop := {
  dl_output : ta_outputFolder a = None;
  dl_target : target a (chain_state w) = Some factory;
  dl_hosted : ∀ f, ta_factoryAddress a = Some f → hosted f (chain_state w);
  dl_path : path_of (list_path (ta_inputFolder a)) ≠ path_of FACTORY_STATE_PATH;
  dl_list : getDeploymentList (ta_inputFolder a) w = (Ok (VArr (map VStr names)), w);
  dl_wf : chain_wf (chain_state w);
}.
Hypothesis Hd : deployable.

Lemma deployContracts_success w' :
  deployContracts a w = (Ok tt, w') → Forall (λ n, installed factory n (chain_state w')) names.
Proof.
  pose proof (advances_deployFactory Hsigner) as Hadv. pose proof deployFactory_result as Hres.
  destruct Hd as [Hout Ht Hk Hp Hl Hwf].
  unfold deployContracts. rewrite Hout. cbn [FactoryTasks.checkUserDirPath]. run_step. intros Hrun.
  apply bind_inv in Hrun as (start & w1 & Hs & Hrun).
  assert (start.1 = factory ∧ hosted factory (chain_state w1) ∧ chain_wf (chain_state w1) ∧
    getDeploymentList (ta_inputFolder a) w1 = (Ok (VArr (map VStr names)), w1)) as (Hst & Hh & Hwf1 & Hl1).
  { unfold target in Ht. destruct (ta_factoryAddress a) as [f|].
    - injection Hs as <- <-. injection Ht as ->. auto.
    - destruct (head signers) as [owner|] eqn:Hh; [|done]. injection Ht as <-.
      apply bind_inv in Hs as (fd & w2 & Hfd & [= <- <-]).
      pose proof (Hadv _ _ _ _ Hwf Hfd) as He.
      edestruct Hres as [<- Hho]; [done| |exact Hfd|]; [done|].
      split; [done|]. split; [done|]. split; [by apply He|].
      eapply getDeploymentList_frame; [|exact Hl].
      match type of Hfd with deployFactory ?b _ = _ =>
        pose proof (deployFactory_files (env w) b w _ eq_refl eq_refl Hp) as Hfs end.
      by rewrite Hfd in Hfs. }
  revert Hrun. run Hl1. cbn [indexed]. run_step. rewrite Hst. intros Hrun.
  apply bind_inv in Hrun as (total & w2 & Hloop & [= <-]).
  apply deploy_loop_ok in Hloop as (gs & Hdep & _).
  by apply deployment_installs in Hdep as [_ Hall].
Qed.

(** C2: However [deployContracts] ends, no contract of the chain is lost or
    changes its code.  When it succeeds, on the factory it was given or on one it
    deployed first, every contract of the list that has a deploy type it knows is
    at the address of its salt: an upgradeable one behind the factory's own proxy,
    any other with code.  Contracts of another type, or of none, are passed by,
    and nothing is said of them. *)
Theorem deployContracts_installs r w' :
  deployContracts a w = (r, w') →
  evolves (chain_state w) (chain_state w') ∧
  (r = Ok tt → Forall (λ n, installed factory n (chain_state w')) names).
Proof.
  intros Hrun. split; [eapply (advances_deployContracts Hsigner); [by apply dl_wf|exact Hrun]|].
  intros ->. by apply deployContracts_success.
Qed.

(** C35: The generated ImmutableAuth.sol agrees with the deployment: the salt
    [generate-immutable-auth-contract] writes for a contract of the list is one
    at which a successful [deployContracts] has put a contract, so that the
    address the Solidity code computes from it hosts one. *)
Theorem immutableAuth_deployed (v : world (chain X)) es w' :
  artifacts_agree getAllFullyQualifiedNames →
  Forall (λ n, n ∈ getAllFullyQualifiedNames) names → Forall deploy_typed names →
  Forall2 (λ n e, (contract_salt (VStr n) v).1 = Ok e) names es →
  deployContracts a w = (Ok tt, w') →
  Forall (λ e, contract_at (getMetamorphicContractAddress e.2 factory) (chain_state w')) es.
Proof.
  intros Ha Hin Hty Hes Hrun. eapply salts_installed; [done..|]. by apply deployContracts_success.
Qed.
End deployment.
End tasks.
