(* ===== verification/Build.v ===== *)
(** * Go bindings: the signature mapping and the interfaces

    [bridge/scripts/build/build.ts]: from the ABIs exported to
    [bindings/bindings-artifacts] it writes the Go map from function selectors to
    names, has [ifacemaker] write the interfaces of the bindings, and writes
    the file that combines them. *)
From S2P Require Import Prelude JsString JsValue Json Toml World Constants Config Artifacts DeploymentUtil.
#[local] Open Scope Z_scope.

(** ** Node's [path] *)

(** [path.resolve(base, p)] for an absolute [base]. *)
Fixpoint normalize (stack : list string) (l : list string) : list string :=
  match l with
  | [] => rev stack
  | w :: l =>
      if decide (w = "" ∨ w = ".") then normalize stack l
      else if decide (w = "..") then normalize (tail stack) l
      else normalize (w :: stack) l
  end.
Definition resolve (base p : string) : string :=
  let full := if starts_with "/" p then p else (base +:+ "/" +:+ p)%string in
  ("/" +:+ join "/" (normalize [] (split "/"%char full)))%string.
(** [path.basename(f, ext)] for the name [f] of a directory entry. *)
Definition basename (f ext : string) : string :=
  if ends_with ext f then slice_to (String.length f - String.length ext) f else f.

Section paths.
(** The folder of build.ts. *)
Context (__dirname : string).
Definition bindingsDir : string := resolve __dirname "../../bindings".
Definition abiDir : string := resolve bindingsDir "bindings-artifacts".
Definition mappingDir : string := resolve bindingsDir "mapping".
End paths.

(** ** Bytes *)

(** [Buffer.from(s, "hex")]: it ends at the first pair that is not hexadecimal. *)
Definition hex_digit (c : ascii) : option Z :=
  d ← digit_value c; if d <? 16 then Some d else None.
Fixpoint buffer_from_hex (s : string) : list Z :=
  match s with
  | String a (String b s') =>
      match hex_digit a, hex_digit b with
      | Some x, Some y => x * 16 + y :: buffer_from_hex s'
      | _, _ => []
      end
  | _ => []
  end.
(** A buffer as the hexadecimal data ethers takes it for. *)
Definition byte_hex (c : ascii) : string :=
  let n := Z.of_nat (nat_of_ascii c) in
  String (digit_char (n / 16)) (String (digit_char (n mod 16)) EmptyString).
Definition hexlify (s : string) : string :=
  ("0x" +:+ foldr (λ c t, byte_hex c +:+ t) "" (chars s))%string.

(** [String(v)] *)
Definition String_of (v : value) : string :=
  match v with VUndef => "undefined" | VNull => "null" | v => to_js_string v end.

(** [fs.mkdir(p, { recursive: true })] on the folders of [p], the outermost first. *)
Definition ancestors (p : path) : list path :=
  map (λ n, (p.1, take n p.2)) (seq 1 (length p.2)).
Definition mkdir_step {C : Type} (q : path) : script C () := λ w,
  match node_at (files w) q with
  | Some Dir => (Ok tt, w)
  | Some (File _) => (Throw (Rejected "EEXIST"), w)
  | None => (Ok tt, with_files (<[q := Dir]> (files w)) w)
  end.
Definition mkdir_recursive {C : Type} (s : string) : script C () :=
  for_each (ancestors (path_of s)) mkdir_step.

(** ** The mapping *)

(** [type signatureAssociation] *)
Record signatureAssociation := { signature : list Z; assoc_name : string }.

Definition TAB : string := String "009" EmptyString.
Definition DQ : string := String "034" EmptyString.

(** The entry of the Go map literal. *)
Definition entry_text (a : signatureAssociation) : string :=
  (TAB +:+ "{" +:+ join "," (map (num_to_string 10) (signature a)) +:+ "}: "
   +:+ DQ +:+ assoc_name a +:+ DQ)%string.
Definition mapping_source (associations : list signatureAssociation) : string :=
  ("// Generated by custom bridge script. DO NOT EDIT." +:+ LF +:+ LF +:+
   "package signatures" +:+ LF +:+ LF +:+
   "var FunctionMapping = map[[4]byte]string {" +:+ LF +:+
   join ("," +:+ LF) (map entry_text associations) +:+ "}" +:+ LF)%string.

Section mapping.
Context (keccak256 : string → string).

(** The elements of an array; [filter] and [map] are methods of arrays only. *)
Definition array_of (method : string) (v : value) : outcome (list value) :=
  match v with
  | VArr l => Ok l
  | VUndef | VNull => Throw (TypeError ("Cannot read properties of undefined (reading " +:+ method +:+ ")"))
  | _ => Throw (TypeError (method +:+ " is not a function"))
  end.

Definition selector (canonical : string) : list Z :=
  buffer_from_hex (slice_to 8 (slice 2 (keccak256 (hexlify canonical)))).

Definition canonical_of (func : value) : outcome string :=
  name ← get "name" func;
  inputs ← get "inputs" func;
  inputs ← array_of "map" inputs;
  types ← mapM (get "type") inputs;
  mret (String_of name +:+ "(" +:+ join "," (map to_js_string types) +:+ ")")%string.

Definition association (contractName : string) (func : value) : outcome signatureAssociation :=
  canonical ← canonical_of func;
  mret {| signature := selector canonical; assoc_name := (contractName +:+ "." +:+ canonical)%string |}.

Definition is_function (t : value) : bool :=
  match t with VStr s => bool_decide (s = "function") | _ => false end.
(** [abi.filter((x) => x.type === "function")] *)
Fixpoint functions_of (l : list value) : outcome (list value) :=
  match l with
  | [] => Ok []
  | x :: l =>
      t ← get "type" x;
      fs ← functions_of l;
      mret (if is_function t then x :: fs else fs)
  end.

Definition associations_of (contractName : string) (abi : value) : outcome (list signatureAssociation) :=
  entries ← array_of "filter" abi;
  functions ← functions_of entries;
  mapM (association contractName) functions.

Context (__dirname : string) {C : Type}.

(** The exported ABIs: the names of the JSON files, in directory order. *)
Definition abi_files : script C (list string) :=
  names ← readdirSync (abiDir __dirname);
  mret (filter (λ f, ends_with ".json" f = true) names).

(** What one file of the folder contributes. *)
Definition file_associations (fileName : string) : script C (list signatureAssociation) :=
  contents ← readFileSync (resolve (abiDir __dirname) fileName);
  abi ← lift (json_parse contents);
  lift (associations_of (basename fileName ".json") abi).

Definition generateMappingFile : script C () :=
  _ ← console_log "generating signature mapping...";
  files ← abi_files;
  associations ← fold_for files
    (λ acc f, l ← file_associations f; mret (acc ++ l)) [];
  _ ← mkdir_recursive (mappingDir __dirname);
  writeFileSync (resolve (mappingDir __dirname) "function_mapping.go") (mapping_source associations).

(** ** The interfaces *)

(** [child_process.exec]: a command run in a folder; its error, and its two outputs. *)
Context (exec : string → string → script C (bool * string * string)).

Definition ifacemaker (contract kind suffix : string) : string :=
  ("ifacemaker -f " +:+ contract +:+ ".go -s " +:+ contract +:+ kind +:+ " -o " +:+ contract
   +:+ ".iface." +:+ suffix +:+ ".go -p bindings -i I" +:+ contract +:+ kind +:+ " -c " +:+ DQ
   +:+ "Generated by ifacemaker. DO NOT EDIT." +:+ DQ)%string.
Definition iface_command (contract : string) : string :=
  join (" &&" +:+ LF +:+ "         ")%string
    [ifacemaker contract "Caller" "c"; ifacemaker contract "Transactor" "t";
     ifacemaker contract "Filterer" "f"].

Definition interface_text (contract : string) : string :=
  join LF ["type I" +:+ contract +:+ " interface {"; TAB +:+ "I" +:+ contract +:+ "Caller";
           TAB +:+ "I" +:+ contract +:+ "Transactor"; TAB +:+ "I" +:+ contract +:+ "Filterer"; "}"]%string.
Definition iface_source (contracts : list string) : string :=
  ("// Generated by custom bridge script. DO NOT EDIT" +:+ LF +:+ LF +:+ "package bindings" +:+ LF
   +:+ "  " +:+ LF +:+ join (LF +:+ LF) (map interface_text contracts) +:+ LF)%string.

Definition make_interface (contract : string) : script C () :=
  _ ← console_log ("generating " +:+ contract +:+ " interface...");
  r ← exec (iface_command contract) (bindingsDir __dirname);
  let '(failed, stdout, stderr) := r in
  if failed : bool then throw (Error stderr) else mret tt.

Definition generateIfaces : script C () :=
  files ← abi_files;
  let contracts := map (λ f, basename f ".json") files in
  _ ← for_each contracts make_interface;
  writeFileSync (resolve (bindingsDir __dirname) "iface.go") (iface_source contracts).

Definition main : script C () := _ ← generateMappingFile; generateIfaces.
End mapping.

Example bindings_dir : bindingsDir "/repo/bridge/scripts/build" = "/repo/bridge/bindings".
Proof. reflexivity. Qed.
Example selector_bytes : buffer_from_hex "a9059cbb" = [169; 5; 156; 187]. Proof. reflexivity. Qed.
Example buffer_stops : buffer_from_hex "a9xx05" = [169]. Proof. reflexivity. Qed.
Example hexlify_ex : hexlify "f()" = "0x662829". Proof. reflexivity. Qed.
Example basename_ex : basename "AToken.json" ".json" = "AToken". Proof. reflexivity. Qed.
