(* ===== verification/BuildSpec.v ===== *)
(** * The signature mapping reads back

    The Go file [generateMappingFile] writes, read line by line, holds the
    selector and the name of every function of every exported ABI, in order. *)
From S2P Require Import Prelude JsString JsValue Json World Build.
#[local] Open Scope Z_scope.

(** ** Reading the map literal *)
Definition DQ_char : ascii := "034".
Definition read_entry (line : string) : option (list Z * string) :=
  match split "}"%char line with
  | h :: t :: _ =>
      bytes ← mapM (digits 10 None) (split ","%char (slice 2 h));
      name ← split DQ_char t !! 1%nat;
      Some (bytes, name)
  | _ => None
  end.
Definition read_mapping (text : string) : list (list Z * string) :=
  omap read_entry (split "010"%char text).

(** An entry whose text is one line: its name holds no quote, brace or line feed. *)
Definition is_byte (b : Z) : Prop := 0 ≤ b < 256.
Definition plain_name (s : string) : Prop :=
  free_of "}" s ∧ free_of DQ_char s ∧ free_of "010" s.
#[export] Instance plain_name_dec s : Decision (plain_name s).
Proof. unfold plain_name. apply _. Defined.
Record entry_wf (a : signatureAssociation) : Prop := {
  entry_bytes : Forall is_byte (signature a);
  entry_four : length (signature a) = 4%nat;
  entry_name : plain_name (assoc_name a);
}.

Lemma free_of_join c sep l :
  free_of c sep → Forall (free_of c) l → free_of c (join sep l).
Proof.
  intros Hs. induction 1 as [|w l Hw Hl IH]; [apply not_elem_of_nil|].
  destruct l as [|w' l]; [done|]. rewrite join_cons by done. by rewrite !free_of_app.
Qed.

Lemma split_prefix sep w s h t :
  free_of sep w → split sep s = h :: t → split sep (w +:+ s)%string = (w +:+ h)%string :: t.
Proof.
  unfold free_of. induction w as [|c w IH]; [done|]. cbn. intros Hf Hs.
  rewrite decide_False by set_solver. by rewrite IH by set_solver.
Qed.

(** The decimal digits of a byte. *)
Lemma byte_string b :
  is_byte b → digits 10 None (num_to_string 10 b) = Some b ∧
  Forall (λ c, free_of c (num_to_string 10 b)) [","; "}"; "010"]%char.
Proof.
  intros Hb. split; [apply digits_num_to_string; unfold is_byte in Hb; lia|].
  assert (forallb (λ n, bool_decide (Forall (λ c, free_of c (num_to_string 10 (Z.of_nat n)))
    [","; "}"; "010"]%char)) (seq 0 256) = true) as H by (vm_compute; reflexivity).
  rewrite forallb_forall in H. specialize (H (Z.to_nat b)).
  rewrite Z2Nat.id in H by (unfold is_byte in Hb; lia).
  eapply bool_decide_eq_true, H, in_seq. unfold is_byte in Hb. lia.
Qed.

Lemma bytes_string bs c :
  Forall is_byte bs → c = "}"%char ∨ c = "010"%char →
  free_of c (join "," (map (num_to_string 10) bs)).
Proof.
  intros Hb Hc. apply free_of_join.
  - destruct Hc as [-> | ->]; literal_free.
  - apply Forall_map. eapply Forall_impl; [exact Hb|]. intros b Hbb. cbn.
    apply byte_string in Hbb as [_ Hf]. rewrite !Forall_cons in Hf. destruct Hc as [-> | ->]; tauto.
Qed.

Lemma bytes_read bs :
  Forall is_byte bs → bs ≠ [] →
  mapM (digits 10 None) (split ","%char (join "," (map (num_to_string 10) bs))) = Some bs.
Proof.
  intros Hb Hne. rewrite split_join.
  - apply mapM_Some_2. induction Hb as [|b bs Hb Hbs IH]; cbn; constructor.
    + by apply byte_string.
    + destruct bs; [constructor|]. by apply IH.
  - by destruct bs.
  - apply Forall_map. eapply Forall_impl; [exact Hb|]. intros b Hbb. cbn.
    apply byte_string in Hbb as [_ Hf]. rewrite !Forall_cons in Hf. tauto.
Qed.

(** An entry reads back, whatever follows it on its line. *)
Lemma read_entry_text a rest :
  entry_wf a → read_entry (entry_text a +:+ rest) = Some (signature a, assoc_name a).
Proof.
  intros [Hb H4 (Hn1 & Hn2 & Hn3)]. unfold read_entry, entry_text.
  set (bytes := join "," _). destruct (split_cons "}" rest) as (h & t & Hr).
  assert (split "}"%char ((TAB +:+ "{" +:+ bytes +:+ "}: " +:+ DQ +:+ assoc_name a +:+ DQ) +:+ rest)
    = (TAB +:+ "{" +:+ bytes)%string :: (": " +:+ DQ +:+ assoc_name a +:+ DQ +:+ h)%string :: t) as ->.
  { rewrite !string_app_assoc.
    rewrite (split_prefix _ TAB _ ("{" +:+ bytes) ((": " +:+ DQ +:+ assoc_name a +:+ DQ +:+ h)%string :: t)%string); [done| |].
    { literal_free. }
    change ("}: " +:+ DQ +:+ assoc_name a +:+ DQ +:+ rest)%string
      with (String "}" (": " +:+ DQ +:+ assoc_name a +:+ DQ +:+ rest))%string.
    rewrite <- string_app_assoc, split_app.
    - f_equal. repeat (apply split_prefix; [first [done|literal_free]|]). done.
    - apply free_of_app. split; [literal_free|].
      apply bytes_string; auto. }
  change (slice 2 (TAB +:+ "{" +:+ bytes)) with bytes. subst bytes.
  assert (signature a ≠ []) as Hne by (intros E; by rewrite E in H4).
  rewrite bytes_read by done. cbn [mbind option_bind].
  change (": " +:+ DQ +:+ assoc_name a +:+ DQ +:+ h)%string
    with (": " +:+ String DQ_char (assoc_name a +:+ String DQ_char h))%string.
  rewrite split_app by (literal_free).
  by rewrite split_app.
Qed.

Lemma entry_text_line a : entry_wf a → free_of "010" (entry_text a).
Proof.
  intros [Hb H4 (Hn1 & Hn2 & Hn3)]. unfold entry_text. rewrite !free_of_app.
  split_and!; [literal_free..| |literal_free|literal_free|done|literal_free].
  apply bytes_string; auto.
Qed.

(** The lines of the literal's body. *)
Lemma body_lines es :
  Forall entry_wf es →
  read_mapping (join ("," +:+ LF) (map entry_text es) +:+ "}" +:+ LF)
  = map (λ a, (signature a, assoc_name a)) es.
Proof.
  unfold read_mapping. induction 1 as [|a es Ha Hes IH]; [done|].
  destruct es as [|a' es].
  - cbn [map join]. change ("}" +:+ LF)%string with ("}" +:+ String "010" "")%string.
    rewrite <- string_app_assoc, split_app.
    + cbn [omap list_omap]. by rewrite read_entry_text.
    + apply free_of_app. split; [by apply entry_text_line|].
      literal_free.
  - cbn [map]. rewrite join_cons by done. rewrite !string_app_assoc.
    change (LF +:+ ?s)%string with (String "010" s). rewrite <- string_app_assoc, split_app.
    + cbn [omap list_omap]. rewrite read_entry_text by done. cbn [map] in IH.
      f_equal. exact IH.
    + apply free_of_app. split; [by apply entry_text_line|].
      literal_free.
Qed.

(** The whole file: the lines above the body are no entries. *)
Lemma mapping_source_read es :
  Forall entry_wf es →
  read_mapping (mapping_source es) = map (λ a, (signature a, assoc_name a)) es.
Proof.
  intros Hes. rewrite <- body_lines by done. unfold mapping_source, read_mapping.
  set (body := (join ("," +:+ LF) _ +:+ _)%string).
  change (LF +:+ ?s)%string with (String "010" s).
  by repeat (rewrite split_app by (literal_free);
    cbn [omap list_omap]; vm_compute (read_entry _); cbn iota).
Qed.

(** ** Resolved paths *)
Definition clean (w : string) : Prop := w ≠ "" ∧ w ≠ "." ∧ w ≠ ".." ∧ free_of "/" w.

Lemma normalize_clean stack l :
  Forall clean stack → Forall (free_of "/") l → Forall clean (normalize stack l).
Proof.
  intros Hs Hl. revert stack Hs. induction Hl as [|w l Hw Hl IH]; intros stack Hs; cbn.
  - by apply Forall_rev.
  - case_decide; [by apply IH|]. case_decide; apply IH; [by destruct Hs|].
    constructor; [|done]. unfold clean. naive_solver.
Qed.
Lemma normalize_id stack l : Forall clean l → normalize stack l = rev stack ++ l.
Proof.
  intros Hl. revert stack. induction Hl as [|w l (H1 & H2 & H3 & _) Hl IH]; intros stack; cbn.
  - by rewrite app_nil_r.
  - rewrite decide_False by naive_solver. rewrite decide_False by done. rewrite IH. cbn.
    by rewrite <- app_assoc.
Qed.
Lemma split_absolute l :
  Forall clean l → split "/"%char ("/" +:+ join "/" l) = "" :: match l with [] => [""] | _ => l end.
Proof.
  intros Hl. change ("/" +:+ join "/" l)%string with ("" +:+ String "/" (join "/" l))%string.
  rewrite split_app by apply not_elem_of_nil. f_equal. destruct l as [|w l]; [done|].
  apply split_join; [done|]. eapply Forall_impl; [exact Hl|]. by intros ? (_ & _ & _ & ?).
Qed.
Lemma path_of_absolute l : Forall clean l → path_of ("/" +:+ join "/" l) = (true, l).
Proof.
  intros Hl. unfold path_of. rewrite split_absolute by done. apply f_equal2; [apply starts_with_app|].
  rewrite filter_cons_False by naive_solver. destruct Hl as [|w l Hw Hl]; [done|].
  apply (Forall_cons_2 _ _ _ Hw) in Hl.
  induction Hl as [|w' l' (? & ? & _) Hl IH]; [done|]. rewrite filter_cons_True by done. by rewrite IH.
Qed.

Lemma resolve_absolute base p :
  ∃ l, resolve base p = ("/" +:+ join "/" l)%string ∧ Forall clean l.
Proof.
  unfold resolve. eexists. split; [reflexivity|]. apply normalize_clean; [constructor|].
  apply split_free_all.
Qed.

(** An entry of a resolved folder. *)
Lemma resolve_child base p f :
  clean f → path_of (resolve (resolve base p) f) = (true, (path_of (resolve base p)).2 ++ [f]).
Proof.
  intros Hf. destruct (resolve_absolute base p) as (l & -> & Hl). rewrite path_of_absolute by done.
  unfold resolve. assert (starts_with "/" f = false) as ->.
  { destruct Hf as (Hne & _ & _ & Hfree). destruct f as [|c f]; [done|]. unfold starts_with. cbn [String.prefix].
    destruct (ascii_dec "/" c) as [<-|]; [|done]. exfalso. apply Hfree. left. }
  change ("/" +:+ f)%string with (String "/" f). rewrite split_app_sep, split_absolute by done.
  rewrite split_free by apply Hf.
  assert (normalize [] (("" :: match l with [] => [""] | _ => l end) ++ [f]) = l ++ [f]) as ->.
  { assert (Forall clean (l ++ [f])) as Hlf by (apply Forall_app; split; [done|by apply Forall_singleton]).
    destruct l as [|w l]; [exact (normalize_id [] [f] Hlf)|exact (normalize_id [] _ Hlf)]. }
  apply path_of_absolute, Forall_app. split; [done|by apply Forall_singleton].
Qed.

(** ** Creating folders *)
Definition not_file (fs : gmap path node) (q : path) : Prop := ∀ data, node_at fs q ≠ Some (File data).

#[export] Instance not_file_dec fs q : Decision (not_file fs q).
Proof.
  refine (match node_at fs q as n return (node_at fs q = n → Decision (not_file fs q)) with
          | Some (File data) => λ E, right _
          | _ => λ E, left _
          end eq_refl); unfold not_file; rewrite E; [|done..]. intros Hn. by eapply Hn.
Defined.

Lemma mkdirs_spec {C} (w : world C) qs :
  Forall (not_file (files w)) qs → Forall (λ q, q.2 ≠ []) qs →
  ∃ fs, for_each qs mkdir_step w = (Ok tt, with_files fs w) ∧
    ∀ q, node_at fs q = if decide (q ∈ qs) then Some Dir else node_at (files w) q.
Proof.
  revert w. induction qs as [|q qs IH]; intros w Hf Hk.
  - exists (files w). split; [by destruct w|]. done.
  - apply Forall_cons in Hf as [Hq Hf]. apply Forall_cons in Hk as [Hk Hks].
    set (w1 := with_files (if decide (node_at (files w) q = None) then <[q := Dir]> (files w) else files w) w).
    assert (mkdir_step q w = (Ok tt, w1)) as Hstep.
    { unfold mkdir_step, w1. destruct (node_at (files w) q) as [[data|]|] eqn:E.
      - by destruct (Hq data).
      - rewrite decide_False by done. by destruct w.
      - by rewrite decide_True. }
    assert (∀ p, node_at (files w1) p = if decide (p = q) then Some Dir else node_at (files w) p) as Hn.
    { intros p. unfold w1. cbn. case_decide as E.
      - by rewrite node_at_insert.
      - case_decide; [subst|done]. destruct (node_at (files w) q) as [[data|]|] eqn:E'; [|done..].
        by destruct (Hq data). }
    destruct (IH w1) as (fs & Hrun & Hfs); [|done|].
    { eapply Forall_impl; [exact Hf|]. intros p Hp data. rewrite Hn. case_decide; [done|apply Hp]. }
    exists fs. cbn [for_each]. run Hstep. split; [exact Hrun|]. intros p. rewrite Hfs, Hn.
    repeat case_decide; set_solver.
Qed.

Lemma ancestors_elem p q : q ∈ ancestors p → q.1 = p.1 ∧ q.2 ≠ [] ∧ q.2 `prefix_of` p.2.
Proof.
  unfold ancestors. intros (n & -> & Hn)%list_elem_of_fmap. apply elem_of_seq in Hn. cbn.
  split_and!; [done| |by eexists; rewrite take_drop].
  intros Ht%(f_equal length). rewrite length_take in Ht. cbn in Ht. lia.
Qed.
Lemma ancestors_self p : p.2 ≠ [] → p ∈ ancestors p.
Proof.
  intros Hp. unfold ancestors. apply list_elem_of_fmap. exists (length p.2).
  rewrite take_ge by done. split; [by destruct p|]. apply elem_of_seq. destruct p.2; [done|cbn; lia].
Qed.

(** ** Selectors *)

(** What ethers' [keccak256] returns: 0x and 64 hexadecimal digits, in lower case. *)
Definition is_hash (h : string) : Prop :=
  ∃ t, h = ("0x" +:+ t)%string ∧ String.length t = 64%nat ∧
       Forall (λ c, is_Some (hex_digit c) ∧ lower_char c = c) (chars t).
(** Bytes as lower-case hexadecimal digits. *)
Definition hex_of (bytes : list Z) : string :=
  foldr (λ b t, String (digit_char (b / 16)) (String (digit_char (b mod 16)) t)) "" bytes.

Lemma hex_digit_range c d : hex_digit c = Some d → 0 ≤ d < 16.
Proof.
  unfold hex_digit, digit_value. repeat case_decide; cbn; try done; case_match eqn:E; try done;
    apply Z.ltb_lt in E; intros [= <-]; lia.
Qed.
Lemma hex_digit_char c d : hex_digit c = Some d → lower_char c = c → digit_char d = c.
Proof.
  destruct c as [[] [] [] [] [] [] [] []]; vm_compute; try done; by intros [= <-].
Qed.
Lemma buffer_bytes t n :
  (2 * n ≤ String.length t)%nat → Forall (λ c, is_Some (hex_digit c) ∧ lower_char c = c) (chars t) →
  let bytes := buffer_from_hex (slice_to (2 * n) t) in
  length bytes = n ∧ Forall is_byte bytes ∧ ∃ rest, t = (hex_of bytes +:+ rest)%string.
Proof.
  revert t. induction n as [|n IH]; intros t Hl Ht bytes; [by split_and!; [..|exists t]|]. subst bytes.
  replace (2 * S n)%nat with (S (S (2 * n))) in * by lia.
  destruct t as [|a [|b t]]; cbn in Hl; [lia..|].
  cbn [chars] in Ht. apply Forall_cons in Ht as [[[x Hx] Ha] Ht].
  apply Forall_cons in Ht as [[[y Hy] Hb] Ht].
  cbn [slice_to buffer_from_hex]. rewrite Hx, Hy. destruct (IH t) as (IHl & IHb & rest & IHt); [lia|done|].
  cbn [length]. split; [by rewrite IHl|].
  pose proof (hex_digit_range _ _ Hx). pose proof (hex_digit_range _ _ Hy).
  split; [constructor; [unfold is_byte; lia|done]|]. exists rest. cbn [hex_of foldr].
  rewrite Z.div_add_l, Z.div_small, Z.add_0_r by lia.
  rewrite Z.add_comm, Z.mod_add, Z.mod_small by lia.
  rewrite (hex_digit_char _ _ Hx Ha), (hex_digit_char _ _ Hy Hb). cbn. do 2 f_equal. exact IHt.
Qed.

(** ** The exported functions *)

(** A function of an ABI: its name and the types of its parameters. *)
Record abi_function := AbiFunction { fn_name : string; fn_types : list string }.
Definition signature_text (f : abi_function) : string :=
  (fn_name f +:+ "(" +:+ join "," (fn_types f) +:+ ")")%string.
(** The JSON of an entry of an ABI that is a function, or something else. *)
Definition entry_is (v : value) (o : option abi_function) : Prop :=
  match o with
  | Some f => get "type" v = Ok (VStr "function") ∧ get "name" v = Ok (VStr (fn_name f)) ∧
      ∃ inputs, get "inputs" v = Ok (VArr inputs) ∧
        Forall2 (λ i t, get "type" i = Ok (VStr t)) inputs (fn_types f)
  | None => ∃ t, get "type" v = Ok t ∧ t ≠ VStr "function"
  end.

(** Four bytes are the head of the hash of a text. *)
Definition selects (keccak256 : string → string) (text : string) (bytes : list Z) : Prop :=
  length bytes = 4%nat ∧ Forall is_byte bytes ∧
  ∃ rest, keccak256 ("0x" +:+ hex_of (map (λ c, Z.of_nat (nat_of_ascii c)) (chars text)))%string
          = ("0x" +:+ hex_of bytes +:+ rest)%string.

Lemma hexlify_bytes s :
  hexlify s = ("0x" +:+ hex_of (map (λ c, Z.of_nat (nat_of_ascii c)) (chars s)))%string.
Proof.
  unfold hexlify. f_equal. induction (chars s) as [|c l IH]; [done|]. cbn [map foldr hex_of].
  unfold hex_of in IH. by rewrite <- IH.
Qed.
Lemma selector_selects k text :
  is_hash (k (hexlify text)) → selects k text (selector k text).
Proof.
  intros (t & Ht & Hl & Hx). unfold selects. rewrite <- hexlify_bytes. unfold selector. rewrite Ht.
  change (slice 2 ("0x" +:+ t)) with t.
  destruct (buffer_bytes t 4) as (H4 & Hb & rest & Hr); [lia|done|].
  split_and!; [done|done|]. exists rest. by rewrite Hr at 1.
Qed.

Definition association_of (k : string → string) (c : string) (f : abi_function) : signatureAssociation :=
  {| signature := selector k (signature_text f); assoc_name := (c +:+ "." +:+ signature_text f)%string |}.

Lemma canonical_entry v f : entry_is v (Some f) → canonical_of v = Ok (signature_text f).
Proof.
  intros (_ & Hn & inputs & Hi & Ht). unfold canonical_of. rewrite Hn, Hi. cbn.
  assert (mapM (get "type") inputs = Ok (map VStr (fn_types f))) as ->.
  { clear -Ht. revert Ht. generalize (fn_types f). intros ts Ht.
    induction Ht as [|i t js ts Hit _ IH]; [done|]. cbn. rewrite Hit. cbn. by rewrite IH. }
  cbn. rewrite map_map. cbn. by rewrite map_id.
Qed.
Lemma functions_entries es os :
  Forall2 entry_is es os →
  ∃ fs, functions_of es = Ok fs ∧ Forall2 (λ v f, entry_is v (Some f)) fs (omap id os).
Proof.
  induction 1 as [|v o es os Hv _ (fs & Hfs & Hall)]; [by exists []|]. cbn.
  destruct o as [f|]; cbn.
  - exists (v :: fs). destruct Hv as (Ht & Hrest). rewrite Ht. cbn. rewrite Hfs. split; [done|].
    constructor; [by split|done].
  - destruct Hv as (t & Ht & Hne). exists fs. rewrite Ht. cbn. rewrite Hfs. split; [|done]. cbn.
    destruct t; try done. cbn. rewrite bool_decide_eq_false_2; [done|]. by intros ->.
Qed.
Lemma associations_entries k c es os :
  Forall2 entry_is es os →
  associations_of k c (VArr es) = Ok (map (association_of k c) (omap id os)).
Proof.
  intros (fs & Hfs & Hall)%functions_entries. unfold associations_of. cbn [array_of mbind outcome_bind].
  rewrite Hfs. cbn [mbind outcome_bind]. clear Hfs. generalize dependent (omap id os). intros os' Hall.
  induction Hall as [|v f fs' os' Hv _ IH]; [done|]. cbn [mapM map].
  assert (association k c v = Ok (association_of k c f)) as ->
    by (unfold association; by rewrite (canonical_entry _ _ Hv)).
  cbn. cbn in IH. rewrite IH. done.
Qed.

(** The name of a file without its extension. *)
Lemma basename_json c : basename (c +:+ ".json") ".json" = c.
Proof.
  unfold basename, ends_with. assert (String.length (c +:+ ".json") - String.length ".json" = String.length c)%nat as ->.
  { assert (String.length (c +:+ ".json") = String.length c + 5)%nat as ->; [|cbn; lia].
    induction c as [|a c IH]; [done|]. cbn. by f_equal. }
  rewrite slice_length, bool_decide_eq_true_2 by done.
  induction c as [|a c IH]; [done|]. cbn. by rewrite IH.
Qed.

(** ** The mapping file *)
Section mapping.
Context {C : Type} (keccak256 : string → string) (__dirname : string).
Context (Hkeccak : ∀ d, is_hash (keccak256 d)).
Implicit Types w : world C.

(** The file of a contract in the ABI folder, its entries. *)
Definition abi_of w (contract : string) (os : list (option abi_function)) : Prop :=
  ∃ data entries,
    node_at (files w) (path_of (resolve (abiDir __dirname) (contract +:+ ".json"))) = Some (File data) ∧
    json_parse data = Ok (VArr entries) ∧ Forall2 entry_is entries os.
(** The functions of the contracts, in order. *)
Definition functions_listed (abis : list (string * list (option abi_function))) : list (string * abi_function) :=
  concat (map (λ e, map (pair e.1) (omap id e.2)) abis).

Lemma file_associations_ok w c os :
  abi_of w c os →
  file_associations keccak256 __dirname (c +:+ ".json") w
  = (Ok (map (association_of keccak256 c) (omap id os)), w).
Proof.
  intros (data & entries & Hn & Hj & He). unfold file_associations.
  assert (readFileSync (resolve (abiDir __dirname) (c +:+ ".json")) w = (Ok data, w)) as Hr
    by (unfold readFileSync; by rewrite Hn).
  run Hr. rewrite Hj. run_step. rewrite basename_json. by rewrite (associations_entries _ _ _ _ He).
Qed.

Definition listed_associations (abis : list (string * list (option abi_function))) : list signatureAssociation :=
  map (λ g, association_of keccak256 g.1 g.2) (functions_listed abis).
Lemma listed_associations_cons e abis :
  listed_associations (e :: abis) = map (association_of keccak256 e.1) (omap id e.2) ++ listed_associations abis.
Proof. unfold listed_associations, functions_listed. cbn. by rewrite map_app, map_map. Qed.

Lemma all_associations w abis acc :
  Forall (λ e, abi_of w e.1 e.2) abis →
  fold_for (map (λ e, e.1 +:+ ".json")%string abis)
    (λ acc f, l ← file_associations keccak256 __dirname f; mret (acc ++ l)) acc w
  = (Ok (acc ++ listed_associations abis), w).
Proof.
  intros Hf. revert acc. induction Hf as [|[c os] abis Hc Hf IH]; intros acc; cbn [map fold_for].
  - by rewrite app_nil_r.
  - run_step. run (file_associations_ok _ _ _ Hc). run_step. rewrite IH, listed_associations_cons.
    by rewrite <- app_assoc.
Qed.

Lemma listed_wf abis :
  Forall (λ g, plain_name (g.1 +:+ "." +:+ signature_text g.2)%string) (functions_listed abis) →
  Forall entry_wf (listed_associations abis).
Proof.
  intros Hp. apply Forall_map. eapply Forall_impl; [exact Hp|]. intros [c f] Hn.
  destruct (selector_selects keccak256 (signature_text f) (Hkeccak _)) as (H4 & Hb & _). by constructor.
Qed.

Definition mapping_path : path := path_of (resolve (mappingDir __dirname) "function_mapping.go").

Lemma mapping_path_parent :
  mapping_path = (true, (path_of (mappingDir __dirname)).2 ++ ["function_mapping.go"]).
Proof. apply resolve_child. split_and!; [done..|literal_free]. Qed.

Lemma mapping_writable fs fs' :
  (path_of (mappingDir __dirname)).2 ≠ [] →
  (∀ q, node_at fs' q = if decide (q ∈ ancestors (path_of (mappingDir __dirname)))
                        then Some Dir else node_at fs q) →
  node_at fs mapping_path ≠ Some Dir → writable fs' mapping_path = true.
Proof.
  set (d := path_of (mappingDir __dirname)). intros Hd Hfs Hn.
  assert (mapping_path ∉ ancestors d) as Hnot.
  { rewrite mapping_path_parent. intros (_ & _ & Hp)%ancestors_elem. apply prefix_length in Hp.
    cbn in Hp. rewrite length_app in Hp. cbn in Hp. fold d in Hp. lia. }
  unfold writable. rewrite Hfs, decide_False by done.
  destruct (node_at fs mapping_path) as [[data|]|]; [done..|].
  apply bool_decide_eq_true. rewrite Hfs.
  assert (parent mapping_path = d) as ->.
  { rewrite mapping_path_parent. unfold parent. cbn [fst snd]. rewrite removelast_last. fold d.
    destruct (resolve_absolute (bindingsDir __dirname) "mapping") as (l & Hl & Hc).
    unfold d, mappingDir. rewrite Hl. by rewrite path_of_absolute. }
  by rewrite decide_True by by apply ancestors_self.
Qed.

(** C37: run in a folder of exported ABIs, [generateMappingFile] leaves a Go file
    whose map literal, read line by line, holds one entry for every function of
    those ABIs and none for their other entries, file by file and in the order
    of each ABI: the contract's name, a dot and the canonical signature, under
    the four bytes that are the head of the hash of that signature; it changes no
    file but that one and the folders above it. *)
Theorem generateMappingFile_ok w names abis :
  readdirSync (abiDir __dirname) w = (Ok names, w) →
  filter (λ f, ends_with ".json" f = true) names = map (λ e, e.1 +:+ ".json")%string abis →
  Forall (λ e, abi_of w e.1 e.2) abis →
  Forall (λ g, plain_name (g.1 +:+ "." +:+ signature_text g.2)%string) (functions_listed abis) →
  (path_of (mappingDir __dirname)).2 ≠ [] →
  Forall (not_file (files w)) (ancestors (path_of (mappingDir __dirname))) →
  node_at (files w) mapping_path ≠ Some Dir →
  ∃ text w', generateMappingFile keccak256 __dirname w = (Ok tt, w') ∧
    node_at (files w') mapping_path = Some (File text) ∧
    Forall2 (λ entry g, selects keccak256 (signature_text g.2) entry.1 ∧
                        entry.2 = (g.1 +:+ "." +:+ signature_text g.2)%string)
      (read_mapping text) (functions_listed abis) ∧
    ∀ q, q ≠ mapping_path → q ∉ ancestors (path_of (mappingDir __dirname)) →
         node_at (files w') q = node_at (files w) q.
Proof.
  intros Hdir Hnames Habis Hplain Hd Hanc Hfile.
  set (w1 := with_console (console w ++ ["generating signature mapping..."]) w).
  assert (abi_files __dirname w1 = (Ok (map (λ e, e.1 +:+ ".json")%string abis), w1)) as Hfiles.
  { rewrite <- Hnames. unfold abi_files. unfold readdirSync in Hdir. unfold mbind, M_bind, readdirSync. cbn.
    by destruct (node_at (files w) _) as [[]|]; simplify_eq. }
  assert (Forall (λ e, abi_of w1 e.1 e.2) abis) as Habis1 by exact Habis.
  destruct (mkdirs_spec w1 (ancestors (path_of (mappingDir __dirname)))) as (fs & Hmk & Hfs).
  { exact Hanc. }
  { apply Forall_forall. intros q (_ & Hq & _)%ancestors_elem. exact Hq. }
  pose proof (mapping_writable (files w) fs Hd Hfs Hfile) as Hw.
  pose proof (listed_wf abis Hplain) as Hwf. set (l := listed_associations abis) in *.
  exists (mapping_source l), (with_files (<[mapping_path := File (mapping_source l)]> fs) w1).
  split_and!.
  - unfold generateMappingFile, console_log. run_step. run Hfiles. run (all_associations w1 _ [] Habis1).
    unfold mkdir_recursive. run Hmk. cbn [app]. by rewrite writeFileSync_ok.
  - by apply node_at_written.
  - rewrite mapping_source_read by done. subst l. unfold listed_associations. rewrite map_map.
    apply Forall2_fmap_l, Forall_Forall2_diag, Forall_true. intros [c f]. cbn. split; [|done].
    by apply selector_selects.
  - intros q Hq Hnq. cbn. rewrite node_at_insert by by apply writable_key in Hw.
    rewrite decide_False by done. by rewrite Hfs, decide_False.
Qed.
End mapping.
