(* ===== verification/Scripts.v ===== *)
(** * The stand-alone scripts

    The scripts run by [hardhat run] or [ts-node] and the small task:
    [bridge/scripts/generateDeployList.ts], [generateDeploymentArgTemplate.ts],
    [deployAllContracts.ts], [getInitCallData.ts], [sumGasInFactoryState.ts] and
    [lib/gogogen.ts], with the helpers of [deploymentUtil.ts] only they need. *)
From S2P Require Import Prelude JsString JsValue Json Toml World Constants Config Artifacts.
From S2P Require Import DeploymentUtil DeploymentList DeployArgs FactoryState Chain Hardhat FactoryTasks.
#[local] Open Scope Z_scope.

(** What [console.error] shows of an error, its stack left out. *)
Definition error_text (e : exn) : string :=
  match e with
  | Error m => "Error: " +:+ m
  | TypeError m => "TypeError: " +:+ m
  | Rejected m => m
  | Running => ""
  end.
(** [main().then(() => 0).catch((error) => { console.error(error); throw ... })] *)
Definition run_main {C : Type} (m : script C ()) : script C () :=
  try_catch m (λ e, _ ← console_log (error_text e); throw (Error "unexpected error")).

(** ** lib/gogogen.ts: the task [go-go-gen]

    [outpath[-1]] is no element of the string, so a slash is always added; the
    mode given to the file is not modelled. *)
Definition generate_header (inDir out pkg : string) : string :=
  ("#! /bin/bash" +:+ LF +:+ "# DO NOT EDIT THIS FILE! THIS FILE CONTAINS GENERATED CODE" +:+ LF +:+
   "# CHANGES MADE TO THIS FILE WILL BE LOST" +:+ LF +:+ "#" +:+ LF +:+
   "# npx hardhat go-go-gen --pkg " +:+ pkg +:+ " --in " +:+ inDir +:+ " --out " +:+ out +:+ " " +:+ LF)%string.
Definition outpath_of (out : string) : string :=
  if decide (out = ".") then "" else (out +:+ "/")%string.
Definition abigen_line (inDir outpath pkg file : string) : string :=
  let source := replace_first ".json" "" file in
  ("abigen --abi " +:+ inDir +:+ "/" +:+ source +:+ ".json --pkg " +:+ pkg +:+ " --type " +:+ source +:+
   " --out " +:+ outpath +:+ source +:+ ".go" +:+ LF)%string.
Definition goGoGen {C : Type} (inDir out pkg : string) : script C () :=
  names ← readdirSync inDir;
  let outputData := foldl (λ data file, data +:+ abigen_line inDir (outpath_of out) pkg file)%string
                      (generate_header inDir out pkg) names in
  e ← existsSync pkg;
  _ ← (if e : bool then mret tt else mkdirSync pkg);
  writeFileSync (pkg +:+ "/generate.sh") outputData.

(** ** sumGasInFactoryState.ts *)

(** The sum under way: a number, or the text it became when something that is
    no number was added. *)
Inductive js_sum :=
| SumNum (n : jsnum)
| SumText (s : string).
Definition sum_text (a : js_sum) : string :=
  match a with
  | SumNum (JInt n) => num_to_string 10 n
  | SumNum (JInf negative) => if negative then "-Infinity" else "Infinity"
  | SumNum JNaN => "NaN"
  | SumText s => s
  end.
(** [a += v] *)
Definition js_add (a : js_sum) (v : value) : js_sum :=
  let number n := match a with
                  | SumNum (JInt m) => SumNum (JInt (m + n))
                  | SumNum _ => a
                  | SumText s => SumText (s +:+ to_js_string v)
                  end in
  match v with
  | VNum n => number n
  | VBool b => number (if b then 1 else 0)
  | VNull => match a with SumText s => SumText (s +:+ "null") | _ => number 0 end
  | VUndef => match a with SumText s => SumText (s +:+ "undefined") | _ => SumNum JNaN end
  | v => SumText (sum_text a +:+ to_js_string v)
  end.

Definition sum_member (section : string) (state : value) (gas : js_sum) : outcome js_sum :=
  contracts ← get section state;
  l ← iterated contracts;
  foldl (λ gas contract, gas ← gas; g ← get "gas" contract; mret (js_add gas g)) (Ok gas) l.

Definition sum_gas (State : value) : outcome js_sum :=
  defaultFactory ← get "defaultFactoryData" State;
  g ← get "gas" defaultFactory;
  let gas := if is_undefined g then SumNum (JInt 0) else js_add (SumNum (JInt 0)) g in
  gas ← sum_member "templates" State gas;
  gas ← sum_member "staticContracts" State gas;
  gas ← sum_member "deployCreates" State gas;
  sum_member "proxies" State gas.

Definition sumGas_main {C : Type} : script C () :=
  rawData ← readFileSync "./deployments/testnet/factoryState.json";
  State ← lift (json_parse rawData);
  gas ← lift (sum_gas State);
  console_log (sum_text gas).

Section scripts.
Context {X : Type} `{Toml} `{Artifacts} `{Evm, !Contracts X, Hardhat}.
Abbreviation task := (M (world (chain X))).

(** ** Helpers of deploymentUtil.ts *)

(** [run("deployFactory", { outputFolder: usrPath })] *)
Definition deployFactory_util (usrPath : option string) : task FactoryData :=
  FactoryTasks.deployFactory {|
    ta_contractName := None; ta_factoryAddress := None; ta_initCallData := None;
    ta_constructorArgs := None; ta_inputFolder := None; ta_outputFolder := usrPath;
    ta_salt := None; ta_logicAddress := None |}.
Definition getBytes32Salt_util (contractName : string) : outcome hexdata :=
  fullName ← DeploymentUtil.getFullyQualifiedName contractName;
  salt ← DeploymentUtil.getSalt fullName;
  formatBytes32String salt.

(** ** generateDeployList.ts *)
Definition generateDeployList_main : task () :=
  deploymentList ← lift (getSortedDeployList getAllContracts);
  writeDeploymentList (transformDeploymentList deploymentList) None.

(** ** generateDeploymentArgTemplate.ts *)

(** A contract's name goes to [getBuildInfo], which takes a string. *)
Definition contract_name (v : value) : outcome string :=
  match v with VStr s => Ok s | _ => Throw (TypeError "name.split is not a function") end.

Definition generateDeploymentArgTemplate_main : task () :=
  contracts ← getDeploymentList None;
  contracts ← lift (iterated contracts);
  deploymentArgs ← fold_for contracts
    (λ acc contract, lift (contract ← contract_name contract; add_template acc contract))
    {| da_constructor := []; da_initializer := [] |};
  writeDeploymentArgs deploymentArgs None.

(** ** deployAllContracts.ts

    The script passes [artifacts, ethers, run] where the helpers take
    [factoryAddress, artifacts, inputFolder]: what they use as artifact store is
    the [ethers] object, which has none of its methods. *)
Definition ethers_as_artifacts : Artifacts := {|
  getAllFullyQualifiedNames := [];
  getBuildInfo := λ _, Throw (TypeError "artifacts.getBuildInfo is not a function");
  readArtifact := λ _, Throw (TypeError "artifacts.readArtifact is not a function") |}.
Definition artifacts_as_address : string := "[object Object]".
Definition run_as_folder : option string := Some "run".

Definition deploy_one (contract : value) : task () :=
  fullyQualifiedName ← lift (contract_name contract);
  deployType ← lift (getDeployType fullyQualifiedName);
  if decide (deployType = Some STATIC_DEPLOYMENT) then
    _ ← getDeployMetaArgs (H0 := ethers_as_artifacts) fullyQualifiedName artifacts_as_address
          run_as_folder None;
    mret tt
  else if decide (deployType = Some UPGRADEABLE_DEPLOYMENT) then
    _ ← getDeployUpgradeableProxyArgs (H0 := ethers_as_artifacts) fullyQualifiedName
          artifacts_as_address run_as_folder None;
    mret tt
  else mret tt.

Definition deployAllContracts_main : task () :=
  _ ← deployFactory_util None;
  v ← getDeploymentList None;
  contracts ← lift (indexed v);
  for_each contracts deploy_one.

(** ** getInitCallData.ts *)
Definition getInitCallData_main : task () :=
  contractFactory ← lift (getContractFactory "BToken");
  initCallData ← lift (encodeFunctionData contractFactory "initialize" []);
  console_log initCallData.
End scripts.
