(* ===== verification/ScriptSpec.v ===== *)
(** * What the stand-alone scripts do *)
From S2P Require Import Prelude JsString JsValue Json Toml World Constants Config Artifacts.
From S2P Require Import DeploymentUtil DeploymentList DeployArgs FactoryState Chain Hardhat FactoryTasks Scripts.
#[local] Open Scope Z_scope.

(** An array of strings has no other representation. *)
Lemma veq_strings v l : v ≈ VArr (map VStr l) → v = VArr (map VStr l).
Proof.
  unfold veq. cbn. destruct v as [| | | | | |xs| |]; cbn; try discriminate. intros [= Heq]. f_equal.
  revert l Heq. induction xs as [|x xs IH]; intros [|s l]; try done. cbn. intros [= Hx Hl].
  f_equal; [|by apply IH]. destruct x; cbn in Hx; simplify_eq; done.
Qed.

Section scripts.
Context {X : Type} `{Toml} `{Artifacts} `{Evm, !Contracts X, Hardhat}.
Implicit Types w : world (chain X).

(** ** deployAllContracts.ts *)

(** Contracts the script passes by: those of no deploy type it knows. *)
Definition passed_by (c : string) : Prop :=
  ∃ t, getDeployType c = Ok t ∧ t ≠ Some STATIC_DEPLOYMENT ∧ t ≠ Some UPGRADEABLE_DEPLOYMENT.
Lemma passed_by_ok c w : passed_by c → deploy_one (VStr c) w = (Ok tt, w).
Proof.
  intros (t & Ht & Hs & Hu). unfold deploy_one. cbn [contract_name]. run_step. rewrite Ht. run_step.
  by rewrite !decide_False.
Qed.
Lemma all_passed_by cs w : Forall passed_by cs → for_each (map VStr cs) deploy_one w = (Ok tt, w).
Proof.
  induction 1 as [|c cs Hc Hcs IH]; [done|]. cbn [map for_each]. by run (passed_by_ok c w Hc).
Qed.
Lemma deploy_one_fails c w :
  getDeployType c = Ok (Some STATIC_DEPLOYMENT) ∨ getDeployType c = Ok (Some UPGRADEABLE_DEPLOYMENT) →
  deploy_one (VStr c) w = (Throw (TypeError "artifacts.getBuildInfo is not a function"), w).
Proof. by intros [Ht|Ht]; unfold deploy_one; cbn [contract_name]; run_step; rewrite Ht. Qed.

(** C38: deployAllContracts.ts deploys the factory and not one contract of the
    list: the first contract to deploy ends the script with a TypeError, the
    chain and the files being as the deployment of the factory left them. *)
Theorem deployAllContracts_fails w w1 fd pre c post :
  deployFactory_util None w = (Ok fd, w1) →
  getDeploymentList None w1 = (Ok (VArr (map VStr (pre ++ c :: post))), w1) →
  Forall passed_by pre →
  getDeployType c = Ok (Some STATIC_DEPLOYMENT) ∨ getDeployType c = Ok (Some UPGRADEABLE_DEPLOYMENT) →
  run_main deployAllContracts_main w
  = (Throw (Error "unexpected error"),
     with_console (console w1 ++ ["TypeError: artifacts.getBuildInfo is not a function"]) w1).
Proof.
  intros Hf Hl Hpre Hc.
  assert (deployAllContracts_main w = (Throw (TypeError "artifacts.getBuildInfo is not a function"), w1)) as Hm.
  { unfold deployAllContracts_main. run Hf. run Hl. cbn [indexed]. run_step.
    rewrite map_app, for_each_app. run (all_passed_by pre w1 Hpre). cbn [map for_each].
    by run (deploy_one_fails c w1 Hc). }
  unfold run_main, try_catch. by rewrite Hm.
Qed.

(** ** generateDeployList.ts, then generateDeploymentArgTemplate.ts *)
Lemma template_loop l acc d w :
  add_templates acc l = Ok d →
  fold_for (map VStr l) (λ acc contract, lift (contract ← contract_name contract; add_template acc contract))
    acc w = (Ok d, w).
Proof.
  revert acc. induction l as [|c l IH]; intros acc; cbn [add_templates map fold_for].
  - by intros [= ->].
  - intros (acc' & Ha & Hl)%outcome_bind_ok. cbn [contract_name mbind outcome_bind].
    rewrite Ha. run_step. by apply IH.
Qed.

Lemma generate_template_ok w l d :
  getDeploymentList None w = (Ok (VArr (map VStr l)), w) → generateDeployArgTemplate l = Ok d →
  generateDeploymentArgTemplate_main w = writeDeploymentArgs d None w.
Proof.
  intros Hl Hd. unfold generateDeploymentArgTemplate_main. run Hl. cbn [iterated indexed]. run_step.
  by run (template_loop l _ d w Hd).
Qed.

Definition LIST_FILE : path := path_of (list_path None).
Definition ARGS_FILE : path := path_of (args_path None).
Definition DEFAULT_ARGS_FILE : path := path_of (template_path None).
Lemma script_files : LIST_FILE ≠ ARGS_FILE ∧ DEFAULT_ARGS_FILE ≠ ARGS_FILE ∧ DEFAULT_ARGS_FILE ≠ LIST_FILE.
Proof. split_and!; apply (bool_decide_unpack (_ ≠ _)); vm_compute; exact I. Qed.

Lemma args_folder : parent ARGS_FILE ≠ LIST_FILE.
Proof. apply (bool_decide_unpack (_ ≠ _)); vm_compute; exact I. Qed.

Lemma constructor_args_frame c w w' :
  node_at (files w') DEFAULT_ARGS_FILE = node_at (files w) DEFAULT_ARGS_FILE →
  (getDeploymentConstructorArgs c None w').1 = (getDeploymentConstructorArgs c None w).1.
Proof.
  intros Hn.
  assert ((readDeploymentArgs (Some (template_path None)) w').1
          = (readDeploymentArgs (Some (template_path None)) w).1) as Hread.
  { unfold readDeploymentArgs. destruct (node_at (files w) DEFAULT_ARGS_FILE) as [[data|]|] eqn:E.
    - by rewrite !(readTOML_file _ _ _ data).
    - by rewrite !readTOML_dir.
    - by rewrite !readTOML_missing. }
  unfold getDeploymentConstructorArgs, mbind, M_bind.
  destruct (readDeploymentArgs _ w') as [r1 w1], (readDeploymentArgs _ w) as [r2 w2].
  cbn in Hread. subst r2. destruct r1 as [cfg|]; [|done]. destruct (is_undefined cfg); [done|].
  unfold lift. by destruct (section_args _ _ _).
Qed.

(** What has been written to the two files. *)
Definition with_list (data : string) w := with_files (<[LIST_FILE := File data]> (files w)) w.
Definition with_args (data : string) w := with_files (<[ARGS_FILE := File data]> (files w)) w.

(** C39: generateDeployList.ts followed by generateDeploymentArgTemplate.ts writes
    the sorted list, which a deployment then reads back in that order, and, from
    that list, the template of its contracts' arguments: read from the folder the
    template was written to, every contract of the list has its placeholders.  A deployment that reads its arguments
    from the default path reads another file, and is as it was before. *)
Theorem scripts_template_ok `{!TomlLaws} w p dl d :
  getSortedDeployList getAllFullyQualifiedNames = Ok dl →
  generateDeployArgTemplate (transformDeploymentList dl) = Ok d →
  writable (files w) LIST_FILE = true → writable (files w) ARGS_FILE = true →
  readDeploymentList (Some (list_path None)) w = (Ok (VObj p), w) →
  ∃ list args, let w2 := with_args args (with_list list w) in
    (_ ← generateDeployList_main; generateDeploymentArgTemplate_main) w = (Ok tt, w2) ∧
    getDeploymentList None w2 = (Ok (VArr (map VStr (transformDeploymentList dl))), w2) ∧
    (∀ c, c ∉ object_prototype →
       getDeploymentConstructorArgs c (Some DEPLOYMENT_ARG_PATH) w2
         = (Ok (default [] (arg_values <$> dget c (da_constructor d))), w2) ∧
       getDeploymentInitializerArgs c (Some DEPLOYMENT_ARG_PATH) w2
         = (Ok (arg_values <$> dget c (da_initializer d)), w2)) ∧
    ∀ c, (getDeploymentConstructorArgs c None w2).1 = (getDeploymentConstructorArgs c None w).1.
Proof.
  intros Hdl Hd HwL HwA Hread. pose proof (writable_key _ _ HwL) as HkL. pose proof (writable_key _ _ HwA) as HkA.
  destruct script_files as (Hne1 & Hne2 & Hne3).
  destruct (writeDeploymentList_ok (transformDeploymentList dl) None w p HwL Hread) as (list & Hheld & Hlist).
  fold LIST_FILE in Hlist. fold (with_list list w) in Hlist.
  assert (node_at (files (with_list list w)) LIST_FILE = Some (File list)) as Hn by by apply node_at_written.
  destruct (getDeploymentList_held _ None (with_list list w) list Hn Hheld) as (v & Hv & ->%veq_strings).
  assert (writable (files (with_list list w)) ARGS_FILE = true) as HwA'.
  { rewrite <- HwA. exact (writable_insert_ne _ _ _ list HkL (not_eq_sym Hne1) args_folder). }
  destruct (add_templates_wf _ _ _ Hd) as [Hwc Hwi]; [by repeat constructor..|].
  destruct (writeDeploymentArgs_ok d None (with_list list w) HwA' Hwc Hwi) as (args & Hh & Hargs).
  fold ARGS_FILE in Hargs. fold (with_args args (with_list list w)) in Hargs.
  exists list, args. cbn zeta. split_and!.
  - assert (generateDeployList_main w = (Ok tt, with_list list w)) as Hmain.
    { unfold generateDeployList_main, getAllContracts. rewrite Hdl. run_step. exact Hlist. }
    run Hmain. by rewrite (generate_template_ok _ _ _ Hv Hd).
  - assert (node_at (files (with_args args (with_list list w))) LIST_FILE = Some (File list)) as Hn2.
    { unfold with_args. cbn [files with_files]. by rewrite (node_at_insert _ ARGS_FILE), (decide_False _ _ Hne1). }
    by destruct (getDeploymentList_held _ None _ list Hn2 Hheld) as (v & Hv2 & ->%veq_strings).
  - intros c Hc. apply (getDeploymentArgs_held _ _ _ args); [|done..]. by apply node_at_written.
  - intros c. apply constructor_args_frame. unfold with_args, with_list. cbn.
    rewrite (node_at_insert _ ARGS_FILE) by exact HkA. rewrite (node_at_insert _ LIST_FILE) by exact HkL.
    by rewrite (decide_False _ _ Hne2), (decide_False _ _ Hne3).
Qed.

(** ** The salt, by either helper *)
Lemma getBytes32Salt_util_agree name s w :
  free_of ":" name → (∀ a, readArtifact name = Ok a → free_of ":" (sourceName a)) →
  getBytes32Salt_util name = Ok s → getBytes32Salt name w = (Ok s, w).
Proof.
  intros Hfree Hsrc. unfold getBytes32Salt_util. intros (fullName & Hf & Hs)%outcome_bind_ok.
  apply outcome_bind_ok in Hs as (tag & Ht & Hb).
  unfold getBytes32Salt, FactoryTasks.getSalt. rewrite Hf. run_step.
  unfold DeploymentUtil.getSalt, getCustomNSTag in Ht.
  apply outcome_bind_ok in Ht as (b & Hbi & Ht). rewrite Hbi. run_step.
  destruct b as [b|]; [|done]. apply outcome_bind_ok in Ht as (info & Hi & [= <-]).
  assert (extractName fullName = Some name) as Hn.
  { apply outcome_bind_ok in Hf as (a & Ha & [= <-]). unfold extractName.
    change (":" +:+ name)%string with (String ":" name). rewrite split_app by by apply Hsrc.
    by rewrite split_free. }
  rewrite Hn in Hi. cbn [key_of] in Hi. rewrite Hi. run_step. unfold lift. by rewrite Hb.
Qed.

(** ** sumGasInFactoryState.ts *)
Definition has_gas (v : value) (g : Z) : Prop := get "gas" v = Ok (VNum g).
Definition total (gs : list Z) : Z := foldr Z.add 0 gs.

Lemma total_app l l' : total (l ++ l') = total l + total l'.
Proof. unfold total. induction l as [|x l IH]; cbn; [done|]. rewrite IH. lia. Qed.

Lemma sum_member_ok section state l gs n :
  get section state = Ok (VArr l) → Forall2 has_gas l gs →
  sum_member section state (SumNum (JInt n)) = Ok (SumNum (JInt (n + total gs))).
Proof.
  intros Hs Hl. unfold sum_member. rewrite Hs. cbn [mbind outcome_bind iterated indexed]. clear Hs.
  revert n. induction Hl as [|v g l gs Hv Hl IH]; intros n; cbn [foldl total foldr].
  - by rewrite Z.add_0_r.
  - cbn [mbind outcome_bind]. rewrite Hv. cbn [mbind outcome_bind js_add mret outcome_ret].
    rewrite IH. unfold total. by rewrite Z.add_assoc.
Qed.

(** on a factory state whose entries carry the gas their deployment took,
    the script prints the sum over the factory and its four lists. *)
Lemma sumGas_prints_total {C} (w : world C) data State factory g t s c p gt gs gc gp :
  node_at (files w) (path_of "./deployments/testnet/factoryState.json") = Some (File data) →
  json_parse data = Ok State →
  get "defaultFactoryData" State = Ok factory → has_gas factory g →
  get "templates" State = Ok (VArr t) → Forall2 has_gas t gt →
  get "staticContracts" State = Ok (VArr s) → Forall2 has_gas s gs →
  get "deployCreates" State = Ok (VArr c) → Forall2 has_gas c gc →
  get "proxies" State = Ok (VArr p) → Forall2 has_gas p gp →
  sumGas_main w
  = (Ok tt, with_console (console w ++ [num_to_string 10 (g + total (gt ++ gs ++ gc ++ gp))]) w).
Proof.
  intros Hn Hj Hf Hg Ht Hgt Hs Hgs Hc Hgc Hp Hgp.
  assert (sum_gas State = Ok (SumNum (JInt (g + total (gt ++ gs ++ gc ++ gp))))) as Hsum.
  { unfold sum_gas. rewrite Hf. cbn [mbind outcome_bind]. rewrite Hg. cbn [mbind outcome_bind is_undefined js_add].
    rewrite (sum_member_ok _ _ _ _ _ Ht Hgt). cbn [mbind outcome_bind].
    rewrite (sum_member_ok _ _ _ _ _ Hs Hgs). cbn [mbind outcome_bind].
    rewrite (sum_member_ok _ _ _ _ _ Hc Hgc). cbn [mbind outcome_bind].
    rewrite (sum_member_ok _ _ _ _ _ Hp Hgp). do 3 f_equal. rewrite !total_app. lia. }
  unfold sumGas_main. assert (readFileSync "./deployments/testnet/factoryState.json" w = (Ok data, w)) as Hr.
  { unfold readFileSync. by rewrite Hn. }
  run Hr. rewrite Hj. run_step. rewrite Hsum. run_step. done.
Qed.
End scripts.
