(* ===== verification/HardhatConfig.v ===== *)
(** * The hardhat configuration

    [bridge/hardhat.config.ts]: the networks and accounts the tasks run with, the
    compiler settings, the [accounts] task and the unpacking of the legacy
    artifacts when the file is loaded. *)
From S2P Require Import Prelude JsString JsValue World Artifacts.
From S2P Require Import DeploymentUtil FactoryState Chain Hardhat.
From Stdlib Require Import QArith.
#[local] Open Scope Z_scope.

(** ** Accounts *)
Definition namedAccounts : dict Z := [
  ("admin", 0); ("validator0", 1); ("validator1", 2); ("validator2", 3); ("validator3", 4);
  ("validator4", 0); ("validator5", 5); ("validator6", 6); ("validator7", 7); ("validator8", 8);
  ("validator9", 9); ("validator10", 10); ("user", 11)].

(** An account of the development network: its key and its balance in wei. *)
Record HardhatAccount := { privateKey : string; balance : string }.
Definition hardhat_accounts : list HardhatAccount := [
  {| privateKey := "0x6aea45ee1273170fb525da34015e4f20ba39fe792f486ba74020bcacc9badfc1";
     balance := "2500000000000000000000000000000" |};
  {| privateKey := "0x8de84c4eb40a9d32804ebc4005075eed5d64efc92ba26b6ec04d399f5a9b7bd1";
     balance := "100000000000000000000000" |};
  {| privateKey := "0x65a81057728efda8858d5d53094a093203d35cb7437d16f7635594788517bdd2";
     balance := "100000000000000000000000" |};
  {| privateKey := "0xd599743b90304946278b39c8d51b240c0bde4c6603fe47b2b6b131509feca7fc";
     balance := "100000000000000000000000" |};
  {| privateKey := "0xa7b4595b0697fcae35046b6d532d17d2f134c9c5e9a5d202ae4b7c83fa85399e";
     balance := "100000000000000000000000" |};
  {| privateKey := "0x7253354503676cad1165425f4a528369991ca6931afe88d3e82c2edfdbef64f7";
     balance := "100000000000000000000000" |};
  {| privateKey := "0x32a7f91d96f1f2f9926e0e4ec3d6af78b54d679509853125a7d0259be438b41a";
     balance := "100000000000000000000000" |};
  {| privateKey := "0x99e883ac5e9135559842aac297319914fb89efc066975b69bffe82697d10fd9b";
     balance := "100000000000000000000000" |};
  {| privateKey := "0xbc676d5eb82c6356ac53d46124fa01755cb6268b6a5ad51a648d69f9411c3257";
     balance := "100000000000000000000000" |};
  {| privateKey := "0x009ab9b374ada80e33c4efcf5a16ed4235b327d5319532ff8cf39024e36cf9b9";
     balance := "100000000000000000000000" |};
  {| privateKey := "0x264d19b082060f127bdcf6bdee7db0244c4b5a762f686d0fc865bb6e64b3e743";
     balance := "100000000000000000000000" |};
  {| privateKey := "0xc62fd5e127b007a90478de7259b20b0281d20e8c8aa713bdbf819337cf8712df";
     balance := "100000000000000000000000" |};
  {| privateKey := "0xff030000000000000000000000000000000000000000000000000000000000ff";
     balance := "100000000000000000000000" |}].

(** ** Networks *)

(** "auto" or an amount. *)
Inductive gas_setting := Auto | Amount (n : Z).
Record HttpNetwork := {
  url : string;
  gas : option gas_setting;
  gasPrice : option gas_setting;
  gasMultiplier : option Z;
  accounts : option (list string);
}.
Record HardhatNetwork := {
  chainId : Z;
  allowUnlimitedContractSize : bool;
  mining_auto : bool;
  mining_interval : Z;
  hardhat_network_accounts : list HardhatAccount;
}.
Record Networks := {
  dev : HttpNetwork;
  ropsten : HttpNetwork;
  production : HttpNetwork;
  ganache : HttpNetwork;
  hardhat : HardhatNetwork;
}.

Definition ZERO_KEY : string := "0x0000000000000000000000000000000000000000000000000000000000000000".
(** [process.env.X ? process.env.X : "0x00..."]: an empty variable counts as missing. *)
Definition key_or_zero (v : option string) : string :=
  match v with
  | Some (String c s) => String c s
  | _ => ZERO_KEY
  end.

Definition networks (process_env : gmap string string) : Networks := {|
  dev := {|
    url := "http://127.0.0.1:8545"; gas := Some Auto; gasPrice := Some Auto;
    accounts := Some [
      "0x6aea45ee1273170fb525da34015e4f20ba39fe792f486ba74020bcacc9badfc1";
      "0x8de84c4eb40a9d32804ebc4005075eed5d64efc92ba26b6ec04d399f5a9b7bd1";
      "0x65a81057728efda8858d5d53094a093203d35cb7437d16f7635594788517bdd2"];
    gasMultiplier := Some 2 |};
  ropsten := {|
    url := "https://testnet.eth.mnexplore.com/"; gas := Some Auto; gasMultiplier := Some 2;
    gasPrice := Some Auto; accounts := Some [key_or_zero (process_env !! "TESTNET_PK")] |};
  production := {|
    url := "https://eth.alice.net/"; gas := Some (Amount 15000000); gasMultiplier := Some 2;
    gasPrice := Some Auto; accounts := Some [key_or_zero (process_env !! "PROD_PK")] |};
  ganache := {|
    url := "http://127.0.0.1:8545"; gas := None; gasPrice := None; gasMultiplier := None;
    accounts := None |};
  hardhat := {|
    chainId := 1337; allowUnlimitedContractSize := false; mining_auto := true; mining_interval := 0;
    hardhat_network_accounts := hardhat_accounts |} |}.

(** ** Tools *)
Definition solidity : value := VObj [("compilers", VArr [VObj [
  ("version", VStr "0.8.13");
  ("settings", VObj [
    ("outputSelection", VObj [
      ("*", VObj [
        ("*", VArr [VStr "metadata"; VStr "evm.bytecode"; VStr "evm.bytecode.sourceMap"]);
        ("", VArr [VStr "ast"])]);
      ("def", VObj [("MyContract", VArr [VStr "abi"; VStr "evm.bytecode.opcodes"])])]);
    ("metadata", VObj [("useLiteralContent", VBool true)]);
    ("optimizer", VObj [("enabled", VBool true); ("runs", VNum 20000)])])]])].
Definition paths : dict string := [
  ("sources", "./contracts"); ("tests", "./test"); ("cache", "./cache"); ("artifacts", "./artifacts")].
Definition contractSizer : value := VObj [
  ("alphaSort", VBool true); ("disambiguatePaths", VBool false); ("runOnCompile", VBool true);
  ("strict", VBool false)].
Definition gasReporter : value := VObj [
  ("currency", VStr "ETH"); ("gasPrice", VNum 1000000); ("excludeContracts", VArr [VStr "*.t.sol"])].
(** Half the processors, and one job at least: an odd count gives a fraction. *)
Definition mocha_timeout : Z := 120000.
Definition mocha_jobs (cpus : Z) : Q :=
  if Qlt_le_dec 1 (inject_Z cpus / 2) then (inject_Z cpus / 2)%Q else 1%Q.
Definition abiExporter : value := VObj [
  ("path", VStr "./bindings/bindings-artifacts"); ("runOnCompile", VBool true); ("clear", VBool true);
  ("flat", VBool true);
  ("only", VArr (map VStr ["AliceNetFactory"; "ETHDKG"; "ValidatorPool"; "Snapshots"; "BToken"; "AToken";
     "PublicStaking"; "ValidatorStaking"; "Governance"]));
  ("except", VArr (map VStr ["I[A-Z].*"; "Immutable.*"; ".*Mock"; ".*Base"; ".*Storage";
     "ETHDKGAccusations"; "ETHDKGPhases"]));
  ("spacing", VNum 2); ("pretty", VBool false)].

(** ** The [accounts] task *)
Definition accounts_task {C : Type} `{Hardhat} : script C () :=
  for_each getAccounts console_log.

(** ** Loading the file *)
Section legacy.
(** [child_process.exec] starts a command; [kill] ends the process. *)
Context {C : Type} (exec : string → script C ()) (kill : script C ()).

(** [while (!existsSync(dir) && process.killed) {}]: the process has been
    started and not killed, so [killed] is false. *)
Fixpoint wait_while (fuel : nat) (killed : bool) : script C () :=
  match fuel with
  | O => throw Running
  | S fuel =>
      e ← existsSync "../../legacy/V1";
      if negb e && killed then wait_while fuel killed else mret tt
  end.
Definition unpack_legacy (fuel : nat) : script C () :=
  e ← existsSync "../../legacy/V1";
  if e : bool then mret tt
  else
    _ ← exec "tar -xvf ../legacy/V1ArtifactsArchive.tar.gz --directory ../legacy";
    _ ← wait_while fuel false;
    kill.
End legacy.

(** ** The configuration is well formed *)

(** 0x and 64 hexadecimal digits. *)
Definition is_key (s : string) : bool :=
  starts_with "0x" s && (String.length s =? 66)%nat &&
  forallb (λ c, match digit_value c with Some d => d <? 16 | None => false end) (chars (slice 2 s)).
(** A balance: a decimal number of wei. *)
Definition wei (s : string) : option Z := if decide (num_to_string 10 <$> digits 10 None s = Some s) then digits 10 None s else None.

Lemma key_or_zero_ok v : (∀ k, v = Some k → k ≠ "" → is_key k = true) → is_key (key_or_zero v) = true.
Proof. intros Hv. destruct v as [[|c s]|]; [done| |done]. by apply Hv. Qed.

Lemma dev_keys env : Forall (λ k, is_key k = true) (default [] (accounts (dev (networks env)))).
Proof. by apply (bool_decide_unpack (Forall _ _)); vm_compute. Qed.

(** The accounts of the development network are usable: every named account
    is one of them, no key is given twice, every key is a 32-byte key and every
    balance a number of wei, at least 10^23; the keys of the local node "dev" are
    the first of them; and the remote networks have a 32-byte key whenever the
    variable that names it is unset, empty or such a key. *)
Lemma hardhat_config_wf process_env :
  (∀ x k, x ∈ ["TESTNET_PK"; "PROD_PK"] → process_env !! x = Some k → k ≠ "" → is_key k = true) →
  let n := networks process_env in
  let accs := hardhat_network_accounts (hardhat n) in
  NoDup namedAccounts.*1 ∧
  Forall (λ kv, 0 ≤ kv.2 < Z.of_nat (length accs)) namedAccounts ∧
  NoDup (map privateKey accs) ∧
  Forall (λ a, is_key (privateKey a) = true ∧ ∃ b, wei (balance a) = Some b ∧ 10 ^ 23 ≤ b) accs ∧
  accounts (dev n) = Some (take 3 (map privateKey accs)) ∧
  Forall (λ net, ∀ ks, accounts net = Some ks → Forall (λ k, is_key k = true) ks)
    [dev n; ropsten n; production n; ganache n].
Proof.
  intros Henv n accs. split_and!.
  - apply (bool_decide_unpack (NoDup _)). by vm_compute.
  - subst n accs. cbn. repeat constructor; cbn; lia.
  - apply (bool_decide_unpack (NoDup _)). by vm_compute.
  - subst n accs. cbn. repeat apply Forall_cons_2; try apply Forall_nil_2.
    all: split; [by vm_compute|]; eexists; split; [vm_compute; reflexivity|by vm_compute].
  - done.
  - repeat apply Forall_cons_2; [..|apply Forall_nil_2]; intros ks [= <-].
    + exact (dev_keys ∅).
    + apply Forall_singleton, key_or_zero_ok. intros k. apply Henv. left.
    + apply Forall_singleton, key_or_zero_ok. intros k. apply Henv. right. left.
Qed.

(** The unpacking is not waited for: the loop ends at once, whatever the fuel,
    and the process is killed as soon as it has been started. *)
Lemma unpack_legacy_killed {C} (exec : string → script C ()) kill fuel w w1 :
  node_at (files w) (path_of "../../legacy/V1") = None →
  exec "tar -xvf ../legacy/V1ArtifactsArchive.tar.gz --directory ../legacy" w = (Ok tt, w1) →
  unpack_legacy exec kill (S fuel) w = kill w1.
Proof.
  intros Hn Hx. unfold unpack_legacy, existsSync at 1. run_step. rewrite Hn.
  rewrite bool_decide_eq_false_2 by by intros [? [=]]. run Hx. cbn [wait_while]. unfold existsSync. run_step.
  by rewrite andb_false_r.
Qed.
