(* ===== verification/NodeTasks.v ===== *)
(** * The tasks that start processes

    [bridge/scripts/lib/alicenetTasks.ts], from [create-local-seed-node] to
    [start-local-seed-node]: they spawn a node and, in the first case, poll its
    local interface until it answers.  The processes and the server are
    parameters; the output handlers run when a task gives control back, so they
    are part of what [spawn] and [sleep] do. *)
From S2P Require Import Prelude JsString JsValue Toml World Constants Config Artifacts DeploymentUtil Build.
#[local] Open Scope Z_scope.

Section node_tasks.
(** [spawn(command, args)], [valNode.kill(1)], [axios.post(url, {}, { timeout: 2000 })]
    with the status and the data of the response, and five seconds. *)
Context {C : Type} (spawn : string → list string → script C ()) (kill : Z → script C ()).
Context (post : string → script C (Z * value)) (sleep : Z → script C ()).

(** What a round of the loop finds: the data once the node answers with status
    200; a rejected request is followed by five seconds of waiting. *)
Definition poll_round : script C (option value) :=
  try_catch
    (response ← post "http://0.0.0.0:8885/v1/get-block-number";
     mret (if response.1 =? 200 then Some response.2 else None))
    (λ _, _ ← sleep 5000; mret None).

(** [while (!synced) { ... }] *)
Fixpoint poll (fuel : nat) : script C value :=
  match fuel with
  | O => throw Running
  | S fuel =>
      r ← poll_round;
      match r with
      | Some data => mret data
      | None => poll fuel
      end
  end.

(** [v.toString()] *)
Definition toString (v : value) : outcome string :=
  match v with
  | VUndef | VNull => Throw (TypeError "Cannot read properties of undefined (reading 'toString')")
  | v => Ok (String_of v)
  end.

Definition create_local_seed_node (fuel : nat) (configPath : option string) : script C string :=
  let configPath := default "~/Desktop/seedValidatorConfig.toml" configPath in
  _ ← spawn "./madnet" ["--config"; configPath; "validator"];
  alicenetHeight ← poll fuel;
  _ ← kill 1;
  height ← lift (get "BlockHeight" alicenetHeight);
  _ ← console_log (String_of height);
  lift (toString height).

(** [while (1) { continue; }] *)
Fixpoint spin (fuel : nat) : script C () :=
  match fuel with
  | O => throw Running
  | S fuel => spin fuel
  end.
Definition fork_external_chain (fuel : nat) : script C () :=
  _ ← spawn "npm" ["run"; "fork-testnet"];
  spin fuel.

Definition start_local_seed_node : script C () :=
  spawn "./madnet" ["--config"; "./scripts/base-files/localTestNetBaseConfig.toml"; "validator"].

(** ** Laws *)

(** Forking never returns, and never gives control back to its output handlers. *)
Lemma fork_external_chain_never fuel w w1 :
  spawn "npm" ["run"; "fork-testnet"] w = (Ok tt, w1) → fork_external_chain fuel w = (Throw Running, w1).
Proof. intros Hs. unfold fork_external_chain. run Hs. by induction fuel. Qed.

(** The worlds in which the rounds of the loop find nothing. *)
Inductive silent : world C → nat → world C → Prop :=
| silent_done w : silent w 0 w
| silent_round w w1 n w2 : poll_round w = (Ok None, w1) → silent w1 n w2 → silent w (S n) w2.

(** The loop returns as soon as a round finds an answer. *)
Lemma poll_answers n fuel w w1 data w2 :
  silent w n w1 → poll_round w1 = (Ok (Some data), w2) → (n < fuel)%nat → poll fuel w = (Ok data, w2).
Proof.
  intros Hs. revert fuel. induction Hs as [w|w w1' n w2' Hr Hs IH]; intros fuel Hp Hf;
    (destruct fuel as [|fuel]; [lia|]); cbn [poll].
  - by run Hp.
  - run Hr. apply IH; [done|lia].
Qed.

(** A node that answers makes the task return its block height, the node killed. *)
Lemma create_local_seed_node_ok n fuel cfg w w0 w1 data h w2 w3 :
  spawn "./madnet" ["--config"; default "~/Desktop/seedValidatorConfig.toml" cfg; "validator"] w = (Ok tt, w0) →
  silent w0 n w1 → poll_round w1 = (Ok (Some data), w2) → (n < fuel)%nat →
  kill 1 w2 = (Ok tt, w3) → get "BlockHeight" data = Ok (VNum h) →
  create_local_seed_node fuel cfg w
  = (Ok (num_to_string 10 h), with_console (console w3 ++ [num_to_string 10 h]) w3).
Proof.
  intros Hsp Hs Hp Hf Hk Hh. unfold create_local_seed_node. run Hsp.
  run (poll_answers _ _ _ _ _ _ Hs Hp Hf). run Hk. rewrite Hh. run_step. done.
Qed.
End node_tasks.
