(* ===== verification/AlicenetTasks.v ===== *)
(** * The operation tasks

    [bridge/scripts/lib/alicenetTasks.ts]: the hardhat tasks that operate a
    deployed AliceNet (minting, maintenance, validators, configuration files,
    test networks).  What the node and the compiled contracts answer is class
    [Node].  The three tasks that start processes are in [NodeTasks]. *)
From S2P Require Import Prelude JsString JsValue Toml World Constants Config FactoryState.
From S2P Require Import Chain Hardhat.
#[local] Open Scope Z_scope.

(** The encoder of a contract's interface. *)
Definition interface : Type := string → list value → outcome hexdata.

Class Node (X : Type) := {
  (** [ethers.getContractAt(name, a)]: the ABI of the artifact *)
  contract_interface : string → outcome interface;
  (** [new ethers.utils.Interface([signature]).encodeFunctionData(...)] *)
  encode_signature : string → list value → outcome hexdata;
  is_address : string → bool;
  (** [token.balanceOf(account)], a call that changes nothing *)
  balanceOf : address → address → chain X → outcome Z;
  (** the arguments of the i-th log of the latest transaction *)
  parse_log : string → nat → chain X → outcome (list value);
  (** what [console.log] prints of a value that is not a string *)
  inspect : value → string;
  inspect_receipt : Receipt → string;
  (** the network some milliseconds later *)
  after_delay : Z → chain X → chain X;
  (** the network once the latest transaction has that many confirmations, if ever *)
  confirmed : Z → chain X → option (chain X);
  chainId : Z;
  (** requests to a development node *)
  impersonateAccount : address → chain X → outcome (chain X);
  unlocked : address → chain X → bool;
  evm_setAutomine : bool → chain X → outcome (chain X);
  evm_setIntervalMining : jsnum → chain X → outcome (chain X);
  (** the gas price, and the height the provider last heard of *)
  getGasPrice : chain X → Z;
  heardBlockNumber : chain X → Z;
  (** the height another network reports *)
  remoteBlockNumber : string → outcome Z;
}.

(** ** Numbers ethers reads *)
Definition is_digit (radix : Z) (c : ascii) : bool :=
  match digit_value c with Some d => d <? radix | None => false end.
Definition is_numeral (radix : Z) (s : string) : bool :=
  bool_decide (s ≠ EmptyString) && forallb (is_digit radix) (chars s).

(** [BigNumber.from(s)] for a string: a decimal or 0x-prefixed integer. *)
Definition BigNumber_from (s : string) : outcome Z :=
  let '(sign, t) := match s with String "-" t => (-1, t) | _ => (1, s) end in
  if has_hex_prefix t && is_numeral 16 (slice 2 t)
  then Ok (sign * default 0 (digits 16 None (slice 2 t)))
  else if is_numeral 10 t then Ok (sign * default 0 (digits 10 None t))
  else Throw (Rejected "invalid BigNumber string").

(** [BigNumber.from(n)] for a number. *)
Definition BigNumber_of (n : jsnum) : outcome Z :=
  match n with
  | JNaN => Throw (Rejected "invalid BigNumber string")
  | JInf _ => Throw (Rejected "overflow")
  | JInt n => if Z.abs n <? 2 ^ 53 - 1 then Ok n else Throw (Rejected "overflow")
  end.
Definition ETHER : Z := 10 ^ 18.
(** [parseEther(n.toString())] *)
Definition parseEther (n : Z) : Z := n * ETHER.

(** The text of a number.  From 2^53 on [toString] leaves the digits in a base
    other than ten to the implementation; here they are the exact ones. *)
Definition jsnum_string (radix : Z) (n : jsnum) : string :=
  match n with
  | JInt n => num_to_string radix n
  | JInf negative => if negative then "-Infinity" else "Infinity"
  | JNaN => "NaN"
  end.

(** A quantity a development node accepts: 0x and hexadecimal digits, no leading zero. *)
Definition rpcQuantity (s : string) : outcome Z :=
  if starts_with "0x" s && is_numeral 16 (slice 2 s)
     && (bool_decide (slice 2 s = "0") || negb (starts_with "0" (slice 2 s)))
  then Ok (default 0 (digits 16 None (slice 2 s)))
  else Throw (Rejected "Errors encountered in param 0").

(** [Math.floor(r * (max - min + 1) + min)] for the random number [r = k / 2^53]. *)
Definition notSoRandomNumBetweenRange (k max min : Z) : Z :=
  (k * (max - min + 1)) / 2 ^ 53 + min.

Section tasks.
Context {X : Type} `{Toml} `{Evm, !Contracts X, Hardhat, !Node X}.
Abbreviation task := (M (world (chain X))).

(** ** The node *)
Definition on_chain (f : chain X → outcome (chain X)) : task () := λ w,
  match f (chain_state w) with
  | Ok c => (Ok tt, with_chain c w)
  | Throw e => (Throw e, w)
  end.
Definition delay (milliseconds : Z) : task () :=
  modify (λ w, with_chain (after_delay milliseconds (chain_state w)) w).
(** [await tx.wait(n)] *)
Definition confirmations (n : Z) : task () :=
  on_chain (λ c, of_option Running (confirmed n c)).

(** [provider.send("hardhat_mine", [count])] *)
Definition hardhat_mine (count : string) : task () :=
  on_chain (λ c, n ← rpcQuantity count; Ok (with_block (block_number c + n) c)).

(** The named account at position 0. *)
Definition admin : outcome address :=
  of_option (TypeError "Cannot read properties of undefined (reading 'address')") (head signers).
Definition account_at (i : nat) : outcome address :=
  of_option (TypeError "Cannot read properties of undefined") (signers !! i).

Definition address_arg (a : string) : outcome address :=
  if is_address a then Ok a else Throw (Rejected "invalid address").
Definition value_arg (v : Z) : outcome Z :=
  if v <? 0 then Throw (Rejected "invalid hex string") else Ok v.

Definition getBalance (a : string) : task Z :=
  a ← lift (address_arg a);
  gets (λ w, balance (chain_state w) a).

(** [signer.sendTransaction({ to, value, data })] *)
Definition sendTransaction (from to : address) (value : Z) (data : hexdata) : task Receipt :=
  to ← lift (address_arg to);
  value ← lift (value_arg value);
  let t := Tx from (Some to) value data in
  r ← send t (call_tx t to);
  mret r.2.

(** [contract.connect(from).<method>(...)], its data encoded. *)
Definition call_method (from to : address) (value : Z) (data : hexdata) : task Receipt :=
  to ← lift (address_arg to);
  value ← lift (value_arg value);
  let t := Tx from (Some to) value data in
  r ← send_method t (call_tx t to);
  mret r.2.

(** [factory.connect(from).<method>(...)], from an account the node can sign for. *)
Definition factory_send_from (from factory : address) (fc : fcall) : task Receipt :=
  data ← lift (encodeFactoryData fc);
  ok ← gets (λ w, bool_decide (from ∈ signers) || unlocked from (chain_state w));
  if ok : bool then call_method from factory 0 data
  else throw (Rejected "unknown account").

(** [(await getContractFactory(name)).connect(from).deploy(args)] *)
Definition deploy (from : address) (name : string) (args : list value) : task address :=
  f ← lift (getContractFactory name);
  data ← lift (getDeployTransaction f args);
  let dep := default EMPTY data in
  let t := Tx from None 0 dep in
  r ← send t (create_tx t (λ self, construct_at dep self from));
  mret r.1.

(** [factory.lookup(salt)], answered by the code of a factory only. *)
Definition lookup (factory : address) (salt : hexdata) : task address :=
  k ← gets (λ w, accounts (chain_state w) !! factory);
  match account_code <$> k with
  | Some FactoryCode => mret (getMetamorphicContractAddress salt factory)
  | _ => throw (Rejected "CALL_EXCEPTION")
  end.
Definition lookup_name (factory : address) (name : string) : task address :=
  salt ← lift (formatBytes32String (Some name));
  lookup factory salt.
(** [getContractAt(name, await factory.lookup(formatBytes32String(name)))] *)
Definition deployed_contract (factory : address) (name : string) : task (address * interface) :=
  a ← lookup_name factory name;
  i ← lift (contract_interface name);
  mret (a, i).
Definition factory_at (factoryAddress : string) : task address :=
  _ ← lift (contract_interface ALICENET_FACTORY);
  mret factoryAddress.

(** ** Waiting *)

(** The loop of [waitBlocks]: each round reads the height, then waits ten seconds. *)
Fixpoint wait_until (fuel : nat) (expectedBlock constBlock : Z) : task () :=
  if constBlock <? expectedBlock then
    match fuel with
    | O => throw Running
    | S fuel =>
        constBlock ← blockNumber;
        _ ← console_log ("Current block: " +:+ num_to_string 10 constBlock);
        _ ← delay 10000;
        wait_until fuel expectedBlock constBlock
    end
  else mret tt.
Definition waitBlocks (fuel : nat) (waitingBlocks : Z) : task () :=
  constBlock ← blockNumber;
  let expectedBlock := constBlock + waitingBlocks in
  _ ← console_log ("Current block: " +:+ num_to_string 10 constBlock +:+ " Waiting for "
         +:+ num_to_string 10 waitingBlocks +:+ " blocks to be mined!");
  wait_until fuel expectedBlock constBlock.

Definition getTokenIdFromTx : task (option value) := λ w,
  (args ← parse_log "event Transfer(address indexed from, address indexed to, uint256 indexed tokenId)"
            2 (chain_state w);
   Ok (args !! 2%nat), w).

(** ** Calls through the factory *)

(** [(await factory.connect(admin).callAny(target, 0, input)).wait()] *)
Definition call_any (factory target : address) (input : hexdata) : task Receipt :=
  factory_send factory (callAny target 0 input).

Definition scheduleMaintenance (factoryAddress : option string) : task () :=
  factoryAddress ← lift (required "factoryAddress" factoryAddress);
  input ← lift (encode_signature "function scheduleMaintenance()" []);
  _ ← console_log ("input " +:+ input);
  _ ← lift admin;
  factory ← factory_at factoryAddress;
  validatorPool ← deployed_contract factory "ValidatorPool";
  _ ← call_any factory validatorPool.1 input;
  mret tt.

Definition pauseEthdkgArbitraryHeight (alicenetHeight factoryAddress : option string) : task () :=
  alicenetHeight ← lift (required "alicenetHeight" alicenetHeight);
  factoryAddress ← lift (required "factoryAddress" factoryAddress);
  input ← lift (encode_signature "function pauseConsensusOnArbitraryHeight(uint256)"
                  [VStr alicenetHeight]);
  _ ← lift admin;
  factory ← factory_at factoryAddress;
  validatorPool ← deployed_contract factory "ValidatorPool";
  _ ← call_any factory validatorPool.1 input;
  mret tt.

Definition initializeEthdkg (factoryAddress : option string) : task () :=
  factoryAddress ← lift (required "factoryAddress" factoryAddress);
  _ ← lift admin;
  factory ← factory_at factoryAddress;
  validatorPool ← deployed_contract factory "ValidatorPool";
  _ ← console_log "Initializing ETHDKG";
  input ← lift (validatorPool.2 "initializeETHDKG" []);
  _ ← call_any factory validatorPool.1 input;
  _ ← confirmations 3;
  console_log "Done".

Definition ethdkgInput : task () :=
  input ← lift (encode_signature "function initializeETHDKG()" []);
  console_log ("input " +:+ input).

Definition virtualMintDeposit (factoryAddress depositOwnerAddress : option string)
    (depositAmount accountType : Z) : task () :=
  factoryAddress ← lift (required "factoryAddress" factoryAddress);
  owner ← lift (required "depositOwnerAddress" depositOwnerAddress);
  input ← lift (encode_signature
    "function virtualMintDeposit(uint8 accountType_,address to_,uint256 amount_)"
    [VNum accountType; VStr owner; VNum depositAmount]);
  _ ← lift admin;
  factory ← factory_at factoryAddress;
  bToken ← deployed_contract factory "BToken";
  receipt ← call_any factory bToken.1 input;
  _ ← console_log (inspect_receipt receipt);
  _ ← (match events receipt with
       | Some (_ :: _) => mret tt
       | _ => throw (TypeError "Cannot read properties of undefined (reading 'data')")
       end : task ());
  event ← (λ w, (parse_log "DepositReceived" 0 (chain_state w), w));
  console_log (inspect (VArr event)).

(** The height declared with the default -1. *)
Definition setMinEthereumBlocksPerSnapshot (factoryAddress : option string) (blockNum : Z) : task () :=
  factoryAddress ← lift (required "factoryAddress" factoryAddress);
  factory ← factory_at factoryAddress;
  snapshots ← deployed_contract factory "Snapshots";
  if blockNum <? 0 then
    throw (Error "block-num not passed or the value was smaller than 0!")
  else
    _ ← lift admin;
    input ← lift (snapshots.2 "setMinimumIntervalBetweenSnapshots" [VNum blockNum]);
    _ ← console_log ("Setting the setMinimumIntervalBetweenSnapshots to " +:+ num_to_string 10 blockNum);
    rept ← call_any factory snapshots.1 input;
    _ ← confirmations 3;
    if status rept =? 1 then console_log "Done"
    else throw (Error ("Receipt indicates failure: " +:+ inspect_receipt rept)).

(** ** Balances and minting *)

(** The amount is read in base 16. *)
Definition transfer_amount (amount : string) : outcome Z :=
  n ← BigNumber_of (parse_int (Some 16) amount);
  Ok (n * 10 ^ 18).

Definition transferEth (receiver amount : option string) : task () :=
  receiver ← lift (required "receiver" receiver);
  amount ← lift (required "amount" amount);
  owner ← lift (account_at 0);
  ownerBal ← getBalance owner;
  amount ← lift (transfer_amount amount);
  _ ← console_log ("previous owner balance: " +:+ num_to_string 10 ownerBal);
  receiverBal ← getBalance receiver;
  _ ← console_log ("previous receiver balance: " +:+ num_to_string 10 receiverBal);
  _ ← sendTransaction owner receiver amount EMPTY;
  receiverBal ← getBalance receiver;
  _ ← console_log ("new receiver balance: " +:+ num_to_string 10 receiverBal);
  ownerBal2 ← getBalance owner;
  console_log ("new owner balance: " +:+ num_to_string 10 (ownerBal - ownerBal2)).

Definition token_balance (token account : string) : task Z := λ w,
  (balanceOf token account (chain_state w), w).

(** A transaction with the nonce it was given: the account's next one is accepted. *)
Definition send_with_nonce (nonce : Z) (factory : address) (fc : fcall) : task Receipt :=
  from ← lift signer;
  n ← getTransactionCount from;
  if n =? nonce then factory_send factory fc
  else throw (Rejected (if nonce <? n then "nonce too low" else "nonce too high")).

Definition mintATokenTo_task (factoryAddress amount to nonce : option string) : task () :=
  factoryAddress ← lift (required "factoryAddress" factoryAddress);
  amount ← lift (required "amount" amount);
  to ← lift (required "to" to);
  nonce ← (match nonce with
           | None => owner ← lift (account_at 0); getTransactionCount owner
           | Some n => lift (BigNumber_from n)
           end);
  aTokenMinterBase ← lift (getContractFactory "ATokenMinter");
  factory ← factory_at factoryAddress;
  aTokenMinterAddr ← lookup_name factory "ATokenMinter";
  aToken ← deployed_contract factory "AToken";
  bal1 ← token_balance aToken.1 to;
  calldata ← lift (encodeFunctionData aTokenMinterBase "mint" [VStr to; VStr amount]);
  _ ← send_with_nonce nonce factory (callAny aTokenMinterAddr 0 calldata);
  bal2 ← token_balance aToken.1 to;
  console_log ("Minted " +:+ num_to_string 10 (bal2 - bal1) +:+ " to account " +:+ to).

(** The helper of spamEthereum, which mints one token. *)
Definition mintATokenTo (factoryAddress to : string) (nonce : Z) : task Receipt :=
  aTokenMinterBase ← lift (getContractFactory "ATokenMinter");
  factory ← factory_at factoryAddress;
  aTokenMinterAddr ← lookup_name factory "ATokenMinter";
  calldata ← lift (encodeFunctionData aTokenMinterBase "mint" [VStr to; VNum 1]);
  send_with_nonce nonce factory (callAny aTokenMinterAddr 0 calldata).

Definition getATokenBalance (factoryAddress account : option string) : task Z :=
  factoryAddress ← lift (required "factoryAddress" factoryAddress);
  account ← lift (required "account" account);
  factory ← factory_at factoryAddress;
  aToken ← deployed_contract factory "AToken";
  bal ← token_balance aToken.1 account;
  _ ← console_log (inspect (VBig bal));
  mret bal.

Definition mintBTokenTo (factoryAddress amount numWei to : option string) : task () :=
  factoryAddress ← lift (required "factoryAddress" factoryAddress);
  amount ← lift (required "amount" amount);
  numWei ← lift (required "numWei" numWei);
  to ← lift (required "to" to);
  if decide (factoryAddress = EmptyString) then
    throw (Error "Expected a factory address to be passed!")
  else
    factory ← factory_at factoryAddress;
    bToken ← deployed_contract factory "BToken";
    bal1 ← token_balance bToken.1 to;
    from ← lift signer;
    data ← lift (bToken.2 "mintTo" [VStr to; VStr amount]);
    value ← lift (BigNumber_from numWei);
    _ ← call_method from bToken.1 value data;
    bal2 ← token_balance bToken.1 to;
    console_log ("Minted " +:+ num_to_string 10 (bal2 - bal1) +:+ " BToken to account " +:+ to).

Definition getBTokenBalance (factoryAddress account : option string) : task Z :=
  factoryAddress ← lift (required "factoryAddress" factoryAddress);
  account ← lift (required "account" account);
  factory ← factory_at factoryAddress;
  bToken ← deployed_contract factory "BToken";
  bal ← token_balance bToken.1 account;
  _ ← console_log (inspect (VBig bal));
  mret bal.

Definition getEthBalance (account : option string) : task Z :=
  account ← lift (required "account" account);
  bal ← getBalance account;
  _ ← console_log (inspect (VBig bal));
  mret bal.

(** ** Validators *)

Definition getValidatorAccount (path : string) : task value :=
  data ← readFileSync path;
  config ← lift (toml_parse data);
  validator ← lift (get "validator" config);
  lift (get "rewardAccount" validator).

Definition is_validator_config (name : string) : bool := bool_decide (slice_to 9 name = "validator").

(** The reward accounts of the configurations, in the order of the folder. *)
Definition validator_accounts (configPath : string) (names : list string) : task (list value) :=
  fold_for (filter (λ n, is_validator_config n = true) names)
    (λ accounts val,
       account ← getValidatorAccount (configPath +:+ "/" +:+ val);
       mret (accounts ++ [account])) [].

Definition account_arg (v : value) : outcome address :=
  match v with VStr a => address_arg a | _ => Throw (Rejected "invalid address") end.

(** What an account below 90 ether is sent: the balance, in wei, is subtracted
    from 100. *)
Definition minAmount : Z := 90.
Definition maxAmount : Z := 100.
Definition fund_validator (account : value) : task () :=
  account ← lift (account_arg account);
  bal ← getBalance account;
  if bal <? parseEther minAmount then
    from ← lift (account_at 0);
    _ ← sendTransaction from account (parseEther (maxAmount - bal)) EMPTY;
    bal ← getBalance account;
    console_log ("account " +:+ account +:+ " has " +:+ num_to_string 10 bal)
  else mret tt.

Definition fundValidators (configPath : option string) : task () :=
  let configPath := match configPath with None => "./../scripts/generated/config" | Some p => p end in
  validatorConfigs ← readdirSync configPath;
  accounts ← validator_accounts configPath validatorConfigs;
  for_each accounts fund_validator.

(** Three blocks, mined when testing and waited for otherwise. *)
Definition three_blocks (test : bool) : task () :=
  if test then hardhat_mine ("0x" +:+ num_to_string 16 3) else confirmations 3.

(** The lookup of "AToken" is not awaited: the task goes on whatever it answers. *)
Definition registerValidators (test : bool) (factoryAddress : option string)
    (addresses : list string) : task () :=
  factoryAddress ← lift (required "factoryAddress" factoryAddress);
  _ ← console_log ("registerValidators " +:+ inspect (VArr (map VStr addresses)));
  factory ← factory_at factoryAddress;
  _ ← lift (formatBytes32String (Some "AToken"));
  _ ← console_log (inspect (VArr (map VStr addresses)));
  from ← lift admin;
  _ ← console_log ("Admin address: " +:+ from);
  registration ← lift (getContractFactory "RegisterValidators");
  registrationContract ← deploy from "RegisterValidators" [VStr factoryAddress];
  _ ← three_blocks test;
  validatorPool ← deployed_contract factory "ValidatorPool";
  _ ← console_log ("validatorPool Address: " +:+ validatorPool.1);
  _ ← console_log "Staking validators";
  stake ← lift (encodeFunctionData registration "stakeValidators" [VNum (Z.of_nat (length addresses))]);
  _ ← factory_send factory (delegateCallAny registrationContract stake);
  _ ← three_blocks test;
  _ ← console_log "Registering validators";
  register ← lift (encodeFunctionData registration "registerValidators" [VArr (map VStr addresses)]);
  _ ← factory_send factory (delegateCallAny registrationContract register);
  _ ← three_blocks test;
  console_log "done".

Definition set_ethereum (factoryAddress : string) (config : value) : outcome value :=
  ethereum ← get "ethereum" config;
  ethereum ← set "registryAddress" (VStr factoryAddress) ethereum;
  ethereum ← set "startingBlock" (VNum 14542800) ethereum;
  set "ethereum" ethereum config.

(** The folder listed and the folder read and written are not the same. *)
Definition MAINNET_FACTORY : string := "0xA85Fcfba7234AD28148ebDEe054165AeF6974a65".
Definition set_validator_file (factoryAddress fileName : string) : task () :=
  let filePath := VALIDATOR_CONFIG_DIR +:+ fileName in
  data ← readFileSync filePath;
  config ← lift (toml_parse data);
  config ← lift (set_ethereum factoryAddress config);
  output ← lift (toml_stringify config);
  writeFileSync (VALIDATOR_CONFIG_DIR +:+ fileName) output.
Definition set_mainnet_validator (factoryAddress configPath : option string) : task () :=
  let factoryAddress := match factoryAddress with None => MAINNET_FACTORY | Some f => f end in
  let configPath := match configPath with None => "../scripts/generated/config" | Some p => p end in
  validatorConfigs ← readdirSync configPath;
  for_each validatorConfigs (set_validator_file factoryAddress).

(** ** Migration and deployment arguments *)

Definition migration_step (fuel : nat) (factory stateMigration : address) (i : interface) : task () :=
  step ← lift (i "doMigrationStep" []);
  _ ← factory_send factory (delegateCallAny stateMigration step);
  waitBlocks fuel 3.

Definition deployStateMigrationContract (fuel : nat) (factoryAddress migrationAddress : option string)
    (skipFirstTransaction : bool) : task () :=
  factoryAddress ← lift (required "factoryAddress" factoryAddress);
  if decide (factoryAddress = EmptyString) then
    throw (Error "Expected a factory address to be passed!")
  else
    from ← lift admin;
    _ ← console_log ("Admin address: " +:+ from);
    factory ← factory_at factoryAddress;
    stateMigration ←
      (match migrationAddress with
       | None | Some EmptyString =>
           _ ← console_log "Deploying migration contract!";
           stateMigration ← deploy from "StateMigration" [VStr factoryAddress];
           _ ← waitBlocks fuel 6;
           _ ← console_log ("Deployed migration contract at " +:+ stateMigration);
           f ← lift (getContractFactory "StateMigration");
           mret (stateMigration, encodeFunctionData f)
       | Some a =>
           i ← lift (contract_interface "StateMigration");
           _ ← console_log ("Using migration contract deployed at " +:+ a);
           mret (a, i)
       end : task (address * interface));
    _ ← (if skipFirstTransaction then mret tt
         else
           _ ← console_log "Calling the contract first time to mint and stake NFTs!";
           migration_step fuel factory stateMigration.1 stateMigration.2);
    _ ← console_log "Calling the contract second time to register and migrate state!";
    migration_step fuel factory stateMigration.1 stateMigration.2.

Definition ATOKEN_CONTRACT : string := "contracts/AToken.sol:AToken".
(** [deploymentConfig.constructor[expectedContract][0] = { legacyToken_: a }] *)
Definition set_legacy_token (a : address) (config : value) : outcome value :=
  constructors ← get "constructor" config;
  args ← get ATOKEN_CONTRACT constructors;
  args ← set0 (VObj [("legacyToken_", VStr a)]) args;
  constructors ← set ATOKEN_CONTRACT args constructors;
  set "constructor" constructors config.

Definition deployLegacyTokenAndUpdateDeploymentArgs
    (deploymentArgsTemplatePath outputFolder : option string) : task () :=
  let templatePath := match deploymentArgsTemplatePath with
                      | None => DEFAULT_CONFIG_OUTPUT_DIR +:+ "/deploymentArgsTemplate"
                      | Some p => p
                      end in
  let outputFolder := match outputFolder with None => "../scripts/generated" | Some p => p end in
  e ← existsSync templatePath;
  if negb e then
    throw (Error ("Error: Could not find deployment Args file expected at " +:+ templatePath))
  else
    e ← existsSync outputFolder;
    if negb e then
      throw (Error ("Error: Output folder  " +:+ outputFolder +:+ " doesn't exist!"))
    else
      _ ← console_log ("Loading deploymentArgs from: " +:+ templatePath);
      deploymentConfig ← readDeploymentArgs (Some templatePath);
      constructors ← lift (get "constructor" deploymentConfig);
      expected ← lift (get ATOKEN_CONTRACT constructors);
      if is_undefined expected then
        throw (Error ("Couldn't find legacyToken_ in the constructor area for " +:+ ATOKEN_CONTRACT
                      +:+ " inside the " +:+ templatePath))
      else
        from ← lift admin;
        _ ← console_log ("Admin address: " +:+ from);
        token ← lift (getContractFactory "LegacyToken");
        legacyToken ← deploy from "LegacyToken" [];
        init ← lift (encodeFunctionData token "initialize" []);
        _ ← call_method from legacyToken 0 init;
        minted ← token_balance legacyToken from;
        _ ← console_log ("Minted " +:+ num_to_string 10 minted +:+ " tokens for user: " +:+ from);
        _ ← console_log ("Deployed legacy token at: " +:+ legacyToken);
        deploymentConfig ← lift (set_legacy_token legacyToken deploymentConfig);
        data ← lift (toml_stringify deploymentConfig);
        writeFileSync (outputFolder +:+ "/deploymentArgsTemplate") data.

(** ** Development networks *)

Definition setHardhatIntervalMining (enableAutoMine : bool) (interval : option string) : task () :=
  let interval := parse_int (Some 10) (match interval with None => "15000" | Some i => i end) in
  if chainId =? HARDHAT_CHAIN_ID then
    if enableAutoMine then
      try_catch (on_chain (evm_setAutomine true)) (λ _, mret tt)
    else
      try_catch (_ ← on_chain (evm_setIntervalMining interval); on_chain (evm_setAutomine false))
        (λ _, mret tt)
  else mret tt.

(** One round of the endless loop of [getGasCost]; the price is read before the wait. *)
Definition gas_cost_round (lastBlock : Z) : task Z :=
  gasPrice ← gets (λ w, getGasPrice (chain_state w));
  _ ← delay 7000;
  blocknum ← gets (λ w, heardBlockNumber (chain_state w));
  _ ← (if lastBlock <? blocknum then
         console_log ("gas price @ blocknum " +:+ num_to_string 10 blocknum +:+ ": "
                      +:+ num_to_string 10 gasPrice)
       else mret tt);
  mret blocknum.
(** The task up to so many rounds. *)
Definition getGasCost (rounds : nat) : task Z :=
  fold_for (replicate rounds tt) (λ lastBlock _, gas_cost_round lastBlock) 0.

Definition enable_hardhat_impersonate (account : option string) : task () :=
  let account := match account with
                 | None => "0xb9670e38d560c5662f0832cacaac3282ecffddb1"
                 | Some a => a
                 end in
  on_chain (impersonateAccount account).

Definition mine_num_blocks (numBlocks : option string) : task () :=
  numBlocks ← lift (required "numBlocks" numBlocks);
  hardhat_mine ("0x" +:+ jsnum_string 16 (parse_int (Some 10) numBlocks)).

Definition ROPSTEN_SIGNER : string := "0xb9670e38d560c5662f0832cacaac3282ecffddb1".
(** The impersonated account is fixed; the one that signs is the argument. *)
Definition pause_consensus_at_height (height factoryAddress signer : option string) : task () :=
  height ← lift (required "height" height);
  let factoryAddress := match factoryAddress with None => MAINNET_FACTORY | Some f => f end in
  let signer := match signer with None => ROPSTEN_SIGNER | Some s => s end in
  _ ← on_chain (impersonateAccount ROPSTEN_SIGNER);
  signer ← lift (address_arg signer);
  factory ← factory_at factoryAddress;
  _ ← console_log "1";
  valPoolAddress ← lookup_name factory "ValidatorPool";
  _ ← console_log "2";
  valPool ← lift (getContractFactory "ValidatorPool");
  pauseConsensusAt ← lift (encodeFunctionData valPool "pauseConsensusOnArbitraryHeight" [VStr height]);
  _ ← console_log "3";
  _ ← factory_send_from signer factory (callAny valPoolAddress 0 pauseConsensusAt);
  _ ← console_log "4";
  console_log "5".

Definition unregister_all_validators (factoryAddress signer : option string) : task () :=
  let factoryAddress := match factoryAddress with None => MAINNET_FACTORY | Some f => f end in
  let signer := match signer with None => ROPSTEN_SIGNER | Some s => s end in
  signer ← lift (address_arg signer);
  factory ← factory_at factoryAddress;
  valPool ← deployed_contract factory "ValidatorPool";
  unregisterValidators ← lift (valPool.2 "unregisterAllValidators" []);
  _ ← factory_send_from signer factory (callAny valPool.1 0 unregisterValidators);
  mret tt.

Definition get_latest_blockheight (rpcUrl : option string) : task Z :=
  let rpcUrl := match rpcUrl with None => "https://testnet.eth.mnexplore.com/" | Some u => u end in
  n ← lift (remoteBlockNumber rpcUrl);
  let blocknum := n - 100 in
  _ ← console_log (num_to_string 10 blocknum);
  mret blocknum.

(** ** Load on a test network *)

(** The local variables of [spamEthereum]'s loop. *)
Record spam := Spam { txSent : Z; txSet : list Receipt; previousBlockNum : Z }.
Definition defaultVal : Z := 100000000000000000000.

Definition fund_spammer (i : nat) : task () :=
  a ← lift (account_at i);
  bal ← getBalance a;
  if bal <? defaultVal then
    owner ← lift (account_at 0);
    _ ← sendTransaction owner a defaultVal EMPTY; mret tt
  else mret tt.

Definition gasBomb (fooToken : address) : task () :=
  owner ← lift signer;
  _ ← deploy owner "Minter" [VStr fooToken]; mret tt.
(** Populating the request estimates its gas, outside of the try. *)
Definition send_wei (from to : address) : task (list Receipt) :=
  let t := Tx from (Some to) 1 EMPTY in
  _ ← estimateGas t (call_tx t to);
  try_catch (r ← sendTransaction from to 1 EMPTY; mret [r]) (λ _, mret []).
Definition sendEth : task (list Receipt) :=
  a1 ← lift (account_at 1);
  a2 ← lift (account_at 2);
  r2 ← send_wei a2 a1;
  r1 ← send_wei a1 a2;
  mret (r2 ++ r1).
Definition spam_transaction (factoryAddress : string) (fooToken : address) (type : Z)
    : task (list Receipt) :=
  if type =? 0 then owner ← lift signer; _ ← deploy owner "ValidatorPool" []; mret []
  else if type =? 1 then sendEth
  else if type =? 2 then
    to ← lift (account_at 1);
    owner ← lift (account_at 0);
    nonce ← getTransactionCount owner;
    r ← mintATokenTo factoryAddress to nonce; mret [r]
  else if type =? 3 then _ ← gasBomb fooToken; mret []
  else mret [].

(** One round of the loop, for the random number [k / 2^53]. *)
Definition spam_round (factoryAddress : string) (fooToken : address) (k : Z) (s : spam) : task spam :=
  blocknum ← blockNumber;
  s ← (if previousBlockNum s <? blocknum then
         _ ← gasBomb fooToken; mret (Spam (txSent s) (txSet s) blocknum)
       else mret s : task spam);
  if 15 <? txSent s then mret (Spam 0 (txSet s) (previousBlockNum s))
  else
    a1 ← lift (account_at 1);
    bal1 ← getBalance a1;
    a2 ← lift (account_at 2);
    bal2 ← getBalance a2;
    let type := notSoRandomNumBetweenRange k 3 0 in
    _ ← console_log ("tx type: " +:+ num_to_string 10 type +:+ ", account1: " +:+ num_to_string 10 bal1
           +:+ ", account2: " +:+ num_to_string 10 bal2);
    txs ← try_catch (spam_transaction factoryAddress fooToken type) (λ _, mret []);
    mret (Spam (txSent s + 1) (txSet s ++ txs) (previousBlockNum s)).

(** The task up to as many rounds of its endless loop as there are random numbers. *)
Definition spamEthereum (factoryAddress : option string) (randoms : list Z) : task spam :=
  factoryAddress ← lift (required "factoryAddress" factoryAddress);
  _ ← lift (getContractFactory "ValidatorPool");
  _ ← fund_spammer 2;
  _ ← fund_spammer 1;
  owner ← lift signer;
  fooToken ← deploy owner "FooToken" [];
  _ ← lift (getContractFactory "Minter");
  fold_for randoms (λ s k, spam_round factoryAddress fooToken k s) (Spam 0 [] 0).
End tasks.
