(* ===== verification/OperationSpec.v ===== *)
(** * What the operation tasks do

    Theorems on [AlicenetTasks]: waiting for blocks, ether and tokens, calls of
    the factory's contracts, validators, and development networks. *)
From stdpp Require Import sorting.
From S2P Require Import Prelude JsString JsValue Toml World Constants Config Artifacts.
From S2P Require Import DeploymentUtil FactoryState Chain ChainLaws FactorySpec Hardhat.
From S2P Require Import FactoryTasks TaskSpec AlicenetTasks.
#[local] Open Scope Z_scope.

(** ** Numbers *)

(** The choice among [max - min + 1] numbers is within its bounds, and each
    of them is some random number's. *)
Lemma notSoRandomNumBetweenRange_range max min :
  min ≤ max → max - min < 2 ^ 53 →
  (∀ k, 0 ≤ k < 2 ^ 53 → min ≤ notSoRandomNumBetweenRange k max min ≤ max) ∧
  (∀ v, min ≤ v ≤ max → ∃ k, 0 ≤ k < 2 ^ 53 ∧ notSoRandomNumBetweenRange k max min = v).
Proof.
  unfold notSoRandomNumBetweenRange. set (d := max - min + 1). intros Hle Hd.
  assert (0 < d ≤ 2 ^ 53) as [Hd0 Hd1] by lia. split.
  - intros k Hk. pose proof (Z.div_pos (k * d) (2 ^ 53) ltac:(lia) ltac:(lia)).
    assert (k * d / 2 ^ 53 < d); [|lia]. apply Z.div_lt_upper_bound; nia.
  - intros v Hv. exists (((v - min) * 2 ^ 53 + d - 1) / d).
    set (m := (v - min) * 2 ^ 53 + d - 1).
    assert (d * (m / d) ≤ m < d * (m / d) + d) as Hm.
    { pose proof (Z.div_mod m d ltac:(lia)). pose proof (Z.mod_pos_bound m d Hd0). lia. }
    assert ((v - min) * 2 ^ 53 ≤ (m / d) * d < (v - min) * 2 ^ 53 + d) as Hk by lia.
    split; [split; [apply Z.div_pos; lia|]|].
    + apply Z.div_lt_upper_bound; [done|]. subst m. nia.
    + assert (m / d * d / 2 ^ 53 = v - min); [|lia].
      symmetry. apply Z.div_unique with (m / d * d - 2 ^ 53 * (v - min)); lia.
Qed.

(** The digits of a number: hexadecimal, the first not zero. *)
Lemma is_digit_char radix d : 0 ≤ d < radix → radix ≤ 36 → is_digit radix (digit_char d) = true.
Proof.
  intros Hd Hr. unfold is_digit. rewrite digit_value_char by lia. apply Z.ltb_lt; lia.
Qed.
Lemma to_digits_numeral radix fuel n acc :
  2 ≤ radix ≤ 36 → 0 ≤ n → fuel ≠ 0%nat → forallb (is_digit radix) (chars acc) = true →
  is_numeral radix (to_digits fuel radix n acc) = true.
Proof.
  intros Hr. revert n acc. induction fuel as [|fuel IH]; intros n acc Hn Hf Hacc; [done|].
  cbn [to_digits].
  assert (forallb (is_digit radix) (chars (String (digit_char (n mod radix)) acc)) = true) as Hacc'.
  { cbn [chars forallb]. rewrite is_digit_char; [done| |lia]. apply Z.mod_pos_bound. lia. }
  destruct (n / radix =? 0) eqn:E.
  - unfold is_numeral. by rewrite Hacc'.
  - destruct fuel as [|fuel].
    + cbn. unfold is_numeral. by rewrite Hacc'.
    + apply IH; [apply Z.div_pos; lia|done|done].
Qed.
Lemma to_digits_lead radix fuel n acc :
  2 ≤ radix ≤ 36 → 0 < n < radix ^ Z.of_nat fuel →
  ∃ d t, to_digits fuel radix n acc = String (digit_char d) t ∧ 0 < d < radix.
Proof.
  intros Hr. revert n acc. induction fuel as [|fuel IH]; intros n acc Hn; [cbn in Hn; lia|].
  cbn [to_digits]. destruct (Z.eqb_spec (n / radix) 0) as [E|E].
  - exists (n mod radix), acc. split; [done|].
    pose proof (Z.div_mod n radix ltac:(lia)). pose proof (Z.mod_pos_bound n radix ltac:(lia)). lia.
  - apply IH. split; [pose proof (Z.div_pos n radix ltac:(lia) ltac:(lia)); lia|].
    apply Z.div_lt_upper_bound; [lia|]. rewrite Nat2Z.inj_succ, Z.pow_succ_r in Hn by lia. lia.
Qed.

Lemma starts_with_zero_digit d t : 0 < d < 16 → starts_with "0" (String (digit_char d) t) = false.
Proof.
  intros Hd. unfold starts_with. cbn [String.prefix]. destruct (ascii_dec "0" (digit_char d)) as [He|]; [|done].
  apply (f_equal digit_value) in He. rewrite digit_value_char in He by lia.
  vm_compute (digit_value "0") in He. injection He. lia.
Qed.

(** A number written in hexadecimal is the quantity a node reads. *)
Lemma rpcQuantity_hex n : 0 ≤ n → rpcQuantity ("0x" +:+ num_to_string 16 n) = Ok n.
Proof.
  intros Hn. unfold rpcQuantity. rewrite starts_with_app.
  change (slice 2 ("0x" +:+ num_to_string 16 n)) with (num_to_string 16 n).
  rewrite digits_num_to_string by lia.
  assert (is_numeral 16 (num_to_string 16 n) = true) as ->.
  { unfold num_to_string. rewrite (proj2 (Z.ltb_ge n 0)) by lia. by apply to_digits_numeral. }
  destruct (decide (n = 0)) as [->|Hne]; [done|].
  destruct (to_digits_lead 16 (S (Z.to_nat (Z.log2 n))) n "") as (d & t & Heq & Hd); [done| |].
  { split; [lia|]. apply log2_fuel; lia. }
  assert (starts_with "0" (num_to_string 16 n) = false) as ->.
  { unfold num_to_string. rewrite (proj2 (Z.ltb_ge n 0)) by lia. rewrite Heq.
    by apply starts_with_zero_digit. }
  by rewrite orb_true_r.
Qed.
Lemma rpcQuantity_neg n : n < 0 → is_ok (rpcQuantity ("0x" +:+ num_to_string 16 n)) = false.
Proof.
  intros Hn. unfold rpcQuantity. unfold num_to_string. rewrite (proj2 (Z.ltb_lt n 0)) by lia.
  set (t := to_digits _ _ _ _). change (slice 2 ("0x" +:+ String "-" t)) with (String "-" t).
  unfold is_numeral. cbn [chars forallb]. change (is_digit 16 "-") with false. cbn [andb].
  by rewrite andb_false_r.
Qed.

Section spec.
Context {X : Type} `{Toml} `{Evm, !Contracts X, !EvmLaws, Hardhat, !Node X}.
Implicit Types (c : chain X) (w : world (chain X)).

(** ** Development networks *)

(** C33: [mine-num-blocks] mines the number of blocks its argument starts with,
    when that is a safe integer; when it is negative, no number, or too large for
    a double, it is refused and nothing is mined.  From 2^53 on the digits the
    script sends are up to the JavaScript implementation, and nothing is said. *)
Theorem mine_num_blocks_spec s w num :
  parse_int (Some 10) s = num →
  match num with
  | JInt n =>
      (0 ≤ n < 2 ^ 53 → mine_num_blocks (Some s) w
         = (Ok tt, with_chain (with_block (block_number (chain_state w) + n) (chain_state w)) w)) ∧
      (n < 0 → ∃ e, mine_num_blocks (Some s) w = (Throw e, w))
  | JInf _ | JNaN => ∃ e, mine_num_blocks (Some s) w = (Throw e, w)
  end.
Proof.
  intros Hnum. unfold mine_num_blocks. run_step. cbn [required of_option]. run_step. rewrite Hnum.
  destruct num as [n|[]|]; try by eexists.
  cbn [jsnum_string]. unfold hardhat_mine, on_chain. split; intros Hn.
  - by rewrite rpcQuantity_hex by lia.
  - pose proof (rpcQuantity_neg n Hn) as Hr. destruct (rpcQuantity _) as [|e]; [done|]. by exists e.
Qed.

(** ** Waiting *)
Lemma bind_blockNumber {B} (f : Z → script (chain X) B) w :
  (blockNumber ≫= f) w = f (block_number (chain_state w)) w.
Proof. done. Qed.
Definition logged (m : string) w : world (chain X) := with_console (console w ++ [m]) w.
Lemma bind_console {B} m (f : () → script (chain X) B) w :
  (console_log m ≫= f) w = f tt (logged m w).
Proof. done. Qed.
#[local] Hint Rewrite @bind_blockNumber @bind_console : run.

Lemma waitBlocks_start fuel n w :
  ∃ m, let b := block_number (chain_state w) in
    waitBlocks fuel n w = wait_until fuel (b + n) b (logged m w).
Proof. eexists. unfold waitBlocks. by run_step. Qed.

Lemma wait_until_reached fuel e b w : e ≤ b → wait_until fuel e b w = (Ok tt, w).
Proof. intros Hle. destruct fuel; cbn [wait_until]; by rewrite (proj2 (Z.ltb_ge _ _) Hle). Qed.

Lemma wait_until_round fuel e b w :
  b < e →
  let w1 := logged ("Current block: " +:+ num_to_string 10 (block_number (chain_state w))) w in
  wait_until (S fuel) e b w
  = wait_until fuel e (block_number (chain_state w))
      (with_chain (after_delay 10000 (chain_state w)) w1).
Proof. intros Hlt w1. cbn [wait_until]. by rewrite (proj2 (Z.ltb_lt _ _) Hlt). Qed.

Lemma wait_until_ends n e b w :
  (∀ c, block_number c + 1 ≤ block_number (after_delay 10000 c)) →
  e - Z.of_nat n ≤ block_number (chain_state w) → b ≤ block_number (chain_state w) →
  ∃ w', wait_until (S n) e b w = (Ok tt, w') ∧ e ≤ Z.max b (block_number (chain_state w')).
Proof.
  intros Hmine. revert b w. induction n as [|n IH]; intros b w Hn Hb.
  - destruct (Z.le_gt_cases e b) as [Hle|Hlt].
    + exists w. rewrite wait_until_reached by done. split; [done|lia].
    + rewrite wait_until_round by done. rewrite wait_until_reached by lia.
      eexists. split; [done|]. cbn. pose proof (Hmine (chain_state w)). lia.
  - destruct (Z.le_gt_cases e b) as [Hle|Hlt].
    + exists w. rewrite wait_until_reached by done. split; [done|lia].
    + rewrite wait_until_round by done.
      pose proof (Hmine (chain_state w)) as Hm.
      set (w1 := with_chain (after_delay 10000 (chain_state w))
                   (logged ("Current block: " +:+ num_to_string 10 (block_number (chain_state w))) w)).
      assert (block_number (chain_state w1) = block_number (after_delay 10000 (chain_state w))) as Hw1 by done.
      destruct (IH (block_number (chain_state w)) w1) as (w' & Hrun & He); [lia..|].
      exists w'. split; [exact Hrun|]. revert He.
      destruct (Z.le_gt_cases e (block_number (chain_state w))) as [Hle|Hgt]; [|lia].
      rewrite wait_until_reached in Hrun by done. injection Hrun as <-. lia.
Qed.

(** C31: when every ten seconds bring at least one block, [waitBlocks] returns
    within one round more than the blocks it waits for, and they have been mined. *)
Theorem waitBlocks_ends n w :
  (∀ c, block_number c + 1 ≤ block_number (after_delay 10000 c)) →
  ∃ w', waitBlocks (S n) (Z.of_nat n) w = (Ok tt, w') ∧
    block_number (chain_state w) + Z.of_nat n ≤ block_number (chain_state w').
Proof.
  intros Hmine. destruct (waitBlocks_start (S n) (Z.of_nat n) w) as [m ->].
  set (b := block_number (chain_state w)). set (w1 := logged m w).
  destruct n as [|n].
  - exists w1. rewrite wait_until_reached by lia. split; [done|]. change (b + 0 ≤ b). lia.
  - rewrite wait_until_round by (change (b < b + Z.of_nat (S n)); lia).
    set (w2 := with_chain (after_delay 10000 (chain_state w1)) _).
    pose proof (Hmine (chain_state w1)) as Hm. change (block_number (chain_state w1)) with b in *.
    destruct (wait_until_ends n (b + Z.of_nat (S n)) b w2 Hmine) as (w' & Hrun & He);
      [change (b + Z.of_nat (S n) - Z.of_nat n ≤ block_number (after_delay 10000 (chain_state w1))); lia
      |change (b ≤ block_number (after_delay 10000 (chain_state w1))); lia|].
    exists w'. split; [exact Hrun|lia].
Qed.

(** C32: on a network that mines only when it is sent a transaction, waiting for
    a block never returns. *)
Theorem waitBlocks_never n w fuel :
  (∀ c, block_number (after_delay 10000 c) = block_number c) → 0 < n →
  (waitBlocks fuel n w).1 = Throw Running.
Proof.
  intros Hstill Hn. destruct (waitBlocks_start fuel n w) as [m ->].
  set (b := block_number (chain_state w)).
  assert (block_number (chain_state (logged m w)) = b) as Hb by done.
  revert Hb. generalize (logged m w). clear m.
  induction fuel as [|fuel IH]; intros w1 Hb.
  - cbn [wait_until]. by rewrite (proj2 (Z.ltb_lt b (b + n)) ltac:(lia)).
  - rewrite wait_until_round by lia. rewrite Hb. apply IH. cbn. by rewrite Hstill.
Qed.

(** ** Ether *)

#[local] Hint Rewrite @bind_the_chain @bind_change @bind_require : run.

(** The state [c'] is [c] after [owner] sent [v] wei to [a]. *)
Record ether_sent (owner a : address) (v : Z) c c' : Prop := {
  es_balance : ∀ b, balance c' b = balance c b + (if decide (b = a) then v else 0)
                                 - (if decide (b = owner) then v else 0);
  es_accounts : accounts c' = accounts c;
  es_factories : factories c' = factories c;
  es_ext : ext c' = ext c;
  es_nonce : ∀ b, nonce c' b = nonce c b + if decide (b = owner) then 1 else 0;
  es_block : block_number c' = block_number c + 1;
}.

Lemma balance_insert a v c b :
  balance (with_balances (<[a := v]> (balances c)) c) b = if decide (b = a) then v else balance c b.
Proof.
  unfold balance. cbn. case_decide as Hb; [by rewrite Hb, lookup_insert_eq|].
  by rewrite lookup_insert_ne.
Qed.

Lemma transfer_ok (from to : address) v c l :
  0 ≤ v ≤ balance c from →
  ∃ c', transfer from to v (c, l) = (Ok tt, (c', l)) ∧
    accounts c' = accounts c ∧ factories c' = factories c ∧ ext c' = ext c ∧ nonces c' = nonces c ∧
    block_number c' = block_number c ∧
    ∀ b, balance c' b = balance c b + (if decide (b = to) then v else 0)
                        - (if decide (b = from) then v else 0).
Proof.
  intros Hv. unfold transfer. case_decide as Hz.
  - exists c. split; [done|]. repeat split; try done. intros b. repeat case_decide; lia.
  - unfold the_chain, require, change. run_step. cbn [fst]. rewrite (proj2 (Z.leb_le _ _)) by lia. run_step.
    eexists. split; [done|]. repeat split; try done. intros b. cbn [fst].
    rewrite !balance_insert. repeat case_decide; subst; try done; lia.
Qed.
Lemma transfer_refused (from to : address) v c l :
  0 < v → balance c from < v → ∃ e s, transfer from to v (c, l) = (Throw e, s).
Proof.
  intros Hv Hb. unfold transfer. rewrite decide_False by lia. unfold the_chain, require. run_step.
  cbn [fst]. rewrite (proj2 (Z.leb_gt _ _)) by lia. by eexists _, _.
Qed.

Lemma call_ether depth (owner a : address) v c l c' l' :
  transfer owner a v (c, l) = (Ok tt, (c', l')) → accounts c' !! a = None →
  call (S depth) owner a v EMPTY (c, l) = (Ok tt, (c', l')).
Proof. intros Htr Ha. cbn [call]. run Htr. run_step. by rewrite Ha. Qed.
Lemma call_no_ether depth (owner a : address) v c l e s :
  transfer owner a v (c, l) = (Throw e, s) → call (S depth) owner a v EMPTY (c, l) = (Throw e, s).
Proof. intros Htr. cbn [call]. by rewrite (bind_fail _ _ _ _ _ Htr). Qed.

Lemma call_user depth (from a : address) rt s input c l n x' :
  accounts c !! a = Some (Account (UserCode rt) s) →
  call_code (UserCode rt) a from 0 input s (ext c) = Some (s, n, x') →
  call (S depth) from a 0 input (c, l) = (Ok tt, (with_ext x' c, l ++ replicate n foreign_log)).
Proof.
  intros Ha Hc. cbn [call]. unfold transfer. rewrite decide_True by done. run_step. rewrite Ha.
  cbn [account_code account_slot]. by eapply run_user_ok.
Qed.

Lemma call_tx_ether owner a v c l c' l' :
  transfer owner a v (bump owner c, l) = (Ok tt, (c', l')) → accounts c' !! a = None →
  call_tx (Tx owner (Some a) v EMPTY) a (c, l) = (Ok tt, (c', l')).
Proof.
  intros Htr Ha. unfold call_tx. rewrite bind_change. exact (call_ether 1023 owner a v _ _ _ _ Htr Ha).
Qed.
Lemma call_tx_no_ether owner a v c l e s :
  transfer owner a v (bump owner c, l) = (Throw e, s) →
  call_tx (Tx owner (Some a) v EMPTY) a (c, l) = (Throw e, s).
Proof.
  intros Htr. unfold call_tx. rewrite bind_change. exact (call_no_ether 1023 owner a v _ _ _ _ Htr).
Qed.

Lemma sendTransaction_ether owner a v w :
  let c := chain_state w in
  let t := Tx owner (Some a) v EMPTY in
  is_address a = true → accounts c !! a = None → gas_used c t ≤ block_gas_limit c →
  0 ≤ balance c owner →
  if decide (0 ≤ v ≤ balance c owner)
  then ∃ r c', sendTransaction owner a v EMPTY w = (Ok r, with_chain c' w) ∧ ether_sent owner a v c c'
  else ∃ e, sendTransaction owner a v EMPTY w = (Throw e, w).
Proof.
  intros c t Ha Hacc Hgas Hb. unfold sendTransaction, address_arg. rewrite Ha. run_step.
  unfold value_arg. destruct (Z.ltb_spec v 0) as [Hneg|Hpos].
  { rewrite decide_False by lia. eexists. reflexivity. }
  run_step. fold t. unfold send, run_tx.
  assert (∀ b, nonce (bump owner c) b = nonce c b + if decide (b = owner) then 1 else 0) as Hn.
  { intros b. unfold bump. rewrite nonce_with_nonce. case_decide; [by subst|lia]. }
  case_decide as Hv.
  - destruct (transfer_ok owner a v (bump owner c) [] Hv) as (c' & Htr & H1' & H2' & H3' & H4' & H5' & H6').
    pose proof (call_tx_ether _ _ _ _ _ _ _ Htr ltac:(by rewrite H1')) as Hcall.
    eexists _, (with_block (block_number c' + 1) c'). split.
    + unfold mbind, M_bind. fold c. unfold t at 1. rewrite Hcall.
      by rewrite (proj2 (Z.leb_le _ _) Hgas).
    + split; [exact H6'|exact H1'|exact H2'|exact H3'| |cbn; by rewrite H5'].
      intros b. rewrite <- Hn. unfold nonce. cbn. by rewrite H4'.
  - destruct (transfer_refused owner a v (bump owner c) []) as (e & s & Htr); [lia..| |].
    { change (balance c owner < v). lia. }
    exists e. unfold mbind, M_bind. fold c. unfold t at 1.
    by rewrite (call_tx_no_ether _ _ _ _ _ _ _ Htr).
Qed.

Lemma getBalance_ok a w : is_address a = true → getBalance a w = (Ok (balance (chain_state w) a), w).
Proof. intros Ha. unfold getBalance, address_arg. by rewrite Ha. Qed.
Lemma account_at_ok i a : signers !! i = Some a → account_at i = Ok a.
Proof. intros Ha. unfold account_at. by rewrite Ha. Qed.

(** C29: [transferEth] moves as many ether as its amount says in base 16 from the
    first account to the receiver, and nothing else; an amount that is no
    number, negative, too large, or not covered is refused and nothing moves. *)
Theorem transferEth_spec owner receiver amount w :
  let c := chain_state w in
  signers !! 0%nat = Some owner → is_address owner = true → is_address receiver = true →
  accounts c !! receiver = None → 0 ≤ balance c owner →
  (∀ v, gas_used c (Tx owner (Some receiver) v EMPTY) ≤ block_gas_limit c) →
  let '(r, w') := transferEth (Some receiver) (Some amount) w in
  files w' = files w ∧
  match parse_int (Some 16) amount with
  | JInt n =>
      if decide (0 ≤ n < 2 ^ 53 - 1 ∧ n * 10 ^ 18 ≤ balance c owner)
      then r = Ok tt ∧ ether_sent owner receiver (n * 10 ^ 18) c (chain_state w')
      else is_ok r = false ∧ chain_state w' = c
  | JInf _ | JNaN => is_ok r = false ∧ chain_state w' = c
  end.
Proof.
  intros c Hs Ho Hr Hacc Hb Hg. unfold transferEth. run_step. cbn [required of_option]. run_step.
  rewrite (account_at_ok _ _ Hs). run_step. run (getBalance_ok owner w Ho). fold c.
  unfold transfer_amount, BigNumber_of. destruct (parse_int (Some 16) amount) as [n|b|]; [|done..].
  destruct (Z.ltb_spec (Z.abs n) (2 ^ 53 - 1)) as [Hn|Hn].
  2:{ cbn [mbind outcome_bind]. run_step. rewrite decide_False by lia. done. }
  cbn [mbind outcome_bind]. set (v := n * 10 ^ 18). run_step.
  match goal with |- context[logged ?m w] => set (w1 := logged m w) end.
  run (getBalance_ok receiver w1 Hr). run_step.
  match goal with |- context[logged ?m w1] => set (w2 := logged m w1) end.
  pose proof (sendTransaction_ether owner receiver v w2 Hr Hacc (Hg v) Hb) as Hsend.
  change (chain_state w2) with c in Hsend. case_decide as Hv.
  - destruct Hsend as (r & c' & Hsend & Hsent). run Hsend.
    run (getBalance_ok receiver (with_chain c' w2) Hr). run_step.
    match goal with |- context[logged ?m (with_chain c' w2)] => set (w3 := logged m (with_chain c' w2)) end.
    run (getBalance_ok owner w3 Ho).
    match goal with |- context[console_log ?m w3] =>
      change (console_log m w3) with (@Ok () tt, logged m w3) end.
    cbn beta iota. rewrite decide_True by (subst v; lia). split; [done|]. by split.
  - destruct Hsend as (e & Hsend). rewrite (bind_fail _ _ _ _ _ Hsend).
    rewrite decide_False by (subst v; lia). done.
Qed.

(** C30: a validator account with at least 90 ether is left alone; one with at most
    100 wei is sent 100 ether less 10^18 times its balance; one in between is
    not funded, since 100 less its balance in wei is negative. *)
Theorem fund_validator_spec owner a w :
  let c := chain_state w in
  signers !! 0%nat = Some owner → is_address a = true →
  accounts c !! a = None → 0 ≤ balance c owner → 0 ≤ balance c a →
  (∀ v, gas_used c (Tx owner (Some a) v EMPTY) ≤ block_gas_limit c) →
  let '(r, w') := fund_validator (VStr a) w in
  let v := (100 - balance c a) * ETHER in
  if decide (90 * ETHER ≤ balance c a) then r = Ok tt ∧ w' = w
  else if decide (balance c a ≤ 100 ∧ v ≤ balance c owner)
  then r = Ok tt ∧ ether_sent owner a v c (chain_state w')
  else is_ok r = false ∧ w' = w.
Proof.
  intros c Hs Ha Hacc Hb Hba Hg. unfold fund_validator, account_arg, address_arg. rewrite Ha. run_step.
  run (getBalance_ok a w Ha). fold c. unfold parseEther, minAmount, maxAmount.
  destruct (Z.ltb_spec (balance c a) (90 * ETHER)) as [Hlt|Hge].
  2:{ change (mret (M := M _) tt w) with (@Ok () tt, w). cbn beta iota zeta. by rewrite decide_True. }
  assert (¬ 90 * ETHER ≤ balance c a) as Hn by lia.
  rewrite (account_at_ok _ _ Hs). run_step.
  pose proof (sendTransaction_ether owner a ((100 - balance c a) * ETHER) w Ha Hacc (Hg _) Hb) as Hsend.
  fold c in Hsend. assert (0 < ETHER) as He by done.
  destruct (decide (0 ≤ (100 - balance c a) * ETHER ≤ balance c owner)) as [Hv|Hv].
  - destruct Hsend as (r & c' & Hsend & Hsent). run Hsend. run (getBalance_ok a (with_chain c' w) Ha).
    match goal with |- context[console_log ?m ?w1] =>
      change (console_log m w1) with (@Ok () tt, logged m w1) end.
    cbn zeta beta iota. rewrite (decide_False _ _ Hn), decide_True by nia. by split.
  - destruct Hsend as (e & Hsend). rewrite (bind_fail _ _ _ _ _ Hsend).
    cbn zeta. by rewrite (decide_False _ _ Hn), decide_False by nia.
Qed.

(** ** Load on a test network *)
Lemma try_catch_inv {A} (m : script (chain X) A) d w a w' :
  try_catch m (λ _, mret d) w = (Ok a, w') → m w = (Ok a, w') ∨ a = d.
Proof.
  unfold try_catch. destruct (m w) as [[b|[]] w1]; intros [= <- <-]; auto.
Qed.
Lemma send_wei_length from to w l w' :
  send_wei from to w = (Ok l, w') → (length l ≤ 1)%nat.
Proof.
  unfold send_wei. intros Hrun. inv_bind Hrun. apply try_catch_inv in Hrun as [Hrun| ->]; [|cbn; lia].
  inv_bind Hrun. injection Hrun as <- _. done.
Qed.
Lemma spam_transaction_length fa foo type w l w' :
  spam_transaction fa foo type w = (Ok l, w') → (length l ≤ 2)%nat.
Proof.
  unfold spam_transaction. destruct (type =? 0).
  { intros Hrun. inv_bind Hrun. inv_bind Hrun. injection Hrun as <- _. cbn. lia. }
  destruct (type =? 1).
  { unfold sendEth. intros Hrun. do 4 inv_bind Hrun. injection Hrun as <- _.
    apply send_wei_length in Hm1, Hm2. rewrite length_app. lia. }
  destruct (type =? 2).
  { intros Hrun. do 4 inv_bind Hrun. injection Hrun as <- _. cbn. lia. }
  destruct (type =? 3); [|intros [= <- _]; cbn; lia].
  intros Hrun. inv_bind Hrun. injection Hrun as <- _. cbn. lia.
Qed.

Lemma spam_round_step fa foo k s w s' w' :
  spam_round fa foo k s w = (Ok s', w') →
  txSent s' = (if 15 <? txSent s then 0 else txSent s + 1) ∧
  ∃ txs, txSet s' = txSet s ++ txs ∧ (length txs ≤ 2)%nat.
Proof.
  unfold spam_round. intros Hrun. inv_bind Hrun. inv_bind Hrun.
  assert (txSent a0 = txSent s ∧ txSet a0 = txSet s) as [Hsent Hset].
  { destruct (previousBlockNum s <? a); [inv_bind Hm0|]; by injection Hm0 as <- _. }
  rewrite Hsent in Hrun. destruct (15 <? txSent s).
  - injection Hrun as <- _. split; [done|]. exists []. cbn. rewrite app_nil_r. split; [done|lia].
  - do 6 inv_bind Hrun. injection Hrun as <- _. cbn. rewrite Hset. split; [done|].
    eexists. split; [done|]. apply try_catch_inv in Hm6 as [Hm6| ->]; [|cbn; lia].
    by apply spam_transaction_length in Hm6.
Qed.

Lemma count17 n : (if 15 <? n mod 17 then 0 else n mod 17 + 1) = (n + 1) mod 17.
Proof.
  pose proof (Z.mod_pos_bound n 17 ltac:(lia)) as Hm. rewrite <- (Z.add_mod_idemp_l n) by lia.
  revert Hm. generalize (n mod 17). intros m Hm. destruct (Z.ltb_spec 15 m).
  - by assert (m = 16) as -> by lia.
  - by rewrite Z.mod_small by lia.
Qed.

(** A run of [spamEthereum], cut after some of its rounds. *)
Lemma spamEthereum_split fa ks1 ks2 w s w' :
  spamEthereum (Some fa) (ks1 ++ ks2) w = (Ok s, w') →
  ∃ foo w0 s1 w1, spamEthereum (Some fa) ks1 w = (Ok s1, w1) ∧
    fold_for ks1 (λ s k, spam_round fa foo k s) (Spam 0 [] 0) w0 = (Ok s1, w1) ∧
    fold_for ks2 (λ s k, spam_round fa foo k s) s1 w1 = (Ok s, w').
Proof.
  unfold spamEthereum. intros Hrun. inv_bind Hrun. injection Hm as <- <-. do 6 inv_bind Hrun.
  rewrite fold_for_app in Hrun. inv_bind Hrun. do 4 eexists. split; [|split; [exact Hm5|exact Hrun]].
  cbn [required of_option]. run_step. run Hm. run Hm0. run Hm1. run Hm2. run Hm3. by run Hm4.
Qed.
Lemma spam_rounds fa foo ks s0 w0 s w :
  fold_for ks (λ s k, spam_round fa foo k s) s0 w0 = (Ok s, w) → 0 ≤ txSent s0 < 17 →
  txSent s = (txSent s0 + Z.of_nat (length ks)) mod 17 ∧
  ∃ txs, txSet s = txSet s0 ++ txs ∧ (length txs ≤ 2 * length ks)%nat.
Proof.
  intros Hrun Hs0. revert Hrun.
  apply (fold_for_ind (λ ks s _, txSent s = (txSent s0 + Z.of_nat (length ks)) mod 17 ∧
    ∃ txs, txSet s = txSet s0 ++ txs ∧ (length txs ≤ 2 * length ks)%nat)).
  - cbn. rewrite Z.add_0_r, Z.mod_small by done. split; [done|]. exists []. by rewrite app_nil_r.
  - intros done k rest acc w1 b w2 _ [Hn (txs & Hset & Hl)] (Hb & txs' & Htxs & Hlen)%spam_round_step.
    rewrite Htxs, Hset, length_app. cbn [length]. split.
    + rewrite Hb, Hn, count17. f_equal. lia.
    + exists (txs ++ txs'). rewrite app_assoc, length_app. split; [done|lia].
Qed.

(** C34: whatever the random numbers, the batch counter of [spamEthereum] goes
    round from 0 to 16, and the transactions it holds are never dropped, not even
    when a batch was awaited: after more rounds the list it had is still there, in
    front of at most two new transactions per round. *)
Theorem spamEthereum_rounds fa ks1 ks2 w s w' :
  spamEthereum (Some fa) (ks1 ++ ks2) w = (Ok s, w') →
  txSent s = Z.of_nat (length (ks1 ++ ks2)) mod 17 ∧
  ∃ s1 w1 txs, spamEthereum (Some fa) ks1 w = (Ok s1, w1) ∧
    txSent s1 = Z.of_nat (length ks1) mod 17 ∧
    txSet s = txSet s1 ++ txs ∧ (length txs ≤ 2 * length ks2)%nat.
Proof.
  intros (foo & w0 & s1 & w1 & Hrun1 & Hr1 & Hr2)%spamEthereum_split.
  destruct (spam_rounds _ _ _ _ _ _ _ Hr1) as [Hn1 _]; [done|].
  cbn in Hn1. rewrite Z.add_0_l in Hn1.
  destruct (spam_rounds _ _ _ _ _ _ _ Hr2) as (Hn2 & txs & Hset & Hlen);
    [rewrite Hn1; by apply Z.mod_pos_bound|].
  split; [|by exists s1, w1, txs].
  rewrite Hn2, Hn1, length_app, Nat2Z.inj_add. by rewrite Zplus_mod_idemp_l.
Qed.
End spec.
