(* ===== verification/PoolSpec.v ===== *)
(** * Operating the contracts of a factory

    Theorems on the tasks of [AlicenetTasks] that call contracts through the
    factory: maintenance and ETHDKG of the validator pool, the registration of
    validators. *)
From S2P Require Import Prelude JsString JsValue Toml World Constants Config Artifacts.
From S2P Require Import DeploymentUtil FactoryState Chain ChainLaws FactorySpec Hardhat.
From S2P Require Import FactoryTasks TaskSpec AlicenetTasks OperationSpec.
#[local] Open Scope Z_scope.

Section spec.
Context {X : Type} `{Toml} `{Evm, !Contracts X, !EvmLaws, Hardhat, !Node X}.
Implicit Types (c : chain X) (w : world (chain X)).
#[local] Hint Rewrite @bind_console @bind_the_chain @bind_change @bind_require : run.

(** ** Calls of the factory *)
Lemma call_callAny depth self sender f d target input c l :
  is_factory c self f → authorized self sender f → decode d = Some (callAny target 0 input) →
  call (S depth) sender self 0 d (c, l) = call depth self target 0 input (c, l).
Proof.
  intros [[s Hk] Hf] Ha Hd. rewrite (call_factory _ _ _ _ _ _ _ _ Hk Hd).
  cbn [run_factory]. by run (onlyOwner_ok self sender f c l Hf Ha).
Qed.

(** Running code in the storage of the factory. *)
Lemma call_delegateCallAny depth self sender f d target input c l k f' n x' :
  is_factory c self f → authorized self sender f → decode d = Some (delegateCallAny target input) →
  accounts c !! target = Some k →
  call_in_factory (account_code k) self sender input f (ext c) = Some (f', n, x') →
  call (S depth) sender self 0 d (c, l)
  = (Ok tt, (with_ext x' (with_factory self (with_immutables f f') c), l ++ replicate n foreign_log)).
Proof.
  intros [[s Hk] Hf] Ha Hd Ht Hc. rewrite (call_factory _ _ _ _ _ _ _ _ Hk Hd).
  cbn [run_factory]. run (onlyOwnerOrDelegator_ok self sender f c l Hf (or_introl Ha)).
  run_step. rewrite Ht. run (storage_ok self f c l Hf). run_step. rewrite Hc.
  unfold set_storage. by run_step.
Qed.

(** A proxy runs its implementation. *)
Lemma call_through_proxy depth from p f input c l s ki s' n x' :
  accounts c !! p = Some (Account (ProxyCode f) s) →
  input ≠ getImplementationAddress_selector → decode_upgrade input = None →
  accounts c !! slot_impl s = Some ki →
  call_code (account_code ki) p from 0 input s (ext c) = Some (s', n, x') →
  call (S depth) from p 0 input (c, l)
  = (Ok tt, (with_ext x' (with_account p (Account (ProxyCode f) s') c), l ++ replicate n foreign_log)).
Proof.
  intros Hp Hsel Hup Hki Hc. rewrite (call_proxy _ _ _ _ _ _ _ _ Hp). unfold run_proxy.
  rewrite decide_False, Hup by done. run_step. rewrite Hki. unfold run_user. run_step. rewrite Hc.
  run_step. by rewrite Hp.
Qed.

Lemma lookup_ok c factory f salt w :
  chain_state w = c → is_factory c factory f →
  lookup factory salt w = (Ok (meta_address factory salt), w).
Proof.
  intros Hw [[s Hk] _]. unfold lookup. run_step. rewrite Hw, Hk. cbn. by rewrite meta_address_lookup.
Qed.
Lemma deployed_contract_ok c factory f name salt i w :
  chain_state w = c → is_factory c factory f →
  formatBytes32String (Some name) = Ok salt → contract_interface name = Ok i →
  deployed_contract factory name w = (Ok (meta_address factory salt, i), w).
Proof.
  intros Hw Hf Hs Hi. unfold deployed_contract, lookup_name. rewrite Hs. run_step.
  run (lookup_ok c factory f salt w Hw Hf). by rewrite Hi.
Qed.
Lemma factory_at_ok a w : is_ok (contract_interface ALICENET_FACTORY) = true → factory_at a w = (Ok a, w).
Proof. unfold factory_at. by destruct (contract_interface _). Qed.
Lemma admin_ok c owner : owner_account c owner → admin = Ok owner.
Proof.
  intros [Hs _ _]. unfold admin, signer in *. destruct (head signers); cbn in *; congruence.
Qed.

(** ** The validator pool *)
Section pool.
Context (owner factory : address) (f : factory_state) (w : world (chain X)).
Context (salt : hexdata) (pool_interface : interface) (s : slot) (ki : account).
Abbreviation c := (chain_state w).
Abbreviation pool := (meta_address factory salt).
Hypothesis Howner : owner_account c owner.
Hypothesis Hfac : is_factory c factory f.
Hypothesis Hauth : owner = _owner f.
Hypothesis Hart : is_ok (contract_interface ALICENET_FACTORY) = true.
Hypothesis Hsalt : formatBytes32String (Some "ValidatorPool") = Ok salt.
Hypothesis Hif : contract_interface "ValidatorPool" = Ok pool_interface.
Hypothesis Hpool : accounts c !! pool = Some (Account (ProxyCode factory) s).
Hypothesis Hki : accounts c !! slot_impl s = Some ki.

(** The chain after the pool handled a call of the factory. *)
Definition pool_called (s' : slot) (x' : X) : chain X :=
  let c' := with_ext x' (with_account pool (Account (ProxyCode factory) s') (bump owner c)) in
  with_block (block_number c' + 1) c'.

Section call.
Context (input : hexdata) (s' : slot) (n : nat) (x' : X).
Hypothesis Hsel : input ≠ getImplementationAddress_selector.
Hypothesis Hup : decode_upgrade input = None.
Hypothesis Hcall : call_code (account_code ki) pool factory 0 input s (ext c) = Some (s', n, x').
Hypothesis Hv : valid_call (callAny pool 0 input) = true.
Hypothesis Hgas : gas_of c owner factory (callAny pool 0 input) ≤ block_gas_limit c.

Lemma call_any_pool w0 :
  chain_state w0 = c → ∃ r, call_any factory pool input w0 = (Ok r, with_chain (pool_called s' x') w0).
Proof.
  intros Hw0. eexists. unfold call_any.
  erewrite (factory_send_ok owner factory (callAny pool 0 input)
    (with_ext x' (with_account pool (Account (ProxyCode factory) s') (bump owner c)))
    ([] ++ replicate n foreign_log) w0).
  - reflexivity.
  - by apply Howner.
  - exact Hv.
  - rewrite Hw0. change CALL_DEPTH with (S (S 1022)).
    rewrite (call_callAny (S 1022) factory owner f _ pool input (bump owner c) [] Hfac
      (or_intror Hauth) (decode_encode _ Hv)).
    by apply (call_through_proxy 1022 factory pool factory input (bump owner c) [] s ki).
  - by rewrite Hw0.
Qed.

(** C28: scheduleMaintenance, pauseEthdkgArbitraryHeight and initializeEthdkg have
    the validator pool's implementation run their call, with the factory as
    its caller, in one transaction that changes nothing else of the chain. *)
Theorem pool_tasks_ok :
  (encode_signature "function scheduleMaintenance()" [] = Ok input →
   ∃ w', scheduleMaintenance (Some factory) w = (Ok tt, w') ∧
     chain_state w' = pool_called s' x' ∧ files w' = files w) ∧
  (∀ h, encode_signature "function pauseConsensusOnArbitraryHeight(uint256)" [VStr h] = Ok input →
   pauseEthdkgArbitraryHeight (Some h) (Some factory) w = (Ok tt, with_chain (pool_called s' x') w)) ∧
  (pool_interface "initializeETHDKG" [] = Ok input →
   ∀ c', confirmed 3 (pool_called s' x') = Some c' →
   ∃ w', initializeEthdkg (Some factory) w = (Ok tt, w') ∧ chain_state w' = c' ∧ files w' = files w).
Proof.
  split_and!.
  - intros Hin. unfold scheduleMaintenance. cbn [required of_option]. rewrite Hin. run_step.
    rewrite (admin_ok _ _ Howner). run_step.
    match goal with |- context[logged ?m w] => set (w1 := logged m w) end.
    run (factory_at_ok factory w1 Hart).
    run (deployed_contract_ok c factory f "ValidatorPool" salt _ w1 eq_refl Hfac Hsalt Hif). cbn [fst].
    destruct (call_any_pool w1 eq_refl) as [r Hr]. run Hr. by eexists.
  - intros h Hin. unfold pauseEthdkgArbitraryHeight. cbn [required of_option]. run_step. rewrite Hin. run_step.
    rewrite (admin_ok _ _ Howner). run_step.
    run (factory_at_ok factory w Hart).
    run (deployed_contract_ok c factory f "ValidatorPool" salt _ w eq_refl Hfac Hsalt Hif). cbn [fst].
    destruct (call_any_pool w eq_refl) as [r Hr]. by run Hr.
  - intros Hin c' Hc'. unfold initializeEthdkg. cbn [required of_option]. run_step.
    rewrite (admin_ok _ _ Howner). run_step. run (factory_at_ok factory w Hart).
    run (deployed_contract_ok c factory f "ValidatorPool" salt _ w eq_refl Hfac Hsalt Hif). cbn [fst snd].
    run_step. match goal with |- context[logged ?m w] => set (w1 := logged m w) end.
    rewrite Hin. run_step. destruct (call_any_pool w1 eq_refl) as [r Hr]. run Hr.
    assert (confirmations 3 (with_chain (pool_called s' x') w1) = (Ok tt, with_chain c' w1)) as Hconf.
    { unfold confirmations, on_chain. cbn. by rewrite Hc'. }
    run Hconf. by eexists.
Qed.
End call.
End pool.

(** ** Registering validators *)
Lemma deploy_ok owner name cf args dep rt n x w :
  let c := chain_state w in
  let a := create_address owner (nonce c owner) in
  getContractFactory name = Ok cf → getDeployTransaction cf args = Ok (Some dep) →
  free c a → construct dep a owner (ext c) = Some (rt, n, x) →
  gas_used c (Tx owner None 0 dep) ≤ block_gas_limit c →
  deploy owner name args w
  = (Ok a, with_chain (with_block (block_number c + 1) (constructed owner a rt x c)) w).
Proof.
  intros c a Hcf Hdep Hfr Hc Hg. unfold deploy. rewrite Hcf. run_step. rewrite Hdep. run_step.
  change (default EMPTY (Some dep)) with dep.
  assert (create_tx (Tx owner None 0 dep) (λ self, construct_at dep self owner) (c, [])
    = (Ok a, (constructed owner a rt x c, replicate n foreign_log))) as Hrun.
  { unfold create_tx. cbn [tx_from]. run_step. fold a.
    pose proof (construct_at_ok dep a owner (with_nonce a 1 (bump owner c)) [] rt n x Hc) as Hi.
    pose proof (create_at_ok owner a _ c [] _ _ _ Hfr Hi) as Hcr. by run Hcr. }
  unfold send, run_tx, mbind, M_bind. fold c. rewrite Hrun. by rewrite (proj2 (Z.leb_le _ _) Hg).
Qed.

(** A call in the storage of the factory, and its transaction. *)
Definition delegated (owner factory : address) f' (x' : X) c : chain X :=
  let c' := with_ext x' (with_factory factory f' (bump owner c)) in
  with_block (block_number c' + 1) c'.
Lemma send_delegateCallAny owner factory f target input k f' n x' w :
  let c := chain_state w in
  signer = Ok owner → is_factory c factory f → owner = _owner f →
  valid_call (delegateCallAny target input) = true → accounts c !! target = Some k →
  call_in_factory (account_code k) factory owner input f (ext c) = Some (f', n, x') →
  gas_of c owner factory (delegateCallAny target input) ≤ block_gas_limit c →
  ∃ r, factory_send factory (delegateCallAny target input) w
       = (Ok r, with_chain (delegated owner factory (with_immutables f f') x' c) w).
Proof.
  intros c Hs Hf Ha Hv Ht Hc Hg. eexists.
  apply (factory_send_ok owner factory _ (with_ext x' (with_factory factory (with_immutables f f') (bump owner c)))
    ([] ++ replicate n foreign_log)); [done|done| |done].
  change CALL_DEPTH with (S 1023).
  by eapply call_delegateCallAny; [exact Hf|right|by apply decode_encode| |].
Qed.

Lemma is_factory_delegated owner factory f f' x' c :
  is_factory c factory f → is_factory (delegated owner factory f' x' c) factory f'.
Proof. intros [Hk _]. split; [exact Hk|]. apply lookup_insert_eq. Qed.

Definition mined (n : Z) c : chain X := with_block (block_number c + n) c.
Lemma is_factory_mined n c factory f : is_factory c factory f → is_factory (mined n c) factory f.
Proof. done. Qed.
Lemma mined_number n c : block_number (mined n c) = block_number c + n.
Proof. done. Qed.
Lemma mined_accounts n c : accounts (mined n c) = accounts c.
Proof. done. Qed.
Lemma mined_limit n c : block_gas_limit (mined n c) = block_gas_limit c.
Proof. done. Qed.
Lemma mined_ext n c : ext (mined n c) = ext c.
Proof. done. Qed.
Lemma delegated_number owner factory f' x' c :
  block_number (delegated owner factory f' x' c) = block_number c + 1.
Proof. done. Qed.
Lemma delegated_accounts owner factory f' x' c :
  accounts (delegated owner factory f' x' c) = accounts c.
Proof. done. Qed.
Lemma delegated_limit owner factory f' x' c :
  block_gas_limit (delegated owner factory f' x' c) = block_gas_limit c.
Proof. done. Qed.
Lemma delegated_ext owner factory f' x' c : ext (delegated owner factory f' x' c) = x'.
Proof. done. Qed.
Lemma three_blocks_test w : three_blocks true w = (Ok tt, with_chain (mined 3 (chain_state w)) w).
Proof. reflexivity. Qed.

Create Rewrite HintDb mined.
#[local] Hint Rewrite mined_number mined_accounts mined_limit mined_ext delegated_number
  delegated_accounts delegated_limit delegated_ext : mined.

Section register.
Context (owner factory : address) (f : factory_state) (w : world (chain X)) (addresses : list string).
Context (salt : hexdata) (rf : ContractFactory) (dep rt stake register : hexdata).
Context (n0 n1 n2 : nat) (x0 x1 x2 : X) (f1 f2 : factory_state).
Abbreviation c := (chain_state w).
Definition registration : address := create_address owner (nonce c owner).
Definition registered1 : chain X :=
  mined 3 (with_block (block_number c + 1) (constructed owner registration rt x0 c)).
(** The storage of the factory after each of the two calls. *)
Definition storage1 : factory_state := with_immutables f f1.
Definition storage2 : factory_state := with_immutables storage1 f2.
Definition registered2 : chain X := mined 3 (delegated owner factory storage1 x1 registered1).
Definition registered3 : chain X := mined 3 (delegated owner factory storage2 x2 registered2).
Hypothesis Howner : owner_account c owner.
Hypothesis Hwf : chain_wf c.
Hypothesis Hfac : is_factory c factory f.
Hypothesis Hauth : owner = _owner f.
Hypothesis Hauth1 : owner = _owner f1.
Hypothesis Hart : is_ok (contract_interface ALICENET_FACTORY) = true.
Hypothesis Hif : is_ok (contract_interface "ValidatorPool") = true.
Hypothesis Hsalt : formatBytes32String (Some "ValidatorPool") = Ok salt.
Hypothesis Hsalt0 : is_ok (formatBytes32String (Some "AToken")) = true.
Hypothesis Hrf : getContractFactory "RegisterValidators" = Ok rf.
Hypothesis Hdep : getDeployTransaction rf [VStr factory] = Ok (Some dep).
Hypothesis Hstake : encodeFunctionData rf "stakeValidators" [VNum (Z.of_nat (length addresses))] = Ok stake.
Hypothesis Hregister : encodeFunctionData rf "registerValidators" [VArr (map VStr addresses)] = Ok register.
Hypothesis Hcons : construct dep registration owner (ext c) = Some (rt, n0, x0).
Hypothesis Hrun1 : call_in_factory (UserCode rt) factory owner stake f x0 = Some (f1, n1, x1).
Hypothesis Hrun2 : call_in_factory (UserCode rt) factory owner register storage1 x1 = Some (f2, n2, x2).
Hypothesis Hv1 : valid_call (delegateCallAny registration stake) = true.
Hypothesis Hv2 : valid_call (delegateCallAny registration register) = true.
Hypothesis Hgas0 : gas_used c (Tx owner None 0 dep) ≤ block_gas_limit c.
Hypothesis Hgas1 :
  gas_of registered1 owner factory (delegateCallAny registration stake) ≤ block_gas_limit c.
Hypothesis Hgas2 :
  gas_of registered2 owner factory (delegateCallAny registration register) ≤ block_gas_limit c.

Lemma registration_free : free c registration.
Proof. by apply wf_free; [exact Hwf|]. Qed.
Lemma registered1_factory : is_factory registered1 factory f.
Proof.
  destruct Hfac as [[s Hk] Hf]. split; [|exact Hf]. exists s.
  change (accounts (created owner registration (UserCode rt) c) !! factory = Some (Account FactoryCode s)).
  rewrite accounts_created; [done|]. eapply existing_ne; [by eexists|apply registration_free].
Qed.
Lemma registered1_contract : accounts registered1 !! registration = Some (Account (UserCode rt) empty_slot).
Proof. apply lookup_insert_eq. Qed.

(** One step of the task: a transaction of the factory's owner, then three blocks. *)
Lemma deployed_step w0 :
  chain_state w0 = c →
  ∃ w1, deploy owner "RegisterValidators" [VStr factory] w0 = (Ok registration, w1) ∧
    ∃ w2, three_blocks true w1 = (Ok tt, w2) ∧ chain_state w2 = registered1 ∧ files w2 = files w0.
Proof.
  intros Hw. assert (free (chain_state w0) (create_address owner (nonce (chain_state w0) owner))) as Hfr
    by (rewrite Hw; apply registration_free).
  pose proof (deploy_ok owner "RegisterValidators" rf [VStr factory] dep rt n0 x0 w0 Hrf Hdep Hfr) as Hd.
  rewrite Hw in Hd. eexists. split; [exact (Hd Hcons Hgas0)|].
  eexists. split; [apply three_blocks_test|]. by split.
Qed.
Lemma delegated_step f0 target input k f' n x' w0 c0 :
  chain_state w0 = c0 → is_factory c0 factory f0 → owner = _owner f0 →
  valid_call (delegateCallAny target input) = true → accounts c0 !! target = Some k →
  call_in_factory (account_code k) factory owner input f0 (ext c0) = Some (f', n, x') →
  gas_of c0 owner factory (delegateCallAny target input) ≤ block_gas_limit c0 →
  ∃ r w1, factory_send factory (delegateCallAny target input) w0 = (Ok r, w1) ∧
    ∃ w2, three_blocks true w1 = (Ok tt, w2) ∧
      chain_state w2 = mined 3 (delegated owner factory (with_immutables f0 f') x' c0) ∧ files w2 = files w0.
Proof.
  intros <- Hf Ha Hv Ht Hc Hg.
  destruct (send_delegateCallAny owner factory f0 target input k f' n x' w0 (oa_signer _ _ Howner)
    Hf Ha Hv Ht Hc Hg) as [r Hs].
  exists r. eexists. split; [exact Hs|]. eexists. split; [apply three_blocks_test|]. by split.
Qed.
Lemma registered_state :
  is_factory registered2 factory storage1 ∧ is_factory registered3 factory storage2 ∧
  accounts registered2 !! registration = Some (Account (UserCode rt) empty_slot) ∧
  accounts registered3 = <[registration := Account (UserCode rt) empty_slot]> (accounts c) ∧
  ext registered1 = x0 ∧ ext registered2 = x1 ∧ ext registered3 = x2 ∧
  block_gas_limit registered1 = block_gas_limit c ∧ block_gas_limit registered2 = block_gas_limit c ∧
  block_number registered3 = block_number c + 12.
Proof.
  pose proof registered1_factory as Hf1. pose proof registered1_contract as Hc1.
  pose proof (is_factory_mined 3 _ _ _ (is_factory_delegated owner factory f storage1 x1 _ Hf1)) as Hf2.
  fold registered2 in Hf2.
  pose proof (is_factory_mined 3 _ _ _ (is_factory_delegated owner factory storage1 storage2 x2 _ Hf2)) as Hf3.
  fold registered3 in Hf3.
  split; [exact Hf2|]. split; [exact Hf3|].
  unfold registered3, registered2. autorewrite with mined.
  split; [exact Hc1|]. unfold registered1. autorewrite with mined.
  repeat (split; [reflexivity|]).
  change (block_number c + 1 + 3 + 1 + 3 + 1 + 3 = block_number c + 12). lia.
Qed.

(** C27: in test mode [registerValidators] deploys the registration contract, has
    it stake for all the validators and then register them, in the storage of
    the factory, and three blocks follow each of the three transactions. *)
Theorem registerValidators_ok :
  ∃ w', registerValidators true (Some factory) addresses w = (Ok tt, w') ∧
    chain_state w' = registered3 ∧ files w' = files w ∧
    is_factory registered3 factory storage2 ∧ ext registered3 = x2 ∧
    accounts registered3 = <[registration := Account (UserCode rt) empty_slot]> (accounts c) ∧
    block_number registered3 = block_number c + 12.
Proof.
  destruct registered_state as (Hf2 & Hf3 & Hc2 & Ha3 & Hx1 & Hx2 & Hx3 & Hg1 & Hg2 & Hb3).
  unfold registerValidators. cbn [required of_option]. run_step.
  match goal with |- context[logged ?m w] => set (w1 := logged m w) end.
  run (factory_at_ok factory w1 Hart).
  destruct (formatBytes32String (Some "AToken")); [|done]. run_step.
  rewrite (admin_ok _ _ Howner). run_step. rewrite Hrf. run_step.
  match goal with |- context[logged ?m (logged ?m' w1)] => set (w2 := logged m (logged m' w1)) end.
  destruct (deployed_step w2 eq_refl) as (w3 & Hrun3 & w4 & Hrun4 & Hw4 & Hfiles4).
  run Hrun3. run Hrun4. change (files w2) with (files w) in Hfiles4. clear Hrun3 Hrun4 w3.
  destruct (contract_interface "ValidatorPool") as [vi|] eqn:Hvi; [|done].
  run (deployed_contract_ok registered1 factory f "ValidatorPool" salt vi w4
    Hw4 registered1_factory Hsalt Hvi). cbn [fst]. run_step. rewrite Hstake. run_step.
  match goal with |- context[logged ?m (logged ?m' w4)] => set (w5 := logged m (logged m' w4)) end.
  destruct (delegated_step f registration stake _ f1 n1 x1 w5 registered1 Hw4 registered1_factory Hauth
    Hv1 registered1_contract) as (r1 & w6 & Hrun6 & w7 & Hrun7 & Hw7 & Hfiles7);
    [by rewrite Hx1|by rewrite Hg1|].
  run Hrun6. run Hrun7. rewrite bind_console, Hregister. run_step. clear Hrun6 Hrun7 w6.
  match goal with |- context[logged ?m w7] => set (w8 := logged m w7) end.
  destruct (delegated_step storage1 registration register _ f2 n2 x2 w8 registered2 Hw7 Hf2 Hauth1 Hv2 Hc2)
    as (r2 & w9 & Hrun9 & w10 & Hrun10 & Hw10 & Hfiles10); [by rewrite Hx2|by rewrite Hg2|].
  run Hrun9. run Hrun10. eexists. split; [reflexivity|]. split; [exact Hw10|].
  split; [|by rewrite <- Hb3].
  change (files w10 = files w). rewrite Hfiles10. change (files w7 = files w). by rewrite Hfiles7.
Qed.
End register.
End spec.
