(* ===== verification/ConfigTaskSpec.v ===== *)
(** * The tasks that rewrite configuration files

    Theorems on the tasks of [AlicenetTasks] that read a TOML file, change a few
    fields of it and write it back: the validators' configurations and the
    deployment arguments. *)
From S2P Require Import Prelude JsString JsValue Toml World Constants Config Artifacts.
From S2P Require Import DeploymentUtil DeployArgs FactoryState Chain ChainLaws.
From S2P Require Import FactorySpec Hardhat FactoryTasks TaskSpec AlicenetTasks OperationSpec PoolSpec.
#[local] Open Scope Z_scope.

Lemma dset_dset {A} k (a b : A) d : dset k b (dset k a d) = dset k b d.
Proof.
  induction d as [|[k1 a1] d IH]; cbn; [by rewrite decide_True|].
  destruct (decide (k1 = k)) as [->|Hne]; cbn; [by rewrite decide_True|].
  rewrite decide_False by done. by rewrite IH.
Qed.

Section spec.
Context {X : Type} `{Toml, !TomlLaws} `{Evm, !Contracts X, !EvmLaws, Hardhat, !Node X}.
Implicit Types (c : chain X) (w : world (chain X)).
#[local] Opaque path_of.
Lemma not_inherited_names :
  ("registryAddress" ∉ object_prototype) ∧ ("startingBlock" ∉ object_prototype).
Proof. split; apply (bool_decide_unpack _); vm_compute; exact I. Qed.

(** ** Validators of the main network *)
Definition config_path (name : string) : path := path_of (VALIDATOR_CONFIG_DIR +:+ name).
Definition mainnet_config (F : string) (p e : dict value) : value :=
  let e := dset "startingBlock" (VNum 14542800) (dset "registryAddress" (VStr F) e) in
  VObj (dset "ethereum" (VObj e) p).

(** The file [out] is the configuration [data] with the factory and its block. *)
Definition points_to (F data out : string) : Prop :=
  ∃ p cfg, toml_parse data = Ok (VObj p) ∧ toml_parse out = Ok cfg ∧
    oveq (state_field "ethereum" "registryAddress" cfg) (Ok (VStr F)) ∧
    oveq (state_field "ethereum" "startingBlock" cfg) (Ok (VNum 14542800)) ∧
    ∀ s k, (s, k) ∉ [("ethereum", "registryAddress"); ("ethereum", "startingBlock")] →
      oveq (state_field s k cfg) (state_field s k (VObj p)).
(** A configuration with an [ethereum] table. *)
Definition validator_config (data : string) : Prop :=
  ∃ p e, toml_parse data = Ok (VObj p) ∧ dget "ethereum" p = Some (VObj e).

Lemma mainnet_config_steps F p e :
  dget "ethereum" p = Some (VObj e) →
  ∃ p1, config_with "ethereum" "registryAddress" (VStr F) p e = VObj p1 ∧
    dget "ethereum" p1 = Some (VObj (dset "registryAddress" (VStr F) e)) ∧
    config_with "ethereum" "startingBlock" (VNum 14542800) p1 (dset "registryAddress" (VStr F) e)
    = mainnet_config F p e.
Proof.
  intros He. eexists. split; [reflexivity|]. split; [apply dget_dset_eq|].
  unfold config_with, mainnet_config. by rewrite dset_dset.
Qed.

Lemma mainnet_config_fields F p e :
  dget "ethereum" p = Some (VObj e) →
  state_field "ethereum" "registryAddress" (mainnet_config F p e) = Ok (VStr F) ∧
  state_field "ethereum" "startingBlock" (mainnet_config F p e) = Ok (VNum 14542800) ∧
  ∀ s k, (s, k) ∉ [("ethereum", "registryAddress"); ("ethereum", "startingBlock")] →
    state_field s k (mainnet_config F p e) = state_field s k (VObj p).
Proof.
  intros He. destruct (mainnet_config_steps F p e He) as (p1 & Hp1 & He1 & Heq).
  destruct not_inherited_names as [Hn1 Hn2].
  rewrite <- Heq. split_and!; [|apply state_field_with_eq|].
  - rewrite (state_field_with_ne "ethereum" "startingBlock"); [|by left|done|congruence|done].
    rewrite <- Hp1. apply state_field_with_eq.
  - intros s k [Hk1 [Hk2 _]%not_elem_of_cons]%not_elem_of_cons.
    rewrite (state_field_with_ne "ethereum" "startingBlock"); [|by left|done|congruence|done].
    rewrite <- Hp1. apply state_field_with_ne; [by left|done|congruence|done].
Qed.

Lemma set_validator_file_ok F name w data :
  node_at (files w) (config_path name) = Some (File data) → validator_config data →
  ∃ out, set_validator_file F name w
         = (Ok tt, with_files (<[config_path name := File out]> (files w)) w) ∧ points_to F data out.
Proof.
  intros Hn (p & e & Hp & He). destruct (toml_parsed _ _ Hp) as [Hdoc Hpl].
  destruct (mainnet_config_fields F p e He) as (Hf1 & Hf2 & Hf3).
  destruct (mainnet_config_steps F p e He) as (p1 & Hp1 & He1 & Heq).
  assert (toml_document (VObj p1) = true) as Hdoc1.
  { rewrite <- Hp1. apply config_with_document; [done|by left|done]. }
  assert (toml_document (mainnet_config F p e) = true) as Hdoc2.
  { rewrite <- Heq. apply config_with_document; [done|by left|done]. }
  destruct (toml_total _ Hdoc2) as [out Hout].
  destruct (toml_roundtrip _ _ Hdoc2 Hout) as (cfg & Hcfg & Hveq).
  assert (toml_image (mainnet_config F p e) = mainnet_config F p e) as Him.
  { unfold mainnet_config. rewrite toml_image_dset by done. do 2 f_equal.
    pose proof (plain_property _ _ _ Hpl He) as Hple.
    rewrite toml_image_dset; [done| |done..].
    clear -Hple. cbn in Hple |- *. induction e as [|[k v] e IH]; [done|]. cbn in *.
    apply andb_true_iff in Hple as [Hv Hr]. case_decide; cbn; [by rewrite Hr|]. by rewrite Hv, IH. }
  rewrite Him in Hveq. exists out. split.
  - unfold set_validator_file. fold (config_path name).
    assert (readFileSync (VALIDATOR_CONFIG_DIR +:+ name) w = (Ok data, w)) as Hrd.
    { unfold readFileSync. fold (config_path name). by rewrite Hn. }
    run Hrd. rewrite Hp. run_step.
    assert (set_ethereum F (VObj p) = Ok (mainnet_config F p e)) as ->.
    { unfold set_ethereum. cbn. by rewrite He. }
    run_step. rewrite Hout. run_step. apply writeFileSync_ok. unfold writable. fold (config_path name).
    by rewrite Hn.
  - exists p, cfg. split; [done|]. split; [done|]. split_and!.
    + rewrite Hveq. by rewrite Hf1.
    + rewrite Hveq. by rewrite Hf2.
    + intros s k Hsk. rewrite <- (Hf3 s k Hsk). by apply state_field_proper.
Qed.

Lemma set_validator_files F names w :
  NoDup (map config_path names) →
  (∀ name, name ∈ names → ∃ data,
     node_at (files w) (config_path name) = Some (File data) ∧ validator_config data) →
  ∃ fs, for_each names (set_validator_file F) w = (Ok tt, with_files fs w) ∧
    (∀ name, name ∈ names → ∃ data out, node_at (files w) (config_path name) = Some (File data) ∧
       node_at fs (config_path name) = Some (File out) ∧ points_to F data out) ∧
    ∀ q, q ∉ map config_path names → node_at fs q = node_at (files w) q.
Proof.
  revert w. induction names as [|name names IH]; intros w Hnd Hall.
  { exists (files w). rewrite with_files_id. split; [done|]. split; [|done].
    by intros ? ?%not_elem_of_nil. }
  cbn [map] in Hnd. apply NoDup_cons in Hnd as [Hname Hnd].
  destruct (Hall name) as (data & Hn & Hv); [by left|].
  destruct (set_validator_file_ok F name w data Hn Hv) as (out & Hrun & Hpt).
  assert (writable (files w) (config_path name) = true) as Hwr by (unfold writable; by rewrite Hn).
  pose proof (writable_key _ _ Hwr) as Hkey.
  set (w1 := with_files (<[config_path name := File out]> (files w)) w) in *.
  assert (∀ q, q ≠ config_path name → node_at (files w1) q = node_at (files w) q) as Hother.
  { intros q Hq. cbn. rewrite node_at_insert by done. by rewrite decide_False. }
  assert (∀ m, m ∈ names → config_path m ≠ config_path name) as Hne.
  { intros m Hm Heq. apply Hname. rewrite <- Heq. apply list_elem_of_In, in_map, list_elem_of_In, Hm. }
  destruct (IH w1 Hnd) as (fs & Hrest & Hdone & Hsame).
  { intros m Hm. rewrite Hother by by apply Hne. apply Hall. by right. }
  exists fs. split; [|split].
  - cbn [for_each]. run Hrun. exact Hrest.
  - intros m [->|Hm]%elem_of_cons.
    + exists data, out. split; [done|]. split; [|done].
      rewrite Hsame by done. by apply node_at_written.
    + destruct (Hdone m Hm) as (d & o & Hd & Ho & Hp). exists d, o.
      rewrite Hother in Hd by by apply Hne. done.
  - intros q [Hq Hq']%not_elem_of_cons. by rewrite Hsame, Hother.
Qed.

(** C26: when the configurations of the listed validators are in the folder the
    task reads, [set-mainnet-validator] points each of them to the factory and
    its block, keeps all their other fields, and touches no other file. *)
Theorem set_mainnet_validator_ok F dir names w :
  readdirSync dir w = (Ok names, w) → NoDup (map config_path names) →
  (∀ name, name ∈ names → ∃ data,
     node_at (files w) (config_path name) = Some (File data) ∧ validator_config data) →
  ∃ fs, set_mainnet_validator (Some F) (Some dir) w = (Ok tt, with_files fs w) ∧
    (∀ name, name ∈ names → ∃ data out, node_at (files w) (config_path name) = Some (File data) ∧
       node_at fs (config_path name) = Some (File out) ∧ points_to F data out) ∧
    ∀ q, q ∉ map config_path names → node_at fs q = node_at (files w) q.
Proof.
  intros Hdir Hnd Hall. unfold set_mainnet_validator. run Hdir. by apply set_validator_files.
Qed.

(** ** The legacy token in the deployment arguments *)
Lemma veq_obj_ext p q : (∀ k, canon <$> dget k p = canon <$> dget k q) → VObj p ≈ VObj q.
Proof.
  intros Hk. unfold veq. cbn. f_equal. apply map_eq. intros k. by rewrite !canon_lookup.
Qed.
Lemma toml_value_arr_head x y l :
  toml_value (VArr (x :: l)) = true → toml_value y = true → kind_of y = kind_of x →
  toml_value (VArr (y :: l)) = true.
Proof.
  cbn. rewrite !andb_true_iff. intros [[_ Hl] Hk] Hy Heq. split; [done|].
  eapply forallb_forall. intros v Hv. rewrite forallb_forall in Hk. rewrite Heq. by apply Hk.
Qed.

Definition token_arg (t : address) : ArgData := [("legacyToken_", t)].
Definition with_token (t : address) (rest : list ArgData) (d : DeploymentArgs) : DeploymentArgs := {|
  da_constructor := dset ATOKEN_CONTRACT (token_arg t :: rest) (da_constructor d);
  da_initializer := da_initializer d |}.

Lemma wf_token t a0 rest d :
  wf_args (da_constructor d) → dget ATOKEN_CONTRACT (da_constructor d) = Some (a0 :: rest) →
  wf_args (da_constructor (with_token t rest d)).
Proof.
  intros Hwf Hd. apply wf_args_insert; [done|]. destruct Hwf as [_ Hs]. rewrite Forall_forall in Hs.
  specialize (Hs _ (dget_elem _ _ _ Hd)). apply Forall_cons in Hs as [_ Hs].
  constructor; [by eexists _, _|exact Hs].
Qed.

(** The configuration the task writes is the one of the arguments with the token. *)
Lemma token_config t a0 rest d p :
  VObj [("constructor", contractArgs_value (da_constructor d));
        ("initializer", contractArgs_value (da_initializer d))] ≈ VObj p →
  dget ATOKEN_CONTRACT (da_constructor d) = Some (a0 :: rest) →
  ∃ r x l,
    dget "constructor" p = Some (VObj r) ∧ dget ATOKEN_CONTRACT r = Some (VArr (x :: l)) ∧
    kind_of x = Some KTable ∧
    deploymentArgs_value (with_token t rest d)
    ≈ config_with "constructor" ATOKEN_CONTRACT (VArr (argData_value (token_arg t) :: l)) p r.
Proof.
  intros Hp Hd. destruct (veq_get_obj "constructor" _ _ _ Hp eq_refl) as (sec & Hsec & Hs).
  destruct (veq_obj _ _ Hs) as (r & -> & Hr).
  assert (∀ (c : ContractArgs) k, dget k (map (λ kv, (kv.1, VArr (map argData_value kv.2))) c)
    = (λ l, VArr (map argData_value l)) <$> dget k c) as Hmap.
  { intros c k. apply (dget_map (λ _ l, VArr (map argData_value l))). }
  destruct (veq_get_obj ATOKEN_CONTRACT (VArr (map argData_value (a0 :: rest))) _ r Hs)
    as (v & Hv & Hveq); [by rewrite Hmap, Hd|].
  pose proof Hveq as Hveq'. apply veq_arr in Hveq as (l' & -> & Hl).
  apply Forall2_cons_inv_l in Hl as (x & l & Hx & Hl & ->).
  exists r, x, l. split; [done|]. split; [done|]. split.
  { by destruct (veq_obj _ _ Hx) as (q & -> & _). }
  apply veq_obj_ext. intros k. destruct (decide (k = "constructor")) as [->|Hk].
  - rewrite dget_dset_eq. cbn [dget]. rewrite decide_True by done. cbn. f_equal.
    apply veq_obj_ext. intros k. rewrite Hmap. destruct (decide (k = ATOKEN_CONTRACT)) as [->|Hk].
    + rewrite !dget_dset_eq. apply (f_equal Some (x := canon _) (y := canon _)).
      apply (veq_arr _ (VArr (argData_value (token_arg t) :: l))). eexists. split; [done|].
      by constructor.
    + rewrite !dget_dset_ne by done. rewrite <- Hr. by rewrite Hmap.
  - rewrite dget_dset_ne by done. destruct (veq_obj _ _ Hp) as (p' & [= <-] & Hk').
    rewrite <- Hk'. cbn [dget]. by rewrite !(decide_False (P := "constructor" = k)) by congruence.
Qed.

(** A transaction to a contract of its own code. *)
Lemma call_method_user owner a input w rt s n x' :
  let c := chain_state w in
  is_address a = true → accounts c !! a = Some (Account (UserCode rt) s) →
  call_code (UserCode rt) a owner 0 input s (ext c) = Some (s, n, x') →
  gas_used c (Tx owner (Some a) 0 input) ≤ block_gas_limit c →
  ∃ r, call_method owner a 0 input w
       = (Ok r, with_chain (with_block (block_number c + 1) (with_ext x' (bump owner c))) w).
Proof.
  intros c Ha Hacc Hc Hg. eexists. unfold call_method, address_arg. rewrite Ha. run_step.
  change (value_arg 0) with (@Ok Z 0). run_step.
  assert (call_tx (Tx owner (Some a) 0 input) a (c, [])
    = (Ok tt, (with_ext x' (bump owner c), [] ++ replicate n foreign_log))) as Hrun.
  { unfold call_tx. rewrite bind_change. exact (call_user 1023 owner a rt s input (bump owner c) [] n x' Hacc Hc). }
  unfold send_method, run_tx, mbind, M_bind. fold c. rewrite Hrun. by rewrite (proj2 (Z.leb_le _ _) Hg).
Qed.

Section legacy.
Context (owner tp out data : string) (d : DeploymentArgs) (a0 : ArgData) (rest : list ArgData).
Context (tf : ContractFactory) (dep rt init : hexdata) (n0 n1 : nat) (x0 x1 : X) (minted : Z).
Context (w : world (chain X)).
Abbreviation c := (chain_state w).
Definition legacy_token : address := create_address owner (nonce c owner).
Definition legacy1 : chain X := with_block (block_number c + 1) (constructed owner legacy_token rt x0 c).
Definition legacy2 : chain X := with_block (block_number legacy1 + 1) (with_ext x1 (bump owner legacy1)).
Hypothesis Howner : owner_account c owner.
Hypothesis Hwf : chain_wf c.
Hypothesis Htp : node_at (files w) (path_of tp) = Some (File data).
Hypothesis Hout : node_at (files w) (path_of out) = Some Dir.
Hypothesis Hwr : writable (files w) (path_of (out +:+ "/deploymentArgsTemplate")) = true.
Hypothesis Hheld : holds_args d data.
Hypothesis Hwc : wf_args (da_constructor d).
Hypothesis Hwi : wf_args (da_initializer d).
Hypothesis Hd : dget ATOKEN_CONTRACT (da_constructor d) = Some (a0 :: rest).
Hypothesis Htf : getContractFactory "LegacyToken" = Ok tf.
Hypothesis Hdep : getDeployTransaction tf [] = Ok (Some dep).
Hypothesis Hinit : encodeFunctionData tf "initialize" [] = Ok init.
Hypothesis Hcons : construct dep legacy_token owner (ext c) = Some (rt, n0, x0).
Hypothesis Haddr : is_address legacy_token = true.
Hypothesis Hcall :
  call_code (UserCode rt) legacy_token owner 0 init empty_slot x0 = Some (empty_slot, n1, x1).
Hypothesis Hbal : balanceOf legacy_token owner legacy2 = Ok minted.
Hypothesis Hg1 : gas_used c (Tx owner None 0 dep) ≤ block_gas_limit c.
Hypothesis Hg2 : gas_used legacy1 (Tx owner (Some legacy_token) 0 init) ≤ block_gas_limit c.

Lemma existsSync_ok s n : node_at (files w) (path_of s) = Some n → existsSync s w = (Ok true, w).
Proof. intros Hn. unfold existsSync, gets. rewrite bool_decide_eq_true_2; [done|]. by rewrite Hn. Qed.

(** The configuration of the task, and the file it writes. *)
Lemma legacy_config :
  ∃ cfg cfg' s v, toml_parse data = Ok cfg ∧
    (get "constructor" cfg ≫= get ATOKEN_CONTRACT) = Ok v ∧ is_undefined v = false ∧
    set_legacy_token legacy_token cfg = Ok cfg' ∧ toml_stringify cfg' = Ok s ∧
    holds_args (with_token legacy_token rest d) s.
Proof.
  destruct Hheld as (cfg & Hcfg & Heq). destruct (veq_obj _ _ Heq) as (p & -> & _).
  destruct (toml_parsed _ _ Hcfg) as [Hdoc Hpl].
  destruct (token_config legacy_token _ _ _ _ Heq Hd) as (r & x & l & Hr & Hx & Hk & Hnew).
  set (args := VArr (argData_value (token_arg legacy_token) :: l)) in *.
  pose proof (toml_value_property _ _ _ Hdoc Hr ltac:(done) ltac:(done)) as Hvr.
  pose proof (toml_value_property _ _ _ Hvr Hx ltac:(done) ltac:(done)) as Hvx.
  assert (toml_value args = true) as Hva by by apply (toml_value_arr_head x).
  assert (toml_document (config_with "constructor" ATOKEN_CONTRACT args p r) = true) as Hdoc'.
  { apply config_with_document; [done|by left|done]. }
  destruct (toml_total _ Hdoc') as [s Hs].
  destruct (toml_roundtrip _ _ Hdoc' Hs) as (cfg' & Hcfg' & Heq').
  assert (toml_image args = args) as Him.
  { apply toml_image_plain. pose proof (plain_property _ _ _ Hpl Hr) as Hpr.
    pose proof (plain_property _ _ _ Hpr Hx) as Hpx. cbn in Hpx |- *.
    apply andb_true_iff in Hpx as [_ Hpx]. exact Hpx. }
  rewrite config_with_image in Heq' by (done || by left). rewrite Him in Heq'.
  eexists _, _, s, _. split; [exact Hcfg|]. split; [cbn; rewrite Hr; cbn; rewrite Hx; reflexivity|].
  split; [done|]. split.
  { unfold set_legacy_token. cbn. rewrite Hr. cbn. rewrite Hx. cbn. reflexivity. }
  split; [exact Hs|]. exists cfg'. split; [done|].
  change (deploymentArgs_value (with_token legacy_token rest d) ≈ cfg'). by rewrite Heq'.
Qed.

(** C25: deployLegacyTokenAndUpdateDeploymentArgs deploys and initialises the
    legacy token, and writes the arguments so that a deployment from the output
    folder passes the token's address as the first constructor argument of
    AToken and every other argument as it was. *)
Theorem deployLegacyToken_roundtrip :
  ∃ w', deployLegacyTokenAndUpdateDeploymentArgs (Some tp) (Some out) w = (Ok tt, w') ∧
    chain_state w' = legacy2 ∧
    accounts legacy2 = <[legacy_token := Account (UserCode rt) empty_slot]> (accounts c) ∧
    ∀ k, k ∉ object_prototype →
      getDeploymentConstructorArgs k (Some out) w'
        = (Ok (if decide (k = ATOKEN_CONTRACT) then VStr legacy_token :: arg_values rest
               else default [] (arg_values <$> dget k (da_constructor d))), w') ∧
      getDeploymentInitializerArgs k (Some out) w'
        = (Ok (arg_values <$> dget k (da_initializer d)), w').
Proof.
  destruct legacy_config as (cfg & cfg' & s & v & Hcfg & Hv & Hvu & Hset & Hs & Hholds).
  apply outcome_bind_ok in Hv as (sec & Hsec & Hv).
  assert (∀ w1, files w1 = files w → readDeploymentArgs (Some tp) w1 = (Ok cfg, w1)) as Hread.
  { intros w1 Hw1. rewrite <- Hcfg. unfold readDeploymentArgs. apply readTOML_file. by rewrite Hw1. }
  unfold deployLegacyTokenAndUpdateDeploymentArgs.
  run (existsSync_ok tp _ Htp). cbn [negb]. run (existsSync_ok out _ Hout). cbn [negb]. rewrite bind_console.
  match goal with |- context[logged ?m w] => set (w1 := logged m w) end.
  run (Hread w1 eq_refl). rewrite Hsec. run_step. rewrite Hv. run_step. rewrite Hvu.
  rewrite (admin_ok _ _ Howner). run_step. rewrite bind_console.
  match goal with |- context[logged ?m w1] => set (w2 := logged m w1) end.
  rewrite Htf. run_step.
  assert (free (chain_state w2) (create_address owner (nonce (chain_state w2) owner))) as Hfree
    by by apply wf_free; [exact Hwf|].
  run (deploy_ok owner "LegacyToken" tf [] dep rt n0 x0 w2 Htf Hdep Hfree Hcons Hg1).
  change (create_address owner (nonce (chain_state w2) owner)) with legacy_token.
  change (with_chain (with_block _ _) w2) with (with_chain legacy1 w2).
  rewrite Hinit. run_step.
  destruct (call_method_user owner legacy_token init (with_chain legacy1 w2) rt empty_slot n1 x1 Haddr
    (lookup_insert_eq _ _ _) Hcall Hg2) as [rc Hsend].
  run Hsend. change (with_chain (with_block _ _) (with_chain legacy1 w2)) with (with_chain legacy2 w2).
  assert (token_balance legacy_token owner (with_chain legacy2 w2) = (Ok minted, with_chain legacy2 w2)) as Hm.
  { unfold token_balance. cbn [chain_state with_chain]. by rewrite Hbal. }
  run Hm. rewrite !bind_console.
  match goal with |- context[logged ?m (logged ?m' (with_chain legacy2 w2))] =>
    set (w3 := logged m (logged m' (with_chain legacy2 w2))) end.
  rewrite Hset. run_step. rewrite Hs. run_step.
  eexists. split; [by apply writeFileSync_ok|]. split; [done|]. split; [done|].
  intros k Hk.
  destruct (getDeploymentArgs_held (with_token legacy_token rest d) out
    (with_files (<[path_of (out +:+ "/deploymentArgsTemplate") := File s]> (files w3)) w3) s k) as [H1' H2'];
    [by apply node_at_written|done|by eapply wf_token|done|done|].
  rewrite H1', H2'. split; [|done]. do 2 f_equal. cbn [da_constructor with_token].
  case_decide as Hka; [by rewrite Hka, dget_dset_eq|by rewrite dget_dset_ne].
Qed.
End legacy.
End spec.
