(* ===== verification/Testbed.v ===== *)
(** * A concrete environment

    One instance of every interface the development is parameterised by: a TOML
    codec that is a codec, a chain whose addresses do not collide, contracts, and
    the answers of hardhat.  It shows that the laws the theorems assume can hold
    together, and the examples are evaluated on it. *)
From stdpp Require Import countable.
From S2P Require Import Prelude JsString JsValue Toml World Constants Config Artifacts.
From S2P Require Import DeploymentUtil DeploymentList DeployArgs FactoryState Chain ChainLaws.
From S2P Require Import FactorySpec Hardhat AlicenetTasks.
#[local] Open Scope Z_scope.

(** ** Bits *)
Fixpoint pos_bits (p : positive) : string :=
  match p with xH => "" | xO p => String "0" (pos_bits p) | xI p => String "1" (pos_bits p) end.
Fixpoint bits_pos (s : string) : option positive :=
  match s with
  | EmptyString => Some xH
  | String c s =>
      if decide (c = "0"%char) then xO <$> bits_pos s
      else if decide (c = "1"%char) then xI <$> bits_pos s else None
  end.
Lemma bits_pos_bits p : bits_pos (pos_bits p) = Some p.
Proof. induction p; cbn; [by rewrite IHp..|done]. Qed.
Lemma pos_bits_inj p q : pos_bits p = pos_bits q → p = q.
Proof. intros Heq%(f_equal bits_pos). rewrite !bits_pos_bits in Heq. congruence. Qed.

(** ** TOML *)
Fixpoint to_tree (v : value) : gen_tree (bool + Z + string) :=
  match v with
  | VBool b => GenLeaf (inl (inl b))
  | VNum n => GenLeaf (inl (inr n))
  | VStr s => GenLeaf (inr s)
  | VArr l => GenNode 0 (map to_tree l)
  | VObj p => GenNode 1 (map (λ kv, GenNode 2 [GenLeaf (inr kv.1); to_tree kv.2]) p)
  | _ => GenNode 3 []
  end.
Fixpoint of_tree (t : gen_tree (bool + Z + string)) : option value :=
  match t with
  | GenLeaf (inl (inl b)) => Some (VBool b)
  | GenLeaf (inl (inr n)) => Some (VNum n)
  | GenLeaf (inr s) => Some (VStr s)
  | GenNode 0 l => VArr <$> mapM of_tree l
  | GenNode 1 l => VObj <$> mapM (λ t, match t with
                                       | GenNode _ [GenLeaf (inr k); t] => v ← of_tree t; Some (k, v)
                                       | _ => None
                                       end) l
  | _ => None
  end.

Lemma of_to_tree v : plain v = true → of_tree (to_tree v) = Some v.
Proof.
  induction v as [| | | | | |l IH|p IH|] using value_ind'; cbn; try done.
  - intros Hp. replace (mapM of_tree (map to_tree l)) with (Some l); [done|]. symmetry.
    induction IH as [|x l Hx _ IHl]; [done|]. cbn in *.
    apply andb_true_iff in Hp as [Hpx Hpl]. by rewrite (Hx Hpx), (IHl Hpl).
  - intros Hp. match goal with |- VObj <$> ?m = _ => replace m with (Some p); [done|] end. symmetry.
    induction IH as [|[k x] p Hx _ IHp]; [done|]. cbn in *.
    apply andb_true_iff in Hp as [Hpx Hpp]. by rewrite (Hx Hpx), (IHp Hpp).
Qed.

(** Comment lines in front of a document. *)
Fixpoint skip_line (s : string) : string :=
  match s with
  | EmptyString => EmptyString
  | String c s => if decide (c = "010"%char) then s else skip_line s
  end.
Fixpoint skip_comments (fuel : nat) (s : string) : string :=
  match fuel with
  | O => s
  | S fuel =>
      match s with
      | String "#" s => skip_comments fuel (skip_line s)
      | s => s
      end
  end.

Definition document (v : value) : outcome value :=
  if toml_document v && plain v then Ok v else Throw (Rejected "TomlError").
Definition parse_document (s : string) : outcome value :=
  match s with
  | EmptyString => Ok (VObj [])
  | String c s =>
      _ ← of_option (Rejected "TomlError") (guard (c = "."%char));
      t ← of_option (Rejected "TomlError")
            (p ← bits_pos s; t ← countable.decode p; of_tree t);
      document t
  end.
Definition test_bignumber (n : Z) : value :=
  VObj [("type", VStr "BigNumber"); ("hex", VStr (num_to_string 16 n))].

Definition image_of (v : value) : value :=
  @toml_image {| toml_parse := λ _, Throw (Rejected ""); toml_stringify := λ _, Throw (Rejected "");
                 bignumber_json := test_bignumber |} v.
#[export] Instance test_toml : Toml := {|
  toml_parse s := parse_document (skip_comments (String.length s) s);
  toml_stringify v :=
    if toml_document v then Ok (String "." (pos_bits (countable.encode (to_tree (image_of v)))))
    else Throw (Rejected "TomlError");
  bignumber_json := test_bignumber |}.

Lemma image_of_image v : image_of v = toml_image v.
Proof.
  unfold image_of. induction v as [| | | | | |l IH|p IH|] using value_ind'; try done; cbn; f_equal.
  - induction IH as [|x l Hx _ IHl]; [done|]. cbn. by rewrite Hx, IHl.
  - induction IH as [|[k x] p Hx _ IHp]; [done|]. destruct x; try exact IHp;
      (apply (f_equal2 cons); [apply (f_equal (pair k)), Hx|exact IHp]).
Qed.

Lemma image_plain v : toml_value v = true → plain (toml_image v) = true.
Proof.
  induction v as [| | | | | |l IH|p IH|] using value_ind'; cbn; try done.
  - rewrite andb_true_iff. intros [Hl _]. induction IH as [|x l Hx _ IHl]; [done|]. cbn in *.
    apply andb_true_iff in Hl as [H1 H2]. by rewrite (Hx H1), (IHl H2).
  - rewrite andb_true_iff. intros [_ Hp]. induction IH as [|[k x] p Hx _ IHp]; [done|]. cbn in *.
    apply andb_true_iff in Hp as [H1 H2]. specialize (IHp H2).
    destruct x; try exact IHp; apply andb_true_iff; (split; [by apply Hx|exact IHp]).
Qed.

Lemma image_kind v : toml_value v = true → kind_of (toml_image v) = kind_of v.
Proof. by destruct v. Qed.

Lemma image_keys (p : dict value) k :
  k ∈ (omap (λ kv, match kv.2 with
                   | VUndef | VNull => None
                   | _ => Some (kv.1, toml_image kv.2)
                   end) p).*1 → k ∈ p.*1.
Proof.
  induction p as [|[k' x] p IH]; [done|]. cbn. destruct x; cbn;
    rewrite ?elem_of_cons; intros; naive_solver.
Qed.

Lemma image_value v : toml_value v = true → toml_value (toml_image v) = true.
Proof.
  induction v as [| | | | | |l IH|p IH|] using value_ind'; cbn; try done.
  - rewrite !andb_true_iff. intros [Hl Hk]. split.
    + clear Hk. induction IH as [|x l Hx _ IHl]; [done|]. cbn in *.
      apply andb_true_iff in Hl as [H1 H2]. by rewrite (Hx H1), (IHl H2).
    + destruct l as [|x l]; [done|]. cbn in *. apply andb_true_iff in Hl as [Hx Hl].
      clear IH. induction l as [|y l IHl]; [done|]. cbn in *.
      apply andb_true_iff in Hl as [Hy Hl]. apply andb_true_iff in Hk as [Hky Hk].
      rewrite (IHl Hl Hk), andb_true_r. apply bool_decide_eq_true in Hky.
      apply bool_decide_eq_true. by rewrite !image_kind.
  - rewrite !andb_true_iff, !bool_decide_eq_true. intros [Hnd Hp]. split.
    + clear IH Hp. induction p as [|[k x] p IHp]; [done|]. cbn in *.
      apply NoDup_cons in Hnd as [Hk Hnd]. specialize (IHp Hnd).
      destruct x; cbn; try exact IHp; (apply NoDup_cons; split; [|exact IHp]);
        intros Hin; apply Hk; by apply image_keys in Hin.
    + clear Hnd. induction IH as [|[k x] p Hx _ IHp]; [done|]. cbn in *.
      apply andb_true_iff in Hp as [H1 H2]. specialize (IHp H2).
      destruct x; try exact IHp; apply andb_true_iff; (split; [|exact IHp]); try done; by apply Hx.
Qed.

Lemma image_document v : toml_document v = true → toml_document (toml_image v) = true.
Proof. destruct v; try done. intros Hv. by apply image_value in Hv. Qed.

Lemma parse_bits p v :
  countable.decode p = Some (to_tree v) → plain v = true → toml_document v = true →
  toml_parse (String "." (pos_bits p)) = Ok v.
Proof.
  intros Hd Hpl Hdoc. cbn [toml_parse test_toml String.length skip_comments].
  unfold parse_document. cbn. rewrite bits_pos_bits. cbn [mbind option_bind].
  rewrite Hd. cbn [mbind option_bind]. rewrite of_to_tree by done. cbn. unfold document.
  by rewrite Hdoc, Hpl.
Qed.

(** A comment line is skipped. *)
Lemma skip_line_app c s : free_of "010" c → skip_line (c +:+ String "010" s) = s.
Proof.
  unfold free_of. induction c as [|a c IH]; cbn; [done|]. intros [Ha Hc]%not_elem_of_cons.
  rewrite decide_False by congruence. by apply IH.
Qed.
Lemma skip_line_length s : (String.length (skip_line s) ≤ String.length s)%nat.
Proof. induction s as [|c s IH]; cbn; [done|]. case_decide; lia. Qed.
Lemma skip_comments_fuel n m s :
  (String.length s ≤ n)%nat → (n ≤ m)%nat → skip_comments m s = skip_comments n s.
Proof.
  revert m s. induction n as [|n IH]; intros m s Hs Hm.
  - destruct s; [|cbn in Hs; lia]. by destruct m.
  - destruct m as [|m]; [lia|]. destruct s as [|c s]; [done|]. cbn in Hs.
    assert (skip_comments m (skip_line s) = skip_comments n (skip_line s)) as Hl.
    { apply IH; [|lia]. pose proof (skip_line_length s). lia. }
    cbn. destruct c as [[] [] [] [] [] [] [] []]; try done.
Qed.

#[export] Instance test_toml_laws : TomlLaws.
Proof.
  split.
  - intros v Hv. cbn. rewrite Hv. eauto.
  - intros v s Hv. cbn [toml_stringify test_toml]. rewrite Hv, image_of_image. intros [= <-].
    exists (toml_image v). split; [|reflexivity].
    apply parse_bits; [apply countable.decode_encode| |by apply image_document].
    apply image_plain. by destruct v.
  - intros s v. cbn [toml_parse test_toml]. unfold parse_document.
    destruct (skip_comments _ s) as [|c s']; [by intros [= <-]|].
    intros (_ & _ & (t & _ & Ht)%outcome_bind_ok)%outcome_bind_ok. unfold document in Ht.
    destruct (toml_document t && plain t) eqn:E; [|done]. injection Ht as <-.
    by apply andb_true_iff in E.
  - intros c s Hc. cbn [toml_parse test_toml]. f_equal.
    change (("#" +:+ c) +:+ String "010" s)%string with (String "#" (c +:+ String "010" s)).
    cbn [String.length skip_comments]. rewrite skip_line_app by done.
    apply skip_comments_fuel; [done|]. clear. induction c; cbn in *; lia.
Qed.

(** ** The chain *)

(** Numbers as words that end in ":". *)
Definition z_word (n : Z) : string :=
  match n with Z0 => "z:" | Zpos p => "p" +:+ pos_bits p +:+ ":" | Zneg p => "n" +:+ pos_bits p +:+ ":" end.
Lemma pos_word_app_inj p q s t :
  (pos_bits p +:+ ":" +:+ s = pos_bits q +:+ ":" +:+ t)%string → p = q ∧ s = t.
Proof.
  revert q. induction p as [p IH|p IH|]; intros [q|q|]; cbn; intros Heq; try done.
  - injection Heq as Heq. by apply IH in Heq as [-> ->].
  - injection Heq as Heq. by apply IH in Heq as [-> ->].
  - by injection Heq as ->.
Qed.
Lemma z_word_app_inj n m s t : (z_word n +:+ s = z_word m +:+ t)%string → n = m ∧ s = t.
Proof.
  destruct n as [|p|p], m as [|q|q]; cbn; intros Heq; try done; try (by injection Heq as ->);
    injection Heq as Heq; rewrite !string_app_assoc in Heq;
    by apply pos_word_app_inj in Heq as [-> ->].
Qed.

Fixpoint string_app_same_length_inj (s t u v : string) :
  String.length s = String.length t → (s +:+ u = t +:+ v)%string → s = t ∧ u = v.
Proof.
  destruct s as [|c s], t as [|d t]; cbn; try done.
  intros [= Hl] Heq. injection Heq as -> Heq.
  destruct (string_app_same_length_inj s t u v Hl Heq) as [-> ->]. done.
Qed.

Definition test_create (a : address) (n : Z) : address := ("C" +:+ z_word n +:+ a)%string.
Definition test_create2 (a : address) (s _ : hexdata) : address :=
  ("D" +:+ z_word (Z.of_nat (String.length s)) +:+ s +:+ a)%string.

(** The calls of the examples, with their encodings. *)
Definition DEP : hexdata := "deploy-Foo".
Definition SALT : hexdata := "salt-Foo".
Definition ME : address := "owner".
Definition FACTORY : address := test_create ME 7.
Definition LOGIC : address := test_create FACTORY 5.
Definition INIT : hexdata := "initialize-Foo".
Definition OLD_LOGIC : address := "old-logic".
Definition INTEGRATE : hexdata := "integrate-Foo".
Definition POOL : address := test_create2 FACTORY "salt-ValidatorPool" "".
Definition PROXY : address := test_create2 FACTORY SALT "".
Definition REGISTRATION : address := test_create ME 8.
Definition call_table : list (hexdata * fcall) := [
  ("1", deployCreate DEP);
  ("2", deployProxy SALT);
  ("3", upgradeProxy SALT LOGIC INIT);
  ("4", multiCall ["1"; "2"; "3"]);
  ("5", multiCall ["2"; "3"]);
  ("6", deployTemplate DEP);
  ("7", deployStatic SALT INIT);
  ("8", multiCall ["6"; "7"]);
  ("9", upgradeProxy SALT OLD_LOGIC INIT);
  ("10", upgradeProxy SALT LOGIC INTEGRATE);
  ("11", multiCall ["1"; "10"]);
  ("12", setOwner "mallory");
  ("13", upgradeProxy SALT LOGIC EMPTY);
  ("14", multiCall ["2"; "13"]);
  ("15", callAny POOL 0 "pool-call");
  ("16", delegateCallAny REGISTRATION "stakeValidators-RegisterValidators");
  ("17", delegateCallAny REGISTRATION "registerValidators-RegisterValidators");
  ("18", deployTemplate "deploy-Bar");
  ("19", deployStatic "salt-Bar" EMPTY);
  ("20", multiCall ["18"; "19"]);
  ("21", setImplementation OLD_LOGIC);
  ("22", callAny PROXY 0 "upgrade:evil")].

#[export] Instance fcall_eq_dec : EqDecision fcall.
Proof. solve_decision. Defined.
Definition table_encode (c : fcall) : hexdata :=
  match list_find (λ e, e.2 = c) call_table with Some (_, e) => e.1 | None => "?" end.
Definition table_decode (d : hexdata) : option fcall :=
  match list_find (λ e, e.1 = d) call_table with Some (_, e) => Some e.2 | None => None end.

#[export] Instance test_evm : Evm := {|
  keccak256 d := if decide (d = METAMORPHIC_CODE) then metamorphicContractBytecodeHash_ else d;
  create_address := test_create;
  create2_address := test_create2;
  valid_call c := bool_decide (table_decode (table_encode c) = Some c);
  encode := table_encode;
  decode := table_decode;
  encode_upgrade a := ("upgrade:" +:+ a)%string;
  decode_upgrade d := if starts_with "upgrade:" d then Some (slice 8 d) else None;
  getImplementationAddress_selector := "getImplementationAddress" |}.

#[export] Instance test_evm_laws : EvmLaws.
Proof.
  split.
  - done.
  - intros a n b m Heq. cbn in Heq. injection Heq as Heq.
    apply z_word_app_inj in Heq as [-> ->]. done.
  - intros a s h b t g Heq. cbn in Heq. injection Heq as Heq.
    apply z_word_app_inj in Heq as [Hl Heq]. apply Nat2Z.inj in Hl.
    by apply string_app_same_length_inj in Heq as [-> ->].
  - done.
  - intros c Hv. cbn in Hv. by apply bool_decide_eq_true in Hv.
  - intros a. cbn [encode_upgrade decode_upgrade test_evm]. by rewrite starts_with_app.
  - done.
Qed.

(** User code whose initialiser logs once and counts. *)
#[export] Instance test_contracts : Contracts Z := {|
  construct dep _ _ x := if decide (dep = "bad") then None else Some (("code of " +:+ dep)%string, 1%nat, x + 1);
  run_as_init _ _ _ _ := None;
  call_code _ _ _ _ _ s x := Some (s, 1%nat, x + 10);
  call_in_factory _ _ _ _ f x := Some (f, 0%nat, x);
  gas_used _ t := 1000000 |}.

(** ** Hardhat *)
Definition FOO : string := "Foo".
Definition FOO_FULL : string := "contracts/Foo.sol:Foo".
Definition input (n t : string) : AbiInput := {| input_name := n; input_type := t |}.
Definition foo_output : ContractOutput := {|
  abi := [{| method_type := "constructor"; method_name := None; method_inputs := [input "a_" "address"] |};
          {| method_type := "function"; method_name := Some "initialize";
             method_inputs := [input "b_" "uint256"; input "c_" "uint256"] |}];
  devdoc := <["custom:salt" := "Foo"]> (<["custom:deploy-type" := "deployUpgradeable"]>
    (<["custom:deploy-group" := "core"]> (<["custom:deploy-group-index" := "1"]> ∅))) |}.
Definition bar_output : ContractOutput := {|
  abi := [];
  devdoc := <["custom:salt" := "Bar"]> (<["custom:deploy-type" := "deployStatic"]>
    (<["custom:deploy-group" := "core"]> (<["custom:deploy-group-index" := "0"]> ∅))) |}.
Definition build_info : BuildInfo := {|
  contracts_output := <["contracts/Foo.sol" := <["Foo" := foo_output]> ∅]>
    (<["contracts/Bar.sol" := <["Bar" := bar_output]> ∅]> ∅) |}.
#[export] Instance test_artifacts : Artifacts := {|
  getAllFullyQualifiedNames := [FOO_FULL; "contracts/Bar.sol:Bar"];
  getBuildInfo _ := Ok (Some build_info);
  readArtifact n := Ok {| artifact_name := n; sourceName := ("contracts/" +:+ n +:+ ".sol")%string |} |}.

Definition test_factory (n : string) : ContractFactory := {|
  bytecode := ("deploy-" +:+ n)%string;
  getDeployTransaction _ := Ok (Some ("deploy-" +:+ n)%string);
  encodeFunctionData m _ := Ok (m +:+ "-" +:+ n)%string |}.
#[export] Instance test_hardhat : Hardhat := {|
  network_name := "hardhat";
  fixed_gas := true;
  transaction_failed e := e;
  signers := [ME];
  getContractFactory n := Ok (test_factory n);
  formatBytes32String s := match s with Some s => Ok ("salt-" +:+ s)%string | None => Throw (TypeError "") end;
  parseBytes32String s := Ok (slice 5 s) |}.

(** A factory at [FACTORY], owned by [ME], about to create at [LOGIC]. *)
Definition TEMPLATE : address := test_create FACTORY 1.
Definition storage0 : factory_state := FactoryStorage ME ZERO_ADDRESS [] ZERO_ADDRESS TEMPLATE.
Definition chain0 : chain Z :=
  Chain (<[FACTORY := Account FactoryCode empty_slot]>
           (<[TEMPLATE := Account (ProxyTemplate FACTORY) empty_slot]> ∅))
    (<[FACTORY := storage0]> ∅)
    (<[ME := 8]> (<[FACTORY := 5]> (<[TEMPLATE := 1]> ∅)))
    (<[ME := 1000]> ∅) 100 30000000 0.
Definition no_files : gmap path node := ∅.
Definition silent_env : gmap string string := <["silencer" := "true"]> ∅.
Definition world0 : world (chain Z) := World no_files silent_env [] chain0.

Lemma me_eoa : eoa ME.
Proof. split; intros; discriminate. Qed.

Lemma lookup_two {V} (x y : address) (v w : V) (b : address) :
  b ≠ x → b ≠ y → (<[x := v]> (<[y := w]> ∅) : gmap address V) !! b = None.
Proof. intros. by rewrite !lookup_insert_ne. Qed.

Lemma chain0_wf : chain_wf chain0.
Proof.
  assert (∀ a, nonce chain0 a = if decide (a = ME) then 8 else if decide (a = FACTORY) then 5
    else if decide (a = TEMPLATE) then 1 else 0) as Hn.
  { intros a. unfold nonce, chain0. cbn [nonces].
    destruct (decide (a = ME)) as [->|H1]; [by rewrite lookup_insert_eq|].
    rewrite lookup_insert_ne by done.
    destruct (decide (a = FACTORY)) as [->|H2]; [by rewrite lookup_insert_eq|].
    rewrite lookup_insert_ne by done.
    destruct (decide (a = TEMPLATE)) as [->|H3]; [by rewrite lookup_insert_eq|].
    by rewrite lookup_insert_ne. }
  split.
  - intros a. rewrite Hn. repeat case_decide; lia.
  - intros a [k Hk]. rewrite Hn. destruct (decide (a = FACTORY)) as [->|H1]; [done|].
    destruct (decide (a = TEMPLATE)) as [->|H2]; [done|].
    unfold chain0 in Hk. cbn [accounts] in Hk. by rewrite lookup_two in Hk.
  - intros a n. rewrite !Hn. intros Hle.
    assert (create_address a n ≠ FACTORY) as H1.
    { intros Heq. destruct (create_inj a n ME 7 Heq) as [-> ->]. revert Hle. by vm_compute. }
    assert (create_address a n ≠ TEMPLATE) as H2.
    { intros Heq. destruct (create_inj a n FACTORY 1 Heq) as [-> ->]. revert Hle. by vm_compute. }
    split; [by apply lookup_two|]. by rewrite decide_False by done; rewrite !decide_False.
  - intros a k Hk Hc. unfold chain0 in *. cbn [accounts factories] in *.
    destruct (decide (a = FACTORY)) as [->|H1]; [by eexists|].
    rewrite lookup_insert_ne in Hk by done.
    destruct (decide (a = TEMPLATE)) as [->|H2]; [|by rewrite lookup_insert_ne in Hk].
    rewrite lookup_insert_eq in Hk. by injection Hk as <-.
Qed.

(** A node that mines a block every time the scripts wait. *)
#[export] Instance test_node : Node Z := {|
  contract_interface _ := Ok (λ _ _, Ok "pool-call");
  encode_signature _ _ := Ok "pool-call";
  is_address _ := true;
  balanceOf _ _ _ := Ok 5;
  parse_log _ _ _ := Ok [];
  inspect _ := "value";
  inspect_receipt _ := "receipt";
  after_delay _ c := with_block (block_number c + 1) c;
  confirmed n c := Some (with_block (block_number c + n) c);
  chainId := 1337;
  impersonateAccount _ c := Ok c;
  unlocked _ _ := true;
  evm_setAutomine _ c := Ok c;
  evm_setIntervalMining _ c := Ok c;
  getGasPrice _ := 7; heardBlockNumber := block_number; remoteBlockNumber _ := Ok 200 |}.
