(* ===== verification/Witnesses.v ===== *)
(** * The theorems at concrete inputs

    Each witness applies a theorem of the development in the environment of
    [Testbed], where its hypotheses hold. *)
From S2P Require Import Prelude JsString JsValue Toml World Constants Config Artifacts.
From S2P Require Import DeploymentUtil DeploymentList DeployArgs FactoryState Chain ChainLaws.
From S2P Require Import FactorySpec Hardhat FactoryTasks TaskSpec MetaSpec TaskErrors.
From S2P Require Import UpgradeSpec DeploySpec AlicenetFactory Strangers Testbed.
#[local] Open Scope Z_scope.

(** Evaluation, its result left out of the proof term when it can be. *)
Ltac by_eval :=
  lazymatch goal with
  | |- ?a = ?b => first [has_evar b; vm_compute; reflexivity | vm_cast_no_check (eq_refl a)]
  | |- _ => first [vm_compute; reflexivity | apply (bool_decide_unpack _); vm_cast_no_check I]
  end.

(** ** Lists and arguments *)
Definition all : list string := getAllFullyQualifiedNames.
Definition sorted : DeploymentList :=
  match getSortedDeployList all with Ok dl => dl | Throw _ => [] end.

Lemma getSortedDeployList_groups_witness :
  let infos := default [] (dget "core" sorted) in
  (∀ info, info ∈ infos ↔ contract info ∈ all ∧ listed_under "core" info) ∧
  (∀ info, listed_under "core" info →
     length (filter (λ i, i = info) infos) = length (filter (λ c, c = contract info) all)) ∧
  ("core" = "general" → map contract infos `sublist_of` all) ∧
  ("core" ≠ "general" → Forall (λ info, is_Some (int_index info)) infos →
   StronglySorted (λ a b, default 0 (int_index a) ≤ default 0 (int_index b)) infos) ∧
  (infos = [] → dget "core" sorted = None).
Proof. apply getSortedDeployList_groups. by_eval. Defined.

Lemma getSortedDeployList_sorted_witness :
  let infos := default [] (dget "core" sorted) in
  infos ≡ₚ members "core" all ∧
  StronglySorted (λ a b, default 0 (int_index a) ≤ default 0 (int_index b)) infos ∧
  ∀ k, filter (λ a, default 0 (int_index a) = k) infos
       = filter (λ a, default 0 (int_index a) = k) (members "core" all).
Proof.
  apply getSortedDeployList_sorted; [by_eval|done|].
  apply (bool_decide_unpack _). vm_compute. exact I.
Defined.

Lemma transformDeploymentList_complete_witness :
  transformDeploymentList sorted ≡ₚ filter (λ c, is_Some (deployable c)) all.
Proof. apply transformDeploymentList_complete. by_eval. Defined.

Definition list_world : world (chain Z) :=
  World (<[path_of "../scripts/base-files" := Dir]> (<[path_of "../scripts" := Dir]> (<[path_of ".." := Dir]> ∅)))
    ∅ [] chain0.

Lemma writeDeploymentList_roundtrip_witness :
  ∃ data v,
    let w' := with_files (<[path_of (list_path None) := File data]> (files list_world)) list_world in
    writeDeploymentList [FOO_FULL] None list_world = (Ok tt, w') ∧
    getDeploymentList None w' = (Ok v, w') ∧ v ≈ VArr (map VStr [FOO_FULL]).
Proof. apply (writeDeploymentList_roundtrip [FOO_FULL] None list_world []); by_eval. Defined.

Definition foo_args : DeploymentArgs := {|
  da_constructor := [(FOO_FULL, [[("a_", "0x01")]])];
  da_initializer := [(FOO_FULL, [[("b_", "1")]; [("c_", "2")]])] |}.
Lemma foo_args_wf : wf_args (da_constructor foo_args) ∧ wf_args (da_initializer foo_args).
Proof. split; (split; [apply (bool_decide_unpack _); by vm_compute|]); repeat constructor; eauto. Qed.

Lemma deploymentArgs_roundtrip_witness :
  ∃ data,
    let w' := with_files (<[path_of (args_path (Some "../scripts")) := File data]> (files list_world)) list_world in
    writeDeploymentArgs foo_args (Some "../scripts") list_world = (Ok tt, w') ∧
    ∀ c, c ∉ object_prototype →
      getDeploymentConstructorArgs c (Some "../scripts") w'
        = (Ok (default [] (arg_values <$> dget c (da_constructor foo_args))), w') ∧
      getDeploymentInitializerArgs c (Some "../scripts") w'
        = (Ok (arg_values <$> dget c (da_initializer foo_args)), w').
Proof. apply deploymentArgs_roundtrip; [by_eval|apply foo_args_wf..]. Defined.

Definition foo_template : DeploymentArgs :=
  match generateDeployArgTemplate [FOO_FULL] with Ok d => d | Throw _ => foo_args end.
Lemma generateDeployArgTemplate_correct_witness :
  wf_args (da_constructor foo_template) ∧ wf_args (da_initializer foo_template) ∧
  (∀ c, c ∈ [FOO_FULL] → ∃ info, contract_info c info ∧
    dget c (da_constructor foo_template) = placeholders (inputs_of (λ m, method_type m = "constructor") info) ∧
    dget c (da_initializer foo_template)
    = placeholders (inputs_of (λ m, method_name m = Some "initialize") info)) ∧
  (∀ c, c ∉ [FOO_FULL] → dget c (da_constructor foo_template) = None ∧
    dget c (da_initializer foo_template) = None).
Proof. apply generateDeployArgTemplate_correct. by_eval. Defined.

(** ** The factory state *)
Definition state0 : dict value :=
  [("hardhat", VObj [("proxies", VArr [VObj [("logicName", VStr "Foo"); ("proxyAddress", VStr "0x0")]])])].
Definition state_world : world (chain Z) :=
  match toml_stringify (VObj state0) with
  | Ok s => World (<[path_of FACTORY_STATE_PATH := File s]> (<[path_of "../scripts/generated" := Dir]>
              (<[path_of "../scripts" := Dir]> (<[path_of ".." := Dir]> ∅)))) ∅ [] chain0
  | Throw _ => list_world
  end.
Definition hardhat0 : dict value :=
  [("proxies", VArr [VObj [("logicName", VStr "Foo"); ("proxyAddress", VStr "0x0")]])].

Definition proxy_entry : ProxyData := {|
  px_proxyAddress := "0x2"; px_salt := "0x01"; px_logicName := Some "Bar"; px_logicAddress := None;
  px_factoryAddress := FACTORY; px_gas := GasBig 21000;
  px_receipt := Some {| events := None; gasUsed := 21000; status := 1 |};
  px_initCallData := None |}.

Lemma updateList_appends_witness :
  ∃ s cfg,
    updateList "hardhat" "proxies" proxy_entry None state_world
      = (Ok (written proxy_entry),
         with_files (<[path_of FACTORY_STATE_PATH := File s]> (files state_world)) state_world) ∧
    toml_parse s = Ok cfg ∧
    oveq (state_field "hardhat" "proxies" cfg)
      (Ok (VArr ([VObj [("logicName", VStr "Foo"); ("proxyAddress", VStr "0x0")]]
                 ++ [toml_image (entry_value (written proxy_entry))]))) ∧
    ∀ network' fieldName', (network', fieldName') ≠ ("hardhat", "proxies") →
      oveq (state_field network' fieldName' cfg) (state_field network' fieldName' (VObj state0)).
Proof.
  apply (updateList_appends "hardhat" "proxies" proxy_entry state_world state0 hardhat0); by_eval.
Defined.

Lemma updateList_outputFolder_fails_witness :
  ∃ e, updateList "hardhat" "proxies" proxy_entry (Some "../scripts") list_world = (Throw e, list_world).
Proof.
  apply updateList_outputFolder_fails; [by_eval| |done|by_eval|by_eval].
  intros p n Hp. cbn [files list_world] in *.
  repeat (apply lookup_insert_Some in Hp as [[<- <-]|[_ Hp]]; [vm_compute; reflexivity|]). done.
Defined.

Definition factory_entry : FactoryData := {| fd_address := FACTORY; fd_owner := Some ME; fd_gas := 5 |}.
Lemma updateDefaultFactoryData_get_witness :
  ∃ s cfg,
    let w' := with_files (<[path_of (state_path None) := File s]> (files state_world)) state_world in
    updateDefaultFactoryData "hardhat" factory_entry None state_world = (Ok tt, w') ∧
    getDefaultFactoryAddress "hardhat" None w' = (Ok (VStr FACTORY), w') ∧
    toml_parse s = Ok cfg ∧
    ∀ network' fieldName',
      (network', fieldName') ∉ [("hardhat", "defaultFactoryData"); ("hardhat", "defaultFactoryAddress")] →
      oveq (state_field network' fieldName' cfg) (state_field network' fieldName' (VObj state0)).
Proof.
  apply (updateDefaultFactoryData_get "hardhat" factory_entry None state_world state0 hardhat0); by_eval.
Defined.

Definition meta_entry : MetaContractData := {|
  mt_metaAddress := "0xa"; mt_salt := "0x01"; mt_templateName := "AToken"; mt_templateAddress := "0xb";
  mt_factoryAddress := FACTORY; mt_gas := 7; mt_initCallData := "0x"; mt_receipt := None |}.
(** The first AToken is found; a second one is not. *)
Definition second_entry : MetaContractData := {|
  mt_metaAddress := "0xc"; mt_salt := "0x02"; mt_templateName := "AToken"; mt_templateAddress := "0xd";
  mt_factoryAddress := FACTORY; mt_gas := 7; mt_initCallData := "0x"; mt_receipt := None |}.
Definition atoken_state : dict value := [("hardhat", VObj [("staticContracts", VArr [VObj
  [("templateName", VStr "AToken"); ("metaAddress", VStr "0xa")]])])].
Definition atoken_world : world (chain Z) :=
  match toml_stringify (VObj atoken_state) with
  | Ok s => with_files (<[path_of FACTORY_STATE_PATH := File s]> (files state_world)) state_world
  | Throw _ => list_world
  end.
Lemma updateMetaList_getATokenAddress_witness :
  (∃ d s,
    let w' := with_files (<[path_of FACTORY_STATE_PATH := File s]> (files state_world)) state_world in
    updateMetaList "hardhat" meta_entry None state_world = (Ok d, w') ∧
    getATokenAddress "hardhat" w' = (Ok (VStr "0xa"), w')) ∧
  ∃ d s,
    let w' := with_files (<[path_of FACTORY_STATE_PATH := File s]> (files atoken_world)) atoken_world in
    updateMetaList "hardhat" second_entry None atoken_world = (Ok d, w') ∧
    getATokenAddress "hardhat" w' = (Ok (VStr "0xa"), w').
Proof.
  split.
  - destruct (updateMetaList_getATokenAddress "hardhat" meta_entry state_world state0 hardhat0 [])
      as (d & s & Hrun & Hfirst & _); [by_eval..|done|].
    exists d, s. split; [exact Hrun|]. apply Hfirst. constructor.
  - destruct (updateMetaList_getATokenAddress "hardhat" second_entry atoken_world atoken_state
      [("staticContracts", VArr [VObj [("templateName", VStr "AToken"); ("metaAddress", VStr "0xa")]])]
      [VObj [("templateName", VStr "AToken"); ("metaAddress", VStr "0xa")]])
      as (d & s & Hrun & _ & Hold); [by_eval..|done|].
    exists d, s. split; [exact Hrun|]. eapply (Hold []); [done|constructor|done|done].
Defined.

(** ** Deployments *)
Definition args0 : TaskArgs := {|
  ta_contractName := Some FOO; ta_factoryAddress := Some FACTORY; ta_initCallData := Some "1, 2";
  ta_constructorArgs := Some [VStr "x"]; ta_inputFolder := None; ta_outputFolder := None;
  ta_salt := None; ta_logicAddress := None |}.
Definition CODE : hexdata := "code of deploy-Foo".

Lemma foo_artifacts : logic_artifacts (X := Z) FOO [VStr "x"] (Some "1, 2") DEP SALT INIT.
Proof. split; [reflexivity|by eexists|done|done]. Qed.
Lemma owner0 c : accounts c !! ME = None → owner_account (X := Z) c ME.
Proof. intros Ha. split; [reflexivity|apply me_eoa|exact Ha]. Qed.
Lemma factory0 : is_factory chain0 FACTORY storage0.
Proof. split; [by eexists|reflexivity]. Qed.
Lemma proxy0 : proxy_deployment chain0 FACTORY storage0 SALT DEP INIT CODE 1 1 1 11.
Proof.
  split; [apply chain0_wf|apply factory0|by eexists _, _|by split| | |].
  - vm_compute. reflexivity.
  - done.
  - right. repeat split; done.
Qed.
Lemma meta0 :
  meta_deployment chain0 FACTORY storage0 SALT DEP INIT ("code of " +:+ DEP +:+ address_word FACTORY) 1 1 1 11.
Proof.
  split; [apply chain0_wf|apply factory0|by split| | |].
  - vm_compute. reflexivity.
  - done.
  - right. repeat split; done.
Qed.

Lemma fullMultiCallDeployProxy_ok_witness :
  ∃ c' message proxyData,
    fullMultiCallDeployProxy args0 world0
    = (_ ← showState message; updateProxyList network_name proxyData None) (with_chain c' world0) ∧
    px_proxyAddress proxyData = getMetamorphicAddress FACTORY SALT ∧
    px_salt proxyData = SALT ∧ px_gas proxyData = GasBig (deploy_gas FACTORY ME world0 SALT DEP INIT) ∧
    deployed chain0 FACTORY storage0 SALT CODE 11 c'.
Proof.
  apply (fullMultiCallDeployProxy_ok FOO FACTORY ME args0 world0 storage0 SALT DEP INIT CODE 1 1 1 11);
    [done|done|done|apply foo_artifacts|by apply owner0|done|apply proxy0|by_eval..].
Defined.

Lemma deployUpgradeableProxy_equiv_witness :
  ∃ d1 c1 d2 c2,
    fullMultiCallDeployProxy args0 world0 = (Ok d1, with_chain c1 world0) ∧
    deployUpgradeableProxy args0 world0 = (Ok d2, with_chain c2 world0) ∧
    same_contracts ME c1 c2 ∧
    px_proxyAddress d1 = px_proxyAddress d2 ∧ px_salt d1 = px_salt d2 ∧
    px_initCallData d1 = px_initCallData d2.
Proof.
  apply (deployUpgradeableProxy_equiv FOO FACTORY ME args0 world0 storage0 SALT DEP INIT CODE 1 1 1 11);
    [done|done|done|apply foo_artifacts|by apply owner0|done|apply proxy0|by_eval..| |by_eval].
  by vm_compute.
Defined.

Lemma multiCallDeployMetamorphic_ok_witness :
  ∃ c' message metaData,
    multiCallDeployMetamorphic args0 world0
    = (_ ← showState message; updateMetaList network_name metaData None) (with_chain c' world0) ∧
    mt_metaAddress metaData = getMetamorphicAddress FACTORY SALT ∧
    mt_templateAddress metaData = logic_address chain0 FACTORY ∧
    mt_salt metaData = SALT ∧ mt_gas metaData = meta_gas FACTORY ME world0 SALT DEP INIT ∧
    meta_deployed chain0 FACTORY storage0 SALT DEP ("code of " +:+ DEP +:+ address_word FACTORY) 11 c'.
Proof.
  apply (multiCallDeployMetamorphic_ok FOO FACTORY ME args0 world0 storage0 SALT DEP INIT
    ("code of " +:+ DEP +:+ address_word FACTORY) 1 1 1 11);
    [done|done|done|apply foo_artifacts|by apply owner0|done|apply meta0|by_eval..].
Defined.

(** ** Refusals *)
Definition foreign_storage : factory_state := FactoryStorage "alice" ME [] ZERO_ADDRESS TEMPLATE.
Definition foreign_world : world (chain Z) :=
  with_chain (with_factory FACTORY foreign_storage chain0) world0.
(** The signer is the delegator: the setter of the owner is refused, the one of
    the implementation works. *)
Lemma factory_access_witness :
  factory_send FACTORY (setOwner "mallory") foreign_world
  = (Throw (refusal (Rejected UNAUTHORIZED)), with_chain (refused ME (chain_state foreign_world)) foreign_world) ∧
  ∃ r, factory_send FACTORY (setImplementation OLD_LOGIC) foreign_world
    = (Ok r, with_chain (with_block (block_number (chain_state foreign_world) + 1)
        (with_factory FACTORY (FactoryStorage "alice" ME [] OLD_LOGIC TEMPLATE)
          (bump ME (chain_state foreign_world)))) foreign_world).
Proof.
  assert (is_factory (chain_state foreign_world) FACTORY foreign_storage) as Hf
    by (split; [by eexists|reflexivity]).
  split.
  - apply (factory_access FACTORY ME foreign_storage (setOwner "mallory") foreign_world); [by_eval|by_eval|exact Hf|by_eval|].
    intros [[|]|[? _]]; done.
  - apply (factory_access FACTORY ME foreign_storage (setImplementation OLD_LOGIC) foreign_world);
      [by_eval|by_eval|exact Hf|by_eval|by right|done].
Defined.

Definition PROXY_ADDRESS : address := meta_address FACTORY SALT.
Definition taken_world : world (chain Z) :=
  with_chain (with_block 101 (with_account PROXY_ADDRESS (Account (ProxyCode FACTORY) (Slot 0 OLD_LOGIC))
                (with_account OLD_LOGIC (Account (UserCode "old") empty_slot)
                   (with_nonce PROXY_ADDRESS 1 (with_nonce OLD_LOGIC 1 chain0))))) world0.
Lemma taken_wf : chain_wf (chain_state taken_world).
Proof.
  destruct chain0_wf as [W1 W2 W3 W4].
  assert (∀ a, nonce (chain_state taken_world) a
    = if decide (a = PROXY_ADDRESS) then 1 else if decide (a = OLD_LOGIC) then 1 else nonce chain0 a) as Hn.
  { intros a. change (nonce (with_nonce PROXY_ADDRESS 1 (with_nonce OLD_LOGIC 1 chain0)) a
      = if decide (a = PROXY_ADDRESS) then 1 else if decide (a = OLD_LOGIC) then 1 else nonce chain0 a).
    by rewrite !nonce_with_nonce. }
  assert (∀ a, a ≠ PROXY_ADDRESS → a ≠ OLD_LOGIC →
    accounts (chain_state taken_world) !! a = accounts chain0 !! a) as Ha.
  { intros a H1 H2. cbn [taken_world chain_state with_chain accounts with_block with_account with_nonce].
    by rewrite !lookup_insert_ne. }
  split.
  - intros a. rewrite Hn. pose proof (W1 a). repeat case_decide; lia.
  - intros a Hs. rewrite Hn. destruct (decide (a = PROXY_ADDRESS)); [lia|].
    destruct (decide (a = OLD_LOGIC)); [lia|]. rewrite Ha in Hs by done. by apply W2.
  - intros a n Hle. rewrite Hn in Hle.
    assert (create_address a n ≠ PROXY_ADDRESS) as H1 by done.
    assert (create_address a n ≠ OLD_LOGIC) as H2 by done.
    rewrite Hn, Ha by done. rewrite !decide_False by done. apply W3.
    destruct (decide (a = PROXY_ADDRESS)) as [->|]; [change (nonce chain0 PROXY_ADDRESS) with 0; lia|].
    destruct (decide (a = OLD_LOGIC)) as [->|]; [change (nonce chain0 OLD_LOGIC) with 0; lia|done].
  - intros a k Hk Hc. destruct (decide (a = PROXY_ADDRESS)) as [->|H1].
    { change (accounts (chain_state taken_world) !! PROXY_ADDRESS)
        with ((<[PROXY_ADDRESS := Account (ProxyCode FACTORY) (Slot 0 OLD_LOGIC)]>
           (accounts (with_account OLD_LOGIC (Account (UserCode "old") empty_slot) chain0))) !! PROXY_ADDRESS) in Hk.
      rewrite lookup_insert_eq in Hk. by injection Hk as <-. }
    destruct (decide (a = OLD_LOGIC)) as [->|H2].
    { vm_compute in Hk. by injection Hk as <-. }
    rewrite Ha in Hk by done. by eapply W4.
Qed.

Lemma fullMultiCallDeployProxy_twice_witness :
  ∃ e, fullMultiCallDeployProxy args0 taken_world
  = (Throw e, with_chain (raised (chain_state taken_world)) taken_world).
Proof.
  apply (fullMultiCallDeployProxy_twice FOO FACTORY ME args0 taken_world empty_slot SALT DEP INIT);
    [done|done|done|apply foo_artifacts|done|apply me_eoa|apply taken_wf|by_eval|by eexists|by_eval..].
Defined.

(** ** Upgrades *)
Definition args_upgrade : TaskArgs := {|
  ta_contractName := Some FOO; ta_factoryAddress := Some FACTORY; ta_initCallData := Some "1, 2";
  ta_constructorArgs := Some []; ta_inputFolder := None; ta_outputFolder := None;
  ta_salt := None; ta_logicAddress := Some OLD_LOGIC |}.
(** A stranger goes through a factory of its own to upgrade the proxy: the proxy
    hands the call to its implementation. *)
Definition MALLORY : address := test_create "mallory" 0.
Definition stranger_chain : chain Z :=
  with_account MALLORY (Account FactoryCode empty_slot)
    (with_factory MALLORY (FactoryStorage "mallory" ZERO_ADDRESS [] ZERO_ADDRESS ZERO_ADDRESS)
       (chain_state taken_world)).
Definition attack : tx := Tx "mallory" (Some MALLORY) 0 "22".
Definition attacked : outcome (() * Receipt * chain Z) := run_tx attack (call_tx attack MALLORY) stranger_chain.
Definition attacked_chain : chain Z := match attacked with Ok (_, _, c) => c | Throw _ => stranger_chain end.
Definition attacked_receipt : Receipt :=
  match attacked with Ok (_, r, _) => r | Throw _ => {| events := None; gasUsed := 0; status := 0 |} end.
Lemma stranger_tx_witness :
  is_factory attacked_chain FACTORY storage0 ∧ free attacked_chain LOGIC ∧
  accounts attacked_chain !! PROXY_ADDRESS = Some (Account (ProxyCode FACTORY) (Slot 0 OLD_LOGIC)).
Proof.
  destruct (stranger_tx attack MALLORY FACTORY storage0 stranger_chain tt attacked_receipt attacked_chain)
    as (Hf & _ & Hfree & Hproxy).
  - vm_compute. reflexivity.
  - split; [by eexists|reflexivity].
  - split; intros; discriminate.
  - done.
  - intros (k & Hk & _). vm_compute in Hk. discriminate.
  - intros (k & Hk & _). vm_compute in Hk. discriminate.
  - split; [exact Hf|]. split.
    + apply Hfree; [left; by exists 5|done].
    + apply Hproxy. split; [reflexivity|]. exists (UserCode "old"). split; [by eexists|].
      by intros caller v d x s' n x' [= <- _ _].
Defined.

Definition locked_world : world (chain Z) :=
  with_chain (with_account PROXY_ADDRESS (Account (ProxyCode FACTORY) (Slot LOCK OLD_LOGIC))
                (chain_state taken_world)) world0.

Lemma upgradeDeployedProxy_locked_witness :
  upgradeDeployedProxy args_upgrade locked_world
  = (Throw (refusal (Rejected "imploc")), with_chain (refused ME (chain_state locked_world)) locked_world) ∧
  accounts (refused ME (chain_state locked_world)) = accounts (chain_state locked_world) ∧
  (fixed_gas = false →
   upgradeDeployedProxy args_upgrade locked_world = (Throw (Rejected "imploc"), locked_world)).
Proof.
  apply (upgradeDeployedProxy_locked FOO FACTORY ME args_upgrade locked_world storage0 SALT
    (Slot LOCK OLD_LOGIC)) with (logic := OLD_LOGIC) (data := INIT);
    [done|done|done|by apply owner0|done| |by_eval|done|done|done|by_eval|done].
  split; [by eexists|reflexivity].
Defined.

Lemma upgradeDeployedProxy_ok_witness :
  ∃ c' message proxyData,
    upgradeDeployedProxy args_upgrade taken_world
    = (_ ← showState message; updateProxyList network_name proxyData (ta_outputFolder args_upgrade))
        (with_chain c' taken_world) ∧
    px_proxyAddress proxyData = PROXY_ADDRESS ∧ px_logicAddress proxyData = Some OLD_LOGIC ∧
    px_gas proxyData
      = GasNumber (gas_of (chain_state taken_world) ME FACTORY (upgradeProxy SALT OLD_LOGIC INIT)) ∧
    accounts c' = <[PROXY_ADDRESS := Account (ProxyCode FACTORY) (Slot 0 OLD_LOGIC)]>
                    (accounts (chain_state taken_world)) ∧
    factories c' = factories (chain_state taken_world) ∧ ext c' = 10.
Proof.
  apply (upgradeDeployedProxy_ok FOO FACTORY ME args_upgrade taken_world storage0 SALT
    (Slot 0 OLD_LOGIC)) with (ki := Account (UserCode "old") empty_slot) (n := 1%nat);
    [done|done|done|by apply owner0|done| |by_eval|done|done|done|by_eval|done|by_eval|done| |by_eval|by vm_compute].
  - split; [by eexists|reflexivity].
  - right. repeat split; done.
Defined.

Lemma multiCallUpgradeProxy_ok_witness :
  ∃ c' message proxyData,
    multiCallUpgradeProxy args_upgrade taken_world
    = (_ ← showState message; mret proxyData) (with_chain c' taken_world) ∧
    px_proxyAddress proxyData = PROXY_ADDRESS ∧
    px_logicAddress proxyData = ta_logicAddress args_upgrade ∧
    accounts c' !! logic_address (chain_state taken_world) FACTORY = Some (Account (UserCode CODE) empty_slot) ∧
    accounts c' !! PROXY_ADDRESS
      = Some (Account (ProxyCode FACTORY) (Slot 0 (logic_address (chain_state taken_world) FACTORY))) ∧
    factories c' = factories (chain_state taken_world) ∧ ext c' = 11.
Proof.
  apply (multiCallUpgradeProxy_ok FOO FACTORY ME args_upgrade taken_world storage0 SALT
    (Slot 0 OLD_LOGIC)) with (conArgs := []) (lf := test_factory FOO) (dep := DEP) (data := INTEGRATE)
    (n := 1%nat) (x := 1) (n' := 1%nat);
    [done|done|done|by apply owner0|done| |by_eval|done|done|done|done|done|done|done|done|apply taken_wf|done
    |by_eval|done| |by_eval|by_eval|by_eval|by_eval|by vm_compute].
  - split; [by eexists|reflexivity].
  - right. repeat split; done.
Defined.

(** ** The initial deployment *)
Lemma initCallData_roundtrip_witness :
  splitInitCallData (getEncodedInitCallData (Some (map VStr ["1"; "0xab"]))) = map VStr ["1"; "0xab"].
Proof. apply initCallData_roundtrip; [done|by_eval|by_eval]. Defined.

Lemma checkUserDirPath_spec_witness :
  let w' := with_files (<[path_of "../out" := Dir]> (files list_world))
              (with_console ["Creating Folder at../out since it didn't exist before!"] list_world) in
  chain_state w' = chain_state list_world ∧
  (Ok tt = Ok tt ↔ node_at (files w') (path_of "../out") = Some Dir) ∧
  (∀ q, q ≠ path_of "../out" → node_at (files w') q = node_at (files list_world) q) ∧
  (node_at (files list_world) (path_of "../out") ≠ None → w' = list_world) ∧
  (node_at (files list_world) (path_of "../out") = None →
     (Ok tt = Ok tt ↔ can_create (files list_world) (path_of "../out") = true)).
Proof. apply (checkUserDirPath_spec "../out" list_world (Ok tt)); [done|by_eval]. Defined.

Lemma deployFactory_ok_witness :
  ∃ c' message template,
    let factory := create_address ME (nonce (chain_state world0) ME) in
    let factoryData := {| fd_address := factory; fd_owner := Some ME;
      fd_gas := gas_used (chain_state world0) (Tx ME None 0 "deploy-AliceNetFactory") |} in
    deployFactory no_args world0
    = (_ ← updateDefaultFactoryData network_name factoryData None;
       _ ← showState message; mret factoryData) (with_chain c' world0) ∧
    is_factory c' factory (fresh_factory ME template) ∧
    accounts c' !! template = Some (Account (ProxyTemplate factory) empty_slot) ∧
    chain_wf c' ∧ nonce c' ME = nonce (chain_state world0) ME + 1.
Proof.
  apply (deployFactory_ok no_args world0 ME [] (test_factory ALICENET_FACTORY) "deploy-AliceNetFactory");
    [done|done|apply me_eoa|done|done|apply chain0_wf|by_eval].
Defined.

Lemma generateDeploymentConfigs_read_witness :
  ∃ w' v,
    generateDeploymentConfigs false false (Some "../scripts") None list_world = (Ok tt, w') ∧
    chain_state w' = chain_state list_world ∧
    getDeploymentList (Some "../scripts") w' = (Ok v, w') ∧
    v ≈ VArr (map VStr (transformDeploymentList sorted)) ∧
    ∀ k, k ∉ object_prototype →
      getDeploymentConstructorArgs k (Some "../scripts") w'
        = (Ok (default [] (arg_values <$> dget k (da_constructor foo_template))), w') ∧
      getDeploymentInitializerArgs k (Some "../scripts") w'
        = (Ok (arg_values <$> dget k (da_initializer foo_template)), w').
Proof.
  apply (generateDeploymentConfigs_read "../scripts" list_world sorted foo_template []); by_eval.
Defined.

Definition list_data : string :=
  match toml_stringify (VObj [("deploymentList", VArr [VStr FOO_FULL])]) with Ok s => s | Throw _ => "" end.
Definition deploy_world : world (chain Z) :=
  World (<[path_of "../scripts/base-files/deploymentList" := File list_data]> (files list_world))
    silent_env [] chain0.
Definition deploy_args : TaskArgs := {|
  ta_contractName := None; ta_factoryAddress := Some FACTORY; ta_initCallData := None;
  ta_constructorArgs := None; ta_inputFolder := None; ta_outputFolder := None;
  ta_salt := None; ta_logicAddress := None |}.
Lemma deployContracts_spec_witness :
  let w' := (deployContracts deploy_args deploy_world).2 in
  ∃ gs w1, deployment FACTORY None None deploy_world [FOO_FULL] gs w1 ∧
    w' = with_console (console w1 ++ ["total gas used: " +:+ gas_string (sum_gas gs)]) w1.
Proof.
  apply (deployContracts_spec deploy_args deploy_world FACTORY [FOO_FULL] (Ok tt)); [done|done|by_eval|].
  vm_compute. reflexivity.
Defined.

(** ** Without the tasks *)
Lemma proxy_empty0 : proxy_deployment chain0 FACTORY storage0 SALT DEP EMPTY CODE 1 1 0 1.
Proof.
  split; [apply chain0_wf|apply factory0|by eexists _, _|by split| | |].
  - vm_compute. reflexivity.
  - done.
  - by left.
Qed.
Lemma deployUpgradeable_ok_witness :
  deployUpgradeable FOO FACTORY [VStr "x"] world0
  = (Ok {| ur_logicAddress := logic_address chain0 FACTORY;
           ur_proxyAddress := Some (meta_address FACTORY SALT); ur_proxySalt := Some SALT |},
     with_chain (lib_chain2 FACTORY ME world0 storage0 SALT CODE 1) world0) ∧
  deployed chain0 FACTORY storage0 SALT CODE 1 (lib_chain2 FACTORY ME world0 storage0 SALT CODE 1).
Proof.
  apply (deployUpgradeable_ok FOO FACTORY ME [VStr "x"] world0 storage0 SALT DEP CODE 1 1);
    [done|by eexists|by_eval|by apply owner0|done|apply proxy_empty0|by_eval..].
Defined.
