(* ===== verification/OperationWitnesses.v ===== *)
(** * The theorems on the operation tasks at concrete inputs

    As [Witnesses], for [OperationSpec], [PoolSpec] and [ConfigTaskSpec]. *)
From S2P Require Import Prelude JsString JsValue Toml World Constants Config Artifacts.
From S2P Require Import DeploymentUtil DeploymentList DeployArgs FactoryState Chain ChainLaws.
From S2P Require Import FactorySpec Hardhat FactoryTasks TaskSpec AlicenetTasks OperationSpec.
From S2P Require Import PoolSpec ConfigTaskSpec Testbed Witnesses.
#[local] Open Scope Z_scope.

(** ** Numbers, blocks, ether *)
Lemma notSoRandomNumBetweenRange_range_witness :
  (∀ k, 0 ≤ k < 2 ^ 53 → 0 ≤ notSoRandomNumBetweenRange k 3 0 ≤ 3) ∧
  (∀ v, 0 ≤ v ≤ 3 → ∃ k, 0 ≤ k < 2 ^ 53 ∧ notSoRandomNumBetweenRange k 3 0 = v).
Proof. apply (notSoRandomNumBetweenRange_range 3 0); [done|by vm_compute]. Defined.

Lemma waitBlocks_ends_witness :
  ∃ w', waitBlocks 4 3 world0 = (Ok tt, w') ∧
    block_number (chain_state world0) + 3 ≤ block_number (chain_state w').
Proof. apply (waitBlocks_ends 3 world0). intros c. cbn. lia. Defined.

(** A node that mines only when it is sent a transaction. *)
Definition still_node : Node Z := {|
  contract_interface := contract_interface; encode_signature := encode_signature;
  is_address := is_address; balanceOf := balanceOf; parse_log := parse_log;
  inspect := inspect; inspect_receipt := inspect_receipt;
  after_delay _ c := c;
  confirmed := confirmed; chainId := chainId; impersonateAccount := impersonateAccount;
  unlocked := unlocked; evm_setAutomine := evm_setAutomine;
  evm_setIntervalMining := evm_setIntervalMining; getGasPrice := getGasPrice;
  heardBlockNumber := heardBlockNumber; remoteBlockNumber := remoteBlockNumber |}.
Lemma waitBlocks_never_witness :
  (waitBlocks (Node0 := still_node) 1000 3 world0).1 = Throw Running.
Proof. apply (waitBlocks_never (Node0 := still_node)); [intros c; reflexivity|done]. Defined.

(** A hundred blocks, with what follows the digits left out; a number no double
    holds is refused. *)
Lemma mine_num_blocks_spec_witness :
  mine_num_blocks (Some "100 blocks") world0
  = (Ok tt, with_chain (with_block (block_number (chain_state world0) + 100) (chain_state world0)) world0) ∧
  ∃ e, mine_num_blocks (Some "many") world0 = (Throw e, world0).
Proof.
  split.
  - apply (mine_num_blocks_spec "100 blocks" world0 (JInt 100) eq_refl). split; by vm_compute.
  - exact (mine_num_blocks_spec "many" world0 JNaN eq_refl).
Defined.

(** The amount "1f" is 31 ether. *)
Definition rich_world : world (chain Z) :=
  with_chain (with_balances (<[ME := 200 * ETHER]> ∅) chain0) world0.
Lemma rich_balance : 0 ≤ balance (chain_state rich_world) ME.
Proof. by vm_compute. Qed.
Lemma ether_gas a b v : gas_used (with_balances b chain0) (Tx ME (Some a) v EMPTY) ≤ 30000000.
Proof. by vm_compute. Qed.
Lemma transferEth_spec_witness :
  let '(r, w') := transferEth (Some "bob") (Some "1f") rich_world in
  files w' = files rich_world ∧
  (r = Ok tt ∧ ether_sent ME "bob" (31 * 10 ^ 18) (chain_state rich_world) (chain_state w')).
Proof.
  assert (parse_int (Some 16) "1f" = JInt 31) as Hn by reflexivity.
  pose proof (transferEth_spec ME "bob" "1f" rich_world eq_refl eq_refl eq_refl eq_refl
    rich_balance (ether_gas "bob" _)) as Hspec.
  revert Hspec. destruct (transferEth _ _ _) as [r w']. rewrite Hn. cbv beta iota zeta.
  rewrite decide_True by (apply (bool_decide_unpack _); vm_compute; exact I). exact (λ Hspec, Hspec).
Defined.

(** An account with one wei less than 90 ether is refused its 100 ether. *)
Definition low_world : world (chain Z) :=
  with_chain (with_balances (<[ME := 200 * ETHER]> (<["bob" := 90 * ETHER - 1]> ∅)) chain0) world0.
Lemma low_owner : 0 ≤ balance (chain_state low_world) ME.
Proof. by vm_compute. Qed.
Lemma low_bob : 0 ≤ balance (chain_state low_world) "bob".
Proof. by vm_compute. Qed.
Lemma fund_validator_spec_witness :
  let '(r, w') := fund_validator (VStr "bob") low_world in is_ok r = false ∧ w' = low_world.
Proof.
  pose proof (fund_validator_spec ME "bob" low_world eq_refl eq_refl eq_refl
    low_owner low_bob (ether_gas "bob" _)) as Hspec.
  revert Hspec. destruct (fund_validator _ _) as [r w']. cbv zeta.
  rewrite !decide_False by (apply (bool_decide_unpack _); vm_compute; exact I). exact (λ Hspec, Hspec).
Defined.

Definition spam_signers : list address := [ME; "one"; "two"].
Definition spam_hardhat : Hardhat := {|
  network_name := network_name; fixed_gas := fixed_gas; transaction_failed := transaction_failed;
  signers := spam_signers; getContractFactory := getContractFactory;
  formatBytes32String := formatBytes32String; parseBytes32String := parseBytes32String |}.
(** Ether back and forth, across the end of a batch. *)
Definition spam_ks1 : list Z := [0; 2 ^ 51; 2 ^ 52; 2 ^ 53 - 1].
Definition spam_ks2 : list Z := replicate 15 (2 ^ 51).
Definition spam_run : outcome spam * world (chain Z) :=
  @spamEthereum Z test_evm test_contracts spam_hardhat test_node (Some FACTORY) (spam_ks1 ++ spam_ks2) rich_world.
Definition spam_end : spam := match spam_run.1 with Ok s => s | Throw _ => Spam 0 [] 0 end.
Lemma spamEthereum_rounds_witness :
  length (txSet spam_end) = 30%nat ∧ txSent spam_end = 2 ∧
  ∃ s1 w1 txs,
    @spamEthereum Z test_evm test_contracts spam_hardhat test_node (Some FACTORY) spam_ks1 rich_world = (Ok s1, w1) ∧
    txSent s1 = 4 ∧ txSet spam_end = txSet s1 ++ txs ∧ (length txs ≤ 30)%nat.
Proof.
  split; [by_eval|].
  apply (@spamEthereum_rounds Z test_evm test_contracts spam_hardhat test_node
    FACTORY spam_ks1 spam_ks2 rich_world spam_end spam_run.2).
  vm_compute. reflexivity.
Defined.

(** ** The validator pool *)
Definition pool_world : world (chain Z) :=
  with_chain (with_account POOL (Account (ProxyCode FACTORY) (Slot 0 OLD_LOGIC))
                (with_account OLD_LOGIC (Account (UserCode "pool") empty_slot) chain0)) world0.
Lemma pool_factory : is_factory (chain_state pool_world) FACTORY storage0.
Proof. split; [by eexists|reflexivity]. Qed.
Lemma pool_tasks_ok_witness :
  let done_chain := pool_called ME FACTORY pool_world "salt-ValidatorPool" (Slot 0 OLD_LOGIC) 10 in
  ∃ w', scheduleMaintenance (Some FACTORY) pool_world = (Ok tt, w') ∧
    chain_state w' = done_chain ∧ files w' = files pool_world.
Proof.
  refine (proj1 (pool_tasks_ok ME FACTORY storage0 pool_world "salt-ValidatorPool" (λ _ _, Ok "pool-call")
    (Slot 0 OLD_LOGIC) (Account (UserCode "pool") empty_slot) (owner0 (chain_state pool_world) eq_refl) pool_factory eq_refl
    eq_refl eq_refl eq_refl eq_refl eq_refl "pool-call" (Slot 0 OLD_LOGIC) 1 10 _ eq_refl eq_refl
    eq_refl _) eq_refl); [done|by vm_compute].
Defined.

Lemma registerValidators_ok_witness :
  let registered := registered3 ME FACTORY storage0 world0 "code of deploy-RegisterValidators" 1 1 1 storage0 storage0 in
  ∃ w', registerValidators true (Some FACTORY) ["v1"; "v2"] world0 = (Ok tt, w') ∧
    chain_state w' = registered ∧ files w' = files world0 ∧
    is_factory registered FACTORY (storage2 storage0 storage0 storage0) ∧ ext registered = 1 ∧
    accounts registered = <[registration ME world0 := Account (UserCode "code of deploy-RegisterValidators") empty_slot]>
                            (accounts (chain_state world0)) ∧
    block_number registered = block_number (chain_state world0) + 12.
Proof.
  apply (registerValidators_ok ME FACTORY storage0 world0 ["v1"; "v2"] "salt-ValidatorPool"
    (test_factory "RegisterValidators") "deploy-RegisterValidators" "code of deploy-RegisterValidators"
    "stakeValidators-RegisterValidators" "registerValidators-RegisterValidators" 1 0 0 1 1 1 storage0 storage0);
    try done; [apply chain0_wf|apply factory0].
Defined.

(** ** Configuration files *)
Definition doc_text (v : value) : string := match toml_stringify v with Ok s => s | Throw _ => "" end.
Definition validator_doc : dict value :=
  [("ethereum", VObj [("registryAddress", VStr "0x0"); ("endpoint", VStr "http://localhost")]);
   ("chain", VObj [("id", VNum 42)])].
Definition validators_world : world (chain Z) :=
  World (<[config_path "validator1.toml" := File (doc_text (VObj validator_doc))]>
    (<[path_of "../scripts/generated/config" := Dir]> (<[path_of "../scripts/generated" := Dir]>
      (<[path_of "../scripts" := Dir]> (<[path_of ".." := Dir]> ∅))))) ∅ [] chain0.
Lemma validators_listed :
  readdirSync "../scripts/generated/config" validators_world = (Ok ["validator1.toml"], validators_world).
Proof.
  unfold readdirSync.
  assert (node_at (files validators_world) (path_of "../scripts/generated/config") = Some Dir) as ->
    by (vm_compute; reflexivity).
  assert (omap (entry_of (path_of "../scripts/generated/config")) (map_to_list (files validators_world))
    = ["validator1.toml"]) as -> by (vm_compute; reflexivity).
  reflexivity.
Qed.
Lemma set_mainnet_validator_ok_witness :
  ∃ fs, set_mainnet_validator (Some FACTORY) (Some "../scripts/generated/config") validators_world
    = (Ok tt, with_files fs validators_world) ∧
    (∀ name, name ∈ ["validator1.toml"] → ∃ data out,
       node_at (files validators_world) (config_path name) = Some (File data) ∧
       node_at fs (config_path name) = Some (File out) ∧ points_to FACTORY data out) ∧
    ∀ q, q ∉ map config_path ["validator1.toml"] → node_at fs q = node_at (files validators_world) q.
Proof.
  apply (set_mainnet_validator_ok FACTORY "../scripts/generated/config" ["validator1.toml"]).
  - exact validators_listed.
  - apply NoDup_singleton.
  - intros name ->%list_elem_of_singleton. exists (doc_text (VObj validator_doc)).
    split; [by_eval|]. eexists validator_doc, _. split; [by_eval|reflexivity].
Defined.

Definition token_args : DeploymentArgs := {|
  da_constructor := [(ATOKEN_CONTRACT, [[("legacyToken_", "UNDEFINED")]]); (FOO_FULL, [[("a_", "7")]])];
  da_initializer := [] |}.
Definition legacy_world : world (chain Z) :=
  World (<[path_of "../in/deploymentArgsTemplate" := File (doc_text (deploymentArgs_value token_args))]>
    (<[path_of "../out" := Dir]> (<[path_of "../in" := Dir]> (<[path_of ".." := Dir]> ∅)))) ∅ [] chain0.
Definition token_code : hexdata := "code of deploy-LegacyToken".
Lemma deployLegacyToken_roundtrip_witness :
  let token := legacy_token ME legacy_world in
  let end_chain := legacy2 ME token_code 1 11 legacy_world in
  ∃ w', deployLegacyTokenAndUpdateDeploymentArgs (Some "../in/deploymentArgsTemplate") (Some "../out")
      legacy_world = (Ok tt, w') ∧
    chain_state w' = end_chain ∧
    accounts end_chain = <[token := Account (UserCode token_code) empty_slot]>
                           (accounts (chain_state legacy_world)) ∧
    ∀ k, k ∉ object_prototype →
      getDeploymentConstructorArgs k (Some "../out") w'
        = (Ok (if decide (k = ATOKEN_CONTRACT) then VStr token :: arg_values []
               else default [] (arg_values <$> dget k (da_constructor token_args))), w') ∧
      getDeploymentInitializerArgs k (Some "../out") w'
        = (Ok (arg_values <$> dget k (da_initializer token_args)), w').
Proof.
  assert (wf_args (da_constructor token_args) ∧ wf_args (da_initializer token_args)) as [Hc Hi].
  { split; (split; [apply (bool_decide_unpack _); by vm_compute|]); repeat constructor; eauto. }
  apply (deployLegacyToken_roundtrip ME "../in/deploymentArgsTemplate" "../out"
    (doc_text (deploymentArgs_value token_args)) token_args [("legacyToken_", "UNDEFINED")] []
    (test_factory "LegacyToken") "deploy-LegacyToken" token_code "initialize-LegacyToken" 1 1 1 11 5);
    [by apply owner0|apply chain0_wf|by_eval|by_eval|by_eval
    |eexists; split; [vm_compute; reflexivity|by_eval]
    |exact Hc|exact Hi|by_eval..|by vm_compute|by vm_compute].
Defined.
