(* ===== verification/ScriptWitnesses.v ===== *)
(** * The theorems about the scripts at concrete inputs *)
From S2P Require Import Prelude JsString JsValue Json Toml World Constants Config Artifacts.
From S2P Require Import DeploymentUtil DeploymentList DeployArgs FactoryState Chain ChainLaws Hardhat FactoryTasks.
From S2P Require Import Promises TaskChain StateFile DeployInvariant ImmutableAuth Build BuildSpec Scripts ScriptSpec Testbed Witnesses.
#[local] Open Scope Z_scope.

(** ** ImmutableAuth.sol *)
Definition immutable_world : world (chain Z) :=
  World (<[path_of "contracts/utils" := Dir]> (<[path_of "contracts" := Dir]> ∅)) silent_env [] chain0.
Definition listed : list Contract :=
  [{| ImmutableAuth.name := "Bar"; ImmutableAuth.salt := "salt-Bar" |};
   {| ImmutableAuth.name := "Foo"; ImmutableAuth.salt := "salt-Foo" |}].
Lemma test_artifacts_agree : artifacts_agree getAllFullyQualifiedNames.
Proof.
  assert (∀ p, p ∈ getAllFullyQualifiedNames → p = FOO_FULL ∨ p = "contracts/Bar.sol:Bar") as Hall.
  { intros p [->|[->|Hp%not_elem_of_nil]%elem_of_cons]%elem_of_cons; [by left|by right|done]. }
  split.
  - intros p q [-> | ->]%Hall [-> | ->]%Hall; done.
  - intros p [-> | ->]%Hall; by eexists.
  - intros p n [-> | ->]%Hall [= <-]; by eexists.
Qed.

Lemma generateImmutableAuth_ok_witness :
  let text := (templateImmutableFactory +:+ foldr String.append "" (map templateContract listed))%string in
  generateImmutableAuth None None immutable_world
  = (Ok tt, with_files (<[path_of "contracts/utils/ImmutableAuth.sol" := File text]>
      (files immutable_world)) immutable_world) ∧
  read_addresses text = [("Bar", "salt-Bar"); ("Foo", "salt-Foo")].
Proof.
  apply (generateImmutableAuth_ok None sorted listed immutable_world);
    [apply test_artifacts_agree|by_eval| | |done|by_eval].
  - vm_compute (transformDeploymentList sorted). repeat constructor.
  - repeat constructor; literal_free.
Defined.

(** ** The signature mapping *)
Definition test_dirname : string := "/b/scripts/build".
Definition test_keccak (_ : string) : string :=
  "0xa9059cbb2ab09eb219583f4a59a5d0623ade346d962bcd4e46b11da047c9049b".
Definition test_abi : string := quoted
  "[{'type':'event','name':'E','inputs':[]},{'type':'function','name':'transfer','inputs':[{'name':'to','type':'address'},{'name':'n','type':'uint256'}]}]".
Definition abi_fs : gmap path node :=
  <[path_of "/b/bindings/bindings-artifacts/A.json" := File test_abi]>
  (<[path_of "/b/bindings/bindings-artifacts" := Dir]> (<[path_of "/b/bindings" := Dir]> (<[path_of "/b" := Dir]> ∅))).
Definition build_world : world () := World abi_fs ∅ [] tt.
Definition transfer : abi_function := AbiFunction "transfer" ["address"; "uint256"].
Lemma test_keccak_hash d : is_hash (test_keccak d).
Proof.
  exists "a9059cbb2ab09eb219583f4a59a5d0623ade346d962bcd4e46b11da047c9049b". split_and!; [done|done|].
  apply (bool_decide_unpack _). by vm_compute.
Qed.

(** The event of the ABI is left out. *)
Lemma generateMappingFile_ok_witness :
  ∃ text w', generateMappingFile test_keccak test_dirname build_world = (Ok tt, w') ∧
    node_at (files w') (mapping_path test_dirname) = Some (File text) ∧
    Forall2 (λ entry g, selects test_keccak (signature_text g.2) entry.1 ∧
                        entry.2 = (g.1 +:+ "." +:+ signature_text g.2)%string)
      (read_mapping text) [("A", transfer)] ∧
    ∀ q, q ≠ mapping_path test_dirname → q ∉ ancestors (path_of (mappingDir test_dirname)) →
         node_at (files w') q = node_at (files build_world) q.
Proof.
  apply (generateMappingFile_ok test_keccak test_dirname test_keccak_hash build_world ["A.json"]
    [("A", [None; Some transfer])]).
  - by_eval.
  - by_eval.
  - constructor; [|constructor]. exists test_abi. eexists. split_and!; [by_eval|by_eval|].
    constructor; [by eexists|]. constructor; [|constructor]. split_and!; [done|done|].
    eexists. split; [done|]. by repeat constructor.
  - repeat constructor; literal_free.
  - by_eval.
  - by_eval.
  - by_eval.
Defined.

(** ** The scripts *)
Definition all_world : world (chain Z) :=
  World (<[path_of "../scripts/base-files/deploymentList" := File list_data]> (files list_world))
    silent_env [] chain0.
Definition all_deployed : outcome FactoryData * world (chain Z) := deployFactory_util None all_world.
Definition all_factory : FactoryData :=
  match all_deployed.1 with
  | Ok fd => fd
  | Throw _ => {| fd_address := ""; fd_owner := None; fd_gas := 0 |}
  end.
Lemma deployAllContracts_fails_witness :
  run_main deployAllContracts_main all_world
  = (Throw (Error "unexpected error"),
     with_console (console all_deployed.2 ++ ["TypeError: artifacts.getBuildInfo is not a function"]) all_deployed.2).
Proof.
  apply (deployAllContracts_fails all_world all_deployed.2 all_factory [] FOO_FULL []);
    [by_eval|by_eval|done|right; by_eval].
Defined.

Definition template_world : world (chain Z) :=
  with_files (<[path_of DEPLOYMENT_ARG_PATH := Dir]> (files list_world)) list_world.
Definition sorted_template : DeploymentArgs :=
  match generateDeployArgTemplate (transformDeploymentList sorted) with Ok d => d | Throw _ => foo_args end.
Lemma scripts_template_ok_witness :
  ∃ list args, let w2 := with_args args (with_list list template_world) in
    (_ ← generateDeployList_main; generateDeploymentArgTemplate_main) template_world = (Ok tt, w2) ∧
    getDeploymentList None w2 = (Ok (VArr (map VStr (transformDeploymentList sorted))), w2) ∧
    (∀ c, c ∉ object_prototype →
       getDeploymentConstructorArgs c (Some DEPLOYMENT_ARG_PATH) w2
         = (Ok (default [] (arg_values <$> dget c (da_constructor sorted_template))), w2) ∧
       getDeploymentInitializerArgs c (Some DEPLOYMENT_ARG_PATH) w2
         = (Ok (arg_values <$> dget c (da_initializer sorted_template)), w2)) ∧
    ∀ c, (getDeploymentConstructorArgs c None w2).1 = (getDeploymentConstructorArgs c None template_world).1.
Proof. apply (scripts_template_ok template_world [] sorted sorted_template); by_eval. Defined.

Definition gas_json : string := quoted
  "{'defaultFactoryData':{'gas':5},'templates':[],'staticContracts':[{'gas':7}],'deployCreates':[{'gas':1},{'gas':2}],'proxies':[]}".
Definition gas_value : value := match json_parse gas_json with Ok v => v | Throw _ => VUndef end.
Definition gas_entry (g : Z) : value := VObj [("gas", VNum g)].
Definition gas_world : world () :=
  World (<[path_of "./deployments/testnet/factoryState.json" := File gas_json]> ∅) ∅ [] tt.
Lemma sumGas_prints_total_witness :
  sumGas_main gas_world = (Ok tt, with_console ["15"] gas_world).
Proof.
  apply (sumGas_prints_total gas_world gas_json gas_value (gas_entry 5) 5 [] [gas_entry 7]
    [gas_entry 1; gas_entry 2] [] [] [7] [1; 2] []); try by_eval; repeat constructor.
Defined.

(** ** The whole deployment *)
Definition BAR_FULL : string := "contracts/Bar.sol:Bar".
Definition listing (l : list string) : world (chain Z) :=
  let data := match toml_stringify (VObj [("deploymentList", VArr (map VStr l))]) with
              | Ok s => s | Throw _ => "" end in
  World (<[path_of "../scripts/base-files/deploymentList" := File data]> (files list_world))
    silent_env [] chain0.
Definition fresh_args : TaskArgs := no_args.

Lemma ends_with {A S} (p : outcome A * S) r : p.1 = r → p = (r, p.2).
Proof. destruct p. by intros <-. Qed.
Lemma test_signer owner : head signers = Some owner → eoa owner.
Proof. intros [= <-]. apply me_eoa. Qed.
Lemma factory_hosted0 : hosted FACTORY chain0.
Proof. exists (Account FactoryCode empty_slot). split; [apply lookup_insert_eq|done]. Qed.
Lemma deployable_given : deployable deploy_args (listing [FOO_FULL; BAR_FULL]) FACTORY [FOO_FULL; BAR_FULL].
Proof.
  split; [done|done| |by_eval|by_eval|apply chain0_wf]. intros f [= <-]. apply factory_hosted0.
Qed.
Lemma deployable_fresh : deployable fresh_args (listing [BAR_FULL]) (test_create ME 8) [BAR_FULL].
Proof. split; [done|by_eval|done|by_eval|by_eval|apply chain0_wf]. Qed.

Lemma deployContracts_installs_witness :
  let w := listing [FOO_FULL; BAR_FULL] in
  let w' := (deployContracts deploy_args w).2 in
  evolves (chain_state w) (chain_state w') ∧
  (Ok tt = Ok tt → Forall (λ n, installed FACTORY n (chain_state w')) [FOO_FULL; BAR_FULL]).
Proof.
  apply (deployContracts_installs test_signer deploy_args (listing [FOO_FULL; BAR_FULL]) FACTORY
           [FOO_FULL; BAR_FULL] deployable_given (Ok tt)).
  apply ends_with. by_eval.
Defined.

Lemma immutableAuth_deployed_witness :
  let w' := (deployContracts fresh_args (listing [BAR_FULL])).2 in
  Forall (λ e, contract_at (getMetamorphicContractAddress e.2 (test_create ME 8)) (chain_state w'))
    [(Some "Bar", "salt-Bar")].
Proof.
  apply (immutableAuth_deployed test_signer fresh_args (listing [BAR_FULL]) (test_create ME 8) [BAR_FULL]
           deployable_fresh immutable_world [(Some "Bar", "salt-Bar")]).
  - apply test_artifacts_agree.
  - repeat constructor.
  - repeat constructor. exists "deployStatic". split; [by_eval|by right; left].
  - repeat constructor.
  - apply ends_with. by_eval.
Defined.

(** A deployment that is not silenced: it writes the state file, and leaves the
    deployment list alone. *)
Definition loud : world (chain Z) :=
  World (<[path_of "../scripts/generated" := Dir]> (files (listing [BAR_FULL]))) ∅ [] chain0.
Definition deployed_loud : world (chain Z) := (deployContracts fresh_args loud).2.
Lemma deployContracts_files_witness :
  is_Some (node_at (files deployed_loud) (path_of FACTORY_STATE_PATH)) ∧
  env deployed_loud = ∅ ∧
  node_at (files deployed_loud) (path_of (list_path None)) = node_at (files loud) (path_of (list_path None)).
Proof.
  destruct (deployContracts_files fresh_args loud (deployContracts fresh_args loud).1 deployed_loud)
    as [He Hf]; [apply surjective_pairing|].
  split; [|split; [exact He|]].
  - apply (bool_decide_unpack (is_Some _)). vm_cast_no_check I.
  - apply Hf; [done|]. right. split; apply (bool_decide_unpack (_ ≠ _)); vm_compute; exact I.
Defined.
